(* ===== verification/_CoqProject ===== *)
-Q . S2P
Prelude.v
GoStd.v
Types.v
JsonDiff.v
JsonScan.v
Errors.v
Conditions.v
Samples.v
Regex.v
Validation.v
ValidationSpec.v
K8s.v
Cluster.v
Retry.v
RenderedObject.v
RenderedSpec.v
Requeue.v
JsonCodec.v
JsonText.v
JsonGrammar.v
JsonRoundTrip.v
GoTemplate.v
TemplateTypes.v
DefaultTemplates.v
Validator.v
Templates.v
TemplatesSpec.v
OverridesSpec.v
TemplateData.v
TemplateDataTypes.v
DefaultTemplatesSpec.v
ClusterDeployments.v
ClusterDeploymentsSpec.v
Pause.v
Configuration.v
Deletion.v
DeletionSpec.v
Preservation.v
PreservationSpec.v
Reinstall.v
ReinstallSpec.v
Obliging.v
ReinstallProgress.v
PreservationHub.v
ReinstallHub.v
RequestMachine.v
Reimport.v
ReimportSpec.v
ReinstallRefines.v
Controller.v
Footprint.v
ControllerSpec.v
DeletionHub.v
InstallationHub.v
Startup.v
