(* ===== verification/Prelude.v ===== *)
(** * SiteConfig operator: a verification library

    The operator (Go, under [src/]) turns a ClusterInstance, a custom resource that describes an
    OpenShift cluster, into the manifests that install it: an admission webhook guards the
    resource, the ClusterInstance controller renders templates, dry-runs and applies the result,
    a second controller copies the progress of the installation into the status, and a reinstall
    preserves data, deletes the manifests, restores the data and imports the cluster again. This
    library translates that program and proves what makes its parts correct.

    ** How the parts interact

    All methods of a reconcile share one ClusterInstance through a pointer, and talk to the API
    server. A method is a [Prog]: a function from the shared object and the outside world to a
    result, the new object, the new world and the calls made, in order. An assignment through the
    pointer is [modify_mem]; a patch sends the object and replaces it by the response when it
    succeeds, and leaves the mutated object when it fails. Every call of the program is an
    [ApiCall] (file K8s); a [Server] answers them, and it stands for the API server, the other
    controllers, users and the clock. Theorems quantify over all servers and name the assumptions
    they need ([api_errors_plain], [names_kept]); [cluster] (file Cluster) is one concrete server,
    on which the witnesses and the examples are evaluated. A Go [(value, error)] is a pair or a
    [result]; a nil dereference or an index out of range is [Panic].

    ** Files

    - Prelude: this header, automation, lists, the program monad with its reasoning: [wp] (the
      outcome and the calls), [emits] (every call has a property), [steps] (every call has a
      property together with the calls before it), [keeps] (the object is left alone), [safe]
      (an invariant of the object and a property of the calls).
    - GoStd, JsonScan, JsonCodec, JsonDiff, Regex: what the source uses of Go's library (strings,
      fmt, strconv, sort, encoding/json, regexp) and of the vendored JSON differ. JsonText,
      JsonGrammar, JsonRoundTrip: a grammar of JSON; the scanner accepts its texts and no other, the
      decoder reads them, and what is encoded decodes to the same document.
    - Types: api/v1alpha1/clusterinstance_types.go, _info.go, _utils.go, with the JSON of every
      type. Errors: internal/controller/errors. Conditions: the condition types and
      controller/conditions. Samples: the objects the examples use.
    - Validation, ValidationSpec: api/v1alpha1/clusterinstance_validation.go and _webhook.go.
    - K8s, Cluster, Retry: the calls; controller/retry and the status patches.
    - RenderedObject, RenderedSpec: clusterinstance/rendered_object.go, ownership.go.
      Templates, TemplatesSpec, OverridesSpec: clusterinstance/template_engine.go, helper.go, for
      any template library ([TemplateLib]).
    - GoTemplate, TemplateTypes: the language of Go's text/template (lexer, parser, evaluator, the
      functions the templates call) and a checker for it with its soundness. TemplateData,
      TemplateDataTypes: the data a template is executed on, its type, and the language as an
      instance of [TemplateLib]. DefaultTemplates, DefaultTemplatesSpec: the three sets of
      internal/templates.
      Validator: clusterinstance/validator.go. Pause: clusterinstance/pause.go.
    - Deletion, DeletionSpec: controller/deletion. Preservation, PreservationSpec:
      controller/preservation. Configuration: controller/configuration, configuration_monitor.go.
    - ClusterDeployments, ClusterDeploymentsSpec: controller/clusterdeployment_reconciler.go.
    - Reinstall, ReinstallSpec: reinstall/reinstall.go, helper.go. Reimport, ReimportSpec:
      reinstall/reimport.go. RequestMachine: an abstract specification of a reinstall request, as
      guarded steps on what the status says; ReinstallRefines: both files refine it.
    - Obliging, ReinstallProgress, PreservationHub, ReinstallHub: what a reinstall achieves. Obliging
      has the rules for a server that does what it is asked ([ends], [obliging]); ReinstallProgress
      counts the tasks a request has left, for any preservation with the promises of the record
      [preserving]; PreservationHub shows that the backups, the restores and the cleanup keep these
      promises on the cluster of file Cluster; ReinstallHub puts them together.
    - Requeue, Controller, Footprint, ControllerSpec: controller/clusterinstance_controller.go;
      Footprint is the interface between the controller and the steps it composes. DeletionHub,
      InstallationHub: the deletion and the installation of a ClusterInstance on the cluster of file
      Cluster.
    - Startup: what cmd/main.go does with ConfigMaps before the controllers run.
    A definition keeps the name of the function it translates; a comment in front of it names the
    file and the lines.

    ** What the theorems show

    - The webhook: which changes an update may make in every state of the object, which node
      changes a reinstall may bring, that a reinstall generation is never used again, that
      validation always answers (ValidationSpec).
    - Deletion: an object is deleted only when it is tracked and owned, in descending sync waves;
      the status forgets only what is gone; deletion always returns (DeletionSpec). A ClusterInstance
      that is marked for deletion gives its finalizer up within a bounded number of reconciles
      (DeletionHub).
    - Preservation: only preserved data of the right owner, mode and generation is restored, backups
      have distinct names, what was backed up comes back as it was (PreservationSpec).
    - The default templates: each of them executes without an error on the data of every
      ClusterInstance, which the checker decides once and for all; the objects of a node have its
      name and namespace (DefaultTemplatesSpec).
    - Rendering: the functional behaviour of labels, annotations, pruning and suppression, the order
      of the collections, round trips of the owner label (TemplatesSpec, RenderedSpec); the install
      config overrides decode to the user's document with the network type and the CPU partitioning
      mode set (OverridesSpec).
    - The status: provisioning converges to what the ClusterDeployment says (ClusterDeploymentsSpec).
    - Reinstalls: manifests are deleted only for an allowed, started request whose data is preserved;
      a request is closed once, with its history (ReinstallSpec); on a cluster that does what it is
      asked, and that may lose the preserved objects once the manifests are deleted, a request of
      any preservation mode completes within nine runs, with the preserved data back on the
      cluster (ReinstallHub); the reinstalled cluster is touched
      only when due and only with its own kubeconfig and manifests (ReimportSpec). Every reinstall
      status that is sent is reached by steps of the abstract specification, so that in any
      sequence of runs no step is recorded before the one it depends on and the history stays
      consistent (RequestMachine, ReinstallRefines).
    - The start: when it succeeds this version's templates are installed, or an object of their name
      is there, and the configuration is the one of the operator's ConfigMap (Startup).
    - The composition: whatever the server answers, a whole reconcile deletes only owned objects,
      applies only what a complete dry run has accepted, gives the finalizer up last, and leaves a
      restored object alone (ControllerSpec). On a hub where a new ClusterInstance passes validation
      and its templates render, it is installed within three reconciles and then left alone
      (InstallationHub).
    - Behaviour that the code or the documentation does not intend is stated as a theorem as well:
      [deleting_renders_again], [spec_change_lost], [backup_label_missed], [failed_deletion_completes],
      [ClusterDeployment_error_dropped], [accepted_overrides_fail], [owner_can_be_preset],
      [reinstall_accepts_interface_rename], [apostrophes_not_escaped], [stale_templates_kept].

    ** Bounds and fuel

    The retries have the number of attempts of their policies (30 for status patches, 4 for client-go's
    default). The scanners of JSON and of runes take the length of the text as fuel, and each step
    consumes at least a byte; the parser of templates takes twice the number
    of tokens. Times and durations are integers of nanoseconds, zero being Go's zero
    time. A reinstall request takes at most nine runs, since at most six of its tasks have something to
    record besides its opening and its closing; a deletion at most one run per tracked manifest and one
    for the finalizer; an installation at most three. Everything else is structural recursion or a loop over a list.

    ** What is not modelled

    Logging; waiting between retries, timeouts and the cancellation of contexts; deferred functions
    after a panic. Parameters, with an assumption only where a theorem names it: the YAML of a JSON
    value ([YamlText]) and a YAML document decoded ([YamlDecode]), the YAML of a resource
    ([ResourceYaml]), decoding a spec ([SpecText]), RFC 3339 ([TimeText]), the text of a float
    ([FloatText]; where numbers are read and written again, [FloatLaws] says that the text denotes
    the same float), the order of ranging
    over a map ([MapRange], a permutation). Of text/template the trim markers, comments, [with],
    [define] and the functions that no default template calls are left out: a user's template
    that has them is not parsed by the model. Of a third party's struct only the fields that a
    default template reads are in the data. Left out as glue or generated: flags, certificates and
    the manager's setup (cmd/main.go), the registration of controllers and webhooks, scheme
    registration (groupversion_info.go), zz_generated.deepcopy.go, the mocks. What client-go does
    to make a client of a kubeconfig is two calls ([RESTConfigFromKubeConfig], [NewSpokeClient]).

    ** What is left to prove

    Every component that changes state is translated. The installation, the reinstall and the deletion
    are shown to complete as far as the operator goes; what the hive and the assisted-installer
    controllers make of the manifests is outside of these sources. The library has no decision table
    of the reimport, and no round trip of the typed decoding of a spec, for which [SpecText] is a
    parameter. *)
From Stdlib Require Export ZArith Lia.
From stdpp Require Export base tactics option list gmap strings sorting.
From stdpp Require Import pretty.

Set Default Proof Using "Type".
Set Default Goal Selector "!".

Declare Scope siteconfig_scope.
Delimit Scope siteconfig_scope with sc.
#[global] Open Scope string_scope.
#[global] Open Scope list_scope.

(** ** Automation shared by the components *)

Create HintDb sc discriminated.
Create Rewrite HintDb sc.

(** Case analysis on the first [match] or [if] of the goal or of a hypothesis. *)
Ltac case_goal :=
  match goal with
  | |- context [match ?x with _ => _ end] => destruct x eqn:?
  end.

Ltac case_hyp H :=
  match type of H with
  | context [match ?x with _ => _ end] => destruct x eqn:?
  end.

Tactic Notation "case_hyps" :=
  repeat match goal with
  | H : context [match ?x with _ => _ end] |- _ => destruct x eqn:?; simplify_eq/=
  end.

(** [bool_decide], [&&], [||] and [negb] facts turned into propositions. *)
Ltac bools :=
  repeat match goal with
  | H : (_ && _)%bool = true |- _ => apply andb_prop in H; destruct H
  | H : (_ || _)%bool = false |- _ => apply orb_false_elim in H; destruct H
  | H : negb _ = true |- _ => apply negb_true_iff in H
  | H : negb _ = false |- _ => apply negb_false_iff in H
  | H : bool_decide _ = true |- _ => apply bool_decide_eq_true_1 in H
  | H : bool_decide _ = false |- _ => apply bool_decide_eq_false_1 in H
  end.

(** ** Lists *)

Section lists.
Context {A B : Type}.

(** First index whose element satisfies [f], as the Go [for i, x := range] searches do. *)
Fixpoint index_of (f : A -> bool) (l : list A) : option nat :=
  match l with
  | [] => None
  | x :: l => if f x then Some 0 else S <$> index_of f l
  end.

Lemma index_of_Some f l i :
  index_of f l = Some i ->
  exists x, l !! i = Some x /\ f x = true
    /\ forall j y, (j < i)%nat -> l !! j = Some y -> f y = false.
Proof.
  revert i. induction l as [|a l IH]; intros i H; simpl in H; [done|].
  destruct (f a) eqn:Ha.
  - inv H. exists a. repeat split; [done|]. intros; lia.
  - destruct (index_of f l) as [k|] eqn:Hk; simpl in H; [|done]. inv H.
    destruct (IH k eq_refl) as (x & Hx & Hf & Hmin). exists x.
    repeat split; [done|done|].
    intros [|j] y Hj Hy; simpl in Hy; [congruence|]. eapply Hmin; [|done]. lia.
Qed.

Lemma index_of_None f l : index_of f l = None <-> Forall (fun x => f x = false) l.
Proof.
  induction l as [|a l IH]; simpl; [by split|].
  rewrite Forall_cons. destruct (f a) eqn:Ha; [split; [done|intros [? _]; done]|].
  destruct (index_of f l); simpl; [split; [done|intros [_ H]; by apply IH in H]|].
  split; [intros _; split; [done|by apply IH]|done].
Qed.

Lemma find_Some_iff_existsb (f : A -> bool) l :
  (exists x, List.find f l = Some x) <-> existsb f l = true.
Proof.
  rewrite existsb_exists. split.
  - intros [x Hx]. apply List.find_some in Hx as [??]. eauto.
  - intros (x & Hin & Hf). destruct (List.find f l) as [y|] eqn:E; [eauto|].
    eapply List.find_none in E; [|done]. congruence.
Qed.

Lemma Forall_app_2 (P : A -> Prop) l k : Forall P l -> Forall P k -> Forall P (l ++ k).
Proof. intros. by apply Forall_app. Qed.
Lemma Sorted_impl (R R' : A -> A -> Prop) l :
  (forall a b, R a b -> R' a b) -> Sorted R l -> Sorted R' l.
Proof.
  intros HR. induction 1 as [|x l Hs IH Hhd]; constructor; [done|].
  destruct Hhd; constructor. auto.
Qed.
End lists.

#[export] Hint Resolve Forall_nil_2 Forall_cons_2 Forall_app_2 : sc.

(** ** Strings

    [+:+] concatenates strings, [++] lists. *)

Lemma sapp_nil_l s : "" +:+ s = s.
Proof. done. Qed.

Lemma sapp_cons c a b : String c a +:+ b = String c (a +:+ b).
Proof. done. Qed.

Lemma sapp_nil_r s : s +:+ "" = s.
Proof. induction s as [|c s IH]; [done|]. rewrite sapp_cons. by rewrite IH. Qed.

Lemma sapp_assoc a b c : (a +:+ b) +:+ c = a +:+ (b +:+ c).
Proof. induction a as [|x a IH]; [done|]. rewrite !sapp_cons. by rewrite IH. Qed.

#[export] Hint Rewrite sapp_nil_l sapp_nil_r sapp_assoc sapp_cons : sc.

(** ** A program monad

    A Go method that reads and writes one shared object through a pointer, calls the outside
    world and may panic is a function from the object's memory [S] and the outside world [W] to
    its result, the new memory, the new world and the calls it made, in order. *)

Inductive outcome (A : Type) : Type :=
| Ret (a : A)
| Panic (msg : string).
Arguments Ret {A} a.
Arguments Panic {A} msg.

Record run (S W E A : Type) := mkRun {
  run_out : outcome A;
  run_mem : S;
  run_world : W;
  run_evs : list E
}.
Arguments mkRun {S W E A} _ _ _ _.
Arguments run_out {S W E A} _.
Arguments run_mem {S W E A} _.
Arguments run_world {S W E A} _.
Arguments run_evs {S W E A} _.

Definition Prog (S W E A : Type) : Type := S -> W -> run S W E A.

#[export] Instance Prog_ret {S W E} : MRet (Prog S W E) :=
  fun A a s w => mkRun (Ret a) s w [].

#[export] Instance Prog_bind {S W E} : MBind (Prog S W E) :=
  fun A B f m s w =>
    let r := m s w in
    match run_out r with
    | Ret a =>
        let r' := f a (run_mem r) (run_world r) in
        mkRun (run_out r') (run_mem r') (run_world r') (run_evs r ++ run_evs r')
    | Panic msg => mkRun (Panic msg) (run_mem r) (run_world r) (run_evs r)
    end.

Definition panic {S W E A} (msg : string) : Prog S W E A :=
  fun s w => mkRun (Panic msg) s w [].

(** A pure computation that may panic. *)
Definition of_outcome {S W E A} (o : outcome A) : Prog S W E A :=
  fun s w => mkRun o s w [].

Definition get_mem {S W E} : Prog S W E S := fun s w => mkRun (Ret s) s w [].

Definition modify_mem {S W E} (f : S -> S) : Prog S W E unit :=
  fun s w => mkRun (Ret tt) (f s) w [].

(** [for _, x := range l { body }]: the body ends its iteration with [inl] (the next local
    state) or leaves the whole loop with [inr] (a [return], or a [break] with a value). *)
Fixpoint for_range {S W E A B R} (l : list A) (b : B)
    (body : A -> B -> Prog S W E (B + R)) : Prog S W E (B + R) :=
  match l with
  | [] => mret (inl b)
  | x :: l =>
      r ← body x b;
      match r with
      | inl b' => for_range l b' body
      | inr res => mret (inr res)
      end
  end.

Section wp.
Context {S W E : Type}.

(** Total correctness with the calls made: [Q] holds of the outcome, the final memory, the
    final world and the calls. *)
Definition wp {A} (m : Prog S W E A) (Q : outcome A -> S -> W -> list E -> Prop)
    (s : S) (w : W) : Prop :=
  let r := m s w in Q (run_out r) (run_mem r) (run_world r) (run_evs r).

Lemma wp_bind {A B} (m : Prog S W E A) (f : A -> Prog S W E B) Q s w :
  wp m (fun o s' w' ev =>
    match o with
    | Ret a => wp (f a) (fun o' s'' w'' ev' => Q o' s'' w'' (ev ++ ev')) s' w'
    | Panic msg => Q (Panic msg) s' w' ev
    end) s w ->
  wp (m ≫= f) Q s w.
Proof. unfold wp, mbind, Prog_bind. by destruct (run_out (m s w)). Qed.

Lemma wp_ret {A} (a : A) Q s w : Q (Ret a) s w [] -> wp (mret a : Prog S W E A) Q s w.
Proof. done. Qed.

Lemma wp_outcome {A} (o : outcome A) Q s w : Q o s w [] -> wp (of_outcome o : Prog S W E A) Q s w.
Proof. done. Qed.

Lemma wp_get Q s w : Q (Ret s) s w [] -> wp (get_mem : Prog S W E S) Q s w.
Proof. done. Qed.

Lemma wp_modify (f : S -> S) Q s w :
  Q (Ret tt) (f s) w [] -> wp (modify_mem f : Prog S W E unit) Q s w.
Proof. done. Qed.

Lemma wp_panic {A} msg Q s w : Q (Panic msg) s w [] -> wp (panic msg : Prog S W E A) Q s w.
Proof. done. Qed.

Lemma wp_mono {A} (m : Prog S W E A) (Q Q' : outcome A -> S -> W -> list E -> Prop) s w :
  wp m Q s w -> (forall o s' w' ev, Q o s' w' ev -> Q' o s' w' ev) -> wp m Q' s w.
Proof. unfold wp. eauto. Qed.

Lemma wp_and {A} (m : Prog S W E A) (Q Q' : outcome A -> S -> W -> list E -> Prop) s w :
  wp m Q s w -> wp m Q' s w -> wp m (fun o s' w' ev => Q o s' w' ev /\ Q' o s' w' ev) s w.
Proof. unfold wp. eauto. Qed.

(** Loop rule: [I] is kept from the elements processed so far to the next one, [Q] is what a
    leaving iteration establishes, [P] what a panicking one does. *)
Lemma wp_for {A B R} (l : list A) (b : B) (body : A -> B -> Prog S W E (B + R))
    (I : list A -> B -> S -> W -> list E -> Prop) (Q : R -> S -> W -> list E -> Prop)
    (P : S -> W -> list E -> Prop) s w :
  I [] b s w [] ->
  (forall done x rest b s w ev, l = done ++ x :: rest -> I done b s w ev ->
    wp (body x b) (fun o s' w' ev' =>
      match o with
      | Ret (inl b') => I (done ++ [x]) b' s' w' (ev ++ ev')
      | Ret (inr r) => Q r s' w' (ev ++ ev')
      | Panic _ => P s' w' (ev ++ ev')
      end) s w) ->
  wp (for_range l b body) (fun o s' w' ev =>
    match o with
    | Ret (inl b') => I l b' s' w' ev
    | Ret (inr r) => Q r s' w' ev
    | Panic _ => P s' w' ev
    end) s w.
Proof.
  intros HI Hbody.
  enough (Hgen : forall rest dn b s w ev, l = dn ++ rest -> I dn b s w ev ->
    wp (for_range rest b body) (fun o s' w' ev' =>
      match o with
      | Ret (inl b') => I l b' s' w' (ev ++ ev')
      | Ret (inr r) => Q r s' w' (ev ++ ev')
      | Panic _ => P s' w' (ev ++ ev')
      end) s w) by (by apply (Hgen l [] b s w [])).
  clear HI b s w. induction rest as [|x rest IH]; intros dn b s w ev Hl HI; simpl.
  - apply wp_ret. rewrite app_nil_r in Hl |- *. by subst l.
  - apply wp_bind. eapply wp_mono; [by apply (Hbody dn x rest b s w ev)|].
    intros [[b'|r]|msg] s' w' ev' H; [|by apply wp_ret; rewrite app_nil_r|done].
    eapply wp_mono; [apply (IH (dn ++ [x])); [by rewrite <-app_assoc|exact H]|].
    intros [[b''|r]|msg] s'' w'' ev'' H'; by rewrite app_assoc.
Qed.

(** Every call the program makes satisfies [P], whatever the memory and the world. *)
Definition emits {A} (P : E -> Prop) (m : Prog S W E A) : Prop :=
  forall s w, Forall P (run_evs (m s w)).

Lemma emits_ret {A} P (a : A) : emits P (mret a : Prog S W E A).
Proof. intros s w. constructor. Qed.

Lemma emits_panic {A} P msg : emits P (panic msg : Prog S W E A).
Proof. intros s w. constructor. Qed.

Lemma emits_outcome {A} P (o : outcome A) : emits P (of_outcome o : Prog S W E A).
Proof. intros s w. constructor. Qed.

Lemma emits_get P : emits P (get_mem : Prog S W E S).
Proof. intros s w. constructor. Qed.

Lemma emits_modify P f : emits P (modify_mem f : Prog S W E unit).
Proof. intros s w. constructor. Qed.

Lemma emits_bind {A B} P (m : Prog S W E A) (f : A -> Prog S W E B) :
  emits P m -> (forall a, emits P (f a)) -> emits P (m ≫= f).
Proof.
  intros Hm Hf s w. unfold mbind, Prog_bind. specialize (Hm s w).
  destruct (run_out (m s w)); simpl; [|done]. by apply Forall_app_2, Hf.
Qed.

Lemma emits_for {A B R} P (l : list A) (b : B) (body : A -> B -> Prog S W E (B + R)) :
  (forall x b, x ∈ l -> emits P (body x b)) -> emits P (for_range l b body).
Proof.
  revert b. induction l as [|x l IH]; intros b Hb; simpl; [apply emits_ret|].
  apply emits_bind; [apply Hb; set_solver|].
  intros [b'|r]; [apply IH; set_solver|apply emits_ret].
Qed.

Lemma emits_mono {A} (P Q : E -> Prop) (m : Prog S W E A) :
  emits P m -> (forall e, P e -> Q e) -> emits Q m.
Proof. intros Hm HPQ s w. eapply Forall_impl; [apply Hm|done]. Qed.

Lemma emits_get_bind {A} P (f : S -> Prog S W E A) :
  (forall s w, wp (f s) (fun _ _ _ ev => Forall P ev) s w) -> emits P (get_mem ≫= f).
Proof. intros Hf s w. apply (Hf s w). Qed.

Lemma wp_emits {A} P (m : Prog S W E A) s w :
  emits P m -> wp m (fun _ _ _ ev => Forall P ev) s w.
Proof. intros Hm. apply Hm. Qed.
End wp.

(** Every event of [ev] satisfies [P] together with the events that came before it, [pre] and
    those of [ev]. *)
Fixpoint each_event {E} (P : list E -> E -> Prop) (pre ev : list E) : Prop :=
  match ev with
  | [] => True
  | e :: ev => P pre e /\ each_event P (pre ++ [e]) ev
  end.

Section each_event.
Context {E : Type} (P : list E -> E -> Prop).

Lemma each_event_app pre ev ev' :
  each_event P pre (ev ++ ev') <-> each_event P pre ev /\ each_event P (pre ++ ev) ev'.
Proof.
  revert pre. induction ev as [|e ev IH]; intros pre; simpl.
  - rewrite app_nil_r. tauto.
  - rewrite IH, <-app_assoc. simpl. tauto.
Qed.

Lemma each_event_split pre ev ev1 e ev2 :
  each_event P pre ev -> ev = ev1 ++ e :: ev2 -> P (pre ++ ev1) e.
Proof. intros H ->. apply each_event_app in H as [_ [H _]]. done. Qed.

Lemma each_event_lookup pre ev n e :
  each_event P pre ev -> ev !! n = Some e -> P (pre ++ take n ev) e.
Proof. intros H Hn. eapply each_event_split; [done|]. symmetry. by apply take_drop_middle. Qed.

Lemma each_event_Forall pre ev : Forall (fun e => forall pre, P pre e) ev -> each_event P pre ev.
Proof. intros H. revert pre. induction H; simpl; auto. Qed.
End each_event.

(** [if err := m; err != nil { return h(err) }; k] *)
Definition if_err {S W E X A} (m : Prog S W E (option X)) (h : X -> Prog S W E A)
    (k : Prog S W E A) : Prog S W E A :=
  r ← m;
  match r with
  | Some e => h e
  | None => k
  end.

Lemma emits_if_err {S W E X A} (P : E -> Prop) (m : Prog S W E (option X))
    (h : X -> Prog S W E A) k :
  emits P m -> (forall e, emits P (h e)) -> emits P k -> emits P (if_err m h k).
Proof. intros Hm Hh Hk. apply emits_bind; [done|]. by intros [e|]. Qed.

Lemma wp_if_err {S W E X A} (m : Prog S W E (option X)) (h : X -> Prog S W E A) k Q s w :
  wp m (fun o s' w' ev =>
    match o with
    | Ret (Some e) => wp (h e) (fun o' s'' w'' ev' => Q o' s'' w'' (ev ++ ev')) s' w'
    | Ret None => wp k (fun o' s'' w'' ev' => Q o' s'' w'' (ev ++ ev')) s' w'
    | Panic msg => Q (Panic msg) s' w' ev
    end) s w ->
  wp (if_err m h k) Q s w.
Proof.
  intros H. apply wp_bind. eapply wp_mono; [exact H|]. by intros [[e|]|msg].
Qed.

(** [for _, x := range l { if err := f(x); err != nil { return err } }; return nil] *)
Fixpoint for_errors {S W E X A} (l : list A) (f : A -> Prog S W E (option X)) : Prog S W E (option X) :=
  match l with
  | [] => mret None
  | x :: l => if_err (f x) (fun e => mret (Some e)) (for_errors l f)
  end.

Lemma emits_for_errors {S W E X A} (P : E -> Prop) (l : list A) (f : A -> Prog S W E (option X)) :
  (forall x, x ∈ l -> emits P (f x)) -> emits P (for_errors l f).
Proof.
  intros Hf. induction l as [|x l IH]; simpl; [apply emits_ret|].
  apply emits_if_err; [apply Hf; set_solver|intros e; apply emits_ret|apply IH; set_solver].
Qed.

(** Without an error every element has been through [f], in order. *)
Lemma wp_for_errors {S W E X A} (l : list A) (f : A -> Prog S W E (option X))
    (I : list A -> S -> W -> list E -> Prop) (Q : outcome (option X) -> S -> W -> list E -> Prop) s w :
  I [] s w [] ->
  (forall done x rest s w ev, l = done ++ x :: rest -> I done s w ev ->
    wp (f x) (fun o s' w' ev' =>
      match o with
      | Ret None => I (done ++ [x]) s' w' (ev ++ ev')
      | _ => Q o s' w' (ev ++ ev')
      end) s w) ->
  (forall s w ev, I l s w ev -> Q (Ret None) s w ev) ->
  wp (for_errors l f) Q s w.
Proof.
  intros HI Hf HQ.
  enough (Hgen : forall rest dn s w ev, l = dn ++ rest -> I dn s w ev ->
    wp (for_errors rest f) (fun o s' w' ev' => Q o s' w' (ev ++ ev')) s w) by (by apply (Hgen l [] s w [])).
  clear HI s w. induction rest as [|x rest IH]; intros dn s w ev Hl HI; simpl.
  - apply wp_ret. rewrite app_nil_r in Hl |- *. apply HQ. by subst l.
  - apply wp_if_err. eapply wp_mono; [by apply (Hf dn x rest s w ev)|].
    intros [[e|]|msg] s' w' ev' H; [apply wp_ret; by rewrite app_nil_r| |done].
    eapply wp_mono; [apply (IH (dn ++ [x])); [by rewrite <-app_assoc|exact H]|].
    intros o s'' w'' ev''. by rewrite app_assoc.
Qed.

(** [for _, x := range l { if err := f(x); err != nil { errs = append(errs, err) } }] *)
Fixpoint collect_errors {S W E X A} (l : list A) (f : A -> Prog S W E (option X)) : Prog S W E (list X) :=
  match l with
  | [] => mret []
  | x :: l => e ← f x; es ← collect_errors l f; mret (option_list e ++ es)
  end.

Lemma emits_collect_errors {S W E X A} (P : E -> Prop) (l : list A) (f : A -> Prog S W E (option X)) :
  (forall x, x ∈ l -> emits P (f x)) -> emits P (collect_errors l f).
Proof.
  intros Hf. induction l as [|x l IH]; simpl; [apply emits_ret|].
  apply emits_bind; [apply Hf; set_solver|intros e].
  apply emits_bind; [apply IH; set_solver|intros es; apply emits_ret].
Qed.

(** Nothing is collected when every [f x] succeeds; every element has been through [f]. *)
Lemma wp_collect_errors {S W E X A} (l : list A) (f : A -> Prog S W E (option X))
    (I : list A -> list X -> S -> W -> list E -> Prop) (P : S -> W -> list E -> Prop) s w :
  I [] [] s w [] ->
  (forall done x rest es s w ev, l = done ++ x :: rest -> I done es s w ev ->
    wp (f x) (fun o s' w' ev' =>
      match o with
      | Ret e => I (done ++ [x]) (es ++ option_list e) s' w' (ev ++ ev')
      | Panic _ => P s' w' (ev ++ ev')
      end) s w) ->
  wp (collect_errors l f) (fun o s' w' ev =>
    match o with
    | Ret es => I l es s' w' ev
    | Panic _ => P s' w' ev
    end) s w.
Proof.
  intros HI Hf.
  enough (Hgen : forall rest dn es s w ev, l = dn ++ rest -> I dn es s w ev ->
    wp (collect_errors rest f) (fun o s' w' ev' =>
      match o with
      | Ret es' => I l (es ++ es') s' w' (ev ++ ev')
      | Panic _ => P s' w' (ev ++ ev')
      end) s w) by (by apply (Hgen l [] [] s w [])).
  clear HI s w. induction rest as [|x rest IH]; intros dn es s w ev Hl HI; simpl.
  - apply wp_ret. rewrite app_nil_r in Hl. rewrite !app_nil_r. by subst l.
  - apply wp_bind. eapply wp_mono; [by apply (Hf dn x rest es s w ev)|].
    intros [e|msg] s' w' ev' H; [|done]. apply wp_bind.
    eapply wp_mono; [apply (IH (dn ++ [x])); [by rewrite <-app_assoc|exact H]|].
    intros [es'|msg] s'' w'' ev'' H'; rewrite <-!app_assoc in H'; [|done].
    apply wp_ret. by rewrite app_nil_r.
Qed.

#[export] Hint Resolve emits_outcome : sc.
#[export] Hint Resolve emits_ret emits_panic emits_get emits_modify : sc.

(** One step of an [emits] proof: binds, loops, branches, then the hint database. *)
Ltac emits_step :=
  match goal with
  | |- emits _ (mbind _ _) => apply emits_bind; [|intros ?]
  | |- emits _ (for_range _ _ _) => apply emits_for; intros ???
  | |- emits _ (if_err _ _ _) => apply emits_if_err; [|intros ?|]
  | |- emits _ (collect_errors _ _) => apply emits_collect_errors; intros ??
  | |- emits _ (for_errors _ _) => apply emits_for_errors; intros ??
  | |- emits _ (match ?x with _ => _ end) => destruct x eqn:?
  | |- emits _ (let '(_, _) := ?x in _) => destruct x eqn:?
  | |- emits _ _ => solve [eauto with sc]
  end.
Ltac emits_go := repeat emits_step.

(** Every call of the program satisfies [P] together with the calls before it, whatever came
    before the program. *)
Definition steps {S W E A} (P : list E -> E -> Prop) (m : Prog S W E A) : Prop :=
  forall pre s w, wp m (fun _ _ _ ev => each_event P pre ev) s w.

Section steps.
Context {S W E : Type} (P : list E -> E -> Prop).

Lemma steps_ret {A} (a : A) : steps P (mret a : Prog S W E A).
Proof. by intros pre s w. Qed.

Lemma steps_outcome {A} (o : outcome A) : steps P (of_outcome o : Prog S W E A).
Proof. by intros pre s w. Qed.

Lemma steps_panic {A} msg : steps P (panic msg : Prog S W E A).
Proof. by intros pre s w. Qed.

Lemma steps_get : steps P (get_mem : Prog S W E S).
Proof. by intros pre s w. Qed.

Lemma steps_modify f : steps P (modify_mem f : Prog S W E unit).
Proof. by intros pre s w. Qed.

Lemma steps_bind {A B} (m : Prog S W E A) (f : A -> Prog S W E B) :
  steps P m -> (forall a, steps P (f a)) -> steps P (m ≫= f).
Proof.
  intros Hm Hf pre s w. apply wp_bind. eapply wp_mono; [apply (Hm pre)|].
  intros [a|msg] s' w' ev Hev; [|done]. eapply wp_mono; [apply (Hf a (pre ++ ev))|].
  intros o s'' w'' ev' Hev'. by apply each_event_app.
Qed.

Lemma steps_if_err {X A} (m : Prog S W E (option X)) (h : X -> Prog S W E A) k :
  steps P m -> (forall e, steps P (h e)) -> steps P k -> steps P (if_err m h k).
Proof. intros Hm Hh Hk. apply steps_bind; [done|]. by intros [e|]. Qed.

Lemma steps_for {A B R} (l : list A) (b : B) (body : A -> B -> Prog S W E (B + R)) :
  (forall x b, x ∈ l -> steps P (body x b)) -> steps P (for_range l b body).
Proof.
  revert b. induction l as [|x l IH]; intros b Hb; simpl; [apply steps_ret|].
  apply steps_bind; [apply Hb; set_solver|].
  intros [b'|r]; [apply IH; set_solver|apply steps_ret].
Qed.

Lemma steps_for_errors {X A} (l : list A) (f : A -> Prog S W E (option X)) :
  (forall x, x ∈ l -> steps P (f x)) -> steps P (for_errors l f).
Proof.
  intros Hf. induction l as [|x l IH]; simpl; [apply steps_ret|].
  apply steps_if_err; [apply Hf; set_solver|intros e; apply steps_ret|apply IH; set_solver].
Qed.

Lemma steps_collect_errors {X A} (l : list A) (f : A -> Prog S W E (option X)) :
  (forall x, x ∈ l -> steps P (f x)) -> steps P (collect_errors l f).
Proof.
  intros Hf. induction l as [|x l IH]; simpl; [apply steps_ret|].
  apply steps_bind; [apply Hf; set_solver|intros e].
  apply steps_bind; [apply IH; set_solver|intros es; apply steps_ret].
Qed.

(** Calls whose admissibility does not depend on the past. *)
Lemma steps_emits {A} (Q : E -> Prop) (m : Prog S W E A) :
  emits Q m -> (forall pre e, Q e -> P pre e) -> steps P m.
Proof.
  intros Hm HQ pre s w. apply each_event_Forall. eapply Forall_impl; [apply Hm|]. auto.
Qed.

(** The n-th call of a program. *)
Lemma steps_nth {A} (m : Prog S W E A) s w n e :
  steps P m -> run_evs (m s w) !! n = Some e -> P (take n (run_evs (m s w))) e.
Proof. intros Hm Hn. by apply (each_event_lookup _ _ _ _ _ (Hm [] s w)) in Hn. Qed.
End steps.

#[export] Hint Resolve steps_ret steps_panic steps_outcome steps_get steps_modify : sc.

(** One step of a [steps] proof. *)
Ltac steps_step :=
  match goal with
  | |- steps _ (mbind _ _) => apply steps_bind; [|intros ?]
  | |- steps _ (for_range _ _ _) => apply steps_for; intros ???
  | |- steps _ (if_err _ _ _) => apply steps_if_err; [|intros ?|]
  | |- steps _ (collect_errors _ _) => apply steps_collect_errors; intros ??
  | |- steps _ (for_errors _ _) => apply steps_for_errors; intros ??
  | |- steps _ (match ?x with _ => _ end) => destruct x eqn:?
  | |- steps _ (let '(_, _) := ?x in _) => destruct x eqn:?
  | |- steps _ _ => solve [eauto with sc]
  end.
Ltac steps_go := repeat steps_step.

(** The program leaves the shared object alone. *)
Definition keeps {S W E A} (m : Prog S W E A) : Prop := forall s w, run_mem (m s w) = s.

Section keeps.
Context {S W E : Type}.

Lemma keeps_ret {A} (a : A) : keeps (mret a : Prog S W E A).
Proof. done. Qed.

Lemma keeps_outcome {A} (o : outcome A) : keeps (of_outcome o : Prog S W E A).
Proof. done. Qed.

Lemma keeps_panic {A} msg : keeps (panic msg : Prog S W E A).
Proof. done. Qed.

Lemma keeps_get : keeps (get_mem : Prog S W E S).
Proof. done. Qed.

Lemma keeps_bind {A B} (m : Prog S W E A) (f : A -> Prog S W E B) :
  keeps m -> (forall a, keeps (f a)) -> keeps (m ≫= f).
Proof.
  intros Hm Hf s w. unfold mbind, Prog_bind. specialize (Hm s w).
  destruct (run_out (m s w)) as [a|msg]; simpl; [by rewrite Hf|done].
Qed.

Lemma keeps_if_err {X A} (m : Prog S W E (option X)) (h : X -> Prog S W E A) k :
  keeps m -> (forall e, keeps (h e)) -> keeps k -> keeps (if_err m h k).
Proof. intros Hm Hh Hk. apply keeps_bind; [done|]. by intros [e|]. Qed.

Lemma keeps_for {A B R} (l : list A) (b : B) (body : A -> B -> Prog S W E (B + R)) :
  (forall x b, keeps (body x b)) -> keeps (for_range l b body).
Proof.
  intros Hb. revert b. induction l as [|x l IH]; intros b; simpl; [apply keeps_ret|].
  apply keeps_bind; [done|]. intros [b'|r]; [done|apply keeps_ret].
Qed.

Lemma keeps_for_errors {X A} (l : list A) (f : A -> Prog S W E (option X)) :
  (forall x, keeps (f x)) -> keeps (for_errors l f).
Proof.
  intros Hf. induction l as [|x l IH]; simpl; [apply keeps_ret|].
  apply keeps_if_err; [done|intros e; apply keeps_ret|done].
Qed.

Lemma keeps_collect_errors {X A} (l : list A) (f : A -> Prog S W E (option X)) :
  (forall x, keeps (f x)) -> keeps (collect_errors l f).
Proof.
  intros Hf. induction l as [|x l IH]; simpl; [apply keeps_ret|].
  apply keeps_bind; [done|intros e]. apply keeps_bind; [done|intros es; apply keeps_ret].
Qed.

(** What the program emits and what it leaves, together. *)
Lemma wp_keeps_emits {A} (P : E -> Prop) (m : Prog S W E A) Q s w :
  keeps m -> emits P m -> (forall o w' ev, Forall P ev -> Q o s w' ev) -> wp m Q s w.
Proof. intros Hk He HQ. unfold wp. rewrite Hk. apply HQ, He. Qed.
End keeps.

#[export] Hint Resolve keeps_ret keeps_outcome keeps_panic keeps_get : sc.

(** One step of a [keeps] proof. *)
Ltac keeps_step :=
  match goal with
  | |- keeps (mbind _ _) => apply keeps_bind; [|intros ?]
  | |- keeps (for_range _ _ _) => apply keeps_for; intros ??
  | |- keeps (if_err _ _ _) => apply keeps_if_err; [|intros ?|]
  | |- keeps (collect_errors _ _) => apply keeps_collect_errors; intros ?
  | |- keeps (for_errors _ _) => apply keeps_for_errors; intros ?
  | |- keeps (match ?x with _ => _ end) => destruct x eqn:?
  | |- keeps (let '(_, _) := ?x in _) => destruct x eqn:?
  | |- keeps _ => solve [eauto with sc]
  end.
Ltac keeps_go := repeat keeps_step.

(** The program keeps [I] of the shared object, and every call satisfies [P] together with the
    calls before it, whatever came before the program. *)
Definition safe {S W E A} (I : S -> Prop) (P : list E -> E -> Prop) (m : Prog S W E A) : Prop :=
  forall pre s w, I s -> wp m (fun _ s' _ ev => I s' /\ each_event P pre ev) s w.

Section safe.
Context {S W E : Type} (I : S -> Prop) (P : list E -> E -> Prop).

Lemma safe_ret {A} (a : A) : safe I P (mret a : Prog S W E A).
Proof. by intros pre s w. Qed.

Lemma safe_outcome {A} (o : outcome A) : safe I P (of_outcome o : Prog S W E A).
Proof. by intros pre s w. Qed.

Lemma safe_panic {A} msg : safe I P (panic msg : Prog S W E A).
Proof. by intros pre s w. Qed.

Lemma safe_modify (f : S -> S) : (forall s, I s -> I (f s)) -> safe I P (modify_mem f : Prog S W E unit).
Proof. intros Hf pre s w Hs. split; [by apply Hf|done]. Qed.

Lemma safe_bind {A B} (m : Prog S W E A) (f : A -> Prog S W E B) :
  safe I P m -> (forall a, safe I P (f a)) -> safe I P (m ≫= f).
Proof.
  intros Hm Hf pre s w Hs. apply wp_bind. eapply wp_mono; [by apply (Hm pre)|].
  intros [a|msg] s' w' ev [Hs' Hev]; [|done]. eapply wp_mono; [by apply (Hf a (pre ++ ev))|].
  intros o s'' w'' ev' [Hs'' Hev']. split; [done|]. by apply each_event_app.
Qed.

(** What is read from the shared object satisfies the invariant. *)
Lemma safe_get_bind {A} (f : S -> Prog S W E A) :
  (forall s, I s -> safe I P (f s)) -> safe I P (get_mem ≫= f).
Proof. intros Hf pre s w Hs. apply wp_bind, wp_get. by apply Hf. Qed.

Lemma safe_if_err {X A} (m : Prog S W E (option X)) (h : X -> Prog S W E A) k :
  safe I P m -> (forall e, safe I P (h e)) -> safe I P k -> safe I P (if_err m h k).
Proof. intros Hm Hh Hk. apply safe_bind; [done|]. by intros [e|]. Qed.

Lemma safe_for {A B R} (l : list A) (b : B) (body : A -> B -> Prog S W E (B + R)) :
  (forall x b, x ∈ l -> safe I P (body x b)) -> safe I P (for_range l b body).
Proof.
  revert b. induction l as [|x l IH]; intros b Hb; simpl; [apply safe_ret|].
  apply safe_bind; [apply Hb; set_solver|].
  intros [b'|r]; [apply IH; set_solver|apply safe_ret].
Qed.

Lemma safe_for_errors {X A} (l : list A) (f : A -> Prog S W E (option X)) :
  (forall x, x ∈ l -> safe I P (f x)) -> safe I P (for_errors l f).
Proof.
  intros Hf. induction l as [|x l IH]; simpl; [apply safe_ret|].
  apply safe_if_err; [apply Hf; set_solver|intros e; apply safe_ret|apply IH; set_solver].
Qed.

Lemma safe_collect_errors {X A} (l : list A) (f : A -> Prog S W E (option X)) :
  (forall x, x ∈ l -> safe I P (f x)) -> safe I P (collect_errors l f).
Proof.
  intros Hf. induction l as [|x l IH]; simpl; [apply safe_ret|].
  apply safe_bind; [apply Hf; set_solver|intros e].
  apply safe_bind; [apply IH; set_solver|intros es; apply safe_ret].
Qed.

Lemma safe_keeps {A} (m : Prog S W E A) : keeps m -> steps P m -> safe I P m.
Proof. intros Hk Hm pre s w Hs. unfold wp. rewrite Hk. split; [done|apply Hm]. Qed.
End safe.

(** Calls whose admissibility does not depend on the past, with no invariant. *)
Lemma emits_of_safe {S W E A} (Q : E -> Prop) (m : Prog S W E A) :
  safe (fun _ => True) (fun _ => Q) m -> emits Q m.
Proof.
  intros Hm s w. destruct (Hm [] s w Logic.I) as [_ Hev]. revert Hev. generalize (@nil E).
  induction (run_evs (m s w)) as [|e ev IH]; intros pre; [done|]. intros [He Hev]. constructor; [done|].
  by eapply IH.
Qed.

Lemma safe_of_emits {S W E A} (Q : E -> Prop) (m : Prog S W E A) :
  emits Q m -> safe (fun _ => True) (fun _ => Q) m.
Proof.
  intros Hm pre s w _. split; [done|]. apply each_event_Forall. eapply Forall_impl; [apply Hm|]. auto.
Qed.

#[export] Hint Resolve safe_ret safe_outcome safe_panic safe_modify : sc.

(** One step of a [safe] proof. *)
Ltac safe_step :=
  match goal with
  | |- safe _ _ (mbind _ get_mem) => apply safe_get_bind; intros ??
  | |- safe _ _ (mbind _ _) => apply safe_bind; [|intros ?]
  | |- safe _ _ (for_range _ _ _) => apply safe_for; intros ???
  | |- safe _ _ (if_err _ _ _) => apply safe_if_err; [|intros ?|]
  | |- safe _ _ (collect_errors _ _) => apply safe_collect_errors; intros ??
  | |- safe _ _ (for_errors _ _) => apply safe_for_errors; intros ??
  | |- safe _ _ (match ?x with _ => _ end) => destruct x eqn:?
  | |- safe _ _ (let '(_, _) := ?x in _) => destruct x eqn:?
  | |- safe _ _ _ => solve [eauto with sc]
  end.
Ltac safe_go := repeat safe_step.
