(* ===== verification/GoStd.v ===== *)
(** * The parts of Go's standard library the operator uses

    Strings ([strings], [strconv], [fmt]), error values with their wrapping ([errors]),
    insertion sort ([sort.Slice]) and JSON values ([encoding/json]). Go strings are byte
    strings, as Stdlib's. *)
From Stdlib Require Import Ascii DecimalString DecimalZ DecimalPos.
From S2P Require Import Prelude.

(** ** strings *)

Definition dquote : ascii := "034".
Definition backslash : ascii := "092".

Fixpoint Contains (s sub : string) : bool :=
  String.prefix sub s
  || match s with
     | "" => false
     | String _ s' => Contains s' sub
     end.

(** [strings.Split(s, sep)] for a one-byte separator. *)
Fixpoint Split (s : string) (sep : ascii) : list string :=
  match s with
  | "" => [""]
  | String c s' =>
      if Ascii.eqb c sep then "" :: Split s' sep
      else match Split s' sep with
           | seg :: segs => String c seg :: segs
           | [] => [String c ""]
           end
  end.

Fixpoint Join (l : list string) (sep : string) : string :=
  match l with
  | [] => ""
  | [s] => s
  | s :: l => s +:+ sep +:+ Join l sep
  end.

Definition lower_ascii (c : ascii) : ascii :=
  let n := nat_of_ascii c in
  if (65 <=? n)%nat && (n <=? 90)%nat then ascii_of_nat (n + 32) else c.

(** [strings.ToLower] on ASCII text (the operator lowers Kubernetes kinds only). *)
Fixpoint ToLower (s : string) : string :=
  match s with
  | "" => ""
  | String c s' => String (lower_ascii c) (ToLower s')
  end.

Fixpoint has_byte (c : ascii) (s : string) : bool :=
  match s with
  | "" => false
  | String d s' => Ascii.eqb d c || has_byte c s'
  end.

Fixpoint all_bytes (f : ascii -> bool) (s : string) : bool :=
  match s with
  | "" => true
  | String c s' => f c && all_bytes f s'
  end.

Lemma all_bytes_app f a b : all_bytes f (a +:+ b) = all_bytes f a && all_bytes f b.
Proof. induction a as [|c a IH]; [done|]. rewrite sapp_cons. simpl. by rewrite IH, andb_assoc. Qed.

Definition TrimPrefix (s prefix : string) : string :=
  if String.prefix prefix s then String.substring (String.length prefix) (String.length s) s
  else s.

Definition TrimSuffix (s suffix : string) : string :=
  let n := (String.length s - String.length suffix)%nat in
  if (String.length suffix <=? String.length s)%nat
     && String.eqb (String.substring n (String.length suffix) s) suffix
  then String.substring 0 n s else s.

Lemma Split_not_nil s sep : Split s sep <> [].
Proof.
  destruct s as [|c s]; simpl; [done|]. destruct (Ascii.eqb c sep); [done|].
  by destruct (Split s sep).
Qed.

Lemma Split_no_sep s sep : has_byte sep s = false -> Split s sep = [s].
Proof.
  induction s as [|c s IH]; simpl; [done|]. intros H. bools.
  rewrite H. by rewrite IH.
Qed.

Lemma Split_app s t sep :
  has_byte sep s = false -> Split (s +:+ String sep t) sep = s :: Split t sep.
Proof.
  induction s as [|c s IH]; simpl; intros H.
  - by rewrite Ascii.eqb_refl.
  - bools. rewrite H. by rewrite IH.
Qed.

(** ** strconv *)

Definition is_digit (c : ascii) : bool :=
  let n := nat_of_ascii c in (48 <=? n)%nat && (n <=? 57)%nat.

Definition digit_val (c : ascii) : Z := Z.of_nat (nat_of_ascii c) - 48.

Fixpoint digits_value (acc : Z) (s : string) : option Z :=
  match s with
  | "" => Some acc
  | String c s' => if is_digit c then digits_value (10 * acc + digit_val c) s' else None
  end.

Definition min_int : Z := - 2 ^ 63.
Definition max_int : Z := 2 ^ 63 - 1.

Definition Itoa (z : Z) : string := NilZero.string_of_int (Z.to_int z).

Inductive atoi_error := ErrSyntax | ErrRange.

(** [strconv.Atoi] on a 64-bit platform: an optional sign, decimal digits, in the range of [int]. *)
Definition Atoi (s : string) : Z + atoi_error :=
  let unsigned (neg : bool) (d : string) :=
    match d with
    | "" => inr ErrSyntax
    | _ =>
        match digits_value 0 d with
        | None => inr ErrSyntax
        | Some v =>
            let z := if neg then (- v)%Z else v in
            if (min_int <=? z)%Z && (z <=? max_int)%Z then inl z else inr ErrRange
        end
    end in
  match s with
  | String c d =>
      if Ascii.eqb c "-" then unsigned true d
      else if Ascii.eqb c "+" then unsigned false d
      else unsigned false s
  | "" => inr ErrSyntax
  end.

Definition FormatBool (b : bool) : string := if b then "true" else "false".

Definition ParseBool (s : string) : option bool :=
  if bool_decide (s ∈ ["1"; "t"; "T"; "true"; "TRUE"; "True"]) then Some true
  else if bool_decide (s ∈ ["0"; "f"; "F"; "false"; "FALSE"; "False"]) then Some false
  else None.

Lemma ParseBool_FormatBool b : ParseBool (FormatBool b) = Some b.
Proof. by destruct b. Qed.

Section itoa.
(** Value of a decimal digit string read from an accumulator. *)
Fixpoint uint_value (acc : Z) (d : Decimal.uint) : Z :=
  match d with
  | Decimal.Nil => acc
  | Decimal.D0 d => uint_value (10 * acc) d
  | Decimal.D1 d => uint_value (10 * acc + 1) d
  | Decimal.D2 d => uint_value (10 * acc + 2) d
  | Decimal.D3 d => uint_value (10 * acc + 3) d
  | Decimal.D4 d => uint_value (10 * acc + 4) d
  | Decimal.D5 d => uint_value (10 * acc + 5) d
  | Decimal.D6 d => uint_value (10 * acc + 6) d
  | Decimal.D7 d => uint_value (10 * acc + 7) d
  | Decimal.D8 d => uint_value (10 * acc + 8) d
  | Decimal.D9 d => uint_value (10 * acc + 9) d
  end%Z.

Lemma digits_value_uint d acc :
  digits_value acc (NilEmpty.string_of_uint d) = Some (uint_value acc d).
Proof.
  revert acc. induction d; intros acc; cbn -[digit_val Z.mul Z.add]; rewrite ?IHd; try done;
    f_equal; f_equal;
    match goal with
    | |- context [digit_val ?c] =>
        let v := eval vm_compute in (digit_val c) in change (digit_val c) with v
    end; lia.
Qed.

Lemma uint_value_acc d p : Z.pos (Pos.of_uint_acc d p) = uint_value (Z.pos p) d.
Proof. revert p. induction d; intros p; simpl; rewrite ?IHd; try done; f_equal; lia. Qed.

Lemma uint_value_of_uint d : Z.of_uint d = uint_value 0 d.
Proof.
  unfold Z.of_uint. induction d; simpl; try done; rewrite ?uint_value_acc; done.
Qed.

Lemma string_of_uint_first d :
  d <> Decimal.Nil ->
  exists c s, NilEmpty.string_of_uint d = String c s /\ Ascii.eqb c "-" = false
    /\ Ascii.eqb c "+" = false.
Proof. destruct d; simpl; [done|..]; intros _; eauto. Qed.

Lemma NilZero_uint d :
  d <> Decimal.Nil -> NilZero.string_of_uint d = NilEmpty.string_of_uint d.
Proof. by destruct d. Qed.

Lemma to_int_nonnil z :
  match Z.to_int z with Decimal.Pos d | Decimal.Neg d => d <> Decimal.Nil end.
Proof. destruct z; simpl; [done| |]; apply Unsigned.to_uint_nonnil. Qed.

Lemma Atoi_Itoa z : (min_int <= z <= max_int)%Z -> Atoi (Itoa z) = inl z.
Proof.
  intros Hz. unfold Itoa. pose proof (to_int_nonnil z) as Hn.
  pose proof (DecimalZ.of_to z) as Hv.
  destruct (Z.to_int z) as [d|d]; simpl; rewrite (NilZero_uint _ Hn);
    destruct (string_of_uint_first d Hn) as (c & s & Hs & Hm & Hp);
    pose proof (digits_value_uint d 0) as Hd; rewrite <- uint_value_of_uint in Hd;
    simpl in Hv; rewrite Hs in Hd |- *; simpl in *; rewrite ?Hm, ?Hp, Hd.
  - rewrite Hv. by rewrite !(proj2 (Z.leb_le _ _)) by lia.
  - rewrite Hv. by rewrite !(proj2 (Z.leb_le _ _)) by lia.
Qed.
End itoa.

(** ** Error values and fmt

    An error is the value behind Go's [error] interface; [nil] is [None] at type
    [option error]. *)

Inductive error : Type :=
| ErrorString (msg : string)                          (* errors.New, fmt.Errorf without a %w verb *)
| WrapError (msg : string) (wrapped : list error)     (* fmt.Errorf with one or more %w verbs *)
| ClusterInstanceErr (errType msg : string)           (* internal/controller/errors *)
| StatusErr (reason : string) (code : Z) (msg : string) (* apimachinery's StatusError *)
| ErrnoErr (connRefused : bool) (msg : string)        (* a syscall.Errno *)
| AggregateErr (errs : list error).                   (* apimachinery's aggregate *)

(** A result [(value, error)] of which only one half is meaningful. *)
Inductive result (A : Type) : Type :=
| Ok (a : A)
| Err (e : error).
Arguments Ok {A} a.
Arguments Err {A} e.

Fixpoint dedup (seen l : list string) : list string :=
  match l with
  | [] => []
  | m :: l => if bool_decide (m ∈ seen) then dedup seen l else m :: dedup (m :: seen) l
  end.

(** The text of an error and the texts of the leaves [aggregate.visit] reaches. *)
Fixpoint error_text (e : error) : string * list string :=
  match e with
  | ErrorString m | WrapError m _ | ClusterInstanceErr _ m | StatusErr _ _ m | ErrnoErr _ m =>
      (m, [m])
  | AggregateErr errs =>
      let rs := List.map error_text errs in
      let leaves := List.concat (List.map snd rs) in
      let txt :=
        match rs with
        | [] => ""
        | [r] => r.1
        | _ =>
            match dedup [] leaves with
            | [m] => m
            | ms => "[" +:+ Join ms ", " +:+ "]"
            end
        end in
      (txt, leaves)
  end.

(** [err.Error()] *)
Definition Error (e : error) : string := (error_text e).1.

(** The error chain [errors.As] searches: the error, then what it wraps, depth first. An
    aggregate has no [Unwrap]. *)
Fixpoint chain (e : error) : list error :=
  e :: match e with
       | WrapError _ ws => List.concat (List.map chain ws)
       | _ => []
       end.

(** [errors.As(err, &target)]: the first error of the chain of the wanted type. *)
Definition As (is_target : error -> bool) (e : error) : option error :=
  List.find is_target (chain e).

Inductive farg : Type :=
| FStr (s : string)
| FInt (z : Z)
| FErr (e : error).

Definition farg_text (a : farg) : string :=
  match a with
  | FStr s => s
  | FInt z => Itoa z
  | FErr e => Error e
  end.

Definition quote_hex (n : nat) : ascii := ascii_of_nat (if (n <=? 9)%nat then 48 + n else 87 + n).

(** [strconv.Quote]: quotes and backslashes are escaped, and so are the control characters of
    ASCII. Runes outside of ASCII are kept, as Go keeps the printable ones. *)
Fixpoint quote_bytes (s : string) : string :=
  match s with
  | "" => ""
  | String c s' =>
      let rest := quote_bytes s' in
      let esc (d : ascii) := String backslash (String d rest) in
      let n := nat_of_ascii c in
      if Ascii.eqb c dquote then esc dquote
      else if Ascii.eqb c backslash then esc backslash
      else if Ascii.eqb c "007" then esc "a"%char
      else if Ascii.eqb c "008" then esc "b"%char
      else if Ascii.eqb c "012" then esc "f"%char
      else if Ascii.eqb c "010" then esc "n"%char
      else if Ascii.eqb c "013" then esc "r"%char
      else if Ascii.eqb c "009" then esc "t"%char
      else if Ascii.eqb c "011" then esc "v"%char
      else if (n <? 32)%nat || (n =? 127)%nat then
        String backslash (String "x" (String (quote_hex (n / 16)) (String (quote_hex (n mod 16)) rest)))
      else String c rest
  end.

Definition Quote (s : string) : string :=
  String dquote (quote_bytes s +:+ String dquote "").

(** [fmt.Sprintf] for the verbs the operator uses, with the errors its [%w] verbs wrap. *)
Fixpoint sprintf (f : string) (args : list farg) : string * list error :=
  match f with
  | "" => ("", [])
  | String "%" (String v f') =>
      if Ascii.eqb v "%" then
        let (t, ws) := sprintf f' args in (String "%" t, ws)
      else
        match args with
        | [] => let (t, ws) := sprintf f' [] in ("%!" +:+ String v "(MISSING)" +:+ t, ws)
        | a :: args' =>
            let (t, ws) := sprintf f' args' in
            let txt := if Ascii.eqb v "q" then Quote (farg_text a) else farg_text a in
            let ws' := match a with
                       | FErr e => if Ascii.eqb v "w" then [e] else []
                       | _ => []
                       end in
            (txt +:+ t, ws' ++ ws)
        end
  | String c f' => let (t, ws) := sprintf f' args in (String c t, ws)
  end.

Definition Sprintf (f : string) (args : list farg) : string := (sprintf f args).1.

(** [fmt.Errorf] *)
Definition Errorf (f : string) (args : list farg) : error :=
  match sprintf f args with
  | (m, []) => ErrorString m
  | (m, ws) => WrapError m ws
  end.

Example sprintf_ex :
  Sprintf "%s/%q: %d%%" [FStr "a"; FStr "b"; FInt (-3)]
  = "a/" +:+ String dquote ("b" +:+ String dquote ": -3%").
Proof. reflexivity. Qed.

Lemma chain_self e : e ∈ chain e.
Proof. destruct e; simpl; set_solver. Qed.

Lemma chain_wrap m ws : chain (WrapError m ws) = WrapError m ws :: List.concat (List.map chain ws).
Proof. done. Qed.

(** ** sort.Slice

    Insertion sort, which Go runs on slices of at most twelve elements. For longer ones the
    order of elements neither of which is less than the other is not specified, so no theorem
    says more than "sorted permutation". *)
Section sort.
Context {A : Type} (less : A -> A -> bool).

Fixpoint insert_by (x : A) (l : list A) : list A :=
  match l with
  | [] => [x]
  | y :: l' => if less x y then x :: l else y :: insert_by x l'
  end.

Definition SortSlice (l : list A) : list A := fold_left (fun acc x => insert_by x acc) l [].

Lemma insert_by_perm x l : insert_by x l ≡ₚ x :: l.
Proof.
  induction l as [|y l IH]; simpl; [done|]. destruct (less x y); [done|].
  rewrite IH. apply Permutation_swap.
Qed.

Lemma fold_insert_perm l acc : fold_left (fun acc x => insert_by x acc) l acc ≡ₚ l ++ acc.
Proof.
  revert acc. induction l as [|x l IH]; intros acc; simpl; [done|].
  rewrite IH, insert_by_perm. by rewrite Permutation_middle.
Qed.

Lemma SortSlice_perm l : SortSlice l ≡ₚ l.
Proof. unfold SortSlice. by rewrite fold_insert_perm, app_nil_r. Qed.

Lemma insert_by_sorted x l :
  (forall a b, less a b = true -> less b a = false) ->
  Sorted (fun a b => less b a = false) l ->
  Sorted (fun a b => less b a = false) (insert_by x l).
Proof.
  intros Has. induction l as [|y l IH]; intros Hs; simpl; [by repeat constructor|].
  destruct (less x y) eqn:Hxy.
  - constructor; [done|]. constructor. by apply Has.
  - apply Sorted_inv in Hs as [Hs Hhd]. constructor; [by apply IH|].
    destruct l as [|z l]; simpl; [by constructor|].
    destruct (less x z); constructor; [done|]. by inv Hhd.
Qed.

Lemma SortSlice_sorted l :
  (forall a b, less a b = true -> less b a = false) ->
  Sorted (fun a b => less b a = false) (SortSlice l).
Proof.
  intros Has. unfold SortSlice.
  assert (Hg : forall acc, Sorted (fun a b => less b a = false) acc ->
    Sorted (fun a b => less b a = false) (fold_left (fun acc x => insert_by x acc) l acc)).
  { induction l as [|x l IH]; intros acc Hacc; simpl; [done|]. by apply IH, insert_by_sorted. }
  apply Hg. constructor.
Qed.
End sort.

#[export] Instance SortSlice_Permutation_proper {A} (less : A -> A -> bool) :
  Proper ((≡ₚ) ==> (≡ₚ)) (SortSlice less).
Proof. intros l k Hlk. by rewrite !SortSlice_perm. Qed.

Lemma str_ltb_asym a b : String.ltb a b = true -> String.ltb b a = false.
Proof. unfold String.ltb. rewrite String.compare_antisym. by destruct (b ?= a)%string. Qed.

(** ** JSON values

    What [json.Unmarshal] builds in an [interface{}]: an object is the list of its members in
    ascending key order, each key once, so equal documents are equal terms. A number is kept as
    its literal. *)

Inductive json : Type :=
| JNull
| JBool (b : bool)
| JNum (lit : string)
| JStr (s : string)
| JArr (l : list json)
| JObj (fields : list (string * json)).

#[export] Instance json_eq_dec : EqDecision json.
Proof.
  refine (fix go (x y : json) : Decision (x = y) :=
    match x, y with
    | JNull, JNull => left eq_refl
    | JBool a, JBool b => cast_if (decide (a = b))
    | JNum a, JNum b => cast_if (decide (a = b))
    | JStr a, JStr b => cast_if (decide (a = b))
    | JArr a, JArr b =>
        cast_if ((fix gol (a b : list json) : Decision (a = b) :=
          match a, b with
          | [], [] => left eq_refl
          | x :: a, y :: b => cast_if_and (go x y) (gol a b)
          | _, _ => right _
          end) a b)
    | JObj a, JObj b =>
        cast_if ((fix gol (a b : list (string * json)) : Decision (a = b) :=
          match a, b with
          | [], [] => left eq_refl
          | (k, x) :: a, (k', y) :: b => cast_if_and3 (decide (k = k')) (go x y) (gol a b)
          | _, _ => right _
          end) a b)
    | _, _ => right _
    end); clear go; try clear gol; congruence.
Defined.

(** The members of a Go [map[string]interface{}]. *)
Abbreviation fields := (list (string * json)).

Fixpoint obj_get (k : string) (o : fields) : option json :=
  match o with
  | [] => None
  | (k', v) :: o => if String.eqb k k' then Some v else obj_get k o
  end.

(** [m[k] = v] *)
Fixpoint obj_set (k : string) (v : json) (o : fields) : fields :=
  match o with
  | [] => [(k, v)]
  | (k', v') :: o' =>
      if String.eqb k k' then (k, v) :: o'
      else if String.ltb k k' then (k, v) :: o
      else (k', v') :: obj_set k v o'
  end.

(** The members [Marshal] writes for a struct or a map: [None] stands for an omitted member. *)
Definition obj_of (l : list (string * option json)) : fields :=
  fold_left (fun o kv => match kv.2 with Some v => obj_set kv.1 v o | None => o end) l [].

Definition mk_obj (l : list (string * option json)) : json := JObj (obj_of l).

Lemma obj_get_set k k' v o :
  obj_get k (obj_set k' v o) = if String.eqb k k' then Some v else obj_get k o.
Proof.
  induction o as [|[k1 v1] o IH]; simpl; [by destruct (String.eqb k k')|].
  destruct (String.eqb_spec k' k1) as [<-|Hne]; simpl.
  - by destruct (String.eqb k k').
  - destruct (String.ltb k' k1); simpl.
    + by destruct (String.eqb k k').
    + rewrite IH. destruct (String.eqb_spec k k1), (String.eqb_spec k k'); congruence.
Qed.

Lemma obj_get_set_eq k v o : obj_get k (obj_set k v o) = Some v.
Proof. rewrite obj_get_set. by rewrite String.eqb_refl. Qed.

Lemma obj_set_set k v v' o : obj_set k v (obj_set k v' o) = obj_set k v o.
Proof.
  induction o as [|[k0 v0] o IH]; simpl; [by rewrite String.eqb_refl|].
  destruct (String.eqb k k0) eqn:He; simpl; [by rewrite String.eqb_refl|].
  destruct (String.ltb k k0) eqn:Hl; simpl; [by rewrite String.eqb_refl|]. by rewrite He, Hl, IH.
Qed.

Lemma obj_get_set_ne k k' v o : k <> k' -> obj_get k (obj_set k' v o) = obj_get k o.
Proof. intros Hne. rewrite obj_get_set. by destruct (String.eqb_spec k k'). Qed.


#[export] Hint Rewrite obj_get_set_eq : sc.

(** ** Byte-wise string order *)

Lemma str_ltb_irrefl a : String.ltb a a = false.
Proof. destruct (String.ltb a a) eqn:H; [|done]. by rewrite (str_ltb_asym _ _ H) in H. Qed.

Lemma str_ltb_iff a b : String.ltb a b = true <-> String.leb a b = true /\ a <> b.
Proof.
  unfold String.ltb, String.leb. split.
  - destruct (a ?= b)%string eqn:E; try done. intros _. split; [done|]. intros ->.
    pose proof (String.compare_antisym b b) as Ha. rewrite E in Ha. done.
  - destruct (a ?= b)%string eqn:E; intros [H Hne]; try done.
    by apply String.compare_eq_iff in E.
Qed.

Lemma str_ltb_trans a b c :
  String.ltb a b = true -> String.ltb b c = true -> String.ltb a c = true.
Proof.
  rewrite !str_ltb_iff. intros [H1 N1] [H2 N2].
  assert (H3 : String.le a c).
  { etrans; [by apply Is_true_true|by apply Is_true_true]. }
  split; [by apply Is_true_true|]. intros ->.
  apply N1. by apply String.leb_antisym.
Qed.

Lemma str_ltb_total a b : String.ltb a b = false -> a <> b -> String.ltb b a = true.
Proof.
  intros H Hne. apply str_ltb_iff. split; [|done]. unfold String.ltb, String.leb in *.
  rewrite String.compare_antisym. by destruct (a ?= b)%string.
Qed.

(** ** Canonical documents *)

Fixpoint keys_sorted {A} (o : list (string * A)) : bool :=
  match o with
  | [] => true
  | (k, _) :: o' =>
      match o' with [] => true | (k', _) :: _ => String.ltb k k' end && keys_sorted o'
  end.

(** Every object of the document has its keys in ascending order, each once: the form of a
    decoded document. *)
Fixpoint json_wf (j : json) : bool :=
  match j with
  | JArr l => forallb json_wf l
  | JObj o => keys_sorted o && forallb (fun kv => json_wf kv.2) o
  | _ => true
  end.

Section json_ind.
Variable P : json -> Prop.
Hypothesis Hnull : P JNull.
Hypothesis Hbool : forall b, P (JBool b).
Hypothesis Hnum : forall s, P (JNum s).
Hypothesis Hstr : forall s, P (JStr s).
Hypothesis Harr : forall l, Forall P l -> P (JArr l).
Hypothesis Hobj : forall o, Forall (fun kv => P kv.2) o -> P (JObj o).

Fixpoint json_ind' (j : json) : P j :=
  match j with
  | JNull => Hnull
  | JBool b => Hbool b
  | JNum s => Hnum s
  | JStr s => Hstr s
  | JArr l => Harr l ((fix go l := match l return Forall P l with
                       | [] => @List.Forall_nil _ _
                       | x :: l => @List.Forall_cons _ _ x l (json_ind' x) (go l)
                       end) l)
  | JObj o => Hobj o ((fix go o := match o return Forall (fun kv => P kv.2) o with
                       | [] => @List.Forall_nil _ _
                       | kv :: o => @List.Forall_cons _ _ kv o (json_ind' kv.2) (go o)
                       end) o)
  end.
End json_ind.

Lemma keys_sorted_cons {A} k (v : A) o :
  keys_sorted ((k, v) :: o) = true ->
  keys_sorted o = true /\ Forall (fun kv => String.ltb k kv.1 = true) o.
Proof.
  revert k v. induction o as [|[k1 v1] o IH]; intros k v H; simpl in H; [by split|].
  apply andb_prop in H as [Hlt Hs]. split; [done|].
  destruct (IH k1 v1 Hs) as [_ Hall]. constructor; [done|].
  eapply Forall_impl; [done|]. intros x Hx. by eapply str_ltb_trans.
Qed.

Lemma obj_get_below k o :
  Forall (fun kv : string * json => String.ltb k kv.1 = true) o -> obj_get k o = None.
Proof.
  induction 1 as [|[k' v] o Hlt _ IH]; simpl; [done|].
  destruct (String.eqb_spec k k') as [<-|]; [|done]. simpl in Hlt. by rewrite str_ltb_irrefl in Hlt.
Qed.

Lemma keys_sorted_ext (o1 o2 : fields) :
  keys_sorted o1 = true -> keys_sorted o2 = true ->
  (forall k, obj_get k o1 = obj_get k o2) -> o1 = o2.
Proof.
  revert o2. induction o1 as [|[k1 v1] o1 IH]; intros [|[k2 v2] o2] H1 H2 Hext; [done|..].
  - specialize (Hext k2). simpl in Hext. by rewrite String.eqb_refl in Hext.
  - specialize (Hext k1). simpl in Hext. by rewrite String.eqb_refl in Hext.
  - apply keys_sorted_cons in H1 as [H1 L1]. apply keys_sorted_cons in H2 as [H2 L2].
    assert (Hk : k1 = k2).
    { pose proof (Hext k1) as E1. pose proof (Hext k2) as E2. simpl in E1, E2.
      rewrite String.eqb_refl in E1, E2.
      destruct (String.eqb_spec k1 k2) as [|N]; [done|].
      destruct (String.eqb_spec k2 k1) as [|_]; [done|].
      destruct (String.ltb k1 k2) eqn:Hlt.
      - rewrite (obj_get_below k1 o2) in E1; [done|].
        eapply Forall_impl; [exact L2|]. intros x Hx. by eapply str_ltb_trans.
      - assert (Hgt : String.ltb k2 k1 = true).
        { by apply str_ltb_total. }
        rewrite (obj_get_below k2 o1) in E2; [done|].
        eapply Forall_impl; [exact L1|]. intros x Hx. by eapply str_ltb_trans. }
    subst k2.
    assert (Hv : v1 = v2).
    { specialize (Hext k1). simpl in Hext. rewrite String.eqb_refl in Hext. congruence. }
    subst v2. f_equal. apply IH; [done|done|].
    intros k. specialize (Hext k). simpl in Hext.
    destruct (String.eqb_spec k k1) as [E|]; [|done]. rewrite E.
    by rewrite (obj_get_below k1 o1 L1), (obj_get_below k1 o2 L2).
Qed.

Lemma obj_set_first k v (o : fields) k0 :
  String.ltb k0 k = true -> Forall (fun kv => String.ltb k0 kv.1 = true) o ->
  Forall (fun kv => String.ltb k0 kv.1 = true) (obj_set k v o).
Proof.
  intros Hk. induction 1 as [|[k' v'] o Hlt Ho IH]; simpl; [by repeat constructor|].
  destruct (String.eqb k k'); [by constructor|].
  destruct (String.ltb k k'); repeat constructor; done.
Qed.

Lemma keys_sorted_cons_2 {A} k (v : A) o :
  Forall (fun kv => String.ltb k kv.1 = true) o -> keys_sorted o = true ->
  keys_sorted ((k, v) :: o) = true.
Proof. intros Hall Hs. destruct Hall as [|[k' v'] o Hlt _]; simpl in *; [done|]. by rewrite Hlt. Qed.

Lemma obj_set_sorted k v (o : fields) : keys_sorted o = true -> keys_sorted (obj_set k v o) = true.
Proof.
  induction o as [|[k' v'] o IH]; intros Hs; [done|]. cbn [obj_set].
  destruct (String.eqb_spec k k') as [<-|Hne]; [done|].
  apply keys_sorted_cons in Hs as [Hs Hall].
  destruct (String.ltb k k') eqn:Hlt.
  - apply keys_sorted_cons_2; [|by apply keys_sorted_cons_2]. constructor; [done|].
    eapply Forall_impl; [exact Hall|]. intros x Hx. by eapply str_ltb_trans.
  - apply keys_sorted_cons_2; [|by apply IH]. apply obj_set_first; [|done].
    by apply str_ltb_total.
Qed.

Lemma obj_set_forallb f k v (o : fields) :
  f v = true -> forallb (fun kv => f kv.2) o = true ->
  forallb (fun kv => f kv.2) (obj_set k v o) = true.
Proof.
  intros Hv. induction o as [|[k' v'] o IH]; simpl; [by rewrite Hv|].
  intros H. apply andb_prop in H as [H1 H2].
  destruct (String.eqb k k'); simpl; [by rewrite Hv, H2|].
  destruct (String.ltb k k'); simpl; [by rewrite Hv, H1, H2|]. rewrite H1. by apply IH.
Qed.

Fixpoint ofields_get (k : string) (l : list (string * option json)) : option json :=
  match l with
  | [] => None
  | (k', v) :: l =>
      match ofields_get k l with
      | Some j => Some j
      | None => if String.eqb k k' then v else None
      end
  end.

Lemma mk_obj_of l : mk_obj l = JObj (obj_of l).
Proof. done. Qed.

Lemma obj_of_get l k : obj_get k (obj_of l) = ofields_get k l.
Proof.
  unfold obj_of. enough (Hg : forall o,
    obj_get k (fold_left (fun o kv => match kv.2 with Some v => obj_set kv.1 v o | None => o end) l o)
    = match ofields_get k l with Some j => Some j | None => obj_get k o end).
  { rewrite Hg. by destruct (ofields_get k l). }
  induction l as [|[k' [v|]] l IH]; intros o; simpl; [done|..]; rewrite IH.
  - destruct (ofields_get k l); [done|]. rewrite obj_get_set. by destruct (String.eqb k k').
  - destruct (ofields_get k l); [done|]. by destruct (String.eqb k k').
Qed.

Lemma obj_of_wf l :
  Forall (fun kv : string * option json => match kv.2 with Some v => json_wf v = true | None => True end) l ->
  json_wf (JObj (obj_of l)) = true.
Proof.
  unfold obj_of. enough (Hg : forall o, json_wf (JObj o) = true ->
    Forall (fun kv : string * option json => match kv.2 with Some v => json_wf v = true | None => True end) l ->
    json_wf (JObj (fold_left (fun o kv => match kv.2 with Some v => obj_set kv.1 v o | None => o end) l o)) = true).
  { intros. by apply Hg. }
  induction l as [|[k [v|]] l IH]; intros o Ho Hl; inv Hl; [done|apply IH|by apply IH]; [|done].
  simpl in *. apply andb_prop in Ho as [Hs Hf].
  rewrite obj_set_sorted by done. simpl. by apply obj_set_forallb.
Qed.
