(* ===== verification/Types.v ===== *)
(** * The API types (api/v1alpha1/clusterinstance_types.go)

    The ClusterInstance object as records, with the JSON each [spec] marshals to, and the
    fields of the apimachinery, core and hive types the operator reads. A field whose type a
    third party owns and the operator only carries (root device hints, NMState configuration,
    proxy) is its JSON value. Times are numbers of nanoseconds, 0 for the zero time. A Go map
    that is only looked up and rebuilt is a [gmap]; nil and empty slices or maps are one value
    where the code does not tell them apart. *)
From S2P Require Import Prelude GoStd.

(** ** apimachinery and core *)

Abbreviation Time := Z.

(** [t.IsZero()] *)
Definition IsZero (t : Time) : bool := Z.eqb t 0.

Record Condition := mkCondition {
  Cond_Type : string;
  Cond_Status : string;
  Cond_ObservedGeneration : Z;
  Cond_LastTransitionTime : Time;
  Cond_Reason : string;
  Cond_Message : string
}.

Definition ConditionTrue : string := "True".
Definition ConditionFalse : string := "False".
Definition ConditionUnknown : string := "Unknown".

Abbreviation smap := (gmap string string).

(** The metadata fields the operator uses. *)
Record ObjectMeta := mkObjectMeta {
  Meta_Name : string;
  Meta_Namespace : string;
  Meta_Labels : smap;
  Meta_Annotations : smap;
  Meta_Finalizers : list string;
  Meta_Generation : Z;
  Meta_ResourceVersion : string;
  Meta_DeletionTimestamp : option Time
}.

Record LocalObjectReference := mkLocalObjectReference {
  LOR_Name : string
}.

Record ObjectKey := mkObjectKey {
  Key_Namespace : string;
  Key_Name : string
}.

(** hive's ClusterDeploymentCondition *)
Record ClusterDeploymentCondition := mkCDCondition {
  CDC_Type : string;
  CDC_Status : string;
  CDC_LastProbeTime : Time;
  CDC_LastTransitionTime : Time;
  CDC_Reason : string;
  CDC_Message : string
}.

(** ** The spec *)

(* src: src/api/v1alpha1/clusterinstance_types.go 30-34 MachineNetworkEntry *)
Record MachineNetworkEntry := mkMachineNetworkEntry {
  MNE_CIDR : string
}.

(* src: src/api/v1alpha1/clusterinstance_types.go 38-48 ClusterNetworkEntry *)
Record ClusterNetworkEntry := mkClusterNetworkEntry {
  CNE_CIDR : string;
  CNE_HostPrefix : Z
}.

(* src: src/api/v1alpha1/clusterinstance_types.go 51-55 ServiceNetworkEntry *)
Record ServiceNetworkEntry := mkServiceNetworkEntry {
  SNE_CIDR : string
}.

(* src: src/api/v1alpha1/clusterinstance_types.go 58-63 BmcCredentialsName *)
Record BmcCredentialsName := mkBmcCredentialsName {
  BMC_Name : string
}.

(* src: src/api/v1alpha1/clusterinstance_types.go 80-85 TangConfig *)
Record TangConfig := mkTangConfig {
  Tang_URL : string;
  Tang_Thumbprint : string
}.

(* src: src/api/v1alpha1/clusterinstance_types.go 90-102 DiskEncryption *)
Record DiskEncryption := mkDiskEncryption {
  DE_Type : string;
  DE_Tang : list TangConfig
}.

(* src: src/api/v1alpha1/clusterinstance_types.go 125-135 Reference *)
Record Reference := mkReference {
  Ref_Name : string;
  Ref_Namespace : string
}.

(* src: src/api/v1alpha1/clusterinstance_types.go 146-156 ResourceRef *)
Record ResourceRef := mkResourceRef {
  RR_APIVersion : string;
  RR_Kind : string
}.

(* src: src/api/v1alpha1/clusterinstance_types.go 161-295 NodeSpec *)
Record NodeSpec := mkNodeSpec {
  Node_BmcAddress : string;
  Node_BmcCredentialsName : BmcCredentialsName;
  Node_BootMACAddress : string;
  Node_AutomatedCleaningMode : string;
  Node_RootDeviceHints : option json;
  Node_NodeNetwork : option json;
  Node_NodeLabels : smap;
  Node_HostName : string;
  Node_HostRef : option Reference;
  Node_CPUArchitecture : string;
  Node_BootMode : string;
  Node_InstallerArgs : string;
  Node_IgnitionConfigOverride : string;
  Node_Role : string;
  Node_ExtraAnnotations : gmap string smap;
  Node_ExtraLabels : gmap string smap;
  Node_SuppressedManifests : list string;
  Node_PruneManifests : list ResourceRef;
  Node_IronicInspect : string;
  Node_TemplateRefs : list Reference
}.

(* src: src/api/v1alpha1/clusterinstance_types.go 324-342 ReinstallSpec *)
Record ReinstallSpec := mkReinstallSpec {
  RSpec_Generation : string;
  RSpec_PreservationMode : string
}.

(* src: src/api/v1alpha1/clusterinstance_types.go 346-547 ClusterInstanceSpec *)
Record ClusterInstanceSpec := mkClusterInstanceSpec {
  Spec_ClusterName : string;
  Spec_PullSecretRef : LocalObjectReference;
  Spec_ClusterImageSetNameRef : string;
  Spec_SSHPublicKey : string;
  Spec_BaseDomain : string;
  Spec_ApiVIPs : list string;
  Spec_IngressVIPs : list string;
  Spec_HoldInstallation : bool;
  Spec_AdditionalNTPSources : list string;
  Spec_MachineNetwork : list MachineNetworkEntry;
  Spec_ClusterNetwork : list ClusterNetworkEntry;
  Spec_ServiceNetwork : list ServiceNetworkEntry;
  Spec_NetworkType : string;
  Spec_PlatformType : string;
  Spec_ExtraAnnotations : gmap string smap;
  Spec_ExtraLabels : gmap string smap;
  Spec_InstallConfigOverrides : string;
  Spec_IgnitionConfigOverride : string;
  Spec_DiskEncryption : option DiskEncryption;
  Spec_Proxy : option json;
  Spec_ExtraManifestsRefs : list LocalObjectReference;
  Spec_SuppressedManifests : list string;
  Spec_PruneManifests : list ResourceRef;
  Spec_CPUPartitioning : string;
  Spec_CPUArchitecture : string;
  Spec_ClusterType : string;
  Spec_TemplateRefs : list Reference;
  Spec_CaBundleRef : option LocalObjectReference;
  Spec_Nodes : list NodeSpec;
  Spec_Reinstall : option ReinstallSpec
}.

(* src: src/api/v1alpha1/clusterinstance_types.go 301-301 ClusterTypeSNO *)
Definition ClusterTypeSNO : string := "SNO".
(* src: src/api/v1alpha1/clusterinstance_types.go 302-302 ClusterTypeHighlyAvailable *)
Definition ClusterTypeHighlyAvailable : string := "HighlyAvailable".
(* src: src/api/v1alpha1/clusterinstance_types.go 303-303 ClusterTypeHostedControlPlane *)
Definition ClusterTypeHostedControlPlane : string := "HostedControlPlane".
(* src: src/api/v1alpha1/clusterinstance_types.go 304-304 ClusterTypeHighlyAvailableArbiter *)
Definition ClusterTypeHighlyAvailableArbiter : string := "HighlyAvailableArbiter".

(* src: src/api/v1alpha1/clusterinstance_types.go 312-313 PreservationModeNone *)
Definition PreservationModeNone : string := "None".
(* src: src/api/v1alpha1/clusterinstance_types.go 315-316 PreservationModeAll *)
Definition PreservationModeAll : string := "All".
(* src: src/api/v1alpha1/clusterinstance_types.go 318-320 PreservationModeClusterIdentity *)
Definition PreservationModeClusterIdentity : string := "ClusterIdentity".

(* src: src/api/v1alpha1/clusterinstance_types.go 110-110 CPUPartitioningAllNodes *)
Definition CPUPartitioningAllNodes : string := "AllNodes".

(** ** The status *)

(* src: src/api/v1alpha1/clusterinstance_types.go 550-550 ManifestRenderedSuccess *)
Definition ManifestRenderedSuccess : string := "rendered".
(* src: src/api/v1alpha1/clusterinstance_types.go 551-551 ManifestRenderedFailure *)
Definition ManifestRenderedFailure : string := "failed".
(* src: src/api/v1alpha1/clusterinstance_types.go 552-552 ManifestRenderedValidated *)
Definition ManifestRenderedValidated : string := "validated".
(* src: src/api/v1alpha1/clusterinstance_types.go 553-553 ManifestSuppressed *)
Definition ManifestSuppressed : string := "suppressed".
(* src: src/api/v1alpha1/clusterinstance_types.go 554-554 ManifestDeleted *)
Definition ManifestDeleted : string := "deleted".
(* src: src/api/v1alpha1/clusterinstance_types.go 555-555 ManifestDeletionInProgress *)
Definition ManifestDeletionInProgress : string := "deletion-in-progress".
(* src: src/api/v1alpha1/clusterinstance_types.go 556-556 ManifestDeletionFailure *)
Definition ManifestDeletionFailure : string := "deletion-failed".
(* src: src/api/v1alpha1/clusterinstance_types.go 557-557 ManifestDeletionTimedOut *)
Definition ManifestDeletionTimedOut : string := "deletion-attempt-timed-out".

(* src: src/api/v1alpha1/clusterinstance_types.go 563-597 ManifestReference *)
Record ManifestReference := mkManifestReference {
  MRef_APIGroup : option string;
  MRef_Kind : string;
  MRef_Name : string;
  MRef_Namespace : string;
  MRef_SyncWave : Z;
  MRef_Status : string;
  MRef_LastAppliedTime : Time;
  MRef_Message : string
}.

(* src: src/api/v1alpha1/clusterinstance_types.go 600-619 ReinstallHistory *)
Record ReinstallHistory := mkReinstallHistory {
  RH_Generation : string;
  RH_RequestStartTime : Time;
  RH_RequestEndTime : Time;
  RH_ClusterInstanceSpecDiff : string
}.

(* src: src/api/v1alpha1/clusterinstance_types.go 622-654 ReinstallStatus *)
Record ReinstallStatus := mkReinstallStatus {
  RS_Conditions : list Condition;
  RS_InProgressGeneration : string;
  RS_ObservedGeneration : string;
  RS_RequestStartTime : Time;
  RS_RequestEndTime : Time;
  RS_History : list ReinstallHistory
}.

(* src: src/api/v1alpha1/clusterinstance_types.go 656-670 PausedStatus *)
Record PausedStatus := mkPausedStatus {
  Paused_TimeSet : Time;
  Paused_Reason : string
}.

(* src: src/api/v1alpha1/clusterinstance_types.go 673-703 ClusterInstanceStatus *)
Record ClusterInstanceStatus := mkClusterInstanceStatus {
  Status_Conditions : list Condition;
  Status_ClusterDeploymentRef : option LocalObjectReference;
  Status_DeploymentConditions : list ClusterDeploymentCondition;
  Status_ManifestsRendered : list ManifestReference;
  Status_ObservedGeneration : Z;
  Status_Reinstall : option ReinstallStatus;
  Status_Paused : option PausedStatus
}.

(* src: src/api/v1alpha1/clusterinstance_types.go 719-725 ClusterInstance *)
Record ClusterInstance := mkClusterInstance {
  CI_Meta : ObjectMeta;
  CI_Spec : ClusterInstanceSpec;
  CI_Status : ClusterInstanceStatus
}.
(** ** Decidable equality *)

#[export] Instance Condition_eq_dec : EqDecision Condition.
Proof. solve_decision. Defined.
#[export] Instance ObjectMeta_eq_dec : EqDecision ObjectMeta.
Proof. solve_decision. Defined.
#[export] Instance LocalObjectReference_eq_dec : EqDecision LocalObjectReference.
Proof. solve_decision. Defined.
#[export] Instance ObjectKey_eq_dec : EqDecision ObjectKey.
Proof. solve_decision. Defined.
#[export] Instance ClusterDeploymentCondition_eq_dec : EqDecision ClusterDeploymentCondition.
Proof. solve_decision. Defined.
#[export] Instance MachineNetworkEntry_eq_dec : EqDecision MachineNetworkEntry.
Proof. solve_decision. Defined.
#[export] Instance ClusterNetworkEntry_eq_dec : EqDecision ClusterNetworkEntry.
Proof. solve_decision. Defined.
#[export] Instance ServiceNetworkEntry_eq_dec : EqDecision ServiceNetworkEntry.
Proof. solve_decision. Defined.
#[export] Instance BmcCredentialsName_eq_dec : EqDecision BmcCredentialsName.
Proof. solve_decision. Defined.
#[export] Instance TangConfig_eq_dec : EqDecision TangConfig.
Proof. solve_decision. Defined.
#[export] Instance DiskEncryption_eq_dec : EqDecision DiskEncryption.
Proof. solve_decision. Defined.
#[export] Instance Reference_eq_dec : EqDecision Reference.
Proof. solve_decision. Defined.
#[export] Instance ResourceRef_eq_dec : EqDecision ResourceRef.
Proof. solve_decision. Defined.
#[export] Instance NodeSpec_eq_dec : EqDecision NodeSpec.
Proof. solve_decision. Defined.
#[export] Instance ReinstallSpec_eq_dec : EqDecision ReinstallSpec.
Proof. solve_decision. Defined.
#[export] Instance ClusterInstanceSpec_eq_dec : EqDecision ClusterInstanceSpec.
Proof. solve_decision. Defined.
#[export] Instance ManifestReference_eq_dec : EqDecision ManifestReference.
Proof. solve_decision. Defined.
#[export] Instance ReinstallHistory_eq_dec : EqDecision ReinstallHistory.
Proof. solve_decision. Defined.
#[export] Instance ReinstallStatus_eq_dec : EqDecision ReinstallStatus.
Proof. solve_decision. Defined.
#[export] Instance PausedStatus_eq_dec : EqDecision PausedStatus.
Proof. solve_decision. Defined.
#[export] Instance ClusterInstanceStatus_eq_dec : EqDecision ClusterInstanceStatus.
Proof. solve_decision. Defined.
#[export] Instance ClusterInstance_eq_dec : EqDecision ClusterInstance.
Proof. solve_decision. Defined.

(** ** Field updates

    [r <| field := v |>] is the record [r] with one field assigned, [r <| field ::= f |>] with
    [f] applied to it. *)

Class Setter {R T : Type} (field : R -> T) := set : (T -> T) -> R -> R.
Arguments set {R T} field {_} _ !_ /.

Notation "r <| field := v |>" := (set field (fun _ => v) r)
  (at level 1, left associativity, format "r  <| field  :=  v |>") : stdpp_scope.
Notation "r <| field ::= f |>" := (set field f r)
  (at level 1, left associativity, format "r  <| field  ::=  f |>") : stdpp_scope.

#[export] Instance Cond_Type_set : Setter Cond_Type := fun f r =>
  mkCondition (f (Cond_Type r)) (Cond_Status r) (Cond_ObservedGeneration r)
    (Cond_LastTransitionTime r) (Cond_Reason r) (Cond_Message r).
#[export] Instance Cond_Status_set : Setter Cond_Status := fun f r =>
  mkCondition (Cond_Type r) (f (Cond_Status r)) (Cond_ObservedGeneration r)
    (Cond_LastTransitionTime r) (Cond_Reason r) (Cond_Message r).
#[export] Instance Cond_ObservedGeneration_set : Setter Cond_ObservedGeneration := fun f r =>
  mkCondition (Cond_Type r) (Cond_Status r) (f (Cond_ObservedGeneration r))
    (Cond_LastTransitionTime r) (Cond_Reason r) (Cond_Message r).
#[export] Instance Cond_LastTransitionTime_set : Setter Cond_LastTransitionTime := fun f r =>
  mkCondition (Cond_Type r) (Cond_Status r) (Cond_ObservedGeneration r) (f
    (Cond_LastTransitionTime r)) (Cond_Reason r) (Cond_Message r).
#[export] Instance Cond_Reason_set : Setter Cond_Reason := fun f r =>
  mkCondition (Cond_Type r) (Cond_Status r) (Cond_ObservedGeneration r)
    (Cond_LastTransitionTime r) (f (Cond_Reason r)) (Cond_Message r).
#[export] Instance Cond_Message_set : Setter Cond_Message := fun f r =>
  mkCondition (Cond_Type r) (Cond_Status r) (Cond_ObservedGeneration r)
    (Cond_LastTransitionTime r) (Cond_Reason r) (f (Cond_Message r)).
#[export] Instance Meta_Name_set : Setter Meta_Name := fun f r =>
  mkObjectMeta (f (Meta_Name r)) (Meta_Namespace r) (Meta_Labels r) (Meta_Annotations r)
    (Meta_Finalizers r) (Meta_Generation r) (Meta_ResourceVersion r) (Meta_DeletionTimestamp
    r).
#[export] Instance Meta_Namespace_set : Setter Meta_Namespace := fun f r =>
  mkObjectMeta (Meta_Name r) (f (Meta_Namespace r)) (Meta_Labels r) (Meta_Annotations r)
    (Meta_Finalizers r) (Meta_Generation r) (Meta_ResourceVersion r) (Meta_DeletionTimestamp
    r).
#[export] Instance Meta_Labels_set : Setter Meta_Labels := fun f r =>
  mkObjectMeta (Meta_Name r) (Meta_Namespace r) (f (Meta_Labels r)) (Meta_Annotations r)
    (Meta_Finalizers r) (Meta_Generation r) (Meta_ResourceVersion r) (Meta_DeletionTimestamp
    r).
#[export] Instance Meta_Annotations_set : Setter Meta_Annotations := fun f r =>
  mkObjectMeta (Meta_Name r) (Meta_Namespace r) (Meta_Labels r) (f (Meta_Annotations r))
    (Meta_Finalizers r) (Meta_Generation r) (Meta_ResourceVersion r) (Meta_DeletionTimestamp
    r).
#[export] Instance Meta_Finalizers_set : Setter Meta_Finalizers := fun f r =>
  mkObjectMeta (Meta_Name r) (Meta_Namespace r) (Meta_Labels r) (Meta_Annotations r) (f
    (Meta_Finalizers r)) (Meta_Generation r) (Meta_ResourceVersion r)
    (Meta_DeletionTimestamp r).
#[export] Instance Meta_Generation_set : Setter Meta_Generation := fun f r =>
  mkObjectMeta (Meta_Name r) (Meta_Namespace r) (Meta_Labels r) (Meta_Annotations r)
    (Meta_Finalizers r) (f (Meta_Generation r)) (Meta_ResourceVersion r)
    (Meta_DeletionTimestamp r).
#[export] Instance Meta_ResourceVersion_set : Setter Meta_ResourceVersion := fun f r =>
  mkObjectMeta (Meta_Name r) (Meta_Namespace r) (Meta_Labels r) (Meta_Annotations r)
    (Meta_Finalizers r) (Meta_Generation r) (f (Meta_ResourceVersion r))
    (Meta_DeletionTimestamp r).
#[export] Instance Meta_DeletionTimestamp_set : Setter Meta_DeletionTimestamp := fun f r =>
  mkObjectMeta (Meta_Name r) (Meta_Namespace r) (Meta_Labels r) (Meta_Annotations r)
    (Meta_Finalizers r) (Meta_Generation r) (Meta_ResourceVersion r) (f
    (Meta_DeletionTimestamp r)).
#[export] Instance CDC_Type_set : Setter CDC_Type := fun f r =>
  mkCDCondition (f (CDC_Type r)) (CDC_Status r) (CDC_LastProbeTime r)
    (CDC_LastTransitionTime r) (CDC_Reason r) (CDC_Message r).
#[export] Instance CDC_Status_set : Setter CDC_Status := fun f r =>
  mkCDCondition (CDC_Type r) (f (CDC_Status r)) (CDC_LastProbeTime r)
    (CDC_LastTransitionTime r) (CDC_Reason r) (CDC_Message r).
#[export] Instance CDC_LastProbeTime_set : Setter CDC_LastProbeTime := fun f r =>
  mkCDCondition (CDC_Type r) (CDC_Status r) (f (CDC_LastProbeTime r))
    (CDC_LastTransitionTime r) (CDC_Reason r) (CDC_Message r).
#[export] Instance CDC_LastTransitionTime_set : Setter CDC_LastTransitionTime := fun f r =>
  mkCDCondition (CDC_Type r) (CDC_Status r) (CDC_LastProbeTime r) (f (CDC_LastTransitionTime
    r)) (CDC_Reason r) (CDC_Message r).
#[export] Instance CDC_Reason_set : Setter CDC_Reason := fun f r =>
  mkCDCondition (CDC_Type r) (CDC_Status r) (CDC_LastProbeTime r) (CDC_LastTransitionTime r)
    (f (CDC_Reason r)) (CDC_Message r).
#[export] Instance CDC_Message_set : Setter CDC_Message := fun f r =>
  mkCDCondition (CDC_Type r) (CDC_Status r) (CDC_LastProbeTime r) (CDC_LastTransitionTime r)
    (CDC_Reason r) (f (CDC_Message r)).
#[export] Instance MRef_Status_set : Setter MRef_Status := fun f r =>
  mkManifestReference (MRef_APIGroup r) (MRef_Kind r) (MRef_Name r) (MRef_Namespace r)
    (MRef_SyncWave r) (f (MRef_Status r)) (MRef_LastAppliedTime r) (MRef_Message r).
#[export] Instance MRef_LastAppliedTime_set : Setter MRef_LastAppliedTime := fun f r =>
  mkManifestReference (MRef_APIGroup r) (MRef_Kind r) (MRef_Name r) (MRef_Namespace r)
    (MRef_SyncWave r) (MRef_Status r) (f (MRef_LastAppliedTime r)) (MRef_Message r).
#[export] Instance MRef_Message_set : Setter MRef_Message := fun f r =>
  mkManifestReference (MRef_APIGroup r) (MRef_Kind r) (MRef_Name r) (MRef_Namespace r)
    (MRef_SyncWave r) (MRef_Status r) (MRef_LastAppliedTime r) (f (MRef_Message r)).
#[export] Instance RH_RequestStartTime_set : Setter RH_RequestStartTime := fun f r =>
  mkReinstallHistory (RH_Generation r) (f (RH_RequestStartTime r)) (RH_RequestEndTime r)
    (RH_ClusterInstanceSpecDiff r).
#[export] Instance RH_RequestEndTime_set : Setter RH_RequestEndTime := fun f r =>
  mkReinstallHistory (RH_Generation r) (RH_RequestStartTime r) (f (RH_RequestEndTime r))
    (RH_ClusterInstanceSpecDiff r).
#[export] Instance RS_Conditions_set : Setter RS_Conditions := fun f r =>
  mkReinstallStatus (f (RS_Conditions r)) (RS_InProgressGeneration r) (RS_ObservedGeneration
    r) (RS_RequestStartTime r) (RS_RequestEndTime r) (RS_History r).
#[export] Instance RS_InProgressGeneration_set : Setter RS_InProgressGeneration := fun f r =>
  mkReinstallStatus (RS_Conditions r) (f (RS_InProgressGeneration r)) (RS_ObservedGeneration
    r) (RS_RequestStartTime r) (RS_RequestEndTime r) (RS_History r).
#[export] Instance RS_ObservedGeneration_set : Setter RS_ObservedGeneration := fun f r =>
  mkReinstallStatus (RS_Conditions r) (RS_InProgressGeneration r) (f (RS_ObservedGeneration
    r)) (RS_RequestStartTime r) (RS_RequestEndTime r) (RS_History r).
#[export] Instance RS_RequestStartTime_set : Setter RS_RequestStartTime := fun f r =>
  mkReinstallStatus (RS_Conditions r) (RS_InProgressGeneration r) (RS_ObservedGeneration r)
    (f (RS_RequestStartTime r)) (RS_RequestEndTime r) (RS_History r).
#[export] Instance RS_RequestEndTime_set : Setter RS_RequestEndTime := fun f r =>
  mkReinstallStatus (RS_Conditions r) (RS_InProgressGeneration r) (RS_ObservedGeneration r)
    (RS_RequestStartTime r) (f (RS_RequestEndTime r)) (RS_History r).
#[export] Instance RS_History_set : Setter RS_History := fun f r =>
  mkReinstallStatus (RS_Conditions r) (RS_InProgressGeneration r) (RS_ObservedGeneration r)
    (RS_RequestStartTime r) (RS_RequestEndTime r) (f (RS_History r)).
#[export] Instance Spec_ExtraLabels_set : Setter Spec_ExtraLabels := fun f r =>
  mkClusterInstanceSpec (Spec_ClusterName r) (Spec_PullSecretRef r)
    (Spec_ClusterImageSetNameRef r) (Spec_SSHPublicKey r) (Spec_BaseDomain r) (Spec_ApiVIPs r)
    (Spec_IngressVIPs r) (Spec_HoldInstallation r) (Spec_AdditionalNTPSources r)
    (Spec_MachineNetwork r) (Spec_ClusterNetwork r) (Spec_ServiceNetwork r) (Spec_NetworkType r)
    (Spec_PlatformType r) (Spec_ExtraAnnotations r) (f (Spec_ExtraLabels r))
    (Spec_InstallConfigOverrides r) (Spec_IgnitionConfigOverride r) (Spec_DiskEncryption r)
    (Spec_Proxy r) (Spec_ExtraManifestsRefs r) (Spec_SuppressedManifests r)
    (Spec_PruneManifests r) (Spec_CPUPartitioning r) (Spec_CPUArchitecture r) (Spec_ClusterType r)
    (Spec_TemplateRefs r) (Spec_CaBundleRef r) (Spec_Nodes r) (Spec_Reinstall r).
#[export] Instance Spec_InstallConfigOverrides_set : Setter Spec_InstallConfigOverrides := fun f r =>
  mkClusterInstanceSpec (Spec_ClusterName r) (Spec_PullSecretRef r)
    (Spec_ClusterImageSetNameRef r) (Spec_SSHPublicKey r) (Spec_BaseDomain r) (Spec_ApiVIPs r)
    (Spec_IngressVIPs r) (Spec_HoldInstallation r) (Spec_AdditionalNTPSources r)
    (Spec_MachineNetwork r) (Spec_ClusterNetwork r) (Spec_ServiceNetwork r) (Spec_NetworkType r)
    (Spec_PlatformType r) (Spec_ExtraAnnotations r) (Spec_ExtraLabels r)
    (f (Spec_InstallConfigOverrides r)) (Spec_IgnitionConfigOverride r) (Spec_DiskEncryption r)
    (Spec_Proxy r) (Spec_ExtraManifestsRefs r) (Spec_SuppressedManifests r)
    (Spec_PruneManifests r) (Spec_CPUPartitioning r) (Spec_CPUArchitecture r) (Spec_ClusterType r)
    (Spec_TemplateRefs r) (Spec_CaBundleRef r) (Spec_Nodes r) (Spec_Reinstall r).
#[export] Instance Spec_CPUPartitioning_set : Setter Spec_CPUPartitioning := fun f r =>
  mkClusterInstanceSpec (Spec_ClusterName r) (Spec_PullSecretRef r)
    (Spec_ClusterImageSetNameRef r) (Spec_SSHPublicKey r) (Spec_BaseDomain r) (Spec_ApiVIPs r)
    (Spec_IngressVIPs r) (Spec_HoldInstallation r) (Spec_AdditionalNTPSources r)
    (Spec_MachineNetwork r) (Spec_ClusterNetwork r) (Spec_ServiceNetwork r) (Spec_NetworkType r)
    (Spec_PlatformType r) (Spec_ExtraAnnotations r) (Spec_ExtraLabels r)
    (Spec_InstallConfigOverrides r) (Spec_IgnitionConfigOverride r) (Spec_DiskEncryption r)
    (Spec_Proxy r) (Spec_ExtraManifestsRefs r) (Spec_SuppressedManifests r)
    (Spec_PruneManifests r) (f (Spec_CPUPartitioning r)) (Spec_CPUArchitecture r)
    (Spec_ClusterType r) (Spec_TemplateRefs r) (Spec_CaBundleRef r) (Spec_Nodes r)
    (Spec_Reinstall r).
#[export] Instance Status_Conditions_set : Setter Status_Conditions := fun f r =>
  mkClusterInstanceStatus (f (Status_Conditions r)) (Status_ClusterDeploymentRef r)
    (Status_DeploymentConditions r) (Status_ManifestsRendered r) (Status_ObservedGeneration
    r) (Status_Reinstall r) (Status_Paused r).
#[export] Instance Status_ClusterDeploymentRef_set : Setter Status_ClusterDeploymentRef := fun f r =>
  mkClusterInstanceStatus (Status_Conditions r) (f (Status_ClusterDeploymentRef r))
    (Status_DeploymentConditions r) (Status_ManifestsRendered r) (Status_ObservedGeneration
    r) (Status_Reinstall r) (Status_Paused r).
#[export] Instance Status_DeploymentConditions_set : Setter Status_DeploymentConditions := fun f r =>
  mkClusterInstanceStatus (Status_Conditions r) (Status_ClusterDeploymentRef r) (f
    (Status_DeploymentConditions r)) (Status_ManifestsRendered r) (Status_ObservedGeneration
    r) (Status_Reinstall r) (Status_Paused r).
#[export] Instance Status_ManifestsRendered_set : Setter Status_ManifestsRendered := fun f r =>
  mkClusterInstanceStatus (Status_Conditions r) (Status_ClusterDeploymentRef r)
    (Status_DeploymentConditions r) (f (Status_ManifestsRendered r))
    (Status_ObservedGeneration r) (Status_Reinstall r) (Status_Paused r).
#[export] Instance Status_ObservedGeneration_set : Setter Status_ObservedGeneration := fun f r =>
  mkClusterInstanceStatus (Status_Conditions r) (Status_ClusterDeploymentRef r)
    (Status_DeploymentConditions r) (Status_ManifestsRendered r) (f
    (Status_ObservedGeneration r)) (Status_Reinstall r) (Status_Paused r).
#[export] Instance Status_Reinstall_set : Setter Status_Reinstall := fun f r =>
  mkClusterInstanceStatus (Status_Conditions r) (Status_ClusterDeploymentRef r)
    (Status_DeploymentConditions r) (Status_ManifestsRendered r) (Status_ObservedGeneration
    r) (f (Status_Reinstall r)) (Status_Paused r).
#[export] Instance Status_Paused_set : Setter Status_Paused := fun f r =>
  mkClusterInstanceStatus (Status_Conditions r) (Status_ClusterDeploymentRef r)
    (Status_DeploymentConditions r) (Status_ManifestsRendered r) (Status_ObservedGeneration
    r) (Status_Reinstall r) (f (Status_Paused r)).
#[export] Instance CI_Meta_set : Setter CI_Meta := fun f r =>
  mkClusterInstance (f (CI_Meta r)) (CI_Spec r) (CI_Status r).
#[export] Instance CI_Spec_set : Setter CI_Spec := fun f r =>
  mkClusterInstance (CI_Meta r) (f (CI_Spec r)) (CI_Status r).
#[export] Instance CI_Status_set : Setter CI_Status := fun f r =>
  mkClusterInstance (CI_Meta r) (CI_Spec r) (f (CI_Status r)).

(** ** JSON of the spec

    What [json.Marshal] writes, by the fields' tags: [omit_*] for [omitempty]. *)

Definition omit_str (s : string) : option json := if String.eqb s "" then None else Some (JStr s).
Definition omit_bool (b : bool) : option json := if b then Some (JBool true) else None.
Definition omit_int (z : Z) : option json := if Z.eqb z 0 then None else Some (JNum (Itoa z)).
Definition omit_list {A} (f : A -> json) (l : list A) : option json :=
  match l with [] => None | _ => Some (JArr (List.map f l)) end.
Definition omit_map {A} (f : A -> json) (m : gmap string A) : option json :=
  match map_to_list m with
  | [] => None
  | l => Some (mk_obj (List.map (fun kv => (kv.1, Some (f kv.2))) l))
  end.
Definition omit_ptr {A} (f : A -> json) (o : option A) : option json := f <$> o.
Definition marshal_smap (m : smap) : json :=
  mk_obj (List.map (fun kv => (kv.1, Some (JStr kv.2))) (map_to_list m)).

Definition marshal_Reference (r : Reference) : json :=
  mk_obj [("name", Some (JStr (Ref_Name r))); ("namespace", Some (JStr (Ref_Namespace r)))].

Definition marshal_ResourceRef (r : ResourceRef) : json :=
  mk_obj [("apiVersion", Some (JStr (RR_APIVersion r))); ("kind", Some (JStr (RR_Kind r)))].

Definition marshal_LocalObjectReference (r : LocalObjectReference) : json :=
  mk_obj [("name", omit_str (LOR_Name r))].

Definition marshal_TangConfig (t : TangConfig) : json :=
  mk_obj [("url", omit_str (Tang_URL t)); ("thumbprint", omit_str (Tang_Thumbprint t))].

Definition marshal_DiskEncryption (d : DiskEncryption) : json :=
  mk_obj [("type", omit_str (DE_Type d)); ("tang", omit_list marshal_TangConfig (DE_Tang d))].

Definition marshal_MachineNetworkEntry (e : MachineNetworkEntry) : json :=
  mk_obj [("cidr", Some (JStr (MNE_CIDR e)))].

Definition marshal_ClusterNetworkEntry (e : ClusterNetworkEntry) : json :=
  mk_obj [("cidr", Some (JStr (CNE_CIDR e))); ("hostPrefix", omit_int (CNE_HostPrefix e))].

Definition marshal_ServiceNetworkEntry (e : ServiceNetworkEntry) : json :=
  mk_obj [("cidr", Some (JStr (SNE_CIDR e)))].

Definition node_fields (n : NodeSpec) : list (string * option json) := [
  ("bmcAddress", Some (JStr (Node_BmcAddress n)));
  ("bmcCredentialsName",
    Some (mk_obj [("name", Some (JStr (BMC_Name (Node_BmcCredentialsName n))))]));
  ("bootMACAddress", Some (JStr (Node_BootMACAddress n)));
  ("automatedCleaningMode", omit_str (Node_AutomatedCleaningMode n));
  ("rootDeviceHints", Node_RootDeviceHints n);
  ("nodeNetwork", Node_NodeNetwork n);
  ("nodeLabels", omit_map JStr (Node_NodeLabels n));
  ("hostName", Some (JStr (Node_HostName n)));
  ("hostRef", omit_ptr marshal_Reference (Node_HostRef n));
  ("cpuArchitecture", omit_str (Node_CPUArchitecture n));
  ("bootMode", omit_str (Node_BootMode n));
  ("installerArgs", omit_str (Node_InstallerArgs n));
  ("ignitionConfigOverride", omit_str (Node_IgnitionConfigOverride n));
  ("role", omit_str (Node_Role n));
  ("extraAnnotations", omit_map marshal_smap (Node_ExtraAnnotations n));
  ("extraLabels", omit_map marshal_smap (Node_ExtraLabels n));
  ("suppressedManifests", omit_list JStr (Node_SuppressedManifests n));
  ("pruneManifests", omit_list marshal_ResourceRef (Node_PruneManifests n));
  ("ironicInspect", omit_str (Node_IronicInspect n));
  ("templateRefs", Some (JArr (List.map marshal_Reference (Node_TemplateRefs n))))
].

(** [json.Marshal(node)] *)
Definition marshal_NodeSpec (n : NodeSpec) : json := mk_obj (node_fields n).

Definition marshal_ReinstallSpec (r : ReinstallSpec) : json :=
  mk_obj [("generation", Some (JStr (RSpec_Generation r)));
          ("preservationMode", Some (JStr (RSpec_PreservationMode r)))].

Definition spec_fields (s : ClusterInstanceSpec) : list (string * option json) := [
  ("clusterName", Some (JStr (Spec_ClusterName s)));
  ("pullSecretRef", Some (marshal_LocalObjectReference (Spec_PullSecretRef s)));
  ("clusterImageSetNameRef", Some (JStr (Spec_ClusterImageSetNameRef s)));
  ("sshPublicKey", omit_str (Spec_SSHPublicKey s));
  ("baseDomain", Some (JStr (Spec_BaseDomain s)));
  ("apiVIPs", omit_list JStr (Spec_ApiVIPs s));
  ("ingressVIPs", omit_list JStr (Spec_IngressVIPs s));
  ("holdInstallation", omit_bool (Spec_HoldInstallation s));
  ("additionalNTPSources", omit_list JStr (Spec_AdditionalNTPSources s));
  ("machineNetwork", omit_list marshal_MachineNetworkEntry (Spec_MachineNetwork s));
  ("clusterNetwork", omit_list marshal_ClusterNetworkEntry (Spec_ClusterNetwork s));
  ("serviceNetwork", omit_list marshal_ServiceNetworkEntry (Spec_ServiceNetwork s));
  ("networkType", omit_str (Spec_NetworkType s));
  ("platformType", omit_str (Spec_PlatformType s));
  ("extraAnnotations", omit_map marshal_smap (Spec_ExtraAnnotations s));
  ("extraLabels", omit_map marshal_smap (Spec_ExtraLabels s));
  ("installConfigOverrides", omit_str (Spec_InstallConfigOverrides s));
  ("ignitionConfigOverride", omit_str (Spec_IgnitionConfigOverride s));
  ("diskEncryption", omit_ptr marshal_DiskEncryption (Spec_DiskEncryption s));
  ("proxy", Spec_Proxy s);
  ("extraManifestsRefs", omit_list marshal_LocalObjectReference (Spec_ExtraManifestsRefs s));
  ("suppressedManifests", omit_list JStr (Spec_SuppressedManifests s));
  ("pruneManifests", omit_list marshal_ResourceRef (Spec_PruneManifests s));
  ("cpuPartitioningMode", omit_str (Spec_CPUPartitioning s));
  ("cpuArchitecture", omit_str (Spec_CPUArchitecture s));
  ("clusterType", omit_str (Spec_ClusterType s));
  ("templateRefs", Some (JArr (List.map marshal_Reference (Spec_TemplateRefs s))));
  ("caBundleRef", omit_ptr marshal_LocalObjectReference (Spec_CaBundleRef s));
  ("nodes", Some (JArr (List.map marshal_NodeSpec (Spec_Nodes s))));
  ("reinstall", omit_ptr marshal_ReinstallSpec (Spec_Reinstall s))
].

(** [json.Marshal(clusterInstance.Spec)] *)
Definition marshal_Spec (s : ClusterInstanceSpec) : json := mk_obj (spec_fields s).

(** ** Lookups and identities (clusterinstance_info.go, clusterinstance_utils.go) *)

Definition Group : string := "siteconfig.open-cluster-management.io".
Definition Version : string := "v1alpha1".
Definition ClusterInstanceKind : string := "ClusterInstance".

(* src: src/api/v1alpha1/clusterinstance_info.go 20-23 PreservationLabelKey *)
Definition PreservationLabelKey : string := Group +:+ "/preserve".
Definition ClusterIdentityLabelValue : string := "cluster-identity".

(* src: src/api/v1alpha1/clusterinstance_info.go 26-26 PausedAnnotation *)
Definition PausedAnnotation : string := "clusterinstance." +:+ Group +:+ "/paused".

(* src: src/api/v1alpha1/clusterinstance_info.go 28-28 LastClusterInstanceSpecAnnotation *)
Definition LastClusterInstanceSpecAnnotation : string :=
  "clusterinstance." +:+ Group +:+ "/last-observed-spec".

(* src: src/api/v1alpha1/clusterinstance_utils.go 27-30 ClusterInstanceSpec.ExtraAnnotationSearch *)
Definition Spec_ExtraAnnotationSearch (c : ClusterInstanceSpec) (kind : string) : option smap :=
  Spec_ExtraAnnotations c !! kind.

(* src: src/api/v1alpha1/clusterinstance_utils.go 33-39 NodeSpec.ExtraAnnotationSearch *)
Definition Node_ExtraAnnotationSearch (node : NodeSpec) (kind : string)
    (cluster : ClusterInstanceSpec) : option smap :=
  match Node_ExtraAnnotations node !! kind with
  | Some annotations => Some annotations
  | None => Spec_ExtraAnnotationSearch cluster kind
  end.

(* src: src/api/v1alpha1/clusterinstance_utils.go 42-45 ClusterInstanceSpec.ExtraLabelSearch *)
Definition Spec_ExtraLabelSearch (c : ClusterInstanceSpec) (kind : string) : option smap :=
  Spec_ExtraLabels c !! kind.

(* src: src/api/v1alpha1/clusterinstance_utils.go 48-54 NodeSpec.ExtraLabelSearch *)
Definition Node_ExtraLabelSearch (node : NodeSpec) (kind : string)
    (cluster : ClusterInstanceSpec) : option smap :=
  match Node_ExtraLabels node !! kind with
  | Some labels => Some labels
  | None => Spec_ExtraLabelSearch cluster kind
  end.

(* src: src/api/v1alpha1/clusterinstance_utils.go 58-72 ManifestReference.MatchesIdentity *)
Definition ManifestReference_MatchesIdentity (m other : ManifestReference) : bool :=
  let APIGroupMatches :=
    match MRef_APIGroup m, MRef_APIGroup other with
    | None, None => true
    | Some a, Some b => String.eqb a b
    | _, _ => false
    end in
  APIGroupMatches && String.eqb (MRef_Kind m) (MRef_Kind other)
  && String.eqb (MRef_Name m) (MRef_Name other)
  && String.eqb (MRef_Namespace m) (MRef_Namespace other).

(** [now] is what [metav1.Now()] returns. *)
(* src: src/api/v1alpha1/clusterinstance_utils.go 74-80 ManifestReference.UpdateStatus *)
Definition ManifestReference_UpdateStatus (now : Time) (status message : string)
    (m : ManifestReference) : ManifestReference :=
  if negb (String.eqb (MRef_Status m) status) || negb (String.eqb (MRef_Message m) message)
  then m <| MRef_Status := status |> <| MRef_Message := message |> <| MRef_LastAppliedTime := now |>
  else m.

(* src: src/api/v1alpha1/clusterinstance_utils.go 83-96 ManifestReference.String *)
Definition ManifestReference_String (m : ManifestReference) : string :=
  let apiGroup :=
    match MRef_APIGroup m with
    | Some g => if String.eqb g "" then "" else Sprintf ".%s" [FStr g]
    | None => ""
    end in
  if negb (String.eqb (MRef_Namespace m) "") then
    Sprintf "%s%s/namespaces/%s/%s"
      [FStr (ToLower (MRef_Kind m)); FStr apiGroup; FStr (MRef_Namespace m); FStr (MRef_Name m)]
  else Sprintf "%s%s/%s" [FStr (ToLower (MRef_Kind m)); FStr apiGroup; FStr (MRef_Name m)].

(* src: src/api/v1alpha1/clusterinstance_utils.go 100-107 IndexOfManifestByIdentity *)
Definition IndexOfManifestByIdentity (target : ManifestReference)
    (manifestRefs : list ManifestReference) : result nat :=
  match index_of (fun ref => ManifestReference_MatchesIdentity ref target) manifestRefs with
  | Some i => Ok i
  | None => Err (Errorf "manifestReference (%s) not found" [FStr (ManifestReference_String target)])
  end.

(* src: src/api/v1alpha1/clusterinstance_utils.go 110-117 ClusterInstance.IsPaused *)
Definition ClusterInstance_IsPaused (ci : ClusterInstance) : bool :=
  bool_decide (is_Some (Meta_Annotations (CI_Meta ci) !! PausedAnnotation)).

(** ** Lemmas *)

(** The identity of a manifest: what [MatchesIdentity] compares. *)
Definition MRef_identity (m : ManifestReference) : option string * string * string * string :=
  (MRef_APIGroup m, MRef_Kind m, MRef_Name m, MRef_Namespace m).

Lemma MatchesIdentity_spec m o :
  ManifestReference_MatchesIdentity m o = true <-> MRef_identity m = MRef_identity o.
Proof.
  unfold ManifestReference_MatchesIdentity, MRef_identity.
  destruct m as [g k n ns ????], o as [g' k' n' ns' ????]; cbn.
  rewrite !andb_true_iff, !String.eqb_eq.
  destruct g, g'; cbn; rewrite ?String.eqb_eq; naive_solver.
Qed.

Lemma UpdateStatus_identity now st msg m :
  MRef_identity (ManifestReference_UpdateStatus now st msg m) = MRef_identity m.
Proof. unfold ManifestReference_UpdateStatus. by case_goal. Qed.

Lemma UpdateStatus_status now st msg m :
  MRef_Status (ManifestReference_UpdateStatus now st msg m) = st.
Proof.
  unfold ManifestReference_UpdateStatus. case_goal; [done|]. bools.
  by apply String.eqb_eq.
Qed.

Lemma UpdateStatus_message now st msg m :
  MRef_Message (ManifestReference_UpdateStatus now st msg m) = msg.
Proof.
  unfold ManifestReference_UpdateStatus. case_goal; [done|]. bools.
  by apply String.eqb_eq.
Qed.

Lemma UpdateStatus_wave now st msg m :
  MRef_SyncWave (ManifestReference_UpdateStatus now st msg m) = MRef_SyncWave m.
Proof. unfold ManifestReference_UpdateStatus. by case_goal. Qed.

Lemma IndexOfManifestByIdentity_Ok t l i :
  IndexOfManifestByIdentity t l = Ok i ->
  exists r, l !! i = Some r /\ MRef_identity r = MRef_identity t.
Proof.
  unfold IndexOfManifestByIdentity. case_goal; [|done]. intros [= <-].
  destruct (index_of_Some _ _ _ Heqo) as (x & Hx & Hm & _).
  apply MatchesIdentity_spec in Hm. eauto.
Qed.

#[export] Hint Rewrite UpdateStatus_identity UpdateStatus_status UpdateStatus_message
  UpdateStatus_wave : sc.
