(* ===== verification/JsonDiff.v ===== *)
(** * The JSON differ (vendor/github.com/wI2L/jsondiff)

    [jsondiff.CompareJSON] with no option, as the operator calls it, on decoded documents: the
    list of JSON Patch operations from a source document to a target one. Numbers are compared
    as literals. The theorems the validation needs: equal documents, and only those, have an
    empty patch; and a member whose values differ yields an operation at or under its path. *)
From Stdlib Require Import Ascii.
From S2P Require Import Prelude GoStd.

(** ** JSON Pointers *)

(* src: src/vendor/github.com/wI2L/jsondiff/pointer.go 70-81 pointer.appendEscapeKey *)
Fixpoint appendEscapeKey (k : string) : string :=
  match k with
  | "" => ""
  | String c k =>
      if Ascii.eqb c "/" then "~1" +:+ appendEscapeKey k
      else if Ascii.eqb c "~" then "~0" +:+ appendEscapeKey k
      else String c (appendEscapeKey k)
  end.

(* src: src/vendor/github.com/wI2L/jsondiff/pointer.go 44-48 pointer.appendKey *)
Definition appendKey (ptr key : string) : string := ptr +:+ "/" +:+ appendEscapeKey key.

(* src: src/vendor/github.com/wI2L/jsondiff/pointer.go 50-54 pointer.appendIndex *)
Definition appendIndex (ptr : string) (idx : nat) : string := ptr +:+ "/" +:+ Itoa (Z.of_nat idx).

(** ** Operations *)

Inductive OperationKind := OperationAdd | OperationReplace | OperationRemove.

#[export] Instance OperationKind_eq_dec : EqDecision OperationKind.
Proof. solve_decision. Defined.

(** The operations the default options generate; [Value] is [None] for a removal. *)
Record Operation := mkOperation {
  Op_Type : OperationKind;
  Op_Path : string;
  Op_OldValue : option json;
  Op_Value : option json
}.

(** ** The differ *)

(* src: src/vendor/github.com/wI2L/jsondiff/equal.go 30-57 areComparable *)
Definition areComparable (i1 i2 : json) : bool :=
  match i1, i2 with
  | JNull, JNull | JBool _, JBool _ | JNum _, JNum _ | JStr _, JStr _
  | JArr _, JArr _ | JObj _, JObj _ => true
  | _, _ => false
  end.

(* src: src/vendor/github.com/wI2L/jsondiff/equal.go 59-120 deepEqual *)
Definition deepEqual (src tgt : json) : bool := bool_decide (src = tgt).

Definition add_op (path : string) (v : json) : Operation :=
  mkOperation OperationAdd path None (Some v).
Definition remove_op (path : string) (v : json) : Operation :=
  mkOperation OperationRemove path (Some v) None.
Definition replace_op (path : string) (src tgt : json) : Operation :=
  mkOperation OperationReplace path (Some src) (Some tgt).

(** A value of the source with the comparison of it that is still to be given its pointer and
    its target: what lets the recursion of [diff] go through the two containers. *)
Definition pending : Type := json * (string -> json -> list Operation).

Definition obj_lookup {A} (k : string) (o : list (string * A)) : option A :=
  snd <$> List.find (fun kv => String.eqb k kv.1) o.

(* src: src/vendor/github.com/wI2L/jsondiff/differ.go 216-258 Differ.compareObjects *)
Definition compareObjects (ptr : string) (src : list (string * pending)) (tgt : fields)
    : list Operation :=
  let keys := SortSlice String.ltb (dedup [] (List.map fst src ++ List.map fst tgt)) in
  List.concat (List.map (fun k =>
    let p := appendKey ptr k in
    match obj_lookup k src, obj_get k tgt with
    | Some (_, d), Some t => d p t
    | Some (s, _), None => [remove_op p s]
    | None, Some t => [add_op p t]
    | None, None => []
    end) keys).

Fixpoint compare_elems (ptr : string) (i : nat) (src : list pending) (tgt : list json)
    : list Operation :=
  match src, tgt with
  | (_, d) :: src, t :: tgt => d (appendIndex ptr i) t ++ compare_elems ptr (S i) src tgt
  | _, _ => []
  end.

(* src: src/vendor/github.com/wI2L/jsondiff/differ.go 262-316 Differ.compareArrays *)
Definition compareArrays (ptr : string) (src : list pending) (tgt : list json) : list Operation :=
  let sl := length src in
  let tl := length tgt in
  let ml := Nat.min sl tl in
  List.map (fun x => remove_op (appendIndex ptr ml) x.1) (skipn ml src)
  ++ compare_elems ptr 0 src tgt
  ++ List.map (add_op (appendKey ptr "-")) (skipn ml tgt).

(* src: src/vendor/github.com/wI2L/jsondiff/differ.go 103-149 Differ.diff *)
Fixpoint diff (src : json) (ptr : string) (tgt : json) : list Operation :=
  if negb (areComparable src tgt) then
    if String.eqb ptr "" then [mkOperation OperationAdd ptr (Some src) (Some tgt)]
    else [replace_op ptr src tgt]
  else if deepEqual src tgt then []
  else
    match src, tgt with
    | JArr val, JArr t => compareArrays ptr (List.map (fun x => (x, diff x)) val) t
    | JObj val, JObj t =>
        compareObjects ptr (List.map (fun kv => (kv.1, (kv.2, diff kv.2))) val) t
    | _, _ => [replace_op ptr src tgt]
    end.

(* src: src/vendor/github.com/wI2L/jsondiff/compare.go 66-83 compareJSON *)
Definition CompareJSON (source target : json) : list Operation := diff source "" target.

(** ** Lemmas *)

Definition path_under (ptr path : string) : Prop :=
  exists suf, path = ptr +:+ suf /\ (suf = "" \/ exists s, suf = "/" +:+ s).

Lemma path_under_refl p : path_under p p.
Proof. exists "". split; [|by left]. by rewrite sapp_nil_r. Qed.

Lemma path_under_step a b s : path_under (a +:+ "/" +:+ s) b -> path_under a b.
Proof.
  intros (suf & -> & _). exists ("/" +:+ s +:+ suf). split; [by rewrite !sapp_assoc|].
  right. eauto.
Qed.

#[export] Hint Resolve path_under_refl path_under_step : sc.

Lemma obj_lookup_map {A B} (f : A -> B) k (o : list (string * A)) :
  obj_lookup k (List.map (fun kv => (kv.1, f kv.2)) o) = f <$> obj_lookup k o.
Proof.
  unfold obj_lookup. induction o as [|[k' v] o IH]; simpl; [done|].
  by destruct (String.eqb k k').
Qed.

Lemma obj_lookup_get k (o : fields) : obj_lookup k o = obj_get k o.
Proof.
  unfold obj_lookup. induction o as [|[k' v] o IH]; simpl; [done|].
  by destruct (String.eqb k k').
Qed.

Lemma obj_get_Some_in k v (o : fields) : obj_get k o = Some v -> (k, v) ∈ o.
Proof.
  induction o as [|[k' v'] o IH]; simpl; [done|].
  destruct (String.eqb_spec k k') as [<-|]; [intros [= <-]; set_solver|set_solver].
Qed.

Lemma dedup_elem x seen l : x ∈ dedup seen l <-> x ∈ l /\ x ∉ seen.
Proof.
  revert seen. induction l as [|y l IH]; intros seen; simpl; [set_solver|].
  case_bool_decide; rewrite ?elem_of_cons, IH; [set_solver|].
  destruct (decide (x = y)) as [->|]; set_solver.
Qed.

Abbreviation all_under ptr := (Forall (fun op => path_under ptr (Op_Path op))).

Lemma compare_elems_under ptr i src tgt :
  Forall (fun p : pending => forall q t, all_under q (p.2 q t)) src ->
  all_under ptr (compare_elems ptr i src tgt).
Proof.
  intros Hs. revert i tgt. induction Hs as [|[v d] src Hd _ IH]; intros i [|t tgt]; simpl;
    auto with sc.
  apply Forall_app_2; [|apply IH]. eapply Forall_impl; [apply Hd|]. intros op.
  apply path_under_step.
Qed.

Lemma compareArrays_under ptr src tgt :
  Forall (fun p : pending => forall q t, all_under q (p.2 q t)) src ->
  all_under ptr (compareArrays ptr src tgt).
Proof.
  intros Hs. unfold compareArrays. apply Forall_app_2; [|apply Forall_app_2].
  - rewrite List.Forall_map. apply Forall_true. intros x. simpl.
    eapply path_under_step, path_under_refl.
  - by apply compare_elems_under.
  - rewrite List.Forall_map. apply Forall_true. intros x. simpl.
    eapply path_under_step, path_under_refl.
Qed.

Lemma compareObjects_under ptr src tgt :
  Forall (fun kp : string * pending => forall q t, all_under q (kp.2.2 q t)) src ->
  all_under ptr (compareObjects ptr src tgt).
Proof.
  intros Hs. unfold compareObjects. rewrite List.Forall_concat, List.Forall_map.
  apply Forall_true. intros k.
  destruct (obj_lookup k src) as [[s d]|] eqn:Hl, (obj_get k tgt) as [t|];
    repeat constructor; simpl; try (eapply path_under_step, path_under_refl).
  unfold obj_lookup in Hl. destruct (List.find _ src) as [[k' p']|] eqn:Hf; [|done].
  simplify_eq/=. apply List.find_some in Hf as [Hin _].
  rewrite List.Forall_forall in Hs. specialize (Hs _ Hin (appendKey ptr k) t).
  eapply Forall_impl; [exact Hs|]. intros op. apply path_under_step.
Qed.

(** Every operation of a comparison is at or under its pointer. *)
Lemma diff_under src ptr tgt : all_under ptr (diff src ptr tgt).
Proof.
  revert ptr tgt. induction src as [|b|n|s|l IH|o IH] using json_ind'; intros ptr tgt;
    cbn [diff]; destruct (areComparable _ _); simpl;
    try (destruct (String.eqb ptr ""); repeat constructor; apply path_under_refl);
    destruct (deepEqual _ _); auto with sc; destruct tgt;
    try (repeat constructor; apply path_under_refl).
  - apply compareArrays_under. rewrite List.Forall_map. exact IH.
  - apply compareObjects_under. rewrite List.Forall_map. exact IH.
Qed.

(** A member that differs gives an operation, when the comparison of two different values
    does. *)
Lemma compareObjects_key ptr (src tgt : fields) k :
  (forall s t q, obj_get k src = Some s -> obj_get k tgt = Some t -> s <> t -> diff s q t <> []) ->
  obj_get k src <> obj_get k tgt ->
  exists op, op ∈ compareObjects ptr (List.map (fun kv => (kv.1, (kv.2, diff kv.2))) src) tgt
    /\ path_under (appendKey ptr k) (Op_Path op).
Proof.
  intros Hd Hne. unfold compareObjects.
  set (body := fun k : string => _).
  enough (Hk : exists op, op ∈ body k /\ path_under (appendKey ptr k) (Op_Path op)).
  { destruct Hk as (op & Hop & Hp). exists op. split; [|done].
    rewrite <-List.flat_map_concat_map. apply list_elem_of_In, in_flat_map. exists k.
    split; [|by apply list_elem_of_In]. apply list_elem_of_In.
    rewrite SortSlice_perm, dedup_elem. split; [|set_solver].
    rewrite List.map_map, elem_of_app. cbn [fst].
    destruct (obj_get k src) as [s|] eqn:Es; [left|right].
    - apply obj_get_Some_in in Es. apply list_elem_of_In. apply list_elem_of_In in Es.
      by apply (List.in_map fst) in Es.
    - destruct (obj_get k tgt) as [t|] eqn:Et; [|done].
      apply obj_get_Some_in in Et. apply list_elem_of_In. apply list_elem_of_In in Et.
      by apply (List.in_map fst) in Et. }
  subst body. cbv beta. rewrite (obj_lookup_map (fun v => (v, diff v))), obj_lookup_get.
  destruct (obj_get k src) as [s|], (obj_get k tgt) as [t|]; simpl; [| | |done].
  - specialize (Hd s t (appendKey ptr k) eq_refl eq_refl ltac:(congruence)).
    pose proof (diff_under s (appendKey ptr k) t) as Hu.
    destruct (diff s (appendKey ptr k) t) as [|op ops]; [done|]. inv Hu.
    exists op. split; [set_solver|done].
  - eexists. split; [by apply list_elem_of_singleton|apply path_under_refl].
  - eexists. split; [by apply list_elem_of_singleton|apply path_under_refl].
Qed.

(** Two canonical objects that differ differ at a key. *)
Lemma obj_differ (o1 o2 : fields) :
  keys_sorted o1 = true -> keys_sorted o2 = true -> o1 <> o2 ->
  exists k, obj_get k o1 <> obj_get k o2.
Proof.
  intros H1 H2 Hne.
  destruct (decide (Forall (fun k => obj_get k o1 = obj_get k o2)
    (List.map fst o1 ++ List.map fst o2))) as [Hall|Hn].
  - destruct Hne. apply keys_sorted_ext; [done|done|]. intros k.
    destruct (decide (k ∈ List.map fst o1 ++ List.map fst o2)) as [Hin|Hnin].
    { by eapply Forall_forall in Hall. }
    rewrite elem_of_app, !list_elem_of_In in Hnin.
    destruct (obj_get k o1) as [s|] eqn:E1.
    { apply obj_get_Some_in, list_elem_of_In, (List.in_map fst) in E1. tauto. }
    destruct (obj_get k o2) as [t|] eqn:E2; [|done].
    apply obj_get_Some_in, list_elem_of_In, (List.in_map fst) in E2. tauto.
  - apply not_Forall_Exists in Hn; [|intros ?; apply _]. apply Exists_exists in Hn as (k & _ & Hk).
    by exists k.
Qed.

Lemma json_wf_get k v (o : fields) : json_wf (JObj o) = true -> obj_get k o = Some v -> json_wf v = true.
Proof.
  simpl. intros H Hg. bools. apply obj_get_Some_in, list_elem_of_In in Hg.
  rewrite List.forallb_forall in H0. apply (H0 _ Hg).
Qed.

Lemma compare_elems_nil l i tgt ptr :
  Forall (fun x => forall ptr tgt, json_wf x = true -> json_wf tgt = true -> x <> tgt ->
    diff x ptr tgt <> []) l ->
  length l = length tgt -> forallb json_wf l = true -> forallb json_wf tgt = true ->
  compare_elems ptr i (List.map (fun x => (x, diff x)) l) tgt = [] -> l = tgt.
Proof.
  intros IH. revert i tgt.
  induction IH as [|x l Hx _ IHl]; intros i [|y tgt] Hlen Hs Ht He; simplify_eq/=; [done|].
  bools. apply app_nil in He as [Hxy He]. f_equal; [|by eapply IHl].
  destruct (decide (x = y)) as [|N]; [done|]. by destruct (Hx (appendIndex ptr i) y).
Qed.

(** Different canonical values have a non-empty patch. *)
Lemma diff_nonempty src tgt ptr :
  json_wf src = true -> json_wf tgt = true -> src <> tgt -> diff src ptr tgt <> [].
Proof.
  revert ptr tgt. induction src as [|b|n|s|l IH|o IH] using json_ind';
    intros ptr tgt Hs Ht Hne; cbn [diff]; destruct (areComparable _ _) eqn:Hc; simpl;
    try (by destruct (String.eqb ptr ""));
    unfold deepEqual; rewrite bool_decide_eq_false_2 by done; destruct tgt as [| | | |t|t]; try done.
  - unfold compareArrays. intros H. apply app_nil in H as [Hr H]. apply app_nil in H as [He Ha].
    apply map_eq_nil, (f_equal length) in Hr. apply map_eq_nil, (f_equal length) in Ha.
    rewrite length_skipn, !length_map in *. simpl in *.
    apply Hne. f_equal. eapply compare_elems_nil; [exact IH| |done|done|exact He]. lia.
  - pose proof Hs as Hs'. pose proof Ht as Ht'. simpl in Hs', Ht'. bools.
    destruct (obj_differ o t) as [k Hk]; [done|done|congruence|].
    destruct (compareObjects_key ptr o t k) as (op & Hop & _); [|done|].
    + intros s u q Hgs Hgt N. rewrite List.Forall_forall in IH.
      apply (IH (k, s)); [by apply list_elem_of_In, obj_get_Some_in| | |done].
      * apply (json_wf_get k s o Hs Hgs).
      * apply (json_wf_get k u t Ht Hgt).
    + intros Hnil. rewrite Hnil in Hop. by apply elem_of_nil in Hop.
Qed.

(** The patch is empty for equal documents only. *)
Lemma CompareJSON_nil src tgt :
  json_wf src = true -> json_wf tgt = true -> CompareJSON src tgt = [] <-> src = tgt.
Proof.
  intros Hs Ht. split; [|intros ->].
  - intros H. destruct (decide (src = tgt)) as [|N]; [done|]. by destruct (diff_nonempty src tgt "").
  - unfold CompareJSON. destruct tgt; cbn [diff areComparable negb]; unfold deepEqual;
      by rewrite bool_decide_eq_true_2.
Qed.

(** A member whose values differ, or that only one document has, gives an operation at or
    under its path. *)
Lemma CompareJSON_key (src tgt : fields) k :
  json_wf (JObj src) = true -> json_wf (JObj tgt) = true -> obj_get k src <> obj_get k tgt ->
  exists op, op ∈ CompareJSON (JObj src) (JObj tgt) /\ path_under (appendKey "" k) (Op_Path op).
Proof.
  intros Hs Ht Hne. unfold CompareJSON. cbn [diff areComparable negb]. unfold deepEqual.
  rewrite bool_decide_eq_false_2 by congruence. apply compareObjects_key; [|done].
  intros s t q Es Et N. apply diff_nonempty; [apply (json_wf_get k s src Hs Es)|apply (json_wf_get k t tgt Ht Et)|done].
Qed.
