(* ===== verification/JsonScan.v ===== *)
(** * The scanner of Go's encoding/json

    [json.Unmarshal(data, &v)] with [v] an [interface{}] fails exactly when the scanner rejects
    the text or a number overflows a float64. The scanner is the library's state machine, one
    byte per step with a stack of open containers. *)
From Stdlib Require Import Ascii.
From S2P Require Import Prelude GoStd.

Inductive parse_state := parseObjectKey | parseObjectValue | parseArrayValue.

Inductive step :=
| stBeginValueOrEmpty | stBeginValue | stBeginStringOrEmpty | stBeginString
| stEndValue | stEndTop | stInString | stInStringEsc | stInStringEscU (seen : nat)
| stNeg | st1 | st0 | stDot | stDot0 | stE | stESign | stE0
| stLit (rest : string). (* inside true, false or null: what is still expected *)

Record scanner := mkScanner { sc_step : step; sc_stack : list parse_state }.

Definition maxNestingDepth : nat := 10000.

Section scan.
Context (c : ascii).

Definition code : nat := nat_of_ascii c.
Definition isSpace : bool := bool_decide (code ∈ [32; 9; 13; 10]%nat).
Definition is_hex : bool :=
  is_digit c || ((97 <=? code)%nat && (code <=? 102)%nat)
  || ((65 <=? code)%nat && (code <=? 70)%nat).
Definition byte_is (d : ascii) : bool := Ascii.eqb c d.

Definition goto (st : step) (ps : list parse_state) : option scanner := Some (mkScanner st ps).

Definition pushParseState (st : step) (p : parse_state) (ps : list parse_state) : option scanner :=
  if (S (length ps) <=? maxNestingDepth)%nat then goto st (p :: ps) else None.

Definition popParseState (ps : list parse_state) : option scanner :=
  match ps with
  | [] | [_] => goto stEndTop []
  | _ :: ps => goto stEndValue ps
  end.

Definition stateEndTop : option scanner := if isSpace then goto stEndTop [] else None.

Definition stateEndValue (ps : list parse_state) : option scanner :=
  match ps with
  | [] => stateEndTop
  | p :: ps' =>
      if isSpace then goto stEndValue ps
      else match p with
           | parseObjectKey =>
               if byte_is ":" then goto stBeginValue (parseObjectValue :: ps') else None
           | parseObjectValue =>
               if byte_is "," then goto stBeginString (parseObjectKey :: ps')
               else if byte_is "}" then popParseState ps else None
           | parseArrayValue =>
               if byte_is "," then goto stBeginValue ps
               else if byte_is "]" then popParseState ps else None
           end
  end.

Definition stateBeginValue (ps : list parse_state) : option scanner :=
  if isSpace then goto stBeginValue ps
  else if byte_is "{" then pushParseState stBeginStringOrEmpty parseObjectKey ps
  else if byte_is "[" then pushParseState stBeginValueOrEmpty parseArrayValue ps
  else if byte_is dquote then goto stInString ps
  else if byte_is "-" then goto stNeg ps
  else if byte_is "0" then goto st0 ps
  else if byte_is "t" then goto (stLit "rue") ps
  else if byte_is "f" then goto (stLit "alse") ps
  else if byte_is "n" then goto (stLit "ull") ps
  else if is_digit c then goto st1 ps
  else None.

Definition stateBeginString (ps : list parse_state) : option scanner :=
  if isSpace then goto stBeginString ps
  else if byte_is dquote then goto stInString ps else None.

Definition state0 (ps : list parse_state) : option scanner :=
  if byte_is "." then goto stDot ps
  else if byte_is "e" || byte_is "E" then goto stE ps
  else stateEndValue ps.

Definition stateESign (ps : list parse_state) : option scanner :=
  if is_digit c then goto stE0 ps else None.

(** One byte of input; [None] is [scanError]. *)
Definition scan_step (s : scanner) : option scanner :=
  let ps := sc_stack s in
  match sc_step s with
  | stBeginValueOrEmpty =>
      if isSpace then goto stBeginValueOrEmpty ps
      else if byte_is "]" then stateEndValue ps else stateBeginValue ps
  | stBeginValue => stateBeginValue ps
  | stBeginStringOrEmpty =>
      if isSpace then goto stBeginStringOrEmpty ps
      else if byte_is "}" then stateEndValue (parseObjectValue :: tail ps) else stateBeginString ps
  | stBeginString => stateBeginString ps
  | stEndValue => stateEndValue ps
  | stEndTop => stateEndTop
  | stInString =>
      if byte_is dquote then goto stEndValue ps
      else if byte_is backslash then goto stInStringEsc ps
      else if (code <? 32)%nat then None else goto stInString ps
  | stInStringEsc =>
      if byte_is "b" || byte_is "f" || byte_is "n" || byte_is "r" || byte_is "t" || byte_is backslash || byte_is "/" || byte_is dquote
      then goto stInString ps
      else if byte_is "u" then goto (stInStringEscU 0) ps else None
  | stInStringEscU n =>
      if is_hex then goto (if (n =? 3)%nat then stInString else stInStringEscU (S n)) ps else None
  | stNeg => if byte_is "0" then goto st0 ps else if is_digit c then goto st1 ps else None
  | st1 => if is_digit c then goto st1 ps else state0 ps
  | st0 => state0 ps
  | stDot => if is_digit c then goto stDot0 ps else None
  | stDot0 =>
      if is_digit c then goto stDot0 ps
      else if byte_is "e" || byte_is "E" then goto stE ps else stateEndValue ps
  | stE => if byte_is "+" || byte_is "-" then goto stESign ps else stateESign ps
  | stESign => stateESign ps
  | stE0 => if is_digit c then goto stE0 ps else stateEndValue ps
  | stLit (String d rest) =>
      if byte_is d then goto (if String.eqb rest "" then stEndValue else stLit rest) ps else None
  | stLit _ => None
  end.
End scan.

Definition in_number (st : step) : bool :=
  match st with
  | stNeg | st1 | st0 | stDot | stDot0 | stE | stESign | stE0 => true
  | _ => false
  end.

(** [strconv.ParseFloat(lit, 64)] does not overflow. The exponent stops growing at five
    digits, as in the library. *)
Definition float_in_range (lit : string) : bool :=
  let limit := (2 ^ 1024 - 2 ^ 970)%Z in
  let fix exp (acc : Z) (s : string) : Z :=
    match s with
    | "" => acc
    | String c s => exp (if acc <? 10000 then 10 * acc + digit_val c else acc)%Z s
    end in
  let fix go (frac : bool) (m e : Z) (s : string) : Z * Z :=
    match s with
    | "" => (m, e)
    | String c s' =>
        if Ascii.eqb c "." then go true m e s'
        else if Ascii.eqb c "-" then go frac m e s'
        else if Ascii.eqb c "e" || Ascii.eqb c "E" then
          match s' with
          | String d s'' =>
              if Ascii.eqb d "-" then (m, e - exp 0 s'')%Z
              else if Ascii.eqb d "+" then (m, e + exp 0 s'')%Z
              else (m, e + exp 0 s')%Z
          | "" => (m, e)
          end
        else go frac (10 * m + digit_val c)%Z (if frac then e - 1 else e)%Z s'
    end in
  let '(m, e) := go false 0%Z 0%Z lit in
  (m =? 0)%Z || (if (0 <=? e)%Z then (e <=? 400)%Z && (m * 10 ^ e <? limit)%Z
                 else (m <? limit * 10 ^ (- e))%Z).

(** Scans the rest of the text; [num] is the number literal being read, reversed. *)
Fixpoint scan_all (s : scanner) (num : list ascii) (data : string) : bool :=
  let flush (num : list ascii) : bool :=
    match num with [] => true | _ => float_in_range (String.string_of_list_ascii (rev num)) end in
  match data with
  | "" =>
      match sc_step s with
      | stEndTop => flush num
      | _ =>
          (* eof: one more step on a space must reach the end of the top value *)
          match scan_step " " s with
          | Some (mkScanner stEndTop _) => flush num
          | _ => false
          end
      end
  | String c data =>
      match scan_step c s with
      | None => false
      | Some s' =>
          if in_number (sc_step s') then scan_all s' (c :: num) data
          else flush num && scan_all s' [] data
      end
  end.

(** [json.Unmarshal([]byte(data), &v) == nil] *)
Definition Unmarshal_ok (data : string) : bool := scan_all (mkScanner stBeginValue []) [] data.

Definition q (s : string) : string := String dquote (s +:+ String dquote "").

Example scan_ok :
  forallb Unmarshal_ok
    [ "{}"; " [] "; "{" +:+ q "a" +:+ ": [1, -2.5e3, true, null], " +:+ q "b" +:+ ":{}}"; "12"; "1e308";
      q "\u00e9"; "0"; "[[],[{}]]"; "1e-400" ] = true.
Proof. vm_compute. reflexivity. Qed.

Example scan_bad :
  existsb Unmarshal_ok
    [ ""; "{"; "[1,]"; "01"; "1."; "tru"; "{" +:+ q "a" +:+ "}"; q "\x"; "1 2"; "1e309"; "[1e400]"; "}" ]
  = false.
Proof. vm_compute. reflexivity. Qed.
