(* ===== verification/Errors.v ===== *)
(** * Errors (internal/controller/errors) and the classification of API errors

    The operator's typed errors, with the search through wrapped and aggregated errors, and the
    apimachinery predicates the retry and reconcile loops branch on. *)
From S2P Require Import Prelude GoStd.

(** ** k8s.io/apimachinery/pkg/util/errors *)

(* src: src/vendor/k8s.io/apimachinery/pkg/util/errors/errors.go 49-63 NewAggregate *)
Definition NewAggregate (errlist : list error) : option error :=
  match errlist with [] => None | _ => Some (AggregateErr errlist) end.

(** ** k8s.io/apimachinery/pkg/api/errors *)

Definition StatusReasonUnknown : string := "".
Definition StatusReasonNotFound : string := "NotFound".
Definition StatusReasonAlreadyExists : string := "AlreadyExists".
Definition StatusReasonConflict : string := "Conflict".
Definition StatusReasonInternalError : string := "InternalError".
Definition StatusReasonServiceUnavailable : string := "ServiceUnavailable".

(* src: src/vendor/k8s.io/apimachinery/pkg/api/errors/errors.go 47-68 knownReasons *)
Definition knownReasons : list string :=
  [ "Unauthorized"; "Forbidden"; "NotFound"; "AlreadyExists"; "Conflict"; "Gone"; "Invalid";
    "ServerTimeout"; "StoreReadError"; "Timeout"; "TooManyRequests"; "BadRequest";
    "MethodNotAllowed"; "NotAcceptable"; "RequestEntityTooLarge"; "UnsupportedMediaType";
    "InternalError"; "Expired"; "ServiceUnavailable" ].

Definition is_status (e : error) : bool :=
  match e with StatusErr _ _ _ => true | _ => false end.

(* src: src/vendor/k8s.io/apimachinery/pkg/api/errors/errors.go 817-822 reasonAndCodeForError *)
Definition reasonAndCodeForError (err : error) : string * Z :=
  match As is_status err with
  | Some (StatusErr reason code _) => (reason, code)
  | _ => (StatusReasonUnknown, 0%Z)
  end.

(** The common body of the predicates below. *)
Definition is_reason_or_code (reason : string) (code : Z) (err : error) : bool :=
  let '(r, c) := reasonAndCodeForError err in
  String.eqb r reason || (negb (bool_decide (r ∈ knownReasons)) && Z.eqb c code).

(* src: src/vendor/k8s.io/apimachinery/pkg/api/errors/errors.go 529-538 IsNotFound *)
Definition IsNotFound : error -> bool := is_reason_or_code StatusReasonNotFound 404.

(* src: src/vendor/k8s.io/apimachinery/pkg/api/errors/errors.go 542-544 IsAlreadyExists *)
Definition IsAlreadyExists (err : error) : bool :=
  String.eqb (reasonAndCodeForError err).1 StatusReasonAlreadyExists.

(* src: src/vendor/k8s.io/apimachinery/pkg/api/errors/errors.go 548-557 IsConflict *)
Definition IsConflict : error -> bool := is_reason_or_code StatusReasonConflict 409.

(* src: src/vendor/k8s.io/apimachinery/pkg/api/errors/errors.go 711-720 IsInternalError *)
Definition IsInternalError : error -> bool := is_reason_or_code StatusReasonInternalError 500.

(* src: src/vendor/k8s.io/apimachinery/pkg/api/errors/errors.go 634-643 IsServiceUnavailable *)
Definition IsServiceUnavailable : error -> bool :=
  is_reason_or_code StatusReasonServiceUnavailable 503.

Definition is_errno (e : error) : bool :=
  match e with ErrnoErr _ _ => true | _ => false end.

(* src: src/vendor/k8s.io/apimachinery/pkg/util/net/util.go 57-63 IsConnectionRefused *)
Definition IsConnectionRefused (err : error) : bool :=
  match As is_errno err with
  | Some (ErrnoErr refused _) => refused
  | _ => false
  end.

(** [client.IgnoreNotFound] *)
Definition IgnoreNotFound (err : option error) : option error :=
  match err with
  | Some e => if IsNotFound e then None else Some e
  | None => None
  end.

(** ** internal/controller/errors *)

(* src: src/internal/controller/errors/errors.go 39-42 ErrorTypeNotOwnedObject *)
Definition ErrorTypeNotOwnedObject : string := "NOT_OWNED_OBJECT".
Definition ErrorTypeDeletionTimeout : string := "DELETION_TIMEOUT".
Definition ErrorTypeManagedClusterNotInManifest : string := "MANAGED_CLUSTER_NOT_IN_MANIFEST".

(* src: src/internal/controller/errors/errors.go 46-51 New *)
Definition NewError (errType message : string) : error := ClusterInstanceErr errType message.

(* src: src/internal/controller/errors/errors.go 56-59 NewNotOwnedObjectError *)
Definition NewNotOwnedObjectError (owner resourceId : string) : error :=
  NewError ErrorTypeNotOwnedObject
    (Sprintf "ClusterInstance '%s' is not the owner of object (%s)" [FStr owner; FStr resourceId]).

(* src: src/internal/controller/errors/errors.go 63-66 NewDeletionTimeoutError *)
Definition NewDeletionTimeoutError (resourceId : string) : error :=
  NewError ErrorTypeDeletionTimeout
    (Sprintf "Timed out waiting to delete object (%s)" [FStr resourceId]).

(* src: src/internal/controller/errors/errors.go 70-72 NewManagedClusterNotInManifestError *)
Definition NewManagedClusterNotInManifestError : error :=
  NewError ErrorTypeManagedClusterNotInManifest "ManagedCluster not found in rendered manifests".

Definition is_aggregate (e : error) : bool :=
  match e with AggregateErr _ => true | _ => false end.
Definition is_ci_error (e : error) : bool :=
  match e with ClusterInstanceErr _ _ => true | _ => false end.

(** [errors.As(err, &ciErr) && ciErr.Type == errType] *)
Definition as_ci_type (errType : string) (err : error) : bool :=
  match As is_ci_error err with
  | Some (ClusterInstanceErr t _) => String.eqb t errType
  | _ => false
  end.

(* src: src/internal/controller/errors/errors.go 74-100 isErrorOfType *)
Definition isErrorOfType (err : option error) (errType : string) : bool :=
  match err with
  | None => false
  | Some err =>
      match As is_aggregate err with
      | Some (AggregateErr errs) => existsb (as_ci_type errType) errs
      | _ => false
      end || as_ci_type errType err
  end.

(* src: src/internal/controller/errors/errors.go 103-105 IsNotOwnedObject *)
Definition IsNotOwnedObject (err : option error) : bool := isErrorOfType err ErrorTypeNotOwnedObject.

(* src: src/internal/controller/errors/errors.go 108-110 IsDeletionTimeoutError *)
Definition IsDeletionTimeoutError (err : option error) : bool :=
  isErrorOfType err ErrorTypeDeletionTimeout.

(* src: src/internal/controller/errors/errors.go 114-117 IsManagedClusterNotInManifestError *)
Definition IsManagedClusterNotInManifestError (err : option error) : bool :=
  isErrorOfType err ErrorTypeManagedClusterNotInManifest.

(** ** Lemmas *)

(** Wrapping with one [%w] keeps what [errors.As] finds. *)
Lemma As_wrap f m e : f (WrapError m [e]) = false -> As f (WrapError m [e]) = As f e.
Proof. unfold As. rewrite chain_wrap. simpl. intros ->. by rewrite app_nil_r. Qed.

Lemma reasonAndCode_wrap m e : reasonAndCodeForError (WrapError m [e]) = reasonAndCodeForError e.
Proof. unfold reasonAndCodeForError. by rewrite As_wrap. Qed.

Lemma IsNotFound_wrap m e : IsNotFound (WrapError m [e]) = IsNotFound e.
Proof. unfold IsNotFound, is_reason_or_code. by rewrite reasonAndCode_wrap. Qed.

Lemma isErrorOfType_wrap m e t : isErrorOfType (Some (WrapError m [e])) t = isErrorOfType (Some e) t.
Proof. unfold isErrorOfType, as_ci_type. by rewrite !As_wrap. Qed.

(** The same of [fmt.Errorf] with one [%w]; [reflexivity] proves the premise at a format. *)
Lemma Errorf_wraps f args e : (sprintf f args).2 = [e] -> Errorf f args = WrapError (Sprintf f args) [e].
Proof. unfold Errorf, Sprintf. destruct (sprintf f args). simpl. by intros ->. Qed.

Lemma isErrorOfType_Errorf f args e t :
  (sprintf f args).2 = [e] -> isErrorOfType (Some (Errorf f args)) t = isErrorOfType (Some e) t.
Proof. intros H. rewrite (Errorf_wraps _ _ _ H). apply isErrorOfType_wrap. Qed.

Lemma IsNotFound_Errorf f args e :
  (sprintf f args).2 = [e] -> IsNotFound (Errorf f args) = IsNotFound e.
Proof. intros H. rewrite (Errorf_wraps _ _ _ H). apply IsNotFound_wrap. Qed.

Lemma isErrorOfType_aggregate errs t :
  isErrorOfType (NewAggregate errs) t = existsb (as_ci_type t) errs.
Proof. destruct errs as [|e errs]; [done|]. simpl. by rewrite orb_false_r. Qed.

Lemma as_ci_type_new t t' m : as_ci_type t (NewError t' m) = String.eqb t' t.
Proof. done. Qed.

#[export] Hint Rewrite isErrorOfType_wrap IsNotFound_wrap reasonAndCode_wrap : sc.
