(* ===== verification/Conditions.v ===== *)
(** * Status conditions (apimachinery's meta package and internal/controller/conditions)

    A condition list is modified in place through a pointer; here each operation returns the new
    list. [now] is what [metav1.Now()] returns. *)
From S2P Require Import Prelude GoStd Types.

(** ** k8s.io/apimachinery/pkg/api/meta *)

(* src: src/vendor/k8s.io/apimachinery/pkg/api/meta/conditions.go 90-98 FindStatusCondition *)
Definition FindStatusCondition (conditions : list Condition) (conditionType : string)
    : option Condition :=
  List.find (fun c => String.eqb (Cond_Type c) conditionType) conditions.

(* src: src/vendor/k8s.io/apimachinery/pkg/api/meta/conditions.go 72-87 RemoveStatusCondition *)
Definition RemoveStatusCondition (conditions : list Condition) (conditionType : string)
    : list Condition :=
  List.filter (fun c => negb (String.eqb (Cond_Type c) conditionType)) conditions.

(** The assignments to the existing condition. *)
Definition update_condition (now : Time) (new existing : Condition) : Condition :=
  let transition :=
    if String.eqb (Cond_Status existing) (Cond_Status new) then Cond_LastTransitionTime existing
    else if IsZero (Cond_LastTransitionTime new) then now else Cond_LastTransitionTime new in
  mkCondition (Cond_Type existing) (Cond_Status new) (Cond_ObservedGeneration new) transition
    (Cond_Reason new) (Cond_Message new).

(** [f] applied to the first element that satisfies [p]. *)
Fixpoint update_first {A} (p : A -> bool) (f : A -> A) (l : list A) : list A :=
  match l with
  | [] => []
  | x :: l => if p x then f x :: l else x :: update_first p f l
  end.

(* src: src/vendor/k8s.io/apimachinery/pkg/api/meta/conditions.go 30-67 SetStatusCondition *)
Definition meta_SetStatusCondition (now : Time) (conditions : list Condition) (new : Condition)
    : list Condition :=
  match FindStatusCondition conditions (Cond_Type new) with
  | None =>
      let t := if IsZero (Cond_LastTransitionTime new) then now else Cond_LastTransitionTime new in
      conditions ++ [new <| Cond_LastTransitionTime := t |>]
  | Some _ =>
      update_first (fun c => String.eqb (Cond_Type c) (Cond_Type new)) (update_condition now new)
        conditions
  end.

(** ** internal/controller/conditions *)

Definition last_type (l : list Condition) : string := from_option Cond_Type "" (last l).

(* src: src/internal/controller/conditions/conditions.go 17-41 SetStatusCondition *)
Definition SetStatusCondition (now : Time) (existing : list Condition)
    (conditionType conditionReason conditionStatus message : string) : list Condition :=
  let base :=
    match FindStatusCondition existing conditionType with
    | Some condition =>
        if negb (String.eqb (Cond_Status condition) conditionStatus)
           && negb (String.eqb (last_type existing) conditionType)
        then RemoveStatusCondition existing conditionType else existing
    | None => existing
    end in
  meta_SetStatusCondition now base
    (mkCondition conditionType conditionStatus 0 now conditionReason message).

(* src: src/internal/controller/conditions/conditions.go 71-81 FindCDConditionType *)
Definition FindCDConditionType (conditions : list ClusterDeploymentCondition) (condType : string)
    : option ClusterDeploymentCondition :=
  List.find (fun c => String.eqb (CDC_Type c) condType) conditions.

(** ** Condition types and reasons (api/v1alpha1/clusterinstance_conditions.go) *)

(* src: src/api/v1alpha1/clusterinstance_conditions.go 37-42 ClusterInstanceValidated *)
Definition ClusterInstanceValidated : string := "ClusterInstanceValidated".
Definition RenderedTemplates : string := "RenderedTemplates".
Definition RenderedTemplatesValidated : string := "RenderedTemplatesValidated".
Definition RenderedTemplatesApplied : string := "RenderedTemplatesApplied".
Definition RenderedTemplatesDeleted : string := "RenderedTemplatesDeleted".
Definition ClusterProvisioned : string := "Provisioned".

(* src: src/api/v1alpha1/clusterinstance_conditions.go 47-52 Initialized *)
Definition Initialized : string := "Initialized".
Definition Completed : string := "Completed".
Definition Failed : string := "Failed".
Definition TimedOut : string := "TimedOut".
Definition InProgress : string := "InProgress".
Definition Unknown : string := "Unknown".

(* src: src/api/v1alpha1/clusterinstance_conditions.go 57-63 ReinstallRequestValidated *)
Definition ReinstallRequestValidated : string := "ReinstallRequestValidated".
Definition ReinstallRequestProcessed : string := "ReinstallRequestProcessed".
Definition ReinstallPreservationDataBackedup : string := "ReinstallPreservationDataBackedup".
Definition ReinstallPreservationDataRestored : string := "ReinstallPreservationDataRestored".
Definition ReinstallClusterIdentityDataDetected : string := "ReinstallClusterIdentityDataDetected".
Definition ReinstallRenderedManifestsDeleted : string := "ReinstallRenderedManifestsDeleted".
Definition ReinstallClusterReimported : string := "ReinstallClusterReimported".

(* src: src/api/v1alpha1/clusterinstance_conditions.go 68-71 PreservationNotRequired *)
Definition PreservationNotRequired : string := "PreservationNotRequired".
Definition DataUnavailable : string := "DataUnavailable".
Definition DataAvailable : string := "DataAvailable".
Definition ReimportInitiated : string := "ReimportInitiated".

(** ** Lemmas *)

(** Each type at most once: the invariant of a status. *)
Definition cond_unique (l : list Condition) : Prop := NoDup (List.map Cond_Type l).

Lemma Find_Some l t c : FindStatusCondition l t = Some c -> c ∈ l /\ Cond_Type c = t.
Proof.
  intros H. apply List.find_some in H as [Hin Ht]. split; [by apply list_elem_of_In|].
  by apply String.eqb_eq.
Qed.

Lemma Find_None l t : FindStatusCondition l t = None <-> t ∉ List.map Cond_Type l.
Proof.
  unfold FindStatusCondition. induction l as [|c l IH]; simpl; [set_solver|].
  destruct (String.eqb_spec (Cond_Type c) t); rewrite elem_of_cons; [naive_solver|].
  rewrite IH. naive_solver.
Qed.

Lemma Find_app l k t :
  FindStatusCondition (l ++ k) t =
  match FindStatusCondition l t with Some c => Some c | None => FindStatusCondition k t end.
Proof.
  unfold FindStatusCondition. induction l as [|c l IH]; simpl; [done|].
  by destruct (String.eqb (Cond_Type c) t).
Qed.

Lemma Remove_types l t :
  List.map Cond_Type (RemoveStatusCondition l t)
  = List.filter (fun x => negb (String.eqb x t)) (List.map Cond_Type l).
Proof.
  unfold RemoveStatusCondition. induction l as [|c l IH]; simpl; [done|].
  destruct (String.eqb (Cond_Type c) t); simpl; by rewrite IH.
Qed.

Lemma Find_Remove l t u :
  FindStatusCondition (RemoveStatusCondition l t) u =
  if String.eqb u t then None else FindStatusCondition l u.
Proof.
  unfold RemoveStatusCondition, FindStatusCondition. induction l as [|c l IH]; simpl.
  { by destruct (String.eqb u t). }
  destruct (String.eqb_spec (Cond_Type c) t); simpl; rewrite IH;
    destruct (String.eqb_spec u t), (String.eqb_spec (Cond_Type c) u); simpl; congruence.
Qed.

Lemma update_first_types (f : Condition -> Condition) p l :
  (forall c, Cond_Type (f c) = Cond_Type c) ->
  List.map Cond_Type (update_first p f l) = List.map Cond_Type l.
Proof.
  intros Hf. induction l as [|c l IH]; simpl; [done|]. destruct (p c); simpl; [by rewrite Hf|].
  by rewrite IH.
Qed.

Lemma Find_update_first f t l u :
  (forall c, Cond_Type (f c) = Cond_Type c) ->
  FindStatusCondition (update_first (fun c => String.eqb (Cond_Type c) t) f l) u
  = if String.eqb u t then f <$> FindStatusCondition l u else FindStatusCondition l u.
Proof.
  intros Hf. unfold FindStatusCondition. induction l as [|c l IH]; simpl.
  { by destruct (String.eqb u t). }
  destruct (String.eqb_spec (Cond_Type c) t) as [Ht|Ht]; simpl; [rewrite Hf|rewrite IH];
    destruct (String.eqb_spec u t), (String.eqb_spec (Cond_Type c) u); simpl; congruence.
Qed.

Lemma meta_Set_types now l n :
  List.map Cond_Type (meta_SetStatusCondition now l n)
  = if bool_decide (Cond_Type n ∈ List.map Cond_Type l) then List.map Cond_Type l
    else List.map Cond_Type l ++ [Cond_Type n].
Proof.
  unfold meta_SetStatusCondition. destruct (FindStatusCondition l (Cond_Type n)) as [c|] eqn:E.
  - rewrite update_first_types by done. apply Find_Some in E as [Hin Ht].
    rewrite bool_decide_eq_true_2; [done|]. rewrite <-Ht. apply list_elem_of_In.
    apply List.in_map. by apply list_elem_of_In.
  - apply Find_None in E. rewrite bool_decide_eq_false_2 by done. by rewrite List.map_app.
Qed.

Lemma Set_unique now l t r s m : cond_unique l -> cond_unique (SetStatusCondition now l t r s m).
Proof.
  unfold cond_unique, SetStatusCondition. intros Hl.
  assert (Hset : forall l, NoDup (List.map Cond_Type l) ->
    NoDup (List.map Cond_Type (meta_SetStatusCondition now l (mkCondition t s 0 now r m)))).
  { intros k Hk. rewrite meta_Set_types. simpl. case_bool_decide as Ht; [done|].
    apply NoDup_app. split; [done|]. split; [|apply NoDup_singleton]. set_solver. }
  apply Hset. destruct (FindStatusCondition l t); [|done]. case_goal; [|done].
  rewrite Remove_types. by apply NoDup_ListNoDup, List.NoDup_filter, NoDup_ListNoDup.
Qed.

(** The condition just set has the status, reason and message given. *)
Lemma Set_find now l t r s m :
  exists c, FindStatusCondition (SetStatusCondition now l t r s m) t = Some c
    /\ Cond_Type c = t /\ Cond_Status c = s /\ Cond_Reason c = r /\ Cond_Message c = m.
Proof.
  unfold SetStatusCondition. set (base := match _ with Some _ => _ | None => _ end).
  unfold meta_SetStatusCondition. cbn [Cond_Type].
  destruct (FindStatusCondition base t) as [c|] eqn:E.
  - exists (update_condition now (mkCondition t s 0 now r m) c).
    rewrite Find_update_first, String.eqb_refl, E by done.
    apply Find_Some in E as [_ E]. done.
  - eexists. rewrite Find_app, E. simpl. by rewrite String.eqb_refl.
Qed.

(** The conditions of the other types are untouched. *)
Lemma Set_find_ne now l t r s m u :
  u <> t -> FindStatusCondition (SetStatusCondition now l t r s m) u = FindStatusCondition l u.
Proof.
  intros Hu. unfold SetStatusCondition.
  set (base := match _ with Some _ => _ | None => _ end).
  assert (Hb : FindStatusCondition base u = FindStatusCondition l u).
  { subst base. destruct (FindStatusCondition l t); [|done]. case_goal; [|done].
    rewrite Find_Remove. by destruct (String.eqb_spec u t). }
  rewrite <-Hb. clearbody base. unfold meta_SetStatusCondition. cbn [Cond_Type].
  destruct (FindStatusCondition base t).
  - rewrite Find_update_first by done. by destruct (String.eqb_spec u t).
  - rewrite Find_app. simpl. destruct (String.eqb_spec t u); [congruence|].
    by destruct (FindStatusCondition base u).
Qed.

Lemma update_first_id {A} (p : A -> bool) (f : A -> A) l :
  (forall x, List.find p l = Some x -> f x = x) -> update_first p f l = l.
Proof.
  induction l as [|x l IH]; simpl; [done|]. destruct (p x); intros Hf; [by rewrite Hf|].
  by rewrite IH.
Qed.

(** The condition just set, in full but for its transition time. *)
Lemma Set_found now l t r s m :
  exists lt, FindStatusCondition (SetStatusCondition now l t r s m) t = Some (mkCondition t s 0 lt r m).
Proof.
  unfold SetStatusCondition. set (base := match _ with Some _ => _ | None => _ end).
  unfold meta_SetStatusCondition. cbn [Cond_Type].
  destruct (FindStatusCondition base t) as [c|] eqn:E.
  - rewrite Find_update_first, String.eqb_refl, E by done. apply Find_Some in E as [_ <-]. by eexists.
  - rewrite Find_app, E. simpl. rewrite String.eqb_refl. by eexists.
Qed.

(** Setting a condition to what it is changes nothing, not even its transition time. *)
Lemma Set_again now l t r s m lt :
  FindStatusCondition l t = Some (mkCondition t s 0 lt r m) -> SetStatusCondition now l t r s m = l.
Proof.
  intros Hf. unfold SetStatusCondition. rewrite Hf. simpl. rewrite String.eqb_refl. simpl.
  unfold meta_SetStatusCondition. cbn [Cond_Type]. rewrite Hf. apply update_first_id.
  intros c Hc. unfold FindStatusCondition in Hf. rewrite Hf in Hc. injection Hc as <-.
  unfold update_condition. simpl. by rewrite String.eqb_refl.
Qed.
