(* ===== verification/Samples.v ===== *)
(** * Concrete objects

    The ClusterInstance the witnesses of the theorems evaluate on: a single-node cluster
    [sno] whose provisioning has completed, and small variations. *)
From S2P Require Import Prelude GoStd Types Conditions.

Definition sample_node (host bmc mac role : string) : NodeSpec := {|
  Node_BmcAddress := bmc;
  Node_BmcCredentialsName := mkBmcCredentialsName "bmc-secret";
  Node_BootMACAddress := mac;
  Node_AutomatedCleaningMode := "disabled";
  Node_RootDeviceHints := Some (JObj [("wwn", JStr "11111111111")]);
  Node_NodeNetwork :=
    Some (JObj [("interfaces",
      JArr [JObj [("macAddress", JStr "00:00:00:01:20:30"); ("name", JStr "eno1")]])]);
  Node_NodeLabels := ∅;
  Node_HostName := host;
  Node_HostRef := None;
  Node_CPUArchitecture := "";
  Node_BootMode := "UEFI";
  Node_InstallerArgs := "";
  Node_IgnitionConfigOverride := "{}";
  Node_Role := role;
  Node_ExtraAnnotations := ∅;
  Node_ExtraLabels := ∅;
  Node_SuppressedManifests := [];
  Node_PruneManifests := [];
  Node_IronicInspect := "";
  Node_TemplateRefs := [mkReference "ai-node-templates-v1" "siteconfig-operator"]
|}.

Definition node1 : NodeSpec := sample_node "node1" "idrac-virtualmedia+https://10.0.0.1" "00:00:5E:00:53:01" "master".
Definition worker1 : NodeSpec := sample_node "worker1" "idrac-virtualmedia+https://10.0.0.2" "00:00:5E:00:53:02" "worker".

Definition sample_spec (nodes : list NodeSpec) (reinstall : option ReinstallSpec)
    : ClusterInstanceSpec := {|
  Spec_ClusterName := "site-sno";
  Spec_PullSecretRef := mkLocalObjectReference "pull-secret";
  Spec_ClusterImageSetNameRef := "openshift-v4.18.0";
  Spec_SSHPublicKey := "ssh-rsa AAAA";
  Spec_BaseDomain := "example.com";
  Spec_ApiVIPs := [];
  Spec_IngressVIPs := [];
  Spec_HoldInstallation := false;
  Spec_AdditionalNTPSources := ["ntp.example.com"];
  Spec_MachineNetwork := [mkMachineNetworkEntry "10.0.0.0/24"];
  Spec_ClusterNetwork := [mkClusterNetworkEntry "10.128.0.0/14" 23];
  Spec_ServiceNetwork := [mkServiceNetworkEntry "172.30.0.0/16"];
  Spec_NetworkType := "OVNKubernetes";
  Spec_PlatformType := "";
  Spec_ExtraAnnotations := ∅;
  Spec_ExtraLabels := {[ "ManagedCluster" := {[ "group" := "dev" ]} ]};
  Spec_InstallConfigOverrides := "{}";
  Spec_IgnitionConfigOverride := "";
  Spec_DiskEncryption := None;
  Spec_Proxy := None;
  Spec_ExtraManifestsRefs := [];
  Spec_SuppressedManifests := [];
  Spec_PruneManifests := [];
  Spec_CPUPartitioning := "None";
  Spec_CPUArchitecture := "x86_64";
  Spec_ClusterType := ClusterTypeSNO;
  Spec_TemplateRefs := [mkReference "ai-cluster-templates-v1" "siteconfig-operator"];
  Spec_CaBundleRef := None;
  Spec_Nodes := nodes;
  Spec_Reinstall := reinstall
|}.

Definition provisioned (reason : string) : Condition :=
  mkCondition ClusterProvisioned "True" 0 10 reason "Provisioning".

Definition sample_status (reason : string) (reinstall : option ReinstallStatus)
    : ClusterInstanceStatus := {|
  Status_Conditions := [provisioned reason];
  Status_ClusterDeploymentRef := None;
  Status_DeploymentConditions := [];
  Status_ManifestsRendered := [];
  Status_ObservedGeneration := 1;
  Status_Reinstall := reinstall;
  Status_Paused := None
|}.

Definition sample_meta : ObjectMeta := {|
  Meta_Name := "site-sno";
  Meta_Namespace := "site-sno";
  Meta_Labels := ∅;
  Meta_Annotations := ∅;
  Meta_Finalizers := [];
  Meta_Generation := 1;
  Meta_ResourceVersion := "1";
  Meta_DeletionTimestamp := None
|}.

(** A ClusterInstance with the given nodes, reinstall request, provisioning reason and reinstall
    status. *)
Definition sample_ci (nodes : list NodeSpec) (reinstall : option ReinstallSpec) (reason : string)
    (status : option ReinstallStatus) : ClusterInstance :=
  mkClusterInstance sample_meta (sample_spec nodes reinstall) (sample_status reason status).

Definition sno : ClusterInstance := sample_ci [node1] None Completed None.
Definition sno_provisioning : ClusterInstance := sample_ci [node1] None InProgress None.

(** [sno] asking for a reinstall, with one node changed. *)
Definition sno_reinstall (node : NodeSpec) : ClusterInstance :=
  sample_ci [node] (Some (mkReinstallSpec "gen-1" PreservationModeNone)) Completed None.
