(* ===== verification/Regex.v ===== *)
(** * Regular expressions (Go's regexp)

    Anchored matching with Brzozowski derivatives, proved to decide the language of the
    expression, for the one pattern the operator compiles. *)
From Stdlib Require Import Ascii.
From S2P Require Import Prelude GoStd.

Inductive regex :=
| RNone
| REps
| RSet (f : ascii -> bool)
| RSeq (r1 r2 : regex)
| RAlt (r1 r2 : regex)
| RStar (r : regex).

Definition ROpt (r : regex) : regex := RAlt r REps.

Fixpoint nullable (r : regex) : bool :=
  match r with
  | RNone | RSet _ => false
  | REps | RStar _ => true
  | RSeq r1 r2 => nullable r1 && nullable r2
  | RAlt r1 r2 => nullable r1 || nullable r2
  end.

Fixpoint deriv (c : ascii) (r : regex) : regex :=
  match r with
  | RNone | REps => RNone
  | RSet f => if f c then REps else RNone
  | RSeq r1 r2 =>
      if nullable r1 then RAlt (RSeq (deriv c r1) r2) (deriv c r2) else RSeq (deriv c r1) r2
  | RAlt r1 r2 => RAlt (deriv c r1) (deriv c r2)
  | RStar r => RSeq (deriv c r) (RStar r)
  end.

(** [regexp.MustCompile("^" + r + "$").MatchString(s)] *)
Fixpoint MatchString (r : regex) (s : string) : bool :=
  match s with
  | "" => nullable r
  | String c s => MatchString (deriv c r) s
  end.

(** The language of an expression. *)
Inductive lang : regex -> string -> Prop :=
| lang_eps : lang REps ""
| lang_set f c : f c = true -> lang (RSet f) (String c "")
| lang_seq r1 r2 s t : lang r1 s -> lang r2 t -> lang (RSeq r1 r2) (s +:+ t)
| lang_alt_l r1 r2 s : lang r1 s -> lang (RAlt r1 r2) s
| lang_alt_r r1 r2 s : lang r2 s -> lang (RAlt r1 r2) s
| lang_star_nil r : lang (RStar r) ""
| lang_star_cons r c s t :
    lang r (String c s) -> lang (RStar r) t -> lang (RStar r) (String c (s +:+ t)).

#[local] Hint Constructors lang : core.

Lemma nullable_lang r : nullable r = true <-> lang r "".
Proof.
  split.
  - induction r; simpl; intros H; try done; bools; eauto.
    + change "" with ("" +:+ ""). eauto.
    + apply orb_prop in H as [H|H]; eauto.
  - intros H. remember "" as s eqn:E. induction H; simplify_eq/=; try done.
    + destruct s; [|done]. destruct t; [|done]. by rewrite IHlang1, IHlang2.
    + by rewrite IHlang.
    + rewrite IHlang by done. apply orb_true_r.
Qed.

Lemma deriv_sound c r s : lang (deriv c r) s -> lang r (String c s).
Proof.
  revert s. induction r; simpl; intros s H; try (by inv H).
  - destruct (f c) eqn:E; inv H. eauto.
  - assert (Hseq : forall s, lang (RSeq (deriv c r1) r2) s -> lang (RSeq r1 r2) (String c s)).
    { intros s' H'. inv H'. rewrite <-sapp_cons. eauto. }
    destruct (nullable r1) eqn:E; [|eauto]. inv H; [eauto|].
    apply nullable_lang in E. rewrite <-(sapp_nil_l (String c s)). eauto.
  - inv H; eauto.
  - inv H. eauto.
Qed.

Lemma deriv_complete c r s : lang r (String c s) -> lang (deriv c r) s.
Proof.
  intros H. remember (String c s) as cs eqn:E. revert s E.
  induction H; intros s' E; simplify_eq/=; eauto.
  - by rewrite H.
  - destruct s as [|c' s].
    + assert (nullable r1 = true) as -> by (by apply nullable_lang).
      rewrite sapp_nil_l in E. eauto.
    + rewrite sapp_cons in E. simplify_eq. destruct (nullable r1); eauto.
Qed.

Lemma MatchString_lang r s : MatchString r s = true <-> lang r s.
Proof.
  revert r. induction s as [|c s IH]; intros r; simpl; [apply nullable_lang|].
  rewrite IH. split; [apply deriv_sound|apply deriv_complete].
Qed.

(** ** Inversions used to read a pattern's language *)

Lemma lang_set_inv f s : lang (RSet f) s -> exists c, s = String c "" /\ f c = true.
Proof. intros H. inv H. eauto. Qed.

Lemma lang_seq_inv r1 r2 s :
  lang (RSeq r1 r2) s -> exists a b, s = a +:+ b /\ lang r1 a /\ lang r2 b.
Proof. intros H. inv H. eauto. Qed.

Lemma lang_opt_inv r s : lang (ROpt r) s -> lang r s \/ s = "".
Proof. intros H. inv H; [by left|right]. by match goal with H : lang REps _ |- _ => inv H end. Qed.

Lemma lang_star_set f s : lang (RStar (RSet f)) s <-> all_bytes f s = true.
Proof.
  split.
  - intros H. remember (RStar (RSet f)) as r eqn:E. induction H; simplify_eq/=; [done|].
    apply lang_set_inv in H as (d & [= <- ->] & Hd). rewrite sapp_nil_l. simpl. by rewrite Hd, IHlang2.
  - induction s as [|c s IH]; simpl; intros H; [eauto|]. bools.
    rewrite <-(sapp_nil_l s). eauto.
Qed.

(** The last byte, if any. *)
Fixpoint last_byte (s : string) : option ascii :=
  match s with
  | "" => None
  | String c "" => Some c
  | String _ s => last_byte s
  end.

Lemma last_byte_snoc a c : last_byte (a +:+ String c "") = Some c.
Proof.
  induction a as [|d a IH]; [done|]. rewrite sapp_cons. simpl. rewrite IH.
  by destruct a.
Qed.

Lemma last_byte_Some s c : last_byte s = Some c -> exists a, s = a +:+ String c "".
Proof.
  revert c. induction s as [|d s IH]; intros c H; [done|]. destruct s as [|e s].
  - simplify_eq/=. by exists "".
  - destruct (IH c H) as [a ->]. by exists (String d a).
Qed.

(** [f(g*f)?]: a word over [g] whose first and last bytes are in [f]. *)
Lemma lang_bounded_word (f g : ascii -> bool) s :
  (forall c, f c = true -> g c = true) ->
  lang (RSeq (RSet f) (ROpt (RSeq (RStar (RSet g)) (RSet f)))) s <->
  exists c d, String.get 0 s = Some c /\ last_byte s = Some d /\ f c = true /\ f d = true
    /\ all_bytes g s = true.
Proof.
  intros Hfg. split.
  - intros H. apply lang_seq_inv in H as (a & b & -> & Ha & Hb).
    apply lang_set_inv in Ha as (c & -> & Hc). rewrite sapp_cons, sapp_nil_l.
    apply lang_opt_inv in Hb as [Hb| ->].
    + apply lang_seq_inv in Hb as (m & e & -> & Hm & He).
      apply lang_set_inv in He as (d & -> & Hd). apply lang_star_set in Hm.
      exists c, d. rewrite <-sapp_cons, last_byte_snoc. repeat split; [done|done|].
      rewrite all_bytes_app. simpl. by rewrite (Hfg c), Hm, (Hfg d).
    + exists c, c. simpl. by rewrite (Hfg c).
  - intros (c & d & Hg & Hl & Hc & Hd & Hall). destruct s as [|c' s]; [done|]. simplify_eq/=.
    rewrite <-(sapp_nil_l s), <-sapp_cons. constructor; [by constructor|].
    destruct s as [|e s]; [by apply lang_alt_r|].
    apply last_byte_Some in Hl as [a Ha]. rewrite Ha. apply lang_alt_l.
    constructor; [|by constructor]. apply lang_star_set.
    rewrite Ha in Hall. bools. rewrite all_bytes_app in *. by bools.
Qed.
