(* ===== verification/Validation.v ===== *)
(** * Admission validation (api/v1alpha1/clusterinstance_validation.go, clusterinstance_webhook.go)

    The webhook's three handlers and everything they call. A rejection is the error returned;
    [None] is acceptance. [ValidateUpdate] returns an [outcome], because it dereferences
    [Spec.Reinstall] of the old object. *)
From Stdlib Require Import Ascii.
From S2P Require Import Prelude GoStd JsonScan JsonDiff Regex Types Conditions.

(* src: src/api/v1alpha1/clusterinstance_validation.go 33-34 maxGenerationLength *)
Definition maxK8sNameLength : nat := 253.
Definition maxGenerationLength : nat := maxK8sNameLength - 100.

(** ** Operation types and permissions *)

Abbreviation OperationType := string.

(* src: src/api/v1alpha1/clusterinstance_validation.go 37-48 OperationType *)
Definition OperationTypeNoChange : OperationType := "no-change".
Definition OperationTypeScaleOut : OperationType := "scale-out".
Definition OperationTypeScaleIn : OperationType := "scale-in".
Definition OperationTypeMixed : OperationType := "mixed".
Definition OperationTypeReplacement : OperationType := "replacement".
Definition OperationTypeModification : OperationType := "modification".
Definition OperationTypeInvalid : OperationType := "invalid".

(* src: src/api/v1alpha1/clusterinstance_validation.go 51-69 SpecChangePermission *)
Inductive SpecChangePermission :=
| SpecChangeBlocked
| SpecChangeUnrestricted
| SpecChangeBaseOnly
| SpecChangeReinstall.

#[export] Instance SpecChangePermission_eq_dec : EqDecision SpecChangePermission.
Proof. solve_decision. Defined.

(* src: src/api/v1alpha1/clusterinstance_validation.go 72-85 SpecChangePermission.String *)
Definition Permission_String (p : SpecChangePermission) : string :=
  match p with
  | SpecChangeBlocked => "no changes allowed"
  | SpecChangeUnrestricted => "all changes allowed"
  | SpecChangeBaseOnly => "only base field changes allowed"
  | SpecChangeReinstall => "base and reinstall field changes allowed"
  end.

(* src: src/api/v1alpha1/clusterinstance_validation.go 88-90 SpecChangePermission.IsBlocked *)
Definition IsBlocked (p : SpecChangePermission) : bool := bool_decide (p = SpecChangeBlocked).

(* src: src/api/v1alpha1/clusterinstance_validation.go 93-95 SpecChangePermission.AllowsAllChanges *)
Definition AllowsAllChanges (p : SpecChangePermission) : bool :=
  bool_decide (p = SpecChangeUnrestricted).

(* src: src/api/v1alpha1/clusterinstance_validation.go 121-126 BasePermissibleFields *)
Definition BasePermissibleFields : list string :=
  [ "extraAnnotations"; "extraLabels"; "suppressedManifests"; "pruneManifests" ].

(** A Go map, of which only the sets of keys and of values are used. *)
(* src: src/api/v1alpha1/clusterinstance_validation.go 129-134 ReinstallPermissions *)
Definition ReinstallPermissions : list (string * string) :=
  [ ("bmcAddress", "/nodes/*/bmcAddress");
    ("bootMACAddress", "/nodes/*/bootMACAddress");
    ("nodeNetwork/interfaces", "/nodes/*/nodeNetwork/interfaces/*/macAddress");
    ("rootDeviceHints", "/nodes/*/rootDeviceHints") ].

(* src: src/api/v1alpha1/clusterinstance_validation.go 137-144 ClusterLevelAllowedPaths *)
Definition ClusterLevelAllowedPaths : list string :=
  [ "/extraAnnotations"; "/extraLabels"; "/suppressedManifests"; "/pruneManifests";
    "/clusterImageSetNameRef"; "/holdInstallation" ].

(* src: src/api/v1alpha1/clusterinstance_validation.go 147-152 NodeLevelAllowedPaths *)
Definition NodeLevelAllowedPaths : list string :=
  [ "/nodes/*/extraAnnotations"; "/nodes/*/extraLabels"; "/nodes/*/suppressedManifests";
    "/nodes/*/pruneManifests" ].

(* src: src/api/v1alpha1/clusterinstance_validation.go 155-157 ReinstallClusterPaths *)
Definition ReinstallClusterPaths : list string := [ "/reinstall" ].

(* src: src/api/v1alpha1/clusterinstance_validation.go 958-960 getReinstallPermissibleFields *)
Definition getReinstallPermissibleFields : list string := List.map fst ReinstallPermissions.

(* src: src/api/v1alpha1/clusterinstance_validation.go 963-965 getReinstallNodePaths *)
Definition getReinstallNodePaths : list string := List.map snd ReinstallPermissions.

(* src: src/api/v1alpha1/clusterinstance_validation.go 99-116 SpecChangePermission.GetAllowedPaths *)
Definition GetAllowedPaths (p : SpecChangePermission) : list string :=
  match p with
  | SpecChangeBlocked => []
  | SpecChangeUnrestricted => []
  | SpecChangeBaseOnly => ClusterLevelAllowedPaths ++ NodeLevelAllowedPaths
  | SpecChangeReinstall =>
      ClusterLevelAllowedPaths ++ NodeLevelAllowedPaths ++ ReinstallClusterPaths
      ++ getReinstallNodePaths
  end.

(* src: src/api/v1alpha1/clusterinstance_validation.go 166-168 OperationType.IsScaling *)
Definition IsScaling (ot : OperationType) : bool :=
  String.eqb ot OperationTypeScaleOut || String.eqb ot OperationTypeScaleIn
  || String.eqb ot OperationTypeMixed.

(* src: src/api/v1alpha1/clusterinstance_validation.go 171-173 OperationType.IsValid *)
Definition IsValid (ot : OperationType) : bool := negb (String.eqb ot OperationTypeInvalid).

(** ** Patterns on JSON paths *)

Fixpoint segments_match (subPatterns subPaths : list string) : bool :=
  match subPatterns, subPaths with
  | [], _ => true
  | p :: ps, s :: ss => (String.eqb p "*" || String.eqb s p) && segments_match ps ss
  | _ :: _, [] => false
  end.

(* src: src/api/v1alpha1/clusterinstance_validation.go 701-721 pathMatchesPattern *)
Definition pathMatchesPattern (path pattern : string) : bool :=
  let subPaths := Split path "/" in
  let subPatterns := Split pattern "/" in
  if (length subPaths <? length subPatterns)%nat then false
  else segments_match subPatterns subPaths.

(* src: src/api/v1alpha1/clusterinstance_validation.go 724-731 pathMatchesAnyPattern *)
Definition pathMatchesAnyPattern (path : string) (patterns : list string) : bool :=
  existsb (pathMatchesPattern path) patterns.

(** ** The state of a ClusterInstance *)

(* src: src/api/v1alpha1/clusterinstance_validation.go 734-736 hasSpecChanged *)
Definition hasSpecChanged (oldCluster newCluster : ClusterInstance) : bool :=
  negb (bool_decide (CI_Spec oldCluster = CI_Spec newCluster)).

Definition provisioned_reason (ci : ClusterInstance) : option string :=
  Cond_Reason <$> FindStatusCondition (Status_Conditions (CI_Status ci)) ClusterProvisioned.

(* src: src/api/v1alpha1/clusterinstance_validation.go 739-742 isProvisioningInProgress *)
Definition isProvisioningInProgress (ci : ClusterInstance) : bool :=
  bool_decide (provisioned_reason ci = Some InProgress).

(* src: src/api/v1alpha1/clusterinstance_validation.go 745-748 isProvisioningCompleted *)
Definition isProvisioningCompleted (ci : ClusterInstance) : bool :=
  bool_decide (provisioned_reason ci = Some Completed).

(* src: src/api/v1alpha1/clusterinstance_validation.go 767-778 isReinstallInProgress *)
Definition isReinstallInProgress (ci : ClusterInstance) : bool :=
  match Spec_Reinstall (CI_Spec ci), Status_Reinstall (CI_Status ci) with
  | Some reinstallSpec, Some reinstallStatus =>
      String.eqb (RS_InProgressGeneration reinstallStatus) (RSpec_Generation reinstallSpec)
      && IsZero (RS_RequestEndTime reinstallStatus)
  | _, _ => false
  end.

(* src: src/api/v1alpha1/clusterinstance_validation.go 751-762 isReinstallRequested *)
Definition isReinstallRequested (ci : ClusterInstance) : bool :=
  match Spec_Reinstall (CI_Spec ci), Status_Reinstall (CI_Status ci) with
  | None, _ => false
  | Some _, None => true
  | Some spec, Some status =>
      if isReinstallInProgress ci then false
      else negb (String.eqb (RS_ObservedGeneration status) (RSpec_Generation spec))
  end.

(* src: src/api/v1alpha1/clusterinstance_validation.go 781-808 determineSpecChangePermission *)
Definition determineSpecChangePermission (old new : ClusterInstance) : SpecChangePermission :=
  if Spec_HoldInstallation (CI_Spec old) && negb (isProvisioningCompleted new) then
    SpecChangeUnrestricted
  else if isProvisioningInProgress new || isReinstallInProgress new then SpecChangeBlocked
  else if isProvisioningCompleted new then
    if isReinstallRequested new then SpecChangeReinstall else SpecChangeBaseOnly
  else SpecChangeBlocked.

(** ** Changes of the nodes *)

(* src: src/api/v1alpha1/clusterinstance_validation.go 400-415 getNodeStableIdentifier *)
Definition getNodeStableIdentifier (node : NodeSpec) : option string :=
  if negb (String.eqb (Node_HostName node) "") then Some (Node_HostName node)
  else if negb (String.eqb (Node_BmcAddress node) "") then Some (Node_BmcAddress node)
  else if negb (String.eqb (Node_BootMACAddress node) "") then Some (Node_BootMACAddress node)
  else None.

(* src: src/api/v1alpha1/clusterinstance_validation.go 418-433 generateNodeMatchingKey *)
Definition generateNodeMatchingKey (node : NodeSpec) : result string :=
  match getNodeStableIdentifier node with
  | None =>
      Err (Errorf "node has no unique identifiers (hostname, BMC address, or boot MAC address)" [])
  | Some identifier =>
      Ok (if negb (String.eqb (Node_HostName node) "") then "host:" +:+ identifier
          else if negb (String.eqb (Node_BmcAddress node) "") then "bmc:" +:+ identifier
          else "mac:" +:+ identifier)
  end.

(** [for _, node := range nodes { key, err := ...; m[key] = node }]: the error is returned as
    it is, and each caller wraps it. *)
Fixpoint nodeMap (m : gmap string NodeSpec) (nodes : list NodeSpec) : result (gmap string NodeSpec) :=
  match nodes with
  | [] => Ok m
  | node :: nodes =>
      match generateNodeMatchingKey node with
      | Err e => Err e
      | Ok key => nodeMap (<[key := node]> m) nodes
      end
  end.

(** The nodes whose key is not in [m]. *)
Fixpoint nodesNotIn (m : gmap string NodeSpec) (nodes : list NodeSpec) : result (list NodeSpec) :=
  match nodes with
  | [] => Ok []
  | node :: nodes =>
      match generateNodeMatchingKey node with
      | Err e => Err e
      | Ok key =>
          match nodesNotIn m nodes with
          | Err e => Err e
          | Ok rest => Ok (match m !! key with Some _ => rest | None => node :: rest end)
          end
      end
  end.

(* src: src/api/v1alpha1/clusterinstance_validation.go 316-362 analyzeNodeAdditionsAndRemovals *)
Definition analyzeNodeAdditionsAndRemovals (oldNodes newNodes : list NodeSpec)
    : result (list NodeSpec * list NodeSpec) :=
  let old_err e := Err (Errorf "failed to generate key for old node: %w" [FErr e]) in
  let new_err e := Err (Errorf "failed to generate key for new node: %w" [FErr e]) in
  match nodeMap ∅ oldNodes with
  | Err e => old_err e
  | Ok oldNodeMap =>
      match nodeMap ∅ newNodes with
      | Err e => new_err e
      | Ok newNodeMap =>
          match nodesNotIn oldNodeMap newNodes with
          | Err e => new_err e
          | Ok addedNodes =>
              match nodesNotIn newNodeMap oldNodes with
              | Err e => old_err e
              | Ok removedNodes => Ok (addedNodes, removedNodes)
              end
          end
      end
  end.

(** The second loop of [areSameNodeSets]: it stops at a node without a key or not in the old
    set. *)
Fixpoint sameNodes_new (oldNodeMap m : gmap string NodeSpec) (nodes : list NodeSpec)
    : option (gmap string NodeSpec) :=
  match nodes with
  | [] => Some m
  | node :: nodes =>
      match generateNodeMatchingKey node with
      | Err _ => None
      | Ok key =>
          match oldNodeMap !! key with
          | None => None
          | Some _ => sameNodes_new oldNodeMap (<[key := node]> m) nodes
          end
      end
  end.

(* src: src/api/v1alpha1/clusterinstance_validation.go 436-484 areSameNodeSets *)
Definition areSameNodeSets (oldNodes newNodes : list NodeSpec) : bool :=
  if negb (length oldNodes =? length newNodes)%nat then false
  else
    match nodeMap ∅ oldNodes with
    | Err _ => false
    | Ok oldNodeMap =>
        match sameNodes_new oldNodeMap ∅ newNodes with
        | None => false
        | Some newNodeMap =>
            forallb (fun kv : string * NodeSpec =>
              match newNodeMap !! kv.1 with
              | None => false
              | Some newNode => bool_decide (marshal_NodeSpec kv.2 = marshal_NodeSpec newNode)
              end) (map_to_list oldNodeMap)
        end
    end.

(** The loop over the new nodes of [isPureNodeReplacement]. *)
Fixpoint noneIn (oldKeys : gmap string NodeSpec) (nodes : list NodeSpec) : result bool :=
  match nodes with
  | [] => Ok true
  | node :: nodes =>
      match generateNodeMatchingKey node with
      | Err e => Err (Errorf "failed to generate key for new node: %w" [FErr e])
      | Ok key =>
          match oldKeys !! key with
          | Some _ => Ok false
          | None => noneIn oldKeys nodes
          end
      end
  end.

(* src: src/api/v1alpha1/clusterinstance_validation.go 487-513 isPureNodeReplacement *)
Definition isPureNodeReplacement (oldNodes newNodes : list NodeSpec) : result bool :=
  if negb (length oldNodes =? length newNodes)%nat then Ok false
  else
    match nodeMap ∅ oldNodes with
    | Err e => Err (Errorf "failed to generate key for old node: %w" [FErr e])
    | Ok oldKeys => noneIn oldKeys newNodes
    end.

(* src: src/api/v1alpha1/clusterinstance_validation.go 566-569 isCRDUpgradeFieldChange *)
Definition isCRDUpgradeFieldChange (diff : Operation) : bool :=
  String.eqb (Op_Path diff) "/cpuArchitecture"
  && (bool_decide (Op_Type diff = OperationAdd) || bool_decide (Op_Type diff = OperationRemove)).

(* src: src/api/v1alpha1/clusterinstance_validation.go 572-578 getNodeIdentifier *)
Definition getNodeIdentifier (node : NodeSpec) : string :=
  match getNodeStableIdentifier node with Some identifier => identifier | None => "unknown" end.

(* src: src/api/v1alpha1/clusterinstance_validation.go 581-596 isPermissibleNodeChange *)
Definition isPermissibleNodeChange (fieldPath : string) (allowReinstall : bool) : bool :=
  let permissibleChanges :=
    BasePermissibleFields ++ (if allowReinstall then getReinstallPermissibleFields else []) in
  existsb (Contains fieldPath) permissibleChanges.

(* src: src/api/v1alpha1/clusterinstance_validation.go 539-562 getUnauthorizedJSONDiffs *)
Definition getUnauthorizedJSONDiffs (oldNode newNode : NodeSpec) (allowReinstall : bool)
    : list string :=
  let oldJSON := marshal_NodeSpec oldNode in
  let newJSON := marshal_NodeSpec newNode in
  if bool_decide (oldJSON = newJSON) then []
  else
    List.map Op_Path
      (List.filter (fun diff =>
         negb (isCRDUpgradeFieldChange diff)
         && negb (isPermissibleNodeChange (Op_Path diff) allowReinstall))
        (CompareJSON oldJSON newJSON)).

(* src: src/api/v1alpha1/clusterinstance_validation.go 516-536 getUnauthorizedChanges *)
Definition getUnauthorizedChanges (oldNode newNode : NodeSpec) (allowReinstall : bool)
    : list string :=
  let unauthorized :=
    (if negb (String.eqb (Node_BmcAddress oldNode) (Node_BmcAddress newNode)) && negb allowReinstall
     then ["bmcAddress"] else [])
    ++ (if negb (String.eqb (Node_BootMACAddress oldNode) (Node_BootMACAddress newNode))
           && negb allowReinstall
        then ["bootMACAddress"] else [])
    ++ (if negb (String.eqb (Node_HostName oldNode) (Node_HostName newNode))
        then ["hostName"] else []) in
  match unauthorized with
  | [] => getUnauthorizedJSONDiffs oldNode newNode allowReinstall
  | _ => unauthorized
  end.

(* src: src/api/v1alpha1/clusterinstance_validation.go 227-232 nodeChangeAnalysis *)
Record nodeChangeAnalysis := mkAnalysis {
  operationType : OperationType;
  description : string;
  hasUnauthorizedChanges : bool;
  errors : list string
}.

(* src: src/api/v1alpha1/clusterinstance_validation.go 235-237 nodeChangeAnalysis.IsPermitted *)
Definition IsPermitted (a : nodeChangeAnalysis) : bool :=
  IsValid (operationType a) && negb (hasUnauthorizedChanges a).

Definition add_errors (a : nodeChangeAnalysis) (errs : list string) : nodeChangeAnalysis :=
  mkAnalysis (operationType a) (description a) true (errors a ++ errs).

Fixpoint checkNewNodes (oldNodeMap : gmap string NodeSpec) (newNodes : list NodeSpec)
    (allowReinstall : bool) (a : nodeChangeAnalysis) : nodeChangeAnalysis :=
  match newNodes with
  | [] => a
  | newNode :: newNodes =>
      match generateNodeMatchingKey newNode with
      | Err err => add_errors a [Sprintf "failed to generate key for new node: %v" [FErr err]]
      | Ok key =>
          let a' :=
            match oldNodeMap !! key with
            | Some oldNode =>
                match getUnauthorizedChanges oldNode newNode allowReinstall with
                | [] => a
                | unauthorized =>
                    add_errors a (List.map (fun change =>
                      Sprintf "node %s: unauthorized change to %s"
                        [FStr (getNodeIdentifier oldNode); FStr change]) unauthorized)
                end
            | None => a
            end in
          checkNewNodes oldNodeMap newNodes allowReinstall a'
      end
  end.

(* src: src/api/v1alpha1/clusterinstance_validation.go 365-397 nodeChangeAnalysis.checkNodeModifications *)
Definition checkNodeModifications (a : nodeChangeAnalysis) (oldNodes newNodes : list NodeSpec)
    (allowReinstall : bool) : nodeChangeAnalysis :=
  match nodeMap ∅ oldNodes with
  | Err err => add_errors a [Sprintf "failed to generate key for old node: %v" [FErr err]]
  | Ok oldNodeMap => checkNewNodes oldNodeMap newNodes allowReinstall a
  end.

(** The analysis returned when no key can be generated for a node. *)
Definition key_error (what : string) (err : error) : nodeChangeAnalysis :=
  mkAnalysis OperationTypeInvalid "invalid node operation due to key generation error" true
    [Sprintf (what +:+ ": %v") [FErr err]].

(* src: src/api/v1alpha1/clusterinstance_validation.go 240-313 analyzeNodeChanges *)
Definition analyzeNodeChanges (oldNodes newNodes : list NodeSpec) (allowReinstall : bool)
    : nodeChangeAnalysis :=
  let oldCount := length oldNodes in
  let newCount := length newNodes in
  if (oldCount =? newCount)%nat then
    if areSameNodeSets oldNodes newNodes then
      mkAnalysis OperationTypeNoChange "no node changes detected" false []
    else
      match isPureNodeReplacement oldNodes newNodes with
      | Err err => key_error "failed to check node replacement" err
      | Ok true =>
          mkAnalysis OperationTypeReplacement
            (Sprintf "pure node replacement (%d nodes)" [FInt (Z.of_nat oldCount)]) false []
      | Ok false =>
          let a := checkNodeModifications (mkAnalysis "" "" false []) oldNodes newNodes
                     allowReinstall in
          mkAnalysis OperationTypeModification "node modifications detected"
            (hasUnauthorizedChanges a) (errors a)
      end
  else
    match analyzeNodeAdditionsAndRemovals oldNodes newNodes with
    | Err err => key_error "failed to analyze node additions/removals" err
    | Ok (addedNodes, removedNodes) =>
        let added := FInt (Z.of_nat (length addedNodes)) in
        let removed := FInt (Z.of_nat (length removedNodes)) in
        let a :=
          match addedNodes, removedNodes with
          | _ :: _, _ :: _ =>
              let netChange := (Z.of_nat newCount - Z.of_nat oldCount)%Z in
              mkAnalysis OperationTypeMixed
                (if (0 <? netChange)%Z
                 then Sprintf "mixed operation: %d added, %d removed (net +%d)"
                        [added; removed; FInt netChange]
                 else Sprintf "mixed operation: %d added, %d removed (net %d)"
                        [added; removed; FInt netChange]) false []
          | _ :: _, [] =>
              mkAnalysis OperationTypeScaleOut
                (Sprintf "pure scale-out: %d nodes added" [added]) false []
          | [], _ =>
              mkAnalysis OperationTypeScaleIn
                (Sprintf "pure scale-in: %d nodes removed" [removed]) false []
          end in
        checkNodeModifications a oldNodes newNodes allowReinstall
    end.

(** ** Changes of the spec *)

(** What the loop of [validateChangesWithJSONDiff] does with one difference: [true] when it is
    recorded as restricted. *)
(* src: src/api/v1alpha1/clusterinstance_validation.go 646-690 validateChangesWithJSONDiff *)
Definition restricted (allowedUpdates : list string) (isScalingOperation : bool)
    (nodeAnalysis : nodeChangeAnalysis) (diff : Operation) : bool :=
  let path := Op_Path diff in
  if pathMatchesAnyPattern path allowedUpdates then false
  else if isScalingOperation && pathMatchesPattern path "/nodes" then false
  else if IsPermitted nodeAnalysis
          && (pathMatchesPattern path "/nodes" || pathMatchesPattern path "/nodes/*") then false
  else if pathMatchesPattern path "/nodes/*" then
    match Op_Type diff with
    | OperationAdd => false
    | OperationRemove => false
    | OperationReplace => true
    end
  else if isCRDUpgradeFieldChange diff then false
  else true.

(* src: src/api/v1alpha1/clusterinstance_validation.go 599-697 validateChangesWithJSONDiff *)
Definition validateChangesWithJSONDiff (old new : ClusterInstance) (allowReinstall : bool)
    (nodeAnalysis : nodeChangeAnalysis) : option error :=
  let diffs := CompareJSON (marshal_Spec (CI_Spec old)) (marshal_Spec (CI_Spec new)) in
  match diffs with
  | [] => None
  | _ =>
      let allowedUpdates :=
        ClusterLevelAllowedPaths ++ NodeLevelAllowedPaths
        ++ (if allowReinstall then ReinstallClusterPaths ++ getReinstallNodePaths else []) in
      let isScalingOperation :=
        negb (length (Spec_Nodes (CI_Spec old)) =? length (Spec_Nodes (CI_Spec new)))%nat in
      match List.map Op_Path
              (List.filter (restricted allowedUpdates isScalingOperation nodeAnalysis) diffs) with
      | [] => None
      | restrictedChanges =>
          Some (Errorf "detected unauthorized changes in immutable fields: %s"
            [FStr (Join restrictedChanges ", ")])
      end
  end.

(** [fmt]'s [%v] of a slice of strings. *)
Definition slice_text (l : list string) : string := "[" +:+ Join l " " +:+ "]".

(* src: src/api/v1alpha1/clusterinstance_validation.go 204-224 validatePostProvisioningChanges *)
Definition validatePostProvisioningChanges (old new : ClusterInstance) (allowReinstall : bool)
    : option error :=
  let nodeAnalysis :=
    analyzeNodeChanges (Spec_Nodes (CI_Spec old)) (Spec_Nodes (CI_Spec new)) allowReinstall in
  if hasUnauthorizedChanges nodeAnalysis then
    Some (Errorf "detected unauthorized node modifications: %v"
      [FStr (slice_text (errors nodeAnalysis))])
  else validateChangesWithJSONDiff old new allowReinstall nodeAnalysis.

(** ** The spec on its own *)

(* src: src/api/v1alpha1/clusterinstance_validation.go 812-819 isValidJSON *)
Definition isValidJSON (input : string) : bool :=
  String.eqb input "" || Unmarshal_ok input.

(** The first error of a loop that returns at the first one. *)
Fixpoint first_error {A} (f : A -> option error) (l : list A) : option error :=
  match l with
  | [] => None
  | x :: l => match f x with Some e => Some e | None => first_error f l end
  end.

(* src: src/api/v1alpha1/clusterinstance_validation.go 822-845 validateClusterInstanceJSONFields *)
Definition validateClusterInstanceJSONFields (ci : ClusterInstance) : option error :=
  let spec := CI_Spec ci in
  if negb (isValidJSON (Spec_InstallConfigOverrides spec)) then
    Some (Errorf "installConfigOverrides is not a valid JSON-formatted string" [])
  else if negb (isValidJSON (Spec_IgnitionConfigOverride spec)) then
    Some (Errorf "cluster-level ignitionConfigOverride is not a valid JSON-formatted string" [])
  else
    first_error (fun node =>
      if negb (isValidJSON (Node_InstallerArgs node)) then
        Some (Errorf "installerArgs is not a valid JSON-formatted string [Node: Hostname=%s]"
          [FStr (Node_HostName node)])
      else if negb (isValidJSON (Node_IgnitionConfigOverride node)) then
        Some (Errorf
          "node-level ignitionConfigOverride is not a valid JSON-formatted string [Node: Hostname=%s]"
          [FStr (Node_HostName node)])
      else None) (Spec_Nodes spec).

Definition count_role (role : string) (nodes : list NodeSpec) : nat :=
  length (List.filter (fun node => String.eqb (Node_Role node) role) nodes).

(* src: src/api/v1alpha1/clusterinstance_validation.go 848-887 validateControlPlaneAgentCount *)
Definition validateControlPlaneAgentCount (ci : ClusterInstance) : option error :=
  let controlPlaneCount := count_role "master" (Spec_Nodes (CI_Spec ci)) in
  let arbiterCount := count_role "arbiter" (Spec_Nodes (CI_Spec ci)) in
  let is_type t := String.eqb (Spec_ClusterType (CI_Spec ci)) t in
  if (controlPlaneCount <? 1)%nat && negb (is_type ClusterTypeHostedControlPlane) then
    Some (Errorf "at least 1 control-plane agent is required" [])
  else if is_type ClusterTypeSNO && negb (controlPlaneCount =? 1)%nat then
    Some (Errorf "single node OpenShift cluster-type must have exactly 1 control-plane agent" [])
  else if (0 <? controlPlaneCount)%nat && is_type ClusterTypeHostedControlPlane then
    Some (Errorf "hosted control plane clusters must not have control-plane agents" [])
  else if is_type ClusterTypeHighlyAvailableArbiter
          && ((arbiterCount <? 1)%nat || (controlPlaneCount <? 2)%nat) then
    Some (Errorf
      "highly available arbiter cluster-type must have at least 1 arbiter agent and 2 control-plane agents"
      [])
  else if negb (is_type ClusterTypeHighlyAvailableArbiter) && (0 <? arbiterCount)%nat then
    Some (Errorf "arbiter agents can only be used with HighlyAvailableArbiter cluster-type" [])
  else None.

(* src: src/api/v1alpha1/clusterinstance_validation.go 176-200 ValidateClusterInstance *)
Definition ValidateClusterInstance (ci : ClusterInstance) : option error :=
  match Spec_TemplateRefs (CI_Spec ci) with
  | [] => Some (Errorf "missing cluster-level template reference" [])
  | _ =>
      match first_error (fun node =>
              match Node_TemplateRefs node with
              | [] => Some (Errorf "missing node-level template reference for node %q"
                              [FStr (Node_HostName node)])
              | _ => None
              end) (Spec_Nodes (CI_Spec ci)) with
      | Some err => Some err
      | None =>
          match validateClusterInstanceJSONFields ci with
          | Some err => Some (Errorf "invalid JSON field(s): %w" [FErr err])
          | None =>
              match validateControlPlaneAgentCount ci with
              | Some err => Some (Errorf "control-plane agent validation failed: %w" [FErr err])
              | None => None
              end
          end
      end
  end.

(** ** Reinstall requests *)

Definition is_lower_alnum (c : ascii) : bool :=
  let n := nat_of_ascii c in is_digit c || ((97 <=? n)%nat && (n <=? 122)%nat).

Definition is_name_byte (c : ascii) : bool := is_lower_alnum c || Ascii.eqb c "-".

(** [^[a-z0-9]([-a-z0-9]*[a-z0-9])?$] *)
Definition validNameRegex : regex :=
  RSeq (RSet is_lower_alnum) (ROpt (RSeq (RStar (RSet is_name_byte)) (RSet is_lower_alnum))).

(* src: src/api/v1alpha1/clusterinstance_validation.go 938-955 validateReinstallGeneration *)
Definition validateReinstallGeneration (generation : string) : option error :=
  if String.eqb generation "" then Some (ErrorString "generation name cannot be empty")
  else if (maxGenerationLength <? String.length generation)%nat then
    Some (Errorf "generation name %q is too long (%d chars, max allowed: %d)"
      [FStr generation; FInt (Z.of_nat (String.length generation));
       FInt (Z.of_nat maxGenerationLength)])
  else if negb (MatchString validNameRegex generation) then
    Some (Errorf "generation name %q is invalid: must match regex %q"
      [FStr generation; FStr "^[a-z0-9]([-a-z0-9]*[a-z0-9])?$"])
  else None.

(* src: src/api/v1alpha1/clusterinstance_validation.go 891-935 validateReinstallRequest *)
Definition validateReinstallRequest (ci : ClusterInstance) : option error :=
  match Spec_Reinstall (CI_Spec ci) with
  | None => Some (ErrorString "invalid reinstall request: missing reinstall specification")
  | Some reinstall =>
      if negb (isProvisioningCompleted ci) then
        Some (ErrorString "reinstall can only be requested after successful provisioning completion")
      else
        let newGeneration := RSpec_Generation reinstall in
        match validateReinstallGeneration newGeneration with
        | Some err => Some (Errorf "invalid reinstall generation: %w" [FErr err])
        | None =>
            match Status_Reinstall (CI_Status ci) with
            | None => None
            | Some status =>
                if isReinstallInProgress ci then
                  Some (ErrorString
                    "cannot request reinstall while an existing reinstall is in progress")
                else if negb (String.eqb (RS_InProgressGeneration status) "")
                        && IsZero (RS_RequestEndTime status) then
                  Some (ErrorString
                    "reinstall generation update is not allowed while a request is still active")
                else if String.eqb (RS_ObservedGeneration status) newGeneration then
                  Some (ErrorString
                    "must specify a new generation value to trigger a reinstall")
                else if existsb (fun record => String.eqb newGeneration (RH_Generation record))
                          (RS_History status) then
                  Some (ErrorString "cannot reuse a previously used reinstall generation")
                else None
            end
        end
  end.

(** ** The webhook *)

Definition validationFailedMsg : string := "validation failed".

(* src: src/api/v1alpha1/clusterinstance_webhook.go 61-85 clusterInstanceValidator.ValidateCreate *)
Definition ValidateCreate (ci : ClusterInstance) : option error :=
  match Spec_Reinstall (CI_Spec ci) with
  | Some _ => Some (ErrorString "reinstall spec cannot be set during initial installation")
  | None =>
      match ValidateClusterInstance ci with
      | Some err => Some (Errorf "%s: %w" [FStr validationFailedMsg; FErr err])
      | None => None
      end
  end.

(** The general validation that ends both successful paths of an update. *)
Definition validate_general (ci : ClusterInstance) : option error :=
  match ValidateClusterInstance ci with
  | Some err => Some (Errorf "%s: %w" [FStr validationFailedMsg; FErr err])
  | None => None
  end.

(** [newClusterInstance.Spec.Reinstall.Generation != oldClusterInstance.Spec.Reinstall.Generation],
    which panics when either pointer is nil. *)
Definition reinstall_generation_differs (old new : ClusterInstance) : outcome bool :=
  match Spec_Reinstall (CI_Spec new), Spec_Reinstall (CI_Spec old) with
  | Some n, Some o => Ret (negb (String.eqb (RSpec_Generation n) (RSpec_Generation o)))
  | _, _ => Panic "invalid memory address or nil pointer dereference"
  end.

Definition deletion_time_is_zero (ci : ClusterInstance) : bool :=
  match Meta_DeletionTimestamp (CI_Meta ci) with None => true | Some t => IsZero t end.

(* src: src/api/v1alpha1/clusterinstance_webhook.go 88-167 clusterInstanceValidator.ValidateUpdate *)
Definition ValidateUpdate (old new : ClusterInstance) : outcome (option error) :=
  if negb (deletion_time_is_zero new) then Ret None
  else if negb (Spec_HoldInstallation (CI_Spec old)) && Spec_HoldInstallation (CI_Spec new) then
    Ret (Some (ErrorString
      "holdInstallation can only be set to true during creation, not during updates"))
  else
    let permission := determineSpecChangePermission old new in
    if IsBlocked permission then
      if hasSpecChanged old new then
        Ret (Some (ErrorString
          "spec update not allowed during provisioning or cluster reinstalls"))
      else Ret None
    else if AllowsAllChanges permission then Ret (validate_general new)
    else if isProvisioningCompleted new then
      let reinstallRequested := bool_decide (permission = SpecChangeReinstall) in
      let post :=
        match validatePostProvisioningChanges old new reinstallRequested with
        | Some err => Ret (Some (Errorf "invalid spec changes detected: %w" [FErr err]))
        | None => Ret (validate_general new)
        end in
      if reinstallRequested then
        match (if isReinstallInProgress new then reinstall_generation_differs old new
               else Ret false) with
        | Panic msg => Panic msg
        | Ret true =>
            Ret (Some (ErrorString "reinstall Generation update not allowed during reinstall"))
        | Ret false =>
            match validateReinstallRequest new with
            | Some err => Ret (Some (Errorf "invalid reinstall fields: %w" [FErr err]))
            | None => post
            end
        end
      else post
    else Ret (validate_general new).

(* src: src/api/v1alpha1/clusterinstance_webhook.go 170-174 clusterInstanceValidator.ValidateDelete *)
Definition ValidateDelete (ci : ClusterInstance) : option error := None.
