(* ===== verification/ValidationSpec.v ===== *)
(** * Admission validation: theorems

    What the webhook accepts and rejects: the permission an update is checked under, the fields
    that stay immutable after provisioning, the node changes that are refused, and the
    conditions on control-plane counts and reinstall requests. *)
From Stdlib Require Import Ascii.
From S2P Require Import Prelude GoStd JsonScan JsonDiff Regex Types Conditions Samples.
From S2P Require Import Validation.

(** ** Path patterns *)

Lemma segments_match_spec ps ss :
  segments_match ps ss = true <->
  (length ps <= length ss)%nat
  /\ forall i p s, ps !! i = Some p -> ss !! i = Some s -> p = "*" \/ s = p.
Proof.
  revert ss. induction ps as [|p ps IH]; intros [|s ss]; cbn [segments_match length].
  - split; [|done]. intros _. split; [lia|]. by intros [] ??.
  - split; [|done]. intros _. split; [lia|]. by intros [] ??.
  - split; [done|]. intros [H _]. lia.
  - rewrite andb_true_iff, orb_true_iff, !String.eqb_eq, IH. split.
    + intros [Hp [Hl Hi]]. split; [lia|]. intros [|i] p' s' H1 H2; simplify_eq/=; [done|].
      by eapply Hi.
    + intros [Hl Hi]. split; [by apply (Hi 0%nat)|]. split; [lia|].
      intros i p' s' H1 H2. by apply (Hi (S i)).
Qed.

Lemma pathMatchesPattern_segments path pattern :
  pathMatchesPattern path pattern = segments_match (Split pattern "/") (Split path "/").
Proof.
  unfold pathMatchesPattern. case_goal; [|done]. apply Nat.ltb_lt in Heqb. symmetry.
  apply not_true_iff_false. rewrite segments_match_spec. lia.
Qed.

(** A path under [/k] is matched only by the patterns whose first segment is [k] or a
    wildcard. *)
Lemma no_slash_escape k : has_byte "/" (appendEscapeKey k) = false.
Proof.
  induction k as [|c k IH]; simpl; [done|].
  destruct (Ascii.eqb c "/") eqn:E; [by rewrite sapp_cons; simpl|].
  destruct (Ascii.eqb c "~"); [by rewrite sapp_cons; simpl|]. simpl. by rewrite E, IH.
Qed.

Lemma Split_under k path :
  path_under (appendKey "" k) path ->
  exists rest, Split path "/" = "" :: appendEscapeKey k :: rest.
Proof.
  intros (suf & -> & Hs). unfold appendKey. rewrite sapp_nil_l, sapp_assoc.
  change ("/" +:+ ?x) with (String "/" x).
  cbn [Split]. destruct Hs as [->|[s ->]].
  - exists []. change (Ascii.eqb "/" "/") with true. cbv iota.
    rewrite sapp_nil_r, Split_no_sep by apply no_slash_escape. done.
  - exists (Split s "/"). change (Ascii.eqb "/" "/") with true. cbv iota.
    change ("/" +:+ s) with (String "/" s). by rewrite Split_app by apply no_slash_escape.
Qed.

Lemma escape_plain k : has_byte "~" (appendEscapeKey k) = false -> appendEscapeKey k = k.
Proof.
  induction k as [|c k IH]; simpl; [done|].
  destruct (Ascii.eqb c "/") eqn:E1; [by rewrite sapp_cons; simpl|].
  destruct (Ascii.eqb c "~") eqn:E2; [by rewrite sapp_cons; simpl|].
  simpl. rewrite E2. simpl. intros H. by rewrite IH.
Qed.

Lemma escape_eq k p : appendEscapeKey k = p -> has_byte "~" p = false -> k = p.
Proof. intros <- H. symmetry. by apply escape_plain. Qed.

(** ** The JSON of a spec is a canonical document *)

Definition ojson_wf (o : option json) : Prop :=
  match o with Some v => json_wf v = true | None => True end.

Lemma mk_obj_wf l : Forall (fun kv : string * option json => ojson_wf kv.2) l -> json_wf (mk_obj l) = true.
Proof. apply obj_of_wf. Qed.

Lemma omit_str_wf s : ojson_wf (omit_str s).
Proof. unfold omit_str. by destruct (String.eqb s ""). Qed.
Lemma omit_bool_wf b : ojson_wf (omit_bool b).
Proof. by destruct b. Qed.
Lemma omit_int_wf z : ojson_wf (omit_int z).
Proof. unfold omit_int. by destruct (Z.eqb z 0). Qed.
Lemma omit_ptr_wf {A} (f : A -> json) o : (forall x, json_wf (f x) = true) -> ojson_wf (omit_ptr f o).
Proof. intros Hf. destruct o; simpl; [apply Hf|done]. Qed.
Lemma arr_wf {A} (f : A -> json) l :
  Forall (fun x => json_wf (f x) = true) l -> json_wf (JArr (List.map f l)) = true.
Proof. intros H. simpl. induction H as [|x l Hx _ IH]; simpl; [done|]. by rewrite Hx, IH. Qed.
Lemma omit_list_wf {A} (f : A -> json) l : (forall x, json_wf (f x) = true) -> ojson_wf (omit_list f l).
Proof.
  intros Hf. unfold omit_list. destruct l; [done|]. by apply arr_wf, Forall_true.
Qed.
Lemma map_obj_wf {A} (f : A -> json) (l : list (string * A)) :
  (forall x, json_wf (f x) = true) ->
  json_wf (mk_obj (List.map (fun kv => (kv.1, Some (f kv.2))) l)) = true.
Proof. intros Hf. apply mk_obj_wf. rewrite List.Forall_map. apply Forall_true. simpl. auto. Qed.
Lemma omit_map_wf {A} (f : A -> json) (m : gmap string A) :
  (forall x, json_wf (f x) = true) -> ojson_wf (omit_map f m).
Proof. intros Hf. unfold omit_map. destruct (map_to_list m); [done|]. by apply map_obj_wf. Qed.

#[local] Hint Resolve omit_str_wf omit_bool_wf omit_int_wf omit_ptr_wf omit_list_wf omit_map_wf
  map_obj_wf : sc.

Ltac obj_wf := intros; apply mk_obj_wf; repeat constructor; simpl; eauto with sc.

Lemma Reference_wf r : json_wf (marshal_Reference r) = true. Proof. obj_wf. Qed.
Lemma ResourceRef_wf r : json_wf (marshal_ResourceRef r) = true. Proof. obj_wf. Qed.
Lemma LocalObjectReference_wf r : json_wf (marshal_LocalObjectReference r) = true.
Proof. obj_wf. Qed.
Lemma TangConfig_wf t : json_wf (marshal_TangConfig t) = true. Proof. obj_wf. Qed.
#[local] Hint Resolve Reference_wf ResourceRef_wf LocalObjectReference_wf TangConfig_wf : sc.
Lemma DiskEncryption_wf d : json_wf (marshal_DiskEncryption d) = true. Proof. obj_wf. Qed.
Lemma MachineNetworkEntry_wf e : json_wf (marshal_MachineNetworkEntry e) = true.
Proof. obj_wf. Qed.
Lemma ClusterNetworkEntry_wf e : json_wf (marshal_ClusterNetworkEntry e) = true.
Proof. obj_wf. Qed.
Lemma ServiceNetworkEntry_wf e : json_wf (marshal_ServiceNetworkEntry e) = true.
Proof. obj_wf. Qed.
Lemma ReinstallSpec_wf r : json_wf (marshal_ReinstallSpec r) = true. Proof. obj_wf. Qed.
Lemma smap_wf m : json_wf (marshal_smap m) = true.
Proof. apply (map_obj_wf JStr). done. Qed.
#[local] Hint Resolve DiskEncryption_wf MachineNetworkEntry_wf ClusterNetworkEntry_wf
  ServiceNetworkEntry_wf ReinstallSpec_wf smap_wf : sc.

(** The values third parties own are decoded documents. *)
Definition opaque_node_wf (n : NodeSpec) : bool :=
  from_option json_wf true (Node_RootDeviceHints n) && from_option json_wf true (Node_NodeNetwork n).

Definition opaque_wf (s : ClusterInstanceSpec) : bool :=
  from_option json_wf true (Spec_Proxy s) && forallb opaque_node_wf (Spec_Nodes s).

Lemma ojson_wf_option o : from_option json_wf true o = true -> ojson_wf o.
Proof. by destruct o. Qed.

Lemma NodeSpec_wf n : opaque_node_wf n = true -> json_wf (marshal_NodeSpec n) = true.
Proof.
  intros H. apply andb_prop in H as [H1%ojson_wf_option H2%ojson_wf_option].
  unfold marshal_NodeSpec. apply mk_obj_wf. unfold node_fields.
  repeat apply Forall_cons_2; try apply Forall_nil_2; cbn [snd]; eauto with sc; try done.
  apply arr_wf, Forall_true. eauto with sc.
Qed.

Lemma Spec_wf s : opaque_wf s = true -> json_wf (marshal_Spec s) = true.
Proof.
  intros H. apply andb_prop in H as [H1%ojson_wf_option H2].
  unfold marshal_Spec. apply mk_obj_wf. unfold spec_fields.
  repeat apply Forall_cons_2; try apply Forall_nil_2; cbn [snd]; eauto with sc; try done.
  - apply LocalObjectReference_wf.
  - apply arr_wf, Forall_true. eauto with sc.
  - apply arr_wf. rewrite List.forallb_forall in H2. apply List.Forall_forall. intros n Hn.
    apply NodeSpec_wf. eauto.
Qed.

(** ** Immutable fields *)

(** The member [k] of the JSON of a spec. *)
Definition spec_member (k : string) (s : ClusterInstanceSpec) : option json :=
  obj_get k (obj_of (spec_fields s)).

(** The members of the spec an update after provisioning may touch at all. *)
Definition mutableSpecKeys (reinstall : bool) : list string :=
  [ "extraAnnotations"; "extraLabels"; "suppressedManifests"; "pruneManifests";
    "clusterImageSetNameRef"; "holdInstallation"; "nodes"; "cpuArchitecture" ]
  ++ (if reinstall then [ "reinstall" ] else []).

Lemma pattern_other_key path k rest p1 ps pattern :
  Split path "/" = "" :: appendEscapeKey k :: rest ->
  Split pattern "/" = "" :: p1 :: ps ->
  has_byte "~" p1 = false -> p1 <> "*" -> k <> p1 ->
  pathMatchesPattern path pattern = false.
Proof.
  intros Hs Hp Ht Hw Hk. rewrite pathMatchesPattern_segments, Hs, Hp. simpl.
  destruct (String.eqb_spec p1 "*") as [|_]; [done|].
  destruct (String.eqb_spec (appendEscapeKey k) p1) as [E|_]; [|done].
  by apply escape_eq in E.
Qed.

(** The patterns the loop tries an operation against, by their first segment. *)
Definition allowedUpdates (allowReinstall : bool) : list string :=
  ClusterLevelAllowedPaths ++ NodeLevelAllowedPaths
  ++ (if allowReinstall then ReinstallClusterPaths ++ getReinstallNodePaths else []).

Definition first_segment (pattern : string) : string := nth 1 (Split pattern "/") "".

Lemma mutable_plain r p1 : p1 ∈ mutableSpecKeys r -> has_byte "~" p1 = false /\ p1 <> "*".
Proof.
  assert (H : Forall (fun p => has_byte "~" p = false /\ p <> "*") (mutableSpecKeys r)).
  { destruct r; repeat constructor; done. }
  rewrite Forall_forall in H. apply H.
Qed.

Lemma allowed_first_segment r pat :
  pat ∈ "/nodes" :: "/nodes/*" :: allowedUpdates r ->
  exists ps, Split pat "/" = "" :: first_segment pat :: ps /\ first_segment pat ∈ mutableSpecKeys r.
Proof.
  assert (H : Forall (fun pat => exists ps, Split pat "/" = "" :: first_segment pat :: ps
    /\ first_segment pat ∈ mutableSpecKeys r) ("/nodes" :: "/nodes/*" :: allowedUpdates r)).
  { destruct r; repeat constructor; eexists; (split; [vm_compute; reflexivity|]);
      apply (bool_decide_unpack _); by vm_compute. }
  rewrite Forall_forall in H. apply H.
Qed.

Lemma other_key_no_match r op k pat :
  k ∉ mutableSpecKeys r -> path_under (appendKey "" k) (Op_Path op) ->
  pat ∈ "/nodes" :: "/nodes/*" :: allowedUpdates r ->
  pathMatchesPattern (Op_Path op) pat = false.
Proof.
  intros Hk Hp Hin. destruct (Split_under k (Op_Path op) Hp) as [rest Hs].
  destruct (allowed_first_segment r pat Hin) as (ps & Hsp & Hm).
  destruct (mutable_plain r _ Hm). eapply pattern_other_key; [exact Hs|exact Hsp|done|done|].
  intros E. by rewrite E in Hk.
Qed.

Lemma other_key_not_crd r op k :
  k ∉ mutableSpecKeys r -> path_under (appendKey "" k) (Op_Path op) ->
  isCRDUpgradeFieldChange op = false.
Proof.
  intros Hk Hp. destruct (Split_under k (Op_Path op) Hp) as [rest Hs].
  unfold isCRDUpgradeFieldChange. destruct (String.eqb_spec (Op_Path op) "/cpuArchitecture") as [E|]; [|done].
  rewrite E in Hs. vm_compute in Hs. injection Hs as Hk' _. symmetry in Hk'.
  apply escape_eq in Hk'; [|done]. subst k. destruct Hk. unfold mutableSpecKeys. set_solver.
Qed.

(** A difference under a member that is not mutable is recorded as restricted. *)
Lemma restricted_key r scaling a op k :
  k ∉ mutableSpecKeys r -> path_under (appendKey "" k) (Op_Path op) ->
  restricted (allowedUpdates r) scaling a op = true.
Proof.
  intros Hk Hp. unfold restricted.
  assert (Hany : pathMatchesAnyPattern (Op_Path op) (allowedUpdates r) = false).
  { apply not_true_iff_false. unfold pathMatchesAnyPattern. rewrite existsb_exists.
    intros (pat & Hin & Hm). rewrite <-list_elem_of_In in Hin.
    rewrite (other_key_no_match r op k pat) in Hm; [done|done|done|]. right; right; exact Hin. }
  assert (Hn : pathMatchesPattern (Op_Path op) "/nodes" = false).
  { apply (other_key_no_match r op k); [done|done|]. left. }
  assert (Hns : pathMatchesPattern (Op_Path op) "/nodes/*" = false).
  { apply (other_key_no_match r op k); [done|done|]. right; left. }
  rewrite Hany, Hn, Hns, (other_key_not_crd r op k Hk Hp), !andb_false_r. reflexivity.
Qed.

Definition scaling (old new : ClusterInstance) : bool :=
  negb (length (Spec_Nodes (CI_Spec old)) =? length (Spec_Nodes (CI_Spec new)))%nat.

Lemma jsondiff_accept old new r a :
  validateChangesWithJSONDiff old new r a = None ->
  List.filter (restricted (allowedUpdates r) (scaling old new) a)
    (CompareJSON (marshal_Spec (CI_Spec old)) (marshal_Spec (CI_Spec new))) = [].
Proof.
  unfold validateChangesWithJSONDiff. generalize (CompareJSON (marshal_Spec (CI_Spec old))
    (marshal_Spec (CI_Spec new))) as diffs. intros [|d ds]; [done|].
  fold (allowedUpdates r). fold (scaling old new).
  destruct (List.filter _ _); [done|]. simpl. done.
Qed.

Lemma restricted_nil_key (o n : fields) r sc a k :
  json_wf (JObj o) = true -> json_wf (JObj n) = true ->
  List.filter (restricted (allowedUpdates r) sc a) (CompareJSON (JObj o) (JObj n)) = [] ->
  k ∉ mutableSpecKeys r -> obj_get k o = obj_get k n.
Proof.
  intros Ho Hn Hf Hk. destruct (decide (obj_get k o = obj_get k n)) as [|Hne]; [done|].
  destruct (CompareJSON_key _ _ k Ho Hn Hne) as (op & Hop & Hp).
  apply list_elem_of_In in Hop.
  assert (Hin : List.In op []).
  { rewrite <-Hf. apply List.filter_In. split; [done|]. by eapply restricted_key. }
  done.
Qed.

Lemma jsondiff_accept_key old new r a k :
  opaque_wf (CI_Spec old) = true -> opaque_wf (CI_Spec new) = true ->
  validateChangesWithJSONDiff old new r a = None -> k ∉ mutableSpecKeys r ->
  spec_member k (CI_Spec old) = spec_member k (CI_Spec new).
Proof.
  intros Ho Hn Hv. eapply restricted_nil_key; [by apply Spec_wf|by apply Spec_wf|].
  by apply jsondiff_accept.
Qed.

(** C1: After provisioning has completed, an update the webhook accepts leaves every member of
    the spec unchanged, the extra annotations and labels, the suppress and prune lists, the image
    set reference, [holdInstallation], the nodes, [cpuArchitecture] and (on a reinstall request)
    the reinstall request apart. *)
Theorem ValidateUpdate_immutable old new k :
  opaque_wf (CI_Spec old) = true -> opaque_wf (CI_Spec new) = true ->
  deletion_time_is_zero new = true -> isProvisioningCompleted new = true ->
  ValidateUpdate old new = Ret None ->
  k ∉ mutableSpecKeys (isReinstallRequested new) ->
  spec_member k (CI_Spec old) = spec_member k (CI_Spec new).
Proof.
  intros Ho Hn Hdel Hcomp Hv Hk. unfold ValidateUpdate in Hv. rewrite Hdel in Hv. simpl in Hv.
  case_hyp Hv; [done|]. revert Hv. unfold determineSpecChangePermission. rewrite Hcomp.
  rewrite andb_false_r. destruct (_ || _) eqn:Hblocked.
  - change (IsBlocked SpecChangeBlocked) with true. unfold hasSpecChanged. case_bool_decide; [|done].
    intros _. congruence.
  - assert (Hpost : forall r, validatePostProvisioningChanges old new r = None ->
      k ∉ mutableSpecKeys r -> spec_member k (CI_Spec old) = spec_member k (CI_Spec new)).
    { intros r Hp Hkr. unfold validatePostProvisioningChanges in Hp. case_hyp Hp; [done|].
      by eapply jsondiff_accept_key. }
    destruct (isReinstallRequested new); unfold IsBlocked, AllowsAllChanges; simpl;
      [|destruct (validatePostProvisioningChanges old new false) eqn:Hp; [done|eauto]].
    repeat case_goal; try done. eauto.
Qed.

Lemma ValidateUpdate_immutable_witness :
  let new := sno_reinstall (sample_node "node1" "idrac-virtualmedia+https://10.0.0.9"
               "00:00:5E:00:53:09" "master") in
  ValidateUpdate sno new = Ret None
  /\ spec_member "baseDomain" (CI_Spec sno) = spec_member "baseDomain" (CI_Spec new).
Proof.
  split; [vm_compute; reflexivity|].
  apply ValidateUpdate_immutable; try (vm_compute; reflexivity).
  apply (bool_decide_unpack _). vm_compute. exact I.
Defined.

(** ** Totality and blocking *)

Lemma permission_reinstall old new :
  determineSpecChangePermission old new = SpecChangeReinstall ->
  isReinstallInProgress new = false /\ isProvisioningCompleted new = true
  /\ isReinstallRequested new = true.
Proof.
  unfold determineSpecChangePermission. intros H. case_hyps. bools. by repeat split.
Qed.

(** [ValidateUpdate] never dereferences a nil reinstall request: the branch that compares
    the two generations is only reached when an update is already blocked. *)
Theorem ValidateUpdate_total old new : exists r, ValidateUpdate old new = Ret r.
Proof.
  unfold ValidateUpdate. repeat (case_goal; try (by eexists)); simplify_eq.
  match goal with H : bool_decide _ = true |- _ =>
    apply bool_decide_eq_true_1, permission_reinstall in H as [Hin _] end.
  by rewrite Hin in *.
Qed.

(** C26: While provisioning or a reinstall is in progress, or when neither is known to have
    completed, an accepted update of an object that is not being deleted leaves the spec as it
    is, unless installation was on hold. *)
Theorem ValidateUpdate_blocked old new :
  deletion_time_is_zero new = true ->
  Spec_HoldInstallation (CI_Spec old) = false ->
  isProvisioningInProgress new = true \/ isReinstallInProgress new = true
    \/ isProvisioningCompleted new = false ->
  ValidateUpdate old new = Ret None -> CI_Spec new = CI_Spec old.
Proof.
  intros Hdel Hhold Hst. unfold ValidateUpdate, determineSpecChangePermission.
  rewrite Hdel, Hhold. simpl. case_goal; [done|].
  assert (Hp : (if isProvisioningInProgress new || isReinstallInProgress new then SpecChangeBlocked
    else if isProvisioningCompleted new then
      if isReinstallRequested new then SpecChangeReinstall else SpecChangeBaseOnly
    else SpecChangeBlocked) = SpecChangeBlocked).
  { destruct Hst as [-> |[-> | ->]]; rewrite ?orb_true_r; [done|done|]. by case_goal. }
  rewrite Hp. change (IsBlocked SpecChangeBlocked) with true. unfold hasSpecChanged.
  by case_bool_decide.
Qed.

Lemma ValidateUpdate_blocked_witness : CI_Spec sno_provisioning = CI_Spec sno_provisioning.
Proof.
  apply ValidateUpdate_blocked; try (vm_compute; reflexivity).
  left. vm_compute. reflexivity.
Defined.

(** ** Nodes *)

Definition node_key (n : NodeSpec) : option string :=
  match generateNodeMatchingKey n with Ok k => Some k | Err _ => None end.

Lemma unauthorized_nil o n :
  getUnauthorizedChanges o n false = [] ->
  Node_BmcAddress n = Node_BmcAddress o /\ Node_BootMACAddress n = Node_BootMACAddress o.
Proof.
  unfold getUnauthorizedChanges.
  destruct (String.eqb_spec (Node_BmcAddress o) (Node_BmcAddress n)) as [->|]; [|done].
  destruct (String.eqb_spec (Node_BootMACAddress o) (Node_BootMACAddress n)) as [->|]; done.
Qed.

Lemma checkNewNodes_mono m ns r a :
  hasUnauthorizedChanges a = true -> hasUnauthorizedChanges (checkNewNodes m ns r a) = true.
Proof.
  revert a. induction ns as [|n ns IH]; intros a Ha; simpl; [done|].
  repeat case_goal; simplify_eq/=; try done; by apply IH.
Qed.

Lemma checkNewNodes_ok m ns r a n key o :
  hasUnauthorizedChanges (checkNewNodes m ns r a) = false ->
  n ∈ ns -> node_key n = Some key -> m !! key = Some o ->
  getUnauthorizedChanges o n r = [].
Proof.
  revert a. induction ns as [|n' ns IH]; intros a Hc Hin Hk Hm; [set_solver|]. simpl in Hc.
  destruct (generateNodeMatchingKey n') as [k'|e] eqn:Ek; [|done].
  apply elem_of_cons in Hin as [<-|Hin]; [|by eapply IH].
  unfold node_key in Hk. rewrite Ek in Hk. simplify_eq. rewrite Hm in Hc.
  destruct (getUnauthorizedChanges o n r) as [|u us]; [done|].
  rewrite checkNewNodes_mono in Hc by done. done.
Qed.

Lemma noneIn_true m ns n key :
  noneIn m ns = Ok true -> n ∈ ns -> node_key n = Some key -> m !! key = None.
Proof.
  induction ns as [|n' ns IH]; intros Hn Hin Hk; [set_solver|]. simpl in Hn.
  destruct (generateNodeMatchingKey n') as [k'|e] eqn:Ek; [|done].
  destruct (m !! k') eqn:Hm; [done|].
  apply elem_of_cons in Hin as [<-|Hin]; [|by apply IH].
  unfold node_key in Hk. rewrite Ek in Hk. by simplify_eq.
Qed.

Lemma sameNodes_new_lookup m acc ns m' n key :
  NoDup (List.map node_key ns) -> sameNodes_new m acc ns = Some m' ->
  node_key n = Some key ->
  (n ∈ ns -> m' !! key = Some n) /\ (node_key n ∉ List.map node_key ns -> m' !! key = acc !! key).
Proof.
  revert acc. induction ns as [|n' ns IH]; intros acc Hnd Hs Hk; simplify_eq/=; [set_solver|].
  apply NoDup_cons in Hnd as [Hn Hnd].
  destruct (generateNodeMatchingKey n') as [k'|e] eqn:Ek; [|done].
  destruct (m !! k'); [|done]. destruct (IH _ Hnd Hs Hk) as [H1 H2].
  assert (Hk' : node_key n' = Some k') by (unfold node_key; by rewrite Ek).
  split.
  - intros [->|Hin]%elem_of_cons; [|by apply H1]. rewrite H2 by done.
    rewrite Hk in Hk'. simplify_eq. by rewrite lookup_insert_eq.
  - intros [Hne Hnin]%not_elem_of_cons. rewrite (H2 Hnin), lookup_insert_ne; [done|].
    intros ->. congruence.
Qed.

Lemma node_member n k :
  obj_get k (obj_of (node_fields n)) = ofields_get k (node_fields n).
Proof. apply obj_of_get. Qed.

Lemma marshal_node_bmc a b :
  marshal_NodeSpec a = marshal_NodeSpec b ->
  Node_BmcAddress a = Node_BmcAddress b /\ Node_BootMACAddress a = Node_BootMACAddress b.
Proof.
  unfold marshal_NodeSpec. rewrite !mk_obj_of. intros [= H].
  pose proof (f_equal (obj_get "bmcAddress") H) as H1.
  pose proof (f_equal (obj_get "bootMACAddress") H) as H2.
  rewrite !node_member in H1, H2. cbn in H1, H2. split; congruence.
Qed.

Lemma areSameNodeSets_lookup old new m n key o :
  areSameNodeSets old new = true -> NoDup (List.map node_key new) ->
  nodeMap ∅ old = Ok m -> m !! key = Some o -> n ∈ new -> node_key n = Some key ->
  marshal_NodeSpec o = marshal_NodeSpec n.
Proof.
  unfold areSameNodeSets. intros Hs Hnd Hm Ho Hin Hk. rewrite Hm in Hs.
  case_hyp Hs; [done|]. destruct (sameNodes_new m ∅ new) as [m'|] eqn:Hn; [|done].
  rewrite List.forallb_forall in Hs.
  assert (Hi : List.In (key, o) (map_to_list m)) by (by apply list_elem_of_In, elem_of_map_to_list).
  specialize (Hs _ Hi). cbn [fst snd] in Hs.
  destruct (sameNodes_new_lookup m ∅ new m' n key Hnd Hn Hk) as [Hl _].
  rewrite (Hl Hin) in Hs. by apply bool_decide_eq_true_1 in Hs.
Qed.

(** The analysis that reports nothing unauthorised, without a reinstall. *)
Lemma analyzeNodeChanges_ok old new m n key o :
  hasUnauthorizedChanges (analyzeNodeChanges old new false) = false ->
  NoDup (List.map node_key new) -> nodeMap ∅ old = Ok m -> m !! key = Some o ->
  n ∈ new -> node_key n = Some key ->
  Node_BmcAddress n = Node_BmcAddress o /\ Node_BootMACAddress n = Node_BootMACAddress o.
Proof.
  intros Ha Hnd Hm Ho Hin Hk.
  assert (Hcheck : forall a, hasUnauthorizedChanges (checkNodeModifications a old new false) = false ->
    Node_BmcAddress n = Node_BmcAddress o /\ Node_BootMACAddress n = Node_BootMACAddress o).
  { intros a Hc. unfold checkNodeModifications in Hc. rewrite Hm in Hc.
    apply unauthorized_nil. by eapply checkNewNodes_ok. }
  unfold analyzeNodeChanges in Ha. case_hyp Ha.
  - case_hyp Ha.
    + destruct (marshal_node_bmc o n); [by eapply areSameNodeSets_lookup|done].
    + unfold isPureNodeReplacement in Ha. rewrite Heqb, Hm in Ha. simpl in Ha.
      destruct (noneIn m new) as [[]|] eqn:Hn; [|by eapply Hcheck|done].
      by rewrite (noneIn_true m new n key) in Ho.
  - destruct (analyzeNodeAdditionsAndRemovals old new) as [[added removed]|e]; [|done].
    by eapply Hcheck.
Qed.


Definition sno_scaled : ClusterInstance := sample_ci [node1; worker1] None Completed None.


(** ** Control-plane counts *)

(** What each cluster type requires of the roles of the nodes. *)
Definition control_plane_ok (clusterType : string) (masters arbiters : nat) : Prop :=
  if decide (clusterType = ClusterTypeHostedControlPlane) then masters = 0 /\ arbiters = 0
  else if decide (clusterType = ClusterTypeHighlyAvailableArbiter) then 2 <= masters /\ 1 <= arbiters
  else if decide (clusterType = ClusterTypeSNO) then masters = 1 /\ arbiters = 0
  else 1 <= masters /\ arbiters = 0.

(** The control-plane check accepts exactly the clusters whose numbers of master and arbiter
    nodes fit the cluster type: none for a hosted control plane, at least two masters and one
    arbiter for an arbiter cluster, one master for SNO, at least one master otherwise, and
    arbiters nowhere else. *)
Theorem validateControlPlaneAgentCount_spec ci :
  validateControlPlaneAgentCount ci = None <->
  control_plane_ok (Spec_ClusterType (CI_Spec ci))
    (count_role "master" (Spec_Nodes (CI_Spec ci))) (count_role "arbiter" (Spec_Nodes (CI_Spec ci))).
Proof.
  unfold validateControlPlaneAgentCount, control_plane_ok.
  generalize (count_role "master" (Spec_Nodes (CI_Spec ci))) as m.
  generalize (count_role "arbiter" (Spec_Nodes (CI_Spec ci))) as a.
  generalize (Spec_ClusterType (CI_Spec ci)) as t. intros t a m.
  destruct (String.eqb_spec t ClusterTypeHostedControlPlane),
    (String.eqb_spec t ClusterTypeSNO),
    (String.eqb_spec t ClusterTypeHighlyAvailableArbiter); subst;
    try match goal with H : @eq string _ _ |- _ => discriminate H end;
    repeat case_decide; try done;
    destruct (Nat.ltb_spec m 1), (Nat.ltb_spec 0 m), (Nat.eqb_spec m 1), (Nat.ltb_spec m 2),
      (Nat.ltb_spec a 1), (Nat.ltb_spec 0 a); simpl;
    split; intros; try done; lia.
Qed.

(** ** Reinstall requests *)

Lemma alnum_name c : is_lower_alnum c = true -> is_name_byte c = true.
Proof. unfold is_name_byte. by intros ->. Qed.

(** C37: A reinstall generation is accepted exactly when it has one to 153 bytes, all lower-case
    letters, digits or dashes, the first and the last of them not a dash. *)
Theorem validateReinstallGeneration_spec g :
  validateReinstallGeneration g = None <->
  (String.length g <= maxGenerationLength)%nat
  /\ exists c d, String.get 0 g = Some c /\ last_byte g = Some d
       /\ is_lower_alnum c = true /\ is_lower_alnum d = true /\ all_bytes is_name_byte g = true.
Proof.
  unfold validateReinstallGeneration. rewrite <-(lang_bounded_word _ _ g alnum_name).
  fold validNameRegex. rewrite <-MatchString_lang.
  destruct (String.eqb_spec g "") as [->|]; [by split; intros; destruct_and?|].
  destruct (Nat.ltb_spec maxGenerationLength (String.length g)).
  - split; [done|]. intros [? _]. lia.
  - destruct (MatchString validNameRegex g); simpl; split; try done. by intros [_ ?].
Qed.



(** ** What the substring test on node paths lets through *)

Definition node1_renamed_nic : NodeSpec :=
  mkNodeSpec (Node_BmcAddress node1) (Node_BmcCredentialsName node1) (Node_BootMACAddress node1)
    (Node_AutomatedCleaningMode node1) (Node_RootDeviceHints node1)
    (Some (JObj [("interfaces",
      JArr [JObj [("macAddress", JStr "00:00:00:01:20:30"); ("name", JStr "eno2")]])]))
    (Node_NodeLabels node1) (Node_HostName node1) (Node_HostRef node1) (Node_CPUArchitecture node1)
    (Node_BootMode node1) (Node_InstallerArgs node1) (Node_IgnitionConfigOverride node1)
    (Node_Role node1) (Node_ExtraAnnotations node1) (Node_ExtraLabels node1)
    (Node_SuppressedManifests node1) (Node_PruneManifests node1) (Node_IronicInspect node1)
    (Node_TemplateRefs node1).

(** With a reinstall request, the webhook accepts an update that renames a network interface
    of a node, although none of the paths the permission lists allows it: node differences are
    first tested for containing the text [nodeNetwork/interfaces], and every path under [/nodes]
    is then let through. *)
Theorem reinstall_accepts_interface_rename :
  let new := sno_reinstall node1_renamed_nic in
  ValidateUpdate sno new = Ret None
  /\ Spec_Nodes (CI_Spec new) <> Spec_Nodes (CI_Spec sno)
  /\ pathMatchesAnyPattern "/nodes/0/nodeNetwork/interfaces/0/name" (GetAllowedPaths SpecChangeReinstall)
     = false.
Proof. split; [vm_compute; reflexivity|]. split; [|vm_compute; reflexivity]. intros H. inv H. Qed.
