(* ===== verification/K8s.v ===== *)
(** * Kubernetes as the operator sees it

    Every call the operator makes on the hub API, on a managed cluster and on the clock is an
    [ApiCall] with the type of its response. A [Server] answers them: it stands for the API
    server, the other controllers and everything else outside the repository, so it is a
    parameter of every theorem, with no assumption on its answers unless a theorem names one.

    A program is a [Prog] of the prelude whose memory is the ClusterInstance that the methods
    share through a pointer. Its events are the calls made with their responses. *)
From S2P Require Import Prelude GoStd Types Errors.

(** ** Objects other than ClusterInstances *)

(** A ConfigMap or a Secret, by [Res_Kind]. Nil and empty labels are told apart by one caller. *)
Record Resource := mkResource {
  Res_Kind : string;
  Res_Namespace : string;
  Res_Name : string;
  Res_Labels : option smap;
  Res_Annotations : smap;
  Res_ResourceVersion : string;
  Res_UID : string;
  Res_CreationTimestamp : Time;
  Res_OwnerReferences : list string;
  Res_Type : string;
  Res_Immutable : option bool;
  Res_Data : smap
}.

#[export] Instance Resource_eq_dec : EqDecision Resource.
Proof. solve_decision. Defined.

Definition Res_key (r : Resource) : ObjectKey := mkObjectKey (Res_Namespace r) (Res_Name r).
Definition Res_labels (r : Resource) : smap := default ∅ (Res_Labels r).

#[export] Instance ObjectKey_eq_dec : EqDecision ObjectKey.
Proof. solve_decision. Defined.

(** A label selector of one requirement. *)
Inductive Selector :=
| SelExists (key : string)
| SelEquals (key value : string).

Definition Selector_matches (s : Selector) (labels : smap) : bool :=
  match s with
  | SelExists k => bool_decide (is_Some (labels !! k))
  | SelEquals k v => bool_decide (labels !! k = Some v)
  end.

(** hive's ClusterDeployment, ClusterImageSet and OCM's ManagedCluster, as far as they are
    read. *)
Record ClusterDeployment := mkClusterDeployment {
  CD_Name : string;
  CD_Namespace : string;
  CD_Labels : smap;
  CD_Installed : bool;
  CD_Conditions : list ClusterDeploymentCondition
}.

Record ClusterImageSet := mkClusterImageSet { CIS_ReleaseImage : string }.

Record ManagedCluster := mkManagedCluster {
  MC_Name : string;
  MC_Conditions : list Condition
}.

Definition CI_key (ci : ClusterInstance) : ObjectKey :=
  mkObjectKey (Meta_Namespace (CI_Meta ci)) (Meta_Name (CI_Meta ci)).

(** ** Calls *)

Inductive ApiCall : Type -> Type :=
| GetCI (key : ObjectKey) : ApiCall (result ClusterInstance)
| PatchCI (old new : ClusterInstance) : ApiCall (result ClusterInstance)
| StatusPatchCI (old new : ClusterInstance) : ApiCall (result ClusterInstance)
| StatusUpdateCI (new : ClusterInstance) : ApiCall (result ClusterInstance)
| GetResource (kind : string) (key : ObjectKey) : ApiCall (result Resource)
| ListResources (kind namespace : string) (selector : Selector) : ApiCall (result (list Resource))
| CreateResource (r : Resource) : ApiCall (result Resource)
| UpdateResource (r : Resource) : ApiCall (result Resource)
| PatchResource (old new : Resource) : ApiCall (result Resource)
| DeleteResource (kind : string) (key : ObjectKey) : ApiCall (option error)
| GetClusterImageSet (name : string) : ApiCall (result ClusterImageSet)
| GetClusterDeployment (key : ObjectKey) : ApiCall (result ClusterDeployment)
| GetManagedCluster (name : string) : ApiCall (result ManagedCluster)
| GetManifestWork (key : ObjectKey) : ApiCall (result fields)
| ObjGet (apiVersion kind : string) (key : ObjectKey) : ApiCall (result ObjectMeta)
| ObjDelete (apiVersion kind : string) (key : ObjectKey) : ApiCall (option error)
| ObjApply (dryRun : bool) (object : fields) : ApiCall (option error)
| RESTConfigFromKubeConfig (kubeconfig : string) : ApiCall (option error)
| NewSpokeClient (kubeconfig : string) (timeout : Z) : ApiCall (option error)
| SpokeGetNamespace (name : string) : ApiCall (option error)
| ApplyToSpoke (object : fields) : ApiCall (option error).

(** Everything outside the operator: how it answers a call, and what the clock shows. *)
Class Server (W : Type) := {
  serve : forall R, ApiCall R -> W -> R * W;
  clock : W -> Time * W
}.
Arguments serve {W _ R} _ _.

Inductive Event : Type :=
| Ev {R : Type} (c : ApiCall R) (r : R).

(** The call that an event records changes the state of the hub or of a managed cluster. *)
Definition mutating (e : Event) : bool :=
  match e with
  | Ev (PatchCI _ _) _ | Ev (StatusPatchCI _ _) _ | Ev (StatusUpdateCI _) _
  | Ev (CreateResource _) _ | Ev (UpdateResource _) _ | Ev (PatchResource _ _) _
  | Ev (DeleteResource _ _) _
  | Ev (ObjDelete _ _ _) _ | Ev (ObjApply false _) _ | Ev (ApplyToSpoke _) _ => true
  | _ => false
  end.

(** The order in which [range] visits a map. *)
Class MapRange := {
  range_map : smap -> list (string * string);
  range_map_perm : forall m, range_map m ≡ₚ map_to_list m
}.

#[export] Instance MapRange_list : MapRange := {
  range_map := map_to_list;
  range_map_perm := fun m => reflexivity (map_to_list m)
}.

Section calls.
Context {W : Type} `{Server W}.

Abbreviation M := (Prog ClusterInstance W Event).

Definition call {S R} (c : ApiCall R) : Prog S W Event R :=
  fun s w => let (r, w') := serve c w in mkRun (Ret r) s w' [Ev c r].

(** [metav1.Now()] *)
Definition Now {S} : Prog S W Event Time :=
  fun s w => let (t, w') := clock w in mkRun (Ret t) s w' [].

(** [r.Get(ctx, key, clusterInstance)] into the shared object *)
Definition fetchCI (key : ObjectKey) : M (option error) :=
  r ← call (GetCI key);
  match r with
  | Ok ci => _ ← modify_mem (fun _ => ci); mret None
  | Err e => mret (Some e)
  end.

(** [c.Patch(ctx, clusterInstance, client.MergeFrom(old))]: the response replaces the object. *)
Definition patchCI (old : ClusterInstance) : M (option error) :=
  new ← get_mem;
  r ← call (PatchCI old new);
  match r with
  | Ok ci => _ ← modify_mem (fun _ => ci); mret None
  | Err e => mret (Some e)
  end.

(** [c.Status().Patch(ctx, clusterInstance, client.MergeFrom(old))] *)
Definition statusPatchCI (old : ClusterInstance) : M (option error) :=
  new ← get_mem;
  r ← call (StatusPatchCI old new);
  match r with
  | Ok ci => _ ← modify_mem (fun _ => ci); mret None
  | Err e => mret (Some e)
  end.

(** [c.Status().Update(ctx, clusterInstance)] *)
Definition statusUpdateCI : M (option error) :=
  new ← get_mem;
  r ← call (StatusUpdateCI new);
  match r with
  | Ok ci => _ ← modify_mem (fun _ => ci); mret None
  | Err e => mret (Some e)
  end.

Lemma wp_call {S R} (c : ApiCall R) Q (s : S) w :
  (forall r w', serve c w = (r, w') -> Q (Ret r) s w' [Ev c r]) -> wp (call c) Q s w.
Proof. unfold wp, call. destruct (serve c w) as [r w']. simpl. eauto. Qed.

Lemma wp_Now {S} Q (s : S) w : (forall t w', clock w = (t, w') -> Q (Ret t) s w' []) -> wp Now Q s w.
Proof. unfold wp, Now. destruct (clock w) as [t w']. simpl. eauto. Qed.

Lemma emits_call {S R} (P : Event -> Prop) (c : ApiCall R) :
  (forall r, P (Ev c r)) -> emits P (call (S := S) c).
Proof. intros HP s w. unfold call. destruct (serve c w). by constructor. Qed.

Lemma steps_Now {S} (P : list Event -> Event -> Prop) : steps P (Now (S := S)).
Proof. intros pre s w. by apply wp_Now. Qed.

Lemma steps_call {S R} (P : list Event -> Event -> Prop) (c : ApiCall R) :
  (forall pre r, P pre (Ev c r)) -> steps P (call (S := S) c).
Proof. intros HP pre s w. apply wp_call. intros r w' _. by split. Qed.

Lemma keeps_Now {S} : keeps (Now (S := S)).
Proof. intros s w. unfold Now. by destruct (clock w). Qed.

Lemma keeps_call {S R} (c : ApiCall R) : keeps (call (S := S) c).
Proof. intros s w. unfold call. by destruct (serve c w). Qed.

Lemma safe_Now {S} (I : S -> Prop) P : safe I P Now.
Proof. intros pre s w Hs. by apply wp_Now. Qed.

Lemma safe_call {S R} (I : S -> Prop) (P : list Event -> Event -> Prop) (c : ApiCall R) :
  (forall pre r, P pre (Ev c r)) -> safe I P (call c).
Proof. intros HP pre s w Hs. apply wp_call. intros r w' _. by split. Qed.

(** What the server answers about a ClusterInstance that satisfies [I] satisfies it too. *)
Class Keeps (I : ClusterInstance -> Prop) : Prop := {
  keeps_get : forall s w ci w', I s -> serve (GetCI (CI_key s)) w = (Ok ci, w') -> I ci;
  keeps_patch : forall old new w ci w', I new -> serve (PatchCI old new) w = (Ok ci, w') -> I ci;
  keeps_status_patch : forall old new w ci w', I new -> serve (StatusPatchCI old new) w = (Ok ci, w') -> I ci
}.

Lemma safe_fetchCI I P `{Keeps I} s0 :
  I s0 -> (forall pre r, P pre (Ev (GetCI (CI_key s0)) r)) -> safe I P (fetchCI (CI_key s0)).
Proof.
  intros Hk HP pre s w Hs. apply wp_bind, wp_call. intros [ci|err] w' Hr.
  - apply wp_bind, wp_modify, wp_ret. split; [exact (keeps_get _ _ _ _ Hk Hr)|by split].
  - apply wp_ret. by split.
Qed.

Lemma safe_patchCI I P `{Keeps I} old :
  (forall pre new r, P pre (Ev (PatchCI old new) r)) -> safe I P (patchCI old).
Proof.
  intros HP pre s w Hs. apply wp_bind, wp_get, wp_bind, wp_call. intros [ci|err] w' Hr.
  - apply wp_bind, wp_modify, wp_ret. split; [by eapply keeps_patch|by split].
  - apply wp_ret. by split.
Qed.

Lemma safe_statusPatchCI I P `{Keeps I} old :
  (forall pre new r, P pre (Ev (StatusPatchCI old new) r)) -> safe I P (statusPatchCI old).
Proof.
  intros HP pre s w Hs. apply wp_bind, wp_get, wp_bind, wp_call. intros [ci|err] w' Hr.
  - apply wp_bind, wp_modify, wp_ret. split; [by eapply keeps_status_patch|by split].
  - apply wp_ret. by split.
Qed.

Lemma emits_Now {S} (P : Event -> Prop) : emits P (Now (S := S)).
Proof. intros s w. unfold Now. destruct (clock w). constructor. Qed.

Lemma emits_fetchCI (P : Event -> Prop) key : (forall r, P (Ev (GetCI key) r)) -> emits P (fetchCI key).
Proof. intros HP. unfold fetchCI. apply emits_bind; [by apply emits_call|]. intros []; emits_go. Qed.

Lemma emits_patchCI (P : Event -> Prop) old :
  (forall new r, P (Ev (PatchCI old new) r)) -> emits P (patchCI old).
Proof.
  intros HP. unfold patchCI. apply emits_bind; [apply emits_get|intros new].
  apply emits_bind; [by apply emits_call|]. intros []; emits_go.
Qed.

Lemma emits_statusPatchCI (P : Event -> Prop) old :
  (forall new r, P (Ev (StatusPatchCI old new) r)) -> emits P (statusPatchCI old).
Proof.
  intros HP. unfold statusPatchCI. apply emits_bind; [apply emits_get|intros new].
  apply emits_bind; [by apply emits_call|]. intros []; emits_go.
Qed.
End calls.

Arguments call {W _ S R} _ _ _ /.

#[export] Hint Resolve emits_Now steps_Now keeps_Now safe_Now : sc.
#[export] Hint Extern 4 (safe _ _ (call _)) => apply safe_call : sc.
#[export] Hint Extern 4 (safe _ _ (fetchCI _)) => apply safe_fetchCI : sc.
#[export] Hint Extern 4 (safe _ _ (patchCI _)) => apply safe_patchCI : sc.
#[export] Hint Extern 4 (safe _ _ (statusPatchCI _)) => apply safe_statusPatchCI : sc.
#[export] Hint Extern 4 (keeps (call _)) => apply keeps_call : sc.
#[export] Hint Extern 4 (steps _ (call _)) => apply steps_call : sc.
#[export] Hint Extern 4 (emits _ (call _)) => apply emits_call : sc.
#[export] Hint Extern 4 (emits _ (fetchCI _)) => apply emits_fetchCI : sc.
#[export] Hint Extern 4 (emits _ (patchCI _)) => apply emits_patchCI : sc.
#[export] Hint Extern 4 (emits _ (statusPatchCI _)) => apply emits_statusPatchCI : sc.

(** The metadata assignments the methods make on the shared object. *)
Definition SetMetaDataAnnotation (key value : string) (ci : ClusterInstance) : ClusterInstance :=
  ci <| CI_Meta ::= fun m => m <| Meta_Annotations ::= <[key := value]> |> |>.
