(* ===== verification/Cluster.v ===== *)
(** * An in-memory cluster

    A concrete [Server]: it answers from lists of objects and applies the writes to them. The
    theorems hold for every server; this one evaluates the programs on examples. *)
From S2P Require Import Prelude GoStd Types Errors K8s.

Record cluster := mkCluster {
  cl_now : Time;
  cl_ci : option ClusterInstance;
  cl_objects : list (string * string * ObjectKey * ObjectMeta);
  cl_resources : list Resource;
  cl_deployments : list ClusterDeployment;
  cl_managed : list ManagedCluster;
  cl_imagesets : list string
}.

Definition not_found (what : string) : error := StatusErr StatusReasonNotFound 404 (what +:+ " not found").
Definition unsupported : error := StatusErr "MethodNotAllowed" 405 "unsupported".

Definition same_object (a k : string) (key : ObjectKey) (x : string * string * ObjectKey * ObjectMeta) : bool :=
  bool_decide (x.1 = (a, k, key)).

(** Deleting an object with finalizers only marks it. *)
Definition remove_object (a k : string) (key : ObjectKey) (w : cluster) : cluster :=
  mkCluster (cl_now w) (cl_ci w)
    (List.concat (List.map (fun x =>
      if same_object a k key x then
        match Meta_Finalizers x.2 with
        | [] => []
        | _ => [(x.1, x.2 <| Meta_DeletionTimestamp := Some (cl_now w) |>)]
        end
      else [x]) (cl_objects w)))
    (cl_resources w) (cl_deployments w) (cl_managed w) (cl_imagesets w).

Definition with_ci (ci : ClusterInstance) (w : cluster) : cluster :=
  mkCluster (cl_now w) (Some ci) (cl_objects w) (cl_resources w) (cl_deployments w) (cl_managed w)
    (cl_imagesets w).

Definition with_objects l (w : cluster) : cluster :=
  mkCluster (cl_now w) (cl_ci w) l (cl_resources w) (cl_deployments w) (cl_managed w) (cl_imagesets w).

Definition with_resources l (w : cluster) : cluster :=
  mkCluster (cl_now w) (cl_ci w) (cl_objects w) l (cl_deployments w) (cl_managed w) (cl_imagesets w).

Definition same_resource (r : Resource) (x : Resource) : bool :=
  String.eqb (Res_Kind x) (Res_Kind r) && bool_decide (Res_key x = Res_key r).

Definition find_resource (kind : string) (key : ObjectKey) (w : cluster) : result Resource :=
  match List.find (fun x => String.eqb (Res_Kind x) kind && bool_decide (Res_key x = key)) (cl_resources w) with
  | Some r => Ok r
  | None => Err (not_found kind)
  end.

(** ConfigMaps and Secrets are served to untyped clients too. *)
Definition is_resource (a k : string) : bool :=
  String.eqb a "v1" && (String.eqb k "ConfigMap" || String.eqb k "Secret").

Definition resource_meta (r : Resource) : ObjectMeta :=
  mkObjectMeta (Res_Name r) (Res_Namespace r) (Res_labels r) (Res_Annotations r) [] 0
    (Res_ResourceVersion r) None.

Definition add_resource (r : Resource) (w : cluster) : cluster := with_resources (r :: cl_resources w) w.
Definition set_resource (r : Resource) (w : cluster) : cluster :=
  with_resources (List.map (fun x => if same_resource r x then r else x) (cl_resources w)) w.
Definition remove_resource (r : Resource) (w : cluster) : cluster :=
  with_resources (List.filter (fun x => negb (same_resource r x)) (cl_resources w)) w.

Definition cluster_serve {R} (c : ApiCall R) : cluster -> R * cluster :=
  match c in ApiCall R return cluster -> R * cluster with
  | GetCI key => fun w =>
      (match cl_ci w with
       | Some ci => if bool_decide (CI_key ci = key) then Ok ci else Err (not_found "ClusterInstance")
       | None => Err (not_found "ClusterInstance")
       end, w)
  | PatchCI _ new => fun w => (Ok new, with_ci new w)
  | StatusPatchCI _ new => fun w => (Ok new, with_ci new w)
  | StatusUpdateCI new => fun w => (Ok new, with_ci new w)
  | GetResource kind key => fun w => (find_resource kind key w, w)
  | ListResources kind ns sel => fun w =>
      (Ok (List.filter (fun r => String.eqb (Res_Kind r) kind
             && (String.eqb ns "" || String.eqb (Res_Namespace r) ns)
             && Selector_matches sel (Res_labels r)) (cl_resources w)), w)
  | CreateResource r => fun w =>
      match find_resource (Res_Kind r) (Res_key r) w with
      | Ok _ => (Err (StatusErr StatusReasonAlreadyExists 409 (Res_Kind r +:+ " already exists")), w)
      | Err _ => (Ok r, add_resource r w)
      end
  | UpdateResource r => fun w =>
      match find_resource (Res_Kind r) (Res_key r) w with
      | Ok _ => (Ok r, set_resource r w)
      | Err e => (Err e, w)
      end
  | PatchResource _ r => fun w =>
      match find_resource (Res_Kind r) (Res_key r) w with
      | Ok _ => (Ok r, set_resource r w)
      | Err e => (Err e, w)
      end
  | DeleteResource kind key => fun w =>
      match find_resource kind key w with
      | Ok r => (None, remove_resource r w)
      | Err e => (Some e, w)
      end
  | GetClusterImageSet name => fun w =>
      (if bool_decide (name ∈ cl_imagesets w) then Ok (mkClusterImageSet name)
       else Err (not_found "ClusterImageSet"), w)
  | GetClusterDeployment key => fun w =>
      (match List.find (fun d => bool_decide (mkObjectKey (CD_Namespace d) (CD_Name d) = key)) (cl_deployments w) with
       | Some d => Ok d
       | None => Err (not_found "ClusterDeployment")
       end, w)
  | GetManagedCluster name => fun w =>
      (match List.find (fun m => String.eqb (MC_Name m) name) (cl_managed w) with
       | Some m => Ok m
       | None => Err (not_found "ManagedCluster")
       end, w)
  | GetManifestWork _ => fun w => (Err (not_found "ManifestWork"), w)
  | ObjGet a k key => fun w =>
      (match List.find (same_object a k key) (cl_objects w) with
       | Some x => Ok x.2
       | None =>
           match find_resource k key w with
           | Ok r => if is_resource a k then Ok (resource_meta r) else Err (not_found k)
           | Err _ => Err (not_found k)
           end
       end, w)
  | ObjDelete a k key => fun w =>
      match List.find (same_object a k key) (cl_objects w) with
      | Some _ => (None, remove_object a k key w)
      | None =>
          match find_resource k key w with
          | Ok r => if is_resource a k then (None, remove_resource r w) else (Some (not_found k), w)
          | Err e => (Some (not_found k), w)
          end
      end
  | ObjApply _ _ => fun w => (None, w)
  | RESTConfigFromKubeConfig _ => fun w => (None, w)
  | NewSpokeClient _ _ => fun w => (None, w)
  | SpokeGetNamespace _ => fun w => (Some unsupported, w)
  | ApplyToSpoke _ => fun w => (Some unsupported, w)
  end.

#[export] Instance cluster_server : Server cluster := {
  serve := fun R c w => cluster_serve c w;
  clock := fun w => (cl_now w, w)
}.

Definition empty_cluster (now : Time) : cluster := mkCluster now None [] [] [] [] [].
