(* ===== verification/Retry.v ===== *)
(** * Retries (internal/controller/retry) and status patches (internal/controller/conditions)

    [retry.OnError] runs a call again while its error is retriable, at most as many times as the
    backoff has steps; waiting between attempts is not modelled, nor is cancellation of the
    context. *)
From S2P Require Import Prelude GoStd Types Errors K8s.

(** The number of attempts of a [wait.Backoff]; the durations only delay. *)
Abbreviation Backoff := nat.

(* src: src/internal/controller/retry/retry.go 12-17 RetryBackoffTwoMinutes *)
Definition RetryBackoffTwoMinutes : Backoff := 120.

(* src: src/internal/controller/retry/retry.go 19-24 RetryBackoff30Seconds *)
Definition RetryBackoff30Seconds : Backoff := 30.

(* src: src/internal/controller/retry/retry.go 26-30 isRetriable *)
Definition isRetriable (err : error) : bool :=
  IsInternalError err || IsServiceUnavailable err || IsConnectionRefused err.

(** [k8sretry.DefaultBackoff] *)
Definition DefaultBackoff : Backoff := 4.

(* src: src/internal/controller/retry/retry.go 36-41 isConflictOrRetriable *)
Definition isConflictOrRetriable (err : error) : bool :=
  IsConflict err || IsInternalError err || IsServiceUnavailable err || IsConnectionRefused err.

Section retry.
Context {W : Type} `{Server W}.

Abbreviation M := (Prog ClusterInstance W Event).

(** [lastErr] is what is returned when the attempts run out. *)
(* src: src/vendor/k8s.io/client-go/util/retry/util.go 48-66 OnError *)
Fixpoint OnError {S} (steps : Backoff) (retriable : error -> bool)
    (fn : Prog S W Event (option error)) (lastErr : option error) : Prog S W Event (option error) :=
  match steps with
  | O => mret lastErr
  | Datatypes.S steps' =>
      r ← fn;
      match r with
      | None => mret None
      | Some err =>
          if retriable err then OnError steps' retriable fn (Some err) else mret (Some err)
      end
  end.

(* src: src/internal/controller/retry/retry.go 32-34 RetryOnRetriable *)
Definition RetryOnRetriable {S} (backoff : Backoff) (fn : Prog S W Event (option error))
    : Prog S W Event (option error) :=
  OnError backoff isRetriable fn None.

(* src: src/internal/controller/retry/retry.go 43-45 RetryOnConflictOrRetriable *)
Definition RetryOnConflictOrRetriable {S} (backoff : Backoff) (fn : Prog S W Event (option error))
    : Prog S W Event (option error) :=
  OnError backoff isConflictOrRetriable fn None.

(* src: src/internal/controller/conditions/conditions.go 43-51 UpdateCIStatus *)
Definition UpdateCIStatus : M (option error) :=
  r ← RetryOnConflictOrRetriable RetryBackoff30Seconds statusUpdateCI;
  mret (match r with
        | Some err => Some (Errorf "failed to update ClusterInstance status: %w" [FErr err])
        | None => None
        end).

(* src: src/internal/controller/conditions/conditions.go 53-68 PatchCIStatus *)
Definition PatchCIStatus (old : ClusterInstance) : M (option error) :=
  r ← RetryOnRetriable RetryBackoff30Seconds (statusPatchCI old);
  mret (match r with
        | Some err => Some (Errorf "failed to update ClusterInstance status: %w" [FErr err])
        | None => None
        end).

(** ** Lemmas *)

Lemma emits_OnError {S} P steps f (fn : Prog S W Event (option error)) lastErr :
  emits P fn -> emits P (OnError steps f fn lastErr).
Proof.
  intros Hfn. revert lastErr. induction steps as [|steps IH]; intros lastErr; simpl; [emits_go|].
  apply emits_bind; [done|]. intros [err|]; [|emits_go]. destruct (f err); [done|emits_go].
Qed.

Lemma emits_PatchCIStatus (P : Event -> Prop) old :
  (forall new r, P (Ev (StatusPatchCI old new) r)) -> emits P (PatchCIStatus old).
Proof.
  intros HP. unfold PatchCIStatus. apply emits_bind; [|intros ?; emits_go].
  by apply emits_OnError, emits_statusPatchCI.
Qed.

Lemma safe_OnError {S} I P steps f (fn : Prog S W Event (option error)) lastErr :
  safe I P fn -> safe I P (OnError steps f fn lastErr).
Proof.
  intros Hfn. revert lastErr. induction steps as [|steps IH]; intros lastErr; simpl; [safe_go|].
  apply safe_bind; [done|]. intros [err|]; [|safe_go]. destruct (f err); [done|safe_go].
Qed.

Lemma safe_PatchCIStatus I P `{!Keeps I} old :
  (forall pre new r, P pre (Ev (StatusPatchCI old new) r)) -> safe I P (PatchCIStatus old).
Proof.
  intros HP. unfold PatchCIStatus. apply safe_bind; [|intros ?; safe_go].
  by apply safe_OnError, safe_statusPatchCI.
Qed.

(** The number of times [fn] is run: each run of [fn] makes one call. *)
Lemma OnError_attempts {S} steps f (fn : Prog S W Event (option error)) lastErr s w :
  (forall s w, length (run_evs (fn s w)) = 1) ->
  length (run_evs (OnError steps f fn lastErr s w)) <= steps.
Proof.
  intros Hfn. revert lastErr s w. induction steps as [|steps IH]; intros lastErr s w; [done|].
  cbn [OnError]. unfold mbind, Prog_bind. specialize (Hfn s w).
  destruct (run_out (fn s w)) as [[err|]|]; simpl; rewrite ?length_app; simpl; try lia.
  destruct (f err); simpl; [|lia]. specialize (IH (Some err) (run_mem (fn s w)) (run_world (fn s w))).
  lia.
Qed.
(** A status patch is retried with the same object, which only a response replaces. *)
Lemma OnError_statusPatch steps f old lastErr s w :
  steps <> 0 ->
  wp (OnError steps f (statusPatchCI old) lastErr) (fun o s' _ ev =>
    exists err, o = Ret err /\ Forall (fun e => exists r, e = Ev (StatusPatchCI old s) r) ev
      /\ match err with
         | Some _ => s' = s
         | None => exists ev0, ev = ev0 ++ [Ev (StatusPatchCI old s) (Ok s')]
         end) s w.
Proof.
  revert lastErr w. induction steps as [|steps IH]; intros lastErr w Hn; [done|].
  cbn [OnError]. apply wp_bind, wp_bind, wp_get, wp_bind, wp_call. intros r w1 _.
  destruct r as [ci|err].
  - apply wp_bind, wp_modify, wp_ret, wp_ret. exists None. split; [done|].
    split; [repeat constructor; eauto|]. by exists [].
  - apply wp_ret. destruct (f err); [|apply wp_ret; exists (Some err); repeat constructor; eauto].
    destruct steps as [|steps]; [apply wp_ret; exists (Some err); repeat constructor; eauto|].
    eapply wp_mono; [by apply IH|]. intros o s' w' ev (err' & -> & Hev & Hr). exists err'.
    split; [done|]. split; [constructor; [eauto|done]|].
    destruct err'; [done|]. destruct Hr as [ev0 ->]. by eexists (_ :: ev0).
Qed.

Lemma wp_PatchCIStatus old (Q : outcome (option error) -> _) s w :
  (forall err s' w' ev,
    Forall (fun e => exists r, e = Ev (StatusPatchCI old s) r) ev ->
    match err with
    | Some _ => s' = s
    | None => exists ev0, ev = ev0 ++ [Ev (StatusPatchCI old s) (Ok s')]
    end -> Q (Ret err) s' w' ev) ->
  wp (PatchCIStatus old) Q s w.
Proof.
  intros HQ. apply wp_bind. eapply wp_mono; [by apply OnError_statusPatch|].
  intros o s' w' ev (err & -> & Hev & Hs). apply wp_ret. rewrite app_nil_r. apply HQ; [done|].
  by destruct err.
Qed.
End retry.

#[export] Hint Extern 4 (emits _ (PatchCIStatus _)) => apply emits_PatchCIStatus : sc.
#[export] Hint Extern 4 (safe _ _ (PatchCIStatus _)) => apply safe_PatchCIStatus : sc.
