(* ===== verification/RenderedObject.v ===== *)
(** * Rendered manifests (internal/controller/clusterinstance/rendered_object.go, ownership.go)

    A manifest is the JSON object an [unstructured.Unstructured] holds, or nothing for the zero
    value. Sync waves order manifests: they are applied in ascending and deleted in descending
    order. *)
From Stdlib Require Import Ascii.
From S2P Require Import Prelude GoStd Types Errors.

(** ** apimachinery's Unstructured accessors *)

(** [NestedFieldNoCopy] of a present object, [None] when not found or not a map on the way. *)
Fixpoint NestedField (o : json) (path : list string) : option json :=
  match path with
  | [] => Some o
  | k :: path =>
      match o with
      | JObj m => match obj_get k m with Some v => NestedField v path | None => None end
      | _ => None
      end
  end.

(* src: src/vendor/k8s.io/apimachinery/pkg/apis/meta/v1/unstructured/helpers.go 326-332 getNestedString *)
Definition getNestedString (o : option fields) (path : list string) : string :=
  match o with
  | Some m => match NestedField (JObj m) path with Some (JStr s) => s | _ => "" end
  | None => ""
  end.

Fixpoint null_coercing (m : fields) : option smap :=
  match m with
  | [] => Some ∅
  | (k, v) :: m =>
      match v, null_coercing m with
      | JStr s, Some r => Some (<[k := s]> r)
      | JNull, Some r => Some (<[k := ""]> r)
      | _, _ => None
      end
  end.

(* src: src/vendor/k8s.io/apimachinery/pkg/apis/meta/v1/unstructured/helpers.go 210-226 NestedNullCoercingStringMap *)
Definition NestedNullCoercingStringMap (o : option fields) (path : list string) : smap :=
  match o with
  | Some m =>
      match NestedField (JObj m) path with
      | Some (JObj d) => default ∅ (null_coercing d)
      | _ => ∅
      end
  | None => ∅
  end.

(** ** Rendered objects *)

(* src: src/internal/controller/clusterinstance/rendered_object.go 35-41 action *)
Inductive action := noAction | actionRender | actionSuppress | actionPrune.

#[export] Instance action_eq_dec : EqDecision action.
Proof. solve_decision. Defined.

(* src: src/internal/controller/clusterinstance/rendered_object.go 43-46 RenderedObject *)
Record RenderedObject := mkRenderedObject {
  RO_object : option fields;
  RO_action : action
}.

#[export] Instance RenderedObject_eq_dec : EqDecision RenderedObject.
Proof. solve_decision. Defined.

(* src: src/internal/controller/clusterinstance/helper.go 326-331 GetResourceId *)
Definition GetResourceId (name namespace kind : string) : string :=
  if negb (String.eqb namespace "") then
    Sprintf "%s:%s/%s" [FStr kind; FStr namespace; FStr name]
  else Sprintf "%s:%s" [FStr kind; FStr name].

(* src: src/internal/controller/clusterinstance/rendered_object.go 80-82 RenderedObject.GetAPIVersion *)
Definition GetAPIVersion (r : RenderedObject) : string := getNestedString (RO_object r) ["apiVersion"].

(* src: src/internal/controller/clusterinstance/rendered_object.go 84-86 RenderedObject.GetKind *)
Definition GetKind (r : RenderedObject) : string := getNestedString (RO_object r) ["kind"].

(* src: src/internal/controller/clusterinstance/rendered_object.go 92-94 RenderedObject.GetNamespace *)
Definition GetNamespace (r : RenderedObject) : string :=
  getNestedString (RO_object r) ["metadata"; "namespace"].

(* src: src/internal/controller/clusterinstance/rendered_object.go 96-98 RenderedObject.GetName *)
Definition GetName (r : RenderedObject) : string := getNestedString (RO_object r) ["metadata"; "name"].

(* src: src/internal/controller/clusterinstance/rendered_object.go 100-102 RenderedObject.GetAnnotations *)
Definition GetAnnotations (r : RenderedObject) : smap :=
  NestedNullCoercingStringMap (RO_object r) ["metadata"; "annotations"].

(* src: src/internal/controller/clusterinstance/rendered_object.go 104-106 RenderedObject.GetLabels *)
Definition GetLabels (r : RenderedObject) : smap :=
  NestedNullCoercingStringMap (RO_object r) ["metadata"; "labels"].

(** [schema.ParseGroupVersion] accepts at most one slash. *)
Definition group_version_ok (apiVersion : string) : bool :=
  (length (Split apiVersion "/") <=? 2)%nat.

(** Decoding into an [Unstructured] fails after the content has been stored when no kind can be
    read. The manifest is JSON, so encoding and decoding it gives it back. *)
(* src: src/internal/controller/clusterinstance/rendered_object.go 63-74 RenderedObject.SetObject *)
Definition SetObject (r : RenderedObject) (manifest : fields) : RenderedObject * option error :=
  let r' := mkRenderedObject (Some manifest) (RO_action r) in
  (r', if negb (String.eqb (GetKind r') "") && group_version_ok (GetAPIVersion r') then None
       else Some (Errorf "failed to unmarshal JSON content into object: %w"
              [FErr (ErrorString "Object 'Kind' is missing")])).

(* src: src/internal/controller/clusterinstance/rendered_object.go 56-60 NewRenderedObject *)
Definition NewRenderedObject (manifest : fields) : RenderedObject * option error :=
  SetObject (mkRenderedObject None noAction) manifest.

(* src: src/internal/controller/clusterinstance/template_engine.go 35-38 WaveAnnotation *)
Definition WaveAnnotation : string := Group +:+ "/sync-wave".
Definition DefaultWaveAnnotation : string := "0".

Definition atoi_error_value (s : string) (e : atoi_error) : error :=
  ErrorString (Sprintf "strconv.Atoi: parsing %q: %s"
    [FStr s; FStr (match e with ErrSyntax => "invalid syntax" | ErrRange => "value out of range" end)]).

(* src: src/internal/controller/clusterinstance/rendered_object.go 108-120 RenderedObject.GetSyncWave *)
Definition GetSyncWave (r : RenderedObject) : result Z :=
  let syncWaveStr := default DefaultWaveAnnotation (GetAnnotations r !! WaveAnnotation) in
  match Atoi syncWaveStr with
  | inl z => Ok z
  | inr e => Err (Errorf "failed to convert sync wave annotation %s to int: %w"
               [FStr syncWaveStr; FErr (atoi_error_value syncWaveStr e)])
  end.

(* src: src/internal/controller/clusterinstance/rendered_object.go 122-124 RenderedObject.GetResourceId *)
Definition RenderedObject_GetResourceId (r : RenderedObject) : string :=
  GetResourceId (GetName r) (GetNamespace r) (GetKind r).

(* src: src/internal/controller/clusterinstance/rendered_object.go 126-139 RenderedObject.ManifestReference *)
Definition RenderedObject_ManifestReference (now : Time) (r : RenderedObject)
    : option ManifestReference :=
  match GetSyncWave r with
  | Err _ => None
  | Ok syncWave =>
      Some (mkManifestReference (Some (GetAPIVersion r)) (GetKind r) (GetName r) (GetNamespace r)
              syncWave "" now "")
  end.

(* src: src/internal/controller/clusterinstance/rendered_object.go 143-148 RenderedObject.MatchesIdentity *)
Definition RenderedObject_MatchesIdentity (r other : RenderedObject) : bool :=
  String.eqb (GetAPIVersion r) (GetAPIVersion other) && String.eqb (GetKind r) (GetKind other)
  && String.eqb (GetName r) (GetName other) && String.eqb (GetNamespace r) (GetNamespace other).

(* src: src/internal/controller/clusterinstance/rendered_object.go 153-160 IndexOfObjectByIdentity *)
Definition IndexOfObjectByIdentity (target : RenderedObject) (objects : list RenderedObject)
    : result nat :=
  match index_of (fun obj => RenderedObject_MatchesIdentity obj target) objects with
  | Some i => Ok i
  | None => Err (Errorf "renderedObject (%s) not found" [FStr (RenderedObject_GetResourceId target)])
  end.

(** ** Sync waves *)

(** The [data] of a SyncWaveMap; a nil map is an empty one. *)
Abbreviation SyncWaveMap := (gmap Z (list RenderedObject)).

Definition int_less (x y : Z) : bool := (x <? y)%Z.
Definition waves (s : SyncWaveMap) : list Z := List.map fst (map_to_list s).

(* src: src/internal/controller/clusterinstance/rendered_object.go 162-166 SyncWaveMap.GetAscendingSyncWaves *)
Definition GetAscendingSyncWaves (s : SyncWaveMap) : list Z := SortSlice int_less (waves s).

(* src: src/internal/controller/clusterinstance/rendered_object.go 168-172 SyncWaveMap.GetDescendingSyncWaves *)
Definition GetDescendingSyncWaves (s : SyncWaveMap) : list Z :=
  SortSlice (fun x y => int_less y x) (waves s).

Definition kind_less (x y : RenderedObject) : bool := String.ltb (GetKind x) (GetKind y).

(* src: src/internal/controller/clusterinstance/rendered_object.go 174-183 SyncWaveMap.GetObjectsForSyncWave *)
Definition GetObjectsForSyncWave (s : SyncWaveMap) (syncWave : Z) : list RenderedObject :=
  match s !! syncWave with
  | Some res => SortSlice kind_less res
  | None => []
  end.

(* src: src/internal/controller/clusterinstance/rendered_object.go 185-206 SyncWaveMap.Add *)
Definition SyncWaveMap_Add (s : SyncWaveMap) (obj : RenderedObject) : result SyncWaveMap :=
  match RO_object obj with
  | None => Ok s
  | Some _ =>
      match GetSyncWave obj with
      | Err err => Err err
      | Ok syncWave => Ok (<[syncWave := default [] (s !! syncWave) ++ [obj]]> s)
      end
  end.

Fixpoint add_all {S : Type} (add : S -> RenderedObject -> result S) (what : string) (s : S)
    (objects : list RenderedObject) : S * list error :=
  match objects with
  | [] => (s, [])
  | object :: objects =>
      match add s object with
      | Ok s' => add_all add what s' objects
      | Err err =>
          let (s', errs) := add_all add what s objects in
          (s', Errorf ("error adding object (%s) to " +:+ what +:+ ", err: %v")
                 [FStr (RenderedObject_GetResourceId object); FStr (Error err)] :: errs)
      end
  end.

(* src: src/internal/controller/clusterinstance/rendered_object.go 208-217 SyncWaveMap.AddObjects *)
Definition SyncWaveMap_AddObjects (s : SyncWaveMap) (objects : list RenderedObject)
    : SyncWaveMap * option error :=
  let (s', errs) := add_all SyncWaveMap_Add "SyncWaveMap" s objects in (s', NewAggregate errs).

(* src: src/internal/controller/clusterinstance/rendered_object.go 52-54 RenderedObjectCollection *)
Record RenderedObjectCollection := mkCollection {
  ROC_prune : SyncWaveMap;
  ROC_suppress : SyncWaveMap;
  ROC_render : SyncWaveMap
}.

Definition emptyCollection : RenderedObjectCollection := mkCollection ∅ ∅ ∅.

(* src: src/internal/controller/clusterinstance/rendered_object.go 219-231 RenderedObjectCollection.AddObject *)
Definition Collection_AddObject (r : RenderedObjectCollection) (object : RenderedObject)
    : result RenderedObjectCollection :=
  match RO_action object with
  | actionRender =>
      match SyncWaveMap_Add (ROC_render r) object with
      | Ok m => Ok (mkCollection (ROC_prune r) (ROC_suppress r) m)
      | Err e => Err e
      end
  | actionPrune =>
      match SyncWaveMap_Add (ROC_prune r) object with
      | Ok m => Ok (mkCollection m (ROC_suppress r) (ROC_render r))
      | Err e => Err e
      end
  | actionSuppress =>
      match SyncWaveMap_Add (ROC_suppress r) object with
      | Ok m => Ok (mkCollection (ROC_prune r) m (ROC_render r))
      | Err e => Err e
      end
  | noAction => Ok r
  end.

(* src: src/internal/controller/clusterinstance/rendered_object.go 233-242 RenderedObjectCollection.AddObjects *)
Definition Collection_AddObjects (r : RenderedObjectCollection) (objects : list RenderedObject)
    : RenderedObjectCollection * option error :=
  let (r', errs) := add_all Collection_AddObject "RenderedObjectCollection" r objects in
  (r', NewAggregate errs).

(* src: src/internal/controller/clusterinstance/rendered_object.go 244-250 RenderedObjectCollection.GetRenderObjects *)
Definition GetRenderObjects (r : RenderedObjectCollection) : list RenderedObject :=
  List.concat (List.map (GetObjectsForSyncWave (ROC_render r)) (GetAscendingSyncWaves (ROC_render r))).

(* src: src/internal/controller/clusterinstance/rendered_object.go 252-258 RenderedObjectCollection.GetPruneObjects *)
Definition GetPruneObjects (r : RenderedObjectCollection) : list RenderedObject :=
  List.concat (List.map (GetObjectsForSyncWave (ROC_prune r)) (GetDescendingSyncWaves (ROC_prune r))).

(* src: src/internal/controller/clusterinstance/rendered_object.go 260-266 RenderedObjectCollection.GetSuppressObjects *)
Definition GetSuppressObjects (r : RenderedObjectCollection) : list RenderedObject :=
  List.concat (List.map (GetObjectsForSyncWave (ROC_suppress r))
    (GetAscendingSyncWaves (ROC_suppress r))).

(** ** Ownership *)

(* src: src/internal/controller/clusterinstance/ownership.go 31-31 OwnedByLabel *)
Definition OwnedByLabel : string := Group +:+ "/owned-by".

(* src: src/internal/controller/clusterinstance/ownership.go 35-37 GetOwner *)
Definition GetOwner (labels : smap) : string := default "" (labels !! OwnedByLabel).

(** The object is given by its labels, name, namespace and kind. *)
(* src: src/internal/controller/clusterinstance/ownership.go 40-48 VerifyOwnership *)
Definition VerifyOwnership (labels : smap) (name namespace kind ownerRefLabel : string)
    : option error :=
  if negb (String.eqb (GetOwner labels) ownerRefLabel) then
    let resourceId := GetResourceId name namespace kind in
    Some (Errorf "ownership verification failed for object %s: %w"
      [FStr resourceId; FErr (NewNotOwnedObjectError ownerRefLabel resourceId)])
  else None.

(* src: src/internal/controller/clusterinstance/ownership.go 52-54 GenerateOwnedByLabelValue *)
Definition GenerateOwnedByLabelValue (namespace name : string) : string :=
  Sprintf "%s_%s" [FStr namespace; FStr name].

(* src: src/internal/controller/clusterinstance/ownership.go 58-65 GetNamespacedNameFromOwnedByLabel *)
Definition GetNamespacedNameFromOwnedByLabel (ownedByLabel : string) : result ObjectKey :=
  match Split ownedByLabel "_" with
  | [namespace; name] => Ok (mkObjectKey namespace name)
  | _ => Err (Errorf "expecting single underscore delimiter in %s label value" [FStr ownedByLabel])
  end.

(* src: src/internal/controller/clusterinstance/ownership.go 68-74 GetNameFromOwnedByLabel *)
Definition GetNameFromOwnedByLabel (ownedByLabel : string) : string :=
  match GetNamespacedNameFromOwnedByLabel ownedByLabel with
  | Ok k => Key_Name k
  | Err _ => ""
  end.
