(* ===== verification/RenderedSpec.v ===== *)
(** * Rendered manifests: theorems

    Rendering order (ascending waves), pruning order (descending waves), nothing lost or
    duplicated in between, and the round trips of the owned-by label and of the sync-wave
    annotation. *)
From Stdlib Require Import Ascii.
From S2P Require Import Prelude GoStd Types Errors RenderedObject.

(** ** Sprintf of the verbs used here *)

Lemma owned_by_text ns n : GenerateOwnedByLabelValue ns n = ns +:+ String "_" n.
Proof.
  unfold GenerateOwnedByLabelValue, Sprintf. simpl. by rewrite sapp_nil_r.
Qed.

(** C36: The value of the owned-by label determines the ClusterInstance: parsing it gives back the
    namespace and the name, when neither holds an underscore (no Kubernetes name does). *)
Theorem owned_by_roundtrip ns n :
  has_byte "_" ns = false -> has_byte "_" n = false ->
  GetNamespacedNameFromOwnedByLabel (GenerateOwnedByLabelValue ns n) = Ok (mkObjectKey ns n).
Proof.
  intros H1 H2. rewrite owned_by_text. unfold GetNamespacedNameFromOwnedByLabel.
  by rewrite Split_app, Split_no_sep.
Qed.

Lemma owned_by_roundtrip_witness :
  GetNamespacedNameFromOwnedByLabel (GenerateOwnedByLabelValue "site-1" "sno")
  = Ok (mkObjectKey "site-1" "sno").
Proof. apply owned_by_roundtrip; reflexivity. Defined.

Lemma owned_by_inj ns n ns' n' :
  has_byte "_" ns = false -> has_byte "_" ns' = false ->
  GenerateOwnedByLabelValue ns n = GenerateOwnedByLabelValue ns' n' -> ns = ns' /\ n = n'.
Proof.
  intros H1 H2. rewrite !owned_by_text. revert ns' H2. induction ns as [|c ns IH]; intros [|c' ns'] H2 H.
  - by injection H as ->.
  - rewrite sapp_nil_l, sapp_cons in H. injection H as <- _. done.
  - rewrite sapp_nil_l, sapp_cons in H. injection H as -> _. done.
  - rewrite !sapp_cons in H. simpl in H1, H2. bools. injection H as <- H.
    by destruct (IH ltac:(done) ns' ltac:(done) H) as [-> ->].
Qed.

(** ** Waves *)

Definition wave_is (w : Z) (o : RenderedObject) : Prop := GetSyncWave o = Ok w.
Definition wave_of (o : RenderedObject) : Z := match GetSyncWave o with Ok w => w | Err _ => 0%Z end.

(** The objects the maps keep: those with content and a readable wave. *)
Definition storable (o : RenderedObject) : bool :=
  match RO_object o, GetSyncWave o with
  | Some _, Ok _ => true
  | _, _ => false
  end.

(** All the objects of a map. *)
Definition flat (s : SyncWaveMap) : list RenderedObject := List.concat (List.map snd (map_to_list s)).

Definition waves_wf (s : SyncWaveMap) : Prop := map_Forall (fun w l => Forall (wave_is w) l) s.

Lemma concat_perm {A} (l k : list (list A)) : l ≡ₚ k -> List.concat l ≡ₚ List.concat k.
Proof.
  induction 1 as [| |x y l|]; simpl; [done|by apply Permutation_app_head| |by etrans].
  rewrite !app_assoc. apply Permutation_app_tail, Permutation_app_comm.
Qed.

Lemma flat_insert_fresh s w l : s !! w = None -> flat (<[w := l]> s) ≡ₚ l ++ flat s.
Proof. intros Hw. unfold flat. by rewrite (concat_perm _ _ (Permutation_map snd (map_to_list_insert s w l Hw))). Qed.

Lemma flat_insert s w o :
  flat (<[w := default [] (s !! w) ++ [o]]> s) ≡ₚ o :: flat s.
Proof.
  assert (Hd : forall l, flat (<[w := l]> s) ≡ₚ l ++ flat (delete w s)).
  { intros l. rewrite <-insert_delete_eq. apply flat_insert_fresh. apply lookup_delete_eq. }
  rewrite Hd. destruct (s !! w) as [l|] eqn:Hw; simpl.
  - specialize (Hd l). rewrite (insert_id _ _ _ Hw) in Hd. rewrite Hd.
    rewrite <-app_assoc. simpl. by rewrite Permutation_middle.
  - by rewrite delete_id.
Qed.

Lemma Add_spec s o s' :
  waves_wf s -> SyncWaveMap_Add s o = Ok s' ->
  waves_wf s' /\ flat s' ≡ₚ (if storable o then o :: flat s else flat s).
Proof.
  intros Hwf. unfold SyncWaveMap_Add, storable.
  destruct (RO_object o) eqn:Ho; [|by intros [= <-]].
  destruct (GetSyncWave o) as [w|] eqn:Hw; [|done]. intros [= <-]. split; [|apply flat_insert].
  apply map_Forall_insert_2; [|done]. apply Forall_app_2; [|by repeat constructor].
  destruct (s !! w) eqn:Hs; simpl; [by eapply Hwf|constructor].
Qed.

Lemma Add_err s o e : SyncWaveMap_Add s o = Err e -> storable o = false.
Proof.
  unfold SyncWaveMap_Add, storable. destruct (RO_object o); [|done]. by destruct (GetSyncWave o).
Qed.

(** [GetObjectsForSyncWave] of every wave of the map, in the order of [ws]. *)
Definition listing (s : SyncWaveMap) (ws : list Z) : list RenderedObject :=
  List.concat (List.map (GetObjectsForSyncWave s) ws).

Lemma listing_perm s ws : ws ≡ₚ waves s -> listing s ws ≡ₚ flat s.
Proof.
  intros Hws. unfold listing, flat. rewrite (concat_perm _ (List.map (GetObjectsForSyncWave s) (waves s)))
    by (by apply Permutation_map). unfold waves. rewrite List.map_map.
  assert (H : Forall (fun kv => s !! kv.1 = Some kv.2) (map_to_list s)).
  { apply Forall_forall. intros [w l] Hin. by apply elem_of_map_to_list. }
  induction H as [|[w l] kvs Hl _ IH]; simpl; [done|]. simpl in Hl.
  rewrite IH. unfold GetObjectsForSyncWave. rewrite Hl. by rewrite SortSlice_perm.
Qed.

Lemma listing_wave s w : waves_wf s -> Forall (wave_is w) (GetObjectsForSyncWave s w).
Proof.
  intros Hwf. unfold GetObjectsForSyncWave. destruct (s !! w) as [l|] eqn:Hl; [|constructor].
  rewrite SortSlice_perm. by eapply Hwf.
Qed.

Lemma listing_sorted (R : Z -> Z -> Prop) s ws :
  waves_wf s -> (forall w, R w w) -> StronglySorted R ws ->
  StronglySorted (fun x y => R (wave_of x) (wave_of y)) (listing s ws).
Proof.
  intros Hwf Hrefl. unfold listing. induction 1 as [|w ws Hs IH Hall]; simpl; [constructor|].
  assert (Hw := listing_wave s w Hwf).
  assert (Hrest : Forall (fun y => R w (wave_of y)) (listing s ws)).
  { unfold listing. clear -Hall Hwf. induction Hall as [|w' ws Hw' _ IH]; simpl; [constructor|].
    apply Forall_app_2; [|done]. eapply Forall_impl; [by apply listing_wave|].
    unfold wave_is, wave_of. by intros o ->. }
  unfold listing in Hrest. induction Hw as [|o os Ho Hos IHos]; simpl; [done|].
  constructor; [done|]. apply Forall_app_2.
  - eapply Forall_impl; [exact Hos|]. unfold wave_is, wave_of in *. intros o' ->. by rewrite Ho.
  - eapply Forall_impl; [exact Hrest|]. unfold wave_is in Ho. unfold wave_of at 2. by rewrite Ho.
Qed.

Lemma ascending_sorted s : StronglySorted Z.le (GetAscendingSyncWaves s).
Proof.
  apply Sorted_StronglySorted; [intros ???; lia|].
  eapply Sorted_impl; [|apply SortSlice_sorted]; unfold int_less; simpl; intros; lia.
Qed.

Lemma descending_sorted s : StronglySorted Z.ge (GetDescendingSyncWaves s).
Proof.
  apply Sorted_StronglySorted; [intros ???; lia|].
  eapply Sorted_impl; [|apply SortSlice_sorted]; unfold int_less; simpl; intros; lia.
Qed.

(** ** Collections *)

Definition with_action (a : action) (o : RenderedObject) : bool := bool_decide (RO_action o = a) && storable o.

Definition collection_wf (r : RenderedObjectCollection) : Prop :=
  waves_wf (ROC_prune r) /\ waves_wf (ROC_suppress r) /\ waves_wf (ROC_render r).

Definition cons_if (b : bool) (o : RenderedObject) (l : list RenderedObject) : list RenderedObject :=
  if b then o :: l else l.

Lemma Collection_AddObject_spec r o r' :
  collection_wf r -> Collection_AddObject r o = Ok r' ->
  collection_wf r'
  /\ flat (ROC_prune r') ≡ₚ cons_if (with_action actionPrune o) o (flat (ROC_prune r))
  /\ flat (ROC_suppress r') ≡ₚ cons_if (with_action actionSuppress o) o (flat (ROC_suppress r))
  /\ flat (ROC_render r') ≡ₚ cons_if (with_action actionRender o) o (flat (ROC_render r)).
Proof.
  intros (H1 & H2 & H3). unfold Collection_AddObject, with_action, collection_wf.
  destruct (RO_action o); [by intros [= <-]|..];
    (destruct (SyncWaveMap_Add _ o) as [m|] eqn:Ha; [|done]; intros [= <-]; simpl;
     apply Add_spec in Ha as [Hwf Hflat]; [|done];
     unfold cons_if; simpl; by repeat split).
Qed.

Lemma Collection_AddObject_err r o e :
  Collection_AddObject r o = Err e -> storable o = false.
Proof.
  unfold Collection_AddObject. destruct (RO_action o); [done|..];
    (destruct (SyncWaveMap_Add _ o) eqn:Ha; [done|]; intros _; by eapply Add_err).
Qed.

Lemma add_all_spec r objects r' errs :
  collection_wf r -> add_all Collection_AddObject "RenderedObjectCollection" r objects = (r', errs) ->
  collection_wf r'
  /\ flat (ROC_prune r') ≡ₚ List.filter (with_action actionPrune) objects ++ flat (ROC_prune r)
  /\ flat (ROC_suppress r') ≡ₚ List.filter (with_action actionSuppress) objects ++ flat (ROC_suppress r)
  /\ flat (ROC_render r') ≡ₚ List.filter (with_action actionRender) objects ++ flat (ROC_render r).
Proof.
  revert r r' errs. induction objects as [|o os IH]; intros r r' errs Hwf; simpl; [by intros [= <- <-]|].
  destruct (Collection_AddObject r o) as [r1|e] eqn:Ho.
  - intros H. apply Collection_AddObject_spec in Ho as (Hwf1 & Hp & Hs & Hr); [|done].
    apply IH in H as (Hwf' & Hp' & Hs' & Hr'); [|done].
    split; [done|]. rewrite Hp', Hs', Hr', Hp, Hs, Hr. unfold cons_if.
    repeat split; case_goal; simpl; rewrite ?Permutation_middle; done.
  - destruct (add_all _ _ r os) as [r2 errs2] eqn:Ha. intros [= <- <-].
    apply Collection_AddObject_err in Ho. unfold with_action. rewrite Ho, !andb_false_r.
    by eapply IH.
Qed.

(** C29: Collecting the objects of all templates and listing them again neither loses nor
    duplicates a manifest: the ones to render come out in ascending, the ones to prune in
    descending sync-wave order, and only objects without content or with an unreadable wave (which
    are reported) are left out. *)
Theorem collection_order objects r err :
  Collection_AddObjects emptyCollection objects = (r, err) ->
  GetRenderObjects r ≡ₚ List.filter (with_action actionRender) objects
  /\ StronglySorted (fun x y => (wave_of x <= wave_of y)%Z) (GetRenderObjects r)
  /\ GetPruneObjects r ≡ₚ List.filter (with_action actionPrune) objects
  /\ StronglySorted (fun x y => (wave_of x >= wave_of y)%Z) (GetPruneObjects r)
  /\ GetSuppressObjects r ≡ₚ List.filter (with_action actionSuppress) objects.
Proof.
  unfold Collection_AddObjects. destruct (add_all _ _ _ objects) as [r' errs] eqn:Ha. intros [= <- _].
  apply add_all_spec in Ha as ((Hw1 & Hw2 & Hw3) & Hp & Hs & Hr);
    [|repeat split; apply map_Forall_empty].
  unfold flat in Hp at 2, Hs at 2, Hr at 2. simpl in Hp, Hs, Hr. rewrite app_nil_r in Hp, Hs, Hr.
  split; [|split; [|split; [|split]]].
  - rewrite <-Hr. apply (listing_perm _ (GetAscendingSyncWaves (ROC_render r'))), SortSlice_perm.
  - apply (listing_sorted Z.le); [done|lia|apply ascending_sorted].
  - rewrite <-Hp. apply (listing_perm _ (GetDescendingSyncWaves (ROC_prune r'))), SortSlice_perm.
  - apply (listing_sorted Z.ge); [done|lia|apply descending_sorted].
  - rewrite <-Hs. apply (listing_perm _ (GetAscendingSyncWaves (ROC_suppress r'))), SortSlice_perm.
Qed.

Definition sample_object (kind name wave : string) (a : action) : RenderedObject :=
  mkRenderedObject (Some [("apiVersion", JStr "v1"); ("kind", JStr kind);
    ("metadata", JObj [("annotations", JObj [(WaveAnnotation, JStr wave)]); ("name", JStr name)])]) a.

Lemma collection_order_witness :
  let objects := [sample_object "Secret" "b" "2" actionRender; sample_object "ConfigMap" "a" "-1" actionRender] in
  GetRenderObjects (Collection_AddObjects emptyCollection objects).1
    ≡ₚ List.filter (with_action actionRender) objects.
Proof.
  intros objects. destruct (Collection_AddObjects emptyCollection objects) as [r err] eqn:H.
  apply (collection_order objects r err H).
Defined.
