(* ===== verification/Requeue.v ===== *)
(** * What a reconcile returns (internal/controller/clusterinstance_controller.go 74-123)

    [ctrl.Result] and the helpers that build it. *)
From S2P Require Import Prelude GoStd.

Abbreviation Duration := Z.

Definition Second : Duration := 10 ^ 9.
Definition Minute : Duration := (60 * Second)%Z.

(** [ctrl.Result] *)
Record Result := mkResult {
  Requeue : bool;
  RequeueAfter : Duration
}.

#[export] Instance Result_eq_dec : EqDecision Result.
Proof. solve_decision. Defined.

Definition Result_IsZero (r : Result) : bool := bool_decide (r = mkResult false 0).

(* src: src/internal/controller/clusterinstance_controller.go 75-80 DefaultDeletionRequeueDelay *)
Definition DefaultDeletionRequeueDelay : Duration := (1 * Minute)%Z.
Definition DefaultValidationErrorDelay : Duration := (30 * Second)%Z.
Definition DefaultTemplateRenderingErrorDelay : Duration := (30 * Second)%Z.
Definition DefaultReimportErrorDelay : Duration := (30 * Second)%Z.

(* src: src/internal/controller/clusterinstance_controller.go 96-98 doNotRequeue *)
Definition doNotRequeue : Result := mkResult false 0.

(* src: src/internal/controller/clusterinstance_controller.go 102-104 requeueWithDelay *)
Definition requeueWithDelay (delay : Duration) : Result := mkResult true delay.

(* src: src/internal/controller/clusterinstance_controller.go 109-111 requeueWithError *)
Definition requeueWithError (err : error) : Result * option error := (mkResult false 0, Some err).

(* src: src/internal/controller/clusterinstance_controller.go 115-117 requeueWithErrorAfterDelay *)
Definition requeueWithErrorAfterDelay (err : error) (delay : Duration) : Result * option error :=
  (requeueWithDelay delay, Some err).

(* src: src/internal/controller/clusterinstance_controller.go 121-123 requeueForDeletion *)
Definition requeueForDeletion : Result := requeueWithDelay DefaultDeletionRequeueDelay.
