(* ===== verification/JsonCodec.v ===== *)
(** * Decoding and encoding JSON, as Go's encoding/json

    [json.Unmarshal] into an [interface{}] or a map and [json.Marshal] back. The decoder runs on
    text the scanner has accepted. A number becomes a float64: the shortest decimal that reads
    back as that float64 is strconv's business and a parameter. *)
From Stdlib Require Import Ascii.
From S2P Require Import Prelude GoStd JsonScan.

(** The text of the float64 that a literal denotes. *)
Class FloatText := { float_text : string -> string }.

(** ** UTF-8 *)

Definition RuneError : N := 65533.

Definition in_range (lo hi : N) (c : ascii) : bool :=
  let n := N_of_ascii c in (lo <=? n)%N && (n <=? hi)%N.

Definition bits (k : N) (c : ascii) : N := N.land (N_of_ascii c) (2 ^ k - 1).

(** The first code point and the number of bytes it takes; an invalid byte is [RuneError]. *)
Definition DecodeRune (s : string) : N * nat :=
  let tail := in_range 128 191 in
  match s with
  | "" => (RuneError, 0)
  | String a s1 =>
      if in_range 0 127 a then (N_of_ascii a, 1)
      else
        match s1 with
        | String b s2 =>
            if in_range 194 223 a && tail b then ((bits 5 a * 64 + bits 6 b)%N, 2)
            else
              match s2 with
              | String c s3 =>
                  let second := if in_range 224 224 a then in_range 160 191 b
                                else if in_range 237 237 a then in_range 128 159 b else tail b in
                  if in_range 224 239 a && second && tail c
                  then ((bits 4 a * 4096 + bits 6 b * 64 + bits 6 c)%N, 3)
                  else
                    match s3 with
                    | String d _ =>
                        let second := if in_range 240 240 a then in_range 144 191 b
                                      else if in_range 244 244 a then in_range 128 143 b else tail b in
                        if in_range 240 244 a && second && tail c && tail d
                        then ((bits 3 a * 262144 + bits 6 b * 4096 + bits 6 c * 64 + bits 6 d)%N, 4)
                        else (RuneError, 1)
                    | "" => (RuneError, 1)
                    end
              | "" => (RuneError, 1)
              end
        | "" => (RuneError, 1)
        end
  end.

Definition byte (n : N) : string := String (ascii_of_N n) "".

Definition EncodeRune (n : N) : string :=
  if (n <? 128)%N then byte n
  else if (n <? 2048)%N then byte (192 + n / 64) +:+ byte (128 + n mod 64)
  else if (n <? 65536)%N then
    byte (224 + n / 4096) +:+ byte (128 + n / 64 mod 64) +:+ byte (128 + n mod 64)
  else byte (240 + n / 262144) +:+ byte (128 + n / 4096 mod 64)
       +:+ byte (128 + n / 64 mod 64) +:+ byte (128 + n mod 64).

Definition string_drop (n : nat) (s : string) : string := String.substring n (String.length s - n) s.

(** ** Strings *)

Definition hex_val (c : ascii) : N :=
  let n := N_of_ascii c in
  if (n <=? 57)%N then (n - 48)%N else if (n <=? 70)%N then (n - 55)%N else (n - 87)%N.

(** [getu4] *)
Definition getu4 (s : string) : option (N * string) :=
  match s with
  | String e (String u (String a (String b (String c (String d rest))))) =>
      if Ascii.eqb e backslash && Ascii.eqb u "u" && is_hex a && is_hex b && is_hex c && is_hex d
      then Some ((hex_val a * 4096 + hex_val b * 256 + hex_val c * 16 + hex_val d)%N, rest)
      else None
  | _ => None
  end.

Definition is_surrogate (n : N) : bool := (55296 <=? n)%N && (n <? 57344)%N.

Definition utf16_DecodeRune (r1 r2 : N) : N :=
  if (55296 <=? r1)%N && (r1 <? 56320)%N && (56320 <=? r2)%N && (r2 <? 57344)%N
  then ((r1 - 55296) * 1024 + (r2 - 56320) + 65536)%N else RuneError.

Definition simple_escape (c : ascii) : ascii :=
  if Ascii.eqb c "b" then "008" else if Ascii.eqb c "f" then "012" else if Ascii.eqb c "n" then "010"
  else if Ascii.eqb c "r" then "013" else if Ascii.eqb c "t" then "009" else c.

(** The contents of a string literal; every step takes at least a byte, so its length is
    enough fuel. *)
Fixpoint unquote (fuel : nat) (s : string) : string :=
  match fuel, s with
  | O, _ | _, "" => ""
  | S fuel, String c s' =>
      if Ascii.eqb c backslash then
        match getu4 s with
        | Some (rr, rest) =>
            if is_surrogate rr then
              match getu4 rest with
              | Some (rr1, rest1) =>
                  let dec := utf16_DecodeRune rr rr1 in
                  if N.eqb dec RuneError then EncodeRune RuneError +:+ unquote fuel rest
                  else EncodeRune dec +:+ unquote fuel rest1
              | None => EncodeRune RuneError +:+ unquote fuel rest
              end
            else EncodeRune rr +:+ unquote fuel rest
        | None =>
            match s' with
            | String e rest => String (simple_escape e) (unquote fuel rest)
            | "" => ""
            end
        end
      else
        let (rune, size) := DecodeRune s in EncodeRune rune +:+ unquote fuel (string_drop size s)
  end.

(** The text of a literal up to its closing quote, and what follows it. *)
Fixpoint raw_string (s : string) : string * string :=
  match s with
  | "" => ("", "")
  | String c s' =>
      if Ascii.eqb c dquote then ("", s')
      else if Ascii.eqb c backslash then
        match s' with
        | String e s'' => let (raw, rest) := raw_string s'' in (String c (String e raw), rest)
        | "" => (s, "")
        end
      else let (raw, rest) := raw_string s' in (String c raw, rest)
  end.

Definition read_string (s : string) : string * string :=
  let (raw, rest) := raw_string s in (unquote (String.length raw) raw, rest).

(** ** Values *)

Fixpoint skip_space (s : string) : string :=
  match s with
  | String c s' => if isSpace c then skip_space s' else s
  | "" => ""
  end.

Fixpoint take_literal (s : string) : string * string :=
  match s with
  | "" => ("", "")
  | String c s' =>
      if isSpace c || Ascii.eqb c "," || Ascii.eqb c "]" || Ascii.eqb c "}" then ("", s)
      else let (l, rest) := take_literal s' in (String c l, rest)
  end.

Section values.
Context `{FloatText}.

Definition literal_value (l : string) : json :=
  if String.eqb l "null" then JNull
  else if String.eqb l "true" then JBool true
  else if String.eqb l "false" then JBool false
  else JNum (float_text l).

(** A call for every byte of the text is enough: [grammar_read] of JsonGrammar. *)
Fixpoint read_value (fuel : nat) (s : string) : json * string :=
  match fuel with
  | O => (JNull, "")
  | S fuel =>
      match skip_space s with
      | "" => (JNull, "")
      | String c rest =>
          if Ascii.eqb c "{" then read_members fuel [] rest
          else if Ascii.eqb c "[" then read_elements fuel [] rest
          else if Ascii.eqb c dquote then let (v, rest) := read_string rest in (JStr v, rest)
          else let (l, rest) := take_literal (String c rest) in (literal_value l, rest)
      end
  end
with read_members (fuel : nat) (o : fields) (s : string) : json * string :=
  match fuel with
  | O => (JObj o, "")
  | S fuel =>
      match skip_space s with
      | "" => (JObj o, "")
      | String c rest =>
          if Ascii.eqb c "}" then (JObj o, rest)
          else if Ascii.eqb c "," then read_members fuel o rest
          else
            (* a quote opens the key *)
            let (k, rest) := read_string rest in
            match skip_space rest with
            | "" => (JObj o, "")
            | String _ rest =>
                let (v, rest) := read_value fuel rest in read_members fuel (obj_set k v o) rest
            end
      end
  end
with read_elements (fuel : nat) (l : list json) (s : string) : json * string :=
  match fuel with
  | O => (JArr (rev l), "")
  | S fuel =>
      match skip_space s with
      | "" => (JArr (rev l), "")
      | String c rest =>
          if Ascii.eqb c "]" then (JArr (rev l), rest)
          else if Ascii.eqb c "," then read_elements fuel l rest
          else let (v, rest) := read_value fuel (String c rest) in read_elements fuel (v :: l) rest
      end
  end.

(** [json.Unmarshal] into an [interface{}] *)
Definition Unmarshal (data : string) : option json :=
  if Unmarshal_ok data then Some (read_value (S (String.length data)) data).1 else None.

(** [json.Valid]: the syntax alone, so an overflowing number is valid. *)
Fixpoint scan_valid (s : scanner) (data : string) : bool :=
  match data with
  | "" =>
      match sc_step s with
      | stEndTop => true
      | _ => match scan_step " " s with Some (mkScanner stEndTop _) => true | _ => false end
      end
  | String c data => match scan_step c s with Some s' => scan_valid s' data | None => false end
  end.
Definition Valid (data : string) : bool := scan_valid (mkScanner stBeginValue []) data.

(** [json.Unmarshal] into a [map[string]interface{}]: [null] makes the map nil, any other value
    than an object is an error. The result is the map, if it is not nil. *)
Definition Unmarshal_map (data : string) : result (option fields) :=
  match Unmarshal data with
  | Some (JObj o) => Ok (Some o)
  | Some JNull => Ok None
  | Some _ => Err (ErrorString "json: cannot unmarshal into Go value of type map[string]interface {}")
  | None => Err (ErrorString "invalid JSON")
  end.
End values.

(** ** Encoding *)

Definition hex_digit (n : nat) : ascii := ascii_of_nat (if (n <=? 9)%nat then 48 + n else 87 + n).

Definition u00 (n : nat) : string :=
  String backslash (String "u" (String "0" (String "0" (String (hex_digit (n / 16)) (String (hex_digit (n mod 16)) ""))))).

(** [appendString] with HTML escaping. *)
Fixpoint escape_string (fuel : nat) (s : string) : string :=
  match fuel, s with
  | O, _ | _, "" => ""
  | S fuel, String c s' =>
      let n := nat_of_ascii c in
      if (n <? 128)%nat then
        (if Ascii.eqb c dquote || Ascii.eqb c backslash then String backslash (String c "")
         else if (n =? 8)%nat then String backslash "b"
         else if (n =? 12)%nat then String backslash "f"
         else if (n =? 10)%nat then String backslash "n"
         else if (n =? 13)%nat then String backslash "r"
         else if (n =? 9)%nat then String backslash "t"
         else if (n <? 32)%nat || (n =? 60)%nat || (n =? 62)%nat || (n =? 38)%nat then u00 n
         else String c "") +:+ escape_string fuel s'
      else
        let (rune, size) := DecodeRune s in
        (if N.eqb rune RuneError && (size =? 1)%nat then String backslash "ufffd"
         else if N.eqb rune 8232 then String backslash "u2028"
         else if N.eqb rune 8233 then String backslash "u2029"
         else String.substring 0 size s) +:+ escape_string fuel (string_drop size s)
  end.

Definition quoted (s : string) : string :=
  String dquote (escape_string (String.length s) s +:+ String dquote "").

(** [json.Marshal] *)
Fixpoint Marshal (v : json) : string :=
  match v with
  | JNull => "null"
  | JBool b => FormatBool b
  | JNum l => l
  | JStr s => quoted s
  | JArr l => "[" +:+ Join (List.map Marshal l) "," +:+ "]"
  | JObj o => "{" +:+ Join (List.map (fun kv => quoted kv.1 +:+ ":" +:+ Marshal kv.2) o) "," +:+ "}"
  end.

(** ** Examples *)

#[local] Instance float_same : FloatText := {| float_text := fun l => l |}.

Example decode_ok :
  Unmarshal ("{" +:+ q "b" +:+ ": [1, true ,null], " +:+ q "a" +:+ " : " +:+ q "x\u00e9\ud83d\ude00\n" +:+ "}")
  = Some (JObj [("a", JStr ("x" +:+ EncodeRune 233 +:+ EncodeRune 128512 +:+ String "010" ""));
                ("b", JArr [JNum "1"; JBool true; JNull])]).
Proof. vm_compute. reflexivity. Qed.

Example encode_ok :
  Marshal (JObj [("a", JStr "x<y"); ("b", JArr [JNum "1"; JObj []])])
  = "{" +:+ q "a" +:+ ":" +:+ q "x\u003cy" +:+ "," +:+ q "b" +:+ ":[1,{}]}".
Proof. vm_compute. reflexivity. Qed.

Example decode_kinds :
  Unmarshal_map "null" = Ok None /\ (exists e, Unmarshal_map "[]" = Err e) /\ Unmarshal_map "{}" = Ok (Some []).
Proof. vm_compute. split; [|split]; eauto. Qed.
