(* ===== verification/JsonText.v ===== *)
(** * Strings in JSON text

    What [json.Marshal] writes for a string is read back as the same string, when the string is
    UTF-8; and what [json.Unmarshal] reads is UTF-8. A string is UTF-8 when it is the encoding
    of a list of code points. *)
From Stdlib Require Import Ascii.
From S2P Require Import Prelude GoStd JsonScan JsonCodec.

(** ** Strings *)

Lemma str_length_app a b : String.length (a +:+ b) = (String.length a + String.length b)%nat.
Proof. induction a as [|x a IH]; [done|]. rewrite ?sapp_cons; simpl; by rewrite IH. Qed.

Lemma substring_prefix a b : String.substring 0 (String.length a) (a +:+ b) = a.
Proof. induction a as [|x a IH]; [by destruct b|]. rewrite ?sapp_cons; simpl; by rewrite IH. Qed.

Lemma string_drop_cons n c s : string_drop (S n) (String c s) = string_drop n s.
Proof. done. Qed.

Lemma string_drop_app a b : string_drop (String.length a) (a +:+ b) = b.
Proof.
  induction a as [|x a IH].
  2: { rewrite sapp_cons. exact IH. }
  unfold string_drop. rewrite sapp_nil_l, Nat.sub_0_r.
  pose proof (substring_prefix b "") as H. by rewrite sapp_nil_r in H.
Qed.

Lemma string_len_ind (P : string -> Prop) :
  (forall s, (forall t, (String.length t < String.length s)%nat -> P t) -> P s) -> forall s, P s.
Proof.
  intros H s. remember (String.length s) as n eqn:Hn. revert s Hn.
  induction n as [n IH] using lt_wf_ind. intros s ->. apply H. intros t Ht. by eapply IH.
Qed.

(** ** Code points *)

Definition valid_rune (n : N) : Prop := (n < 1114112)%N /\ is_surrogate n = false.

Lemma in_range_byte lo hi n :
  (n < 256)%N -> in_range lo hi (ascii_of_N n) = ((lo <=? n) && (n <=? hi))%N.
Proof. intros Hn. unfold in_range. by rewrite N_ascii_embedding. Qed.

Lemma bits_mod k c : bits k c = (N_of_ascii c mod 2 ^ k)%N.
Proof.
  unfold bits. rewrite <- N.land_ones. f_equal. rewrite N.ones_equiv.
  pose proof (N.pow_nonzero 2 k). lia.
Qed.

Lemma bits_byte k n : (n < 256)%N -> bits k (ascii_of_N n) = (n mod 2 ^ k)%N.
Proof. intros Hn. by rewrite bits_mod, N_ascii_embedding. Qed.

Lemma byte_lt c : (N_of_ascii c < 256)%N.
Proof. apply N_ascii_bounded. Qed.

Lemma in_range_iff lo hi c :
  in_range lo hi c = true <-> (lo <= N_of_ascii c <= hi)%N.
Proof. unfold in_range. rewrite andb_true_iff, !N.leb_le. done. Qed.

Lemma is_surrogate_iff n : is_surrogate n = false <-> (n < 55296 \/ 57344 <= n)%N.
Proof. unfold is_surrogate. rewrite andb_false_iff, N.leb_gt, N.ltb_ge. done. Qed.

Lemma split64 n : exists q r, (n / 64 = q /\ n mod 64 = r /\ n = q * 64 + r /\ r < 64)%N.
Proof.
  exists (n / 64)%N, (n mod 64)%N. split_and!; [done|done| |by apply N.mod_lt].
  rewrite N.mul_comm. apply N.div_mod'.
Qed.

Lemma mod_lead k a x : (a mod 2 ^ k = 0)%N -> (a <= x < a + 2 ^ k)%N -> (x mod 2 ^ k = x - a)%N.
Proof.
  intros Ha Hx. pose proof (N.pow_nonzero 2 k).
  assert (x = a + (x - a))%N as E by lia. rewrite E at 1.
  rewrite N.Div0.add_mod, Ha, N.add_0_l, N.Div0.mod_mod. apply N.mod_small. lia.
Qed.

Lemma DecodeRune_valid s : valid_rune (DecodeRune s).1.
Proof.
  assert (valid_rune RuneError) as Herr by by split.
  unfold DecodeRune, valid_rune. destruct s as [|a s]; [done|].
  destruct (in_range 0 127 a) eqn:Ha; cbn [fst].
  { apply in_range_iff in Ha. rewrite is_surrogate_iff. lia. }
  destruct s as [|b s]; [done|].
  destruct (in_range 194 223 a && in_range 128 191 b) eqn:H2; cbn [fst].
  { apply andb_prop in H2 as [H1%in_range_iff H2%in_range_iff]. rewrite is_surrogate_iff, !bits_mod.
    rewrite (mod_lead 5 192), (mod_lead 6 128) by (done || lia). lia. }
  destruct s as [|c s]; [done|].
  match goal with |- context [if ?b then _ else _] => destruct b eqn:H3 end.
  { cbn [fst]. rewrite !andb_true_iff, !in_range_iff in H3. rewrite is_surrogate_iff, !bits_mod.
    destruct H3 as [[H1 H3] H4].
    assert (128 <= N_of_ascii b <= 191)%N as Hb.
    { destruct (in_range 224 224 a), (in_range 237 237 a); apply in_range_iff in H3; lia. }
    rewrite (mod_lead 4 224), (mod_lead 6 128), (mod_lead 6 128) by (done || lia).
    destruct (in_range 224 224 a) eqn:E1; [apply in_range_iff in E1, H3; lia|].
    destruct (in_range 237 237 a) eqn:E2; [apply in_range_iff in E2, H3; lia|].
    assert (N_of_ascii a <> 237%N).
    { intros Ea. unfold in_range in E2. rewrite Ea in E2. done. }
    lia. }
  destruct s as [|d s]; [done|].
  match goal with |- context [if ?b then _ else _] => destruct b eqn:H4 end; [|done].
  cbn [fst]. rewrite !andb_true_iff, !in_range_iff in H4. rewrite is_surrogate_iff, !bits_mod.
  destruct H4 as [[[H1 H4] H5] H6].
  assert (128 <= N_of_ascii b <= 191)%N as Hb.
  { destruct (in_range 240 240 a), (in_range 244 244 a); apply in_range_iff in H4; lia. }
  assert (N_of_ascii a = 240 -> 144 <= N_of_ascii b)%N as Hlo.
  { intros Ea. unfold in_range in H4 at 1. rewrite Ea in H4. apply in_range_iff in H4. lia. }
  assert (N_of_ascii a = 244 -> N_of_ascii b <= 143)%N as Hhi.
  { intros Ea. unfold in_range in H4 at 1 3. rewrite Ea in H4. apply in_range_iff in H4. lia. }
  rewrite (mod_lead 3 240), !(mod_lead 6 128) by (done || lia). lia.
Qed.

Lemma byte_cons n s : byte n +:+ s = String (ascii_of_N n) s.
Proof. done. Qed.

Lemma in_range_false lo hi n : (n < 256)%N -> (n < lo \/ hi < n)%N -> in_range lo hi (ascii_of_N n) = false.
Proof. intros Hn Hr. rewrite in_range_byte by done. apply andb_false_iff. rewrite !N.leb_gt. lia. Qed.

Lemma in_range_true lo hi n : (n < 256)%N -> (lo <= n <= hi)%N -> in_range lo hi (ascii_of_N n) = true.
Proof. intros Hn Hr. rewrite in_range_byte by done. apply andb_true_iff. rewrite !N.leb_le. lia. Qed.

(** The bytes of an encoded code point, from the most significant one. *)
Lemma DecodeRune_EncodeRune n t :
  valid_rune n -> DecodeRune (EncodeRune n +:+ t) = (n, String.length (EncodeRune n)).
Proof.
  intros [Hmax Hsur%is_surrogate_iff]. unfold EncodeRune.
  destruct (N.ltb_spec n 128) as [H1|H1].
  { rewrite byte_cons. unfold DecodeRune. rewrite in_range_true by lia. by rewrite N_ascii_embedding by lia. }
  destruct (N.ltb_spec n 2048) as [H2|H2].
  { rewrite sapp_assoc, !byte_cons. unfold DecodeRune.
    destruct (split64 n) as (q & r & -> & -> & E & Hr).
    rewrite (in_range_false 0 127) by lia. rewrite !in_range_true by lia. cbn [andb].
    rewrite !bits_byte by lia. rewrite (mod_lead 5 192), (mod_lead 6 128) by (done || lia).
    f_equal. lia. }
  destruct (N.ltb_spec n 65536) as [H3|H3].
  { rewrite !sapp_assoc, !byte_cons. unfold DecodeRune.
    change 4096%N with (64 * 64)%N. rewrite <- N.Div0.div_div.
    destruct (split64 n) as (n1 & c & -> & -> & E & Hc), (split64 n1) as (a & b & -> & -> & E1 & Hb).
    rewrite (in_range_false 0 127), (in_range_false 194 223) by lia. cbn [andb].
    rewrite (in_range_true 224 239) by lia. rewrite (in_range_true 128 191 (128 + c)) by lia.
    match goal with |- context [if ?x && ?y && ?z then _ else _] => assert (y = true) as -> end.
    { destruct (decide (a = 0)%N) as [->|Ha0]; [apply in_range_true; lia|].
      rewrite (in_range_false 224 224) by lia.
      destruct (decide (a = 13)%N) as [->|Ha1]; [apply in_range_true; lia|].
      rewrite (in_range_false 237 237) by lia. apply in_range_true; lia. }
    cbn [andb]. rewrite !bits_byte by lia.
    rewrite (mod_lead 4 224), !(mod_lead 6 128) by (done || lia). f_equal. lia. }
  rewrite !sapp_assoc, !byte_cons. unfold DecodeRune.
  change 262144%N with (64 * 64 * 64)%N. change 4096%N with (64 * 64)%N. rewrite <- !N.Div0.div_div.
  destruct (split64 n) as (n1 & d & -> & -> & E & Hd), (split64 n1) as (n2 & c & -> & -> & E1 & Hc),
    (split64 n2) as (a & b & -> & -> & E2 & Hb).
  rewrite (in_range_false 0 127), (in_range_false 194 223), (in_range_false 224 239) by lia. cbn [andb].
  rewrite (in_range_true 240 244), (in_range_true 128 191 (128 + c)), (in_range_true 128 191 (128 + d)) by lia.
  match goal with |- context [if ?x && ?y && ?z && _ then _ else _] => assert (y = true) as -> end.
  { destruct (decide (a = 0)%N) as [->|Ha0]; [apply in_range_true; lia|].
    rewrite (in_range_false 240 240) by lia.
    destruct (decide (a = 4)%N) as [->|Ha1]; [apply in_range_true; lia|].
    rewrite (in_range_false 244 244) by lia. apply in_range_true; lia. }
  cbn [andb]. rewrite !bits_byte by lia.
  rewrite (mod_lead 3 240), !(mod_lead 6 128) by (done || lia). f_equal. lia.
Qed.

(** ** UTF-8 strings *)

Definition runes (ns : list N) : string := foldr (fun n s => EncodeRune n +:+ s) "" ns.

Definition utf8 (s : string) : Prop := exists ns, Forall valid_rune ns /\ s = runes ns.

Lemma utf8_nil : utf8 "".
Proof. by exists []. Qed.

Lemma utf8_rune n s : valid_rune n -> utf8 s -> utf8 (EncodeRune n +:+ s).
Proof. intros Hn (ns & Hns & ->). exists (n :: ns). split; [by constructor|done]. Qed.

(** ** What [Marshal] writes for a code point *)

Definition escaped (n : N) : string := escape_string 1 (EncodeRune n).

(** Bytes that stand for themselves in a literal. *)
Definition plain (c : ascii) : bool :=
  negb (Ascii.eqb c dquote) && negb (Ascii.eqb c backslash) && (32 <=? nat_of_ascii c)%nat.

Definition simple_escapable (c : ascii) : bool :=
  Ascii.eqb c "b" || Ascii.eqb c "f" || Ascii.eqb c "n" || Ascii.eqb c "r" || Ascii.eqb c "t"
  || Ascii.eqb c backslash || Ascii.eqb c "/" || Ascii.eqb c dquote.

Definition hex4 (a b c d : ascii) : N := (hex_val a * 4096 + hex_val b * 256 + hex_val c * 16 + hex_val d)%N.

Definition u_escape (a b c d : ascii) : string :=
  String backslash (String "u" (String a (String b (String c (String d ""))))).

(** A code point is written as it is, after a backslash, or in hexadecimal. *)
Inductive escape_of (n : N) : string -> Prop :=
| escape_plain :
    all_bytes plain (EncodeRune n) = true -> escape_of n (EncodeRune n)
| escape_simple e :
    simple_escapable e = true -> EncodeRune n = String (simple_escape e) "" ->
    escape_of n (String backslash (String e ""))
| escape_hex a b c d :
    is_hex a && is_hex b && is_hex c && is_hex d = true -> n = hex4 a b c d ->
    escape_of n (u_escape a b c d).

Lemma plain_high n : (128 <= n < 256)%N -> plain (ascii_of_N n) = true.
Proof.
  intros Hn. unfold plain. assert (nat_of_ascii (ascii_of_N n) = N.to_nat n) as Hc.
  { unfold nat_of_ascii. by rewrite N_ascii_embedding by lia. }
  rewrite Hc. rewrite !andb_true_iff, !negb_true_iff. split_and!; [..|apply Nat.leb_le; lia].
  - apply Ascii.eqb_neq. intros E. rewrite E in Hc. change (nat_of_ascii dquote) with 34%nat in Hc. lia.
  - apply Ascii.eqb_neq. intros E. rewrite E in Hc. change (nat_of_ascii backslash) with 92%nat in Hc. lia.
Qed.

Lemma escaped_ascii c : (nat_of_ascii c < 128)%nat -> escape_of (N_of_ascii c) (escaped (N_of_ascii c)).
Proof.
  intros Hc.
  destruct c as [[] [] [] [] [] [] [] []]; try (exfalso; vm_compute in Hc; lia); clear Hc;
    match goal with |- escape_of ?n ?t =>
      let n' := eval vm_compute in n in let t' := eval vm_compute in t in
      change (escape_of n' t');
      first [ exact (escape_plain n' eq_refl) | by apply escape_simple | by apply (escape_hex n') ]
    end.
Qed.

Lemma EncodeRune_low n : (n < 128)%N -> EncodeRune n = byte n.
Proof. intros Hn. unfold EncodeRune. by rewrite (proj2 (N.ltb_lt n 128)). Qed.

Lemma nat_of_byte n : (n < 256)%N -> nat_of_ascii (ascii_of_N n) = N.to_nat n.
Proof. intros Hn. unfold nat_of_ascii. by rewrite N_ascii_embedding. Qed.

Lemma EncodeRune_high n :
  valid_rune n -> (128 <= n)%N ->
  (exists c s, EncodeRune n = String c s /\ (128 <= nat_of_ascii c)%nat) /\ all_bytes plain (EncodeRune n) = true.
Proof.
  intros [Hn _] Hlo. unfold EncodeRune. destruct (N.ltb_spec n 128) as [|_]; [lia|].
  destruct (N.ltb_spec n 2048) as [H2|H2].
  { destruct (split64 n) as (a & b & -> & -> & E & Hb). split.
    - eexists _, _. rewrite byte_cons. split; [done|]. rewrite nat_of_byte; lia.
    - rewrite all_bytes_app. simpl. by rewrite !plain_high by lia. }
  destruct (N.ltb_spec n 65536) as [H3|H3].
  { change 4096%N with (64 * 64)%N. rewrite <- N.Div0.div_div.
    destruct (split64 n) as (n1 & c & -> & -> & E & Hc), (split64 n1) as (a & b & -> & -> & E1 & Hb). split.
    - eexists _, _. rewrite byte_cons. split; [done|]. rewrite nat_of_byte; lia.
    - rewrite !all_bytes_app. simpl. by rewrite !plain_high by lia. }
  change 262144%N with (64 * 64 * 64)%N. change 4096%N with (64 * 64)%N. rewrite <- !N.Div0.div_div.
  destruct (split64 n) as (n1 & d & -> & -> & E & Hd), (split64 n1) as (n2 & c & -> & -> & E1 & Hc),
    (split64 n2) as (a & b & -> & -> & E2 & Hb). split.
  - eexists _, _. rewrite byte_cons. split; [done|]. rewrite nat_of_byte; lia.
  - rewrite !all_bytes_app. simpl. by rewrite !plain_high by lia.
Qed.

Lemma escape_string_high f n t :
  valid_rune n -> (128 <= n)%N ->
  escape_string (S f) (EncodeRune n +:+ t)
  = (if N.eqb n 8232 then String backslash "u2028" else if N.eqb n 8233 then String backslash "u2029"
     else EncodeRune n) +:+ escape_string f t.
Proof.
  intros Hn Hlo. pose proof (DecodeRune_EncodeRune n t Hn) as Hd.
  destruct (EncodeRune_high n Hn Hlo) as [(c & s & He & Hc) _].
  pose proof (string_drop_app (EncodeRune n) t) as Ht. pose proof (substring_prefix (EncodeRune n) t) as Hs.
  rewrite He in *. rewrite sapp_cons in *. cbn [escape_string].
  rewrite (proj2 (Nat.ltb_ge _ _) Hc), Hd, Ht, Hs. f_equal.
  destruct (N.eqb_spec n RuneError) as [->|]; [|done].
  vm_compute in He. by injection He as <- <-.
Qed.

Lemma escape_string_rune f n t :
  valid_rune n -> escape_string (S f) (EncodeRune n +:+ t) = escaped n +:+ escape_string f t.
Proof.
  intros Hn. unfold escaped. destruct (N.ltb_spec n 128) as [Hlo|Hlo].
  - rewrite EncodeRune_low by done. rewrite byte_cons. unfold byte. cbn [escape_string].
    rewrite nat_of_byte by lia. rewrite (proj2 (Nat.ltb_lt (N.to_nat n) 128)) by lia. by rewrite sapp_nil_r.
  - rewrite escape_string_high by done. rewrite <- (sapp_nil_r (EncodeRune n)) at 2.
    rewrite escape_string_high by done. cbn [escape_string]. by rewrite sapp_nil_r.
Qed.

Lemma escaped_escape n : valid_rune n -> escape_of n (escaped n).
Proof.
  intros Hn. destruct (N.ltb_spec n 128) as [Hlo|Hlo].
  - rewrite <- (N_ascii_embedding n) by lia. apply escaped_ascii. rewrite nat_of_byte; lia.
  - unfold escaped. rewrite <- (sapp_nil_r (EncodeRune n)), escape_string_high, sapp_nil_r by done.
    destruct (N.eqb_spec n 8232) as [->|_]; [by apply (escape_hex _ "2" "0" "2" "8")|].
    destruct (N.eqb_spec n 8233) as [->|_]; [by apply (escape_hex _ "2" "0" "2" "9")|].
    apply escape_plain. by apply EncodeRune_high.
Qed.

(** ** String literals *)

(** What the scanner accepts after the opening quote, up to the closing one. *)
Fixpoint body_ok (s : string) : bool :=
  match s with
  | "" => false
  | String c s =>
      if Ascii.eqb c dquote then true
      else if Ascii.eqb c backslash then
        match s with
        | String e s1 =>
            if simple_escapable e then body_ok s1
            else
              Ascii.eqb e "u"
              && match s1 with
                 | String a (String b (String c (String d s2))) =>
                     is_hex a && is_hex b && is_hex c && is_hex d && body_ok s2
                 | _ => false
                 end
        | "" => false
        end
      else (32 <=? nat_of_ascii c)%nat && body_ok s
  end.

Lemma plain_iff c :
  plain c = true <-> Ascii.eqb c dquote = false /\ Ascii.eqb c backslash = false /\ (32 <=? nat_of_ascii c)%nat = true.
Proof. unfold plain. rewrite !andb_true_iff, !negb_true_iff. tauto. Qed.

Lemma body_ok_plain e t : all_bytes plain e = true -> body_ok (e +:+ t) = body_ok t.
Proof.
  induction e as [|c e IH]; [done|]. simpl all_bytes. intros [Hc He]%andb_prop.
  rewrite sapp_cons. cbn [body_ok]. apply plain_iff in Hc as (-> & -> & ->). by apply IH.
Qed.

Lemma body_ok_simple e t : simple_escapable e = true -> body_ok (String backslash (String e t)) = body_ok t.
Proof.
  intros He. change (body_ok (String backslash (String e t))) with
    (if simple_escapable e then body_ok t
     else Ascii.eqb e "u"
          && match t with
             | String a (String b (String c (String d s2))) =>
                 is_hex a && is_hex b && is_hex c && is_hex d && body_ok s2
             | _ => false
             end). by rewrite He.
Qed.

Lemma raw_string_plain e t :
  all_bytes plain e = true -> raw_string (e +:+ t) = (e +:+ (raw_string t).1, (raw_string t).2).
Proof.
  induction e as [|c e IH]; [rewrite !sapp_nil_l; by destruct (raw_string t)|]. simpl all_bytes. intros [Hc He]%andb_prop.
  rewrite sapp_cons. cbn [raw_string]. apply plain_iff in Hc as (-> & -> & _). by rewrite IH.
Qed.

Lemma is_hex_plain c : is_hex c = true -> plain c = true.
Proof. destruct c as [[] [] [] [] [] [] [] []]; vm_compute; intros; try discriminate; reflexivity. Qed.

Lemma raw_string_escape c t :
  raw_string (String backslash (String c t)) = (String backslash (String c (raw_string t).1), (raw_string t).2).
Proof. cbn. by destruct (raw_string t). Qed.

Lemma getu4_simple e t : Ascii.eqb e "u" = false -> getu4 (String backslash (String e t)) = None.
Proof. intros He. destruct t as [|? [|? [|? [|? ?]]]]; try done. cbn. by rewrite He. Qed.

Lemma getu4_hex a b c d t :
  is_hex a && is_hex b && is_hex c && is_hex d = true ->
  getu4 (u_escape a b c d +:+ t) = Some (hex4 a b c d, t).
Proof. intros H. unfold u_escape. rewrite !sapp_cons, sapp_nil_l. cbn. by rewrite H. Qed.

Lemma simple_not_u e : simple_escapable e = true -> Ascii.eqb e "u" = false.
Proof. intros He. destruct (Ascii.eqb_spec e "u") as [->|]; done. Qed.

Section escape.
Context (n : N) (e : string).
Hypothesis Hn : valid_rune n.
Hypothesis He : escape_of n e.

Lemma escape_body_ok t : body_ok (e +:+ t) = body_ok t.
Proof.
  destruct He as [Hp|c Hc _|a b c d Hh _]; [by apply body_ok_plain|..].
  - rewrite !sapp_cons, sapp_nil_l. by apply body_ok_simple.
  - unfold u_escape. rewrite !sapp_cons, sapp_nil_l. cbn. by rewrite Hh.
Qed.

Lemma escape_raw_string t : raw_string (e +:+ t) = (e +:+ (raw_string t).1, (raw_string t).2).
Proof.
  destruct He as [Hp|c _ _|a b c d Hh _]; [by apply raw_string_plain|..].
  - rewrite !sapp_cons. apply raw_string_escape.
  - unfold u_escape. rewrite !sapp_cons, sapp_nil_l, raw_string_escape.
    rewrite !andb_true_iff in Hh. destruct Hh as [[[Ha Hb] Hc] Hd].
    pose proof (raw_string_plain (String a (String b (String c (String d "")))) t) as Hr.
    rewrite !sapp_cons, !sapp_nil_l in Hr. rewrite Hr; [done|].
    simpl. by rewrite !is_hex_plain.
Qed.

Lemma escape_unquote f t : unquote (S f) (e +:+ t) = EncodeRune n +:+ unquote f t.
Proof.
  destruct He as [Hp|c Hc E|a b c d Hh E].
  - pose proof (DecodeRune_EncodeRune n t Hn) as Hd. pose proof (string_drop_app (EncodeRune n) t) as Ht.
    destruct (EncodeRune n) as [|x s] eqn:Ex.
    { exfalso. unfold EncodeRune in Ex. repeat destruct (_ <? _)%N; done. }
    rewrite sapp_cons in *. cbn [unquote]. simpl in Hp. apply andb_prop in Hp as [Hp _].
    apply plain_iff in Hp as (_ & -> & _). by rewrite Hd, Ex, Ht, sapp_cons.
  - rewrite !sapp_cons, sapp_nil_l. cbn [unquote]. rewrite getu4_simple by by apply simple_not_u.
    by rewrite E.
  - pose proof (getu4_hex a b c d t Hh) as Hg. unfold u_escape in *. rewrite !sapp_cons, sapp_nil_l in *.
    cbn [unquote]. rewrite Hg, <- E. by destruct Hn as [_ ->].
Qed.

Lemma escape_nonempty : (1 <= String.length e)%nat.
Proof.
  destruct He as [_| |]; simpl; try lia. destruct (EncodeRune n) eqn:Ex; simpl; [|lia].
  exfalso. unfold EncodeRune in Ex. repeat destruct (_ <? _)%N; done.
Qed.
End escape.

(** ** Round trip *)

Definition escapes (ns : list N) : string := foldr (fun n s => escaped n +:+ s) "" ns.

Lemma EncodeRune_nonempty n : (1 <= String.length (EncodeRune n))%nat.
Proof. unfold EncodeRune. repeat destruct (_ <? _)%N; simpl; lia. Qed.

Lemma escape_string_runes ns f :
  Forall valid_rune ns -> (String.length (runes ns) <= f)%nat -> escape_string f (runes ns) = escapes ns.
Proof.
  intros Hns. revert f. induction Hns as [|n ns Hn _ IH]; intros f Hf; [by destruct f|].
  simpl runes in *. rewrite str_length_app in Hf. pose proof (EncodeRune_nonempty n).
  destruct f as [|f]; [lia|]. rewrite escape_string_rune by done. simpl. f_equal. apply IH. lia.
Qed.

Lemma body_ok_escapes ns t : Forall valid_rune ns -> body_ok (escapes ns +:+ t) = body_ok t.
Proof.
  induction 1 as [|n ns Hn _ IH]; [done|]. simpl. rewrite sapp_assoc.
  rewrite (escape_body_ok n) by by apply escaped_escape. done.
Qed.

Lemma raw_string_escapes ns t :
  Forall valid_rune ns -> raw_string (escapes ns +:+ String dquote t) = (escapes ns, t).
Proof.
  induction 1 as [|n ns Hn _ IH]; [done|]. simpl. rewrite sapp_assoc.
  rewrite (escape_raw_string n) by by apply escaped_escape. by rewrite IH.
Qed.

Lemma unquote_escapes ns f :
  Forall valid_rune ns -> (String.length (escapes ns) <= f)%nat -> unquote f (escapes ns) = runes ns.
Proof.
  intros Hns. revert f. induction Hns as [|n ns Hn _ IH]; intros f Hf; [by destruct f|].
  simpl escapes in *. rewrite str_length_app in Hf.
  pose proof (escape_nonempty n _ (escaped_escape n Hn)).
  destruct f as [|f]; [lia|]. rewrite (escape_unquote n) by (done || by apply escaped_escape).
  simpl. f_equal. apply IH. lia.
Qed.

(** The text between the quotes that [Marshal] writes. *)
Definition escape (s : string) : string := escape_string (String.length s) s.

Lemma escape_ok s t : utf8 s -> body_ok (escape s +:+ String dquote t) = true.
Proof.
  intros (ns & Hns & ->). unfold escape. rewrite escape_string_runes by done. by rewrite body_ok_escapes.
Qed.

Lemma read_escape s t : utf8 s -> read_string (escape s +:+ String dquote t) = (s, t).
Proof.
  intros (ns & Hns & ->). unfold escape, read_string. rewrite escape_string_runes by done.
  rewrite raw_string_escapes by done. by rewrite unquote_escapes.
Qed.

(** ** What is read is UTF-8 *)

(** Every backslash stands before an ASCII byte. *)
Fixpoint escapes_ascii (s : string) : bool :=
  match s with
  | "" => true
  | String c s =>
      if Ascii.eqb c backslash then
        match s with
        | "" => true
        | String e s => (nat_of_ascii e <? 128)%nat && escapes_ascii s
        end
      else escapes_ascii s
  end.

Definition no_backslash (c : ascii) : bool := negb (Ascii.eqb c backslash).

Lemma escapes_ascii_skip p t : all_bytes no_backslash p = true -> escapes_ascii (p +:+ t) = escapes_ascii t.
Proof.
  induction p as [|c p IH]; [done|]. simpl all_bytes. intros [Hc%negb_true_iff Hp]%andb_prop.
  rewrite sapp_cons. cbn [escapes_ascii]. rewrite Hc. by apply IH.
Qed.

Lemma escapes_ascii_escape e t :
  escapes_ascii (String backslash (String e t)) = (nat_of_ascii e <? 128)%nat && escapes_ascii t.
Proof. done. Qed.

Lemma plain_no_backslash c : plain c = true -> no_backslash c = true.
Proof. intros (_ & H & _)%plain_iff. unfold no_backslash. by rewrite H. Qed.

Lemma escapes_ascii_hex a b c d t :
  is_hex a && is_hex b && is_hex c && is_hex d = true ->
  escapes_ascii (u_escape a b c d +:+ t) = escapes_ascii t.
Proof.
  intros H. rewrite !andb_true_iff in H. destruct H as [[[Ha Hb] Hc] Hd].
  unfold u_escape. rewrite !sapp_cons, sapp_nil_l, escapes_ascii_escape.
  pose proof (escapes_ascii_skip (String a (String b (String c (String d "")))) t) as Hs.
  rewrite !sapp_cons, sapp_nil_l in Hs. rewrite Hs; [done|].
  simpl. by rewrite !plain_no_backslash by by apply is_hex_plain.
Qed.

Lemma tail_no_backslash c lo hi : in_range lo hi c = true -> (128 <= lo)%N -> no_backslash c = true.
Proof.
  intros [H _]%in_range_iff Hlo. apply negb_true_iff, Ascii.eqb_neq. intros ->.
  change (N_of_ascii backslash) with 92%N in H. lia.
Qed.

Lemma DecodeRune_split c s :
  exists p t, s = p +:+ t /\ (DecodeRune (String c s)).2 = S (String.length p) /\ all_bytes no_backslash p = true.
Proof.
  assert (exists p t, s = p +:+ t /\ 1%nat = S (String.length p) /\ all_bytes no_backslash p = true) as H1.
  { by exists "", s. }
  unfold DecodeRune. destruct (in_range 0 127 c); [done|]. destruct s as [|b s]; [done|].
  destruct (_ && in_range 128 191 b) eqn:H2.
  { apply andb_prop in H2 as [_ H2]. exists (String b ""), s. split_and!; [done..|].
    simpl. by rewrite (tail_no_backslash _ _ _ H2). }
  destruct s as [|d s]; [done|]. destruct (_ && in_range 128 191 d) eqn:H3.
  { rewrite !andb_true_iff in H3. destruct H3 as [[_ H3] H4]. exists (String b (String d "")), s.
    split_and!; [done..|]. simpl. rewrite (tail_no_backslash _ _ _ H4) by done.
    destruct (in_range 224 224 c), (in_range 237 237 c); by rewrite (tail_no_backslash _ _ _ H3) by done. }
  destruct s as [|e s]; [done|]. destruct (_ && in_range 128 191 e) eqn:H4; [|done].
  rewrite !andb_true_iff in H4. destruct H4 as [[[_ H4] H5] H6].
  exists (String b (String d (String e ""))), s.
  split_and!; [done..|]. simpl.
  rewrite (tail_no_backslash _ _ _ H5), (tail_no_backslash _ _ _ H6) by done.
  destruct (in_range 240 240 c), (in_range 244 244 c); by rewrite (tail_no_backslash _ _ _ H4) by done.
Qed.

Lemma getu4_inv s n rest :
  getu4 s = Some (n, rest) ->
  exists a b c d, is_hex a && is_hex b && is_hex c && is_hex d = true
    /\ s = u_escape a b c d +:+ rest /\ n = hex4 a b c d.
Proof.
  destruct s as [|e [|u [|a [|b [|c [|d s]]]]]]; try done. unfold getu4.
  destruct (Ascii.eqb_spec e backslash) as [->|]; [|done]. destruct (Ascii.eqb_spec u "u") as [->|]; [|done].
  cbn [andb]. destruct (is_hex a && is_hex b && is_hex c && is_hex d) eqn:Hh; [|done].
  intros [= <- <-]. by exists a, b, c, d.
Qed.

Lemma hex_val_lt c : is_hex c = true -> (hex_val c < 16)%N.
Proof. destruct c as [[] [] [] [] [] [] [] []]; vm_compute; intros; try discriminate; reflexivity. Qed.

Lemma hex4_lt a b c d : is_hex a && is_hex b && is_hex c && is_hex d = true -> (hex4 a b c d < 65536)%N.
Proof.
  rewrite !andb_true_iff. intros [[[Ha%hex_val_lt Hb%hex_val_lt] Hc%hex_val_lt] Hd%hex_val_lt].
  unfold hex4. lia.
Qed.

Lemma utf16_valid r1 r2 : valid_rune (utf16_DecodeRune r1 r2).
Proof.
  unfold utf16_DecodeRune. destruct (_ && _) eqn:H; [|by split].
  rewrite !andb_true_iff, !N.leb_le, !N.ltb_lt in H. split; [lia|]. apply is_surrogate_iff. lia.
Qed.

Lemma utf8_ascii c s : (nat_of_ascii c < 128)%nat -> utf8 s -> utf8 (String c s).
Proof.
  intros Hc Hs. unfold nat_of_ascii in Hc.
  assert (String c s = EncodeRune (N_of_ascii c) +:+ s) as ->.
  { rewrite EncodeRune_low by lia. rewrite byte_cons. by rewrite ascii_N_embedding. }
  apply utf8_rune; [|done]. split; [lia|]. apply is_surrogate_iff. lia.
Qed.

Lemma simple_escape_ascii c : (nat_of_ascii c < 128)%nat -> (nat_of_ascii (simple_escape c) < 128)%nat.
Proof.
  intros Hc. unfold simple_escape. repeat (destruct (Ascii.eqb _ _); [vm_compute; lia|]). done.
Qed.

Lemma unquote_utf8 f s : escapes_ascii s = true -> utf8 (unquote f s).
Proof.
  revert s. induction f as [|f IH]; intros s Hs; [apply utf8_nil|].
  destruct s as [|c s]; [apply utf8_nil|]. cbn [unquote].
  destruct (Ascii.eqb_spec c backslash) as [->|Hc].
  - destruct (getu4 (String backslash s)) as [[rr rest]|] eqn:Hg.
    + apply getu4_inv in Hg as (a & b & c & d & Hh & Es & ->). rewrite Es, escapes_ascii_hex in Hs by done.
      pose proof (hex4_lt _ _ _ _ Hh) as Hlt.
      destruct (is_surrogate _) eqn:Hsur; [|apply utf8_rune; [split; [lia|done]|by apply IH]].
      destruct (getu4 rest) as [[rr1 rest1]|] eqn:Hg1; [|by apply utf8_rune; [split|apply IH]].
      destruct (N.eqb _ _); [by apply utf8_rune; [split|apply IH]|].
      apply getu4_inv in Hg1 as (a' & b' & c' & d' & Hh' & -> & ->). rewrite escapes_ascii_hex in Hs by done.
      by apply utf8_rune; [apply utf16_valid|apply IH].
    + destruct s as [|e s]; [apply utf8_nil|]. rewrite escapes_ascii_escape in Hs.
      apply andb_prop in Hs as [He%Nat.ltb_lt Hs].
      apply utf8_ascii; [by apply simple_escape_ascii|by apply IH].
  - pose proof (DecodeRune_valid (String c s)) as Hv.
    destruct (DecodeRune_split c s) as (p & t & -> & Hk & Hp). destruct (DecodeRune _) as [n k]. simpl in *. subst k.
    apply utf8_rune; [done|]. apply IH. rewrite string_drop_cons, string_drop_app.
    destruct (Ascii.eqb_spec c backslash); [done|]. by rewrite escapes_ascii_skip in Hs.
Qed.

Lemma simple_ascii c : simple_escapable c = true -> (nat_of_ascii c <? 128)%nat = true.
Proof. destruct c as [[] [] [] [] [] [] [] []]; vm_compute; intros; try discriminate; reflexivity. Qed.

Lemma raw_escapes_ascii s : body_ok s = true -> escapes_ascii (raw_string s).1 = true.
Proof.
  induction s as [s IH] using string_len_ind. destruct s as [|c s]; [done|]. cbn [body_ok raw_string].
  destruct (Ascii.eqb c dquote); [done|]. destruct (Ascii.eqb c backslash) eqn:Hc.
  - apply Ascii.eqb_eq in Hc as ->. destruct s as [|e s]; [done|].
    destruct (simple_escapable e) eqn:He.
    + intros Hs. specialize (IH s ltac:(simpl; lia) Hs). destruct (raw_string s) as [raw rest]. cbn [fst] in *.
      rewrite escapes_ascii_escape. by rewrite simple_ascii.
    + intros [->%Ascii.eqb_eq H]%andb_prop. destruct s as [|x1 [|x2 [|x3 [|x4 s]]]]; try done.
      apply andb_prop in H as [Hh Hs]. specialize (IH s ltac:(simpl; lia) Hs).
      pose proof (escape_raw_string _ _ (escape_hex _ x1 x2 x3 x4 Hh eq_refl) s) as Hr.
      unfold u_escape in Hr. rewrite !sapp_cons, !sapp_nil_l in Hr. rewrite raw_string_escape in Hr.
      destruct (raw_string (String x1 _)) as [raw rest]. injection Hr as -> _.
      pose proof (escapes_ascii_hex x1 x2 x3 x4 (raw_string s).1 Hh) as Ha.
      unfold u_escape in Ha. rewrite !sapp_cons, !sapp_nil_l in Ha. cbn [fst] in *. by rewrite Ha.
  - intros [_ Hs]%andb_prop. specialize (IH s ltac:(simpl; lia) Hs). destruct (raw_string s) as [raw rest].
    cbn [fst] in *. cbn [escapes_ascii]. by rewrite Hc.
Qed.

Lemma read_string_utf8 s : body_ok s = true -> utf8 (read_string s).1.
Proof.
  intros Hs%raw_escapes_ascii. unfold read_string. destruct (raw_string s) as [raw rest].
  by apply unquote_utf8.
Qed.

Lemma raw_string_length s : body_ok s = true -> (String.length (raw_string s).2 < String.length s)%nat.
Proof.
  induction s as [s IH] using string_len_ind. destruct s as [|c s]; [done|]. cbn [body_ok raw_string].
  destruct (Ascii.eqb c dquote); [simpl; lia|]. destruct (Ascii.eqb c backslash).
  - destruct s as [|e s]; [done|]. intros H.
    assert (String.length (raw_string s).2 < String.length s)%nat.
    { destruct (simple_escapable e); [by apply IH; [simpl; lia|]|].
      apply andb_prop in H as [_ H]. destruct s as [|x1 [|x2 [|x3 [|x4 s]]]]; try done.
      apply andb_prop in H as [Hh Hs]. specialize (IH s ltac:(simpl; lia) Hs).
      rewrite !andb_true_iff in Hh. destruct Hh as [[[H1 H2] H3] H4].
      pose proof (raw_string_plain (String x1 (String x2 (String x3 (String x4 "")))) s) as Hr.
      rewrite !sapp_cons, sapp_nil_l in Hr. rewrite Hr; [simpl; lia|].
      simpl. by rewrite !is_hex_plain. }
    destruct (raw_string s). simpl in *. lia.
  - intros [_ Hs]%andb_prop. specialize (IH s ltac:(simpl; lia) Hs). destruct (raw_string s). simpl in *. lia.
Qed.
