(* ===== verification/JsonGrammar.v ===== *)
(** * JSON text

    The grammar of JSON as a relation between a text, the value it denotes and what follows it.
    Scanner and decoder agree with it: the scanner accepts exactly the texts of the grammar, and
    the decoder returns the value a text denotes. *)
From Stdlib Require Import Ascii.
From S2P Require Import Prelude GoStd JsonScan JsonCodec JsonText.

(** ** Grammar *)

(** The bytes that may follow a literal. *)
Definition stop_byte (c : ascii) : bool :=
  isSpace c || Ascii.eqb c "," || Ascii.eqb c "]" || Ascii.eqb c "}".

Definition stop (s : string) : bool := match s with "" => true | String c _ => stop_byte c end.

(** A step of the scanner within a number. *)
Definition number_step (c : ascii) (st : step) : option step :=
  match scan_step c (mkScanner st []) with
  | Some s' => if in_number (sc_step s') then Some (sc_step s') else None
  | None => None
  end.

Definition number_ends (st : step) : bool :=
  match st with st0 | st1 | stDot0 | stE0 => true | _ => false end.

Fixpoint number_from (st : step) (l : string) : bool :=
  match l with
  | "" => number_ends st
  | String c l => match number_step c st with Some st' => number_from st' l | None => false end
  end.

(** The literals of numbers that fit a float64. *)
Definition number (l : string) : bool := number_from stBeginValue l && float_in_range l.

Definition word (l : string) : option json :=
  if String.eqb l "null" then Some JNull
  else if String.eqb l "true" then Some (JBool true)
  else if String.eqb l "false" then Some (JBool false)
  else None.

Definition put (o : fields) (kv : string * json) : fields := obj_set kv.1 kv.2 o.

Section grammar.
Context `{FloatText}.

(** [value d s v t]: [s] starts with the text of [v], nested at most [d] deep, and goes on with
    [t]. The lists are those after an opening bracket or a comma, up to the closing bracket. *)
Inductive value : nat -> string -> json -> string -> Prop :=
| value_word d l v t : word l = Some v -> stop t = true -> value d (l +:+ t) v t
| value_number d l t : number l = true -> stop t = true -> value d (l +:+ t) (JNum (float_text l)) t
| value_string d s :
    body_ok s = true -> value d (String dquote s) (JStr (read_string s).1) (read_string s).2
| value_array_nil d s t : skip_space s = String "]" t -> value (S d) (String "[" s) (JArr []) t
| value_array d s l t : elements d s l t -> value (S d) (String "[" s) (JArr l) t
| value_object_nil d s t : skip_space s = String "}" t -> value (S d) (String "{" s) (JObj []) t
| value_object d s kvs t :
    members d s kvs t -> value (S d) (String "{" s) (JObj (fold_left put kvs [])) t
with elements : nat -> string -> list json -> string -> Prop :=
| elements_last d s v s1 t :
    value d (skip_space s) v s1 -> skip_space s1 = String "]" t -> elements d s [v] t
| elements_more d s v s1 s2 l t :
    value d (skip_space s) v s1 -> skip_space s1 = String "," s2 -> elements d s2 l t ->
    elements d s (v :: l) t
with members : nat -> string -> list (string * json) -> string -> Prop :=
| members_last d s kv s1 t : member d s kv s1 -> skip_space s1 = String "}" t -> members d s [kv] t
| members_more d s kv s1 s2 kvs t :
    member d s kv s1 -> skip_space s1 = String "," s2 -> members d s2 kvs t ->
    members d s (kv :: kvs) t
with member : nat -> string -> string * json -> string -> Prop :=
| member_intro d s s1 s2 v t :
    skip_space s = String dquote s1 -> body_ok s1 = true ->
    skip_space (read_string s1).2 = String ":" s2 -> value d (skip_space s2) v t ->
    member d s ((read_string s1).1, v) t.

Scheme value_mut := Minimality for value Sort Prop
  with elements_mut := Minimality for elements Sort Prop
  with members_mut := Minimality for members Sort Prop
  with member_mut := Minimality for member Sort Prop.
Combined Scheme grammar_mut from value_mut, elements_mut, members_mut, member_mut.

(** [data] is the text of [v], with white space around it. *)
Definition document (data : string) (v : json) : Prop :=
  exists t, value maxNestingDepth (skip_space data) v t /\ skip_space t = "".

(** ** White space *)

Lemma skip_space_length s : (String.length (skip_space s) <= String.length s)%nat.
Proof. induction s as [|c s IH]; [done|]. simpl. destruct (isSpace c); simpl; lia. Qed.

Lemma skip_space_length_cons s c t :
  skip_space s = String c t -> (String.length t < String.length s)%nat.
Proof. intros E. pose proof (skip_space_length s). rewrite E in *. simpl in *. lia. Qed.

Lemma skip_space_head s c t : skip_space s = String c t -> isSpace c = false.
Proof.
  induction s as [|c' s IH]; [done|]. simpl. destruct (isSpace c') eqn:Hc; [done|]. by intros [= <- <-].
Qed.

Lemma skip_space_id c s : isSpace c = false -> skip_space (String c s) = String c s.
Proof. intros Hc. simpl. by rewrite Hc. Qed.

Lemma skip_space_idem s : skip_space (skip_space s) = skip_space s.
Proof.
  destruct (skip_space s) as [|c t] eqn:E; [done|]. apply skip_space_id. by apply skip_space_head in E.
Qed.

Lemma read_string_length s : body_ok s = true -> (String.length (read_string s).2 < String.length s)%nat.
Proof.
  intros Hs%raw_string_length. unfold read_string. by destruct (raw_string s).
Qed.

(** ** Numbers *)

Lemma number_nonempty l : number l = true -> (1 <= String.length l)%nat.
Proof. destruct l; [done|]. simpl. lia. Qed.

Lemma word_nonempty l v : word l = Some v -> (1 <= String.length l)%nat.
Proof. destruct l; [done|]. simpl. lia. Qed.

Lemma grammar_length :
  (forall d s v t, value d s v t -> (String.length t < String.length s)%nat)
  /\ (forall d s l t, elements d s l t -> (String.length t < String.length s)%nat)
  /\ (forall d s kvs t, members d s kvs t -> (String.length t < String.length s)%nat)
  /\ (forall d s kv t, member d s kv t -> (String.length t < String.length s)%nat).
Proof.
  apply grammar_mut.
  - intros d l v t Hl _. apply word_nonempty in Hl. rewrite str_length_app. lia.
  - intros d l t Hl _. apply number_nonempty in Hl. rewrite str_length_app. lia.
  - intros d s Hs%read_string_length. simpl. lia.
  - intros d s t Hs%skip_space_length_cons. simpl. lia.
  - intros d s l t _ IH. simpl. lia.
  - intros d s t Hs%skip_space_length_cons. simpl. lia.
  - intros d s kvs t _ IH. simpl. lia.
  - intros d s v s1 t _ IH Hs%skip_space_length_cons. pose proof (skip_space_length s). lia.
  - intros d s v s1 s2 l t _ IH Hs%skip_space_length_cons _ IHl. pose proof (skip_space_length s). lia.
  - intros d s kv s1 t _ IH Hs%skip_space_length_cons. lia.
  - intros d s kv s1 s2 kvs t _ IH Hs%skip_space_length_cons _ IHl. lia.
  - intros d s s1 s2 v t H1%skip_space_length_cons H2%read_string_length H3%skip_space_length_cons _ IH.
    pose proof (skip_space_length s2). lia.
Qed.

Lemma value_length d s v t : value d s v t -> (String.length t < String.length s)%nat.
Proof. apply grammar_length. Qed.
Lemma elements_length d s l t : elements d s l t -> (String.length t < String.length s)%nat.
Proof. apply grammar_length. Qed.
Lemma members_length d s kvs t : members d s kvs t -> (String.length t < String.length s)%nat.
Proof. apply grammar_length. Qed.
Lemma member_length d s kv t : member d s kv t -> (String.length t < String.length s)%nat.
Proof. apply grammar_length. Qed.

(** ** Literals *)

Lemma stop_byte_inv c :
  stop_byte c = true ->
  c = " "%char \/ c = "009"%char \/ c = "013"%char \/ c = "010"%char
  \/ c = ","%char \/ c = "]"%char \/ c = "}"%char.
Proof.
  unfold stop_byte. rewrite !orb_true_iff, !Ascii.eqb_eq. intros [[[Hc|Hc]|Hc]|Hc]; [|tauto..].
  destruct c as [[] [] [] [] [] [] [] []]; try (exfalso; vm_compute in Hc; discriminate); auto 8.
Qed.

Ltac destruct_stop H := apply stop_byte_inv in H as [-> | [-> | [-> | [-> | [-> | [-> | -> ] ] ] ] ] ].

Lemma number_step_stop c st : in_number st = true \/ st = stBeginValue -> stop_byte c = true -> number_step c st = None.
Proof. intros Hst Hc. destruct_stop Hc; destruct Hst as [Hst| ->]; try destruct st; done. Qed.

Lemma number_step_in c st st' : number_step c st = Some st' -> in_number st' = true.
Proof.
  unfold number_step. destruct (scan_step _ _) as [s'|]; [|done].
  destruct (in_number (sc_step s')) eqn:E; [|done]. by intros [= <-].
Qed.

Definition no_stop (c : ascii) : bool := negb (stop_byte c).

Lemma number_from_no_stop st l :
  in_number st = true \/ st = stBeginValue -> number_from st l = true -> all_bytes no_stop l = true.
Proof.
  revert st. induction l as [|c l IH]; intros st Hst Hl; [done|]. simpl in *.
  destruct (number_step c st) as [st'|] eqn:Hs; [|done]. apply andb_true_iff. split.
  - unfold no_stop. destruct (stop_byte c) eqn:Hc; [|done]. by rewrite number_step_stop in Hs.
  - apply (IH st'); [|done]. left. by eapply number_step_in.
Qed.

Lemma number_no_stop l : number l = true -> all_bytes no_stop l = true.
Proof. intros [Hl _]%andb_prop. eapply number_from_no_stop; [by right|exact Hl]. Qed.

Lemma word_inv l v :
  word l = Some v -> (l = "null" /\ v = JNull) \/ (l = "true" /\ v = JBool true) \/ (l = "false" /\ v = JBool false).
Proof.
  unfold word. destruct (String.eqb_spec l "null"); [intros [= <-]; auto|].
  destruct (String.eqb_spec l "true"); [intros [= <-]; auto|].
  destruct (String.eqb_spec l "false"); [intros [= <-]; auto|done].
Qed.

Lemma take_literal_stop l t : all_bytes no_stop l = true -> stop t = true -> take_literal (l +:+ t) = (l, t).
Proof.
  intros Hl Ht. induction l as [|c l IH].
  - rewrite sapp_nil_l. destruct t as [|c t]; [done|]. cbn [take_literal]. unfold stop, stop_byte in Ht.
    by rewrite Ht.
  - simpl in Hl. apply andb_prop in Hl as [Hc%negb_true_iff Hl]. rewrite sapp_cons. cbn [take_literal].
    unfold stop_byte in Hc. rewrite Hc. by rewrite IH.
Qed.

Lemma number_head l : number l = true -> exists c l', l = String c l' /\ (c = "-"%char \/ is_digit c = true).
Proof.
  intros [Hl _]%andb_prop. destruct l as [|c l]; [done|]. exists c, l. split; [done|].
  simpl in Hl. destruct (number_step c stBeginValue) eqn:Hs; [|done]. clear Hl.
  destruct c as [[] [] [] [] [] [] [] []]; try discriminate Hs; auto.
Qed.

Lemma number_value l : number l = true -> literal_value l = JNum (float_text l).
Proof.
  intros Hl%number_head. destruct Hl as (c & l' & -> & Hc). unfold literal_value.
  repeat match goal with |- context [String.eqb ?a ?b] => destruct (String.eqb_spec a b) as [[= -> ->]|_] end;
    [..|done]; by destruct Hc.
Qed.

Lemma value_head d s v t :
  value d s v t ->
  exists c s', s = String c s' /\ isSpace c = false
    /\ Ascii.eqb c "," = false /\ Ascii.eqb c "]" = false /\ Ascii.eqb c "}" = false.
Proof.
  destruct 1 as [d l v t Hl _|d l t Hl _| | | | |]; [| |by eexists _, _..].
  - apply word_inv in Hl as [[-> _]|[[-> _]|[-> _]]]; by eexists _, _.
  - apply number_head in Hl as (c & l' & -> & Hc). exists c, (l' +:+ t). split; [done|].
    destruct Hc as [->|Hc]; [done|].
    destruct c as [[] [] [] [] [] [] [] []]; try discriminate Hc; done.
Qed.

Lemma value_skip d s v t : value d s v t -> skip_space s = s.
Proof. intros (c & s' & -> & Hc & _)%value_head. by apply skip_space_id. Qed.

(** ** Decoding *)

Lemma read_value_skip fuel s : read_value fuel (skip_space s) = read_value fuel s.
Proof. destruct fuel as [|fuel]; [done|]. cbn [read_value]. by rewrite skip_space_idem. Qed.

Lemma read_members_step fuel o s s1 s2 v t :
  skip_space s = String dquote s1 -> skip_space (read_string s1).2 = String ":" s2 ->
  read_value fuel (skip_space s2) = (v, t) ->
  read_members (S fuel) o s = read_members fuel (put o ((read_string s1).1, v)) t.
Proof.
  intros E1 E2 E3. cbn [read_members]. rewrite E1. rewrite read_value_skip in E3.
  change (Ascii.eqb dquote "}") with false. change (Ascii.eqb dquote ",") with false. cbv iota.
  destruct (read_string s1) as [k r]. cbn [fst snd] in *. by rewrite E2, E3.
Qed.

Lemma read_elements_step fuel acc s v t :
  (exists c s', skip_space s = String c s' /\ Ascii.eqb c "," = false /\ Ascii.eqb c "]" = false) ->
  read_value fuel (skip_space s) = (v, t) ->
  read_elements (S fuel) acc s = read_elements fuel (v :: acc) t.
Proof.
  intros (c & s' & Es & H1 & H2) E. cbn [read_elements]. rewrite Es in *. by rewrite H1, H2, E.
Qed.

Ltac lengths :=
  repeat match goal with
  | H : skip_space ?s = String _ _ |- _ => apply skip_space_length_cons in H
  | H : value _ _ _ _ |- _ => apply value_length in H
  | H : elements _ _ _ _ |- _ => apply elements_length in H
  | H : members _ _ _ _ |- _ => apply members_length in H
  | H : member _ _ _ _ |- _ => apply member_length in H
  end; simpl in *; lia.

(** The first byte of a word or a number. *)
Definition literal_byte (c : ascii) : bool :=
  negb (isSpace c) && negb (Ascii.eqb c "{") && negb (Ascii.eqb c "[") && negb (Ascii.eqb c dquote).

Lemma read_literal fuel c l t :
  literal_byte c = true -> all_bytes no_stop (String c l) = true -> stop t = true ->
  read_value (S fuel) (String c l +:+ t) = (literal_value (String c l), t).
Proof.
  intros Hc Hl Ht. pose proof (take_literal_stop _ _ Hl Ht) as Hk. rewrite sapp_cons in *.
  unfold literal_byte in Hc. rewrite !andb_true_iff, !negb_true_iff in Hc. destruct Hc as [[[H1 H2] H3] H4].
  cbn [read_value]. rewrite skip_space_id by done. rewrite H2, H3, H4. by rewrite Hk.
Qed.

Lemma grammar_read :
  (forall d s v t, value d s v t -> forall fuel,
     (String.length s <= String.length t + fuel)%nat -> read_value fuel s = (v, t))
  /\ (forall d s l t, elements d s l t -> forall fuel acc,
     (String.length s <= String.length t + fuel)%nat -> read_elements fuel acc s = (JArr (rev acc ++ l), t))
  /\ (forall d s kvs t, members d s kvs t -> forall fuel o,
     (String.length s <= String.length t + fuel)%nat ->
     read_members fuel o s = (JObj (fold_left put kvs o), t))
  /\ (forall d s kv t, member d s kv t -> forall fuel o,
     (String.length s <= String.length t + fuel)%nat ->
     read_members (S fuel) o s = read_members fuel (put o kv) t).
Proof.
  apply grammar_mut.
  - intros d l v t Hl Ht fuel Hf. pose proof (word_nonempty _ _ Hl). rewrite str_length_app in Hf.
    destruct fuel as [|fuel]; [lia|].
    apply word_inv in Hl as [[-> ->]|[[-> ->]|[-> ->]]]; by rewrite read_literal.
  - intros d l t Hl Ht fuel Hf. pose proof (number_nonempty _ Hl). rewrite str_length_app in Hf.
    destruct fuel as [|fuel]; [lia|].
    destruct (number_head _ Hl) as (c & l' & -> & Hc).
    rewrite read_literal; [|destruct Hc as [->|Hc]; [done|]| |done]; [by rewrite number_value| |by apply number_no_stop].
    destruct c as [[] [] [] [] [] [] [] []]; try discriminate Hc; done.
  - intros d s Hs fuel Hf. pose proof (read_string_length _ Hs). simpl in Hf. destruct fuel as [|fuel]; [lia|].
    cbn [read_value]. rewrite skip_space_id by done.
    change (Ascii.eqb dquote "{") with false. change (Ascii.eqb dquote "[") with false.
    change (Ascii.eqb dquote dquote) with true. cbv iota. by destruct (read_string s).
  - intros d s t Hs fuel Hf. destruct fuel as [|[|fuel]]; [lengths..|].
    cbn [read_value read_elements skip_space]. change (isSpace "[") with false. cbn. by rewrite Hs.
  - intros d s l t Hs IH fuel Hf. destruct fuel as [|fuel]; [lengths|].
    cbn [read_value skip_space]. change (isSpace "[") with false. apply (IH fuel []). simpl in Hf. lia.
  - intros d s t Hs fuel Hf. destruct fuel as [|[|fuel]]; [lengths..|].
    cbn [read_value read_members skip_space]. change (isSpace "{") with false. cbn. by rewrite Hs.
  - intros d s kvs t Hs IH fuel Hf. destruct fuel as [|fuel]; [lengths|].
    cbn [read_value skip_space]. change (isSpace "{") with false. apply IH. simpl in Hf. lia.
  - intros d s v s1 t Hv IH Hs fuel acc Hf. pose proof (skip_space_length s).
    destruct fuel as [|[|fuel]]; [lengths..|].
    rewrite (read_elements_step _ _ _ v s1).
    + cbn [read_elements]. rewrite Hs. cbn. done.
    + apply value_head in Hv as (c & s' & Hv & _ & Hc & Hd & _). by exists c, s'.
    + apply IH. lengths.
  - intros d s v s1 s2 l t Hv IH Hs Hl IHl fuel acc Hf. pose proof (skip_space_length s).
    destruct fuel as [|[|fuel]]; [lengths..|].
    rewrite (read_elements_step _ _ _ v s1).
    + cbn [read_elements]. rewrite Hs. change (Ascii.eqb "," "]") with false. cbn [Ascii.eqb].
      rewrite IHl by lengths. simpl. by rewrite <- app_assoc.
    + apply value_head in Hv as (c & s' & Hv & _ & Hc & Hd & _). by exists c, s'.
    + apply IH. lengths.
  - intros d s kv s1 t Hm IH Hs fuel o Hf. destruct fuel as [|[|fuel]]; [lengths..|].
    rewrite IH by lengths. cbn [read_members]. rewrite Hs. done.
  - intros d s kv s1 s2 kvs t Hm IH Hs Hms IHms fuel o Hf. destruct fuel as [|[|fuel]]; [lengths..|].
    rewrite IH by lengths. cbn [read_members]. rewrite Hs.
    change (Ascii.eqb "," "}") with false. change (Ascii.eqb "," ",") with true. cbv iota.
    apply IHms. lengths.
  - intros d s s1 s2 v t E1 Hb E2 Hv IH fuel o Hf. apply (read_members_step _ _ _ _ s2); [done..|].
    apply IH. apply skip_space_length_cons in E1, E2. apply read_string_length in Hb.
    pose proof (skip_space_length s2). lia.
Qed.

(** ** Scanning

    [scan st ps s]: the scanner accepts the rest [s] of a text, outside a number. *)

Definition scan (st : step) (ps : list parse_state) (s : string) : bool := scan_all (mkScanner st ps) [] s.

Lemma scan_cons st ps c s :
  scan st ps (String c s) =
  match scan_step c (mkScanner st ps) with
  | None => false
  | Some s' => if in_number (sc_step s') then scan_all s' [c] s else scan_all s' [] s
  end.
Proof. done. Qed.

Lemma scan_goto st ps c s st' ps' :
  scan_step c (mkScanner st ps) = Some (mkScanner st' ps') -> in_number st' = false ->
  scan st ps (String c s) = scan st' ps' s.
Proof. intros E Hn. by rewrite scan_cons, E; simpl; rewrite Hn. Qed.

Lemma scan_end s : scan stEndTop [] s = scan stEndValue [] s.
Proof. destruct s; reflexivity. Qed.

(** States that skip white space. *)
Definition skips (st : step) : bool :=
  match st with
  | stBeginValueOrEmpty | stBeginValue | stBeginStringOrEmpty | stBeginString | stEndValue => true
  | _ => false
  end.

Lemma scan_skip st ps s : skips st = true -> scan st ps s = scan st ps (skip_space s).
Proof.
  intros Hst. induction s as [|c s IH]; [done|]. cbn [skip_space].
  destruct (isSpace c) eqn:Hc; [|done]. rewrite <- IH.
  destruct ps as [|p ps].
  - destruct st; try done; try (apply scan_goto; [|done]; cbn; unfold stateBeginValue, stateBeginString; by rewrite Hc).
    rewrite <- scan_end. rewrite <- scan_end at 1. apply scan_goto; [|done]. cbn. unfold stateEndTop. by rewrite Hc.
  - destruct st; try done; apply scan_goto; try done; cbn; unfold stateBeginValue, stateBeginString; by rewrite Hc.
Qed.

Lemma scan_string ps s : scan stInString ps s = body_ok s && scan stEndValue ps (read_string s).2.
Proof.
  assert (forall s, (read_string s).2 = (raw_string s).2) as ->.
  { intros s'. unfold read_string. by destruct (raw_string s'). }
  induction s as [s IH] using string_len_ind. destruct s as [|c s]; [done|].
  cbn [body_ok raw_string]. rewrite scan_cons. cbn [scan_step sc_step sc_stack]. unfold byte_is.
  destruct (Ascii.eqb_spec c dquote) as [->|Hq]; [done|].
  destruct (Ascii.eqb_spec c backslash) as [->|Hb].
  - destruct s as [|e s]; [done|]. cbn [goto sc_step in_number]. fold (scan stInStringEsc ps (String e s)).
    rewrite scan_cons. cbn [scan_step sc_step sc_stack]. unfold byte_is. fold (simple_escapable e).
    destruct (simple_escapable e).
    { cbn [goto sc_step in_number]. fold (scan stInString ps s). rewrite IH by (simpl; lia).
      by destruct (raw_string s). }
    destruct (Ascii.eqb_spec e "u") as [->|]; [|done]. cbn [goto sc_step in_number andb].
    destruct s as [|a s]; [done|]. cbn [scan_all scan_step sc_step sc_stack].
    destruct (is_hex a) eqn:Ha; [|by destruct s as [|? [|? [|? ?]]]].
    cbn [goto sc_step in_number andb Nat.eqb]. destruct s as [|b s]; [done|]. cbn [scan_all scan_step sc_step sc_stack].
    destruct (is_hex b) eqn:Hb; [|by destruct s as [|? [|? ?]]].
    cbn [goto sc_step in_number andb Nat.eqb]. destruct s as [|c s]; [done|]. cbn [scan_all scan_step sc_step sc_stack].
    destruct (is_hex c) eqn:Hc; [|by destruct s as [|? ?]].
    cbn [goto sc_step in_number andb Nat.eqb]. destruct s as [|d s]; [done|]. cbn [scan_all scan_step sc_step sc_stack].
    destruct (is_hex d) eqn:Hd; [|done]. cbn [goto sc_step in_number andb Nat.eqb].
    fold (scan stInString ps s). rewrite IH by (simpl; lia). f_equal. f_equal.
    pose proof (raw_string_plain (String a (String b (String c (String d "")))) s) as Hr.
    rewrite !sapp_cons, sapp_nil_l in Hr. rewrite Hr; [done|]. simpl. by rewrite !is_hex_plain.
  - unfold code. destruct (Nat.ltb_spec (nat_of_ascii c) 32) as [Hlt|Hge].
    + by rewrite (proj2 (Nat.leb_gt _ _) Hlt).
    + rewrite (proj2 (Nat.leb_le _ _) Hge). cbn [goto sc_step in_number andb].
      fold (scan stInString ps s). rewrite IH by (simpl; lia). by destruct (raw_string s).
Qed.

(** *** Numbers *)

Lemma stateEndValue_out c ps s' : stateEndValue c ps = Some s' -> in_number (sc_step s') = false.
Proof.
  unfold stateEndValue, stateEndTop, popParseState, goto.
  destruct ps as [|[] [|p ps]]; destruct (isSpace c); repeat destruct (byte_is c _); intros E; by simplify_eq.
Qed.

Lemma scan_step_number c st :
  in_number st = true ->
  match number_step c st with
  | Some st' => forall ps, scan_step c (mkScanner st ps) = Some (mkScanner st' ps)
  | None =>
      if number_ends st then forall ps, scan_step c (mkScanner st ps) = stateEndValue c ps
      else forall ps, scan_step c (mkScanner st ps) = None
  end.
Proof.
  intros Hst. unfold number_step.
  assert (Hend : match stateEndValue c [] with
                 | Some s' => if in_number (sc_step s') then Some (sc_step s') else None
                 | None => None end = None).
  { destruct (stateEndValue c []) eqn:E; [|done]. by rewrite (stateEndValue_out _ _ _ E). }
  destruct st; try done; cbn [scan_step sc_step sc_stack number_ends]; unfold state0, stateESign;
    repeat match goal with
    | |- context [byte_is c ?d] => destruct (byte_is c d)
    | |- context [is_digit c] => destruct (is_digit c)
    end; cbn [orb]; try rewrite Hend; done.
Qed.
(** The bytes of a number read so far, the last one first. *)
Definition read_so_far (num : list ascii) : string := String.string_of_list_ascii (rev num).

Lemma read_so_far_cons c num : read_so_far (c :: num) = read_so_far num +:+ String c "".
Proof.
  unfold read_so_far. simpl. induction (rev num) as [|x l IH]; [done|]. simpl. by rewrite IH.
Qed.

Lemma scan_all_stop st ps num t :
  in_number st = true -> number_ends st = true -> float_in_range (read_so_far num) = true -> stop t = true ->
  scan_all (mkScanner st ps) num t = scan stEndValue ps t.
Proof.
  intros Hst Hend Hf Ht.
  assert (forall c, stop_byte c = true -> scan_step c (mkScanner st ps) = stateEndValue c ps) as Hstep.
  { intros c Hc. pose proof (scan_step_number c st Hst) as Hs.
    rewrite number_step_stop in Hs by auto. rewrite Hend in Hs. apply Hs. }
  assert (match num with [] => true | _ => float_in_range (String.string_of_list_ascii (rev num)) end = true) as Hnum.
  { destruct num; [done|exact Hf]. }
  destruct t as [|c t].
  - unfold scan. cbn [scan_all sc_step]. rewrite Hstep by done. rewrite Hnum.
    destruct st; done.
  - rewrite scan_cons. cbn [scan_all]. rewrite Hstep by done. rewrite Hnum.
    change (scan_step c (mkScanner stEndValue ps)) with (stateEndValue c ps).
    destruct (stateEndValue c ps) as [s'|] eqn:E; [|done]. by rewrite (stateEndValue_out _ _ _ E).
Qed.

Lemma scan_number_forward l st ps num t :
  in_number st = true -> number_from st l = true -> stop t = true ->
  float_in_range (read_so_far num +:+ l) = true ->
  scan_all (mkScanner st ps) num (l +:+ t) = scan stEndValue ps t.
Proof.
  revert st num. induction l as [|c l IH]; intros st num Hst Hl Ht Hf.
  - rewrite sapp_nil_r in Hf. by apply scan_all_stop.
  - simpl in Hl. destruct (number_step c st) as [st'|] eqn:Hs; [|done].
    pose proof (scan_step_number c st Hst) as H1. rewrite Hs in H1. apply number_step_in in Hs.
    rewrite sapp_cons. cbn [scan_all]. rewrite H1. cbn [sc_step]. rewrite Hs.
    apply IH; [done..|]. rewrite read_so_far_cons, sapp_assoc, sapp_cons, sapp_nil_l. done.
Qed.

(** A value is not read where a key is expected. *)
Definition takes_value (ps : list parse_state) : bool :=
  match ps with parseObjectKey :: _ => false | _ => true end.

Lemma scan_end_stop ps t : takes_value ps = true -> scan stEndValue ps t = true -> stop t = true.
Proof.
  intros Hps Ht. destruct t as [|c t]; [done|]. rewrite scan_cons in Ht. unfold stop, stop_byte.
  change (scan_step c (mkScanner stEndValue ps)) with (stateEndValue c ps) in Ht.
  destruct (stateEndValue c ps) as [s'|] eqn:E; [|done]. clear Ht. unfold stateEndValue, stateEndTop in E.
  destruct (isSpace c); [done|]. unfold byte_is in E.
  destruct ps as [|[] ps]; try done; destruct (Ascii.eqb c ","); try done.
  - by destruct (Ascii.eqb c "}"); rewrite ?orb_true_r.
  - by destruct (Ascii.eqb c "]").
Qed.

Lemma scan_number_backward s st ps num :
  in_number st = true -> takes_value ps = true -> scan_all (mkScanner st ps) num s = true -> num <> [] ->
  exists l t, s = l +:+ t /\ number_from st l = true /\ stop t = true
    /\ float_in_range (read_so_far num +:+ l) = true /\ scan stEndValue ps t = true.
Proof.
  intros Hst Hps. revert st num Hst. induction s as [|c s IH]; intros st num Hst Hs Hnum.
  - exists "", "". rewrite !sapp_nil_r. simpl. pose proof (scan_step_number " " st Hst) as Hsp.
    rewrite number_step_stop in Hsp by auto. cbn [scan_all sc_step] in Hs.
    unfold scan. cbn [scan_all sc_step].
    change (scan_step " " (mkScanner stEndValue ps)) with (stateEndValue " " ps).
    destruct (number_ends st).
    + rewrite Hsp in Hs.
      assert (match stateEndValue " " ps with
              | Some (mkScanner stEndTop _) => float_in_range (read_so_far num)
              | _ => false end = true) as Hs'.
      { destruct num as [|x num]; [done|]. destruct st; first [exact Hs|discriminate Hst]. }
      destruct (stateEndValue " " ps) as [[[] ?]|]; by split_and!.
    + rewrite Hsp in Hs. by destruct st.
  - cbn [scan_all] in Hs. pose proof (scan_step_number c st Hst) as Hsp.
    destruct (number_step c st) as [st'|] eqn:Hn.
    + rewrite Hsp in Hs. cbn [sc_step] in Hs. pose proof (number_step_in _ _ _ Hn) as Hin. rewrite Hin in Hs.
      destruct (IH st' (c :: num) Hin Hs) as (l & t & -> & Hl & Ht & Hf & Hr); [done|].
      exists (String c l), t. rewrite read_so_far_cons, sapp_assoc, sapp_cons, sapp_nil_l in Hf.
      split_and!; [done| |done..]. simpl. by rewrite Hn.
    + destruct (number_ends st) eqn:Hend; rewrite Hsp in Hs; [|done].
      destruct (stateEndValue c ps) as [s'|] eqn:E; [|done]. rewrite (stateEndValue_out _ _ _ E) in Hs.
      apply andb_prop in Hs as [Hf Hs].
      assert (scan stEndValue ps (String c s) = true) as Hr.
      { rewrite scan_cons. change (scan_step c (mkScanner stEndValue ps)) with (stateEndValue c ps).
        by rewrite E, (stateEndValue_out _ _ _ E). }
      exists "", (String c s). rewrite sapp_nil_r. split_and!; [done..| | |done].
      * by apply scan_end_stop in Hr.
      * by destruct num.
Qed.

(** *** Containers *)

Lemma scan_open_array ps s :
  (S (length ps) <= maxNestingDepth)%nat ->
  scan stBeginValue ps (String "[" s) = scan stBeginValueOrEmpty (parseArrayValue :: ps) s.
Proof.
  intros Hps%Nat.leb_le. apply scan_goto; [|done].
  change (scan_step "[" (mkScanner stBeginValue ps)) with (pushParseState stBeginValueOrEmpty parseArrayValue ps).
  unfold pushParseState. by rewrite Hps.
Qed.

Lemma scan_open_object ps s :
  (S (length ps) <= maxNestingDepth)%nat ->
  scan stBeginValue ps (String "{" s) = scan stBeginStringOrEmpty (parseObjectKey :: ps) s.
Proof.
  intros Hps%Nat.leb_le. apply scan_goto; [|done].
  change (scan_step "{" (mkScanner stBeginValue ps)) with (pushParseState stBeginStringOrEmpty parseObjectKey ps).
  unfold pushParseState. by rewrite Hps.
Qed.

Lemma scan_open_deep ps c s :
  (maxNestingDepth < S (length ps))%nat -> c = "["%char \/ c = "{"%char ->
  scan stBeginValue ps (String c s) = false.
Proof.
  intros Hps%Nat.leb_gt Hc. rewrite scan_cons. destruct Hc as [->| ->];
    cbn [scan_step sc_step sc_stack]; unfold stateBeginValue, pushParseState; cbn -[maxNestingDepth Nat.leb length];
    by rewrite Hps.
Qed.

Lemma scan_close c p ps s :
  (p = parseArrayValue /\ c = "]"%char) \/ (p = parseObjectValue /\ c = "}"%char) ->
  scan stEndValue (p :: ps) (String c s) = scan stEndValue ps s.
Proof.
  intros Hc. destruct ps as [|p' ps].
  - rewrite <- scan_end. apply scan_goto; [|done]. by destruct Hc as [[-> ->]|[-> ->]].
  - apply scan_goto; [|done]. by destruct Hc as [[-> ->]|[-> ->]].
Qed.

Lemma scan_empty_array ps s t :
  skip_space s = String "]" t -> scan stBeginValueOrEmpty (parseArrayValue :: ps) s = scan stEndValue ps t.
Proof.
  intros Hs. rewrite scan_skip, Hs by done. rewrite <- (scan_close "]" parseArrayValue) by auto. done.
Qed.

Lemma scan_empty_object ps s t :
  skip_space s = String "}" t -> scan stBeginStringOrEmpty (parseObjectKey :: ps) s = scan stEndValue ps t.
Proof.
  intros Hs. rewrite scan_skip, Hs by done. rewrite <- (scan_close "}" parseObjectValue) by auto. done.
Qed.

Lemma scan_first_value ps s c s' :
  skip_space s = String c s' -> Ascii.eqb c "]" = false ->
  scan stBeginValueOrEmpty ps s = scan stBeginValue ps s.
Proof.
  intros Hs Hc. rewrite scan_skip, (scan_skip stBeginValue), Hs by done. rewrite !scan_cons.
  assert (scan_step c (mkScanner stBeginValueOrEmpty ps) = scan_step c (mkScanner stBeginValue ps)) as ->; [|done].
  cbn [scan_step sc_step sc_stack]. unfold byte_is. by rewrite (skip_space_head _ _ _ Hs), Hc.
Qed.

Lemma scan_first_key ps s c s' :
  skip_space s = String c s' -> Ascii.eqb c "}" = false ->
  scan stBeginStringOrEmpty ps s = scan stBeginString ps s.
Proof.
  intros Hs Hc. rewrite scan_skip, (scan_skip stBeginString), Hs by done. rewrite !scan_cons.
  assert (scan_step c (mkScanner stBeginStringOrEmpty ps) = scan_step c (mkScanner stBeginString ps)) as ->; [|done].
  cbn [scan_step sc_step sc_stack]. unfold byte_is. by rewrite (skip_space_head _ _ _ Hs), Hc.
Qed.

(** A key, up to its value. *)
Lemma scan_key ps s s1 s2 :
  skip_space s = String dquote s1 -> body_ok s1 = true -> skip_space (read_string s1).2 = String ":" s2 ->
  scan stBeginString (parseObjectKey :: ps) s = scan stBeginValue (parseObjectValue :: ps) s2.
Proof.
  intros H1 Hb H2. rewrite scan_skip, H1 by done.
  rewrite (scan_goto _ _ dquote _ stInString (parseObjectKey :: ps)) by done.
  rewrite scan_string, Hb, scan_skip, H2 by done. by apply scan_goto.
Qed.

Lemma number_first_step c l ps :
  number (String c l) = true ->
  exists st, number_step c stBeginValue = Some st
    /\ scan_step c (mkScanner stBeginValue ps) = Some (mkScanner st ps)
    /\ in_number st = true /\ number_from st l = true.
Proof.
  intros Hn. pose proof (number_head _ Hn) as (c' & l' & [= <- <-] & Hc).
  apply andb_prop in Hn as [Hl _]. simpl in Hl. destruct (number_step c stBeginValue) as [st|] eqn:Hs; [|done].
  exists st. split_and!; [done| |by eapply number_step_in|done].
  destruct c as [[] [] [] [] [] [] [] []]; destruct Hc as [Hc|Hc]; try discriminate Hc;
    vm_compute in Hs; injection Hs as <-; reflexivity.
Qed.

Lemma scan_number ps l t :
  number l = true -> stop t = true -> scan stBeginValue ps (l +:+ t) = scan stEndValue ps t.
Proof.
  intros Hl Ht. destruct l as [|c l]; [done|].
  destruct (number_first_step c l ps Hl) as (st & _ & Hs & Hst & Hf).
  rewrite sapp_cons, scan_cons, Hs. cbn [sc_step]. rewrite Hst.
  apply scan_number_forward; [done..|]. apply andb_prop in Hl as [_ Hl]. exact Hl.
Qed.

Lemma scan_word ps l v t : word l = Some v -> scan stBeginValue ps (l +:+ t) = scan stEndValue ps t.
Proof. by intros [[-> _]|[[-> _]|[-> _]]]%word_inv. Qed.

(** The scanner goes through a text of the grammar. *)
Lemma grammar_scan :
  (forall d s v t, value d s v t -> forall ps, (length ps + d <= maxNestingDepth)%nat ->
     scan stBeginValue ps s = scan stEndValue ps t)
  /\ (forall d s l t, elements d s l t -> forall ps, (length ps + S d <= maxNestingDepth)%nat ->
     scan stBeginValue (parseArrayValue :: ps) s = scan stEndValue ps t)
  /\ (forall d s kvs t, members d s kvs t -> forall ps, (length ps + S d <= maxNestingDepth)%nat ->
     scan stBeginString (parseObjectKey :: ps) s = scan stEndValue ps t)
  /\ (forall d s kv t, member d s kv t -> forall ps, (length ps + S d <= maxNestingDepth)%nat ->
     scan stBeginString (parseObjectKey :: ps) s = scan stEndValue (parseObjectValue :: ps) t).
Proof.
  apply grammar_mut.
  - intros d l v t Hl _ ps _. by eapply scan_word.
  - intros d l t Hl Ht ps _. by apply scan_number.
  - intros d s Hs ps _. rewrite (scan_goto _ _ dquote _ stInString ps) by done. by rewrite scan_string, Hs.
  - intros d s t Hs ps Hps. rewrite scan_open_array by lia. by apply scan_empty_array.
  - intros d s l t Hl IH ps Hps. rewrite scan_open_array by lia.
    assert (exists c s', skip_space s = String c s' /\ Ascii.eqb c "]" = false) as (c & s' & Hs & Hc).
    { destruct Hl as [? ? ? ? ? Hv _|? ? ? ? ? ? ? Hv _ _];
        apply value_head in Hv as (c & s' & Hv & _ & _ & Hc & _); by exists c, s'. }
    rewrite (scan_first_value _ _ _ _ Hs Hc). by apply IH.
  - intros d s t Hs ps Hps. rewrite scan_open_object by lia. by apply scan_empty_object.
  - intros d s kvs t Hm IH ps Hps. rewrite scan_open_object by lia.
    assert (exists s', skip_space s = String dquote s') as (s' & Hs).
    { destruct Hm as [? ? ? ? ? Hm _|? ? ? ? ? ? ? Hm _ _]; destruct Hm as [? ? s1]; by exists s1. }
    rewrite (scan_first_key _ _ _ _ Hs) by done. by apply IH.
  - intros d s v s1 t Hv IH Hs ps Hps. rewrite scan_skip, IH by (done || simpl; lia).
    rewrite scan_skip, Hs by done. apply scan_close. auto.
  - intros d s v s1 s2 l t Hv IH Hs Hl IHl ps Hps. rewrite scan_skip, IH by (done || simpl; lia).
    rewrite scan_skip, Hs by done. rewrite (scan_goto _ _ "," _ stBeginValue (parseArrayValue :: ps)) by done.
    by apply IHl.
  - intros d s kv s1 t Hm IH Hs ps Hps. rewrite IH, scan_skip, Hs by done. apply scan_close. auto.
  - intros d s kv s1 s2 kvs t Hm IH Hs Hms IHms ps Hps. rewrite IH, scan_skip, Hs by done.
    rewrite (scan_goto _ _ "," _ stBeginString (parseObjectKey :: ps)) by done. by apply IHms.
  - intros d s s1 s2 v t H1 Hb H2 Hv IH ps Hps. rewrite (scan_key _ _ _ _ H1 Hb H2).
    rewrite scan_skip by done. apply IH. simpl. lia.
Qed.

(** *** The texts the scanner accepts *)

Lemma scan_word_backward w ps s :
  w <> "" -> scan (stLit w) ps s = true -> exists t, s = w +:+ t /\ scan stEndValue ps t = true.
Proof.
  revert s. induction w as [|d w IH]; intros s Hw Hs; [done|]. destruct s as [|c s].
  { unfold scan in Hs. cbn [scan_all sc_step scan_step] in Hs. unfold byte_is in Hs.
    destruct (Ascii.eqb " " d); [|done]. cbn in Hs. by destruct (String.eqb w ""). }
  rewrite scan_cons in Hs. cbn [scan_step sc_step sc_stack] in Hs. unfold byte_is in Hs.
  destruct (Ascii.eqb_spec c d) as [->|]; [|done]. cbn [goto sc_step] in Hs.
  destruct (String.eqb_spec w "") as [->|Hne].
  - by exists s.
  - destruct (IH s Hne Hs) as (t & -> & Ht). by exists t.
Qed.

(** What may follow a value inside a container. *)
Lemma scan_after p ps s :
  p <> parseObjectKey -> scan stEndValue (p :: ps) s = true ->
  exists t,
    (skip_space s = String "," t
     /\ scan (match p with parseArrayValue => stBeginValue | _ => stBeginString end)
             (match p with parseArrayValue => parseArrayValue | _ => parseObjectKey end :: ps) t = true)
    \/ (skip_space s = String (match p with parseArrayValue => "]" | _ => "}" end)%char t
        /\ scan stEndValue ps t = true).
Proof.
  intros Hp Hs. rewrite scan_skip in Hs by done. destruct (skip_space s) as [|c t] eqn:E.
  { exfalso. destruct p; [done|..]; vm_compute in Hs; discriminate. }
  exists t. apply skip_space_head in E. pose proof Hs as Hs'. rewrite scan_cons in Hs.
  cbn [scan_step sc_step sc_stack stateEndValue] in Hs. rewrite E in Hs. unfold byte_is in Hs.
  destruct p; [done|..].
  - destruct (Ascii.eqb_spec c ",") as [->|]; [by left|].
    destruct (Ascii.eqb_spec c "}") as [->|]; [|done]. right. rewrite scan_close in Hs' by auto. done.
  - destruct (Ascii.eqb_spec c ",") as [->|]; [by left|].
    destruct (Ascii.eqb_spec c "]") as [->|]; [|done]. right. rewrite scan_close in Hs' by auto. done.
Qed.

Lemma scan_key_backward ps s :
  scan stBeginString (parseObjectKey :: ps) s = true ->
  exists s1 s2, skip_space s = String dquote s1 /\ body_ok s1 = true
    /\ skip_space (read_string s1).2 = String ":" s2 /\ scan stBeginValue (parseObjectValue :: ps) s2 = true.
Proof.
  intros Hs. pose proof Hs as Hs'. rewrite scan_skip in Hs by done. destruct (skip_space s) as [|c s1] eqn:E.
  { exfalso. vm_compute in Hs. discriminate. }
  pose proof (skip_space_head _ _ _ E) as Hc. rewrite scan_cons in Hs. cbn [scan_step sc_step sc_stack] in Hs.
  unfold stateBeginString in Hs. rewrite Hc in Hs. unfold byte_is in Hs.
  destruct (Ascii.eqb_spec c dquote) as [->|]; [|done]. cbn [goto sc_step in_number] in Hs.
  fold (scan stInString (parseObjectKey :: ps) s1) in Hs. rewrite scan_string in Hs.
  apply andb_prop in Hs as [Hb Hs]. rewrite scan_skip in Hs by done.
  destruct (skip_space (read_string s1).2) as [|c s2] eqn:E2.
  { exfalso. vm_compute in Hs. discriminate. }
  pose proof (skip_space_head _ _ _ E2) as Hc2. rewrite scan_cons in Hs.
  cbn [scan_step sc_step sc_stack stateEndValue] in Hs. rewrite Hc2 in Hs. unfold byte_is in Hs.
  destruct (Ascii.eqb_spec c ":") as [->|]; [|done]. by exists s1, s2.
Qed.

Definition accepts_value (s : string) : Prop :=
  forall ps, takes_value ps = true -> (length ps <= maxNestingDepth)%nat -> scan stBeginValue ps s = true ->
  exists v t, value (maxNestingDepth - length ps) (skip_space s) v t /\ scan stEndValue ps t = true.

Definition accepts_elements (s : string) : Prop :=
  forall ps, (S (length ps) <= maxNestingDepth)%nat -> scan stBeginValue (parseArrayValue :: ps) s = true ->
  exists l t, elements (maxNestingDepth - S (length ps)) s l t /\ scan stEndValue ps t = true.

Definition accepts_members (s : string) : Prop :=
  forall ps, (S (length ps) <= maxNestingDepth)%nat -> scan stBeginString (parseObjectKey :: ps) s = true ->
  exists kvs t, members (maxNestingDepth - S (length ps)) s kvs t /\ scan stEndValue ps t = true.

Section accepting.
Context (s : string).
Hypothesis IHv : forall t, (String.length t < String.length s)%nat -> accepts_value t.
Hypothesis IHe : forall t, (String.length t < String.length s)%nat -> accepts_elements t.
Hypothesis IHm : forall t, (String.length t < String.length s)%nat -> accepts_members t.

Lemma accepts_array ps s1 :
  skip_space s = String "[" s1 -> scan stBeginValue ps (String "[" s1) = true ->
  exists v t, value (maxNestingDepth - length ps) (String "[" s1) v t /\ scan stEndValue ps t = true.
Proof.
  intros E Hs. pose proof (skip_space_length_cons _ _ _ E) as Hlen.
  destruct (Nat.le_gt_cases (S (length ps)) maxNestingDepth) as [Hd|Hd].
  2: { rewrite scan_open_deep in Hs by auto. done. }
  rewrite scan_open_array in Hs by done.
  replace (maxNestingDepth - length ps)%nat with (S (maxNestingDepth - S (length ps))) by lia.
  destruct (skip_space s1) as [|c s2] eqn:E1.
  { exfalso. rewrite scan_skip, E1 in Hs by done. vm_compute in Hs. discriminate. }
  destruct (Ascii.eqb_spec c "]") as [->|Hc].
  { rewrite (scan_empty_array _ _ _ E1) in Hs. eexists _, s2. split; [by apply value_array_nil|done]. }
  apply Ascii.eqb_neq in Hc. rewrite (scan_first_value _ _ _ _ E1 Hc) in Hs.
  destruct (IHe s1 Hlen ps Hd Hs) as (l & t & Hl & Ht). exists (JArr l), t. split; [by apply value_array|done].
Qed.

Lemma accepts_object ps s1 :
  skip_space s = String "{" s1 -> scan stBeginValue ps (String "{" s1) = true ->
  exists v t, value (maxNestingDepth - length ps) (String "{" s1) v t /\ scan stEndValue ps t = true.
Proof.
  intros E Hs. pose proof (skip_space_length_cons _ _ _ E) as Hlen.
  destruct (Nat.le_gt_cases (S (length ps)) maxNestingDepth) as [Hd|Hd].
  2: { rewrite scan_open_deep in Hs by auto. done. }
  rewrite scan_open_object in Hs by done.
  replace (maxNestingDepth - length ps)%nat with (S (maxNestingDepth - S (length ps))) by lia.
  destruct (skip_space s1) as [|c s2] eqn:E1.
  { exfalso. rewrite scan_skip, E1 in Hs by done. vm_compute in Hs. discriminate. }
  destruct (Ascii.eqb_spec c "}") as [->|Hc].
  { rewrite (scan_empty_object _ _ _ E1) in Hs. eexists _, s2. split; [by apply value_object_nil|done]. }
  apply Ascii.eqb_neq in Hc. rewrite (scan_first_key _ _ _ _ E1 Hc) in Hs.
  destruct (IHm s1 Hlen ps Hd Hs) as (kvs & t & Hl & Ht). eexists _, t. split; [by eapply value_object|done].
Qed.

Lemma accepts_literal ps c s1 w v :
  scan stBeginValue ps (String c s1) = true -> takes_value ps = true ->
  scan_step c (mkScanner stBeginValue ps) = Some (mkScanner (stLit w) ps) ->
  w <> "" -> word (String c w) = Some v ->
  exists v t, value (maxNestingDepth - length ps) (String c s1) v t /\ scan stEndValue ps t = true.
Proof.
  intros Hs Hps Hstep Hne Hw. rewrite (scan_goto _ _ _ _ (stLit w) ps) in Hs by done.
  destruct (scan_word_backward _ _ _ Hne Hs) as (t & -> & Ht). exists v, t. split; [|done].
  rewrite <- sapp_cons. apply value_word; [done|]. by eapply scan_end_stop.
Qed.

Lemma accepts_number ps c s1 st :
  scan stBeginValue ps (String c s1) = true -> takes_value ps = true ->
  number_step c stBeginValue = Some st ->
  scan_step c (mkScanner stBeginValue ps) = Some (mkScanner st ps) ->
  exists v t, value (maxNestingDepth - length ps) (String c s1) v t /\ scan stEndValue ps t = true.
Proof.
  intros Hs Hps Hn Hstep. pose proof (number_step_in _ _ _ Hn) as Hin.
  rewrite scan_cons, Hstep in Hs. cbn [sc_step] in Hs. rewrite Hin in Hs.
  destruct (scan_number_backward _ _ _ _ Hin Hps Hs) as (l & t & -> & Hl & Ht & Hf & Hr); [done|].
  eexists _, t. split; [|done]. rewrite <- sapp_cons. apply value_number; [|done].
  apply andb_true_iff. split; [|exact Hf]. simpl. by rewrite Hn.
Qed.

Lemma accepts_value_step : accepts_value s.
Proof.
  intros ps Hps Hd Hs. rewrite scan_skip in Hs by done. destruct (skip_space s) as [|c s1] eqn:E.
  { exfalso. vm_compute in Hs. discriminate. }
  destruct (Ascii.eqb_spec c "{") as [->|N1]; [by apply accepts_object|].
  destruct (Ascii.eqb_spec c "[") as [->|N2]; [by apply accepts_array|].
  destruct (Ascii.eqb_spec c dquote) as [->|N3].
  { rewrite (scan_goto _ _ _ _ stInString ps), scan_string in Hs by done. apply andb_prop in Hs as [Hb Hs].
    eexists _, _. split; [by apply value_string|done]. }
  destruct (Ascii.eqb_spec c "t") as [->|N4]; [by eapply accepts_literal|].
  destruct (Ascii.eqb_spec c "f") as [->|N5]; [by eapply accepts_literal|].
  destruct (Ascii.eqb_spec c "n") as [->|N6]; [by eapply accepts_literal|].
  apply skip_space_head in E. apply Ascii.eqb_neq in N1, N2, N3, N4, N5, N6.
  assert (forall ps, scan_step c (mkScanner stBeginValue ps)
    = if Ascii.eqb c "-" then goto stNeg ps else if Ascii.eqb c "0" then goto st0 ps
      else if is_digit c then goto st1 ps else None) as Hstep.
  { intros ps'. cbn [scan_step sc_step sc_stack]. unfold stateBeginValue, byte_is.
    by rewrite E, N1, N2, N3, N4, N5, N6. }
  assert (exists st, number_step c stBeginValue = Some st
    /\ scan_step c (mkScanner stBeginValue ps) = Some (mkScanner st ps)) as (st & Hn & Hp).
  { unfold number_step. rewrite !Hstep. rewrite scan_cons, Hstep in Hs.
    destruct (Ascii.eqb c "-"); [by eexists|]. destruct (Ascii.eqb c "0"); [by eexists|].
    destruct (is_digit c); [by eexists|done]. }
  by eapply accepts_number.
Qed.

Lemma accepts_elements_step : accepts_elements s.
Proof.
  intros ps Hd Hs. destruct (accepts_value_step (parseArrayValue :: ps) eq_refl Hd Hs) as (v & s1 & Hv & Hs1).
  pose proof (skip_space_length s) as Hlen.
  destruct (scan_after parseArrayValue ps s1 ltac:(done) Hs1) as (t & [[E Ht]|[E Ht]]).
  - destruct (IHe t) with (ps := ps) as (l & t' & Hl & Ht'); [lengths|done..|].
    exists (v :: l), t'. split; [|done]. by eapply elements_more.
  - exists [v], t. split; [|done]. by eapply elements_last.
Qed.

Lemma accepts_members_step : accepts_members s.
Proof.
  intros ps Hd Hs. destruct (scan_key_backward _ _ Hs) as (s1 & s2 & E1 & Hb & E2 & Hs2).
  pose proof (read_string_length _ Hb) as Hlen.
  destruct (IHv s2) with (ps := parseObjectValue :: ps) as (v & s3 & Hv & Hs3); [lengths|done..|].
  assert (member (maxNestingDepth - S (length ps)) s ((read_string s1).1, v) s3) as Hm by by eapply member_intro.
  destruct (scan_after parseObjectValue ps s3 ltac:(done) Hs3) as (t & [[E Ht]|[E Ht]]).
  - destruct (IHm t) with (ps := ps) as (kvs & t' & Hl & Ht'); [lengths|done..|].
    eexists _, t'. split; [|done]. by eapply members_more.
  - eexists _, t. split; [|done]. by eapply members_last.
Qed.
End accepting.

Lemma scan_accepts s : accepts_value s /\ accepts_elements s /\ accepts_members s.
Proof.
  induction s as [s IH] using string_len_ind.
  assert (forall t, (String.length t < String.length s)%nat -> accepts_value t) as Hv by (intros t Ht; apply IH, Ht).
  assert (forall t, (String.length t < String.length s)%nat -> accepts_elements t) as He by (intros t Ht; apply IH, Ht).
  assert (forall t, (String.length t < String.length s)%nat -> accepts_members t) as Hm by (intros t Ht; apply IH, Ht).
  split_and!; [by apply accepts_value_step|by apply accepts_elements_step|by apply accepts_members_step].
Qed.

(** ** Documents *)

Lemma scan_space s : scan stEndValue [] s = true <-> skip_space s = "".
Proof.
  rewrite scan_skip by done. destruct (skip_space s) as [|c t] eqn:E; [done|]. split; [|done].
  rewrite scan_cons. cbn [scan_step sc_step sc_stack stateEndValue]. unfold stateEndTop.
  by rewrite (skip_space_head _ _ _ E).
Qed.

(** The scanner accepts exactly the documents, ... *)
Lemma Unmarshal_ok_iff data : Unmarshal_ok data = true <-> exists v, document data v.
Proof.
  unfold Unmarshal_ok. fold (scan stBeginValue [] data). split.
  - intros Hs. destruct (proj1 (scan_accepts data) [] eq_refl (Nat.le_0_l _) Hs) as (v & t & Hv & Ht).
    exists v, t. rewrite Nat.sub_0_r in Hv. split; [done|by apply scan_space].
  - intros (v & t & Hv & Ht). rewrite scan_skip by done.
    rewrite (proj1 grammar_scan _ _ _ _ Hv) by done. by apply scan_space.
Qed.

(** ... and the decoder returns the value of a document. *)
Lemma Unmarshal_iff data v : Unmarshal data = Some v <-> document data v.
Proof.
  unfold Unmarshal.
  assert (forall v, document data v -> (read_value (S (String.length data)) data).1 = v) as Hread.
  { intros v' (t & Hv & _). rewrite <- read_value_skip. pose proof (skip_space_length data).
    rewrite (proj1 grammar_read _ _ _ _ Hv); [done|lia]. }
  split.
  - destruct (Unmarshal_ok data) eqn:Hok; [|done]. apply Unmarshal_ok_iff in Hok as [v' Hv'].
    rewrite (Hread _ Hv'). by intros [= <-].
  - intros Hv. rewrite (proj2 (Unmarshal_ok_iff data)) by by exists v. by rewrite (Hread _ Hv).
Qed.
End grammar.
