(* ===== verification/JsonRoundTrip.v ===== *)
(** * Encoding and decoding JSON

    What [json.Marshal] writes for a decoded document is a text of that document. *)
From Stdlib Require Import Ascii.
From S2P Require Import Prelude GoStd JsonScan JsonCodec JsonText JsonGrammar.

(** ** Objects *)

Lemma obj_set_Forall (P : string * json -> Prop) k v (o : fields) :
  P (k, v) -> Forall P o -> Forall P (obj_set k v o).
Proof.
  intros Hkv. induction 1 as [|[k' v'] o Hx Ho IH]; simpl; [by repeat constructor|].
  destruct (String.eqb k k'); [by constructor|]. destruct (String.ltb k k'); by repeat constructor.
Qed.

Lemma put_Forall (P : string * json -> Prop) kvs o :
  Forall P kvs -> Forall P o -> Forall P (fold_left put kvs o).
Proof.
  intros Hk. revert o. induction Hk as [|[k v] kvs Hx _ IH]; intros o Ho; [done|]. simpl. apply IH.
  by apply obj_set_Forall.
Qed.

Lemma put_sorted kvs o : keys_sorted o = true -> keys_sorted (fold_left put kvs o) = true.
Proof.
  revert o. induction kvs as [|[k v] kvs IH]; intros o Ho; [done|]. simpl. apply IH. by apply obj_set_sorted.
Qed.

(** Members that are put into an object hide its own. *)
Lemma put_get kvs o k :
  obj_get k (fold_left put kvs o)
  = match obj_get k (fold_left put kvs []) with Some v => Some v | None => obj_get k o end.
Proof.
  revert o. induction kvs as [|[k' v] kvs IH] using rev_ind; intros o; [done|].
  rewrite !fold_left_app. cbn [fold_left]. unfold put. cbn [fst snd]. fold put. rewrite !obj_get_set, IH.
  by destruct (String.eqb k k').
Qed.

Lemma put_sorted_id o : keys_sorted o = true -> fold_left put o [] = o.
Proof.
  intros Ho. apply keys_sorted_ext; [by apply put_sorted|done|]. intros k.
  induction o as [|[k' v] o IH]; [done|]. apply keys_sorted_cons in Ho as [Ho Hlt].
  cbn [fold_left]. rewrite put_get, IH by done. cbn. destruct (String.eqb_spec k k') as [->|].
  - by rewrite obj_get_below.
  - by destruct (obj_get k o).
Qed.

(** ** Decoded documents *)

Section canonical.
Context `{FloatText}.

(** What a document decodes to: nested at most [d] deep, strings in UTF-8, the keys of an object
    in order, numbers as strconv prints them. *)
Inductive canonical : nat -> json -> Prop :=
| canonical_null d : canonical d JNull
| canonical_bool d b : canonical d (JBool b)
| canonical_number d l : number l = true -> float_text l = l -> canonical d (JNum l)
| canonical_string d s : utf8 s -> canonical d (JStr s)
| canonical_array d l : Forall (canonical d) l -> canonical (S d) (JArr l)
| canonical_object d o :
    keys_sorted o = true -> Forall (fun kv => utf8 kv.1 /\ canonical d kv.2) o -> canonical (S d) (JObj o).

(** *** The text of a document *)

Lemma quoted_value d s t : utf8 s -> value d (quoted s +:+ t) (JStr s) t.
Proof.
  intros Hs. pose proof (value_string d (escape s +:+ String dquote t) (escape_ok s t Hs)) as Hv.
  rewrite read_escape in Hv by done. unfold quoted. rewrite sapp_cons, sapp_assoc. exact Hv.
Qed.

Lemma quoted_member d k v s t :
  utf8 k -> value d (skip_space s) v t -> member d (quoted k +:+ ":" +:+ s) (k, v) t.
Proof.
  intros Hk Hv. unfold quoted. rewrite sapp_cons, sapp_assoc, !sapp_cons, !sapp_nil_l.
  pose proof (read_escape k (String ":" s) Hk) as Hr.
  pose proof (member_intro d (String dquote (escape k +:+ String dquote (String ":" s)))
    (escape k +:+ String dquote (String ":" s)) s v t) as Hm.
  rewrite Hr in Hm. apply Hm; [done|by apply escape_ok|done|done].
Qed.

Lemma join_elements d l t :
  l <> [] -> (forall v, v ∈ l -> forall t, stop t = true -> value d (Marshal v +:+ t) v t) ->
  elements d (Join (List.map Marshal l) "," +:+ String "]" t) l t.
Proof.
  intros Hne. induction l as [|v [|w l] IH]; intros Hv; [done|..].
  - cbn [List.map Join]. specialize (Hv v ltac:(left) (String "]" t) eq_refl).
    eapply elements_last; [by rewrite (value_skip _ _ _ _ Hv)|done].
  - change (Join (List.map Marshal (v :: w :: l)) ",")
      with (Marshal v +:+ "," +:+ Join (List.map Marshal (w :: l)) ",").
    rewrite !sapp_assoc, sapp_cons, sapp_nil_l.
    pose proof (Hv v ltac:(left) (String "," (Join (List.map Marshal (w :: l)) "," +:+ String "]" t)) eq_refl) as H1.
    eapply elements_more; [by rewrite (value_skip _ _ _ _ H1)|done|].
    apply IH; [done|]. intros x Hx. apply Hv. by right.
Qed.

Definition marshal_member (kv : string * json) : string := quoted kv.1 +:+ ":" +:+ Marshal kv.2.

Lemma join_members d (o : fields) t :
  o <> [] ->
  (forall kv, kv ∈ o -> utf8 kv.1 /\ forall t, stop t = true -> value d (Marshal kv.2 +:+ t) kv.2 t) ->
  members d (Join (List.map marshal_member o) "," +:+ String "}" t) o t.
Proof.
  intros Hne. induction o as [|[k v] [|kv o] IH]; intros Hv; [done|..].
  - cbn [List.map Join]. destruct (Hv (k, v) ltac:(left)) as [Hk H1]. specialize (H1 (String "}" t) eq_refl).
    unfold marshal_member. rewrite !sapp_assoc. cbn [fst snd] in *.
    eapply members_last; [apply quoted_member; [done|]; by rewrite (value_skip _ _ _ _ H1)|done].
  - change (Join (List.map marshal_member ((k, v) :: kv :: o)) ",")
      with (marshal_member (k, v) +:+ "," +:+ Join (List.map marshal_member (kv :: o)) ",").
    unfold marshal_member at 1. rewrite !sapp_assoc. cbn [fst snd].
    destruct (Hv (k, v) ltac:(left)) as [Hk H1].
    specialize (H1 (String "," (Join (List.map marshal_member (kv :: o)) "," +:+ String "}" t)) eq_refl).
    rewrite (sapp_cons ","), sapp_nil_l. cbn [fst snd] in H1.
    eapply members_more; [apply quoted_member; [done|]; by rewrite (value_skip _ _ _ _ H1)|done|].
    apply IH; [done|]. intros x Hx. apply Hv. by right.
Qed.

Lemma Marshal_value v d t : canonical d v -> stop t = true -> value d (Marshal v +:+ t) v t.
Proof.
  revert d t. induction v as [|b|l|s|l IH|o IH] using json_ind'; intros d t Hv Ht; inv Hv; cbn [Marshal].
  - by apply (value_word d "null").
  - destruct b; [by apply (value_word d "true")|by apply (value_word d "false")].
  - match goal with E : float_text l = l |- _ => rewrite <- E at 2 end. by apply value_number.
  - by apply quoted_value.
  - rewrite !sapp_assoc, !sapp_cons, !sapp_nil_l.
    destruct l as [|v l]; [by apply value_array_nil|]. apply value_array, join_elements; [done|].
    rewrite Forall_forall in *. auto.
  - rewrite !sapp_assoc, !sapp_cons, !sapp_nil_l.
    destruct o as [|kv o]; [by apply value_object_nil|].
    rewrite <- (put_sorted_id (kv :: o)) at 2 by done.
    assert (Hm : forall x, x ∈ kv :: o -> utf8 x.1 /\ canonical d0 x.2) by by apply Forall_forall.
    apply value_object. apply (join_members d0 (kv :: o)); [done|].
    intros x Hx. split; [by apply Hm|]. intros t' Ht'. rewrite Forall_forall in IH. apply IH; [done|by apply Hm|done].
Qed.

(** Decoding what [Marshal] has written gives the document back. *)
Lemma Unmarshal_Marshal v : canonical maxNestingDepth v -> Unmarshal (Marshal v) = Some v.
Proof.
  intros Hv. pose proof (Marshal_value v _ "" Hv eq_refl) as Ht. rewrite sapp_nil_r in Ht.
  apply Unmarshal_iff. exists "". by rewrite (value_skip _ _ _ _ Ht).
Qed.
End canonical.

(** strconv prints a float64 as the literal of a number that reads back as the same float64. *)
Class FloatLaws `{FloatText} :=
  float_text_ok l : number l = true -> number (float_text l) = true /\ float_text (float_text l) = float_text l.

Section decoded.
Context `{FloatLaws}.

Lemma grammar_canonical :
  (forall d s v t, value d s v t -> canonical d v)
  /\ (forall d s l t, elements d s l t -> Forall (canonical d) l)
  /\ (forall d s kvs t, members d s kvs t -> Forall (fun kv => utf8 kv.1 /\ canonical d kv.2) kvs)
  /\ (forall d s kv t, member d s kv t -> utf8 kv.1 /\ canonical d kv.2).
Proof.
  apply grammar_mut; intros; try (by repeat constructor); try (by constructor).
  - by destruct (word_inv _ _ H1) as [[_ ->]|[[_ ->]|[_ ->]]]; constructor.
  - destruct (float_text_ok l) as [Hn Hf]; [done|]. by constructor.
  - constructor. by apply read_string_utf8.
  - constructor; [by apply put_sorted|by apply put_Forall].
  - split; [by apply read_string_utf8|done].
Qed.

Lemma Unmarshal_canonical data v : Unmarshal data = Some v -> canonical maxNestingDepth v.
Proof. intros (t & Hv & _)%Unmarshal_iff. by eapply grammar_canonical. Qed.
End decoded.
