(* ===== verification/GoTemplate.v ===== *)
(** * Go's text/template, for the language the default templates are written in

    Text, actions, [if]/[else if]/[else], [range], variables, pipelines with parentheses, field
    chains, and the functions the templates call. The lexer, the parser and the evaluator follow
    text/template (lex.go, parse.go, exec.go, funcs.go); trim markers, comments, [with],
    [template] and the other functions are outside of this language, and a text that uses them is
    not parsed. The functions of sprig are those of the vendored slim-sprig. *)
From Stdlib Require Import Ascii.
From S2P Require Import Prelude GoStd.

(** ** Values, as reflection shows them

    A string or an integer carries the name of its type. A struct has its exported fields and the
    JSON that encoding/json writes for it; a map's keys are sorted. An empty slice or map is nil.
    [VNone] is the zero [reflect.Value]. *)
Inductive value : Type :=
| VNone
| VStr (ty s : string)
| VBool (b : bool)
| VInt (ty : string) (z : Z)
| VPtr (v : option value)
| VStruct (fs : list (string * value)) (j : json)
| VSlice (l : list value)
| VMap (m : list (string * value)).

(** [json.Marshal] *)
Fixpoint value_json (v : value) : json :=
  match v with
  | VNone | VPtr None => JNull
  | VStr _ s => JStr s
  | VBool b => JBool b
  | VInt _ z => JNum (Itoa z)
  | VPtr (Some v) => value_json v
  | VStruct _ j => j
  | VSlice [] | VMap [] => JNull
  | VSlice l => JArr (List.map value_json l)
  | VMap m => JObj (List.map (fun kv => (kv.1, value_json kv.2)) m)
  end.

Definition str (s : string) : value := VStr "string" s.
Definition int (z : Z) : value := VInt "int" z.

#[export] Instance result_ret : MRet result := fun A a => Ok a.
#[export] Instance result_bind : MBind result := fun A B f r =>
  match r with Ok a => f a | Err e => Err e end.

(** ** The lexer *)

Inductive item : Type :=
| ItText (s : string)
| ItLeft | ItRight | ItSpace | ItPipe | ItDeclare | ItAssign | ItComma | ItLParen | ItRParen | ItDot
| ItField (s : string)
| ItVariable (s : string)
| ItIdent (s : string)
| ItNumber (z : Z)
| ItString (s : string).

(** What is being scanned, with its bytes so far in reverse. *)
Inductive lexing : Type :=
| LxText (acc : string)
| LxAction
| LxSpace
| LxField (acc : string)
| LxVariable (acc : string)
| LxIdent (acc : string)
| LxNumber (acc : string)
| LxString (acc : string).

Fixpoint rev_onto (acc s : string) : string :=
  match s with
  | "" => acc
  | String c s => rev_onto (String c acc) s
  end.

Definition is_space (c : ascii) : bool :=
  Ascii.eqb c " " || Ascii.eqb c "009" || Ascii.eqb c "010" || Ascii.eqb c "013".

Definition is_alnum (c : ascii) : bool :=
  let n := nat_of_ascii c in
  Ascii.eqb c "_" || ((48 <=? n)%nat && (n <=? 57)%nat) || ((65 <=? n)%nat && (n <=? 90)%nat)
  || ((97 <=? n)%nat && (n <=? 122)%nat).

Definition starts_with_digit (s : string) : bool :=
  match s with String c _ => is_digit c | "" => false end.

(** A decimal number without a leading zero. *)
Definition lex_number (s : string) : option (list item) :=
  match Atoi s with
  | inl z => if String.eqb (Itoa z) s then Some [ItNumber z] else None
  | inr _ => None
  end.

(** The item that ends here. *)
Definition emit (lx : lexing) : option (list item) :=
  match lx with
  | LxText "" | LxAction => Some []
  | LxText acc => Some [ItText (rev_onto "" acc)]
  | LxSpace => Some [ItSpace]
  | LxField "" => Some [ItDot]
  | LxField acc =>
      let name := rev_onto "" acc in
      if starts_with_digit name then None else Some [ItField name]
  | LxVariable acc => Some [ItVariable (String "$" (rev_onto "" acc))]
  | LxIdent acc => Some [ItIdent (rev_onto "" acc)]
  | LxNumber acc => lex_number (rev_onto "" acc)
  | LxString _ => None
  end.

(** Whether the byte goes on with what is being scanned. *)
Definition extend (lx : lexing) (c : ascii) : option lexing :=
  match lx with
  | LxSpace => if is_space c then Some LxSpace else None
  | LxField acc => if is_alnum c then Some (LxField (String c acc)) else None
  | LxVariable acc => if is_alnum c then Some (LxVariable (String c acc)) else None
  | LxIdent acc => if is_alnum c then Some (LxIdent (String c acc)) else None
  | LxNumber acc => if is_digit c then Some (LxNumber (String c acc)) else None
  | _ => None
  end.

(** [atTerminator], and what may follow a number. *)
Definition terminates (lx : lexing) (c : ascii) : bool :=
  let common := is_space c || Ascii.eqb c "," || Ascii.eqb c "|" || Ascii.eqb c ":"
                || Ascii.eqb c "(" || Ascii.eqb c ")" || Ascii.eqb c "}" in
  match lx with
  | LxField _ | LxVariable _ | LxIdent _ => common || Ascii.eqb c "."
  | LxNumber _ => common
  | _ => true
  end.

Definition onto (items : option (list item)) (rest : option (list item)) : option (list item) :=
  match items, rest with
  | Some l, Some l' => Some (l ++ l')
  | _, _ => None
  end.

(** [depth] counts the open parentheses. *)
Fixpoint lex (lx : lexing) (depth : nat) (s : string) : option (list item) :=
  match s with
  | "" => match lx with LxText _ => emit lx | _ => None end
  | String c s1 =>
      match lx with
      | LxText acc =>
          match Ascii.eqb c "{", s1 with
          | true, String d s2 =>
              if Ascii.eqb d "{" then onto (emit lx) (onto (Some [ItLeft]) (lex LxAction 0 s2))
              else lex (LxText (String c acc)) depth s1
          | _, _ => lex (LxText (String c acc)) depth s1
          end
      | LxString acc =>
          if Ascii.eqb c dquote then onto (Some [ItString (rev_onto "" acc)]) (lex LxAction depth s1)
          else if Ascii.eqb c backslash || Ascii.eqb c "010" then None
          else lex (LxString (String c acc)) depth s1
      | _ =>
          match extend lx c with
          | Some lx => lex lx depth s1
          | None =>
              if negb (terminates lx c) then None
              else
                onto (emit lx)
                  (if is_space c then lex LxSpace depth s1
                   else if Ascii.eqb c "}" then
                     match s1 with
                     | String d s2 =>
                         if Ascii.eqb d "}" && (depth =? 0)%nat
                         then onto (Some [ItRight]) (lex (LxText "") 0 s2)
                         else None
                     | "" => None
                     end
                   else if Ascii.eqb c ":" then
                     match s1 with
                     | String d s2 =>
                         if Ascii.eqb d "=" then onto (Some [ItDeclare]) (lex LxAction depth s2) else None
                     | "" => None
                     end
                   else if Ascii.eqb c "=" then onto (Some [ItAssign]) (lex LxAction depth s1)
                   else if Ascii.eqb c "|" then onto (Some [ItPipe]) (lex LxAction depth s1)
                   else if Ascii.eqb c "," then onto (Some [ItComma]) (lex LxAction depth s1)
                   else if Ascii.eqb c "(" then onto (Some [ItLParen]) (lex LxAction (S depth) s1)
                   else if Ascii.eqb c ")" then
                     match depth with
                     | O => None
                     | S depth => onto (Some [ItRParen]) (lex LxAction depth s1)
                     end
                   else if Ascii.eqb c dquote then lex (LxString "") depth s1
                   else if Ascii.eqb c "$" then lex (LxVariable "") depth s1
                   else if Ascii.eqb c "." then lex (LxField "") depth s1
                   else if is_digit c then lex (LxNumber (String c "")) depth s1
                   else if is_alnum c then lex (LxIdent (String c "")) depth s1
                   else None)
          end
      end
  end.

(** ** The parser *)

(** A pipeline is a list of commands; a command is its first word and its arguments. *)
Inductive arg : Type :=
| ADot
| AField (path : list string)
| AVar (name : string) (path : list string)
| AFunc (name : string)
| AStr (s : string)
| ANum (z : Z)
| APipe (p : pipeline)
with args : Type :=
| ANil
| ACons (a : arg) (l : args)
with pipeline : Type :=
| PNil
| PCons (first : arg) (rest : args) (p : pipeline).

Inductive decl : Type :=
| NoDecl
| DeclareVar (x : string)
| Assign (x : string).

Inductive node : Type :=
| NText (s : string)
| NAction (d : decl) (p : pipeline)
| NIf (p : pipeline) (body els : nodes)
| NRange (vars : list string) (p : pipeline) (body els : nodes)
with nodes : Type :=
| NNil
| NCons (n : node) (l : nodes).

(** The functions of the language; an identifier that is none of them is not parsed. *)
Definition functions : list string :=
  ["and"; "gt"; "len"; "ne"; "append"; "b64enc"; "indent"; "list"; "quote"; "toYaml"].

Fixpoint skip_spaces (ts : list item) : list item :=
  match ts with
  | ItSpace :: ts => skip_spaces ts
  | _ => ts
  end.

Fixpoint parse_fields (ts : list item) : list string * list item :=
  match ts with
  | ItField f :: ts => let (fs, rest) := parse_fields ts in (f :: fs, rest)
  | _ => ([], ts)
  end.

(** A term that no field may follow. *)
Definition plain (a : arg) (ts : list item) : option (option arg * list item) :=
  match ts with
  | ItField _ :: _ => None
  | _ => Some (Some a, ts)
  end.

(** Only the first command of a pipeline may start with a constant. *)
Definition executable (p : pipeline) : bool :=
  match p with
  | PCons (ADot | AStr _ | ANum _) _ _ => false
  | _ => true
  end.

Fixpoint parse_operand (fuel : nat) (ts : list item) : option (option arg * list item) :=
  match fuel with
  | O => None
  | S fuel =>
      match ts with
      | ItField f :: ts => let (fs, rest) := parse_fields ts in Some (Some (AField (f :: fs)), rest)
      | ItVariable x :: ts => let (fs, rest) := parse_fields ts in Some (Some (AVar x fs), rest)
      | ItDot :: ts => plain ADot ts
      | ItIdent f :: ts => if bool_decide (f ∈ functions) then plain (AFunc f) ts else None
      | ItNumber z :: ts => plain (ANum z) ts
      | ItString s :: ts => plain (AStr s) ts
      | ItLParen :: ts =>
          match parse_pipeline fuel (skip_spaces ts) with
          | Some (p, ItRParen :: ts) => plain (APipe p) ts
          | _ => None
          end
      | _ => Some (None, ts)
      end
  end
with parse_args (fuel : nat) (ts : list item) : option (args * list item) :=
  match fuel with
  | O => None
  | S fuel =>
      match parse_operand fuel (skip_spaces ts) with
      | None => None
      | Some (operand, ts) =>
          let add (r : option (args * list item)) :=
            match operand, r with
            | Some a, Some (l, rest) => Some (ACons a l, rest)
            | None, _ => r
            | _, None => None
            end in
          match ts with
          | ItSpace :: ts => add (parse_args fuel ts)
          | (ItRight | ItRParen | ItPipe) :: _ => add (Some (ANil, ts))
          | _ => None
          end
      end
  end
with parse_pipeline (fuel : nat) (ts : list item) : option (pipeline * list item) :=
  match fuel with
  | O => None
  | S fuel =>
      match parse_args fuel ts with
      | Some (ACons first rest, ItPipe :: ts) =>
          match parse_pipeline fuel ts with
          | Some (p, ts) => if executable p then Some (PCons first rest p, ts) else None
          | None => None
          end
      | Some (ACons first rest, ts) => Some (PCons first rest PNil, ts)
      | _ => None
      end
  end.

(** A pipeline up to the closing delimiter. *)
Definition parse_action (fuel : nat) (ts : list item) : option (pipeline * list item) :=
  match parse_pipeline fuel ts with
  | Some (p, ItRight :: ts) => Some (p, ts)
  | _ => None
  end.

Definition parse_decl (ts : list item) : decl * list item :=
  match ts with
  | ItVariable x :: ts' =>
      match skip_spaces ts' with
      | ItDeclare :: ts => (DeclareVar x, ts)
      | ItAssign :: ts => (Assign x, ts)
      | _ => (NoDecl, ts)
      end
  | _ => (NoDecl, ts)
  end.

(** The variables of a [range]: the element, or the index and the element. *)
Definition parse_range_vars (ts : list item) : option (list string * list item) :=
  match ts with
  | ItVariable x :: ts' =>
      match skip_spaces ts' with
      | ItDeclare :: ts => Some ([x], ts)
      | ItAssign :: _ => None
      | ItComma :: ts =>
          match skip_spaces ts with
          | ItVariable y :: ts =>
              match skip_spaces ts with
              | ItDeclare :: ts => Some ([x; y], ts)
              | _ => None
              end
          | _ => None
          end
      | _ => Some ([], ts)
      end
  | _ => Some ([], ts)
  end.

(** How a list of nodes ends. *)
Inductive stop : Type := StopEOF | StopEnd | StopElse | StopElseIf.

Definition close_delim (st : stop) (ts : list item) : option (nodes * stop * list item) :=
  match skip_spaces ts with
  | ItRight :: ts => Some (NNil, st, ts)
  | _ => None
  end.

Fixpoint parse_nodes (fuel : nat) (ts : list item) : option (nodes * stop * list item) :=
  match fuel with
  | O => None
  | S fuel =>
      let continue_with (n : node) (ts : list item) :=
        match parse_nodes fuel ts with
        | Some (l, st, ts) => Some (NCons n l, st, ts)
        | None => None
        end in
      match ts with
      | [] => Some (NNil, StopEOF, [])
      | ItText s :: ts => continue_with (NText s) ts
      | ItLeft :: ts =>
          match skip_spaces ts with
          | ItIdent "end" :: ts => close_delim StopEnd ts
          | ItIdent "else" :: ts =>
              match skip_spaces ts with
              | ItIdent "if" :: ts => Some (NNil, StopElseIf, ts)
              | _ => close_delim StopElse ts
              end
          | ItIdent "if" :: ts =>
              match parse_if fuel ts with
              | Some (n, ts) => continue_with n ts
              | None => None
              end
          | ItIdent "range" :: ts =>
              match parse_range_vars (skip_spaces ts) with
              | Some (vars, ts) =>
                  match parse_action fuel ts with
                  | Some (p, ts) =>
                      match parse_nodes fuel ts with
                      | Some (body, StopEnd, ts) => continue_with (NRange vars p body NNil) ts
                      | Some (body, StopElse, ts) =>
                          match parse_nodes fuel ts with
                          | Some (els, StopEnd, ts) => continue_with (NRange vars p body els) ts
                          | _ => None
                          end
                      | _ => None
                      end
                  | None => None
                  end
              | None => None
              end
          | ts =>
              let (d, ts) := parse_decl ts in
              match parse_action fuel ts with
              | Some (p, ts) => continue_with (NAction d p) ts
              | None => None
              end
          end
      | _ => None
      end
  end
with parse_if (fuel : nat) (ts : list item) : option (node * list item) :=
  match fuel with
  | O => None
  | S fuel =>
      match parse_action fuel ts with
      | Some (p, ts) =>
          match parse_nodes fuel ts with
          | Some (body, StopEnd, ts) => Some (NIf p body NNil, ts)
          | Some (body, StopElse, ts) =>
              match parse_nodes fuel ts with
              | Some (els, StopEnd, ts) => Some (NIf p body els, ts)
              | _ => None
              end
          | Some (body, StopElseIf, ts) =>
              match parse_if fuel ts with
              | Some (n, ts) => Some (NIf p body (NCons n NNil), ts)
              | None => None
              end
          | _ => None
          end
      | None => None
      end
  end.

(** The variables a pipeline uses are declared. *)
Fixpoint arg_scoped (vars : list string) (a : arg) : bool :=
  match a with
  | AVar x _ => bool_decide (x ∈ vars)
  | APipe p => pipeline_scoped vars p
  | _ => true
  end
with args_scoped (vars : list string) (l : args) : bool :=
  match l with
  | ANil => true
  | ACons a l => arg_scoped vars a && args_scoped vars l
  end
with pipeline_scoped (vars : list string) (p : pipeline) : bool :=
  match p with
  | PNil => true
  | PCons a l p => arg_scoped vars a && args_scoped vars l && pipeline_scoped vars p
  end.

Definition declared (d : decl) : list string :=
  match d with DeclareVar x => [x] | _ => [] end.

Definition decl_scoped (vars : list string) (d : decl) : bool :=
  match d with Assign x => bool_decide (x ∈ vars) | _ => true end.

Fixpoint node_scoped (vars : list string) (n : node) : bool :=
  match n with
  | NText _ => true
  | NAction d p => decl_scoped vars d && pipeline_scoped (declared d ++ vars) p
  | NIf p body els => pipeline_scoped vars p && nodes_scoped vars body && nodes_scoped vars els
  | NRange xs p body els =>
      pipeline_scoped (xs ++ vars) p && nodes_scoped (xs ++ vars) body && nodes_scoped (xs ++ vars) els
  end
with nodes_scoped (vars : list string) (l : nodes) : bool :=
  match l with
  | NNil => true
  | NCons n l =>
      node_scoped vars n
      && nodes_scoped (match n with NAction d _ => declared d ++ vars | _ => vars end) l
  end.

(** [template.New(name).Funcs(funcMap()).Parse(text)]; every call takes an item, so twice their
    number and one is enough fuel. *)
Definition parse_template (text : string) : option nodes :=
  match lex (LxText "") 0 text with
  | Some ts =>
      match parse_nodes (S (2 * length ts)) ts with
      | Some (l, StopEOF, _) => if nodes_scoped ["$"] l then Some l else None
      | _ => None
      end
  | None => None
  end.

Example parse_if_else :
  parse_template "a{{ if .X.Y }}b{{ else if gt (len .Z) 0 }}c{{ end }}"
  = Some (NCons (NText "a") (NCons (NIf (PCons (AField ["X"; "Y"]) ANil PNil)
            (NCons (NText "b") NNil)
            (NCons (NIf (PCons (AFunc "gt")
                      (ACons (APipe (PCons (AFunc "len") (ACons (AField ["Z"]) ANil) PNil))
                        (ACons (ANum 0) ANil)) PNil)
                     (NCons (NText "c") NNil) NNil) NNil)) NNil)).
Proof. vm_compute. reflexivity. Qed.

Example parse_undeclared : parse_template "{{ $x }}" = None.
Proof. vm_compute. reflexivity. Qed.

(** ** The functions *)

(** JSONToYAML of sigs.k8s.io/yaml, whose emitter is not part of the repository's own code. *)
Class YamlText := { JSONToYAML : json -> result string }.

Definition exec_error {A} (msg : string) : result A := Err (ErrorString msg).

(** [indirect] *)
Fixpoint indirect (v : value) : value :=
  match v with
  | VPtr (Some v) => indirect v
  | _ => v
  end.

(** [isTrue] *)
Definition is_true (v : value) : bool :=
  match v with
  | VNone | VPtr None | VSlice [] | VMap [] => false
  | VStr _ s => negb (String.eqb s "")
  | VBool b => b
  | VInt _ z => negb (Z.eqb z 0)
  | _ => true
  end.

(** An argument for a parameter of type [string] or [int]: the value or what it points to. *)
Definition as_string (v : value) : result string :=
  match v with
  | VStr "string" s | VPtr (Some (VStr "string" s)) => Ok s
  | _ => exec_error "wrong type for value; expected string"
  end.

Definition as_int (v : value) : result Z :=
  match v with
  | VInt "int" z | VPtr (Some (VInt "int" z)) => Ok z
  | _ => exec_error "wrong type for value; expected int"
  end.

(** [fmt.Sprint] of a value of a basic kind. *)
Definition sprint (v : value) : result string :=
  match v with
  | VStr _ s => Ok s
  | VBool b => Ok (FormatBool b)
  | VInt _ z => Ok (Itoa z)
  | _ => exec_error "the text of a composite value is not modelled"
  end.

Definition bad_comparison : string := "incompatible types for comparison".

(** [eq] for two arguments of basic kinds *)
Definition template_eq (a b : value) : result bool :=
  match a, b with
  | VStr _ s, VStr _ t => Ok (String.eqb s t)
  | VBool x, VBool y => Ok (Bool.eqb x y)
  | VInt _ x, VInt _ y => Ok (Z.eqb x y)
  | _, _ => exec_error bad_comparison
  end.

(** [le] *)
Definition template_le (a b : value) : result bool :=
  match a, b with
  | VStr _ s, VStr _ t => Ok (String.leb s t)
  | VInt _ x, VInt _ y => Ok (x <=? y)%Z
  | _, _ => exec_error bad_comparison
  end.

(** [len] *)
Definition template_len (v : value) : result Z :=
  match indirect v with
  | VStr _ s => Ok (Z.of_nat (String.length s))
  | VSlice l => Ok (Z.of_nat (length l))
  | VMap m => Ok (Z.of_nat (length m))
  | VPtr _ => exec_error "len of nil pointer"
  | _ => exec_error "len of type"
  end.

Definition spaces (n : Z) : string := String.concat "" (repeat " " (Z.to_nat n)).

(** [strings.Replace(s, newline, newline + pad, -1)] *)
Fixpoint pad_lines (pad s : string) : string :=
  match s with
  | "" => ""
  | String c s => if Ascii.eqb c "010" then String c (pad +:+ pad_lines pad s) else String c (pad_lines pad s)
  end.

(** [strings.Repeat] panics on a negative count, which the call turns into an error. *)
(* src: src/vendor/github.com/go-task/slim-sprig/strings.go 109-112 indent *)
Definition indent (n : Z) (v : string) : result string :=
  if (n <? 0)%Z then exec_error "error calling indent: strings: negative Repeat count"
  else let pad := spaces n in Ok (pad +:+ pad_lines pad v).

(* src: src/vendor/github.com/go-task/slim-sprig/list.go 13-15 list *)
Definition list_ (v : list value) : value := VSlice v.

(* src: src/vendor/github.com/go-task/slim-sprig/list.go 17-34 push *)
Definition push (l v : value) : result value :=
  match l with
  | VSlice l => Ok (VSlice (l ++ [v]))
  | _ => exec_error "error calling append: Cannot push on type"
  end.

(* src: src/vendor/github.com/go-task/slim-sprig/strings.go 83-91 quote *)
Fixpoint quote_values (l : list value) : result (list string) :=
  match l with
  | [] => Ok []
  | VNone :: l => quote_values l
  | v :: l => s ← sprint v; out ← quote_values l; mret (Quote s :: out)
  end.

Definition b64_digit (n : N) : ascii :=
  ascii_of_N (if (n <? 26)%N then 65 + n else if (n <? 52)%N then 71 + n else if (n <? 62)%N then n - 4
              else if (n =? 62)%N then 43 else 47)%N.

Definition b64_chars (k : nat) (n : N) : list ascii :=
  firstn k [b64_digit (N.land (N.shiftr n 18) 63); b64_digit (N.land (N.shiftr n 12) 63);
            b64_digit (N.land (N.shiftr n 6) 63); b64_digit (N.land n 63)].

(** [base64.StdEncoding.EncodeToString] *)
Fixpoint b64_bytes (l : list ascii) : list ascii :=
  let n (a b c : ascii) := (N.shiftl (N_of_ascii a) 16 + N.shiftl (N_of_ascii b) 8 + N_of_ascii c)%N in
  match l with
  | a :: b :: c :: l => b64_chars 4 (n a b c) ++ b64_bytes l
  | [a; b] => b64_chars 3 (n a b zero) ++ ["="%char]
  | [a] => b64_chars 2 (n a zero zero) ++ ["="%char; "="%char]
  | [] => []
  end.

(* src: src/vendor/github.com/go-task/slim-sprig/strings.go 14-16 base64encode *)
Definition base64encode (v : string) : string :=
  String.string_of_list_ascii (b64_bytes (String.list_ascii_of_string v)).

Example base64_ex : base64encode "light wor" = "bGlnaHQgd29y" /\ base64encode "ab" = "YWI=" /\ base64encode "a" = "YQ==".
Proof. vm_compute. done. Qed.

(** [and]: the first argument that is false, or else the last; the others are not evaluated. *)
Fixpoint template_and (l : list (result value)) : result value :=
  match l with
  | [] => exec_error "wrong number of args for and: want at least 1 got 0"
  | [v] => v
  | v :: l => v ← v; if is_true v then template_and l else mret v
  end.

Fixpoint sequence (l : list (result value)) : result (list value) :=
  match l with
  | [] => Ok []
  | v :: l => v ← v; l ← sequence l; mret (v :: l)
  end.

Section evaluate.
Context `{YamlText}.

(* src: src/internal/controller/clusterinstance/helper.go 310-317 toYaml *)
Definition toYaml (v : value) : string :=
  match JSONToYAML (value_json v) with
  | Err _ => ""
  | Ok data => TrimSuffix data (String "010" "")
  end.

(** sprig's functions and [toYaml] over the built-in ones. *)
(* src: src/internal/controller/clusterinstance/helper.go 320-324 funcMap *)
Definition call_function (f : string) (l : list (result value)) : result value :=
  if String.eqb f "and" then template_and l
  else
    l ← sequence l;
    if String.eqb f "list" then mret (list_ l)
    else if String.eqb f "quote" then out ← quote_values l; mret (str (Join out " "))
    else
      match l with
      | [v] =>
          if String.eqb f "toYaml" then mret (str (toYaml v))
          else if String.eqb f "len" then n ← template_len v; mret (int n)
          else if String.eqb f "b64enc" then s ← as_string v; mret (str (base64encode s))
          else exec_error "wrong number of args"
      | [v; w] =>
          if String.eqb f "ne" then b ← template_eq v w; mret (VBool (negb b))
          else if String.eqb f "gt" then b ← template_le v w; mret (VBool (negb b))
          else if String.eqb f "append" then push v w
          else if String.eqb f "indent" then n ← as_int v; s ← as_string w; s ← indent n s; mret (str s)
          else exec_error "wrong number of args"
      | _ => exec_error "wrong number of args"
      end.

(** ** The evaluator *)

Definition assoc {A} (k : string) (l : list (string * A)) : option A :=
  snd <$> List.find (fun kv => String.eqb kv.1 k) l.

(** [evalField]; methods are not modelled. *)
Definition eval_field (has_args : bool) (f : string) (receiver : value) : result value :=
  match receiver with
  | VNone => Ok VNone
  | _ =>
      match indirect receiver with
      | VStruct fs _ =>
          match assoc f fs with
          | Some v =>
              if has_args then exec_error (f +:+ " has arguments but cannot be invoked as function")
              else Ok v
          | None => exec_error ("can't evaluate field " +:+ f)
          end
      | VMap m =>
          if has_args then exec_error (f +:+ " is not a method but has arguments")
          else Ok (default VNone (assoc f m))
      | VPtr None => exec_error ("nil pointer evaluating " +:+ f)
      | _ => exec_error ("can't evaluate field " +:+ f)
      end
  end.

(** [evalFieldChain]: the last field gets the arguments. *)
Fixpoint eval_path (has_args : bool) (path : list string) (receiver : value) : result value :=
  match path with
  | [] => Ok receiver
  | [f] => eval_field has_args f receiver
  | f :: path => v ← eval_field false f receiver; eval_path has_args path v
  end.

Abbreviation env := (list (string * value)).

Definition no_args (has_args : bool) (r : result value) : result value :=
  if has_args then exec_error "can't give argument to non-function" else r.

Definition eval_var (x : string) (vars : env) : result value :=
  match assoc x vars with
  | Some v => Ok v
  | None => exec_error ("undefined variable: " +:+ x)
  end.

(** A value or a command's first word; [l] are the command's other arguments and the value that
    comes through the pipe. *)
Fixpoint eval_arg (vars : env) (dot : value) (a : arg) (l : list (result value)) : result value :=
  let has_args := match l with [] => false | _ => true end in
  match a with
  | ADot => no_args has_args (Ok dot)
  | AField path => eval_path has_args path dot
  | AVar x [] => v ← eval_var x vars; no_args has_args (Ok v)
  | AVar x path => v ← eval_var x vars; eval_path has_args path v
  | AFunc f => call_function f l
  | AStr s => no_args has_args (Ok (str s))
  | ANum z => no_args has_args (Ok (int z))
  | APipe p => no_args has_args (eval_pipeline vars dot p None)
  end
with eval_args (vars : env) (dot : value) (l : args) : list (result value) :=
  match l with
  | ANil => []
  | ACons a l => eval_arg vars dot a [] :: eval_args vars dot l
  end
with eval_pipeline (vars : env) (dot : value) (p : pipeline) (final : option value) : result value :=
  match p with
  | PNil => Ok (default VNone final)
  | PCons first rest p =>
      v ← eval_arg vars dot first (eval_args vars dot rest
                                   ++ match final with Some v => [Ok v] | None => [] end);
      eval_pipeline vars dot p (Some v)
  end.

(** [printValue] *)
Definition print_value (v : value) : result string :=
  match indirect v with
  | VNone => Ok "<no value>"
  | VPtr _ => Ok "<nil>"
  | v => sprint v
  end.

(** [setVar]: the innermost variable of the name. *)
Fixpoint set_var (x : string) (v : value) (vars : env) : result env :=
  match vars with
  | [] => exec_error ("undefined variable: " +:+ x)
  | (y, w) :: vars => if String.eqb y x then Ok ((y, v) :: vars) else vars ← set_var x v vars; mret ((y, w) :: vars)
  end.

(** [pop]: the [mark] outermost variables. *)
Definition pop (mark : nat) (vars : env) : env := drop (length vars - mark) vars.

(** The index and the element, or the key and the element, of each iteration. *)
Definition iterations (v : value) : result (list (value * value)) :=
  match indirect v with
  | VSlice l => Ok (imap (fun i w => (int (Z.of_nat i), w)) l)
  | VMap m => Ok (List.map (fun kv => (str kv.1, kv.2)) m)
  | VNone => Ok []
  | _ => exec_error "range can't iterate over"
  end.

(** The variables of a [range] on top of the others. *)
Definition range_vars (xs : list string) (i elem : value) (vars : env) : env :=
  match xs with
  | [x] => (x, elem) :: vars
  | [x; y] => (y, elem) :: (x, i) :: vars
  | _ => vars
  end.

(** One iteration after the other, each with the variables as the one before has left them. *)
Fixpoint iterate (body : value -> env -> result (env * string)) (xs : list string) (mark : nat)
    (l : list (value * value)) (vars : env) : result (env * string) :=
  match l with
  | [] => Ok (vars, "")
  | (i, elem) :: l =>
      '(vars1, out1) ← body elem (range_vars xs i elem vars);
      '(vars2, out2) ← iterate body xs mark l (pop mark vars1);
      mret (vars2, out1 +:+ out2)
  end.

Definition popped (mark : nat) (r : result (env * string)) : result (env * string) :=
  '(vars, out) ← r; mret (pop mark vars, out).

Fixpoint exec_node (n : node) (dot : value) (vars : env) : result (env * string) :=
  match n with
  | NText s => Ok (vars, s)
  | NAction d p =>
      v ← eval_pipeline vars dot p None;
      match d with
      | NoDecl => out ← print_value v; mret (vars, out)
      | DeclareVar x => mret ((x, v) :: vars, "")
      | Assign x => vars ← set_var x v vars; mret (vars, "")
      end
  | NIf p body els =>
      v ← eval_pipeline vars dot p None;
      popped (length vars) (if is_true v then exec_nodes body dot vars else exec_nodes els dot vars)
  | NRange xs p body els =>
      v ← eval_pipeline vars dot p None;
      l ← iterations v;
      match l with
      | [] => popped (length vars) (exec_nodes els dot (range_vars xs v v vars))
      | _ => iterate (exec_nodes body) xs (length vars) l vars
      end
  end
with exec_nodes (l : nodes) (dot : value) (vars : env) : result (env * string) :=
  match l with
  | NNil => Ok (vars, "")
  | NCons n l =>
      '(vars1, out1) ← exec_node n dot vars;
      '(vars2, out2) ← exec_nodes l dot vars1;
      mret (vars2, out1 +:+ out2)
  end.

(** [t.Execute] *)
Definition exec_template (l : nodes) (data : value) : result string :=
  '(_, out) ← exec_nodes l data [("$", data)]; mret out.
End evaluate.
