(* ===== verification/TemplateTypes.v ===== *)
(** * A type system for templates

    A template that this checker accepts for the type of its data never fails: no field is
    missing, no nil pointer is read, no function gets an argument of another type. The checker
    follows the template's own tests: below [if .A.B] the pointer [.A.B] is not nil. *)
From S2P Require Import Prelude GoStd GoTemplate.

(** ** Types *)

Inductive gotype : Type :=
| TAny
| TStr (ty : string)
| TBool
| TInt (ty : string)
| TPtr (t : gotype)
| TStruct (fs : list (string * gotype))
| TSlice (t : gotype)
| TMap (t : gotype)
| TMaybe (t : gotype).   (* what a map may not have *)

Inductive has_type : value -> gotype -> Prop :=
| HT_any v : has_type v TAny
| HT_str ty s : has_type (VStr ty s) (TStr ty)
| HT_bool b : has_type (VBool b) TBool
| HT_int ty z : has_type (VInt ty z) (TInt ty)
| HT_nil t : has_type (VPtr None) (TPtr t)
| HT_ptr v t : has_type v t -> has_type (VPtr (Some v)) (TPtr t)
| HT_struct fs fts j :
    Forall2 (fun fv ft => fv.1 = ft.1 /\ has_type fv.2 ft.2) fs fts -> has_type (VStruct fs j) (TStruct fts)
| HT_slice l t : Forall (fun v => has_type v t) l -> has_type (VSlice l) (TSlice t)
| HT_map m t : Forall (fun kv => has_type kv.2 t) m -> has_type (VMap m) (TMap t)
| HT_none t : has_type VNone (TMaybe t)
| HT_some v t : has_type v t -> has_type v (TMaybe t).

#[export] Hint Constructors has_type : sc.

(** A value of the first type is one of the second. *)
Definition sub (t u : gotype) : bool :=
  match t, u with
  | _, TAny => true
  | TStr a, TStr b | TInt a, TInt b => String.eqb a b
  | TBool, TBool => true
  | TSlice _, TSlice TAny => true
  | _, _ => false
  end.

(** ** The checker *)

Abbreviation path := (list string).

(** [known]: the paths from the dot that are not nil. [here] is how the receiver was reached, if
    it was reached from the dot. *)
Definition not_nil (known : list path) (here : option path) : bool :=
  match here with Some p => bool_decide (p ∈ known) | None => false end.

Fixpoint check_path (known : list path) (here : option path) (t : gotype) (p : path) : option gotype :=
  match p with
  | [] => Some t
  | f :: p =>
      let receiver := match t with
                      | TPtr u => if not_nil known here then Some u else None
                      | _ => Some t
                      end in
      match receiver with
      | Some (TStruct fs) =>
          match assoc f fs with
          | Some u => check_path known ((fun q => q ++ [f]) <$> here) u p
          | None => None
          end
      | Some (TMap u) => match p with [] => Some (TMaybe u) | _ => None end
      | _ => None
      end
  end.

(** The type of a call; [None] for arguments it may fail on. *)
Definition check_call (f : string) (l : list gotype) : option gotype :=
  match l with
  | [] => if String.eqb f "list" then Some (TSlice TAny) else None
  | [t] =>
      if String.eqb f "and" then Some TAny
      else if String.eqb f "list" then Some (TSlice TAny)
      else if String.eqb f "toYaml" then Some (TStr "string")
      else if String.eqb f "len" then
        match t with TStr _ | TSlice _ | TMap _ => Some (TInt "int") | _ => None end
      else if String.eqb f "b64enc" then if sub t (TStr "string") then Some (TStr "string") else None
      else if String.eqb f "quote" then match t with TStr _ => Some (TStr "string") | _ => None end
      else None
  | [t; u] =>
      if String.eqb f "and" then Some TAny
      else if String.eqb f "list" then Some (TSlice TAny)
      else if String.eqb f "ne" then
        match t, u with TStr _, TStr _ | TInt _, TInt _ | TBool, TBool => Some TBool | _, _ => None end
      else if String.eqb f "gt" then
        match t, u with TStr _, TStr _ | TInt _, TInt _ => Some TBool | _, _ => None end
      else if String.eqb f "append" then match t with TSlice _ => Some (TSlice TAny) | _ => None end
      else None
  | _ => if String.eqb f "and" then Some TAny else if String.eqb f "list" then Some (TSlice TAny) else None
  end.

(** [indent] takes a constant, which must not be negative. *)
Definition check_indent (l : args) (final : option gotype) : option gotype :=
  match l, final with
  | ACons (ANum n) ANil, Some t =>
      if (0 <=? n)%Z && sub t (TStr "string") then Some (TStr "string") else None
  | _, _ => None
  end.

Abbreviation tenv := (list (string * gotype)).

Fixpoint check_arg (known : list path) (vars : tenv) (dot : gotype) (a : arg) : option gotype :=
  match a with
  | ADot => Some dot
  | AField p => check_path known (Some []) dot p
  | AVar x p => match assoc x vars with Some t => check_path known None t p | None => None end
  | AFunc f => check_call f []
  | AStr _ => Some (TStr "string")
  | ANum _ => Some (TInt "int")
  | APipe p => check_pipeline known vars dot p None
  end
with check_args (known : list path) (vars : tenv) (dot : gotype) (l : args) : option (list gotype) :=
  match l with
  | ANil => Some []
  | ACons a l =>
      match check_arg known vars dot a, check_args known vars dot l with
      | Some t, Some ts => Some (t :: ts)
      | _, _ => None
      end
  end
with check_pipeline (known : list path) (vars : tenv) (dot : gotype) (p : pipeline)
    (final : option gotype) : option gotype :=
  match p with
  | PNil => final
  | PCons first rest p =>
      let t :=
        match first, check_args known vars dot rest with
        | AFunc f, Some ts =>
            if String.eqb f "indent" then check_indent rest final
            else check_call f (ts ++ match final with Some t => [t] | None => [] end)
        | _, Some [] =>
            match final with None => check_arg known vars dot first | Some _ => None end
        | _, _ => None
        end in
      match t with
      | Some t => check_pipeline known vars dot p (Some t)
      | None => None
      end
  end.

Definition printable (t : gotype) : bool :=
  match t with TStr _ | TBool | TInt _ => true | _ => false end.

(** What a test that succeeds says about the dot. *)
Definition learn (p : pipeline) (known : list path) : list path :=
  match p with
  | PCons (AField q) ANil PNil => q :: known
  | _ => known
  end.

(** The type of the elements of a [range]. *)
Definition range_type (t : gotype) : option (gotype * gotype) :=
  match t with
  | TSlice u => Some (TInt "int", u)
  | TMap u => Some (TStr "string", u)
  | _ => None
  end.

Definition range_tvars (xs : list string) (i elem : gotype) (vars : tenv) : tenv :=
  match xs with
  | [x] => (x, elem) :: vars
  | [x; y] => (y, elem) :: (x, i) :: vars
  | _ => vars
  end.

(** The variables after the node. *)
Fixpoint check_node (known : list path) (vars : tenv) (dot : gotype) (n : node) : option tenv :=
  match n with
  | NText _ => Some vars
  | NAction d p =>
      match check_pipeline known vars dot p None with
      | Some t =>
          match d with
          | NoDecl => if printable t then Some vars else None
          | DeclareVar x => Some ((x, t) :: vars)
          | Assign x =>
              match assoc x vars with
              | Some u => if sub t u then Some vars else None
              | None => None
              end
          end
      | None => None
      end
  | NIf p body els =>
      match check_pipeline known vars dot p None, check_nodes (learn p known) vars dot body,
            check_nodes known vars dot els with
      | Some _, Some _, Some _ => Some vars
      | _, _, _ => None
      end
  | NRange xs p body els =>
      match check_pipeline known vars dot p None with
      | Some t =>
          match range_type t with
          | Some (i, elem) =>
              match check_nodes [] (range_tvars xs i elem vars) elem body,
                    check_nodes known (range_tvars xs t t vars) dot els with
              | Some _, Some _ => Some vars
              | _, _ => None
              end
          | None => None
          end
      | None => None
      end
  end
with check_nodes (known : list path) (vars : tenv) (dot : gotype) (l : nodes) : option tenv :=
  match l with
  | NNil => Some vars
  | NCons n l =>
      match check_node known vars dot n with
      | Some vars => check_nodes known vars dot l
      | None => None
      end
  end.

(** The data is a pointer that is not nil. *)
Definition check_template (t : gotype) (text : string) : bool :=
  match parse_template text with
  | Some l =>
      match check_nodes [[]] [("$", TPtr t)] (TPtr t) l with Some _ => true | None => false end
  | None => false
  end.

(** ** Soundness *)

Scheme arg_mind := Induction for arg Sort Prop
  with args_mind := Induction for args Sort Prop
  with pipeline_mind := Induction for pipeline Sort Prop.
Combined Scheme term_mind from arg_mind, args_mind, pipeline_mind.

Scheme node_mind := Induction for node Sort Prop
  with nodes_mind := Induction for nodes Sort Prop.
Combined Scheme block_mind from node_mind, nodes_mind.

Lemma sub_typed t u v : has_type v t -> sub t u = true -> has_type v u.
Proof.
  intros Hv Hs.
  destruct t, u; simpl in Hs; try done; try (by constructor);
    try (apply String.eqb_eq in Hs; subst; done).
  destruct u; [|done..]. inversion Hv as [| | | | | | |l t' Hl| | |]; subst. constructor.
  eapply Forall_impl; [done|]. intros; constructor.
Qed.

Definition env_typed (vars : list (string * value)) (tvars : tenv) : Prop :=
  Forall2 (fun v t => v.1 = t.1 /\ has_type v.2 t.2) vars tvars.

Lemma assoc_typed vars tvars x t :
  env_typed vars tvars -> assoc x tvars = Some t -> exists v, assoc x vars = Some v /\ has_type v t.
Proof.
  unfold assoc. induction 1 as [|[y v] [z u] vars tvars [Heq Hv] _ IH]; simpl in *; [done|]. subst z.
  destruct (String.eqb y x); simpl; [intros [= <-]; eauto|done].
Qed.

Lemma env_typed_pop vars ext tvars :
  env_typed vars (ext ++ tvars) -> env_typed (pop (length tvars) vars) tvars.
Proof.
  intros (v1 & v2 & H1 & H2 & ->)%Forall2_app_inv_r. unfold pop.
  rewrite length_app, (Forall2_length _ _ _ H2), Nat.add_sub. rewrite drop_app_length. done.
Qed.

Lemma set_var_typed x v u vars tvars :
  env_typed vars tvars -> assoc x tvars = Some u -> has_type v u ->
  exists vars', set_var x v vars = Ok vars' /\ env_typed vars' tvars.
Proof.
  intros Henv. revert u. unfold assoc.
  induction Henv as [|[y w] [z t] vars tvars [Heq Hw] Henv IH]; intros u Hx Hv; simpl in *; [done|]. subst z.
  destruct (String.eqb y x); simpl in Hx.
  - simplify_eq. eexists. split; [done|]. constructor; [by split|done].
  - destruct (IH _ Hx Hv) as (vars' & Hset & Ht). rewrite Hset. cbn.
    eexists. split; [done|]. constructor; [by split|done].
Qed.

Lemma range_vars_typed xs i e ti te vars tvars :
  env_typed vars tvars -> has_type i ti -> has_type e te ->
  env_typed (range_vars xs i e vars) (range_tvars xs ti te tvars).
Proof.
  intros Henv Hi He. destruct xs as [|x [|y [|z xs]]]; simpl; [done| |  |done];
    repeat constructor; done.
Qed.

Lemma range_tvars_ext xs ti te tvars : exists ext, range_tvars xs ti te tvars = ext ++ tvars.
Proof.
  destruct xs as [|x [|y [|z xs]]]; simpl; [by exists []| | |by exists []].
  - by exists [(x, te)].
  - by exists [(y, te); (x, ti)].
Qed.

(** *** Fields *)

Definition known_ok (known : list path) (dot : value) : Prop :=
  forall p, p ∈ known -> eval_path false p dot <> Ok (VPtr None).

Lemma eval_path_cons f p v :
  eval_path false (f :: p) v = w ← eval_field false f v; eval_path false p w.
Proof. destruct p; [|done]. simpl. by destruct (eval_field false f v). Qed.

Lemma eval_path_snoc p f v :
  eval_path false (p ++ [f]) v = w ← eval_path false p v; eval_field false f w.
Proof.
  revert v. induction p as [|g p IH]; intros v; [done|].
  rewrite <- app_comm_cons, !eval_path_cons. destruct (eval_field false g v) as [w|e]; [|done].
  cbn. apply IH.
Qed.

Lemma eval_field_struct v fs f u :
  has_type v (TStruct fs) -> assoc f fs = Some u ->
  exists w, eval_field false f v = Ok w /\ has_type w u.
Proof.
  intros Hv Hf. inversion Hv as [| | | | | |vs fts j Hall| | | |]; subst.
  destruct (assoc_typed _ _ _ _ Hall Hf) as (w & Hw & Ht). simpl. rewrite Hw. eauto.
Qed.

Lemma eval_field_map v f u :
  has_type v (TMap u) -> exists w, eval_field false f v = Ok w /\ has_type w (TMaybe u).
Proof.
  intros Hv. inversion Hv as [| | | | | | | |m t Hall| |]; subst. simpl. eexists. split; [done|].
  unfold assoc. destruct (List.find _ m) as [kv|] eqn:E; simpl; [|constructor].
  apply List.find_some in E as [Hin _]. apply HT_some.
  rewrite Forall_forall in Hall. apply Hall. by apply list_elem_of_In.
Qed.

(** Reading through a pointer that is not nil. *)
Lemma eval_field_ptr f v : eval_field false f (VPtr (Some v)) = eval_field false f v \/ v = VNone.
Proof. destruct v as [| | | |[]| | |]; auto. Qed.

Lemma receiver_typed known dot here t v r :
  known_ok known dot -> has_type v t ->
  (forall q, here = Some q -> eval_path false q dot = Ok v) ->
  match t with TPtr u => if not_nil known here then Some u else None | _ => Some t end = Some r ->
  exists w, has_type w r
    /\ (match r with TStruct _ | TMap _ => True | _ => False end ->
        forall f, eval_field false f v = eval_field false f w).
Proof.
  intros Hk Hv Hhere Hr. destruct t; simplify_eq; eauto.
  destruct here as [q|]; simpl in Hr; [|done]. case_bool_decide as Hq; simplify_eq.
  specialize (Hhere q eq_refl). inversion Hv as [| | | |t'|w t' Hw| | | | |]; subst.
  - by apply Hk in Hq.
  - exists w. split; [done|]. intros Hcomp f. destruct (eval_field_ptr f w) as [->| ->]; [done|].
    destruct r; try done; inversion Hw.
Qed.

Lemma check_path_typed known dot :
  known_ok known dot ->
  forall p here t v u,
    has_type v t -> (forall q, here = Some q -> eval_path false q dot = Ok v) ->
    check_path known here t p = Some u ->
    exists w, eval_path false p v = Ok w /\ has_type w u.
Proof.
  intros Hk p. induction p as [|f p IH]; intros here t v u Hv Hhere Hc; cbn [check_path] in Hc;
    [simplify_eq; by exists v|].
  destruct (match t with TPtr u => _ | _ => _ end) as [r|] eqn:Hr; [|done].
  destruct (receiver_typed _ _ _ _ _ _ Hk Hv Hhere Hr) as (w & Hw & Heq).
  rewrite eval_path_cons.
  destruct r as [| | | | |fs| |te|]; try done.
  - destruct (assoc f fs) as [t1|] eqn:Hf; [|done].
    destruct (eval_field_struct _ _ _ _ Hw Hf) as (v1 & Hv1 & Ht1).
    rewrite (Heq I f), Hv1. cbn. eapply IH; [done| |done].
    intros q Hq. destruct here as [q0|]; simplify_eq/=. rewrite eval_path_snoc, (Hhere q0 eq_refl).
    cbn. by rewrite (Heq I f).
  - destruct p; [|done]. simplify_eq. destruct (eval_field_map _ f _ Hw) as (v1 & Hv1 & Ht1).
    rewrite (Heq I f), Hv1. eauto.
Qed.

(** *** Calls *)

Lemma sequence_Ok vs : sequence (List.map Ok vs) = Ok vs.
Proof. induction vs as [|v vs IH]; [done|]. simpl. by rewrite IH. Qed.

Lemma template_and_Ok v vs : exists w, template_and (List.map Ok (v :: vs)) = Ok w.
Proof.
  revert v. induction vs as [|v' vs IH]; intros v; [by eexists|].
  cbn [template_and List.map]. cbn. destruct (is_true v); [apply IH|by eexists].
Qed.

Lemma as_string_typed v : has_type v (TStr "string") -> exists s, as_string v = Ok s.
Proof. inversion 1; subst. by eexists. Qed.

Section soundness.
Context `{Yaml : YamlText}.

Lemma call_typed f vs ts t :
  Forall2 has_type vs ts -> check_call f ts = Some t ->
  exists v, call_function f (List.map Ok vs) = Ok v /\ has_type v t.
Proof.
  intros Hvs Hc. unfold call_function.
  destruct (String.eqb_spec f "and") as [->|Hand].
  { destruct vs as [|v vs]; inversion Hvs as [|? t0 ? ts']; subst; [done|].
    destruct (template_and_Ok v vs) as [w Hw]. exists w. split; [done|].
    destruct ts' as [|? [|]]; simpl in Hc; simplify_eq; constructor. }
  rewrite sequence_Ok. cbn [mbind result_bind].
  destruct (String.eqb_spec f "list") as [->|Hlist].
  { eexists. split; [done|]. assert (t = TSlice TAny) as ->.
    { destruct ts as [|? [|? [|]]]; by simplify_eq/=. }
    constructor. apply Forall_forall. intros; constructor. }
  apply String.eqb_neq in Hand, Hlist.
  destruct Hvs as [|v t1 vs ts Hv1 Hvs]; cbn [check_call] in Hc; rewrite ?Hand, ?Hlist in Hc; [done|].
  destruct Hvs as [|v2 t2 vs ts Hv2 Hvs]; cbn [check_call] in Hc; rewrite ?Hand, ?Hlist in Hc.
  - destruct (String.eqb_spec f "toYaml") as [->|]; [simplify_eq; eauto with sc|].
    destruct (String.eqb_spec f "len") as [->|].
    { destruct Hv1; simplify_eq/=; eauto with sc. }
    destruct (String.eqb_spec f "b64enc") as [->|].
    { destruct (sub t1 (TStr "string")) eqn:Hs; simplify_eq. eapply sub_typed in Hs; [|done].
      apply as_string_typed in Hs as [s Hs]. cbn. rewrite Hs. eauto with sc. }
    destruct (String.eqb_spec f "quote") as [->|]; [|done].
    destruct Hv1; simplify_eq/=; eauto with sc.
  - destruct Hvs; cbn [check_call] in Hc; rewrite ?Hand, ?Hlist in Hc; [|done].
    destruct (String.eqb_spec f "ne") as [->|].
    { destruct Hv1, Hv2; simplify_eq/=; eauto with sc. }
    destruct (String.eqb_spec f "gt") as [->|].
    { destruct Hv1, Hv2; simplify_eq/=; eauto with sc. }
    destruct (String.eqb_spec f "append") as [->|]; [|done].
    destruct Hv1; simplify_eq/=. eexists. split; [done|]. constructor. apply Forall_forall. intros; constructor.
Qed.

Lemma indent_typed n v :
  (0 <= n)%Z -> has_type v (TStr "string") ->
  exists w, call_function "indent" [Ok (int n); Ok v] = Ok w /\ has_type w (TStr "string").
Proof.
  intros Hn [s Hs]%as_string_typed. unfold call_function. cbn. rewrite Hs. cbn. unfold indent.
  destruct (Z.ltb_spec n 0); [lia|]. cbn. eauto with sc.
Qed.

(** *** Terms *)

Definition final_typed (final : option value) (tfinal : option gotype) : Prop :=
  match final, tfinal with
  | Some v, Some t => has_type v t
  | None, None => True
  | _, _ => False
  end.

Lemma final_call f vs ts final tfinal t :
  Forall2 has_type vs ts -> final_typed final tfinal ->
  check_call f (ts ++ match tfinal with Some t => [t] | None => [] end) = Some t ->
  exists v, call_function f (List.map Ok vs ++ match final with Some v => [Ok v] | None => [] end) = Ok v
    /\ has_type v t.
Proof.
  intros Hvs Hf Hc. destruct final as [v|], tfinal as [u|]; try done.
  - destruct (call_typed f (vs ++ [v]) (ts ++ [u]) t) as (w & Hw & Ht); [by apply Forall2_app; auto|done|].
    rewrite List.map_app in Hw. eauto.
  - rewrite app_nil_r in *. eauto using call_typed.
Qed.

Section terms.
Context (known : list path) (vars : list (string * value)) (tvars : tenv) (dot : value) (tdot : gotype).
Context (Hknown : known_ok known dot) (Henv : env_typed vars tvars) (Hdot : has_type dot tdot).

Lemma term_typed :
  (forall a t, check_arg known tvars tdot a = Some t ->
     exists v, eval_arg vars dot a [] = Ok v /\ has_type v t)
  /\ (forall l ts, check_args known tvars tdot l = Some ts ->
     exists vs, eval_args vars dot l = List.map Ok vs /\ Forall2 has_type vs ts)
  /\ (forall p final tfinal t, final_typed final tfinal ->
     check_pipeline known tvars tdot p tfinal = Some t ->
     exists v, eval_pipeline vars dot p final = Ok v /\ has_type v t).
Proof using Hknown Henv Hdot.
  apply term_mind; cbn [check_arg check_args check_pipeline]; intros; simplify_eq.
  - (* dot *) eauto.
  - (* field *) eapply check_path_typed; [done..| |done]. by intros ? [= <-].
  - (* variable *)
    destruct (assoc name tvars) as [t1|] eqn:Hx; [|done].
    destruct (assoc_typed _ _ _ _ Henv Hx) as (v & Hv & Ht). cbn [eval_arg]. unfold eval_var. rewrite Hv.
    destruct (check_path_typed known dot Hknown path None t1 v t) as (w & Hw & Htw); [done..|].
    exists w. split; [|done]. by destruct path.
  - (* function *) by apply (call_typed name [] []); [constructor|].
  - (* string *) eexists. split; [done|]. constructor.
  - (* number *) eexists. split; [done|]. constructor.
  - (* parentheses *) cbn [eval_arg no_args]. by apply (H None None).
  - exists []. split; [done|constructor].
  - destruct (check_arg known tvars tdot a) as [t|] eqn:Ha; [|done].
    destruct (check_args known tvars tdot l) as [ts'|] eqn:Hl; [|done]. simplify_eq.
    destruct (H _ eq_refl) as (v & Hv & Ht). destruct (H0 _ eq_refl) as (vs & Hvs & Hts).
    exists (v :: vs). cbn [eval_args List.map]. rewrite Hv, Hvs. auto.
  - destruct final; [|done]. simpl in *. eauto.
  - destruct (match first with AFunc f => _ | _ => _ end) as [t1|] eqn:Ht1; [|done].
    cbn [eval_pipeline].
    enough (exists v, eval_arg vars dot first (eval_args vars dot rest
              ++ match final with Some v => [Ok v] | None => [] end) = Ok v /\ has_type v t1)
      as (v & Hv & Htv) by (rewrite Hv; cbn; eapply H1; [|done]; done).
    destruct (check_args known tvars tdot rest) as [ts|] eqn:Hl; [|by destruct first].
    destruct (H0 _ eq_refl) as (vs & Hvs & Hts).
    assert (Hword : match ts with [] => match tfinal with None => check_arg known tvars tdot first
                                        | Some _ => None end | _ => None end = Some t1
                    \/ exists f, first = AFunc f) by (destruct first; eauto).
    destruct Hword as [Hword|[f ->]].
    + destruct ts; [|done]. destruct tfinal, final; try done. inversion Hts; subst.
      rewrite Hvs. apply H, Hword.
    + destruct (String.eqb_spec f "indent") as [->|].
      * destruct rest as [|[| | | | |n|] []]; try done. destruct tfinal as [u|], final as [v|]; try done.
        cbn [check_indent] in Ht1. case_hyps. bools. eapply (indent_typed n); [lia|].
        eapply sub_typed; done.
      * cbn [eval_arg]. rewrite Hvs. eapply final_call; eauto.
Qed.
End terms.

Lemma learn_ok known p dot vars v :
  known_ok known dot -> eval_pipeline vars dot p None = Ok v -> is_true v = true ->
  known_ok (learn p known) dot.
Proof.
  intros Hk Hv Ht. destruct p as [|[|q| | | | |] [|] [|]]; try done.
  intros q' [->|Hq']%elem_of_cons; [|by apply Hk]. intros Hnil.
  cbn in Hv. rewrite Hnil in Hv. by simplify_eq/=.
Qed.

(** *** Nodes *)

Lemma check_extends :
  (forall n known tvars tdot tvars', check_node known tvars tdot n = Some tvars' ->
     exists ext, tvars' = ext ++ tvars)
  /\ (forall l known tvars tdot tvars', check_nodes known tvars tdot l = Some tvars' ->
     exists ext, tvars' = ext ++ tvars).
Proof.
  apply block_mind; cbn [check_node check_nodes].
  - intros s known tvars tdot tvars' [= <-]. by exists [].
  - intros d p known tvars tdot tvars' Hc. destruct (check_pipeline _ _ _ _ _) as [t|]; [|done].
    destruct d as [|x|x]; case_hyps; simplify_eq; first [by exists []|by exists [(x, t)]].
  - intros p body _ els _ known tvars tdot tvars' Hc. case_hyps. by exists [].
  - intros xs p body _ els _ known tvars tdot tvars' Hc. case_hyps. by exists [].
  - intros known tvars tdot tvars' [= <-]. by exists [].
  - intros n IHn l IHl known tvars tdot tvars' Hc. destruct (check_node _ _ _ n) as [t1|] eqn:Hn; [|done].
    apply IHn in Hn as [e1 ->]. apply IHl in Hc as [e2 ->]. exists (e2 ++ e1). by rewrite app_assoc.
Qed.

(** What a node or a list of nodes does when it is typed. *)
Definition runs (r : result (list (string * value) * string)) (tvars : tenv) : Prop :=
  exists vars out, r = Ok (vars, out) /\ env_typed vars tvars.

Lemma popped_runs r ext tvars : runs r (ext ++ tvars) -> runs (popped (length tvars) r) tvars.
Proof.
  intros (vars & out & -> & Henv). do 2 eexists. split; [done|]. by eapply env_typed_pop.
Qed.

Lemma iterate_runs body xs ti te tvars l vars :
  env_typed vars tvars ->
  Forall (fun ie => has_type ie.1 ti /\ has_type ie.2 te) l ->
  (forall e vars, has_type e te -> env_typed vars (range_tvars xs ti te tvars) ->
     exists ext, runs (body e vars) (ext ++ tvars)) ->
  runs (iterate body xs (length tvars) l vars) tvars.
Proof.
  intros Henv Hl Hbody. revert vars Henv. induction Hl as [|[i e] l [Hi He] _ IH]; intros vars Henv.
  { do 2 eexists. done. }
  cbn [iterate]. destruct (Hbody e (range_vars xs i e vars)) as (ext & v1 & o1 & Hrun & Hv1);
    [done|by apply range_vars_typed|].
  rewrite Hrun. cbn. destruct (IH (pop (length tvars) v1)) as (v2 & o2 & Hrest & Hv2);
    [by eapply env_typed_pop|].
  rewrite Hrest. do 2 eexists. done.
Qed.

Lemma iterations_typed v t ti te :
  has_type v t -> range_type t = Some (ti, te) ->
  exists l, iterations v = Ok l /\ Forall (fun ie => has_type ie.1 ti /\ has_type ie.2 te) l.
Proof.
  intros Hv Ht. destruct Hv as [| | | | | | |l t Hl|m t Hm| |]; simplify_eq/=; eexists; (split; [done|]).
  - apply Forall_lookup. intros i ie. rewrite list_lookup_imap.
    destruct (l !! i) as [w|] eqn:Hw; simpl; [|done]. intros [= <-].
    split; [constructor|]. rewrite Forall_lookup in Hl. eauto.
  - apply Forall_map. eapply Forall_impl; [done|]. intros kv Hkv. split; [constructor|done].
Qed.

Lemma block_typed :
  (forall n known vars tvars dot tdot tvars',
     known_ok known dot -> env_typed vars tvars -> has_type dot tdot ->
     check_node known tvars tdot n = Some tvars' -> runs (exec_node n dot vars) tvars')
  /\ (forall l known vars tvars dot tdot tvars',
     known_ok known dot -> env_typed vars tvars -> has_type dot tdot ->
     check_nodes known tvars tdot l = Some tvars' -> runs (exec_nodes l dot vars) tvars').
Proof.
  apply block_mind; cbn [check_node check_nodes exec_node exec_nodes].
  - intros s known vars tvars dot tdot tvars' _ Henv _ [= <-]. do 2 eexists. done.
  - (* an action *)
    intros d p known vars tvars dot tdot tvars' Hk Henv Hdot Hc.
    destruct (check_pipeline _ _ _ _ _) as [t|] eqn:Hp; [|done].
    destruct (term_typed known vars tvars dot tdot Hk Henv Hdot) as (_ & _ & Hterm).
    destruct (Hterm p None None t I Hp) as (v & Hv & Ht). rewrite Hv. cbn.
    destruct d as [|x|x].
    + destruct (printable t) eqn:Hprint; simplify_eq.
      destruct Ht; simplify_eq/=; do 2 eexists; done.
    + simplify_eq. do 2 eexists. split; [done|]. by constructor.
    + destruct (assoc x tvars) as [u|] eqn:Hx; [|done]. destruct (sub t u) eqn:Hs; simplify_eq.
      destruct (set_var_typed x v u vars tvars') as (vars' & Hset & Henv'); [done..|by eapply sub_typed|].
      rewrite Hset. do 2 eexists. done.
  - (* if *)
    intros p body IHb els IHe known vars tvars dot tdot tvars' Hk Henv Hdot Hc.
    destruct (check_pipeline _ _ _ _ _) as [t|] eqn:Hp; [|done].
    destruct (check_nodes _ _ _ body) as [t1|] eqn:Hb; [|done].
    destruct (check_nodes _ _ _ els) as [t2|] eqn:He; simplify_eq.
    destruct (term_typed known vars tvars' dot tdot Hk Henv Hdot) as (_ & _ & Hterm).
    destruct (Hterm p None None t I Hp) as (v & Hv & Ht). rewrite Hv. cbn.
    rewrite (Forall2_length _ _ _ Henv). destruct (is_true v) eqn:Htrue.
    + destruct (proj2 check_extends _ _ _ _ _ Hb) as [ext ->]. eapply popped_runs, IHb; [|done..].
      by eapply learn_ok.
    + destruct (proj2 check_extends _ _ _ _ _ He) as [ext ->]. by eapply popped_runs, IHe.
  - (* range *)
    intros xs p body IHb els IHe known vars tvars dot tdot tvars' Hk Henv Hdot Hc.
    destruct (check_pipeline _ _ _ _ _) as [t|] eqn:Hp; [|done].
    destruct (range_type t) as [[ti te]|] eqn:Hr; [|done].
    destruct (check_nodes _ _ _ body) as [t1|] eqn:Hb; [|done].
    destruct (check_nodes _ _ _ els) as [t2|] eqn:He; simplify_eq.
    destruct (term_typed known vars tvars' dot tdot Hk Henv Hdot) as (_ & _ & Hterm).
    destruct (Hterm p None None t I Hp) as (v & Hv & Ht). rewrite Hv. cbn.
    destruct (iterations_typed _ _ _ _ Ht Hr) as (l & Hl & Htl). rewrite Hl. cbn.
    rewrite (Forall2_length _ _ _ Henv).
    destruct (range_tvars_ext xs ti te tvars') as [e1 He1], (range_tvars_ext xs t t tvars') as [e2 He2].
    destruct (proj2 check_extends _ _ _ _ _ Hb) as [e3 ->], (proj2 check_extends _ _ _ _ _ He) as [e4 ->].
    destruct l as [|ie l].
    + apply (popped_runs _ (e4 ++ e2)). rewrite <- app_assoc, <- He2.
      eapply IHe; [done| |done|done]. by apply range_vars_typed.
    + eapply iterate_runs; [done..|]. intros e vars' Hte Hvars'. exists (e3 ++ e1).
      rewrite <- app_assoc, <- He1. eapply IHb; [|done..]. by intros ? ?%elem_of_nil.
  - intros known vars tvars dot tdot tvars' _ Henv _ [= <-]. do 2 eexists. done.
  - intros n IHn l IHl known vars tvars dot tdot tvars' Hk Henv Hdot Hc.
    destruct (check_node _ _ _ n) as [t1|] eqn:Hn; [|done].
    destruct (IHn _ _ _ _ _ _ Hk Henv Hdot Hn) as (v1 & o1 & Hrun & Henv1). rewrite Hrun. cbn.
    destruct (IHl _ _ _ _ _ _ Hk Henv1 Hdot Hc) as (v2 & o2 & Hrun2 & Henv2). rewrite Hrun2.
    do 2 eexists. done.
Qed.

(** A template that is checked for the type of its data is executed without an error. *)
Lemma check_template_sound t text v :
  check_template t text = true -> has_type v t ->
  exists l out, parse_template text = Some l /\ exec_template l (VPtr (Some v)) = Ok out.
Proof.
  unfold check_template. intros Hc Hv.
  destruct (parse_template text) as [l|]; [|done].
  destruct (check_nodes _ _ _ l) as [tvars|] eqn:Hl; [|done].
  destruct (proj2 block_typed l [[]] [("$", VPtr (Some v))] [("$", TPtr t)] (VPtr (Some v)) (TPtr t) tvars)
    as (vars & out & Hrun & _); [|by repeat constructor|by constructor|done|].
  - by intros p ->%list_elem_of_singleton.
  - exists l, out. split; [done|]. unfold exec_template. by rewrite Hrun.
Qed.
End soundness.
