(* ===== verification/DefaultTemplates.v ===== *)
(** * The default installation templates (internal/templates)

    The texts of the three default sets, as the Go raw strings have them. A raw string cannot hold
    a back quote, so here a back quote stands for the double quote ([raw]). *)
From Stdlib Require Import Ascii.
From S2P Require Import Prelude GoStd.

Fixpoint raw (s : string) : string :=
  match s with
  | "" => ""
  | String c s => String (if Ascii.eqb c "`" then dquote else c) (raw s)
  end.

(** ** The assisted installer *)

(* src: src/internal/templates/assisted-installer/template.go 20-20 ClusterLevelInstallTemplates *)
Definition ai_ClusterLevelInstallTemplates : string := "ai-cluster-templates-v1".

(* src: src/internal/templates/assisted-installer/template.go 21-21 NodeLevelInstallTemplates *)
Definition ai_NodeLevelInstallTemplates : string := "ai-node-templates-v1".

(* src: src/internal/templates/assisted-installer/template.go 28-84 AgentClusterInstall *)
Definition ai_AgentClusterInstall : string := raw "apiVersion: extensions.hive.openshift.io/v1beta1
kind: AgentClusterInstall
metadata:
  name: `{{ .Spec.ClusterName }}`
  namespace: `{{ .Spec.ClusterName }}`
  annotations:
{{ if .SpecialVars.InstallConfigOverrides }}
    agent-install.openshift.io/install-config-overrides: '{{ .SpecialVars.InstallConfigOverrides }}'
{{ end }}
    siteconfig.open-cluster-management.io/sync-wave: `1`
spec:
  clusterDeploymentRef:
    name: `{{ .Spec.ClusterName }}`
  holdInstallation: {{ .Spec.HoldInstallation }}
  imageSetRef:
    name: `{{ .Spec.ClusterImageSetNameRef }}`
{{ if .Spec.ApiVIPs }}
  apiVIPs:
{{ .Spec.ApiVIPs | toYaml | indent 4 }}
{{ end }}
{{ if .Spec.IngressVIPs }}
  ingressVIPs:
{{ .Spec.IngressVIPs | toYaml | indent 4 }}
{{ end }}
  networking:
{{ if .Spec.ClusterNetwork }}
    clusterNetwork:
{{ .Spec.ClusterNetwork | toYaml | indent 6 }}
{{ end }}
{{ if .Spec.MachineNetwork }}
    machineNetwork:
{{ .Spec.MachineNetwork | toYaml | indent 6 }}
{{ end }}
{{ if .Spec.ServiceNetwork }}
    serviceNetwork:
{{ $serviceNetworks := list }}
{{ range .Spec.ServiceNetwork }}
{{ $serviceNetworks = append $serviceNetworks .CIDR }}
{{ end }}
{{ $serviceNetworks | toYaml | indent 6 }}
{{ end }}
  provisionRequirements:
    controlPlaneAgents: {{ .SpecialVars.ControlPlaneAgents }}
    workerAgents: {{ .SpecialVars.WorkerAgents }}
    arbiterAgents: {{ .SpecialVars.ArbiterAgents }}
{{ if .Spec.Proxy }}
  proxy:
{{ .Spec.Proxy | toYaml | indent 4 }}
{{ end }}
{{ if .Spec.PlatformType }}
  platformType: `{{ .Spec.PlatformType }}`
{{ end }}
  sshPublicKey: `{{ .Spec.SSHPublicKey }}`
{{ if gt (len .Spec.ExtraManifestsRefs) 0 }}
  manifestsConfigMapRefs:
{{ .Spec.ExtraManifestsRefs | toYaml | indent 4 }}
{{ end }}".

(* src: src/internal/templates/assisted-installer/template.go 86-107 ClusterDeployment *)
Definition ai_ClusterDeployment : string := raw "apiVersion: hive.openshift.io/v1
kind: ClusterDeployment
metadata:
  name: `{{ .Spec.ClusterName }}`
  namespace: `{{ .Spec.ClusterName }}`
  annotations:
    siteconfig.open-cluster-management.io/sync-wave: `1`
spec:
  baseDomain: `{{ .Spec.BaseDomain }}`
  clusterInstallRef:
    group: extensions.hive.openshift.io
    kind: AgentClusterInstall
    name: `{{ .Spec.ClusterName }}`
    version: v1beta1
  clusterName: `{{ .Spec.ClusterName }}`
  platform:
    agentBareMetal:
      agentSelector:
        matchLabels:
          cluster-name: `{{ .Spec.ClusterName }}`
  pullSecretRef:
    name: `{{ .Spec.PullSecretRef.Name }}`".

(* src: src/internal/templates/assisted-installer/template.go 109-128 KlusterletAddonConfig *)
Definition ai_KlusterletAddonConfig : string := raw "apiVersion: agent.open-cluster-management.io/v1
kind: KlusterletAddonConfig
metadata:
  annotations:
    siteconfig.open-cluster-management.io/sync-wave: `2`
  name: `{{ .Spec.ClusterName }}`
  namespace: `{{ .Spec.ClusterName }}`
spec:
  clusterName: `{{ .Spec.ClusterName }}`
  clusterNamespace: `{{ .Spec.ClusterName }}`
  applicationManager:
    enabled: false
  certPolicyController:
    enabled: false
  iamPolicyController:
    enabled: false
  policyController:
    enabled: true
  searchCollector:
    enabled: false".

(* src: src/internal/templates/assisted-installer/template.go 130-140 ManagedCluster *)
Definition ai_ManagedCluster : string := raw "apiVersion: cluster.open-cluster-management.io/v1
kind: ManagedCluster
metadata:
  name: `{{ .Spec.ClusterName }}`
  annotations:
    siteconfig.open-cluster-management.io/sync-wave: `2`
  labels:
    cloud: auto-detect
    vendor: auto-detect
spec:
  hubAcceptsClient: true".

(* src: src/internal/templates/assisted-installer/template.go 146-191 InfraEnv *)
Definition ai_InfraEnv : string := raw "apiVersion: agent-install.openshift.io/v1beta1
kind: InfraEnv
metadata:
  annotations:
    siteconfig.open-cluster-management.io/sync-wave: `1`
{{ if .SpecialVars.CurrentNode.HostRef }}
  name: `{{ .SpecialVars.CurrentNode.HostRef.Name }}`
  namespace: `{{ .SpecialVars.CurrentNode.HostRef.Namespace }}`
{{ else }}
  name: `{{ .SpecialVars.CurrentNode.HostName }}`
  namespace: `{{ .Spec.ClusterName }}`
{{ end }}
spec:
  clusterRef:
    name: `{{ .Spec.ClusterName }}`
    namespace: `{{ .Spec.ClusterName }}`
  sshAuthorizedKey: `{{ .Spec.SSHPublicKey }}`
{{ if .Spec.Proxy }}
  proxy:
{{ .Spec.Proxy | toYaml | indent 4 }}
{{ end }}
{{ if .SpecialVars.CurrentNode.CPUArchitecture }}
  cpuArchitecture: `{{ .SpecialVars.CurrentNode.CPUArchitecture }}`
{{ else if and
    (.Spec.CPUArchitecture)
    (ne .Spec.CPUArchitecture `multi`)
}}
  cpuArchitecture: `{{ .Spec.CPUArchitecture }}`
{{ end }}
  pullSecretRef:
    name: `{{ .Spec.PullSecretRef.Name }}`
  ignitionConfigOverride: '{{ .Spec.IgnitionConfigOverride }}'
  # Wait before mapping host MACs to interfaces when applying static network config on the minimal ISO,
  # giving slow-enumerating NICs time to appear before discovery.
  networkDiscoveryDelaySeconds: 60
  nmStateConfigLabelSelector:
    matchLabels:
{{ if .SpecialVars.CurrentNode.HostRef }}
      nmstate-label: `{{ .SpecialVars.CurrentNode.HostRef.Name }}`
{{ else }}
      nmstate-label: `{{ .SpecialVars.CurrentNode.HostName }}`
{{ end }}
{{ if .Spec.AdditionalNTPSources }}
  additionalNTPSources:
{{ .Spec.AdditionalNTPSources | toYaml | indent 4 }}
{{ end }}".

(* src: src/internal/templates/assisted-installer/template.go 193-217 NMStateConfig *)
Definition ai_NMStateConfig : string := raw "{{ if .SpecialVars.CurrentNode.NodeNetwork }}
apiVersion: agent-install.openshift.io/v1beta1
kind: NMStateConfig
metadata:
  annotations:
    siteconfig.open-cluster-management.io/sync-wave: `1`
{{ if .SpecialVars.CurrentNode.HostRef }}
  name: `{{ .SpecialVars.CurrentNode.HostRef.Name }}`
  namespace: `{{ .SpecialVars.CurrentNode.HostRef.Namespace }}`
{{ else }}
  name: `{{ .SpecialVars.CurrentNode.HostName }}`
  namespace: `{{ .Spec.ClusterName }}`
{{ end }}
  labels:
{{ if .SpecialVars.CurrentNode.HostRef }}
    nmstate-label: `{{ .SpecialVars.CurrentNode.HostRef.Name }}`
{{ else }}
    nmstate-label: `{{ .SpecialVars.CurrentNode.HostName }}`
{{ end }}
spec:
  config:
{{ .SpecialVars.CurrentNode.NodeNetwork.NetConfig | toYaml | indent 4}}
  interfaces:
{{ .SpecialVars.CurrentNode.NodeNetwork.Interfaces | toYaml | indent 4 }}
{{ end }}".

(* src: src/internal/templates/assisted-installer/template.go 219-272 BareMetalHost *)
Definition ai_BareMetalHost : string := raw "apiVersion: metal3.io/v1alpha1
kind: BareMetalHost
metadata:
{{ if .SpecialVars.CurrentNode.HostRef }}
  name: `{{ .SpecialVars.CurrentNode.HostRef.Name }}`
  namespace: `{{ .SpecialVars.CurrentNode.HostRef.Namespace }}`
{{ else }}
  name: `{{ .SpecialVars.CurrentNode.HostName }}`
  namespace: `{{ .Spec.ClusterName }}`
{{ end }}
  annotations:
    siteconfig.open-cluster-management.io/sync-wave: `3`
    inspect.metal3.io: `{{ .SpecialVars.CurrentNode.IronicInspect }}`
{{ if .SpecialVars.CurrentNode.NodeLabels }}
{{ range $key, $value := .SpecialVars.CurrentNode.NodeLabels }}
    bmac.agent-install.openshift.io.node-label.{{ $key }}: {{ $value | quote}}
{{ end }}
{{ end }}
    bmac.agent-install.openshift.io/hostname: `{{ .SpecialVars.CurrentNode.HostName }}`
{{ if .SpecialVars.CurrentNode.InstallerArgs  }}
    bmac.agent-install.openshift.io/installer-args: '{{ .SpecialVars.CurrentNode.InstallerArgs  }}'
{{ end }}
{{ if .SpecialVars.CurrentNode.IgnitionConfigOverride }}
    bmac.agent-install.openshift.io/ignition-config-overrides: '{{ .SpecialVars.CurrentNode.IgnitionConfigOverride }}'
{{ end }}
    bmac.agent-install.openshift.io/role: `{{ .SpecialVars.CurrentNode.Role }}`
  labels:
{{ if .SpecialVars.CurrentNode.HostRef }}
    infraenvs.agent-install.openshift.io: `{{ .SpecialVars.CurrentNode.HostRef.Name }}`
{{ else }}
    infraenvs.agent-install.openshift.io: `{{ .SpecialVars.CurrentNode.HostName }}`
{{ end }}
    cluster.open-cluster-management.io/backup: cluster-activation
spec:
  bootMode: `{{ .SpecialVars.CurrentNode.BootMode }}`
  bmc:
    address: `{{ .SpecialVars.CurrentNode.BmcAddress }}`
    disableCertificateVerification: true
    credentialsName: `{{ .SpecialVars.CurrentNode.BmcCredentialsName.Name }}`
  bootMACAddress: `{{ .SpecialVars.CurrentNode.BootMACAddress }}`
  automatedCleaningMode: `{{ .SpecialVars.CurrentNode.AutomatedCleaningMode }}`
  online: true
{{ if .SpecialVars.CurrentNode.CPUArchitecture }}
  architecture: `{{ .SpecialVars.CurrentNode.CPUArchitecture }}`
{{ else if and
    (.Spec.CPUArchitecture)
    (ne .Spec.CPUArchitecture `multi`)
}}
  architecture: `{{ .Spec.CPUArchitecture }}`
{{ end }}
{{ if .SpecialVars.CurrentNode.RootDeviceHints }}
  rootDeviceHints:
{{ .SpecialVars.CurrentNode.RootDeviceHints | toYaml | indent 4 }}
{{ end }}".

(* src: src/internal/templates/assisted-installer/template.go 274-281 GetClusterTemplates *)
Definition ai_GetClusterTemplates : list (string * string) :=
  [("AgentClusterInstall", ai_AgentClusterInstall);
   ("ClusterDeployment", ai_ClusterDeployment);
   ("ManagedCluster", ai_ManagedCluster);
   ("KlusterletAddonConfig", ai_KlusterletAddonConfig)].

(* src: src/internal/templates/assisted-installer/template.go 283-289 GetNodeTemplates *)
Definition ai_GetNodeTemplates : list (string * string) :=
  [("InfraEnv", ai_InfraEnv);
   ("BareMetalHost", ai_BareMetalHost);
   ("NMStateConfig", ai_NMStateConfig)].

(** ** Hosted clusters *)

(* src: src/internal/templates/hosted-cluster/template.go 20-20 ClusterLevelInstallTemplates *)
Definition hcp_ClusterLevelInstallTemplates : string := "hcp-cluster-templates-v1".

(* src: src/internal/templates/hosted-cluster/template.go 21-21 NodeLevelInstallTemplates *)
Definition hcp_NodeLevelInstallTemplates : string := "hcp-node-templates-v1".

(* src: src/internal/templates/hosted-cluster/template.go 27-93 HostedCluster *)
Definition hcp_HostedCluster : string := raw "apiVersion: hypershift.openshift.io/v1beta1
kind: HostedCluster
metadata:
  name: `{{ .Spec.ClusterName }}`
  namespace: `{{ .Spec.ClusterName }}`
  annotations:
    siteconfig.open-cluster-management.io/sync-wave: `1`
spec:
  {{ if .Spec.CaBundleRef }}
  additionalTrustBundle:
  {{ .Spec.CaBundleRef | toYaml | indent 4 }}
  {{ end }}
  olmCatalogPlacement: management
  configuration:
    operatorhub:
      disableAllDefaultSources: true
  controllerAvailabilityPolicy: HighlyAvailable
  infrastructureAvailabilityPolicy: HighlyAvailable
  dns:
    baseDomain: `{{ .Spec.BaseDomain }}`
  etcd:
    managed:
      storage:
        type: PersistentVolume
    managementType: Managed
  fips: false
  networking:
{{ if .Spec.ClusterNetwork }}
    clusterNetwork:
{{ .Spec.ClusterNetwork | toYaml | indent 6 }}
{{ end }}
{{ if .Spec.MachineNetwork }}
    machineNetwork:
{{ .Spec.MachineNetwork | toYaml | indent 6 }}
{{ end }}
{{ if .Spec.ServiceNetwork }}
    serviceNetwork:
{{ .Spec.ServiceNetwork | toYaml | indent 6 }}
{{ end }}
    networkType: `{{ .Spec.NetworkType }}`
  platform:
    type: Agent
    agent:
      agentNamespace: `{{ .Spec.ClusterName }}`
  pullSecret:
{{ .Spec.PullSecretRef | toYaml | indent 4 }}
  release:
    image: `{{ .SpecialVars.ReleaseImage }}`
  services:
  - service: APIServer
    servicePublishingStrategy:
      type: LoadBalancer
  - service: OAuthServer
    servicePublishingStrategy:
      type: Route
  - service: OIDC
    servicePublishingStrategy:
      type: Route
  - service: Konnectivity
    servicePublishingStrategy:
      type: Route
  - service: Ignition
    servicePublishingStrategy:
      type: Route
  sshKey:
    name: sshkey-{{ .Spec.ClusterName }}
  infraID: `{{ .Spec.ClusterName }}`".

(* src: src/internal/templates/hosted-cluster/template.go 95-110 KlusterletAddonConfig *)
Definition hcp_KlusterletAddonConfig : string := raw "apiVersion: agent.open-cluster-management.io/v1
kind: KlusterletAddonConfig
metadata:
  annotations:
    siteconfig.open-cluster-management.io/sync-wave: `2`
  name: `{{ .Spec.ClusterName }}`
  namespace: `{{ .Spec.ClusterName }}`
spec:
  applicationManager:
    enabled: false
  certPolicyController:
    enabled: false
  policyController:
    enabled: true
  searchCollector:
    enabled: false".

(* src: src/internal/templates/hosted-cluster/template.go 112-126 ManagedCluster *)
Definition hcp_ManagedCluster : string := raw "apiVersion: cluster.open-cluster-management.io/v1
kind: ManagedCluster
metadata:
  name: `{{ .Spec.ClusterName }}`
  annotations:
    siteconfig.open-cluster-management.io/sync-wave: `2`
    import.open-cluster-management.io/hosting-cluster-name: local-cluster
    import.open-cluster-management.io/klusterlet-deploy-mode: Hosted
    open-cluster-management/created-via: hypershift
  labels:
    cloud: BareMetal
    vendor: OpenShift
    ishosted: `true`
spec:
  hubAcceptsClient: true".

(* src: src/internal/templates/hosted-cluster/template.go 129-140 SshPubKeySecret *)
Definition hcp_SshPubKeySecret : string := raw "apiVersion: v1
kind: Secret
metadata:
  name: sshkey-{{ .Spec.ClusterName }}
  namespace: `{{ .Spec.ClusterName }}`
  labels:
    hypershift.openshift.io/safe-to-delete-with-cluster: `true`
  annotations:
    siteconfig.open-cluster-management.io/sync-wave: `1`
stringData:
  id_rsa.pub: `{{ .Spec.SSHPublicKey }}`
".

(* src: src/internal/templates/hosted-cluster/template.go 146-185 InfraEnv *)
Definition hcp_InfraEnv : string := raw "apiVersion: agent-install.openshift.io/v1beta1
kind: InfraEnv
metadata:
  annotations:
    siteconfig.open-cluster-management.io/sync-wave: `1`
{{ if .SpecialVars.CurrentNode.HostRef }}
  name: `{{ .SpecialVars.CurrentNode.HostRef.Name }}`
  namespace: `{{ .SpecialVars.CurrentNode.HostRef.Namespace }}`
{{ else }}
  name: `{{ .SpecialVars.CurrentNode.HostName }}`
  namespace: `{{ .Spec.ClusterName }}`
{{ end }}
spec:
  sshAuthorizedKey: `{{ .Spec.SSHPublicKey }}`
{{ if .Spec.Proxy }}
  proxy:
{{ .Spec.Proxy | toYaml | indent 4 }}
{{ end }}
{{ if .SpecialVars.CurrentNode.CPUArchitecture }}
  cpuArchitecture: `{{ .SpecialVars.CurrentNode.CPUArchitecture }}`
{{ else if and
    (.Spec.CPUArchitecture)
    (ne .Spec.CPUArchitecture `multi`)
}}
  cpuArchitecture: `{{ .Spec.CPUArchitecture }}`
{{ end }}
  pullSecretRef:
    name: `{{ .Spec.PullSecretRef.Name }}`
  ignitionConfigOverride: '{{ .Spec.IgnitionConfigOverride }}'
  nmStateConfigLabelSelector:
    matchLabels:
{{ if .SpecialVars.CurrentNode.HostRef }}
      nmstate-label: `{{ .SpecialVars.CurrentNode.HostRef.Name }}`
{{ else }}
      nmstate-label: `{{ .SpecialVars.CurrentNode.HostName }}`
{{ end }}
{{ if .Spec.AdditionalNTPSources }}
  additionalNTPSources:
{{ .Spec.AdditionalNTPSources | toYaml | indent 4 }}
{{ end }}".

(* src: src/internal/templates/hosted-cluster/template.go 187-237 NodePool *)
Definition hcp_NodePool : string := raw "apiVersion: hypershift.openshift.io/v1beta1
kind: NodePool
metadata:
  annotations:
    siteconfig.open-cluster-management.io/sync-wave: `2`
{{ if .SpecialVars.CurrentNode.HostRef }}
  name: `{{ .SpecialVars.CurrentNode.HostRef.Name }}`
  namespace: `{{ .SpecialVars.CurrentNode.HostRef.Namespace }}`
{{ else }}
  name: `{{ .SpecialVars.CurrentNode.HostName }}`
  namespace: `{{ .Spec.ClusterName }}`
{{ end }}
{{ if .Spec.ExtraLabels.NodePool }}
  labels:
{{ .Spec.ExtraLabels.NodePool | toYaml | indent 4 }}
{{ end }}
spec:
  clusterName: `{{ .Spec.ClusterName }}`
  replicas: 1
  management:
    autoRepair: true
    upgradeType: InPlace
    inPlace:
      maxUnavailable: 100%
  platform:
    type: Agent
    agent:
      agentLabelSelector:
        matchLabels:
{{ if .SpecialVars.CurrentNode.HostRef }}
          agent-install.openshift.io/bmh: `{{ .SpecialVars.CurrentNode.HostRef.Name }}`
{{ else }}
          agent-install.openshift.io/bmh: `{{ .SpecialVars.CurrentNode.HostName }}`
{{ end }}
  release:
    image: `{{ .SpecialVars.ReleaseImage }}`
{{ if .SpecialVars.CurrentNode.HostRef }}
  tuningConfig:
    - name: `performanceprofile-{{ .SpecialVars.CurrentNode.HostRef.Name }}`
  config:
    - name: `machineconfigs-{{ .SpecialVars.CurrentNode.HostRef.Name }}`
{{ else }}
  tuningConfig:
    - name: `performanceprofile-{{ .SpecialVars.CurrentNode.HostName }}`
  config:
    - name: `machineconfigs-{{ .SpecialVars.CurrentNode.HostName }}`
{{ end }}
{{ if .SpecialVars.CurrentNode.NodeLabels }}
  nodeLabels:
{{ .SpecialVars.CurrentNode.NodeLabels | toYaml | indent 4 }}
{{ end }}".

(* src: src/internal/templates/hosted-cluster/template.go 239-263 NMStateConfig *)
Definition hcp_NMStateConfig : string := raw "{{ if .SpecialVars.CurrentNode.NodeNetwork }}
apiVersion: agent-install.openshift.io/v1beta1
kind: NMStateConfig
metadata:
  annotations:
    siteconfig.open-cluster-management.io/sync-wave: `1`
{{ if .SpecialVars.CurrentNode.HostRef }}
  name: `{{ .SpecialVars.CurrentNode.HostRef.Name }}`
  namespace: `{{ .SpecialVars.CurrentNode.HostRef.Namespace }}`
{{ else }}
  name: `{{ .SpecialVars.CurrentNode.HostName }}`
  namespace: `{{ .Spec.ClusterName }}`
{{ end }}
  labels:
{{ if .SpecialVars.CurrentNode.HostRef }}
    nmstate-label: `{{ .SpecialVars.CurrentNode.HostRef.Name }}`
{{ else }}
    nmstate-label: `{{ .SpecialVars.CurrentNode.HostName }}`
{{ end }}
spec:
  config:
{{ .SpecialVars.CurrentNode.NodeNetwork.NetConfig | toYaml | indent 4}}
  interfaces:
{{ .SpecialVars.CurrentNode.NodeNetwork.Interfaces | toYaml | indent 4 }}
{{ end }}".

(* src: src/internal/templates/hosted-cluster/template.go 265-317 BareMetalHost *)
Definition hcp_BareMetalHost : string := raw "apiVersion: metal3.io/v1alpha1
kind: BareMetalHost
metadata:
{{ if .SpecialVars.CurrentNode.HostRef }}
  name: `{{ .SpecialVars.CurrentNode.HostRef.Name }}`
  namespace: `{{ .SpecialVars.CurrentNode.HostRef.Namespace }}`
{{ else }}
  name: `{{ .SpecialVars.CurrentNode.HostName }}`
  namespace: `{{ .Spec.ClusterName }}`
{{ end }}
  annotations:
    siteconfig.open-cluster-management.io/sync-wave: `3`
    inspect.metal3.io: `{{ .SpecialVars.CurrentNode.IronicInspect }}`
{{ if .SpecialVars.CurrentNode.NodeLabels }}
{{ range $key, $value := .SpecialVars.CurrentNode.NodeLabels }}
    bmac.agent-install.openshift.io.node-label.{{ $key }}: {{ $value | quote}}
{{ end }}
{{ end }}
    bmac.agent-install.openshift.io/hostname: `{{ .SpecialVars.CurrentNode.HostName }}`
{{ if .SpecialVars.CurrentNode.InstallerArgs  }}
    bmac.agent-install.openshift.io/installer-args: '{{ .SpecialVars.CurrentNode.InstallerArgs  }}'
{{ end }}
{{ if .SpecialVars.CurrentNode.IgnitionConfigOverride }}
    bmac.agent-install.openshift.io/ignition-config-overrides: '{{ .SpecialVars.CurrentNode.IgnitionConfigOverride }}'
{{ end }}
    bmac.agent-install.openshift.io/role: `{{ .SpecialVars.CurrentNode.Role }}`
  labels:
{{ if .SpecialVars.CurrentNode.HostRef }}
    infraenvs.agent-install.openshift.io: `{{ .SpecialVars.CurrentNode.HostRef.Name }}`
{{ else }}
    infraenvs.agent-install.openshift.io: `{{ .SpecialVars.CurrentNode.HostName }}`
{{ end }}
spec:
  bootMode: `{{ .SpecialVars.CurrentNode.BootMode }}`
  bmc:
    address: `{{ .SpecialVars.CurrentNode.BmcAddress }}`
    disableCertificateVerification: true
    credentialsName: `{{ .SpecialVars.CurrentNode.BmcCredentialsName.Name }}`
  bootMACAddress: `{{ .SpecialVars.CurrentNode.BootMACAddress }}`
  automatedCleaningMode: `{{ .SpecialVars.CurrentNode.AutomatedCleaningMode }}`
  online: true
{{ if .SpecialVars.CurrentNode.CPUArchitecture }}
  architecture: `{{ .SpecialVars.CurrentNode.CPUArchitecture }}`
{{ else if and
    (.Spec.CPUArchitecture)
    (ne .Spec.CPUArchitecture `multi`)
}}
  architecture: `{{ .Spec.CPUArchitecture }}`
{{ end }}
{{ if .SpecialVars.CurrentNode.RootDeviceHints }}
  rootDeviceHints:
{{ .SpecialVars.CurrentNode.RootDeviceHints | toYaml | indent 4 }}
{{ end }}".

(* src: src/internal/templates/hosted-cluster/template.go 319-326 GetClusterTemplates *)
Definition hcp_GetClusterTemplates : list (string * string) :=
  [("HostedCluster", hcp_HostedCluster);
   ("SshPubKeySecret", hcp_SshPubKeySecret);
   ("ManagedCluster", hcp_ManagedCluster);
   ("KlusterletAddonConfig", hcp_KlusterletAddonConfig)].

(* src: src/internal/templates/hosted-cluster/template.go 328-335 GetNodeTemplates *)
Definition hcp_GetNodeTemplates : list (string * string) :=
  [("InfraEnv", hcp_InfraEnv);
   ("NodePool", hcp_NodePool);
   ("BareMetalHost", hcp_BareMetalHost);
   ("NMStateConfig", hcp_NMStateConfig)].

(** ** The image-based installer *)

(* src: src/internal/templates/image-based-installer/template.go 20-20 ClusterLevelInstallTemplates *)
Definition ibi_ClusterLevelInstallTemplates : string := "ibi-cluster-templates-v1".

(* src: src/internal/templates/image-based-installer/template.go 21-21 NodeLevelInstallTemplates *)
Definition ibi_NodeLevelInstallTemplates : string := "ibi-node-templates-v1".

(* src: src/internal/templates/image-based-installer/template.go 28-47 ClusterDeployment *)
Definition ibi_ClusterDeployment : string := raw "apiVersion: hive.openshift.io/v1
kind: ClusterDeployment
metadata:
  name: `{{ .Spec.ClusterName }}`
  namespace: `{{ .Spec.ClusterName }}`
  annotations:
    siteconfig.open-cluster-management.io/sync-wave: `1`
    velero.io/restore-status: `true`
spec:
  baseDomain: `{{ .Spec.BaseDomain }}`
  clusterInstallRef:
    group: extensions.hive.openshift.io
    kind: ImageClusterInstall
    name: `{{ .Spec.ClusterName }}`
    version: v1alpha1
  clusterName: `{{ .Spec.ClusterName }}`
  platform:
    none: {}
  pullSecretRef:
    name: `{{ .Spec.PullSecretRef.Name }}`".

(* src: src/internal/templates/image-based-installer/template.go 49-71 KlusterletAddonConfig *)
Definition ibi_KlusterletAddonConfig : string := raw "apiVersion: agent.open-cluster-management.io/v1
kind: KlusterletAddonConfig
metadata:
  annotations:
    siteconfig.open-cluster-management.io/sync-wave: `2`
  labels:
    installer.name: multiclusterhub
    installer.namespace: open-cluster-management
  name: `{{ .Spec.ClusterName }}`
  namespace: `{{ .Spec.ClusterName }}`
spec:
  clusterName: `{{ .Spec.ClusterName }}`
  clusterNamespace: `{{ .Spec.ClusterName }}`
  applicationManager:
    enabled: true
  certPolicyController:
    enabled: true
  iamPolicyController:
    enabled: true
  policyController:
    enabled: true
  searchCollector:
    enabled: false".

(* src: src/internal/templates/image-based-installer/template.go 73-83 ManagedCluster *)
Definition ibi_ManagedCluster : string := raw "apiVersion: cluster.open-cluster-management.io/v1
kind: ManagedCluster
metadata:
  name: `{{ .Spec.ClusterName }}`
  annotations:
    siteconfig.open-cluster-management.io/sync-wave: `2`
  labels:
    cloud: auto-detect
    vendor: auto-detect
spec:
  hubAcceptsClient: true".

(* src: src/internal/templates/image-based-installer/template.go 89-134 ImageClusterInstall *)
Definition ibi_ImageClusterInstall : string := raw "apiVersion: extensions.hive.openshift.io/v1alpha1
kind: ImageClusterInstall
metadata:
  name: `{{ .Spec.ClusterName }}`
  namespace: `{{ .Spec.ClusterName }}`
  annotations:
    siteconfig.open-cluster-management.io/sync-wave: `1`
    velero.io/restore-status: `true`
spec:
  clusterDeploymentRef:
    name: `{{ .Spec.ClusterName }}`
  imageSetRef:
    name: `{{ .Spec.ClusterImageSetNameRef }}`
  hostname: `{{ .SpecialVars.CurrentNode.HostName }}`
  sshKey: `{{ .Spec.SSHPublicKey }}`
{{ if .Spec.CaBundleRef }}
  caBundleRef:
{{ .Spec.CaBundleRef | toYaml | indent 4 }}
{{ end }}
{{ if .Spec.ExtraManifestsRefs }}
  extraManifestsRefs:
{{ .Spec.ExtraManifestsRefs | toYaml | indent 4 }}
{{ end }}
  bareMetalHostRef:
{{ if .SpecialVars.CurrentNode.HostRef }}
    name: `{{ .SpecialVars.CurrentNode.HostRef.Name }}`
    namespace: `{{ .SpecialVars.CurrentNode.HostRef.Namespace }}`
{{ else }}
    name: `{{ .SpecialVars.CurrentNode.HostName }}`
    namespace: `{{ .Spec.ClusterName }}`
{{ end }}
{{ if .Spec.MachineNetwork }}
  machineNetworks:
{{ range .Spec.MachineNetwork }}
  - cidr: `{{ .CIDR }}`
{{ end }}
{{ end }}
{{ if .Spec.Proxy }}
  proxy:
{{ .Spec.Proxy | toYaml | indent 4 }}
{{ end }}
{{ if .Spec.AdditionalNTPSources }}
  additionalNTPSources:
{{ .Spec.AdditionalNTPSources | toYaml | indent 4 }}
{{ end }}
".

(* src: src/internal/templates/image-based-installer/template.go 136-174 BareMetalHost *)
Definition ibi_BareMetalHost : string := raw "apiVersion: metal3.io/v1alpha1
kind: BareMetalHost
metadata:
{{ if .SpecialVars.CurrentNode.HostRef }}
  name: `{{ .SpecialVars.CurrentNode.HostRef.Name }}`
  namespace: `{{ .SpecialVars.CurrentNode.HostRef.Namespace }}`
{{ else }}
  name: `{{ .SpecialVars.CurrentNode.HostName }}`
  namespace: `{{ .Spec.ClusterName }}`
{{ end }}
  annotations:
    siteconfig.open-cluster-management.io/sync-wave: `1`
    inspect.metal3.io: `{{ .SpecialVars.CurrentNode.IronicInspect }}`
  labels:
    cluster.open-cluster-management.io/backup: cluster-activation
spec:
  bootMode: `{{ .SpecialVars.CurrentNode.BootMode }}`
  bmc:
    address: `{{ .SpecialVars.CurrentNode.BmcAddress }}`
    disableCertificateVerification: true
    credentialsName: `{{ .SpecialVars.CurrentNode.BmcCredentialsName.Name }}`
  bootMACAddress: `{{ .SpecialVars.CurrentNode.BootMACAddress }}`
  automatedCleaningMode: `{{ .SpecialVars.CurrentNode.AutomatedCleaningMode }}`
  online: false
  externallyProvisioned: true
{{ if .SpecialVars.CurrentNode.CPUArchitecture }}
  architecture: `{{ .SpecialVars.CurrentNode.CPUArchitecture }}`
{{ end }}
{{ if .SpecialVars.CurrentNode.RootDeviceHints }}
  rootDeviceHints:
{{ .SpecialVars.CurrentNode.RootDeviceHints | toYaml | indent 4 }}
{{ end }}
{{ if .SpecialVars.CurrentNode.NodeNetwork }}
{{ if .SpecialVars.CurrentNode.HostRef }}
  preprovisioningNetworkDataName: {{ .SpecialVars.CurrentNode.HostRef.Name }}
{{ else }}
  preprovisioningNetworkDataName: {{ .SpecialVars.CurrentNode.HostName }}
{{ end }}
{{ end }}".

(* src: src/internal/templates/image-based-installer/template.go 178-195 NetworkSecret *)
Definition ibi_NetworkSecret : string := raw "{{ if .SpecialVars.CurrentNode.NodeNetwork }}
apiVersion: v1
kind: Secret
metadata:
  annotations:
    siteconfig.open-cluster-management.io/sync-wave: `1`
{{ if .SpecialVars.CurrentNode.HostRef }}
  name: `{{ .SpecialVars.CurrentNode.HostRef.Name }}`
  namespace: `{{ .SpecialVars.CurrentNode.HostRef.Namespace }}`
{{ else }}
  name: `{{ .SpecialVars.CurrentNode.HostName }}`
  namespace: `{{ .Spec.ClusterName }}`
{{ end }}
type: Opaque
data:
  nmstate: |
{{ .SpecialVars.CurrentNode.NodeNetwork.NetConfig | toYaml | b64enc | indent 4}}
{{ end }}".

(* src: src/internal/templates/image-based-installer/template.go 197-203 GetClusterTemplates *)
Definition ibi_GetClusterTemplates : list (string * string) :=
  [("ClusterDeployment", ibi_ClusterDeployment);
   ("ManagedCluster", ibi_ManagedCluster);
   ("KlusterletAddonConfig", ibi_KlusterletAddonConfig)].

(* src: src/internal/templates/image-based-installer/template.go 205-211 GetNodeTemplates *)
Definition ibi_GetNodeTemplates : list (string * string) :=
  [("ImageClusterInstall", ibi_ImageClusterInstall);
   ("BareMetalHost", ibi_BareMetalHost);
   ("NetworkSecret", ibi_NetworkSecret)].

(** ** The sets that the operator installs *)

(* src: src/cmd/main.go 347-354 initConfigMapTemplates *)
Definition install_templates : list (string * list (string * string)) :=
  [(ai_ClusterLevelInstallTemplates, ai_GetClusterTemplates);
   (ai_NodeLevelInstallTemplates, ai_GetNodeTemplates);
   (ibi_ClusterLevelInstallTemplates, ibi_GetClusterTemplates);
   (ibi_NodeLevelInstallTemplates, ibi_GetNodeTemplates);
   (hcp_ClusterLevelInstallTemplates, hcp_GetClusterTemplates);
   (hcp_NodeLevelInstallTemplates, hcp_GetNodeTemplates)].
