(* ===== verification/Validator.v ===== *)
(** * Validation against the cluster (internal/controller/clusterinstance/validator.go)

    What a ClusterInstance refers to must exist; then its fields are validated as in the
    webhook. *)
From S2P Require Import Prelude GoStd Types Errors Validation Samples K8s Cluster.

Section validator.
Context {W : Type} `{Server W}.

Abbreviation M := (Prog ClusterInstance W Event).

(** [c.Get(ctx, key, &object{})] for its error. *)
Definition get_error (kind : string) (key : ObjectKey) : M (option error) :=
  r ← call (GetResource kind key);
  mret (match r with Ok _ => None | Err err => Some err end).

Definition wrap (h : error -> error) (m : M (option error)) : M (option error) :=
  if_err m (fun err => mret (Some (h err))) (mret None).

(* src: src/internal/controller/clusterinstance/validator.go 30-79 validateResources *)
Definition validateResources (ci : ClusterInstance) : M (option error) :=
  let spec := CI_Spec ci in
  let ns := Meta_Namespace (CI_Meta ci) in
  if String.eqb (Spec_ClusterImageSetNameRef spec) "" then
    mret (Some (Errorf "clusterImageSetNameRef cannot be empty" []))
  else
    r ← call (GetClusterImageSet (Spec_ClusterImageSetNameRef spec));
    match r with
    | Err err =>
        mret (Some (Errorf "encountered error validating ClusterImageSetNameRef: %s, err: %w"
                [FStr (Spec_ClusterImageSetNameRef spec); FErr err]))
    | Ok _ =>
        let pullSecret := LOR_Name (Spec_PullSecretRef spec) in
        if_err (get_error "Secret" (mkObjectKey ns pullSecret))
          (fun err => mret (Some (Errorf "failed to validate Pull Secret: [%s in namespace %s], err: %w"
             [FStr pullSecret; FStr ns; FErr err])))
        (if_err (for_errors (Spec_ExtraManifestsRefs spec) (fun ref =>
             wrap (fun err => Errorf "failed to retrieve ExtraManifest: %s in namespace %s, err: %w"
                     [FStr (LOR_Name ref); FStr ns; FErr err])
               (get_error "ConfigMap" (mkObjectKey ns (LOR_Name ref)))))
          (fun err => mret (Some err))
        (for_errors (Spec_Nodes spec) (fun node =>
           let bmcCredentialNS :=
             match Node_HostRef node with Some hostRef => Ref_Namespace hostRef | None => ns end in
           let name := BMC_Name (Node_BmcCredentialsName node) in
           wrap (fun err => Errorf
                   "failed to validate BMC credentials: %s in namespace %s [Node: Hostname=%s], err: %w"
                   [FStr name; FStr bmcCredentialNS; FStr (Node_HostName node); FErr err])
             (get_error "Secret" (mkObjectKey bmcCredentialNS name)))))
    end.

(* src: src/internal/controller/clusterinstance/validator.go 81-117 validateTemplateRefs *)
Definition validateTemplateRefs (ci : ClusterInstance) : M (option error) :=
  let spec := CI_Spec ci in
  match Spec_TemplateRefs spec with
  | [] => mret (Some (Errorf "missing cluster-level TemplateRefs" []))
  | templateRefs =>
      if_err (for_errors templateRefs (fun ref =>
          wrap (fun err => Errorf "failed to validate cluster-level TemplateRef: [%s in namespace %s], err: %w"
                  [FStr (Ref_Name ref); FStr (Ref_Namespace ref); FErr err])
            (get_error "ConfigMap" (mkObjectKey (Ref_Namespace ref) (Ref_Name ref)))))
        (fun err => mret (Some err))
      (for_errors (Spec_Nodes spec) (fun node =>
        match Node_TemplateRefs node with
        | [] => mret (Some (Errorf "missing node-level template refs [Node: Hostname=%s]"
                        [FStr (Node_HostName node)]))
        | refs =>
            for_errors refs (fun ref =>
              wrap (fun err => Errorf
                      "failed to validate node-level TemplateRef: %s in namespace %s [Node: Hostname=%s], err: %w"
                      [FStr (Ref_Name ref); FStr (Ref_Namespace ref); FStr (Node_HostName node); FErr err])
                (get_error "ConfigMap" (mkObjectKey (Ref_Namespace ref) (Ref_Name ref))))
        end))
  end.

(* src: src/internal/controller/clusterinstance/validator.go 120-140 Validate *)
Definition Validate (ci : ClusterInstance) : M (option error) :=
  if String.eqb (Spec_ClusterName (CI_Spec ci)) "" then
    mret (Some (Errorf "missing cluster name" []))
  else
    if_err (validateResources ci)
      (fun err => mret (Some (Errorf "resource validation failed: %w" [FErr err])))
    (if_err (validateTemplateRefs ci)
      (fun err => mret (Some (Errorf "template reference(s) validation failed: %w" [FErr err])))
    (mret (match ValidateClusterInstance ci with
           | Some err => Some (Errorf "clusterInstance validation failed: %w" [FErr err])
           | None => None
           end))).
End validator.

(** ** Theorems *)

(** The object that a get found. *)
Definition as_found (e : Event) : option (string * ObjectKey) :=
  match e with
  | @Ev R c r =>
      match c in ApiCall R return R -> option (string * ObjectKey) with
      | GetResource kind key => fun r => match r with Ok _ => Some (kind, key) | Err _ => None end
      | GetClusterImageSet name => fun r =>
          match r with Ok _ => Some ("ClusterImageSet", mkObjectKey "" name) | Err _ => None end
      | _ => fun _ => None
      end r
  end.

(** The objects a ClusterInstance refers to. *)
Definition references (ci : ClusterInstance) : list (string * ObjectKey) :=
  let spec := CI_Spec ci in
  let ns := Meta_Namespace (CI_Meta ci) in
  let template ref := ("ConfigMap", mkObjectKey (Ref_Namespace ref) (Ref_Name ref)) in
  [("ClusterImageSet", mkObjectKey "" (Spec_ClusterImageSetNameRef spec));
   ("Secret", mkObjectKey ns (LOR_Name (Spec_PullSecretRef spec)))]
  ++ List.map (fun ref => ("ConfigMap", mkObjectKey ns (LOR_Name ref))) (Spec_ExtraManifestsRefs spec)
  ++ List.map (fun node =>
       ("Secret", mkObjectKey (match Node_HostRef node with Some r => Ref_Namespace r | None => ns end)
                    (BMC_Name (Node_BmcCredentialsName node)))) (Spec_Nodes spec)
  ++ List.map template (Spec_TemplateRefs spec)
  ++ List.concat (List.map (fun node => List.map template (Node_TemplateRefs node)) (Spec_Nodes spec)).

(** What is required of the object itself. *)
Definition refers_enough (ci : ClusterInstance) : Prop :=
  Spec_ClusterName (CI_Spec ci) <> "" /\ Spec_ClusterImageSetNameRef (CI_Spec ci) <> ""
  /\ Spec_TemplateRefs (CI_Spec ci) <> []
  /\ Forall (fun node => Node_TemplateRefs node <> []) (Spec_Nodes (CI_Spec ci))
  /\ ValidateClusterInstance ci = None.

Section proofs.
Context {W : Type} `{Server W}.

Abbreviation M := (Prog ClusterInstance W Event).

(** [m] checks that all of [refs] exist: it only reads, and without an error all were found;
    if all its gets found something and [ok] holds there is no error. *)
Definition checks (m : M (option error)) (ok : Prop) (refs : list (string * ObjectKey)) : Prop :=
  forall s w, wp m (fun o s' _ ev =>
    s' = s /\ Forall (fun e => mutating e = false) ev
    /\ exists r, o = Ret r
       /\ (r = None <-> ok /\ Forall (fun e => is_Some (as_found e)) ev)
       /\ (r = None -> forall x, x ∈ refs -> x ∈ omap as_found ev)) s w.

Lemma checks_get kind key : checks (get_error kind key) True [(kind, key)].
Proof.
  intros s w. apply wp_bind, wp_call. intros r w' _. apply wp_ret. split; [done|]. split; [by repeat constructor|].
  exists (match r with Ok _ => None | Err err => Some err end). split; [done|].
  destruct r; simpl.
  - split; [|set_solver]. split; [by repeat constructor|done].
  - split; [|done]. split; [done|]. intros [_ [[? Hx] _]%Forall_cons]. done.
Qed.

Lemma checks_wrap h m ok refs : checks m ok refs -> checks (wrap h m) ok refs.
Proof.
  intros Hm s w. apply wp_if_err. eapply wp_mono; [apply Hm|].
  intros o s' w' ev (-> & Hmut & r & -> & Hiff & Href).
  destruct r as [e|]; apply wp_ret; rewrite app_nil_r; (split; [done|split; [done|]]); eexists; (split; [done|]);
    [naive_solver|done].
Qed.

Lemma checks_ret e (ok : Prop) : ~ ok -> checks (mret (Some e)) ok [].
Proof. intros Hok s w. apply wp_ret. split_and?; [done|done|]. eexists. split; [done|]. naive_solver. Qed.

Lemma checks_pure (e : option error) : checks (mret e) (e = None) [].
Proof. intros s w. apply wp_ret. split_and?; [done|done|]. eexists. split; [done|]. naive_solver set_solver. Qed.

Lemma checks_seq m1 h m2 ok1 ok2 r1 r2 :
  checks m1 ok1 r1 -> checks m2 ok2 r2 ->
  checks (if_err m1 (fun e => mret (Some (h e))) m2) (ok1 /\ ok2) (r1 ++ r2).
Proof.
  intros H1 H2 s w. apply wp_if_err. eapply wp_mono; [apply H1|].
  intros o s' w' ev (-> & Hm1 & r & -> & Hi1 & Hr1). destruct r as [e|].
  - apply wp_ret. rewrite app_nil_r. split_and?; [done|done|]. eexists. split; [done|]. naive_solver.
  - eapply wp_mono; [apply H2|]. intros o s' w'' ev' (-> & Hm2 & r & -> & Hi2 & Hr2).
    split_and?; [done|by apply Forall_app_2|]. eexists. split; [done|]. destruct Hi1 as [Hi1 _].
    destruct (Hi1 eq_refl) as [Hok1 Hf1]. split.
    + rewrite Hi2, Forall_app. naive_solver.
    + intros -> x [Hx|Hx]%elem_of_app; rewrite omap_app; apply elem_of_app; [left|right]; auto.
Qed.

Lemma checks_for {A} (l : list A) (f : A -> M (option error)) (ok : A -> Prop) (refs : A -> list _) :
  (forall x, checks (f x) (ok x) (refs x)) ->
  checks (for_errors l f) (Forall ok l) (List.concat (List.map refs l)).
Proof.
  intros Hf. induction l as [|x l IH]; simpl.
  - intros s w. apply wp_ret. split_and?; [done|done|]. eexists. split; [done|]. split; [|set_solver].
    split; [by repeat constructor|done].
  - intros s w. eapply wp_mono; [apply (checks_seq _ (fun e => e) _ _ _ _ _ (Hf x) IH)|].
    intros o s' w' ev (-> & Hm & r & -> & Hi & Hr). split_and?; [done|done|]. eexists. split; [done|].
    by rewrite Forall_cons.
Qed.

Lemma checks_mono m (ok ok' : Prop) refs refs' :
  checks m ok refs -> (ok <-> ok') -> (forall x, x ∈ refs' -> x ∈ refs) -> checks m ok' refs'.
Proof.
  intros Hm Hok Href s w. eapply wp_mono; [apply Hm|].
  intros o s' w' ev (-> & Hmut & r & -> & Hi & Hr). split_and?; [done|done|]. eexists. split; [done|].
  split; [by rewrite Hi, Hok|]. auto.
Qed.

Lemma checks_imageset name (h : error -> error) (k : M (option error)) ok refs :
  checks k ok refs ->
  checks (r ← call (GetClusterImageSet name);
          match r with Err err => mret (Some (h err)) | Ok _ => k end)
    ok (("ClusterImageSet", mkObjectKey "" name) :: refs).
Proof.
  intros Hk s w. apply wp_bind, wp_call. intros r w' _. destruct r as [cis|err].
  - eapply wp_mono; [apply Hk|]. intros o s' w'' ev (-> & Hmut & r & -> & Hi & Hr).
    split_and?; [done|by constructor|]. eexists. split; [done|]. split.
    + rewrite Hi. simpl. rewrite Forall_cons. naive_solver.
    + intros -> x [->|Hx]%elem_of_cons; [left|right; auto].
  - apply wp_ret. split_and?; [done|by repeat constructor|]. eexists. split; [done|]. split; [|done].
    split; [done|]. intros [_ [[? Hx] _]%Forall_cons]. done.
Qed.

Lemma checks_refs {A} (l : list A) (h : A -> error -> error) kind (key : A -> ObjectKey) :
  checks (for_errors l (fun x => wrap (h x) (get_error kind (key x)))) True
    (List.map (fun x => (kind, key x)) l).
Proof.
  eapply checks_mono.
  - apply (checks_for _ _ (fun _ => True) (fun x => [(kind, key x)])). intros x. apply checks_wrap, checks_get.
  - split; [done|]. intros _. by apply Forall_true.
  - intros x. induction l as [|a l IH]; simpl; [done|]. set_solver.
Qed.

Lemma checks_resources ci :
  checks (validateResources ci) (Spec_ClusterImageSetNameRef (CI_Spec ci) <> "")
    (take 2 (references ci)
     ++ List.map (fun ref => ("ConfigMap", mkObjectKey (Meta_Namespace (CI_Meta ci)) (LOR_Name ref)))
          (Spec_ExtraManifestsRefs (CI_Spec ci))
     ++ List.map (fun node =>
          ("Secret", mkObjectKey (match Node_HostRef node with Some r => Ref_Namespace r
                                  | None => Meta_Namespace (CI_Meta ci) end)
                       (BMC_Name (Node_BmcCredentialsName node)))) (Spec_Nodes (CI_Spec ci))).
Proof.
  unfold validateResources. destruct (String.eqb_spec (Spec_ClusterImageSetNameRef (CI_Spec ci)) "") as [He|He].
  - intros s w. apply wp_ret. split_and?; [done|done|]. eexists. split; [done|]. naive_solver.
  - eapply checks_mono.
    + apply checks_imageset. eapply checks_seq; [apply checks_get|].
      eapply (checks_seq _ (fun e => e)); [apply checks_refs|]. 
      apply (checks_refs _ (fun node err => Errorf
        "failed to validate BMC credentials: %s in namespace %s [Node: Hostname=%s], err: %w"
        [FStr (BMC_Name (Node_BmcCredentialsName node));
         FStr (match Node_HostRef node with Some r => Ref_Namespace r | None => Meta_Namespace (CI_Meta ci) end);
         FStr (Node_HostName node); FErr err])).
    + naive_solver.
    + done.
Qed.

Lemma checks_templates ci :
  checks (validateTemplateRefs ci)
    (Spec_TemplateRefs (CI_Spec ci) <> []
     /\ Forall (fun node => Node_TemplateRefs node <> []) (Spec_Nodes (CI_Spec ci)))
    (List.map (fun ref => ("ConfigMap", mkObjectKey (Ref_Namespace ref) (Ref_Name ref)))
       (Spec_TemplateRefs (CI_Spec ci))
     ++ List.concat (List.map (fun node =>
          List.map (fun ref => ("ConfigMap", mkObjectKey (Ref_Namespace ref) (Ref_Name ref)))
            (Node_TemplateRefs node)) (Spec_Nodes (CI_Spec ci)))).
Proof.
  unfold validateTemplateRefs. destruct (Spec_TemplateRefs (CI_Spec ci)) as [|r0 rs] eqn:Hrs.
  - intros s w. apply wp_ret. split_and?; [done|done|]. eexists. split; [done|]. naive_solver.
  - eapply checks_mono.
    + eapply (checks_seq _ (fun e => e)); [apply checks_refs|].
      apply (checks_for _ _ (fun node => Node_TemplateRefs node <> [])
        (fun node => List.map (fun ref => ("ConfigMap", mkObjectKey (Ref_Namespace ref) (Ref_Name ref)))
           (Node_TemplateRefs node))).
      intros node. destruct (Node_TemplateRefs node) as [|r rs'] eqn:Hn.
      * intros s w. apply wp_ret. split_and?; [done|done|]. eexists. split; [done|]. naive_solver.
      * eapply checks_mono; [apply checks_refs| |done]. naive_solver.
    + naive_solver.
    + done.
Qed.

(** C33: Validating a ClusterInstance against the cluster only reads; it succeeds exactly when the
    object itself is complete and valid and every get found its object, and then every object
    that the ClusterInstance refers to (image set, pull secret, extra manifests, BMC credentials,
    cluster and node templates) was found. *)
Theorem Validate_spec ci s w :
  wp (Validate ci) (fun o s' _ ev =>
    s' = s /\ Forall (fun e => mutating e = false) ev
    /\ exists r, o = Ret r
       /\ (r = None <-> refers_enough ci /\ Forall (fun e => is_Some (as_found e)) ev)
       /\ (r = None -> forall x, x ∈ references ci -> x ∈ omap as_found ev)) s w.
Proof.
  unfold Validate. destruct (String.eqb_spec (Spec_ClusterName (CI_Spec ci)) "") as [He|He].
  - apply wp_ret. split_and?; [done|done|]. eexists. split; [done|]. unfold refers_enough. naive_solver.
  - revert s w. eapply checks_mono.
    + eapply checks_seq; [apply checks_resources|]. eapply checks_seq; [apply checks_templates|].
      apply checks_pure.
    + unfold refers_enough. destruct (ValidateClusterInstance ci); naive_solver.
    + unfold references. intros x. rewrite !elem_of_app. tauto.
Qed.
End proofs.
