(* ===== verification/Templates.v ===== *)
(** * Rendering templates (internal/controller/clusterinstance/template_engine.go, helper.go)

    text/template with its function map, YAML decoding and float formatting are parameters
    ([TemplateLib], [FloatText]); everything the operator does around them is here. TemplateData has
    an instance of [TemplateLib]. *)
From Stdlib Require Import Ascii.
From S2P Require Import Prelude GoStd JsonScan JsonCodec Types Errors Validation Samples K8s.
From S2P Require Import Cluster RenderedObject RenderedSpec.

(** ** Install config overrides *)

(* src: src/internal/controller/clusterinstance/helper.go 35-39 cpuPartitioningKey *)
Definition cpuPartitioningKey : string := "cpuPartitioningMode".
Definition AnnotationsKey : string := "annotations".
Definition LabelsKey : string := "labels".

Section overrides.
Context `{FloatText}.

(** Unmarshalling [null] makes the map nil, and assigning to it panics. *)
(* src: src/internal/controller/clusterinstance/helper.go 55-78 getWorkloadPinningInstallConfigOverrides *)
Definition getWorkloadPinningInstallConfigOverrides (ci : ClusterInstance)
    : outcome (string * option error) :=
  let overrides := Spec_InstallConfigOverrides (CI_Spec ci) in
  if String.eqb (Spec_CPUPartitioning (CI_Spec ci)) CPUPartitioningAllNodes then
    match (if negb (String.eqb overrides "") then Unmarshal_map overrides else Ok (Some [])) with
    | Err err =>
        Ret (overrides, Some (Errorf "failed to unmarshal install config overrides JSON: %w" [FErr err]))
    | Ok None => Panic "assignment to entry in nil map"
    | Ok (Some installOverrideValues) =>
        Ret (Marshal (JObj (obj_set cpuPartitioningKey (JStr CPUPartitioningAllNodes)
               installOverrideValues)), None)
    end
  else Ret (overrides, None).

Definition is_nil (v : option json) : bool :=
  match v with
  | None | Some JNull => true
  | _ => false
  end.

(* src: src/internal/controller/clusterinstance/helper.go 224-271 mergeJSONCommonKey *)
Definition mergeJSONCommonKey (mergeWith mergeTo key : string) : result string :=
  match Unmarshal_map mergeWith with
  | Err err => Err (Errorf "failed to unmarshal JSON mergeWith string into map: %w" [FErr err])
  | Ok mapMergeWith =>
      match Unmarshal_map mergeTo with
      | Err err => Err (Errorf "failed to unmarshal JSON mergeTo string into map: %w" [FErr err])
      | Ok mapMergeTo =>
          let mergeWithValue := obj_get key (default [] mapMergeWith) in
          let mergeToValue := obj_get key (default [] mapMergeTo) in
          if is_nil mergeWithValue || is_nil mergeToValue then
            Err (Errorf "key not found in one of the JSON strings" [])
          else
            match mergeWithValue, mergeToValue with
            | Some (JObj mergeWithValueMap), Some (JObj mergeToValueMap) =>
                let merged := fold_left (fun o kv => obj_set kv.1 kv.2 o) mergeWithValueMap mergeToValueMap in
                Ok (Marshal (JObj (obj_set key (JObj merged) (default [] mapMergeTo))))
            | Some (JObj _), _ =>
                Err (Errorf "value associated with mergeToValue is not a map" [])
            | _, _ => Err (Errorf "value associated with mergeWithValue is not a map" [])
            end
      end
  end.

Definition jquote (s : string) : string := String dquote (s +:+ String dquote "").

Definition networkAnnotation (networkType : string) : string :=
  "{" +:+ jquote "networking" +:+ ":{" +:+ jquote "networkType" +:+ ":" +:+ jquote networkType +:+ "}}".

(* src: src/internal/controller/clusterinstance/helper.go 81-127 getInstallConfigOverrides *)
Definition getInstallConfigOverrides (ci : ClusterInstance) : outcome (result string) :=
  match getWorkloadPinningInstallConfigOverrides ci with
  | Panic msg => Panic msg
  | Ret (_, Some err) => Ret (Err err)
  | Ret (installConfigOverrides, None) =>
      let commonKey := "networking" in
      let networkAnnotation := networkAnnotation (Spec_NetworkType (CI_Spec ci)) in
      if negb (Valid networkAnnotation) then
        Ret (Err (Errorf "invalid json conversion of network type" []))
      else if String.eqb installConfigOverrides "" then Ret (Ok networkAnnotation)
      else if negb (Valid installConfigOverrides) then
        Ret (Err (Errorf "invalid json parameter set at installConfigOverride" []))
      else
        match Unmarshal_map installConfigOverrides with
        | Err _ =>
            Ret (Err (Errorf "failed to unmarshal installConfigOverrides data: %v"
                        [FStr installConfigOverrides]))
        | Ok installConfigOverridesMap =>
            match obj_get commonKey (default [] installConfigOverridesMap) with
            | Some _ =>
                Ret (match mergeJSONCommonKey networkAnnotation installConfigOverrides commonKey with
                     | Err err => Err (Errorf "failed to merge installConfigOverrides objects, error: %w"
                                    [FErr err])
                     | Ok networkMergedJson => Ok networkMergedJson
                     end)
            | None =>
                let trimmedConfigOverrides := TrimPrefix installConfigOverrides "{" in
                let trimmedNetworkType := TrimSuffix networkAnnotation "}" in
                let finalJson := trimmedNetworkType +:+ "," +:+ trimmedConfigOverrides in
                if negb (Valid finalJson) then
                  (* the wrapped error is nil *)
                  Ret (Err (ErrorString
                    "failed to marshal annotation for installConfigOverrides, error: %!w(<nil>)"))
                else Ret (Ok finalJson)
            end
        end
  end.
End overrides.

(** ** Pruning, suppressing, labels and annotations *)

(* src: src/internal/controller/clusterinstance/helper.go 196-207 pruneManifest *)
Definition pruneManifest (resource : ResourceRef) (pruneList : list ResourceRef) : bool :=
  if String.eqb (RR_APIVersion resource) "" || String.eqb (RR_Kind resource) ""
     || match pruneList with [] => true | _ => false end then false
  else existsb (fun p => String.eqb (RR_APIVersion resource) (RR_APIVersion p)
                         && String.eqb (RR_Kind resource) (RR_Kind p)) pruneList.

(* src: src/internal/controller/clusterinstance/helper.go 210-221 suppressManifest *)
Definition suppressManifest (kind : string) (supressManifestsList : list string) : bool :=
  if String.eqb kind "" || match supressManifestsList with [] => true | _ => false end then false
  else existsb (fun manifest => String.eqb manifest kind) supressManifestsList.

(** Adds the entries whose keys [data] does not have. *)
Definition add_missing (appendData : smap) (data : fields) : fields :=
  fold_left (fun data kv =>
    match obj_get kv.1 data with
    | Some _ => data
    | None => obj_set kv.1 (JStr kv.2) data
    end) (map_to_list appendData) data.

(** A value that is neither absent nor a map: for [metadata] the assignment to a nil map
    panics; for the field the additions go to a map that is thrown away. *)
(* src: src/internal/controller/clusterinstance/helper.go 273-298 appendToManifestMetadata *)
Definition appendToManifestMetadata (appendData : smap) (field : string) (manifest : fields)
    : outcome fields :=
  let nonempty := negb (bool_decide (appendData = ∅)) in
  let manifest :=
    if is_nil (obj_get "metadata" manifest) && nonempty then obj_set "metadata" (JObj []) manifest
    else manifest in
  match obj_get "metadata" manifest with
  | Some (JObj metadata) =>
      let metadata :=
        if is_nil (obj_get field metadata) && nonempty then obj_set field (JObj []) metadata
        else metadata in
      let metadata :=
        match obj_get field metadata with
        | Some (JObj data) => obj_set field (JObj (add_missing appendData data)) metadata
        | _ => metadata
        end in
      Ret (obj_set "metadata" (JObj metadata) manifest)
  | _ => if nonempty then Panic "assignment to entry in nil map" else Ret manifest
  end.

(* src: src/internal/controller/clusterinstance/helper.go 300-303 appendManifestAnnotations *)
Definition appendManifestAnnotations (extraAnnotations : smap) (manifest : fields) : outcome fields :=
  appendToManifestMetadata extraAnnotations AnnotationsKey manifest.

(* src: src/internal/controller/clusterinstance/helper.go 305-307 appendManifestLabels *)
Definition appendManifestLabels (extraLabels : smap) (manifest : fields) : outcome fields :=
  appendToManifestMetadata extraLabels LabelsKey manifest.

Definition append_found (found : option smap) (append : smap -> fields -> outcome fields)
    (manifest : fields) : outcome fields :=
  match found with
  | Some extra => append extra manifest
  | None => Ret manifest
  end.

(* src: src/internal/controller/clusterinstance/template_engine.go 152-180 appendAnnotationsAndLabels *)
Definition appendAnnotationsAndLabels (ci : ClusterInstance) (node : option NodeSpec) (manifest : fields)
    (kind : string) : outcome fields :=
  let annotations := match node with
                     | None => Spec_ExtraAnnotationSearch (CI_Spec ci) kind
                     | Some node => Node_ExtraAnnotationSearch node kind (CI_Spec ci)
                     end in
  let labels := match node with
                | None => Spec_ExtraLabelSearch (CI_Spec ci) kind
                | Some node => Node_ExtraLabelSearch node kind (CI_Spec ci)
                end in
  match append_found annotations appendManifestAnnotations manifest with
  | Panic msg => Panic msg
  | Ret manifest => append_found labels appendManifestLabels manifest
  end.

(** ** The template engine *)

(** Outside a node template [CurrentNode] is the zero NodeSpec: [None]. *)
(* src: src/internal/controller/clusterinstance/helper.go 41-45 SpecialVars *)
Record SpecialVars := mkSpecialVars {
  SV_CurrentNode : option NodeSpec;
  SV_InstallConfigOverrides : string;
  SV_ReleaseImage : string;
  SV_ControlPlaneAgents : nat;
  SV_WorkerAgents : nat;
  SV_ArbiterAgents : nat
}.

(* src: src/internal/controller/clusterinstance/helper.go 49-52 ClusterData *)
Record ClusterData := mkClusterData {
  Data_Spec : ClusterInstanceSpec;
  Data_SpecialVars : SpecialVars
}.

(** text/template and gopkg.in/yaml.v3. *)
Class TemplateLib := {
  template_Parse : string -> string -> option error;
  template_Execute : string -> string -> ClusterData -> result string;
  yaml_Unmarshal : string -> result fields
}.

(** [unicode.IsSpace] *)
Definition unicode_IsSpace (n : N) : bool :=
  bool_decide (n ∈ [9; 10; 11; 12; 13; 32; 133; 160; 5760; 8232; 8233; 8239; 8287; 12288]%N)
  || ((8192 <=? n)%N && (n <=? 8202)%N).

(** Whether [for _, r := range s] meets a rune that is not a space; each rune takes a byte. *)
Fixpoint has_content (fuel : nat) (s : string) : bool :=
  match fuel, s with
  | O, _ | _, "" => false
  | S fuel, _ =>
      let (r, size) := DecodeRune s in
      negb (unicode_IsSpace r) || has_content fuel (string_drop size s)
  end.

(* src: src/internal/controller/clusterinstance/template_engine.go 259-278 validateRenderedTemplate *)
Definition validateRenderedTemplate (manifest : fields) (templateKey : string) : option error :=
  match obj_get "apiVersion" manifest, obj_get "kind" manifest, obj_get "metadata" manifest with
  | Some (JStr _), Some (JStr _), Some (JObj metadata) =>
      match obj_get "name" metadata with
      | Some (JStr _) => None
      | _ => Some (Errorf "missing metadata.name in template %s" [FStr templateKey])
      end
  | Some (JStr _), Some (JStr _), _ => Some (Errorf "missing metadata in template %s" [FStr templateKey])
  | Some (JStr _), _, _ => Some (Errorf "missing kind in template %s" [FStr templateKey])
  | _, _, _ => Some (Errorf "missing apiVersion in template %s" [FStr templateKey])
  end.

Section engine.
Context `{FloatText} `{TemplateLib} `{MapRange} {W : Type} `{Server W}.

Abbreviation M := (Prog ClusterInstance W Event).

(** What is parsed is kept as its text, so only the error is left of the result. *)
(* src: src/internal/controller/clusterinstance/template_engine.go 280-287 ParseTemplate *)
Definition ParseTemplate (templateKey templateStr : string) : option error :=
  match template_Parse templateKey templateStr with
  | Some err => Some (Errorf "failed to parse template: %w" [FErr err])
  | None => None
  end.

(** An empty result is an output of only spaces. *)
(* src: src/internal/controller/clusterinstance/template_engine.go 289-315 TemplateEngine.render *)
Definition render (templateKey templateStr : string) (data : ClusterData) : result (option fields) :=
  match ParseTemplate templateKey templateStr with
  | Some err =>
      Err (Errorf "encountered an error parsing template %s: %w" [FStr templateKey; FErr err])
  | None =>
      match template_Execute templateKey templateStr data with
      | Err err => Err (Errorf "failed to execute template %s: %w" [FStr templateKey; FErr err])
      | Ok buffer =>
          if has_content (String.length buffer) buffer then
            match yaml_Unmarshal buffer with
            | Err err => Err (Errorf "failed to unmarshal YAML: %w" [FErr err])
            | Ok renderedTemplate =>
                match validateRenderedTemplate renderedTemplate templateKey with
                | Some err => Err err
                | None => Ok (Some renderedTemplate)
                end
            end
          else Ok None
      end
  end.

(** The error of [getInstallConfigOverrides] lands in the named result, so it is returned with
    the data once the image set has been read. *)
(* src: src/internal/controller/clusterinstance/helper.go 130-193 buildClusterData *)
Definition buildClusterData (ci : ClusterInstance) (node : option NodeSpec)
    : M (result ClusterData) :=
  overrides ← of_outcome (getInstallConfigOverrides ci);
  let spec := CI_Spec ci in
  let workerAgents :=
    if String.eqb (Spec_ClusterType spec) ClusterTypeSNO then 0 else count_role "worker" (Spec_Nodes spec) in
  r ← call (GetClusterImageSet (Spec_ClusterImageSetNameRef spec));
  match r with
  | Err err =>
      mret (Err (Errorf "failed to get ClusterImageSet %s: %w"
              [FStr (Spec_ClusterImageSetNameRef spec); FErr err]))
  | Ok clusterImageSet =>
      mret (match overrides with
            | Err err => Err err
            | Ok installConfigOverrides =>
                Ok (mkClusterData spec
                      (mkSpecialVars node installConfigOverrides (CIS_ReleaseImage clusterImageSet)
                         (count_role "master" (Spec_Nodes spec)) workerAgents
                         (count_role "arbiter" (Spec_Nodes spec))))
            end)
  end.

(** What follows the rendering of a manifest. *)
(* src: src/internal/controller/clusterinstance/template_engine.go 210-256 TemplateEngine.renderManifestFromTemplate *)
Definition object_from_manifest (ci : ClusterInstance) (node : option NodeSpec) (manifest : fields)
    : outcome (result RenderedObject) :=
  match NewRenderedObject manifest with
  | (_, Some err) => Ret (Err err)
  | (object, None) =>
      let apiVersion := GetAPIVersion object in
      let kind := GetKind object in
      let pruneList := Spec_PruneManifests (CI_Spec ci)
                       ++ match node with Some node => Node_PruneManifests node | None => [] end in
      let suppressManifestsList := Spec_SuppressedManifests (CI_Spec ci)
                       ++ match node with Some node => Node_SuppressedManifests node | None => [] end in
      if pruneManifest (mkResourceRef apiVersion kind) pruneList then
        Ret (Ok (mkRenderedObject (Some manifest) actionPrune))
      else if suppressManifest kind suppressManifestsList then
        Ret (Ok (mkRenderedObject (Some manifest) actionSuppress))
      else
        match appendAnnotationsAndLabels ci node manifest kind with
        | Panic msg => Panic msg
        | Ret updatedManifest =>
            let key := CI_key ci in
            match appendManifestLabels
                    {[OwnedByLabel := GenerateOwnedByLabelValue (Key_Namespace key) (Key_Name key)]}
                    updatedManifest with
            | Panic msg => Panic msg
            | Ret updatedManifest =>
                match SetObject (mkRenderedObject (Some manifest) actionRender) updatedManifest with
                | (_, Some err) => Ret (Err err)
                | (object, None) => Ret (Ok object)
                end
            end
        end
  end.

(* src: src/internal/controller/clusterinstance/template_engine.go 182-257 TemplateEngine.renderManifestFromTemplate *)
Definition renderManifestFromTemplate (ci : ClusterInstance) (node : option NodeSpec)
    (templateKey template : string) : M (result RenderedObject) :=
  data ← buildClusterData ci node;
  match data with
  | Err err => mret (Err err)
  | Ok clusterData =>
      match render templateKey template clusterData with
      | Err err => mret (Err err)
      | Ok None => mret (Ok (mkRenderedObject None noAction))
      | Ok (Some manifest) => of_outcome (object_from_manifest ci node manifest)
      end
  end.

(** The templates of one ConfigMap, in the order they are visited. *)
(* src: src/internal/controller/clusterinstance/template_engine.go 132-147 TemplateEngine.renderTemplates *)
Definition renderConfigMap (ci : ClusterInstance) (node : option NodeSpec)
    (templates : list (string * string)) (renderedObjects : list RenderedObject)
    : M (list RenderedObject + error) :=
  for_range templates renderedObjects (fun kv renderedObjects =>
    r ← renderManifestFromTemplate ci node kv.1 kv.2;
    mret (match r with
          | Err err => inr err
          | Ok object => inl (renderedObjects ++ [object])
          end)).

(* src: src/internal/controller/clusterinstance/template_engine.go 95-150 TemplateEngine.renderTemplates *)
Definition renderTemplates (ci : ClusterInstance) (node : option NodeSpec)
    : M (list RenderedObject + error) :=
  let templateRefs := match node with
                      | None => Spec_TemplateRefs (CI_Spec ci)
                      | Some node => Node_TemplateRefs node
                      end in
  for_range templateRefs [] (fun ref renderedObjects =>
    r ← call (GetResource "ConfigMap" (mkObjectKey (Ref_Namespace ref) (Ref_Name ref)));
    match r with
    | Err err =>
        mret (inr (Errorf "failed to get ConfigMap %s/%s: %w"
                [FStr (Ref_Namespace ref); FStr (Ref_Name ref); FErr err]))
    | Ok templatesConfigMap =>
        renderConfigMap ci node (range_map (Res_Data templatesConfigMap)) renderedObjects
    end).

(** Renders for the cluster or for one node and collects the objects. *)
Definition renderAndCollect (ci : ClusterInstance) (node : option NodeSpec)
    (renderedObjects : RenderedObjectCollection)
    : M (RenderedObjectCollection + RenderedObjectCollection * option error) :=
  r ← renderTemplates ci node;
  mret (match r with
        | inr err => inr (renderedObjects, Some err)
        | inl objects =>
            match Collection_AddObjects renderedObjects objects with
            | (renderedObjects, None) => inl renderedObjects
            | (renderedObjects, Some err) => inr (renderedObjects, Some err)
            end
        end).

(* src: src/internal/controller/clusterinstance/template_engine.go 46-93 TemplateEngine.ProcessTemplates *)
Definition ProcessTemplates (ci : ClusterInstance) : M (RenderedObjectCollection * option error) :=
  r ← renderAndCollect ci None emptyCollection;
  match r with
  | inr res => mret res
  | inl renderedObjects =>
      r ← for_range (Spec_Nodes (CI_Spec ci)) renderedObjects
            (fun node renderedObjects => renderAndCollect ci (Some node) renderedObjects);
      mret (match r with
            | inr res => res
            | inl renderedObjects => (renderedObjects, None)
            end)
  end.
End engine.
