(* ===== verification/TemplatesSpec.v ===== *)
(** * Rendering templates: theorems

    What the operator adds to a rendered manifest and what it leaves alone, who owns the result,
    and that rendering only reads. *)
From S2P Require Import Prelude GoStd JsonScan JsonCodec Types Errors Validation Samples K8s.
From S2P Require Import Cluster RenderedObject RenderedSpec Templates.

(** [manifest.metadata.<field>.<k>] *)
Definition meta_entry (field k : string) (m : fields) : option json :=
  NestedField (JObj m) ["metadata"; field; k].

(** The metadata field can take entries: it is absent, null or a map. *)
Definition extensible (field : string) (m : fields) : bool :=
  match NestedField (JObj m) ["metadata"; field] with
  | None | Some JNull | Some (JObj _) => true
  | _ => false
  end.

(** The metadata is absent, null or a map, as in every manifest that was validated. *)
Definition metadata_ok (m : fields) : bool :=
  match obj_get "metadata" m with
  | None | Some JNull | Some (JObj _) => true
  | _ => false
  end.

Lemma add_missing_get d data k :
  obj_get k (add_missing d data)
  = match obj_get k data with Some v => Some v | None => JStr <$> d !! k end.
Proof.
  unfold add_missing. assert (Hnd := NoDup_fst_map_to_list d).
  replace (d !! k) with ((list_to_map (map_to_list d) : smap) !! k) by by rewrite list_to_map_to_list.
  revert data.
  induction (map_to_list d) as [|[k' v'] l IH]; intros data; simpl; [by destruct (obj_get k data)|].
  simpl in Hnd. apply NoDup_cons in Hnd as [Hk' Hnd]. rewrite (IH Hnd).
  destruct (decide (k = k')) as [->|Hne].
  - rewrite lookup_insert_eq. destruct (obj_get k' data) eqn:Hd; rewrite ?Hd; [done|].
    by rewrite obj_get_set_eq.
  - rewrite lookup_insert_ne by done. destruct (obj_get k' data); [done|].
    by rewrite obj_get_set_ne.
Qed.

Lemma map_empty_fmap (d : smap) k : d = ∅ -> JStr <$> d !! k = None.
Proof. by intros ->. Qed.

(** What [appendToManifestMetadata] does to the metadata map. *)
Definition extended (d : smap) (field : string) (md : fields) : fields :=
  match obj_get field md with
  | None | Some JNull => if bool_decide (d = ∅) then md else obj_set field (JObj (add_missing d [])) md
  | Some (JObj data) => obj_set field (JObj (add_missing d data)) md
  | _ => md
  end.

Lemma append_extended d field m :
  metadata_ok m = true ->
  appendToManifestMetadata d field m
  = Ret (match obj_get "metadata" m with
         | Some (JObj md) => obj_set "metadata" (JObj (extended d field md)) m
         | _ => if bool_decide (d = ∅) then m else obj_set "metadata" (JObj (extended d field [])) m
         end).
Proof.
  unfold metadata_ok, appendToManifestMetadata, extended. intros Hok.
  destruct (obj_get "metadata" m) as [[| | | | |md]|] eqn:Hm; try done; simpl;
    destruct (bool_decide (d = ∅)) eqn:Hd; simpl; rewrite ?Hm, ?obj_get_set_eq; simpl; try done;
    rewrite ?String.eqb_refl, ?obj_set_set; try done.
  - bools. subst d. destruct (obj_get field md) as [[]|] eqn:Hf; simpl; rewrite ?Hf; done.
  - destruct (obj_get field md) as [[]|] eqn:Hf; simpl; rewrite ?Hf, ?obj_get_set_eq, ?obj_set_set; done.
Qed.

(** The first of two values, the second only if it may be added. *)
Definition or_add (v : option json) (can : bool) (extra : option string) : option json :=
  match v with
  | Some _ => v
  | None => if can then JStr <$> extra else None
  end.

Lemma extended_get d field md k :
  NestedField (JObj (extended d field md)) [field; k]
  = or_add (NestedField (JObj md) [field; k])
      (match obj_get field md with None | Some JNull | Some (JObj _) => true | _ => false end) (d !! k).
Proof.
  unfold extended, or_add. simpl.
  destruct (obj_get field md) as [[| | | | |data]|] eqn:Hf; simpl; rewrite ?Hf; try done.
  - destruct (bool_decide (d = ∅)) eqn:Hd; simpl.
    + bools. subst d. by rewrite Hf.
    + rewrite obj_get_set_eq. rewrite add_missing_get. simpl. by destruct (d !! k).
  - rewrite obj_get_set_eq, add_missing_get. destruct (obj_get k data); [done|]. by destruct (d !! k).
  - destruct (bool_decide (d = ∅)) eqn:Hd; simpl.
    + bools. subst d. by rewrite Hf.
    + rewrite obj_get_set_eq. rewrite add_missing_get. simpl. by destruct (d !! k).
Qed.

Lemma extended_other d field md f : f <> field -> obj_get f (extended d field md) = obj_get f md.
Proof.
  intros Hne. unfold extended. destruct (obj_get field md) as [[]|]; try done;
    try case_match; rewrite ?obj_get_set_ne by done; done.
Qed.

Lemma append_metadata d field m :
  metadata_ok m = true ->
  exists m', appendToManifestMetadata d field m = Ret m'
    /\ (forall k, meta_entry field k m' = or_add (meta_entry field k m) (extensible field m) (d !! k))
    /\ (forall f, f <> field -> NestedField (JObj m') ["metadata"; f] = NestedField (JObj m) ["metadata"; f])
    /\ (forall k, k <> "metadata" -> obj_get k m' = obj_get k m).
Proof.
  intros Hok. rewrite append_extended by done. eexists. split; [done|].
  unfold meta_entry, extensible. unfold metadata_ok in Hok.
  assert (Hnone : forall md0,
    (forall k, NestedField (JObj md0) [k] = None) ->
    (forall k, NestedField (JObj (obj_set "metadata" (JObj (extended d field md0)) m)) ["metadata"; field; k]
               = JStr <$> d !! k)
    /\ (forall f, f <> field ->
         NestedField (JObj (obj_set "metadata" (JObj (extended d field md0)) m)) ["metadata"; f] = None)).
  { intros md0 Hmd0. assert (Hg : forall k, obj_get k md0 = None).
    { intros k. specialize (Hmd0 k). simpl in Hmd0. by destruct (obj_get k md0). }
    split.
    - intros k. cbn [NestedField]. rewrite obj_get_set_eq.
      change (match obj_get field _ with Some v => _ | None => None end)
        with (NestedField (JObj (extended d field md0)) [field; k]).
      rewrite extended_get. simpl. rewrite Hg. done.
    - intros f Hne. simpl. rewrite obj_get_set_eq. rewrite extended_other by done. by rewrite Hg. }
  destruct (obj_get "metadata" m) as [[| | | | |md]|] eqn:Hm; try done.
  - destruct (bool_decide (d = ∅)) eqn:Hd.
    + bools. subst d. repeat split; intros; simpl; rewrite ?Hm; done.
    + destruct (Hnone []) as [H1 H2]; [done|]. repeat split; [| |by intros; rewrite obj_get_set_ne].
      * intros k. rewrite H1. simpl. by rewrite Hm.
      * intros f Hne. rewrite H2 by done. simpl. by rewrite Hm.
  - repeat split; [| |by intros; rewrite obj_get_set_ne].
    + intros k. cbn [NestedField]. rewrite obj_get_set_eq, Hm.
      change (match obj_get field (extended d field md) with Some v => _ | None => None end)
        with (NestedField (JObj (extended d field md)) [field; k]).
      rewrite extended_get. simpl. by destruct (obj_get field md) as [[]|].
    + intros f Hne. simpl. by rewrite obj_get_set_eq, Hm, extended_other.
  - destruct (bool_decide (d = ∅)) eqn:Hd.
    + bools. subst d. repeat split; intros; simpl; rewrite ?Hm; done.
    + destruct (Hnone []) as [H1 H2]; [done|]. repeat split; [| |by intros; rewrite obj_get_set_ne].
      * intros k. rewrite H1. simpl. by rewrite Hm.
      * intros f Hne. rewrite H2 by done. simpl. by rewrite Hm.
Qed.

Lemma extended_extensible d field md :
  match obj_get field (extended d field md) with None | Some JNull | Some (JObj _) => true | _ => false end
  = match obj_get field md with None | Some JNull | Some (JObj _) => true | _ => false end.
Proof.
  unfold extended. destruct (obj_get field md) as [[]|] eqn:Hf; rewrite ?Hf, ?obj_get_set_eq; try done;
    destruct (bool_decide (d = ∅)); rewrite ?Hf, ?obj_get_set_eq; done.
Qed.

Lemma append_ok d field m m' :
  metadata_ok m = true -> appendToManifestMetadata d field m = Ret m' ->
  metadata_ok m' = true /\ extensible field m' = extensible field m.
Proof.
  intros Hok. rewrite append_extended by done. intros [= <-].
  unfold metadata_ok, extensible in *.
  destruct (obj_get "metadata" m) as [[| | | | |md]|] eqn:Hm; try done;
    try destruct (bool_decide (d = ∅)) eqn:Hd; simpl; rewrite ?Hm, ?obj_get_set_eq; try done;
    (split; [done|]);
    [assert (He := extended_extensible d field [])|assert (He := extended_extensible d field md)..
    |assert (He := extended_extensible d field [])]; simpl in He;
    destruct (obj_get field (extended _ _ _)) as [[]|]; try done;
    destruct (obj_get field md) as [[]|]; done.
Qed.

(** C31: Adding annotations or labels to a rendered manifest never panics on a validated manifest,
    never overwrites an entry that the template set, adds every other entry when the field can
    take one, and changes nothing else of the manifest. *)
Theorem appendToManifestMetadata_spec d field m :
  metadata_ok m = true ->
  exists m', appendToManifestMetadata d field m = Ret m'
    /\ (forall k, meta_entry field k m' = or_add (meta_entry field k m) (extensible field m) (d !! k))
    /\ (forall f, f <> field -> NestedField (JObj m') ["metadata"; f] = NestedField (JObj m) ["metadata"; f])
    /\ (forall k, k <> "metadata" -> obj_get k m' = obj_get k m).
Proof. apply append_metadata. Qed.

Definition worker_object : fields :=
  [("apiVersion", JStr "v1"); ("kind", JStr "ConfigMap");
   ("metadata", JObj [("labels", JObj [("a", JStr "template")]); ("name", JStr "x")])].

Lemma appendToManifestMetadata_spec_witness :
  exists m', appendToManifestMetadata {["a" := "user"; "b" := "user"]} LabelsKey worker_object = Ret m'
    /\ meta_entry LabelsKey "a" m' = Some (JStr "template")
    /\ meta_entry LabelsKey "b" m' = Some (JStr "user").
Proof.
  destruct (appendToManifestMetadata_spec {["a" := "user"; "b" := "user"]} LabelsKey worker_object)
    as (m' & Hm' & Hl & _); [reflexivity|].
  exists m'. split; [exact Hm'|]. rewrite !Hl. split; reflexivity.
Defined.

(** ** From a manifest to an object *)

(** The annotations and labels the user asked for, for a kind of manifest. *)
Definition extra_annotations (ci : ClusterInstance) (node : option NodeSpec) (kind : string) : smap :=
  default ∅ (match node with
             | None => Spec_ExtraAnnotationSearch (CI_Spec ci) kind
             | Some node => Node_ExtraAnnotationSearch node kind (CI_Spec ci)
             end).
Definition extra_labels (ci : ClusterInstance) (node : option NodeSpec) (kind : string) : smap :=
  default ∅ (match node with
             | None => Spec_ExtraLabelSearch (CI_Spec ci) kind
             | Some node => Node_ExtraLabelSearch node kind (CI_Spec ci)
             end).

Definition owned_by (ci : ClusterInstance) : string :=
  GenerateOwnedByLabelValue (Key_Namespace (CI_key ci)) (Key_Name (CI_key ci)).

Lemma or_add_none v can : or_add v can None = v.
Proof. unfold or_add. destruct v; [done|]. by destruct can. Qed.

Lemma append_found_spec found field m :
  metadata_ok m = true ->
  exists m', append_found found (fun d m => appendToManifestMetadata d field m) m = Ret m'
    /\ metadata_ok m' = true
    /\ (forall k, meta_entry field k m'
          = or_add (meta_entry field k m) (extensible field m) (default ∅ found !! k))
    /\ extensible field m' = extensible field m
    /\ (forall f, f <> field -> NestedField (JObj m') ["metadata"; f] = NestedField (JObj m) ["metadata"; f])
    /\ (forall k, k <> "metadata" -> obj_get k m' = obj_get k m).
Proof.
  intros Hok. destruct found as [d|]; simpl.
  - destruct (append_metadata d field m Hok) as (m' & Hm' & H1 & H2 & H3).
    destruct (append_ok d field m m' Hok Hm') as [H4 H5]. by exists m'.
  - exists m. split_and?; try done. intros k. by rewrite or_add_none.
Qed.

Lemma meta_entry_other f k (m m' : fields) :
  NestedField (JObj m') ["metadata"; f] = NestedField (JObj m) ["metadata"; f] ->
  meta_entry f k m' = meta_entry f k m.
Proof.
  unfold meta_entry. simpl. destruct (obj_get "metadata" m') as [[]|], (obj_get "metadata" m) as [[]|];
    simpl; try done; intros H;
    repeat match goal with
    | |- context [obj_get f ?x] => destruct (obj_get f x) as [[]|]; simplify_eq/=
    end; done.
Qed.

Lemma appended_spec ci node manifest kind :
  metadata_ok manifest = true ->
  exists m1 m2, appendAnnotationsAndLabels ci node manifest kind = Ret m1
    /\ appendManifestLabels {[OwnedByLabel := owned_by ci]} m1 = Ret m2
    /\ (forall k, meta_entry AnnotationsKey k m2
          = or_add (meta_entry AnnotationsKey k manifest) (extensible AnnotationsKey manifest)
              (extra_annotations ci node kind !! k))
    /\ (forall k, meta_entry LabelsKey k m2
          = or_add (or_add (meta_entry LabelsKey k manifest) (extensible LabelsKey manifest)
                      (extra_labels ci node kind !! k))
              (extensible LabelsKey manifest) (({[OwnedByLabel := owned_by ci]} : smap) !! k))
    /\ (forall f, f <> AnnotationsKey -> f <> LabelsKey ->
          NestedField (JObj m2) ["metadata"; f] = NestedField (JObj manifest) ["metadata"; f])
    /\ (forall k, k <> "metadata" -> obj_get k m2 = obj_get k manifest).
Proof.
  intros Hok. unfold appendAnnotationsAndLabels, extra_annotations, extra_labels.
  set (ann := match node with None => Spec_ExtraAnnotationSearch _ _ | Some _ => _ end).
  set (lab := match node with None => Spec_ExtraLabelSearch _ _ | Some _ => _ end).
  destruct (append_found_spec ann AnnotationsKey manifest Hok) as (m0 & Hm0 & Ok0 & E0 & _ & O0 & K0).
  destruct (append_found_spec lab LabelsKey m0 Ok0) as (m1 & Hm1 & Ok1 & E1 & X1 & O1 & K1).
  destruct (append_metadata {[OwnedByLabel := owned_by ci]} LabelsKey m1 Ok1) as (m2 & Hm2 & E2 & O2 & K2).
  assert (Hext : extensible LabelsKey m0 = extensible LabelsKey manifest).
  { unfold extensible. by rewrite O0. }
  exists m1, m2. unfold appendManifestAnnotations, appendManifestLabels.
  change (append_found ann _ manifest) with
    (append_found ann (fun d m => appendToManifestMetadata d AnnotationsKey m) manifest).
  rewrite Hm0. change (append_found lab _ m0) with
    (append_found lab (fun d m => appendToManifestMetadata d LabelsKey m) m0).
  rewrite Hm1, Hm2. split_and?; [done|done| | | |].
  - intros k. rewrite (meta_entry_other AnnotationsKey k m1 m2) by by apply O2.
    rewrite (meta_entry_other AnnotationsKey k m0 m1) by by apply O1. apply E0.
  - intros k. rewrite E2, E1, X1, Hext.
    by rewrite (meta_entry_other LabelsKey k manifest m0) by by apply O0.
  - intros f Ha Hl. by rewrite O2, O1, O0.
  - intros k Hk. by rewrite K2, K1, K0.
Qed.

Lemma SetObject_inv r m o : SetObject r m = (o, None) -> o = mkRenderedObject (Some m) (RO_action r).
Proof. unfold SetObject. case_goal; [|done]. by intros [= <-]. Qed.

Lemma validated_metadata m key : validateRenderedTemplate m key = None -> metadata_ok m = true.
Proof.
  unfold validateRenderedTemplate, metadata_ok.
  destruct (obj_get "apiVersion" m) as [[]|]; try done; destruct (obj_get "kind" m) as [[]|]; try done;
    by destruct (obj_get "metadata" m) as [[]|].
Qed.



(** The owned-by label is not always this ClusterInstance's: a label of that name among the
    extra labels of the spec (or in the template) is kept, and the ownership check of later steps
    then refuses the object the operator has itself rendered. *)
Theorem owner_can_be_preset :
  let ci := sno <| CI_Spec ::= fun s =>
    s <| Spec_ExtraLabels := {["ConfigMap" := {[OwnedByLabel := "other_other"]}]} |> |> in
  exists o, object_from_manifest ci None worker_object = Ret (Ok o) /\ RO_action o = actionRender
    /\ is_Some (VerifyOwnership (GetLabels o) (GetName o) (GetNamespace o) (GetKind o) (owned_by ci)).
Proof. eexists. split; [vm_compute; reflexivity|]. split; [done|]. vm_compute. by eexists. Qed.

(** ** Rendering only reads *)

Section reads.
Context `{FloatText} `{TemplateLib} `{MapRange} {W : Type} `{Server W}.

Let reads (e : Event) : Prop := mutating e = false.

Lemma emits_renderManifest ci node key template :
  emits reads (renderManifestFromTemplate ci node key template).
Proof.
  unfold renderManifestFromTemplate, buildClusterData. emits_go. by apply emits_call.
Qed.

Lemma emits_renderTemplates ci node : emits reads (renderTemplates ci node).
Proof.
  unfold renderTemplates, renderConfigMap. emits_go; [by apply emits_call|]. apply emits_renderManifest.
Qed.

(** Rendering the templates of a ClusterInstance changes nothing anywhere: every call, on every
    path and for every answer, is a read. *)
Theorem ProcessTemplates_reads ci : emits (fun e => mutating e = false) (ProcessTemplates ci).
Proof.
  unfold ProcessTemplates, renderAndCollect. emits_go; apply emits_renderTemplates.
Qed.
End reads.
