(* ===== verification/OverridesSpec.v ===== *)
(** * Install config overrides

    What [getInstallConfigOverrides] makes of the overrides of a ClusterInstance, as documents:
    the text it returns decodes to the user's overrides with the network type and the CPU
    partitioning mode set. *)
From Stdlib Require Import Ascii.
From S2P Require Import Prelude GoStd JsonScan JsonCodec JsonText JsonGrammar JsonRoundTrip.
From S2P Require Import Types Errors Validation Samples Templates.

(** ** The documents *)

(** The network type of the spec replaces the one of the user's networking section. *)
Definition with_network_type (nt : string) (networking : fields) : fields :=
  obj_set "networkType" (JStr nt) networking.

(** The overrides with the network type; none when the networking section is not an object. *)
Definition with_networking (nt : string) (o : fields) : option fields :=
  match obj_get "networking" o with
  | None => Some (obj_set "networking" (JObj (with_network_type nt [])) o)
  | Some (JObj networking) => Some (obj_set "networking" (JObj (with_network_type nt networking)) o)
  | Some _ => None
  end.

Definition with_cpu_partitioning (mode : string) (o : fields) : fields :=
  if String.eqb mode CPUPartitioningAllNodes then obj_set cpuPartitioningKey (JStr CPUPartitioningAllNodes) o else o.

(** The values the CRD admits. *)
Definition network_types : list string := ["OpenShiftSDN"; "OVNKubernetes"].

Section overrides.
Context `{FloatLaws}.

(** ** Documents and the syntax check *)

Lemma scan_all_valid data s num : scan_all s num data = true -> scan_valid s data = true.
Proof.
  revert s num. induction data as [|c data IH]; intros s num; cbn [scan_all scan_valid].
  - destruct (sc_step s); try done; by destruct (scan_step _ _) as [[[] ?]|].
  - destruct (scan_step c s) as [s'|]; [|done]. destruct (in_number (sc_step s')); [apply IH|].
    intros [_ Hs]%andb_prop. by eapply IH.
Qed.

Lemma Unmarshal_Valid data v : Unmarshal data = Some v -> Valid data = true.
Proof.
  unfold Unmarshal. destruct (Unmarshal_ok data) eqn:Hok; [|done]. intros _. by eapply scan_all_valid.
Qed.

(** What the webhook asks of the overrides: none, or a document. *)
Lemma isValidJSON_iff input : isValidJSON input = true <-> input = "" \/ exists v, Unmarshal input = Some v.
Proof.
  unfold isValidJSON. rewrite orb_true_iff, String.eqb_eq, Unmarshal_ok_iff.
  assert ((exists v, document input v) <-> exists v, Unmarshal input = Some v) as ->; [|done].
  split; intros [v Hv]; exists v; by apply Unmarshal_iff.
Qed.

Lemma Unmarshal_map_object data o : Unmarshal data = Some (JObj o) -> Unmarshal_map data = Ok (Some o).
Proof. unfold Unmarshal_map. by intros ->. Qed.

Lemma scan_valid_no_key s ps :
  (forall t, skip_space s <> String dquote t) -> scan_valid (mkScanner stBeginString ps) s = false.
Proof.
  induction s as [|c s IH]; intros Hs; [done|]. cbn [scan_valid scan_step sc_step sc_stack].
  unfold stateBeginString. cbn [skip_space] in Hs. destruct (isSpace c); [by apply IH|].
  unfold byte_is. destruct (Ascii.eqb_spec c dquote) as [->|]; [|done]. by destruct (Hs s).
Qed.

(** ** The network type *)

Lemma network_types_inv nt : nt ∈ network_types -> nt = "OpenShiftSDN" \/ nt = "OVNKubernetes".
Proof. unfold network_types. set_solver. Qed.

Definition network_member (nt : string) : string :=
  jquote "networking" +:+ ":{" +:+ jquote "networkType" +:+ ":" +:+ jquote nt +:+ "}".

Lemma networkAnnotation_member nt : networkAnnotation nt = String "{" (network_member nt +:+ "}").
Proof. unfold networkAnnotation, network_member. by autorewrite with sc. Qed.

Lemma utf8_plain s : all_bytes (fun c => (nat_of_ascii c <? 128)%nat) s = true -> utf8 s.
Proof.
  induction s as [|c s IH]; [intros; apply utf8_nil|]. simpl. intros [Hc%Nat.ltb_lt Hs]%andb_prop.
  apply utf8_ascii; auto.
Qed.

Lemma network_member_ok d nt t :
  nt ∈ network_types -> stop t = true ->
  member (S d) (network_member nt +:+ t) ("networking", JObj [("networkType", JStr nt)]) t.
Proof.
  intros Hnt Ht.
  assert (Hm : member (S d) (quoted "networking" +:+ ":" +:+ Marshal (JObj [("networkType", JStr nt)]) +:+ t)
    ("networking", JObj [("networkType", JStr nt)]) t).
  { assert (Hv : value (S d) (Marshal (JObj [("networkType", JStr nt)]) +:+ t) (JObj [("networkType", JStr nt)]) t).
    { apply Marshal_value; [|done]. constructor; [done|]. repeat constructor; simpl; apply utf8_plain;
        by destruct (network_types_inv _ Hnt) as [->| ->]. }
    apply quoted_member; [by apply utf8_plain|]. by rewrite (value_skip _ _ _ _ Hv). }
  destruct (network_types_inv _ Hnt) as [->| ->]; exact Hm.
Qed.

Lemma max_depth : exists d, maxNestingDepth = S (S d).
Proof. by exists 9998%nat. Qed.

Lemma networkAnnotation_document nt :
  nt ∈ network_types ->
  Unmarshal (networkAnnotation nt) = Some (JObj [("networking", JObj [("networkType", JStr nt)])]).
Proof.
  intros Hnt. apply Unmarshal_iff. exists "". split; [|done]. destruct max_depth as [d ->].
  rewrite networkAnnotation_member, skip_space_id by done.
  change (JObj ?l) with (JObj (fold_left put l [])) at 1. apply value_object.
  eapply members_last; [by apply network_member_ok|done].
Qed.

(** ** Joining two objects *)

Lemma obj_set_nonempty k v (o : fields) : obj_set k v o <> [].
Proof. destruct o as [|[k' v'] o]; simpl; [done|]. destruct (String.eqb k k'), (String.ltb k k'); done. Qed.

Lemma put_nonempty kvs o : kvs <> [] -> fold_left put kvs o <> [].
Proof.
  destruct kvs as [|kv kvs _] using rev_ind; [done|]. intros _. rewrite fold_left_app. apply obj_set_nonempty.
Qed.

Lemma value_object_inv d s v t :
  value d (String "{" s) v t ->
  (v = JObj [] /\ skip_space s = String "}" t)
  \/ exists d' kvs, d = S d' /\ kvs <> [] /\ v = JObj (fold_left put kvs []) /\ members d' s kvs t.
Proof.
  remember (String "{" s) as s0 eqn:E.
  destruct 1 as [? l ? ? Hl _|? l ? Hl _| | | |? s' ? Hs|? s' kvs ? Hm]; try discriminate E.
  - apply word_inv in Hl as [[-> _]|[[-> _]|[-> _]]]; discriminate E.
  - apply number_head in Hl as (c & l' & -> & Hc). injection E as -> _. by destruct Hc.
  - injection E as ->. by left.
  - injection E as ->. right. eexists _, kvs. split_and!; [done| |done|done]. by destruct Hm.
Qed.

Lemma substring_all s n : (String.length s <= n)%nat -> String.substring 0 n s = s.
Proof.
  revert n. induction s as [|c s IH]; intros n Hn; [by destruct n|]. destruct n as [|n]; simpl in *; [lia|].
  rewrite IH by lia. done.
Qed.

Lemma prefix_brace_cons s : String.prefix "{" (String "{" s) = true.
Proof. by destruct s. Qed.

Lemma TrimPrefix_brace s : TrimPrefix (String "{" s) "{" = s.
Proof.
  unfold TrimPrefix. rewrite prefix_brace_cons. cbn [String.length String.substring]. apply substring_all. lia.
Qed.

Lemma TrimPrefix_other s : String.prefix "{" s = false -> TrimPrefix s "{" = s.
Proof. unfold TrimPrefix. by intros ->. Qed.

Lemma prefix_brace s : String.prefix "{" s = true -> exists s', s = String "{" s'.
Proof.
  destruct s as [|c s]; [done|]. cbn [String.prefix]. destruct (ascii_dec "{" c) as [<-|]; [by exists s|done].
Qed.

(** What the code joins in front of the overrides. *)
Lemma trimmed_annotation nt :
  nt ∈ network_types -> TrimSuffix (networkAnnotation nt) "}" = String "{" (network_member nt).
Proof. intros Hnt. by destruct (network_types_inv _ Hnt) as [->| ->]. Qed.

Lemma joined_document nt s u :
  nt ∈ network_types -> Unmarshal (String "{" s) = Some (JObj u) -> u <> [] -> obj_get "networking" u = None ->
  Unmarshal (String "{" (network_member nt +:+ "," +:+ s))
  = Some (JObj (obj_set "networking" (JObj [("networkType", JStr nt)]) u)).
Proof.
  intros Hnt (t & Hv & Ht)%Unmarshal_iff Hu Hget. destruct max_depth as [d Hd].
  rewrite skip_space_id in Hv by done.
  apply value_object_inv in Hv as [[[= ->] _]|(d' & kvs & Hd' & _ & [= ->] & Hm)]; [done|].
  apply Unmarshal_iff. exists t. split; [|done]. rewrite skip_space_id by done. rewrite Hd'.
  replace (obj_set "networking" (JObj [("networkType", JStr nt)]) (fold_left put kvs []))
    with (fold_left put (("networking", JObj [("networkType", JStr nt)]) :: kvs) []).
  { apply value_object. apply (members_more _ _ _ (String "," s) s); [|done|exact Hm].
    assert (d' = S d) as -> by lia. by apply network_member_ok. }
  apply keys_sorted_ext; [by apply put_sorted|by apply obj_set_sorted, put_sorted|].
  intros k. cbn [fold_left]. rewrite put_get, obj_get_set. cbn [put fst snd obj_set obj_get].
  destruct (String.eqb_spec k "networking") as [->|]; [by rewrite Hget|].
  cbn. destruct (String.eqb_spec k "networking"); [done|]. by destruct (obj_get k (fold_left put kvs [])).
Qed.

(** Overrides that start with white space, and an empty object, do not join. *)
Lemma joined_invalid nt s u :
  nt ∈ network_types -> Unmarshal s = Some (JObj u) -> String.prefix "{" s = false \/ u = [] ->
  Valid (String "{" (network_member nt +:+ "," +:+ TrimPrefix s "{")) = false.
Proof.
  intros Hnt (t & Hv & Ht)%Unmarshal_iff Hs.
  assert (forall r, skip_space (TrimPrefix s "{") <> String dquote r) as Hkey.
  { intros r E. destruct (String.prefix "{" s) eqn:Hp.
    - destruct Hs as [Hs| ->]; [done|]. apply prefix_brace in Hp as [s' ->]. rewrite TrimPrefix_brace in E.
      rewrite skip_space_id in Hv by done.
      apply value_object_inv in Hv as [[_ Hv]|(d' & kvs & _ & Hne & Hv & _)]; [rewrite Hv in E; discriminate E|].
      injection Hv as Hv. by destruct (put_nonempty kvs []).
    - rewrite TrimPrefix_other in E by done. rewrite E in Hv. clear -Hv. remember (String dquote r) as s0 eqn:E.
      remember (JObj u) as v eqn:Ev. destruct Hv; try discriminate E; try discriminate Ev. subst v.
      by match goal with Hw : word _ = _ |- _ => apply word_inv in Hw as [[_ ?]|[[_ ?]|[_ ?]]] end. }
  apply (fun H => scan_valid_no_key _ [parseObjectKey] H) in Hkey.
  refine (eq_trans _ Hkey). clear Hkey. generalize (TrimPrefix s "{"). intros s'.
  destruct (network_types_inv _ Hnt) as [->| ->]; reflexivity.
Qed.

(** ** Merging two objects *)

Lemma obj_get_in k v (o : fields) : obj_get k o = Some v -> (k, v) ∈ o.
Proof.
  induction o as [|[k' v'] o IH]; [done|]. simpl. destruct (String.eqb_spec k k') as [->|].
  - intros [= ->]. left.
  - intros Hk. right. by apply IH.
Qed.

Lemma canonical_set d k v o :
  utf8 k -> canonical d v -> canonical (S d) (JObj o) -> canonical (S d) (JObj (obj_set k v o)).
Proof. intros Hk Hv Ho. inv Ho. constructor; [by apply obj_set_sorted|by apply obj_set_Forall]. Qed.

Lemma canonical_get d k v o : canonical (S d) (JObj o) -> obj_get k o = Some v -> canonical d v.
Proof.
  intros Ho Hk%obj_get_in. inversion Ho as [| | | | |? ? _ Hall]; subst. rewrite Forall_forall in Hall.
  by apply (Hall (k, v)).
Qed.

Lemma canonical_network_type d nt o :
  nt ∈ network_types -> canonical (S d) (JObj o) -> canonical (S d) (JObj (with_network_type nt o)).
Proof.
  intros Hnt Ho. apply canonical_set; [by apply utf8_plain| |done]. constructor. apply utf8_plain.
  by destruct (network_types_inv _ Hnt) as [->| ->].
Qed.

Lemma merged_document nt text o :
  nt ∈ network_types -> Unmarshal text = Some (JObj o) ->
  match obj_get "networking" o with
  | None => True
  | Some (JObj n) =>
      exists merged, mergeJSONCommonKey (networkAnnotation nt) text "networking" = Ok merged
        /\ Unmarshal merged = Some (JObj (obj_set "networking" (JObj (with_network_type nt n)) o))
  | Some _ => exists err, mergeJSONCommonKey (networkAnnotation nt) text "networking" = Err err
  end.
Proof.
  intros Hnt Ht. pose proof (Unmarshal_canonical _ _ Ht) as Hc. destruct max_depth as [d Hd]. rewrite Hd in Hc.
  unfold mergeJSONCommonKey. rewrite (Unmarshal_map_object _ _ (networkAnnotation_document nt Hnt)).
  rewrite (Unmarshal_map_object _ _ Ht). cbn [default from_option]. unfold id.
  destruct (obj_get "networking" o) as [n|] eqn:Hn; [|done]. pose proof (canonical_get _ _ _ _ Hc Hn) as Hcn.
  change (obj_get "networking" [("networking", ?x)]) with (Some x).
  destruct n as [|b|l|str|l|n]; cbn; [by eexists..|].
  eexists. split; [reflexivity|]. apply (Unmarshal_Marshal (JObj _)). rewrite Hd.
  apply canonical_set; [by apply utf8_plain| |done]. by apply canonical_network_type.
Qed.

(** ** The overrides of a ClusterInstance *)

(** What [getWorkloadPinningInstallConfigOverrides] leaves: no overrides, or the text of an object. *)
Lemma pinning_document ci u :
  let spec := CI_Spec ci in
  let o := with_cpu_partitioning (Spec_CPUPartitioning spec) u in
  (Spec_InstallConfigOverrides spec = "" /\ u = []) \/ Unmarshal (Spec_InstallConfigOverrides spec) = Some (JObj u) ->
  exists text, getWorkloadPinningInstallConfigOverrides ci = Ret (text, None)
    /\ ((text = "" /\ o = [] /\ Spec_InstallConfigOverrides spec = "") \/ Unmarshal text = Some (JObj o))
    /\ (if String.eqb (Spec_CPUPartitioning spec) CPUPartitioningAllNodes
        then String.prefix "{" text = true /\ o <> [] else text = Spec_InstallConfigOverrides spec).
Proof.
  intros spec o Hu. unfold getWorkloadPinningInstallConfigOverrides. fold spec.
  subst o. unfold with_cpu_partitioning. destruct (String.eqb _ CPUPartitioningAllNodes).
  2: { eexists. split; [reflexivity|]. split; [|done]. destruct Hu as [[Hs ->]|Hu]; auto. }
  assert ((if negb (String.eqb (Spec_InstallConfigOverrides spec) "")
           then Unmarshal_map (Spec_InstallConfigOverrides spec) else Ok (Some [])) = Ok (Some u)) as ->.
  { destruct Hu as [[-> ->]|Hu]; [done|].
    destruct (String.eqb_spec (Spec_InstallConfigOverrides spec) "") as [E|_]; [by rewrite E in Hu|].
    by apply Unmarshal_map_object. }
  eexists. split; [reflexivity|]. split; [right|split; [exact (prefix_brace_cons _)|apply obj_set_nonempty]].
  apply (Unmarshal_Marshal (JObj _)). destruct max_depth as [d Hd]. rewrite Hd.
  apply canonical_set; [by apply utf8_plain|by constructor; apply utf8_plain|].
  destruct Hu as [[_ ->]|Hu]; [by repeat constructor|]. rewrite <- Hd. by eapply Unmarshal_canonical.
Qed.

(** The overrides are given to the installer as a text joined to the operator's: an empty object
    and one after white space are refused, unless the code encodes the document again. *)
Definition joins (spec : ClusterInstanceSpec) (o : fields) : bool :=
  let overrides := Spec_InstallConfigOverrides spec in
  String.eqb overrides "" || String.eqb (Spec_CPUPartitioning spec) CPUPartitioningAllNodes
  || match obj_get "networking" o with
     | Some _ => true
     | None => String.prefix "{" overrides && match o with [] => false | _ => true end
     end.

(** C18: The install config overrides keep what the user asked for. Whatever object the overrides
    of the spec are (or when there are none), the text that is given to the installer decodes to
    that object with networking.networkType set to the spec's network type (the user's other
    networking settings kept) and, when partitioning is asked for, with the CPU partitioning mode;
    nothing else is changed, lost or added. The only objects refused are those whose networking
    is not an object, and, when the texts are joined, the empty object and one that white space
    precedes. *)
Theorem getInstallConfigOverrides_spec ci u :
  let spec := CI_Spec ci in
  let o := with_cpu_partitioning (Spec_CPUPartitioning spec) u in
  Spec_NetworkType spec ∈ network_types ->
  (Spec_InstallConfigOverrides spec = "" /\ u = []) \/ Unmarshal (Spec_InstallConfigOverrides spec) = Some (JObj u) ->
  match with_networking (Spec_NetworkType spec) o with
  | Some doc =>
      if joins spec o
      then exists text, getInstallConfigOverrides ci = Ret (Ok text) /\ Unmarshal text = Some (JObj doc)
      else exists err, getInstallConfigOverrides ci = Ret (Err err)
  | None => exists err, getInstallConfigOverrides ci = Ret (Err err)
  end.
Proof.
  intros spec o Hnt Hu. destruct (pinning_document ci u Hu) as (text & Hp & Htext & Hcpu).
  fold spec in Htext, Hcpu. fold o in Htext, Hcpu. unfold getInstallConfigOverrides. rewrite Hp. cbv zeta. fold spec.
  rewrite (Unmarshal_Valid _ _ (networkAnnotation_document _ Hnt)). cbn [negb].
  destruct Htext as [(-> & Ho & Hov)|Htext].
  { rewrite Ho. cbn. unfold joins. rewrite Hov. cbn. eexists. split; [done|]. by apply networkAnnotation_document. }
  destruct (String.eqb_spec text "") as [->|Hne]; [done|].
  rewrite (Unmarshal_Valid _ _ Htext), (Unmarshal_map_object _ _ Htext). cbn [negb default from_option]. unfold id.
  pose proof (merged_document _ _ _ Hnt Htext) as Hm. unfold with_networking.
  destruct (obj_get "networking" o) as [n|] eqn:Hn.
  { assert (joins spec o = true) as -> by (unfold joins; rewrite Hn; by rewrite !orb_true_r).
    destruct n; try (destruct Hm as [err ->]; by eexists). destruct Hm as (merged & -> & Hm). by exists merged. }
  rewrite trimmed_annotation by done. rewrite sapp_cons.
  assert (joins spec o = String.prefix "{" text && match o with [] => false | _ => true end) as ->.
  { unfold joins. rewrite Hn. destruct (String.eqb (Spec_CPUPartitioning spec) CPUPartitioningAllNodes).
    - destruct Hcpu as [-> Ho]. rewrite orb_true_r. by destruct o.
    - rewrite <- Hcpu. by apply String.eqb_neq in Hne as ->. }
  destruct (String.prefix "{" text && _) eqn:Hj.
  - apply andb_prop in Hj as [Hj Ho]. apply prefix_brace in Hj as [s ->]. rewrite TrimPrefix_brace.
    assert (o <> []) as Ho' by by destruct o.
    pose proof (joined_document _ _ _ Hnt Htext Ho' Hn) as Hd. rewrite (Unmarshal_Valid _ _ Hd).
    eexists. by split.
  - rewrite (joined_invalid _ _ _ Hnt Htext); [by eexists|].
    apply andb_false_iff in Hj as [Hj|Ho]; [by left|right; by destruct o].
Qed.
End overrides.

(** ** Examples *)

#[local] Instance float_same : FloatText := {| float_text := fun l => l |}.

Definition with_overrides (overrides cpuPartitioning : string) : ClusterInstance :=
  sno <| CI_Spec ::= fun s => s <| Spec_InstallConfigOverrides := overrides |>
                                <| Spec_CPUPartitioning := cpuPartitioning |> |>.

Example overrides_none :
  getInstallConfigOverrides (with_overrides "" "None")
  = Ret (Ok ("{" +:+ q "networking" +:+ ":{" +:+ q "networkType" +:+ ":" +:+ q "OVNKubernetes" +:+ "}}")).
Proof. vm_compute. reflexivity. Qed.

Example overrides_merged :
  getInstallConfigOverrides (with_overrides ("{" +:+ q "networking" +:+ ":{" +:+ q "a" +:+ ":1}}") "None")
  = Ret (Ok ("{" +:+ q "networking" +:+ ":{" +:+ q "a" +:+ ":1," +:+ q "networkType" +:+ ":"
             +:+ q "OVNKubernetes" +:+ "}}")).
Proof. vm_compute. reflexivity. Qed.

#[local] Instance float_same_laws : FloatLaws.
Proof. by intros l Hl. Qed.

(** The operator's network type and the partitioning mode are added to the user's document. *)
Lemma getInstallConfigOverrides_spec_witness :
  exists text,
    getInstallConfigOverrides
      (with_overrides ("{" +:+ q "networking" +:+ ":{" +:+ q "a" +:+ ":1}, " +:+ q "b" +:+ ":[]}") CPUPartitioningAllNodes)
    = Ret (Ok text)
    /\ Unmarshal text
       = Some (JObj [("b", JArr []); ("cpuPartitioningMode", JStr "AllNodes");
                     ("networking", JObj [("a", JNum "1"); ("networkType", JStr "OVNKubernetes")])]).
Proof.
  apply (getInstallConfigOverrides_spec
    (with_overrides ("{" +:+ q "networking" +:+ ":{" +:+ q "a" +:+ ":1}, " +:+ q "b" +:+ ":[]}") CPUPartitioningAllNodes)
    [("b", JArr []); ("networking", JObj [("a", JNum "1")])]).
  - change ("OVNKubernetes" ∈ network_types). right. left.
  - right. vm_compute. reflexivity.
Defined.

(** Install config overrides that validation accepts can break rendering: [null] panics when CPU
    partitioning is set (the decoded map is nil), and an empty object or an object after a space
    is refused because the texts are joined, not the documents. *)
Theorem accepted_overrides_fail `{FloatText} :
  isValidJSON "null" = true /\ isValidJSON "{}" = true
  /\ (exists msg, getInstallConfigOverrides (with_overrides "null" CPUPartitioningAllNodes) = Panic msg)
  /\ (exists err, getInstallConfigOverrides (with_overrides "{}" "None") = Ret (Err err))
  /\ exists err, getInstallConfigOverrides (with_overrides (" {" +:+ q "a" +:+ ":" +:+ q "b" +:+ "}") "None")
       = Ret (Err err).
Proof. split_and!; [done..| | |]; vm_compute; by eexists. Qed.
