(* ===== verification/TemplateData.v ===== *)
(** * The data of the templates and the rendering of a template text

    A [ClusterData] as reflection shows it to a template, its type, and the template library made
    of the language of GoTemplate. Of a struct that a third party declares (proxy, root device
    hints, NMState) only the fields that a default template reads are listed. *)
From S2P Require Import Prelude GoStd JsonScan JsonCodec GoTemplate Types Errors Validation Samples K8s.
From S2P Require Import Cluster RenderedObject RenderedSpec Templates.

(** ** Values *)

Definition key_ltb {A} (a b : string * A) : bool := String.ltb a.1 b.1.

(** The entries of a map as a template visits them. *)
Definition map_value {A} (f : A -> value) (m : gmap string A) : value :=
  VMap (List.map (fun kv => (kv.1, f kv.2)) (SortSlice key_ltb (map_to_list m))).

Definition slice_value {A} (f : A -> value) (l : list A) : value := VSlice (List.map f l).

Definition ptr_value {A} (f : A -> value) (o : option A) : value := VPtr (f <$> o).

Definition smap_value (m : smap) : value := map_value str m.

(** A struct of which a template sees nothing but the JSON. *)
Definition opaque_value (j : json) : value := VStruct [] j.

Definition LocalObjectReference_value (r : LocalObjectReference) : value :=
  VStruct [("Name", str (LOR_Name r))] (marshal_LocalObjectReference r).

Definition Reference_value (r : Reference) : value :=
  VStruct [("Name", str (Ref_Name r)); ("Namespace", str (Ref_Namespace r))] (marshal_Reference r).

Definition ResourceRef_value (r : ResourceRef) : value :=
  VStruct [("APIVersion", str (RR_APIVersion r)); ("Kind", str (RR_Kind r))] (marshal_ResourceRef r).

Definition MachineNetworkEntry_value (e : MachineNetworkEntry) : value :=
  VStruct [("CIDR", str (MNE_CIDR e))] (marshal_MachineNetworkEntry e).

Definition ClusterNetworkEntry_value (e : ClusterNetworkEntry) : value :=
  VStruct [("CIDR", str (CNE_CIDR e)); ("HostPrefix", VInt "int32" (CNE_HostPrefix e))]
    (marshal_ClusterNetworkEntry e).

Definition ServiceNetworkEntry_value (e : ServiceNetworkEntry) : value :=
  VStruct [("CIDR", str (SNE_CIDR e))] (marshal_ServiceNetworkEntry e).

Definition TangConfig_value (t : TangConfig) : value :=
  VStruct [("URL", str (Tang_URL t)); ("Thumbprint", str (Tang_Thumbprint t))] (marshal_TangConfig t).

Definition DiskEncryption_value (d : DiskEncryption) : value :=
  VStruct [("Type", str (DE_Type d)); ("Tang", slice_value TangConfig_value (DE_Tang d))]
    (marshal_DiskEncryption d).

Definition ReinstallSpec_value (r : ReinstallSpec) : value :=
  VStruct [("Generation", str (RSpec_Generation r));
           ("PreservationMode", VStr "v1alpha1.PreservationMode" (RSpec_PreservationMode r))]
    (marshal_ReinstallSpec r).

(** A field of the JSON of a struct. *)
Definition json_field (k : string) (j : json) : option json :=
  match j with JObj o => obj_get k o | _ => None end.

Definition json_elements (o : option json) : list json :=
  match o with Some (JArr l) => l | _ => [] end.

(** assisted-service's NMStateConfigSpec *)
Definition NMState_value (j : json) : value :=
  VStruct [("Interfaces", slice_value (fun i => VPtr (Some (opaque_value i)))
                            (json_elements (json_field "interfaces" j)));
           ("NetConfig", opaque_value (default JNull (json_field "config" j)))] j.

Definition NodeSpec_value (n : NodeSpec) : value :=
  VStruct [
    ("BmcAddress", str (Node_BmcAddress n));
    ("BmcCredentialsName",
      VStruct [("Name", str (BMC_Name (Node_BmcCredentialsName n)))]
        (mk_obj [("name", Some (JStr (BMC_Name (Node_BmcCredentialsName n))))]));
    ("BootMACAddress", str (Node_BootMACAddress n));
    ("AutomatedCleaningMode", VStr "v1alpha1.AutomatedCleaningMode" (Node_AutomatedCleaningMode n));
    ("RootDeviceHints", ptr_value opaque_value (Node_RootDeviceHints n));
    ("NodeNetwork", ptr_value NMState_value (Node_NodeNetwork n));
    ("NodeLabels", smap_value (Node_NodeLabels n));
    ("HostName", str (Node_HostName n));
    ("HostRef", ptr_value Reference_value (Node_HostRef n));
    ("CPUArchitecture", VStr "v1alpha1.CPUArchitecture" (Node_CPUArchitecture n));
    ("BootMode", VStr "v1alpha1.BootMode" (Node_BootMode n));
    ("InstallerArgs", str (Node_InstallerArgs n));
    ("IgnitionConfigOverride", str (Node_IgnitionConfigOverride n));
    ("Role", str (Node_Role n));
    ("ExtraAnnotations", map_value smap_value (Node_ExtraAnnotations n));
    ("ExtraLabels", map_value smap_value (Node_ExtraLabels n));
    ("SuppressedManifests", slice_value str (Node_SuppressedManifests n));
    ("PruneManifests", slice_value ResourceRef_value (Node_PruneManifests n));
    ("IronicInspect", VStr "v1alpha1.IronicInspect" (Node_IronicInspect n));
    ("TemplateRefs", slice_value Reference_value (Node_TemplateRefs n))
  ] (marshal_NodeSpec n).

Definition Spec_value (s : ClusterInstanceSpec) : value :=
  VStruct [
    ("ClusterName", str (Spec_ClusterName s));
    ("PullSecretRef", LocalObjectReference_value (Spec_PullSecretRef s));
    ("ClusterImageSetNameRef", str (Spec_ClusterImageSetNameRef s));
    ("SSHPublicKey", str (Spec_SSHPublicKey s));
    ("BaseDomain", str (Spec_BaseDomain s));
    ("ApiVIPs", slice_value str (Spec_ApiVIPs s));
    ("IngressVIPs", slice_value str (Spec_IngressVIPs s));
    ("HoldInstallation", VBool (Spec_HoldInstallation s));
    ("AdditionalNTPSources", slice_value str (Spec_AdditionalNTPSources s));
    ("MachineNetwork", slice_value MachineNetworkEntry_value (Spec_MachineNetwork s));
    ("ClusterNetwork", slice_value ClusterNetworkEntry_value (Spec_ClusterNetwork s));
    ("ServiceNetwork", slice_value ServiceNetworkEntry_value (Spec_ServiceNetwork s));
    ("NetworkType", str (Spec_NetworkType s));
    ("PlatformType", VStr "v1alpha1.PlatformType" (Spec_PlatformType s));
    ("ExtraAnnotations", map_value smap_value (Spec_ExtraAnnotations s));
    ("ExtraLabels", map_value smap_value (Spec_ExtraLabels s));
    ("InstallConfigOverrides", str (Spec_InstallConfigOverrides s));
    ("IgnitionConfigOverride", str (Spec_IgnitionConfigOverride s));
    ("DiskEncryption", ptr_value DiskEncryption_value (Spec_DiskEncryption s));
    ("Proxy", ptr_value opaque_value (Spec_Proxy s));
    ("ExtraManifestsRefs", slice_value LocalObjectReference_value (Spec_ExtraManifestsRefs s));
    ("SuppressedManifests", slice_value str (Spec_SuppressedManifests s));
    ("PruneManifests", slice_value ResourceRef_value (Spec_PruneManifests s));
    ("CPUPartitioning", VStr "v1alpha1.CPUPartitioningMode" (Spec_CPUPartitioning s));
    ("CPUArchitecture", VStr "v1alpha1.CPUArchitecture" (Spec_CPUArchitecture s));
    ("ClusterType", VStr "v1alpha1.ClusterType" (Spec_ClusterType s));
    ("TemplateRefs", slice_value Reference_value (Spec_TemplateRefs s));
    ("CaBundleRef", ptr_value LocalObjectReference_value (Spec_CaBundleRef s));
    ("Nodes", slice_value NodeSpec_value (Spec_Nodes s));
    ("Reinstall", ptr_value ReinstallSpec_value (Spec_Reinstall s))
  ] (marshal_Spec s).

(** The node of a cluster-level template. *)
Definition zero_NodeSpec : NodeSpec :=
  mkNodeSpec "" (mkBmcCredentialsName "") "" "" None None ∅ "" None "" "" "" "" "" ∅ ∅ [] [] "" [].

Definition nat_value (n : nat) : value := int (Z.of_nat n).

Definition current_node (v : SpecialVars) : NodeSpec := default zero_NodeSpec (SV_CurrentNode v).

(** The template types have no JSON tags. *)
Definition marshal_SpecialVars (v : SpecialVars) : json :=
  let int (n : nat) := Some (JNum (Itoa (Z.of_nat n))) in
  mk_obj [("CurrentNode", Some (marshal_NodeSpec (current_node v)));
          ("InstallConfigOverrides", Some (JStr (SV_InstallConfigOverrides v)));
          ("ReleaseImage", Some (JStr (SV_ReleaseImage v)));
          ("ControlPlaneAgents", int (SV_ControlPlaneAgents v));
          ("WorkerAgents", int (SV_WorkerAgents v));
          ("ArbiterAgents", int (SV_ArbiterAgents v))].

Definition SpecialVars_value (v : SpecialVars) : value :=
  VStruct [
    ("CurrentNode", NodeSpec_value (current_node v));
    ("InstallConfigOverrides", str (SV_InstallConfigOverrides v));
    ("ReleaseImage", str (SV_ReleaseImage v));
    ("ControlPlaneAgents", nat_value (SV_ControlPlaneAgents v));
    ("WorkerAgents", nat_value (SV_WorkerAgents v));
    ("ArbiterAgents", nat_value (SV_ArbiterAgents v))
  ] (marshal_SpecialVars v).

(** [Execute] gets a pointer. *)
Definition ClusterData_value (d : ClusterData) : value :=
  VPtr (Some (VStruct [("Spec", Spec_value (Data_Spec d));
                       ("SpecialVars", SpecialVars_value (Data_SpecialVars d))]
               (mk_obj [("Spec", Some (marshal_Spec (Data_Spec d)));
                        ("SpecialVars", Some (marshal_SpecialVars (Data_SpecialVars d)))]))).

(** ** The library *)

(** gopkg.in/yaml.v3 *)
Class YamlDecode := { yaml_decode : string -> result fields }.

Definition unparsed {A} (key : string) : result A :=
  Err (Errorf "template: %s: the text is malformed or outside of the language" [FStr key]).

(** [template.New(key).Funcs(funcMap()).Parse(text)] *)
Definition ParseText (key text : string) : option error :=
  match parse_template text with
  | Some _ => None
  | None => Some (Errorf "template: %s: the text is malformed or outside of the language" [FStr key])
  end.

(** [t.Execute] on what has been parsed *)
Definition ExecuteTemplate `{YamlText} (key text : string) (data : ClusterData) : result string :=
  match parse_template text with
  | Some l => exec_template l (ClusterData_value data)
  | None => unparsed key
  end.

#[export] Instance go_templates `{YamlText} `{YamlDecode} : TemplateLib := {|
  template_Parse := ParseText;
  template_Execute := ExecuteTemplate;
  yaml_Unmarshal := yaml_decode
|}.
