(* ===== verification/TemplateDataTypes.v ===== *)
(** * The Go types of the template data

    The type of [ClusterData] as the checker of TemplateTypes knows it, and that every
    [ClusterData] is of that type. *)
From S2P Require Import Prelude GoStd JsonScan JsonCodec GoTemplate TemplateTypes Types Templates.
From S2P Require Import TemplateData.

Definition TString : gotype := TStr "string".

Definition smap_type : gotype := TMap TString.

Definition opaque_type : gotype := TStruct [].


Definition LocalObjectReference_type : gotype := TStruct [("Name", TString)].

Definition Reference_type : gotype := TStruct [("Name", TString); ("Namespace", TString)].

Definition ResourceRef_type : gotype := TStruct [("APIVersion", TString); ("Kind", TString)].

Definition MachineNetworkEntry_type : gotype := TStruct [("CIDR", TString)].

Definition ClusterNetworkEntry_type : gotype :=
  TStruct [("CIDR", TString); ("HostPrefix", TInt "int32")].

Definition ServiceNetworkEntry_type : gotype := TStruct [("CIDR", TString)].

Definition TangConfig_type : gotype := TStruct [("URL", TString); ("Thumbprint", TString)].

Definition DiskEncryption_type : gotype :=
  TStruct [("Type", TString); ("Tang", TSlice TangConfig_type)].

Definition ReinstallSpec_type : gotype :=
  TStruct [("Generation", TString); ("PreservationMode", TStr "v1alpha1.PreservationMode")].

Definition NMState_type : gotype :=
  TStruct [("Interfaces", TSlice (TPtr opaque_type)); ("NetConfig", opaque_type)].

Definition NodeSpec_type : gotype :=
  TStruct [
    ("BmcAddress", TString);
    ("BmcCredentialsName", TStruct [("Name", TString)]);
    ("BootMACAddress", TString);
    ("AutomatedCleaningMode", TStr "v1alpha1.AutomatedCleaningMode");
    ("RootDeviceHints", TPtr opaque_type);
    ("NodeNetwork", TPtr NMState_type);
    ("NodeLabels", smap_type);
    ("HostName", TString);
    ("HostRef", TPtr Reference_type);
    ("CPUArchitecture", TStr "v1alpha1.CPUArchitecture");
    ("BootMode", TStr "v1alpha1.BootMode");
    ("InstallerArgs", TString);
    ("IgnitionConfigOverride", TString);
    ("Role", TString);
    ("ExtraAnnotations", TMap smap_type);
    ("ExtraLabels", TMap smap_type);
    ("SuppressedManifests", TSlice TString);
    ("PruneManifests", TSlice ResourceRef_type);
    ("IronicInspect", TStr "v1alpha1.IronicInspect");
    ("TemplateRefs", TSlice Reference_type)
  ].

Definition Spec_type : gotype :=
  TStruct [
    ("ClusterName", TString);
    ("PullSecretRef", LocalObjectReference_type);
    ("ClusterImageSetNameRef", TString);
    ("SSHPublicKey", TString);
    ("BaseDomain", TString);
    ("ApiVIPs", TSlice TString);
    ("IngressVIPs", TSlice TString);
    ("HoldInstallation", TBool);
    ("AdditionalNTPSources", TSlice TString);
    ("MachineNetwork", TSlice MachineNetworkEntry_type);
    ("ClusterNetwork", TSlice ClusterNetworkEntry_type);
    ("ServiceNetwork", TSlice ServiceNetworkEntry_type);
    ("NetworkType", TString);
    ("PlatformType", TStr "v1alpha1.PlatformType");
    ("ExtraAnnotations", TMap smap_type);
    ("ExtraLabels", TMap smap_type);
    ("InstallConfigOverrides", TString);
    ("IgnitionConfigOverride", TString);
    ("DiskEncryption", TPtr DiskEncryption_type);
    ("Proxy", TPtr opaque_type);
    ("ExtraManifestsRefs", TSlice LocalObjectReference_type);
    ("SuppressedManifests", TSlice TString);
    ("PruneManifests", TSlice ResourceRef_type);
    ("CPUPartitioning", TStr "v1alpha1.CPUPartitioningMode");
    ("CPUArchitecture", TStr "v1alpha1.CPUArchitecture");
    ("ClusterType", TStr "v1alpha1.ClusterType");
    ("TemplateRefs", TSlice Reference_type);
    ("CaBundleRef", TPtr LocalObjectReference_type);
    ("Nodes", TSlice NodeSpec_type);
    ("Reinstall", TPtr ReinstallSpec_type)
  ].

Definition SpecialVars_type : gotype :=
  TStruct [
    ("CurrentNode", NodeSpec_type);
    ("InstallConfigOverrides", TString);
    ("ReleaseImage", TString);
    ("ControlPlaneAgents", TInt "int");
    ("WorkerAgents", TInt "int");
    ("ArbiterAgents", TInt "int")
  ].

Definition ClusterData_type : gotype :=
  TStruct [("Spec", Spec_type); ("SpecialVars", SpecialVars_type)].

(** ** Every value is of its type *)

Lemma map_value_typed {A} (f : A -> value) t (m : gmap string A) :
  (forall a, has_type (f a) t) -> has_type (map_value f m) (TMap t).
Proof. intros Hf. constructor. apply Forall_forall. intros kv (x & -> & _)%list_elem_of_fmap. apply Hf. Qed.

Lemma slice_value_typed {A} (f : A -> value) t (l : list A) :
  (forall a, has_type (f a) t) -> has_type (slice_value f l) (TSlice t).
Proof. intros Hf. constructor. apply Forall_forall. intros v (x & -> & _)%list_elem_of_fmap. apply Hf. Qed.

Lemma ptr_value_typed {A} (f : A -> value) t (o : option A) :
  (forall a, has_type (f a) t) -> has_type (ptr_value f o) (TPtr t).
Proof. intros Hf. destruct o; constructor. apply Hf. Qed.

Lemma smap_value_typed m : has_type (smap_value m) smap_type.
Proof. apply map_value_typed. constructor. Qed.

Create HintDb typed discriminated.
#[local] Hint Resolve map_value_typed slice_value_typed ptr_value_typed smap_value_typed : typed.
#[local] Hint Constructors has_type : typed.

(** A struct is typed field by field. *)
Ltac typed_struct :=
  intros; constructor;
  repeat (apply Forall2_cons; split; [split; [reflexivity|]|]); [.. | try apply Forall2_nil];
  cbn [fst snd]; eauto with typed.

Lemma opaque_value_typed j : has_type (opaque_value j) opaque_type.
Proof. typed_struct. Qed.
Lemma LocalObjectReference_value_typed r : has_type (LocalObjectReference_value r) LocalObjectReference_type.
Proof. typed_struct. Qed.
Lemma Reference_value_typed r : has_type (Reference_value r) Reference_type.
Proof. typed_struct. Qed.
Lemma ResourceRef_value_typed r : has_type (ResourceRef_value r) ResourceRef_type.
Proof. typed_struct. Qed.
Lemma MachineNetworkEntry_value_typed e : has_type (MachineNetworkEntry_value e) MachineNetworkEntry_type.
Proof. typed_struct. Qed.
Lemma ClusterNetworkEntry_value_typed e : has_type (ClusterNetworkEntry_value e) ClusterNetworkEntry_type.
Proof. typed_struct. Qed.
Lemma ServiceNetworkEntry_value_typed e : has_type (ServiceNetworkEntry_value e) ServiceNetworkEntry_type.
Proof. typed_struct. Qed.
Lemma TangConfig_value_typed t : has_type (TangConfig_value t) TangConfig_type.
Proof. typed_struct. Qed.
#[local] Hint Resolve opaque_value_typed LocalObjectReference_value_typed Reference_value_typed
  ResourceRef_value_typed MachineNetworkEntry_value_typed ClusterNetworkEntry_value_typed
  ServiceNetworkEntry_value_typed TangConfig_value_typed : typed.
Lemma DiskEncryption_value_typed d : has_type (DiskEncryption_value d) DiskEncryption_type.
Proof. typed_struct. Qed.
Lemma ReinstallSpec_value_typed r : has_type (ReinstallSpec_value r) ReinstallSpec_type.
Proof. typed_struct. Qed.
Lemma NMState_value_typed j : has_type (NMState_value j) NMState_type.
Proof. typed_struct. Qed.
#[local] Hint Resolve DiskEncryption_value_typed ReinstallSpec_value_typed NMState_value_typed : typed.
Lemma NodeSpec_value_typed n : has_type (NodeSpec_value n) NodeSpec_type.
Proof. typed_struct. Qed.
#[local] Hint Resolve NodeSpec_value_typed : typed.
Lemma Spec_value_typed s : has_type (Spec_value s) Spec_type.
Proof. typed_struct. Qed.
Lemma SpecialVars_value_typed v : has_type (SpecialVars_value v) SpecialVars_type.
Proof. typed_struct. Qed.

(** The data as a pointer that is not nil. *)
Lemma ClusterData_value_typed d :
  exists v, ClusterData_value d = VPtr (Some v) /\ has_type v ClusterData_type.
Proof.
  eexists. split; [done|]. pose proof (Spec_value_typed (Data_Spec d)).
  pose proof (SpecialVars_value_typed (Data_SpecialVars d)). typed_struct.
Qed.

(** A checked template never fails on the operator's data. *)
Lemma ExecuteTemplate_checked `{YamlText} key text :
  check_template ClusterData_type text = true ->
  ParseText key text = None /\ forall data, exists out, ExecuteTemplate key text data = Ok out.
Proof.
  intros Hc. unfold ParseText, ExecuteTemplate.
  split.
  - unfold check_template in Hc. by destruct (parse_template text).
  - intros data. destruct (ClusterData_value_typed data) as (v & -> & Hv).
    destruct (check_template_sound _ _ _ Hc Hv) as (l & out & -> & Hout). eauto.
Qed.
