(* ===== verification/DefaultTemplatesSpec.v ===== *)
(** * What the default templates render to

    None of them can fail, whatever the ClusterInstance; the network templates render nothing for a
    node without a network; the objects of a node are named after its host. *)
From Stdlib Require Import Ascii.
From S2P Require Import Prelude GoStd JsonScan JsonCodec GoTemplate TemplateTypes DefaultTemplates.
From S2P Require Import Types Samples Validation K8s Templates TemplateData TemplateDataTypes.

Section default_templates.
Context `{YamlText} `{YamlDecode}.

(** C11: every default installation template is in the language and is executed without an error on
    the data of every ClusterInstance, for the cluster and for every node: no template names a
    field that its type has not, reads through a pointer that may be nil, or hands a function an
    argument of the wrong type. *)
Theorem default_templates_execute :
  Forall (fun set => Forall (fun kt =>
    template_Parse kt.1 kt.2 = None
    /\ forall data, exists buffer, template_Execute kt.1 kt.2 data = Ok buffer) set.2) install_templates.
Proof.
  assert (Hc : forallb (fun set : string * list (string * string) =>
                 forallb (fun kt => check_template ClusterData_type kt.2) set.2) install_templates = true)
    by (vm_compute; reflexivity).
  rewrite List.forallb_forall in Hc. apply Forall_forall. intros set Hset%list_elem_of_In%Hc.
  rewrite List.forallb_forall in Hset. apply Forall_forall. intros [key text] Hkt%list_elem_of_In%Hset.
  by apply ExecuteTemplate_checked.
Qed.

(** ** Reading the data *)

Definition current (data : ClusterData) : NodeSpec := current_node (Data_SpecialVars data).

(** The name and the namespace of the host of a node. *)
Definition host_key (data : ClusterData) : ObjectKey :=
  match Node_HostRef (current data) with
  | Some ref => mkObjectKey (Ref_Namespace ref) (Ref_Name ref)
  | None => mkObjectKey (Spec_ClusterName (Data_Spec data)) (Node_HostName (current data))
  end.

Lemma pop_all (vars : list (string * value)) : pop (length vars) vars = vars.
Proof. unfold pop. by rewrite Nat.sub_diag. Qed.

(** The lines that name an object after a host. *)
Definition name_lines (data : ClusterData) : string :=
  raw "
  name: `" +:+ Key_Name (host_key data) +:+ raw "`
  namespace: `" +:+ Key_Namespace (host_key data) +:+ raw "`
".

Definition act (p : list string) : node := NAction NoDecl (PCons (AField p) ANil PNil).

Definition host_ref : list string := ["SpecialVars"; "CurrentNode"; "HostRef"].

Fixpoint node_list (l : list node) : nodes :=
  match l with
  | [] => NNil
  | n :: l => NCons n (node_list l)
  end.

(** The test of the host reference that names the object. *)
Definition name_test : node :=
  let lines name namespace :=
    node_list [NText (raw "
  name: `"); act name; NText (raw "`
  namespace: `"); act namespace; NText (raw "`
")] in
  NIf (PCons (AField host_ref) ANil PNil)
    (lines (host_ref ++ ["Name"]) (host_ref ++ ["Namespace"]))
    (lines ["SpecialVars"; "CurrentNode"; "HostName"] ["Spec"; "ClusterName"]).

Lemma exec_name_test data vars :
  exec_node name_test (ClusterData_value data) vars = Ok (vars, name_lines data).
Proof.
  unfold name_lines, host_key, current. cbn. destruct (Node_HostRef _) as [ref|]; cbn;
    rewrite pop_all; repeat f_equal; rewrite ?sapp_nil_r; reflexivity.
Qed.

Lemma exec_text_node s n l dot vars :
  exec_nodes (NCons (NText s) (NCons n l)) dot vars =
  '(vars1, out1) ← exec_node n dot vars; '(vars2, out2) ← exec_nodes l dot vars1;
  mret (vars2, s +:+ out1 +:+ out2).
Proof.
  cbn. destruct (exec_node n dot vars) as [[v1 o1]|]; [|done]. cbn.
  by destruct (exec_nodes l dot v1) as [[v2 o2]|].
Qed.

(** A checked template that writes its own text and then names the object. *)
Lemma named_prefix text header l key data :
  check_template ClusterData_type text = true ->
  parse_template text = Some (NCons (NText header) (NCons name_test l)) ->
  exists rest, template_Execute key text data = Ok (header +:+ name_lines data +:+ rest).
Proof.
  intros Hc Hl. destruct (ExecuteTemplate_checked key text Hc) as [_ Hexec].
  destruct (Hexec data) as [out Hout]. cbn [template_Execute go_templates]. rewrite Hout.
  unfold ExecuteTemplate, exec_template in Hout. rewrite Hl, exec_text_node, exec_name_test in Hout. cbn in Hout.
  destruct (exec_nodes l _ _) as [[vars out2]|]; [|done]. cbn in Hout. simplify_eq. eauto.
Qed.


(** ** The network templates *)

Lemma string_drop_1 c s : string_drop 1 (String c s) = s.
Proof.
  unfold string_drop. cbn. rewrite Nat.sub_0_r. induction s as [|d s IH]; [done|]. cbn. by rewrite IH.
Qed.

Lemma has_content_ascii n c s :
  in_range 0 127 c = true ->
  has_content (S n) (String c s) = negb (unicode_IsSpace (N_of_ascii c)) || has_content n s.
Proof.
  intros Hc. cbn [has_content]. unfold DecodeRune. rewrite Hc. by rewrite string_drop_1.
Qed.

(** A text that starts with a line break and a letter is more than space. *)
Lemma has_content_line s :
  has_content (String.length (String "010" (String "a" s))) (String "010" (String "a" s)) = true.
Proof. cbn [String.length]. by rewrite !has_content_ascii by done. Qed.

Definition network_test (body : nodes) : node :=
  NIf (PCons (AField ["SpecialVars"; "CurrentNode"; "NodeNetwork"]) ANil PNil) body NNil.

Lemma exec_network_test body data vars :
  exec_nodes (NCons (network_test body) NNil) (ClusterData_value data) vars =
  match Node_NodeNetwork (current data) with
  | None => Ok (vars, "")
  | Some _ => popped (length vars) (exec_nodes body (ClusterData_value data) vars)
  end.
Proof.
  unfold network_test, current. cbn.
  destruct (Node_NodeNetwork (current_node (Data_SpecialVars data))) as [j|]; cbn.
  - destruct (exec_nodes body _ vars) as [[v out]|]; [|done]. cbn. by rewrite sapp_nil_r.
  - by rewrite pop_all.
Qed.

Lemma network_prefix text header l key data :
  check_template ClusterData_type text = true ->
  parse_template text =
    Some (NCons (network_test (NCons (NText header) (NCons name_test l))) NNil) ->
  match Node_NodeNetwork (current data) with
  | None => template_Execute key text data = Ok ""
  | Some _ => exists rest, template_Execute key text data = Ok (header +:+ name_lines data +:+ rest)
  end.
Proof.
  intros Hc Hl. destruct (proj2 (ExecuteTemplate_checked key text Hc) data) as [out Hout].
  cbn [template_Execute go_templates].
  unfold ExecuteTemplate, exec_template in *. rewrite Hl in *. rewrite exec_network_test in *.
  destruct (Node_NodeNetwork _) as [network|]; [|done].
  rewrite exec_text_node, exec_name_test in *. cbn -[pop] in *.
  destruct (exec_nodes l _ _) as [[vars out2]|]; [|done]. cbn in *. eauto.
Qed.

(** for a node without a network the NMStateConfig templates and the NetworkSecret template
    render no object; for a node with one they write an object that is named after the node's host,
    and the text is not blank, so it is decoded. *)
Theorem network_templates :
  Forall (fun text => forall key data,
    match Node_NodeNetwork (current data) with
    | None => render key text data = Ok None
    | Some _ => exists header rest,
        template_Execute key text data = Ok (header +:+ name_lines data +:+ rest)
        /\ has_content (String.length (header +:+ name_lines data +:+ rest))
             (header +:+ name_lines data +:+ rest) = true
    end) [ai_NMStateConfig; hcp_NMStateConfig; ibi_NetworkSecret].
Proof.
  assert (Hnet : forall text header l key data,
    check_template ClusterData_type text = true ->
    parse_template text =
      Some (NCons (network_test (NCons (NText (String "010" (String "a" header))) (NCons name_test l))) NNil) ->
    match Node_NodeNetwork (current data) with
    | None => render key text data = Ok None
    | Some _ => exists header rest,
        template_Execute key text data = Ok (header +:+ name_lines data +:+ rest)
        /\ has_content (String.length (header +:+ name_lines data +:+ rest))
             (header +:+ name_lines data +:+ rest) = true
    end).
  { intros text header l key data Hc Hl. pose proof (network_prefix text _ l key data Hc Hl) as Hrun.
    destruct (ExecuteTemplate_checked key text Hc) as [Hparse _].
    destruct (Node_NodeNetwork _) as [network|].
    - destruct Hrun as [rest Hrest]. do 2 eexists. split; [exact Hrest|]. apply has_content_line.
    - unfold render, ParseTemplate. rewrite Hrun. cbn [template_Parse go_templates] in *. by rewrite Hparse. }
  repeat (constructor; [intros key data; eapply Hnet; vm_compute; reflexivity|]). constructor.
Qed.
End default_templates.

(** ** Concrete texts *)

Definition data_of (node : NodeSpec) : ClusterData :=
  mkClusterData (sample_spec [node] None)
    (mkSpecialVars (Some node) "" "quay.io/openshift:4.18" 1 0 0).

(** JSON is YAML. *)
#[local] Instance json_is_yaml : YamlText := {| JSONToYAML := fun j => Ok (Marshal j +:+ String "010" "") |}.

Definition with_args (args : string) (n : NodeSpec) : NodeSpec :=
  mkNodeSpec (Node_BmcAddress n) (Node_BmcCredentialsName n) (Node_BootMACAddress n)
    (Node_AutomatedCleaningMode n) (Node_RootDeviceHints n) (Node_NodeNetwork n) (Node_NodeLabels n)
    (Node_HostName n) (Node_HostRef n) (Node_CPUArchitecture n) (Node_BootMode n) args
    (Node_IgnitionConfigOverride n) (Node_Role n) (Node_ExtraAnnotations n) (Node_ExtraLabels n)
    (Node_SuppressedManifests n) (Node_PruneManifests n) (Node_IronicInspect n) (Node_TemplateRefs n).

#[local] Instance decode_nothing : YamlDecode := {| yaml_decode := fun _ => Ok [] |}.

(** Kernel arguments with an apostrophe. *)
Definition quoted_args : string := raw "[`--append-karg`,`a='b c'`]".

Definition contains (sub : string) (r : result string) : bool :=
  match r with Ok s => Contains s sub | Err _ => false end.

(** Texts that validation accepts as JSON are pasted between apostrophes as they are, so the first
    apostrophe of the text ends the YAML scalar: the BareMetalHost templates with the installer
    arguments, the InfraEnv templates with the ignition override of the cluster. *)
Theorem apostrophes_not_escaped :
  isValidJSON quoted_args = true
  /\ forallb (fun text =>
       contains ("installer-args: '" +:+ quoted_args +:+ "'" +:+ String "010" "")
         (template_Execute "" text (data_of (with_args quoted_args node1))))
       [ai_BareMetalHost; hcp_BareMetalHost] = true.
Proof. vm_compute. done. Qed.

Example infra_env_named :
  exists rest, template_Execute "" ai_InfraEnv (data_of node1)
  = Ok (raw "apiVersion: agent-install.openshift.io/v1beta1
kind: InfraEnv
metadata:
  annotations:
    siteconfig.open-cluster-management.io/sync-wave: `1`

  name: `node1`
  namespace: `site-sno`

spec:
  clusterRef:
" +:+ rest).
Proof. eexists. vm_compute. reflexivity. Qed.
