(* ===== verification/ClusterDeployments.v ===== *)
(** * Provisioning status (internal/controller/clusterdeployment_reconciler.go)

    Watches hive's ClusterDeployments and keeps the Provisioned condition and the deployment
    conditions of the owning ClusterInstance in step. The program memory is the reconcile's own
    copy of that ClusterInstance. *)
From S2P Require Import Prelude GoStd Types Errors Conditions Samples K8s Cluster Retry.
From S2P Require Import Requeue RenderedObject RenderedSpec.

Definition ClusterInstallRequirementsMet : string := "ClusterInstallRequirementsMet".
Definition ClusterInstallCompleted : string := "ClusterInstallCompleted".
Definition ClusterInstallFailed : string := "ClusterInstallFailed".
Definition ClusterInstallStopped : string := "ClusterInstallStopped".

(* src: src/internal/controller/clusterdeployment_reconciler.go 114-121 clusterInstallConditionTypes *)
Definition clusterInstallConditionTypes : list string :=
  [ClusterInstallRequirementsMet; ClusterInstallCompleted; ClusterInstallFailed; ClusterInstallStopped].

Definition set_provisioned (now : Time) (reason status message : string) (ci : ClusterInstance)
    : ClusterInstance :=
  ci <| CI_Status ::= fun s => s <| Status_Conditions ::= fun l =>
    SetStatusCondition now l ClusterProvisioned reason status message |> |>.

(* src: src/internal/controller/clusterdeployment_reconciler.go 154-212 updateCIProvisionedStatus *)
Definition updateCIProvisionedStatus (now : Time) (cd : ClusterDeployment) (ci : ClusterInstance)
    : ClusterInstance :=
  let find := FindCDConditionType (CD_Conditions cd) in
  let installStopped := find ClusterInstallStopped in
  let installCompleted := find ClusterInstallCompleted in
  let installFailed := find ClusterInstallFailed in
  let has status c := String.eqb (CDC_Status c) status in
  if CD_Installed cd then
    match installStopped, installCompleted with
    | Some stopped, Some completed =>
        if has ConditionTrue stopped && has ConditionTrue completed then
          set_provisioned now Completed ConditionTrue "Provisioning completed" ci
        else set_provisioned now Completed ConditionTrue
               "Cluster is installed (detected from ClusterDeployment Spec.Installed=true)" ci
    | _, _ => set_provisioned now Completed ConditionTrue
                "Cluster is installed (detected from ClusterDeployment Spec.Installed=true)" ci
    end
  else
    match installStopped, installCompleted, installFailed with
    | Some stopped, Some completed, Some failed =>
        if has ConditionTrue stopped && has ConditionTrue failed then
          set_provisioned now Failed ConditionFalse "Provisioning failed" ci
        else if has ConditionFalse stopped then
          set_provisioned now InProgress ConditionFalse "Provisioning cluster" ci
        else ci
    | _, _, _ => ci
    end.

(** The condition to copy: the deployment's or an unknown one. *)
Definition install_condition (conditions : list ClusterDeploymentCondition) (cond : string)
    : ClusterDeploymentCondition :=
  match FindCDConditionType conditions cond with
  | Some c => c
  | None => mkCDCondition cond ConditionUnknown 0 0 "Unknown" "Unknown"
  end.

Definition same_content (a b : ClusterDeploymentCondition) : bool :=
  String.eqb (CDC_Status a) (CDC_Status b) && String.eqb (CDC_Reason a) (CDC_Reason b)
  && String.eqb (CDC_Message a) (CDC_Message b).

(** One condition type; the found condition is modified in place, the first of its type. *)
(* src: src/internal/controller/clusterdeployment_reconciler.go 216-246 updateCIDeploymentConditions *)
Definition updateCIDeploymentCondition (now : Time) (installCond : ClusterDeploymentCondition)
    (conditions : list ClusterDeploymentCondition) : list ClusterDeploymentCondition :=
  match FindCDConditionType conditions (CDC_Type installCond) with
  | None =>
      conditions ++ [installCond <| CDC_LastTransitionTime := now |> <| CDC_LastProbeTime := now |>]
  | Some ciCond =>
      if negb (same_content ciCond installCond) then
        update_first (fun c => String.eqb (CDC_Type c) (CDC_Type installCond))
          (fun c => mkCDCondition (CDC_Type c) (CDC_Status installCond) now
             (if negb (String.eqb (CDC_Status c) (CDC_Status installCond)) then now
              else CDC_LastTransitionTime c)
             (CDC_Reason installCond) (CDC_Message installCond)) conditions
      else conditions
  end.

Section reconciler.
Context {W : Type} `{Server W}.

Abbreviation M := (Prog ClusterInstance W Event).

(* src: src/internal/controller/clusterdeployment_reconciler.go 214-247 updateCIDeploymentConditions *)
Fixpoint updateCIDeploymentConditions (cd : ClusterDeployment) (types : list string) : M unit :=
  match types with
  | [] => mret tt
  | cond :: types =>
      now ← Now;
      _ ← modify_mem (fun ci => ci <| CI_Status ::= fun s => s <| Status_DeploymentConditions ::=
            updateCIDeploymentCondition now (install_condition (CD_Conditions cd) cond) |> |>);
      updateCIDeploymentConditions cd types
  end.

(* src: src/internal/controller/clusterdeployment_reconciler.go 249-251 getClusterInstanceOwner *)
Definition getClusterInstanceOwner (labels : smap) : string := default "" (labels !! OwnedByLabel).

(* src: src/internal/controller/clusterdeployment_reconciler.go 253-255 isOwnedByClusterInstance *)
Definition isOwnedByClusterInstance (labels : smap) : bool :=
  negb (String.eqb (getClusterInstanceOwner labels) "").

Definition NamespacedName_String (k : ObjectKey) : string :=
  Key_Namespace k +:+ "/" +:+ Key_Name k.

(** The first component tells whether the returned pointer is not nil. *)
(* src: src/internal/controller/clusterdeployment_reconciler.go 257-289 ClusterDeploymentReconciler.getClusterInstance *)
Definition getClusterInstance (cd : ClusterDeployment) : M (bool * option error) :=
  let ownedBy := getClusterInstanceOwner (CD_Labels cd) in
  if String.eqb ownedBy "" then mret (false, None)
  else
    match GetNamespacedNameFromOwnedByLabel ownedBy with
    | Err err =>
        mret (false, Some (Errorf "failed to get namespaced name from OwnedBy label (%s): %w"
                       [FStr ownedBy; FErr err]))
    | Ok ref =>
        if negb (String.eqb (Key_Namespace ref) (CD_Namespace cd)) then
          mret (false, Some (Errorf
            "clusterDeployment namespace [%s] does not match ClusterInstance namespace [%s]"
            [FStr (CD_Namespace cd); FStr (Key_Namespace ref)]))
        else
          if_err (fetchCI ref)
            (fun err =>
               if IsNotFound err then mret (false, None)
               else mret (false, Some (Errorf "failed to get ClusterInstance %s: %w"
                                   [FStr (NamespacedName_String ref); FErr err])))
            (mret (true, None))
    end.

(* src: src/internal/controller/clusterdeployment_reconciler.go 81-111 ClusterDeploymentReconciler.Reconcile *)
Definition syncProvisioning (cd : ClusterDeployment) : M (Result * option error) :=
  old ← get_mem;
  _ ← modify_mem (fun ci =>
        match Status_ClusterDeploymentRef (CI_Status ci) with
        | Some ref =>
            if String.eqb (LOR_Name ref) ""
            then ci <| CI_Status ::= fun s =>
                   s <| Status_ClusterDeploymentRef := Some (mkLocalObjectReference (CD_Name cd)) |> |>
            else ci
        | None => ci <| CI_Status ::= fun s =>
                    s <| Status_ClusterDeploymentRef := Some (mkLocalObjectReference (CD_Name cd)) |> |>
        end);
  ci ← get_mem;
  _ ← match FindStatusCondition (Status_Conditions (CI_Status ci)) ClusterProvisioned with
      | None =>
          now ← Now;
          modify_mem (set_provisioned now Unknown ConditionUnknown "Waiting for provisioning to start")
      | Some _ => mret tt
      end;
  now ← Now;
  _ ← modify_mem (updateCIProvisionedStatus now cd);
  _ ← updateCIDeploymentConditions cd clusterInstallConditionTypes;
  new ← get_mem;
  if bool_decide (CI_Status old = CI_Status new) then mret (doNotRequeue, None)
  else
    if_err (PatchCIStatus old)
      (fun err => mret (requeueWithError err))
      (mret (doNotRequeue, None)).

(* src: src/internal/controller/clusterdeployment_reconciler.go 54-112 ClusterDeploymentReconciler.Reconcile *)
Definition ClusterDeployment_Reconcile (req : ObjectKey) : M (Result * option error) :=
  r ← call (GetClusterDeployment req);
  match r with
  | Err err => if IsNotFound err then mret (doNotRequeue, None) else mret (requeueWithError err)
  | Ok clusterDeployment =>
      '(found, err) ← getClusterInstance clusterDeployment;
      if (negb found : bool) then mret (doNotRequeue, None)
      else
        match (err : option error) with
        | Some err => mret (requeueWithError err)
        | None => syncProvisioning clusterDeployment
        end
  end.

(** The map function of the watch on ClusterInstances. *)
(* src: src/internal/controller/clusterdeployment_reconciler.go 291-312 ClusterDeploymentReconciler.mapClusterInstanceToCD *)
Definition mapClusterInstanceToCD (obj : ObjectKey) : M (list ObjectKey) :=
  r ← call (GetCI obj);
  mret (match r with
        | Err _ => []
        | Ok clusterInstance =>
            match Status_ClusterDeploymentRef (CI_Status clusterInstance) with
            | Some ref =>
                if negb (String.eqb (LOR_Name ref) "")
                then [mkObjectKey (Key_Namespace obj) (LOR_Name ref)] else []
            | None => []
            end
        end).
End reconciler.

(** The predicates of the watch on ClusterDeployments. *)
(* src: src/internal/controller/clusterdeployment_reconciler.go 322-331 ClusterDeploymentReconciler.SetupWithManager *)
Definition cd_create_predicate (labels : smap) : bool := isOwnedByClusterInstance labels.
Definition cd_update_predicate (labels : smap) : bool := isOwnedByClusterInstance labels.
