(* ===== verification/ClusterDeploymentsSpec.v ===== *)
(** * Provisioning status: theorems

    The decision table of the Provisioned condition, convergence of the reconcile, and an error it
    drops. *)
From S2P Require Import Prelude GoStd Types Errors Conditions Samples K8s Cluster Retry.
From S2P Require Import Requeue RenderedObject RenderedSpec ClusterDeployments.

(** ** The Provisioned condition *)

Definition cd_status (cd : ClusterDeployment) (t : string) : option string :=
  CDC_Status <$> FindCDConditionType (CD_Conditions cd) t.

(** What the ClusterDeployment says: the reason and the status of the Provisioned condition, or
    nothing. *)
Definition provisioning (cd : ClusterDeployment) : option (string * string) :=
  if CD_Installed cd then Some (Completed, ConditionTrue)
  else
    match cd_status cd ClusterInstallStopped, cd_status cd ClusterInstallCompleted,
      cd_status cd ClusterInstallFailed with
    | Some stopped, Some _, Some failed =>
        if bool_decide (stopped = ConditionTrue /\ failed = ConditionTrue) then Some (Failed, ConditionFalse)
        else if bool_decide (stopped = ConditionFalse) then Some (InProgress, ConditionFalse) else None
    | _, _, _ => None
    end.

Definition provisioned_of (ci : ClusterInstance) : option (string * string) :=
  (fun c => (Cond_Reason c, Cond_Status c))
    <$> FindStatusCondition (Status_Conditions (CI_Status ci)) ClusterProvisioned.

(** [ci'] is [ci] with the Provisioned condition set. *)
Definition provisioned_set (now : Time) (ci ci' : ClusterInstance) (r s : string) : Prop :=
  exists m, ci' = set_provisioned now r s m ci.

Lemma updateCIProvisionedStatus_cases now cd ci :
  match provisioning cd with
  | Some (r, s) => exists m, forall now ci, updateCIProvisionedStatus now cd ci = set_provisioned now r s m ci
  | None => updateCIProvisionedStatus now cd ci = ci
  end.
Proof.
  unfold provisioning, updateCIProvisionedStatus, cd_status.
  destruct (FindCDConditionType (CD_Conditions cd) ClusterInstallStopped) as [st|] eqn:H1,
    (FindCDConditionType (CD_Conditions cd) ClusterInstallCompleted) as [co|] eqn:H2,
    (FindCDConditionType (CD_Conditions cd) ClusterInstallFailed) as [fa|] eqn:H3; simpl;
    destruct (CD_Installed cd); try (case_goal; by eexists); try (by eexists); try done.
  destruct (String.eqb_spec (CDC_Status st) ConditionTrue) as [E1|E1],
    (String.eqb_spec (CDC_Status fa) ConditionTrue) as [E2|E2],
    (String.eqb_spec (CDC_Status st) ConditionFalse) as [E3|E3]; simpl;
    repeat case_bool_decide; first [exfalso; intuition congruence|by eexists|done].
Qed.

Lemma conditions_set now r s m ci :
  Status_Conditions (CI_Status (set_provisioned now r s m ci))
  = SetStatusCondition now (Status_Conditions (CI_Status ci)) ClusterProvisioned r s m.
Proof. done. Qed.

Lemma set_provisioned_of now r s m ci : provisioned_of (set_provisioned now r s m ci) = Some (r, s).
Proof.
  unfold provisioned_of. rewrite conditions_set.
  destruct (Set_found now (Status_Conditions (CI_Status ci)) ClusterProvisioned r s m) as [lt ->]. done.
Qed.

(** C32: The Provisioned condition follows the ClusterDeployment: True/Completed whenever the spec
    says installed; otherwise, with all three install conditions present, False/Failed when the
    installation stopped and failed and False/InProgress while it has not stopped; and it is left
    alone in every other case. Nothing else of the ClusterInstance changes but that condition, and
    condition types stay unique. *)
Theorem updateCIProvisionedStatus_spec now cd ci :
  let ci' := updateCIProvisionedStatus now cd ci in
  provisioned_of ci' = match provisioning cd with Some p => Some p | None => provisioned_of ci end
  /\ (forall t, t <> ClusterProvisioned ->
       FindStatusCondition (Status_Conditions (CI_Status ci')) t
       = FindStatusCondition (Status_Conditions (CI_Status ci)) t)
  /\ (cond_unique (Status_Conditions (CI_Status ci)) -> cond_unique (Status_Conditions (CI_Status ci')))
  /\ ci' = ci <| CI_Status ::= fun s => s <| Status_Conditions := Status_Conditions (CI_Status ci') |> |>.
Proof.
  intros ci'. subst ci'. assert (H := updateCIProvisionedStatus_cases now cd ci).
  destruct (provisioning cd) as [[r s]|].
  - destruct H as [m ->]. split_and?; [apply set_provisioned_of| | |by destruct ci as [? ? []]].
    + intros t Ht. by apply Set_find_ne.
    + apply Set_unique.
  - rewrite H. by destruct ci as [? ? []].
Qed.

(** ** Deployment conditions *)

Lemma Find_CD_update_first f t l u :
  (forall c, CDC_Type (f c) = CDC_Type c) ->
  FindCDConditionType (update_first (fun c => String.eqb (CDC_Type c) t) f l) u
  = if String.eqb u t then f <$> FindCDConditionType l u else FindCDConditionType l u.
Proof.
  intros Hf. unfold FindCDConditionType. induction l as [|c l IH]; simpl.
  { by destruct (String.eqb u t). }
  destruct (String.eqb_spec (CDC_Type c) t) as [Ht|Ht]; simpl; [rewrite Hf|rewrite IH];
    destruct (String.eqb_spec u t), (String.eqb_spec (CDC_Type c) u); simpl; congruence.
Qed.

Lemma Find_CD_app l k t :
  FindCDConditionType (l ++ k) t =
  match FindCDConditionType l t with Some c => Some c | None => FindCDConditionType k t end.
Proof.
  unfold FindCDConditionType. induction l as [|c l IH]; simpl; [done|].
  by destruct (String.eqb (CDC_Type c) t).
Qed.

(** [l] shows the condition [ic]. *)
Definition shows (l : list ClusterDeploymentCondition) (ic : ClusterDeploymentCondition) : Prop :=
  exists c, FindCDConditionType l (CDC_Type ic) = Some c /\ same_content c ic = true.

Lemma same_content_refl a t u v :
  same_content (mkCDCondition t (CDC_Status a) u v (CDC_Reason a) (CDC_Message a)) a = true.
Proof. unfold same_content. simpl. by rewrite !String.eqb_refl. Qed.

Lemma update_shows now ic l : shows (updateCIDeploymentCondition now ic l) ic.
Proof.
  unfold shows, updateCIDeploymentCondition.
  destruct (FindCDConditionType l (CDC_Type ic)) as [c|] eqn:Hc.
  - destruct (same_content c ic) eqn:Hs; simpl; [by exists c|].
    rewrite Find_CD_update_first, String.eqb_refl, Hc by done. eexists. split; [done|].
    apply same_content_refl.
  - rewrite Find_CD_app, Hc. unfold FindCDConditionType. simpl. rewrite String.eqb_refl.
    eexists. split; [done|]. unfold same_content. simpl. by rewrite !String.eqb_refl.
Qed.

Lemma update_shows_other now ic ic' l :
  CDC_Type ic' <> CDC_Type ic -> shows l ic' -> shows (updateCIDeploymentCondition now ic l) ic'.
Proof.
  intros Hne (c & Hc & Hs). exists c. split; [|done]. unfold updateCIDeploymentCondition.
  destruct (FindCDConditionType l (CDC_Type ic)) eqn:Hi; [case_goal|].
  - rewrite Find_CD_update_first by done. by destruct (String.eqb_spec (CDC_Type ic') (CDC_Type ic)).
  - done.
  - by rewrite Find_CD_app, Hc.
Qed.

Lemma update_shown now ic l : shows l ic -> updateCIDeploymentCondition now ic l = l.
Proof. intros (c & Hc & Hs). unfold updateCIDeploymentCondition. by rewrite Hc, Hs. Qed.

Lemma install_condition_type conds t : CDC_Type (install_condition conds t) = t.
Proof.
  unfold install_condition. destruct (FindCDConditionType conds t) as [c|] eqn:Hc; [|done].
  apply List.find_some in Hc as [_ Hc]. by apply String.eqb_eq.
Qed.

(** The ClusterInstance agrees with its ClusterDeployment. *)
Definition in_sync (cd : ClusterDeployment) (ci : ClusterInstance) : Prop :=
  (exists ref, Status_ClusterDeploymentRef (CI_Status ci) = Some ref /\ LOR_Name ref <> "")
  /\ is_Some (FindStatusCondition (Status_Conditions (CI_Status ci)) ClusterProvisioned)
  /\ (forall now, updateCIProvisionedStatus now cd ci = ci)
  /\ Forall (fun t => shows (Status_DeploymentConditions (CI_Status ci)) (install_condition (CD_Conditions cd) t))
       clusterInstallConditionTypes.

Section converge.
Context {W : Type} `{Server W} (cd : ClusterDeployment) (Hname : CD_Name cd <> "").

Let ic := install_condition (CD_Conditions cd).
Let set_dc (l : list ClusterDeploymentCondition) (ci : ClusterInstance) : ClusterInstance :=
  ci <| CI_Status ::= fun s => s <| Status_DeploymentConditions := l |> |>.

Lemma updateCIDeploymentConditions_spec types ci w :
  NoDup types ->
  wp (updateCIDeploymentConditions cd types) (fun o ci' _ ev =>
    o = Ret tt /\ ev = [] /\ exists l, ci' = set_dc l ci
      /\ Forall (fun t => shows l (ic t)) types
      /\ (forall t, t ∉ types -> shows (Status_DeploymentConditions (CI_Status ci)) (ic t) -> shows l (ic t))
      /\ (Forall (fun t => shows (Status_DeploymentConditions (CI_Status ci)) (ic t)) types ->
           l = Status_DeploymentConditions (CI_Status ci))) ci w.
Proof.
  revert ci w. induction types as [|t types IH]; intros ci w Hnd.
  - apply wp_ret. split_and?; [done|done|]. exists (Status_DeploymentConditions (CI_Status ci)).
    split_and?; [by destruct ci as [? ? []]|done|done|done].
  - apply NoDup_cons in Hnd as [Ht Hnd]. apply wp_bind, wp_Now. intros now w' _.
    apply wp_bind, wp_modify. eapply wp_mono; [by apply IH|].
    intros o ci' w'' ev (-> & -> & l & -> & Hall & Hother & Hid). split_and?; [done|done|]. exists l.
    set (l0 := Status_DeploymentConditions (CI_Status ci)) in *.
    change (Status_DeploymentConditions _) with (updateCIDeploymentCondition now (ic t) l0) in Hother, Hid.
    split_and?; [by destruct ci as [? ? []]| | |].
    + constructor; [|done]. apply Hother; [done|]. apply update_shows.
    + intros t' [Hne Hnin]%not_elem_of_cons Hs. apply Hother; [done|].
      apply update_shows_other; [|done]. unfold ic. by rewrite !install_condition_type.
    + intros [Hst Hs]%Forall_cons. rewrite update_shown in Hid by done. by apply Hid.
Qed.

Lemma set_provisioned_id now r s m ci :
  SetStatusCondition now (Status_Conditions (CI_Status ci)) ClusterProvisioned r s m
    = Status_Conditions (CI_Status ci) ->
  set_provisioned now r s m ci = ci.
Proof.
  destruct ci as [me sp [cs a b c d e f]]. intros Hs.
  change (SetStatusCondition now cs ClusterProvisioned r s m = cs) in Hs.
  change (mkClusterInstance me sp (mkClusterInstanceStatus
    (SetStatusCondition now cs ClusterProvisioned r s m) a b c d e f)
    = mkClusterInstance me sp (mkClusterInstanceStatus cs a b c d e f)).
  by rewrite Hs.
Qed.

Lemma update_provisioned_stable now cd' ci now' :
  updateCIProvisionedStatus now' cd' (updateCIProvisionedStatus now cd' ci) = updateCIProvisionedStatus now cd' ci.
Proof.
  assert (Hc := updateCIProvisionedStatus_cases now cd' ci).
  assert (Hc' := updateCIProvisionedStatus_cases now' cd' ci).
  destruct (provisioning cd') as [[r s]|]; [|by rewrite Hc, Hc'].
  destruct Hc as [m Hm]. rewrite !Hm. apply set_provisioned_id. rewrite conditions_set.
  destruct (Set_found now (Status_Conditions (CI_Status ci)) ClusterProvisioned r s m) as [lt Hlt].
  by apply (Set_again now') in Hlt.
Qed.

Lemma provisioned_kept now cd' ci :
  is_Some (FindStatusCondition (Status_Conditions (CI_Status ci)) ClusterProvisioned) ->
  is_Some (FindStatusCondition (Status_Conditions (CI_Status (updateCIProvisionedStatus now cd' ci)))
             ClusterProvisioned).
Proof.
  intros Hs. assert (Hc := updateCIProvisionedStatus_cases now cd' ci).
  destruct (provisioning cd') as [[r s]|]; [|by rewrite Hc].
  destruct Hc as [m ->]. rewrite conditions_set. by destruct (Set_found now
    (Status_Conditions (CI_Status ci)) ClusterProvisioned r s m) as [lt ->].
Qed.

Lemma set_dc_provisioned now l ci :
  updateCIProvisionedStatus now cd (set_dc l ci) = set_dc l (updateCIProvisionedStatus now cd ci).
Proof.
  assert (Hc := updateCIProvisionedStatus_cases now cd ci).
  assert (Hc' := updateCIProvisionedStatus_cases now cd (set_dc l ci)).
  destruct (provisioning cd) as [[r s]|]; [|by rewrite Hc, Hc'].
  destruct Hc as [m Hm]. by rewrite !Hm.
Qed.

Lemma update_ref now ci :
  Status_ClusterDeploymentRef (CI_Status (updateCIProvisionedStatus now cd ci))
  = Status_ClusterDeploymentRef (CI_Status ci).
Proof.
  assert (Hc := updateCIProvisionedStatus_cases now cd ci).
  destruct (provisioning cd) as [[r s]|]; [by destruct Hc as [m ->]|by rewrite Hc].
Qed.

Lemma update_dcs now ci :
  Status_DeploymentConditions (CI_Status (updateCIProvisionedStatus now cd ci))
  = Status_DeploymentConditions (CI_Status ci).
Proof.
  assert (Hc := updateCIProvisionedStatus_cases now cd ci).
  destruct (provisioning cd) as [[r s]|]; [by destruct Hc as [m ->]|by rewrite Hc].
Qed.

Lemma types_nodup : NoDup clusterInstallConditionTypes.
Proof. by apply (bool_decide_unpack _); vm_compute. Qed.

(** From the point where the reference is set and the condition exists. *)
Definition started (ci : ClusterInstance) : Prop :=
  (exists ref, Status_ClusterDeploymentRef (CI_Status ci) = Some ref /\ LOR_Name ref <> "")
  /\ is_Some (FindStatusCondition (Status_Conditions (CI_Status ci)) ClusterProvisioned).

Lemma sync_started {A} (k : Prog ClusterInstance W Event A) Q ci w :
  started ci ->
  (forall new w', in_sync cd new -> CI_Meta new = CI_Meta ci -> CI_Spec new = CI_Spec ci ->
     (in_sync cd ci -> new = ci) -> wp k Q new w') ->
  wp (now ← Now; _ ← modify_mem (updateCIProvisionedStatus now cd);
      _ ← updateCIDeploymentConditions cd clusterInstallConditionTypes; k) Q ci w.
Proof.
  intros [Href Hp] Hk. apply wp_bind, wp_Now. intros now w' _. apply wp_bind, wp_modify, wp_bind.
  eapply wp_mono; [apply updateCIDeploymentConditions_spec, types_nodup|].
  intros o new w'' ev (-> & -> & l & -> & Hall & _ & Hid). rewrite update_dcs in Hid.
  eapply wp_mono; [apply Hk|done].
  - split; [by rewrite <-(update_ref now ci) in Href|]. split; [|split; [|done]].
    + by apply (provisioned_kept now cd) in Hp.
    + intros now'. rewrite set_dc_provisioned. by rewrite update_provisioned_stable.
  - assert (Hc := updateCIProvisionedStatus_cases now cd ci).
    destruct (provisioning cd) as [[r s]|]; [by destruct Hc as [m ->]|by rewrite Hc].
  - assert (Hc := updateCIProvisionedStatus_cases now cd ci).
    destruct (provisioning cd) as [[r s]|]; [by destruct Hc as [m ->]|by rewrite Hc].
  - intros (_ & _ & Hu & Hd). rewrite Hid by done. rewrite Hu. unfold set_dc. by destruct ci as [? ? []].
Qed.

Lemma ref_set_started_ref ci :
  let ci' := match Status_ClusterDeploymentRef (CI_Status ci) with
        | Some ref =>
            if String.eqb (LOR_Name ref) ""
            then ci <| CI_Status ::= fun s =>
                   s <| Status_ClusterDeploymentRef := Some (mkLocalObjectReference (CD_Name cd)) |> |>
            else ci
        | None => ci <| CI_Status ::= fun s =>
                    s <| Status_ClusterDeploymentRef := Some (mkLocalObjectReference (CD_Name cd)) |> |>
        end in
  (exists ref, Status_ClusterDeploymentRef (CI_Status ci') = Some ref /\ LOR_Name ref <> "")
  /\ CI_Meta ci' = CI_Meta ci /\ CI_Spec ci' = CI_Spec ci
  /\ ((exists ref, Status_ClusterDeploymentRef (CI_Status ci) = Some ref /\ LOR_Name ref <> "") -> ci' = ci).
Proof.
  destruct (Status_ClusterDeploymentRef (CI_Status ci)) as [ref|] eqn:Hr; cbv zeta.
  - destruct (String.eqb_spec (LOR_Name ref) "") as [He|He].
    + split; [by eexists|]. split_and?; [done|done|]. intros (ref' & Hr' & Hne). congruence.
    + split; [by eexists|]. done.
  - split; [by eexists|]. split_and?; [done|done|]. intros (ref' & Hr' & Hne). congruence.
Qed.

End converge.

(** ** Examples *)

Definition cd_cond (t s : string) : ClusterDeploymentCondition := mkCDCondition t s 1 1 "R" "M".

Definition sno_cd (installed : bool) (conds : list ClusterDeploymentCondition) : ClusterDeployment :=
  mkClusterDeployment "site-sno" "site-sno" {[OwnedByLabel := "site-sno_site-sno"]} installed conds.

Definition installing : ClusterDeployment :=
  sno_cd false [cd_cond ClusterInstallStopped ConditionFalse; cd_cond ClusterInstallCompleted ConditionFalse;
                cd_cond ClusterInstallFailed ConditionFalse].

Example provisioning_table :
  [provisioning installing; provisioning (sno_cd true []); provisioning (sno_cd false []);
   provisioning (sno_cd false [cd_cond ClusterInstallStopped ConditionTrue;
     cd_cond ClusterInstallCompleted ConditionFalse; cd_cond ClusterInstallFailed ConditionTrue])]
  = [Some (InProgress, ConditionFalse); Some (Completed, ConditionTrue); None; Some (Failed, ConditionFalse)].
Proof. reflexivity. Qed.


(** An error in reading the owning ClusterInstance is dropped: the reconcile answers that there is
    nothing to requeue and no error, although the code after the nil check means to return it. *)
Theorem ClusterDeployment_error_dropped {W} `{Server W} req ref cd err ci w w1 w2 :
  serve (GetClusterDeployment req) w = (Ok cd, w1) ->
  GetNamespacedNameFromOwnedByLabel (getClusterInstanceOwner (CD_Labels cd)) = Ok ref ->
  Key_Namespace ref = CD_Namespace cd ->
  serve (GetCI ref) w1 = (Err err, w2) ->
  run_out (ClusterDeployment_Reconcile req ci w) = Ret (doNotRequeue, None).
Proof.
  intros Hcd Href Hns Herr.
  apply (wp_mono _ (fun o _ _ _ => o = Ret (doNotRequeue, None)) (fun o _ _ _ => o = Ret (doNotRequeue, None)));
    [|done].
  unfold ClusterDeployment_Reconcile. apply wp_bind, wp_call. intros r w' Hr. rewrite Hcd in Hr.
  injection Hr as <- <-. apply wp_bind. unfold getClusterInstance.
  destruct (String.eqb_spec (getClusterInstanceOwner (CD_Labels cd)) "") as [He|He]; [by rewrite He in Href|].
  rewrite Href, Hns, String.eqb_refl. apply wp_if_err, wp_bind, wp_call. intros r w' Hr.
  rewrite Herr in Hr. injection Hr as <- <-. apply wp_ret. destruct (IsNotFound err); by apply wp_ret, wp_ret.
Qed.

(** A cluster whose ClusterInstances cannot be read. *)
Definition unreadable : Server cluster := {|
  serve := fun R c w =>
    match c in ApiCall R return R * cluster with
    | GetCI _ => (Err (ErrorString "timeout"), w)
    | c => cluster_serve c w
    end;
  clock := fun w => (cl_now w, w)
|}.

Lemma ClusterDeployment_error_dropped_witness :
  let w := mkCluster 100 None [] [] [installing] [] [] in
  run_out (@ClusterDeployment_Reconcile cluster unreadable (mkObjectKey "site-sno" "site-sno") sno w)
  = Ret (doNotRequeue, None).
Proof.
  intros w.
  apply (@ClusterDeployment_error_dropped cluster unreadable (mkObjectKey "site-sno" "site-sno")
    (mkObjectKey "site-sno" "site-sno") installing (ErrorString "timeout") sno w w w); reflexivity.
Defined.
