(* ===== verification/Pause.v ===== *)
(** * Pausing reconciliation (internal/controller/clusterinstance/pause.go) *)
From S2P Require Import Prelude GoStd Types Errors K8s.

Section pause.
Context {W : Type} `{Server W}.

Abbreviation M := (Prog ClusterInstance W Event).

(* src: src/internal/controller/clusterinstance/pause.go 34-78 ApplyPause *)
Definition ApplyPause (reason : string) : M (option error) :=
  clusterInstance ← get_mem;
  if ClusterInstance_IsPaused clusterInstance then mret None
  else
    let originalInstance := clusterInstance in
    _ ← modify_mem (SetMetaDataAnnotation PausedAnnotation "");
    if_err (patchCI originalInstance)
      (fun err => mret (Some (Errorf "failed to apply paused annotation: %w" [FErr err])))
      (clusterInstance ← get_mem;
       if_err (fetchCI (CI_key clusterInstance))
         (fun err => mret (Some (Errorf
            "failed to refresh ClusterInstance after metadata patch: %w" [FErr err])))
         (originalStatus ← get_mem;
          now ← Now;
          _ ← modify_mem (fun ci =>
                ci <| CI_Status ::= fun st =>
                  st <| Status_Paused := Some (mkPausedStatus now reason) |> |>);
          if_err (statusPatchCI originalStatus)
            (fun err => mret (Some (Errorf "failed to update Pause status: %w" [FErr err])))
            (mret None))).

(* src: src/internal/controller/clusterinstance/pause.go 82-121 RemovePause *)
Definition RemovePause : M (option error) :=
  clusterInstance ← get_mem;
  if negb (ClusterInstance_IsPaused clusterInstance) then mret None
  else
    let originalInstance := clusterInstance in
    _ ← modify_mem (fun ci =>
          ci <| CI_Meta ::= fun m => m <| Meta_Annotations ::= delete PausedAnnotation |> |>);
    if_err (patchCI originalInstance)
      (fun err => mret (Some (Errorf "failed to remove paused annotation: %w" [FErr err])))
      (clusterInstance ← get_mem;
       if_err (fetchCI (CI_key clusterInstance))
         (fun err => mret (Some (Errorf
            "failed to refresh ClusterInstance after metadata patch: %w" [FErr err])))
         (originalStatus ← get_mem;
          _ ← modify_mem (fun ci =>
                ci <| CI_Status ::= fun st => st <| Status_Paused := None |> |>);
          if_err (statusPatchCI originalStatus)
            (fun err => mret (Some (Errorf "failed to clear Paused status: %w" [FErr err])))
            (mret None))).

Lemma emits_ApplyPause (P : Event -> Prop) reason :
  (forall old new r, P (Ev (PatchCI old new) r)) -> (forall key r, P (Ev (GetCI key) r)) ->
  (forall old new r, P (Ev (StatusPatchCI old new) r)) -> emits P (ApplyPause reason).
Proof. intros H1 H2 H3. unfold ApplyPause. emits_go. Qed.
End pause.

#[export] Hint Extern 4 (emits _ (ApplyPause _)) => apply emits_ApplyPause : sc.
