(* ===== verification/Configuration.v ===== *)
(** * Runtime configuration (internal/controller/configuration, configuration_monitor.go, cmd/main.go)

    Go ranges over a map in an order it does not fix, so the loops over a configuration map take
    the list of its entries in the order they are visited, and the theorems hold for every
    order. The store's lock makes each read and write atomic. *)
From S2P Require Import Prelude GoStd Types Errors Samples K8s Cluster Retry Requeue.
From S2P Require Import RenderedObject.

(** ** configuration.go *)

(* src: src/internal/controller/configuration/configuration.go 25-31 DefaultAllowReinstalls *)
Definition DefaultAllowReinstalls : bool := false.
Definition DefaultMaxConcurrentReconciles : Z := 1.

(* src: src/internal/controller/configuration/configuration.go 35-45 Configuration *)
Record Configuration := mkConfiguration {
  allowReinstalls : bool;
  maxConcurrentReconciles : Z
}.

#[export] Instance Configuration_eq_dec : EqDecision Configuration.
Proof. solve_decision. Defined.

(* src: src/internal/controller/configuration/configuration.go 48-53 NewDefaultConfiguration *)
Definition NewDefaultConfiguration : Configuration :=
  mkConfiguration DefaultAllowReinstalls DefaultMaxConcurrentReconciles.

(** The zero value [&Configuration{}]. *)
Definition zeroConfiguration : Configuration := mkConfiguration false 0.

(* src: src/internal/controller/configuration/configuration.go 56-61 Configuration.ToMap *)
Definition ToMap (c : Configuration) : smap :=
  <["allowReinstalls" := FormatBool (allowReinstalls c)]>
    {["maxConcurrentReconciles" := Itoa (maxConcurrentReconciles c)]}.

Definition parsebool_error_value (s : string) : error :=
  ErrorString (Sprintf "strconv.ParseBool: parsing %q: invalid syntax" [FStr s]).

Definition invalid_value (key : string) (err : error) : error :=
  Errorf "invalid value for %q: %w" [FStr key; FErr err].

(** One iteration of the loop; an error ends it. *)
(* src: src/internal/controller/configuration/configuration.go 66-85 Configuration.FromMap *)
Definition FromMap_entry (c : Configuration) (key value : string) : Configuration * option error :=
  if String.eqb key "allowReinstalls" then
    match ParseBool value with
    | Some b => (mkConfiguration b (maxConcurrentReconciles c), None)
    | None => (c, Some (invalid_value key (parsebool_error_value value)))
    end
  else if String.eqb key "maxConcurrentReconciles" then
    match Atoi value with
    | inl z => (mkConfiguration (allowReinstalls c) z, None)
    | inr e => (c, Some (invalid_value key (atoi_error_value value e)))
    end
  else (c, Some (Errorf "unsupported key in input map: %q" [FStr key])).

(* src: src/internal/controller/configuration/configuration.go 65-87 Configuration.FromMap *)
Fixpoint FromMap (c : Configuration) (input : list (string * string)) : Configuration * option error :=
  match input with
  | [] => (c, None)
  | (key, value) :: input =>
      match FromMap_entry c key value with
      | (c', None) => FromMap c' input
      | (c', Some err) => (c', Some err)
      end
  end.

(** ** configuration_store.go *)

(** A ConfigurationStore is its configuration: [NewConfigurationStore] refuses nil. *)
(* src: src/internal/controller/configuration/configuration_store.go 37-45 NewConfigurationStore *)
Definition NewConfigurationStore (initialConfig : option Configuration) : result Configuration :=
  match initialConfig with
  | None => Err (Errorf "configuration cannot be nil" [])
  | Some c => Ok c
  end.

(* src: src/internal/controller/configuration/configuration_store.go 48-52 ConfigurationStore.SetAllowReinstalls *)
Definition SetAllowReinstalls (s : Configuration) (b : bool) : Configuration :=
  mkConfiguration b (maxConcurrentReconciles s).

(* src: src/internal/controller/configuration/configuration_store.go 55-59 ConfigurationStore.GetAllowReinstalls *)
Definition GetAllowReinstalls (s : Configuration) : bool := allowReinstalls s.

(* src: src/internal/controller/configuration/configuration_store.go 62-66 ConfigurationStore.SetMaxConcurrentReconciles *)
Definition SetMaxConcurrentReconciles (s : Configuration) (n : Z) : Configuration :=
  mkConfiguration (allowReinstalls s) n.

(* src: src/internal/controller/configuration/configuration_store.go 69-73 ConfigurationStore.GetMaxConcurrentReconciles *)
Definition GetMaxConcurrentReconciles (s : Configuration) : Z := maxConcurrentReconciles s.

(* src: src/internal/controller/configuration/configuration_store.go 82-104 ConfigurationStore.UpdateConfiguration *)
Definition UpdateConfiguration_entry (s : Configuration) (key value : string)
    : Configuration * option error :=
  if String.eqb key "allowReinstalls" then
    match ParseBool value with
    | None => (s, Some (invalid_value key (parsebool_error_value value)))
    | Some b => (if negb (Bool.eqb (GetAllowReinstalls s) b) then SetAllowReinstalls s b else s, None)
    end
  else if String.eqb key "maxConcurrentReconciles" then
    match Atoi value with
    | inr e => (s, Some (invalid_value key (atoi_error_value value e)))
    | inl z =>
        (if negb (Z.eqb (GetMaxConcurrentReconciles s) z) then SetMaxConcurrentReconciles s z else s, None)
    end
  else (s, Some (Errorf "unsupported key in input map: %q" [FStr key])).

(* src: src/internal/controller/configuration/configuration_store.go 81-107 ConfigurationStore.UpdateConfiguration *)
Fixpoint UpdateConfiguration (s : Configuration) (data : list (string * string))
    : Configuration * option error :=
  match data with
  | [] => (s, None)
  | (key, value) :: data =>
      match UpdateConfiguration_entry s key value with
      | (s', None) => UpdateConfiguration s' data
      | (s', Some err) => (s', Some err)
      end
  end.

(** ** configuration_monitor.go *)

(* src: src/internal/controller/configuration_monitor.go 40-47 SiteConfigOperatorConfigMap *)
Definition SiteConfigOperatorConfigMap : string := "siteconfig-operator-configuration".
Definition RequeueDelay : Z := 30 * 10 ^ 9.

(* src: src/internal/controller/configuration_monitor.go 147-152 ConfigurationMonitor.SetupWithManager *)
Definition isTargetConfigMap (operatorNamespace name namespace : string) : bool :=
  if negb (String.eqb name SiteConfigOperatorConfigMap) || negb (String.eqb namespace operatorNamespace)
  then false else true.

(** What a watch tells of an object, by its name and namespace. *)
Inductive WatchEvent :=
  | GenericEvent (name namespace : string)
  | CreateEvent (name namespace : string)
  | DeleteEvent (name namespace : string)
  | UpdateEvent (name namespace : string).

(** The ConfigMap is created again when it is deleted. *)
(* src: src/internal/controller/configuration_monitor.go 154-168 ConfigurationMonitor.SetupWithManager *)
Definition siteConfigCMPredicate (operatorNamespace : string) (e : WatchEvent) : bool :=
  match e with
  | GenericEvent _ _ => false
  | CreateEvent name namespace => isTargetConfigMap operatorNamespace name namespace
  | DeleteEvent name namespace => isTargetConfigMap operatorNamespace name namespace
  | UpdateEvent name namespace => isTargetConfigMap operatorNamespace name namespace
  end.

Section monitor.
Context {W : Type} `{Server W} `{MapRange}.

Abbreviation M := (Prog Configuration W Event).

(* src: src/internal/controller/configuration_monitor.go 111-125 CreateDefaultConfigurationConfigMap *)
Definition CreateDefaultConfigurationConfigMap (namespace : string) : M (option error) :=
  r ← call (CreateResource
        (mkResource "ConfigMap" namespace SiteConfigOperatorConfigMap None ∅ "" "" 0 [] "" None
           (ToMap NewDefaultConfiguration)));
  mret (match r with
        | Err err => Some (Errorf "failed to create default ConfigMap: %w" [FErr err])
        | Ok _ => None
        end).

(* src: src/internal/controller/configuration_monitor.go 128-136 GetConfigurationData *)
Definition GetConfigurationData (namespace : string) : M (result smap) :=
  r ← call (GetResource "ConfigMap" (mkObjectKey namespace SiteConfigOperatorConfigMap));
  mret (match r with
        | Err err => Err (Errorf "failed to fetch ConfigMap %s/%s: %w"
                       [FStr namespace; FStr SiteConfigOperatorConfigMap; FErr err])
        | Ok cm => Ok (Res_Data cm)
        end).

(* src: src/internal/controller/configuration_monitor.go 68-108 ConfigurationMonitor.Reconcile *)
Definition ConfigurationMonitor_Reconcile (req : ObjectKey) : M (Result * option error) :=
  if negb (String.eqb (Key_Name req) SiteConfigOperatorConfigMap) then mret (mkResult false 0, None)
  else
    data ← GetConfigurationData (Key_Namespace req);
    match data with
    | Err err =>
        if IsNotFound err then
          if_err (CreateDefaultConfigurationConfigMap (Key_Namespace req))
            (fun err => mret (mkResult false RequeueDelay, Some err))
            (mret (mkResult false 0, None))
        else mret (mkResult false RequeueDelay, Some err)
    | Ok data =>
        store ← get_mem;
        let (store', err) := UpdateConfiguration store (range_map data) in
        _ ← modify_mem (fun _ => store');
        mret (mkResult false 0,
              match err with
              | Some err => Some (Errorf "failed to update runtime configuration store: %w" [FErr err])
              | None => None
              end)
    end.

(** ** cmd/main.go *)

(** The closure also assigns [data], which is returned with the error. *)
(* src: src/cmd/main.go 429-462 initializeConfiguration *)
Fixpoint initializeConfiguration_attempts (steps : Backoff) (namespace : string) (data : smap)
    (lastErr : option error) : M (smap * option error) :=
  match steps with
  | O => mret (data, lastErr)
  | S steps =>
      r ← GetConfigurationData namespace;
      match r with
      | Ok data => mret (data, None)
      | Err err =>
          let retry err' := if isConflictOrRetriable err'
                            then initializeConfiguration_attempts steps namespace ∅ (Some err')
                            else mret (∅, Some err') in
          if IsNotFound err then
            if_err (CreateDefaultConfigurationConfigMap namespace)
              (fun createErr => retry
                 (Errorf "failed to create default configuration ConfigMap: %w" [FErr createErr]))
              (mret (ToMap NewDefaultConfiguration, None))
          else retry (Errorf "failed to retrieve configuration ConfigMap: %w" [FErr err])
      end
  end.

(* src: src/cmd/main.go 429-462 initializeConfiguration *)
Definition initializeConfiguration (namespace : string) : M (smap * option error) :=
  initializeConfiguration_attempts DefaultBackoff namespace ∅ None.

(* src: src/cmd/main.go 392-424 createConfigurationStore *)
Definition createConfigurationStore (namespace : string) : M (result Configuration) :=
  r ← initializeConfiguration namespace;
  match r with
  | (_, Some err) => mret (Err (Errorf "failed to initialize configuration: %w" [FErr err]))
  | (data, None) =>
      if bool_decide (data = ∅) then mret (Err (Errorf "configuration data is empty" []))
      else
        match FromMap zeroConfiguration (range_map data) with
        | (_, Some err) =>
            mret (Err (Errorf "failed to parse SiteConfig Operator configuration: %w" [FErr err]))
        | (config, None) =>
            mret (match NewConfigurationStore (Some config) with
                  | Err err => Err (Errorf "failed to create configuration store: %w" [FErr err])
                  | Ok store => Ok store
                  end)
        end
  end.
End monitor.

(** ** Theorems *)

(** The entries are ones the operator understands. *)
Definition valid_entry (key value : string) : bool :=
  if String.eqb key "allowReinstalls" then bool_decide (is_Some (ParseBool value))
  else if String.eqb key "maxConcurrentReconciles" then
    match Atoi value with inl _ => true | inr _ => false end
  else false.

Definition valid_data (data : smap) : bool :=
  forallb (fun kv => valid_entry kv.1 kv.2) (map_to_list data).

(** What the configuration becomes: each field from its entry, if there is one. *)
Definition configured (s : Configuration) (data : smap) : Configuration :=
  mkConfiguration
    (default (allowReinstalls s) (data !! "allowReinstalls" ≫= ParseBool))
    (default (maxConcurrentReconciles s)
       (data !! "maxConcurrentReconciles" ≫= fun v => match Atoi v with inl z => Some z | inr _ => None end)).

Lemma Update_entry s key value :
  UpdateConfiguration_entry s key value
  = (configured s {[key := value]},
     if valid_entry key value then None else (UpdateConfiguration_entry s key value).2).
Proof.
  unfold UpdateConfiguration_entry, valid_entry, configured.
  destruct (String.eqb_spec key "allowReinstalls") as [->|Ha].
  { rewrite lookup_singleton_eq, lookup_singleton_ne by done. simpl.
    destruct (ParseBool value) as [b|] eqn:Hp; rewrite ?bool_decide_true by eauto; simpl; [|by destruct s].
    destruct s as [[] n], b; simpl; done. }
  destruct (String.eqb_spec key "maxConcurrentReconciles") as [->|Hm].
  { rewrite lookup_singleton_ne, lookup_singleton_eq by done. simpl.
    destruct (Atoi value) as [z|]; simpl; [|by destruct s].
    destruct (Z.eqb_spec (GetMaxConcurrentReconciles s) z) as [<-|]; simpl; by destruct s. }
  rewrite !lookup_singleton_ne by done. by destruct s.
Qed.

Lemma configured_insert s key value data :
  data !! key = None ->
  configured s (<[key := value]> data) = configured (configured s {[key := value]}) data.
Proof.
  intros Hk. unfold configured. simpl. f_equal.
  - destruct (decide (key = "allowReinstalls")) as [->|Hne].
    + rewrite lookup_insert_eq, lookup_singleton_eq, Hk. simpl. by destruct (ParseBool value).
    + by rewrite lookup_insert_ne, lookup_singleton_ne by done.
  - destruct (decide (key = "maxConcurrentReconciles")) as [->|Hne].
    + rewrite lookup_insert_eq, lookup_singleton_eq, Hk. simpl. by destruct (Atoi value).
    + by rewrite lookup_insert_ne, lookup_singleton_ne by done.
Qed.

Lemma Update_entry_error s key value :
  valid_entry key value = false -> is_Some (UpdateConfiguration_entry s key value).2.
Proof.
  unfold valid_entry, UpdateConfiguration_entry. intros Hv.
  destruct (String.eqb key _); [destruct (ParseBool value); simpl; [done|eauto]|].
  destruct (String.eqb key _); [destruct (Atoi value); simpl; [done|eauto]|eauto].
Qed.

Lemma Update_list s (l : list (string * string)) :
  NoDup l.*1 ->
  if forallb (fun kv => valid_entry kv.1 kv.2) l
  then UpdateConfiguration s l = (configured s (list_to_map l), None)
  else is_Some (UpdateConfiguration s l).2.
Proof.
  revert s. induction l as [|[k v] l IH]; intros s Hnd; [by destruct s|].
  apply NoDup_cons in Hnd as [Hk Hnd]. simpl. rewrite Update_entry.
  destruct (valid_entry k v) eqn:Hv; simpl.
  - specialize (IH (configured s {[k := v]}) Hnd). destruct (forallb _ l); [|done].
    by rewrite IH, <-configured_insert by by apply not_elem_of_list_to_map_1.
  - destruct (Update_entry_error s k v Hv) as [e He]. rewrite He. eauto.
Qed.

(** C34: Updating the runtime configuration from a ConfigMap does not depend on the order in which
    the entries are visited: when every entry is understood, each field takes the value of its
    entry (or keeps its own) and there is no error; otherwise there is an error. *)
Theorem UpdateConfiguration_spec s (data : smap) l :
  l ≡ₚ map_to_list data ->
  if valid_data data then UpdateConfiguration s l = (configured s data, None)
  else is_Some (UpdateConfiguration s l).2.
Proof.
  intros Hl. assert (Hnd : NoDup l.*1) by (rewrite Hl; apply NoDup_fst_map_to_list).
  assert (Hv : valid_data data = forallb (fun kv => valid_entry kv.1 kv.2) l).
  { unfold valid_data. apply eq_true_iff_eq. rewrite !forallb_forall.
    setoid_rewrite <-list_elem_of_In. by setoid_rewrite Hl. }
  rewrite Hv, <-(list_to_map_to_list data), <-(list_to_map_proper l (map_to_list data)) by done.
  by apply Update_list.
Qed.

Lemma UpdateConfiguration_spec_witness :
  UpdateConfiguration zeroConfiguration [("maxConcurrentReconciles", "4"); ("allowReinstalls", "true")]
  = (mkConfiguration true 4, None).
Proof.
  assert (Hp := UpdateConfiguration_spec zeroConfiguration
    (ToMap (mkConfiguration true 4)) [("maxConcurrentReconciles", "4"); ("allowReinstalls", "true")]).
  apply Hp. vm_compute. apply Permutation_refl || apply perm_swap.
Defined.

Lemma FromMap_Update c input :
  FromMap c input = UpdateConfiguration c input.
Proof.
  revert c. induction input as [|[k v] input IH]; intros c; [done|]. simpl.
  replace (FromMap_entry c k v) with (UpdateConfiguration_entry c k v);
    [destruct (UpdateConfiguration_entry c k v) as [c' [e|]]; [done|apply IH]|].
  unfold FromMap_entry, UpdateConfiguration_entry.
  destruct (String.eqb k _); [destruct (ParseBool v) as [b|]; [|done]; by destruct c as [[] n], b|].
  destruct (String.eqb k _); [|done]. destruct (Atoi v) as [z|]; [|done].
  destruct c as [a n]. simpl. by destruct (Z.eqb_spec n z) as [->|].
Qed.

(** C35: A configuration written to a ConfigMap and read back is the same one, whatever was in the
    object it is read into and in whatever order the entries are visited. *)
Theorem ToMap_FromMap c c0 l :
  (min_int <= maxConcurrentReconciles c <= max_int)%Z ->
  l ≡ₚ map_to_list (ToMap c) -> FromMap c0 l = (c, None).
Proof.
  intros Hn Hl. rewrite FromMap_Update. assert (H := UpdateConfiguration_spec c0 (ToMap c) l Hl).
  assert (Hc : configured c0 (ToMap c) = c).
  { unfold configured, ToMap. rewrite lookup_insert_eq, lookup_insert_ne, lookup_singleton_eq by done.
    simpl. rewrite ParseBool_FormatBool, Atoi_Itoa by done. by destruct c. }
  assert (Hv : valid_data (ToMap c) = true).
  { unfold valid_data. apply forallb_forall. intros [k v] Hin%list_elem_of_In%elem_of_map_to_list.
    unfold ToMap in Hin. apply lookup_insert_Some in Hin as [[<- <-]|[_ [<- <-]%lookup_singleton_Some]];
      unfold valid_entry; simpl; [by rewrite ParseBool_FormatBool|by rewrite Atoi_Itoa]. }
  by rewrite Hv, Hc in H.
Qed.

Lemma ToMap_FromMap_witness :
  FromMap zeroConfiguration (map_to_list (ToMap NewDefaultConfiguration)) = (NewDefaultConfiguration, None).
Proof. apply ToMap_FromMap; [vm_compute; split; congruence|reflexivity]. Defined.
