(* ===== verification/Deletion.v ===== *)
(** * Deleting rendered manifests (internal/controller/deletion/deletion.go)

    [DeleteObjects] takes the waves in descending order and stops after a wave of which something
    is left. Its locals are a record; the deferred status update is [finishDeletion]. *)
From S2P Require Import Prelude GoStd Types Errors K8s Retry Requeue RenderedObject.

(* src: src/internal/controller/deletion/deletion.go 40-40 DefaultDeletionTimeout *)
Definition DefaultDeletionTimeout : Duration := (30 * Minute)%Z.

(** ** Helpers *)

(** The JSON of a manifest reference: an object with its identity and its wave. *)
Definition manifest_fields (apiVersion : string) (manifest : ManifestReference) : fields :=
  [ ("apiVersion", JStr apiVersion);
    ("kind", JStr (MRef_Kind manifest));
    ("metadata", JObj
      [ ("annotations", JObj [(WaveAnnotation, JStr (Sprintf "%d" [FInt (MRef_SyncWave manifest)]))]);
        ("name", JStr (MRef_Name manifest));
        ("namespace", JStr (MRef_Namespace manifest)) ]) ].

(** [*manifest.APIGroup] panics on nil. *)
(* src: src/internal/controller/deletion/deletion.go 215-234 objectsForClusterInstance *)
Fixpoint objectsForManifests (manifests : list ManifestReference) : outcome (list RenderedObject) :=
  match manifests with
  | [] => Ret []
  | manifest :: manifests =>
      match MRef_APIGroup manifest with
      | None => Panic "invalid memory address or nil pointer dereference"
      | Some apiGroup =>
          match objectsForManifests manifests with
          | Panic msg => Panic msg
          | Ret objects =>
              match NewRenderedObject (manifest_fields apiGroup manifest) with
              | (object, None) => Ret (object :: objects)
              | (_, Some _) => Ret objects
              end
          end
      end
  end.

(* src: src/internal/controller/deletion/deletion.go 268-279 filterOutDeletedManifests *)
Definition filterOutDeletedManifests (manifestsRendered manifestsDeleted : list ManifestReference)
    : list ManifestReference :=
  List.filter (fun manifest =>
    match IndexOfManifestByIdentity manifest manifestsDeleted with
    | Ok _ => false
    | Err _ => true
    end) manifestsRendered.

Definition ObjectMeta_deleting (m : ObjectMeta) : option Time :=
  match Meta_DeletionTimestamp m with
  | Some t => if IsZero t then None else Some t
  | None => None
  end.

Definition object_key (o : RenderedObject) : ObjectKey := mkObjectKey (GetNamespace o) (GetName o).

Section deletion.
Context {W : Type} `{Server W}.

Abbreviation M := (Prog ClusterInstance W Event).

(** [time.Since(startTime) > *timeout] *)
(* src: src/internal/controller/deletion/deletion.go 261-266 timeoutExceeded *)
Definition timeoutExceeded (startTime : Time) (timeout : option Duration) : M bool :=
  match timeout with
  | None => mret false
  | Some timeout => now ← Now; mret (timeout <? now - startTime)%Z
  end.

(** The live metadata, or [None] when the object is gone. *)
(* src: src/internal/controller/deletion/deletion.go 236-244 isObjectDeleted *)
Definition isObjectDeleted (object : RenderedObject) : M (result (option ObjectMeta)) :=
  r ← call (ObjGet (GetAPIVersion object) (GetKind object) (object_key object));
  mret (match r with
        | Ok live => Ok (Some live)
        | Err err =>
            if IsNotFound err then Ok None
            else Err (Errorf "failed to retrieve object: %w" [FErr err])
        end).

(* src: src/internal/controller/deletion/deletion.go 246-258 initiateObjectDeletion *)
Definition initiateObjectDeletion (object : RenderedObject) (live : ObjectMeta) : M (option error) :=
  r ← call (ObjDelete (GetAPIVersion object) (GetKind object) (object_key object));
  mret (match IgnoreNotFound r with
        | Some err => Some (Errorf "failed to delete object (%s/%s): %w"
                        [FStr (Meta_Namespace live); FStr (Meta_Name live); FErr err])
        | None => None
        end).

(* src: src/internal/controller/deletion/deletion.go 174-211 DeletionHandler.DeleteObject *)
Definition DeleteObject (object : RenderedObject) (deletionTimeout : option Duration)
    : M (bool * option error) :=
  clusterInstance ← get_mem;
  let resourceId := RenderedObject_GetResourceId object in
  r ← isObjectDeleted object;
  match r with
  | Err err => mret (false, Some err)
  | Ok None => mret (true, None)
  | Ok (Some live) =>
      let key := CI_key clusterInstance in
      let ownerRefLabel := GenerateOwnedByLabelValue (Key_Namespace key) (Key_Name key) in
      match VerifyOwnership (Meta_Labels live) (Meta_Name live) (Meta_Namespace live)
              (GetKind object) ownerRefLabel with
      | Some err =>
          mret (false, Some (Errorf "ownership verification failed for object %s: %w"
                         [FStr resourceId; FErr err]))
      | None =>
          match ObjectMeta_deleting live with
          | None =>
              if_err (initiateObjectDeletion object live)
                (fun err => mret (false, Some (Errorf
                   "failed to initiate deletion for object (%s): %w" [FStr resourceId; FErr err])))
                (mret (false, None))
          | Some since =>
              exceeded ← timeoutExceeded since deletionTimeout;
              if (exceeded : bool) then
                mret (false, Some (Errorf "deletion timeout exceeded for object (%s): %w"
                       [FStr resourceId; FErr (NewDeletionTimeoutError resourceId)]))
              else mret (false, None)
          end
      end
  end.

(** The locals of [DeleteObjects] that its loops change. *)
Record deletionState := mkDeletionState {
  ds_rendered : list ManifestReference;  (* manifestsRendered *)
  ds_deleted : list ManifestReference;   (* manifestsDeleted *)
  ds_errs : list error                   (* errs *)
}.

(** [manifest := &manifestsRendered[index]; manifest.UpdateStatus(...)] *)
Definition updateManifest (now : Time) (index : nat) (status message : string)
    (st : deletionState) : deletionState :=
  mkDeletionState (alter (ManifestReference_UpdateStatus now status message) index (ds_rendered st))
    (ds_deleted st) (ds_errs st).

(** The body of the loop over the objects of a wave. The second component of the loop state is
    [syncWaveGroupDeleted]; [inr] returns from the function. *)
(* src: src/internal/controller/deletion/deletion.go 115-161 DeletionHandler.DeleteObjects *)
Definition deleteOne (excludeObjects : list RenderedObject) (deletionTimeout : option Duration)
    (object : RenderedObject) (loop : deletionState * bool)
    : M (deletionState * bool + deletionState) :=
  let '(st, syncWaveGroupDeleted) := loop in
  match IndexOfObjectByIdentity object excludeObjects with
  | Ok _ => mret (inl (st, syncWaveGroupDeleted))
  | Err _ =>
      now0 ← Now;
      match RenderedObject_ManifestReference now0 object with
      | None => panic "invalid memory address or nil pointer dereference"
      | Some ref =>
          match IndexOfManifestByIdentity ref (ds_rendered st) with
          | Err _ => mret (inl (st, syncWaveGroupDeleted))
          | Ok index =>
              match ds_rendered st !! index with
              | None => panic "index out of range"
              | Some manifest =>
                  '(deleted, err) ← DeleteObject object deletionTimeout;
                  if (deleted || IsNotOwnedObject err)%bool then
                    mret (inl (mkDeletionState (ds_rendered st) (ds_deleted st ++ [manifest])
                                 (ds_errs st), syncWaveGroupDeleted))
                  else
                    match err with
                    | Some e =>
                        now ← Now;
                        let st' := mkDeletionState (ds_rendered st) (ds_deleted st)
                                     (ds_errs st ++ [e]) in
                        if IsDeletionTimeoutError err then
                          mret (inr (updateManifest now index ManifestDeletionTimedOut (Error e) st'))
                        else
                          mret (inl (updateManifest now index ManifestDeletionFailure (Error e) st',
                                     syncWaveGroupDeleted))
                    | None =>
                        if negb (String.eqb (MRef_Status manifest) ManifestDeletionInProgress) then
                          now ← Now;
                          mret (inl (updateManifest now index ManifestDeletionInProgress "" st, false))
                        else mret (inl (st, false))
                    end
              end
          end
      end
  end.

(** The body of the loop over the waves; [inr] returns from the function. *)
Definition deleteWave (waveMap : SyncWaveMap) (excludeObjects : list RenderedObject)
    (deletionTimeout : option Duration) (syncWave : Z) (st : deletionState)
    : M (deletionState + deletionState) :=
  r ← for_range (GetObjectsForSyncWave waveMap syncWave) (st, true)
        (deleteOne excludeObjects deletionTimeout);
  match r with
  | inr st' => mret (inr st')
  | inl (st', syncWaveGroupDeleted) =>
      if (match ds_errs st' with [] => false | _ => true end || negb syncWaveGroupDeleted)%bool
      then mret (inr st') else mret (inl st')
  end.

(** The deferred function. *)
(* src: src/internal/controller/deletion/deletion.go 98-110 DeletionHandler.DeleteObjects *)
Definition finishDeletion (st : deletionState) : M (option error) :=
  clusterInstance ← get_mem;
  let manifestsRendered := filterOutDeletedManifests (ds_rendered st) (ds_deleted st) in
  if bool_decide (Status_ManifestsRendered (CI_Status clusterInstance) = manifestsRendered) then
    mret (NewAggregate (ds_errs st))
  else
    _ ← modify_mem (fun ci =>
          ci <| CI_Status ::= fun s => s <| Status_ManifestsRendered := manifestsRendered |> |>);
    updateErr ← PatchCIStatus clusterInstance;
    mret (NewAggregate (ds_errs st ++ option_list updateErr)).

(* src: src/internal/controller/deletion/deletion.go 73-171 DeletionHandler.DeleteObjects *)
Definition DeleteObjects (objects excludeObjects : list RenderedObject)
    (deletionTimeout : option Duration) : M (bool * option error) :=
  clusterInstance ← get_mem;
  let manifestsRendered := Status_ManifestsRendered (CI_Status clusterInstance) in
  let objectSyncWaveMap := (SyncWaveMap_AddObjects ∅ objects).1 in
  r ← for_range (GetDescendingSyncWaves objectSyncWaveMap)
        (mkDeletionState manifestsRendered [] [])
        (deleteWave objectSyncWaveMap excludeObjects deletionTimeout);
  match r with
  | inr st => err ← finishDeletion st; mret (false, err)
  | inl st => err ← finishDeletion st; mret (true, err)
  end.

(* src: src/internal/controller/deletion/deletion.go 48-65 DeletionHandler.DeleteRenderedObjects *)
Definition DeleteRenderedObjects (excludeObjects : list RenderedObject)
    (deletionTimeout : option Duration) : M (bool * option error) :=
  clusterInstance ← get_mem;
  match Status_ManifestsRendered (CI_Status clusterInstance) with
  | [] => mret (true, None)
  | manifests =>
      match objectsForManifests manifests with
      | Panic msg => panic msg
      | Ret objects => DeleteObjects objects excludeObjects deletionTimeout
      end
  end.
End deletion.
