(* ===== verification/DeletionSpec.v ===== *)
(** * Deleting rendered manifests: theorems

    For any API server: what is deleted, in which order, what the status forgets, and that the
    handler always returns. The one assumption on the server is that its errors are not the
    operator's own ownership errors. *)
From S2P Require Import Prelude GoStd Types Errors Samples K8s Cluster Retry Requeue.
From S2P Require Import RenderedObject RenderedSpec Deletion.

(** ** Events seen from here *)

Abbreviation object_id := (string * string * ObjectKey)%type.

Definition as_delete (e : Event) : option object_id :=
  match e with
  | Ev (ObjDelete a k key) _ => Some (a, k, key)
  | _ => None
  end.

Definition as_get (e : Event) : option (object_id * result ObjectMeta) :=
  match e with
  | @Ev R c r =>
      match c in ApiCall R return R -> option (object_id * result ObjectMeta) with
      | ObjGet a k key => fun r => Some ((a, k, key), r)
      | _ => fun _ => None
      end r
  end.

Definition as_status_patch (e : Event) : option ClusterInstance :=
  match e with
  | Ev (StatusPatchCI _ new) _ => Some new
  | _ => None
  end.

Definition oid (o : RenderedObject) : object_id := (GetAPIVersion o, GetKind o, object_key o).
Definition mid (o : RenderedObject) : option string * string * string * string :=
  (Some (GetAPIVersion o), GetKind o, GetName o, GetNamespace o).

(** The owned-by label of a live object names [ci]. *)
Definition owned (ci : ClusterInstance) (live : ObjectMeta) : Prop :=
  GetOwner (Meta_Labels live)
  = GenerateOwnedByLabelValue (Key_Namespace (CI_key ci)) (Key_Name (CI_key ci)).

(** The answer to a get says that the object is gone or belongs to somebody else. *)
Definition gone_response (ci : ClusterInstance) (r : result ObjectMeta) : Prop :=
  match r with
  | Ok live => ~ owned ci live
  | Err e => IsNotFound e = true
  end.

Definition seen_gone (ci : ClusterInstance) (o : RenderedObject) (ev : list Event) : Prop :=
  exists r, (oid o, r) ∈ omap as_get ev /\ gone_response ci r.

(** What the handler may touch: an object with a readable wave that is not excluded and that
    the status tracks. *)
Definition candidate (ci : ClusterInstance) (excl : list RenderedObject) (o : RenderedObject) : Prop :=
  storable o = true
  /\ (forall x, x ∈ excl -> RenderedObject_MatchesIdentity x o = false)
  /\ mid o ∈ List.map MRef_identity (Status_ManifestsRendered (CI_Status ci)).

(** A delete call may follow the calls [pre]. *)
Definition delete_allowed (ci : ClusterInstance) (objects excl : list RenderedObject)
    (pre : list Event) (e : Event) : Prop :=
  forall id, as_delete e = Some id -> exists o live,
    o ∈ objects /\ candidate ci excl o /\ id = oid o
    /\ (last pre ≫= as_get) = Some (id, Ok live) /\ owned ci live /\ ObjectMeta_deleting live = None
    /\ forall o', o' ∈ objects -> candidate ci excl o' -> (wave_of o < wave_of o')%Z ->
         seen_gone ci o' pre.

(** A status patch may follow the calls [pre]: a manifest that it drops has been seen gone. *)
Definition status_allowed (ci : ClusterInstance) (objects excl : list RenderedObject)
    (pre : list Event) (e : Event) : Prop :=
  forall new, as_status_patch e = Some new ->
    forall m, m ∈ Status_ManifestsRendered (CI_Status ci) ->
      MRef_identity m ∈ List.map MRef_identity (Status_ManifestsRendered (CI_Status new))
      \/ exists o, o ∈ objects /\ candidate ci excl o /\ mid o = MRef_identity m /\ seen_gone ci o pre.

Definition deletion_step ci objects excl pre e : Prop :=
  delete_allowed ci objects excl pre e /\ status_allowed ci objects excl pre e.

(** ** Lemmas *)

Lemma seen_gone_app_l ci o ev ev' : seen_gone ci o ev -> seen_gone ci o (ev ++ ev').
Proof. intros (r & Hr & Hg). exists r. split; [|done]. rewrite omap_app. set_solver. Qed.

Lemma seen_gone_app_r ci o ev ev' : seen_gone ci o ev' -> seen_gone ci o (ev ++ ev').
Proof. intros (r & Hr & Hg). exists r. split; [|done]. rewrite omap_app. set_solver. Qed.

Lemma owned_verify ci live kind :
  VerifyOwnership (Meta_Labels live) (Meta_Name live) (Meta_Namespace live) kind
    (GenerateOwnedByLabelValue (Key_Namespace (CI_key ci)) (Key_Name (CI_key ci))) = None
  <-> owned ci live.
Proof.
  unfold VerifyOwnership, owned.
  destruct (String.eqb_spec (GetOwner (Meta_Labels live))
    (GenerateOwnedByLabelValue (Key_Namespace (CI_key ci)) (Key_Name (CI_key ci)))); simpl; naive_solver.
Qed.

Lemma verify_not_owned labels name ns kind l e :
  VerifyOwnership labels name ns kind l = Some e ->
  IsNotOwnedObject (Some e) = true.
Proof.
  unfold VerifyOwnership, IsNotOwnedObject. case_goal; [|done]. intros [= <-].
  erewrite isErrorOfType_Errorf by reflexivity. reflexivity.
Qed.

Lemma not_excluded o excl :
  (exists e, IndexOfObjectByIdentity o excl = Err e) <->
  forall x, x ∈ excl -> RenderedObject_MatchesIdentity x o = false.
Proof.
  unfold IndexOfObjectByIdentity. rewrite <-Forall_forall, <-index_of_None.
  destruct (index_of _ excl); naive_solver.
Qed.

Lemma tracked_index m l :
  (exists i, IndexOfManifestByIdentity m l = Ok i) <-> MRef_identity m ∈ List.map MRef_identity l.
Proof.
  split.
  - intros [i Hi]. apply IndexOfManifestByIdentity_Ok in Hi as (r & Hr & <-).
    apply list_elem_of_In, in_map, list_elem_of_In. by eapply list_elem_of_lookup_2.
  - intros Hin. apply list_elem_of_In, in_map_iff in Hin as (r & Hr & Hin).
    unfold IndexOfManifestByIdentity. case_goal; [eauto|]. apply index_of_None in Heqo.
    rewrite List.Forall_forall in Heqo. specialize (Heqo r Hin). simpl in Heqo.
    assert (ManifestReference_MatchesIdentity r m = true) by by apply MatchesIdentity_spec.
    congruence.
Qed.

Lemma MRef_of_object now o r : RenderedObject_ManifestReference now o = Some r -> MRef_identity r = mid o.
Proof. unfold RenderedObject_ManifestReference. destruct (GetSyncWave o); [|done]. by intros [= <-]. Qed.

Lemma storable_reference now o : storable o = true -> is_Some (RenderedObject_ManifestReference now o).
Proof.
  unfold storable, RenderedObject_ManifestReference. destruct (RO_object o); [|done].
  destruct (GetSyncWave o); [eauto|done].
Qed.

Lemma updateManifest_ids now i st msg ds :
  List.map MRef_identity (ds_rendered (updateManifest now i st msg ds))
  = List.map MRef_identity (ds_rendered ds).
Proof.
  simpl. generalize (ds_rendered ds). intros l. revert i.
  induction l as [|m l IH]; intros [|i]; simpl; [done|done|by rewrite UpdateStatus_identity|].
  f_equal. apply IH.
Qed.

(** ** One object *)

(** The API server does not answer with the operator's ownership errors. *)
Definition api_errors_plain {W} `{Server W} : Prop :=
  forall w a k key e w',
    ((serve (ObjGet a k key) w : result ObjectMeta * W) = (Err e, w')
     \/ (serve (ObjDelete a k key) w : option error * W) = (Some e, w')) ->
    IsNotOwnedObject (Some e) = false.

Section one_object.
Context {W : Type} `{Server W} (plain : api_errors_plain (W := W)).
Context (objects excl : list RenderedObject) (timeout : option Duration).

(** What the calls on one object say about its outcome. *)
Definition object_calls (ci : ClusterInstance) (o : RenderedObject) (b : bool) (err : option error)
    (ev : list Event) : Prop :=
  (exists r, as_get <$> ev = [Some (oid o, r)] /\ as_delete <$> ev = [None]
    /\ as_status_patch <$> ev = [None]
    /\ (b || IsNotOwnedObject err = true -> gone_response ci r))
  \/ exists live, as_get <$> ev = [Some (oid o, Ok live); None]
    /\ as_delete <$> ev = [None; Some (oid o)] /\ as_status_patch <$> ev = [None; None]
    /\ owned ci live /\ ObjectMeta_deleting live = None
    /\ b || IsNotOwnedObject err = false.

Lemma not_owned_Errorf f args e :
  (sprintf f args).2 = [e] -> IsNotOwnedObject (Some (Errorf f args)) = IsNotOwnedObject (Some e).
Proof. apply isErrorOfType_Errorf. Qed.

Lemma DeleteObject_spec ci o w :
  wp (DeleteObject o timeout) (fun out s' _ ev =>
    s' = ci /\ exists b err, out = Ret (b, err) /\ object_calls ci o b err ev) ci w.
Proof.
  unfold DeleteObject. apply wp_bind, wp_get, wp_bind. unfold isObjectDeleted.
  apply wp_bind, wp_call. intros r w1 Hr. apply wp_ret. simpl.
  destruct r as [live|e].
  2:{ destruct (IsNotFound e) eqn:Hnf.
      - apply wp_ret. split; [done|]. do 2 eexists; split; [done|]. left. by eexists.
      - apply wp_ret. split; [done|]. do 2 eexists; split; [done|]. left. eexists; repeat split.
        erewrite not_owned_Errorf by reflexivity. intros [|Hb]%orb_true_iff; [done|].
        rewrite (plain w _ _ _ _ w1 (or_introl Hr)) in Hb. done. }
  destruct (VerifyOwnership _ _ _ _ _) as [e|] eqn:Hv.
  { apply wp_ret. split; [done|]. do 2 eexists; split; [done|]. left. eexists; repeat split.
    intros _ Ho. apply (owned_verify _ _ (GetKind o)) in Ho. simpl in Ho; congruence. }
  apply owned_verify in Hv. destruct (ObjectMeta_deleting live) as [since|] eqn:Hd.
  - apply wp_bind. unfold timeoutExceeded. destruct timeout as [t|]; [apply wp_bind, wp_Now; intros now w2 _|];
      apply wp_ret; [destruct (t <? now - since)%Z|]; apply wp_ret;
      (split; [done|]; do 2 eexists; split; [done|]; left; eexists; repeat split; done).
  - apply wp_if_err. unfold initiateObjectDeletion. apply wp_bind, wp_call. intros r w2 Hr2.
    apply wp_ret. destruct r as [e|]; [unfold IgnoreNotFound; destruct (IsNotFound e)|]; apply wp_ret;
      (split; [done|]; do 2 eexists; split; [done|]; right; exists live; repeat split; try done).
    erewrite !not_owned_Errorf by reflexivity.
    exact (plain w1 _ _ _ _ w2 (or_intror Hr2)).
Qed.
End one_object.

(** ** Waves *)

Section waves.
Context {W : Type} `{Server W} (plain : api_errors_plain (W := W)).
Context (ci : ClusterInstance) (objects excl : list RenderedObject) (timeout : option Duration).

Let step := deletion_step ci objects excl.

(** The locals agree with the status, and what is to be dropped has been seen gone. *)
Definition consistent (st : deletionState) (ev : list Event) : Prop :=
  List.map MRef_identity (ds_rendered st)
    = List.map MRef_identity (Status_ManifestsRendered (CI_Status ci))
  /\ forall m, m ∈ ds_deleted st -> exists o,
       o ∈ objects /\ candidate ci excl o /\ mid o = MRef_identity m /\ seen_gone ci o ev.

Definition higher_gone (w : Z) (ev : list Event) : Prop :=
  forall o, o ∈ objects -> candidate ci excl o -> (w < wave_of o)%Z -> seen_gone ci o ev.

Lemma consistent_app st ev ev' : consistent st ev -> consistent st (ev ++ ev').
Proof.
  intros [H1 H2]. split; [done|]. intros m Hm. destruct (H2 m Hm) as (o & ? & ? & ? & ?).
  exists o. eauto using seen_gone_app_l.
Qed.

Lemma higher_gone_app w ev ev' : higher_gone w ev -> higher_gone w (ev ++ ev').
Proof. intros Hw o ???. apply seen_gone_app_l. by apply Hw. Qed.

(** Calls other than deletes and status patches are unconstrained. *)
Lemma step_other pre e : as_delete e = None -> as_status_patch e = None -> step pre e.
Proof. intros H1 H2. split; intros ?; congruence. Qed.

Lemma object_calls_steps o b err ev pre :
  o ∈ objects -> candidate ci excl o -> higher_gone (wave_of o) pre ->
  object_calls ci o b err ev -> each_event step pre ev.
Proof.
  intros Ho Hc Hhi [(r & Hg & Hd & Hs & _)|(live & Hg & Hd & Hs & Hown & Hdel & _)].
  - destruct ev as [|e [|??]]; simplify_eq/=. split; [|done]. by apply step_other.
  - destruct ev as [|e [|e' [|??]]]; simplify_eq/=. split; [by apply step_other|]. split; [|done].
    split; [|intros ?; congruence]. intros id Hid. exists o, live.
    assert (id = oid o) as -> by congruence. rewrite last_snoc. simpl.
    repeat split; try done; [apply Hc|apply Hc|apply Hc|]. intros o' ???. apply seen_gone_app_l.
    by apply Hhi.
Qed.

Lemma object_calls_gone o b err ev :
  object_calls ci o b err ev -> (b || IsNotOwnedObject err)%bool = true -> seen_gone ci o ev.
Proof.
  intros [(r & Hg & _ & _ & Hr)|(live & _ & _ & _ & _ & _ & Hf)] Hb; [|congruence].
  exists r. split; [|by apply Hr]. destruct ev as [|e [|??]]; simplify_eq/=.
  match goal with E : as_get e = _ |- _ => rewrite E end. set_solver.
Qed.

Lemma consistent_mark st ev index manifest o :
  consistent st ev -> o ∈ objects -> candidate ci excl o -> seen_gone ci o ev ->
  ds_rendered st !! index = Some manifest -> MRef_identity manifest = mid o ->
  consistent (mkDeletionState (ds_rendered st) (ds_deleted st ++ [manifest]) (ds_errs st)) ev.
Proof.
  intros [H1 H2] Ho Hc Hg Hi Hm. split; [done|]. simpl. intros m [Hin| ->%list_elem_of_singleton]%elem_of_app;
    [by apply H2|]. by exists o.
Qed.

Lemma consistent_update now i status msg st errs ev :
  consistent st ev ->
  consistent (updateManifest now i status msg (mkDeletionState (ds_rendered st) (ds_deleted st) errs)) ev.
Proof. intros [H1 H2]. split; [|done]. by rewrite updateManifest_ids. Qed.

Lemma deleteOne_spec o st flag pre w :
  o ∈ objects -> storable o = true -> higher_gone (wave_of o) pre -> consistent st pre ->
  wp (deleteOne excl timeout o (st, flag)) (fun out s' _ ev =>
    s' = ci /\ each_event step pre ev /\
    match out with
    | Ret (inl (st', flag')) =>
        consistent st' (pre ++ ev) /\ (ds_errs st' = [] -> ds_errs st = []) /\ (flag' = true -> flag = true)
        /\ (ds_errs st' = [] -> flag' = true -> candidate ci excl o -> seen_gone ci o (pre ++ ev))
    | Ret (inr st') => consistent st' (pre ++ ev)
    | Panic _ => False
    end) ci w.
Proof.
  intros Ho Hst Hhi Hcons. unfold deleteOne.
  destruct (IndexOfObjectByIdentity o excl) as [i|e] eqn:Hx.
  { apply wp_ret. rewrite ?app_nil_r. split_and?; [done..|]. intros _ _ (_ & Hne & _).
    apply not_excluded in Hne as [? Hne]. congruence. }
  assert (Hne := proj1 (not_excluded o excl) (ex_intro _ e Hx)). clear e Hx.
  apply wp_bind, wp_Now. intros now0 w1 _.
  destruct (RenderedObject_ManifestReference now0 o) as [ref|] eqn:Href.
  2:{ by destruct (storable_reference now0 o Hst) as [? ?]; congruence. }
  apply MRef_of_object in Href.
  destruct (IndexOfManifestByIdentity ref (ds_rendered st)) as [index|e] eqn:Hidx.
  2:{ apply wp_ret. rewrite ?app_nil_r. split_and?; [done..|]. intros _ _ (_ & _ & Htr).
      rewrite <-Href, <-(proj1 Hcons) in Htr. apply tracked_index in Htr as [? ?]. congruence. }
  assert (Hc : candidate ci excl o).
  { repeat split; [done|done|]. rewrite <-Href, <-(proj1 Hcons). apply tracked_index. eauto. }
  apply IndexOfManifestByIdentity_Ok in Hidx as (manifest & Hman & Hid). rewrite Href in Hid. rewrite Hman.
  apply wp_bind. eapply wp_mono; [by apply (DeleteObject_spec plain)|].
  intros out s' w' ev [-> (b & err & -> & Hcalls)]. simpl.
  assert (Hsteps := object_calls_steps o b err ev pre Ho Hc Hhi Hcalls).
  assert (Hcons' := consistent_app st pre ev Hcons).
  destruct (b || IsNotOwnedObject err)%bool eqn:Hgone.
  { apply wp_ret. rewrite ?app_nil_r.
    assert (seen_gone ci o (pre ++ ev)) by (apply seen_gone_app_r; by eapply object_calls_gone).
    split_and?; try done. by eapply consistent_mark. }
  destruct err as [e|].
  - apply wp_bind, wp_Now. intros now w2 _. destruct (IsDeletionTimeoutError (Some e)); apply wp_ret;
      rewrite ?app_nil_r; (split; [done|split; [done|]]); [by apply consistent_update|].
    split; [by apply consistent_update|]. split_and?; [by intros [_ ?]%app_nil|done|by intros [_ ?]%app_nil].
  - case_goal; [apply wp_bind, wp_Now; intros now w2 _|]; apply wp_ret; rewrite ?app_nil_r;
      split_and?; try done; by apply consistent_update.
Qed.

Let waveMap : SyncWaveMap := (SyncWaveMap_AddObjects ∅ objects).1.

Lemma waveMap_spec :
  waves_wf waveMap /\ flat waveMap ≡ₚ List.filter storable objects.
Proof.
  unfold waveMap, SyncWaveMap_AddObjects.
  destruct (add_all SyncWaveMap_Add "SyncWaveMap" ∅ objects) as [m errs] eqn:Ha. simpl.
  enough (Hgen : forall l s m errs, waves_wf s -> add_all SyncWaveMap_Add "SyncWaveMap" s l = (m, errs) ->
    waves_wf m /\ flat m ≡ₚ List.filter storable l ++ flat s).
  { destruct (Hgen objects ∅ m errs) as [Hwf Hflat]; [apply map_Forall_empty|done|].
    split; [done|]. rewrite Hflat. unfold flat. simpl. by rewrite app_nil_r. }
  clear Ha m errs. induction l as [|o l IH]; intros s m errs Hwf; simpl; [by intros [= <- <-]|].
  destruct (SyncWaveMap_Add s o) as [s1|e] eqn:Ho.
  - intros Ha. apply Add_spec in Ho as [Hwf1 Hf1]; [|done]. apply IH in Ha as [Hwf' Hf']; [|done].
    split; [done|]. rewrite Hf', Hf1. destruct (storable o); simpl; [by rewrite Permutation_middle|done].
  - destruct (add_all _ _ s l) as [s2 errs2] eqn:Ha. intros [= <- <-].
    apply Add_err in Ho. rewrite Ho. by eapply IH.
Qed.

Lemma wave_objects w o :
  o ∈ GetObjectsForSyncWave waveMap w -> o ∈ objects /\ storable o = true /\ wave_of o = w.
Proof.
  destruct waveMap_spec as [Hwf Hflat]. intros Ho.
  assert (Hw := listing_wave waveMap w Hwf). rewrite Forall_forall in Hw.
  assert (Hin : o ∈ flat waveMap).
  { unfold GetObjectsForSyncWave in Ho. destruct (waveMap !! w) as [l|] eqn:Hl; [|set_solver].
    rewrite SortSlice_perm in Ho. unfold flat. apply list_elem_of_In, in_concat. exists l.
    split; [|by apply list_elem_of_In]. apply in_map_iff. exists (w, l). split; [done|].
    by apply list_elem_of_In, elem_of_map_to_list. }
  rewrite Hflat in Hin. apply list_elem_of_In, filter_In in Hin as [Hin Hs].
  split_and?; [by apply list_elem_of_In|done|]. unfold wave_of. by rewrite (Hw o Ho).
Qed.

Lemma candidate_listed o :
  o ∈ objects -> candidate ci excl o ->
  wave_of o ∈ GetDescendingSyncWaves waveMap /\ o ∈ GetObjectsForSyncWave waveMap (wave_of o).
Proof.
  intros Ho (Hs & _ & _). destruct waveMap_spec as [Hwf Hflat].
  assert (Hin : o ∈ flat waveMap).
  { rewrite Hflat. apply list_elem_of_In, filter_In. split; [by apply list_elem_of_In|done]. }
  unfold flat in Hin. apply list_elem_of_In, in_concat in Hin as (l & Hl & Hin).
  apply in_map_iff in Hl as ([w l'] & Heq & Hl). simpl in Heq. subst l'.
  apply list_elem_of_In, elem_of_map_to_list in Hl. assert (Hwl := Hwf w l Hl).
  rewrite List.Forall_forall in Hwl. specialize (Hwl o Hin). unfold wave_of. rewrite Hwl.
  unfold GetDescendingSyncWaves, GetObjectsForSyncWave. rewrite Hl, !SortSlice_perm.
  split; [|by apply list_elem_of_In]. unfold waves. apply list_elem_of_In, in_map_iff.
  exists (w, l). split; [done|]. by apply list_elem_of_In, elem_of_map_to_list.
Qed.

Lemma deleteWave_spec syncWave st pre w :
  higher_gone syncWave pre -> consistent st pre -> ds_errs st = [] ->
  wp (deleteWave waveMap excl timeout syncWave st) (fun out s' _ ev =>
    s' = ci /\ each_event step pre ev /\
    match out with
    | Ret (inl st') => consistent st' (pre ++ ev) /\ ds_errs st' = []
        /\ forall o, o ∈ GetObjectsForSyncWave waveMap syncWave -> candidate ci excl o ->
             seen_gone ci o (pre ++ ev)
    | Ret (inr st') => consistent st' (pre ++ ev)
    | Panic _ => False
    end) ci w.
Proof.
  intros Hhi Hcons _. unfold deleteWave. apply wp_bind. eapply wp_mono.
  - apply (wp_for _ _ _
      (fun done (b : deletionState * bool) s' _ ev => s' = ci /\ each_event step pre ev
         /\ consistent b.1 (pre ++ ev)
         /\ (ds_errs b.1 = [] -> b.2 = true ->
              forall o, o ∈ done -> candidate ci excl o -> seen_gone ci o (pre ++ ev)))
      (fun st' s' _ ev => s' = ci /\ each_event step pre ev /\ consistent st' (pre ++ ev))
      (fun _ _ _ => False)).
    + rewrite app_nil_r. split_and?; [done..|]. set_solver.
    + intros done o rest [st1 flag] s' w1 ev Hl (-> & Hsteps & Hcons1 & Hgone).
      destruct (wave_objects syncWave o) as (Ho & Hst & Hw); [rewrite Hl; set_solver|].
      eapply wp_mono; [apply (deleteOne_spec o st1 flag (pre ++ ev)); [done|done| |done]|].
      { rewrite Hw. by apply higher_gone_app. }
      intros [[[st2 flag2]|st2]|msg] s' w2 ev' (-> & Hsteps' & Hout); [| |done];
        rewrite <-app_assoc in Hout.
      * destruct Hout as (Hcons2 & Herrs & Hflag & Hg). split_and?; [done|by apply each_event_app|done|].
        simpl. intros He Hf o' [Hin| ->%list_elem_of_singleton]%elem_of_app Hc; [|by apply Hg].
        rewrite app_assoc. apply seen_gone_app_l. apply Hgone; auto.
      * split_and?; [done|by apply each_event_app|done].
  - intros [[[st' flag]|st']|msg] s' w' ev Hq; [| |done].
    + destruct Hq as (-> & Hsteps & Hcons' & Hgone). simpl in Hcons', Hgone.
      destruct (match ds_errs st' with [] => false | _ => true end || negb flag)%bool eqn:Hstop; apply wp_ret;
        rewrite app_nil_r; split_and?; try done; bools; [by destruct (ds_errs st')|].
      apply Hgone; [by destruct (ds_errs st')|done].
    + apply wp_ret. rewrite app_nil_r. naive_solver.
Qed.

Lemma descending_done done syncWave rest :
  GetDescendingSyncWaves waveMap = done ++ syncWave :: rest ->
  forall o, o ∈ objects -> candidate ci excl o -> (syncWave < wave_of o)%Z -> wave_of o ∈ done.
Proof.
  intros Hl o Ho Hc Hlt. destruct (candidate_listed o Ho Hc) as [Hin _].
  assert (Hs := descending_sorted waveMap). rewrite Hl in Hin, Hs.
  apply elem_of_app in Hin as [Hin|Hin]; [done|]. apply StronglySorted_app_1_r in Hs.
  apply StronglySorted_inv in Hs as [_ Hs]. rewrite Forall_forall in Hs.
  apply elem_of_cons in Hin as [Heq|Hin]; [lia|]. specialize (Hs _ Hin). lia.
Qed.

Lemma loop_spec w :
  let st0 := mkDeletionState (Status_ManifestsRendered (CI_Status ci)) [] [] in
  wp (for_range (GetDescendingSyncWaves waveMap) st0 (deleteWave waveMap excl timeout))
    (fun out s' _ ev => match out with
      | Ret (inl st) => s' = ci /\ each_event step [] ev /\ consistent st ev
          /\ forall o, o ∈ objects -> candidate ci excl o -> seen_gone ci o ev
      | Ret (inr st) => s' = ci /\ each_event step [] ev /\ consistent st ev
      | Panic _ => False
      end) ci w.
Proof.
  intros st0. eapply wp_mono.
  - apply (wp_for _ _ _
      (fun done st s' _ ev => s' = ci /\ each_event step [] ev /\ consistent st ev /\ ds_errs st = []
         /\ forall o, o ∈ objects -> candidate ci excl o -> wave_of o ∈ done -> seen_gone ci o ev)
      (fun st s' _ ev => s' = ci /\ each_event step [] ev /\ consistent st ev)
      (fun _ _ _ => False)).
    + split_and?; [done|done| |done|set_solver]. split; [done|]. simpl. set_solver.
    + intros done wv rest st s' w1 ev Hl (-> & Hsteps & Hcons & Herrs & Hgone).
      eapply wp_mono; [apply (deleteWave_spec wv st ev); [|done|done]|].
      { intros o Ho Hc Hlt. apply Hgone; [done|done|]. by eapply descending_done. }
      intros [[st'|st']|msg] s' w2 ev' (-> & Hsteps' & Hout); [| |done].
      * destruct Hout as (Hcons' & Herrs' & Hg). split_and?; [done|by apply each_event_app|done|done|].
        intros o Ho Hc [Hin|Heq%list_elem_of_singleton]%elem_of_app.
        -- by apply seen_gone_app_l, Hgone.
        -- apply Hg; [|done]. rewrite <-Heq. by apply candidate_listed.
      * split_and?; [done|by apply each_event_app|done].
  - intros [[st|st]|msg] s' w' ev Hq; [|done|done].
    destruct Hq as (-> & ? & ? & _ & Hg). split_and?; [done..|]. intros o Ho Hc.
    apply Hg; [done|done|]. by apply candidate_listed.
Qed.

Lemma filtered_ids st ev new m :
  consistent st ev ->
  Status_ManifestsRendered (CI_Status new) = filterOutDeletedManifests (ds_rendered st) (ds_deleted st) ->
  m ∈ Status_ManifestsRendered (CI_Status ci) ->
  MRef_identity m ∈ List.map MRef_identity (Status_ManifestsRendered (CI_Status new))
  \/ exists o, o ∈ objects /\ candidate ci excl o /\ mid o = MRef_identity m /\ seen_gone ci o ev.
Proof.
  intros [Hids Hdel] Hnew Hm. rewrite Hnew.
  assert (Hin : MRef_identity m ∈ List.map MRef_identity (ds_rendered st)).
  { rewrite Hids. apply list_elem_of_In, in_map, list_elem_of_In, Hm. }
  apply list_elem_of_In, in_map_iff in Hin as (m' & Hid & Hin).
  destruct (IndexOfManifestByIdentity m' (ds_deleted st)) as [i|e] eqn:Hi.
  - right. apply IndexOfManifestByIdentity_Ok in Hi as (d & Hd & Heq).
    destruct (Hdel d) as (o & ? & ? & Ho & ?); [by eapply list_elem_of_lookup_2|].
    exists o. by rewrite Ho, Heq, Hid.
  - left. apply list_elem_of_In, in_map_iff. exists m'. split; [done|]. apply filter_In. by rewrite Hi.
Qed.

Lemma finishDeletion_spec st pre w :
  consistent st pre ->
  wp (finishDeletion st) (fun out _ _ ev =>
    each_event step pre ev /\ exists err, out = Ret err) ci w.
Proof.
  intros Hcons. unfold finishDeletion. apply wp_bind, wp_get. case_goal; [apply wp_ret; split; [done|eauto]|].
  apply wp_bind, wp_modify, wp_bind, wp_PatchCIStatus. intros err s' w' ev Hev _. apply wp_ret.
  rewrite app_nil_r. simpl. split; [|eauto].
  set (new := ci <| CI_Status ::= _ |>) in Hev.
  assert (Hst : forall ev', status_allowed ci objects excl (pre ++ ev') (Ev (StatusPatchCI ci new) (Err (ErrorString "")))).
  { intros ev' n [= <-] m Hm. apply (filtered_ids st); [by apply consistent_app|reflexivity|done]. }
  enough (Hgen : forall ev', each_event step (pre ++ ev') ev).
  { specialize (Hgen []). by rewrite app_nil_r in Hgen. }
  induction Hev as [|e ev [r ->] _ IH]; intros ev'; simpl; [done|]. split; [split|].
  - done.
  - exact (Hst ev').
  - rewrite <-app_assoc. apply IH.
Qed.

Lemma DeleteObjects_spec w :
  wp (DeleteObjects objects excl timeout) (fun out _ _ ev =>
    each_event step [] ev /\ exists b err, out = Ret (b, err)
      /\ (b = true -> forall o, o ∈ objects -> candidate ci excl o -> seen_gone ci o ev)) ci w.
Proof.
  unfold DeleteObjects. apply wp_bind, wp_get, wp_bind.
  eapply wp_mono; [apply loop_spec|]. intros [[st|st]|msg] s' w' ev Hq; [| |done].
  - destruct Hq as (-> & Hsteps & Hcons & Hgone). apply wp_bind.
    eapply wp_mono; [by apply (finishDeletion_spec st ev)|].
    intros out s'' w'' ev' [Hev' [err ->]]. apply wp_ret. rewrite app_nil_l, app_nil_r.
    split; [by apply each_event_app|]. eexists _, _. split; [done|]. intros _ o Ho Hc.
    by apply seen_gone_app_l, Hgone.
  - destruct Hq as (-> & Hsteps & Hcons). apply wp_bind.
    eapply wp_mono; [by apply (finishDeletion_spec st ev)|].
    intros out s'' w'' ev' [Hev' [err ->]]. apply wp_ret. rewrite app_nil_l, app_nil_r.
    split; [by apply each_event_app|]. eexists _, _. split; [done|]. done.
Qed.
End waves.

(** ** Tracked manifests as objects *)

(** What a manifest reference made from a rendered object looks like. *)
Definition reference_ok (m : ManifestReference) : Prop :=
  is_Some (MRef_APIGroup m) /\ group_version_ok (default "" (MRef_APIGroup m)) = true
  /\ MRef_Kind m <> "" /\ (min_int <= MRef_SyncWave m <= max_int)%Z.

Lemma manifest_object_spec g m :
  MRef_APIGroup m = Some g -> reference_ok m ->
  let o := mkRenderedObject (Some (manifest_fields g m)) noAction in
  NewRenderedObject (manifest_fields g m) = (o, None)
  /\ mid o = MRef_identity m /\ storable o = true /\ wave_of o = MRef_SyncWave m.
Proof.
  intros Hg (_ & Hgv & Hk & Hw) o. rewrite Hg in Hgv. simpl in Hgv.
  assert (Hwave : GetSyncWave o = Ok (MRef_SyncWave m)).
  { unfold GetSyncWave.
    assert (Ha : GetAnnotations o !! WaveAnnotation = Some (Itoa (MRef_SyncWave m))).
    { unfold GetAnnotations, o. cbn. rewrite lookup_insert_eq. f_equal. apply sapp_nil_r. }
    rewrite Ha. simpl. by rewrite Atoi_Itoa. }
  split_and!.
  - unfold NewRenderedObject, SetObject. change (GetKind _) with (MRef_Kind m).
    change (GetAPIVersion _) with g. rewrite Hgv. by apply String.eqb_neq in Hk as ->.
  - unfold mid, MRef_identity. by rewrite Hg.
  - unfold storable. by rewrite Hwave.
  - unfold wave_of. by rewrite Hwave.
Qed.

(** Every tracked manifest comes back as an object with its identity and its wave. *)
Lemma objectsForManifests_spec ms :
  Forall reference_ok ms ->
  exists objects, objectsForManifests ms = Ret objects
    /\ Forall2 (fun m o => mid o = MRef_identity m /\ storable o = true /\ wave_of o = MRef_SyncWave m)
         ms objects.
Proof.
  induction 1 as [|m ms Hm _ (objects & Hos & Hall)]; [by exists []|].
  cbn [objectsForManifests].
  destruct (MRef_APIGroup m) as [g|] eqn:Hg; [|by destruct Hm as [[? ?] _]; congruence].
  destruct (manifest_object_spec g m Hg Hm) as (Hnew & Hmid & Hs & Hw). rewrite Hos, Hnew.
  eexists. split; [done|]. by constructor.
Qed.

(** ** The properties *)

Section properties.
Context {W : Type} `{Server W} (plain : api_errors_plain (W := W)).

(** C6: Whatever the API server answers, a delete call is made only for an object that was asked
    for, is not excluded and is tracked by the status, right after a get that showed it to carry
    the owned-by label of this ClusterInstance and not to be terminating, and only once every such
    object of a higher sync wave has been seen gone (or owned by somebody else). *)
Theorem DeleteObjects_order ci objects excl timeout w n e :
  let calls := run_evs (DeleteObjects objects excl timeout ci w) in
  calls !! n = Some e -> delete_allowed ci objects excl (take n calls) e.
Proof.
  intros calls Hev. destruct (DeleteObjects_spec plain ci objects excl timeout w) as [Hsteps _].
  by apply (each_event_lookup _ _ _ _ _ Hsteps) in Hev as [Hd _].
Qed.

(** C16: The status forgets a tracked manifest only when its object was asked for, not excluded, and
    has been seen gone (or owned by somebody else): no object that exists and is owned is dropped
    from [manifestsRendered]. *)
Theorem DeleteObjects_status ci objects excl timeout w n e :
  let calls := run_evs (DeleteObjects objects excl timeout ci w) in
  calls !! n = Some e -> status_allowed ci objects excl (take n calls) e.
Proof.
  intros calls Hev. destruct (DeleteObjects_spec plain ci objects excl timeout w) as [Hsteps _].
  by apply (each_event_lookup _ _ _ _ _ Hsteps) in Hev as [_ Hs].
Qed.

Lemma DeleteRenderedObjects_gone ci excl timeout w :
  Forall reference_ok (Status_ManifestsRendered (CI_Status ci)) ->
  exists b err, run_out (DeleteRenderedObjects excl timeout ci w) = Ret (b, err)
    /\ (b = true -> forall m, m ∈ Status_ManifestsRendered (CI_Status ci) ->
        (forall x, x ∈ excl -> mid x <> MRef_identity m) ->
        exists o, mid o = MRef_identity m
          /\ seen_gone ci o (run_evs (DeleteRenderedObjects excl timeout ci w))).
Proof.
  intros Hok. destruct (objectsForManifests_spec _ Hok) as (objects & Hos & Hall).
  unfold DeleteRenderedObjects, get_mem, mbind, Prog_bind. cbn [run_out run_mem run_world run_evs].
  destruct (Status_ManifestsRendered (CI_Status ci)) as [|m0 ms] eqn:Hms.
  { eexists _, _. split; [done|]. set_solver. }
  rewrite Hos. destruct (DeleteObjects_spec plain ci objects excl timeout w) as [_ (b & err & Hout & Hgone)].
  rewrite Hout. eexists _, _. split; [done|]. intros Hb m Hm Hx. rewrite app_nil_l.
  apply list_elem_of_lookup_1 in Hm as [i Hi].
  destruct (Forall2_lookup_l _ _ _ _ _ Hall Hi) as (o & Ho & Hmid & Hs & _).
  exists o. split; [done|]. apply Hgone; [done|by eapply list_elem_of_lookup_2|]. split; [done|split].
  - intros x Hin. specialize (Hx x Hin). rewrite <-Hmid in Hx.
    unfold mid in Hx. unfold RenderedObject_MatchesIdentity.
    destruct (String.eqb_spec (GetAPIVersion x) (GetAPIVersion o)), (String.eqb_spec (GetKind x) (GetKind o)),
      (String.eqb_spec (GetName x) (GetName o)), (String.eqb_spec (GetNamespace x) (GetNamespace o));
      simpl; congruence.
  - rewrite Hmid, Hms. apply list_elem_of_In, in_map, list_elem_of_In. by eapply list_elem_of_lookup_2.
Qed.
End properties.

(** ** Examples *)

Lemma cluster_errors_plain : api_errors_plain (W := cluster).
Proof.
  intros w a k key e w' [Hs|Hs]; simpl in Hs; repeat case_hyp Hs; by simplify_eq.
Qed.

Definition wave_ref (kind name : string) (wave : Z) : ManifestReference :=
  mkManifestReference (Some "v1") kind name "site-sno" wave ManifestRenderedSuccess 0 "".

Definition sno_manifests : ClusterInstance :=
  sno <| CI_Status ::= fun s =>
    s <| Status_ManifestsRendered := [wave_ref "ConfigMap" "a" 1; wave_ref "Secret" "b" 2] |> |>.

Definition live_meta (name : string) (finalizers : list string) : ObjectMeta :=
  mkObjectMeta name "site-sno" {[OwnedByLabel := "site-sno_site-sno"]} ∅ finalizers 1 "1" None.

Definition two_objects : cluster :=
  with_objects [("v1", "ConfigMap", mkObjectKey "site-sno" "a", live_meta "a" []);
                ("v1", "Secret", mkObjectKey "site-sno" "b", live_meta "b" [])] (empty_cluster 100).

Definition sno_objects : list RenderedObject :=
  match objectsForManifests (Status_ManifestsRendered (CI_Status sno_manifests)) with
  | Ret objects => objects
  | Panic _ => []
  end.

Definition sno_deletion_calls : list Event :=
  run_evs (DeleteObjects sno_objects [] None sno_manifests two_objects).

(** The Secret of wave 2 is deleted first; the ConfigMap waits. *)
Example sno_deletion_starts : omap as_delete sno_deletion_calls = [("v1", "Secret", mkObjectKey "site-sno" "b")].
Proof. vm_compute. reflexivity. Qed.

Lemma DeleteObjects_order_witness :
  exists e, sno_deletion_calls !! 1 = Some e /\ is_Some (as_delete e)
    /\ delete_allowed sno_manifests sno_objects [] (take 1 sno_deletion_calls) e.
Proof.
  eexists. split; [vm_compute; reflexivity|]. split; [by eexists|].
  eapply (DeleteObjects_order cluster_errors_plain sno_manifests sno_objects [] None two_objects 1).
  vm_compute. reflexivity.
Defined.

(** Nothing exists any more: the status is emptied. *)
Definition sno_gone_calls : list Event :=
  run_evs (DeleteObjects sno_objects [] None sno_manifests (empty_cluster 100)).

Lemma DeleteObjects_status_witness :
  exists e, sno_gone_calls !! 2 = Some e
    /\ (exists new, as_status_patch e = Some new /\ Status_ManifestsRendered (CI_Status new) = [])
    /\ status_allowed sno_manifests sno_objects [] (take 2 sno_gone_calls) e.
Proof.
  eexists. split; [vm_compute; reflexivity|]. split; [by eexists|].
  eapply (DeleteObjects_status cluster_errors_plain sno_manifests sno_objects [] None (empty_cluster 100) 2).
  vm_compute. reflexivity.
Defined.

