(* ===== verification/Preservation.v ===== *)
(** * Preserving ConfigMaps and Secrets over a reinstall (internal/controller/preservation)

    Before the manifests are deleted, the labelled ConfigMaps and Secrets of the cluster's
    namespace are each written as YAML into an immutable Secret; afterwards they are made anew
    from it. The YAML library is a parameter ([ResourceYaml]), and so is the text of a time, which
    depends on the process's time zone ([TimeText]). *)
From S2P Require Import Prelude GoStd Types Errors Samples K8s Cluster Retry Requeue.
From S2P Require Import RenderedObject RenderedSpec Deletion.

(** ** Constants *)

(* src: src/internal/controller/preservation/helper.go 43-55 InternalPreservationLabelKey *)
Definition InternalPreservationLabelKey : string := PreservationLabelKey +:+ ".internal".
Definition InternalPreservationLabelValue : string := "cluster-instance-required-resource".
Definition PreservationModeInternal : string := "Internal".

(* src: src/internal/controller/preservation/helper.go 57-82 preservedDataLabelKey *)
Definition preservedDataLabelKey : string := Group +:+ "/preserved-data".
Definition preservedInternalDataLabelKey : string := Group +:+ "/preserved-internal-data".
Definition ClusterIdentityDataAnnotationKey : string := preservedDataLabelKey +:+ ".cluster-identity".
Definition RestoredAtAnnotationKey : string := PreservationLabelKey +:+ ".restored-at".
Definition reinstallGenerationAnnotationKey : string := Group +:+ "/reinstall-generation".
Definition resourceTypeAnnotationKey : string := PreservationLabelKey +:+ ".resource-type".
Definition preservedDataKey : string := "original-resource".

(* src: src/internal/controller/preservation/helper.go 84-89 resourceType *)
Definition configMapResourceType : string := "ConfigMap".
Definition secretResourceType : string := "Secret".

(* src: src/internal/controller/preservation/helper.go 92-95 resources *)
Record resources := mkResources {
  configMaps : list string;
  secrets : list string
}.

(* src: src/internal/controller/preservation/helper.go 97-103 config *)
Record config := mkConfig {
  cf_resourceKey : ObjectKey;
  cf_resourceType : string;
  cf_ownerRef : string;
  cf_reinstallGeneration : string;
  cf_preservationMode : string
}.

(** ** Selectors and names *)

(** The requirements built here are always valid, so [labels.NewRequirement] does not fail. *)
(* src: src/internal/controller/preservation/helper.go 117-137 buildBackupLabelSelector *)
Definition buildBackupLabelSelector (mode : string) : result (option Selector) :=
  if String.eqb mode PreservationModeNone then Ok None
  else if String.eqb mode PreservationModeAll then Ok (Some (SelExists PreservationLabelKey))
  else if String.eqb mode PreservationModeClusterIdentity then
    Ok (Some (SelEquals PreservationLabelKey ClusterIdentityLabelValue))
  else if String.eqb mode PreservationModeInternal then
    Ok (Some (SelEquals InternalPreservationLabelKey InternalPreservationLabelValue))
  else Err (Errorf "unknown PreservationMode for backup: %v" [FStr mode]).

(* src: src/internal/controller/preservation/helper.go 140-155 buildRestoreLabelSelector *)
Definition buildRestoreLabelSelector (mode : string) : result (option Selector) :=
  if String.eqb mode PreservationModeNone then Ok None
  else if String.eqb mode PreservationModeAll || String.eqb mode PreservationModeClusterIdentity then
    Ok (Some (SelExists preservedDataLabelKey))
  else if String.eqb mode PreservationModeInternal then Ok (Some (SelExists preservedInternalDataLabelKey))
  else Err (Errorf "unknown PreservationMode for restore: %v" [FStr mode]).

(* src: src/internal/controller/preservation/helper.go 158-160 generateBackupName *)
Definition generateBackupName (rType name generation : string) : string :=
  Sprintf "%s-%s-%s" [FStr (ToLower rType); FStr name; FStr generation].

(* src: src/internal/controller/preservation/helper.go 163-176 sanitizeResourceMetadata *)
Definition sanitizeResourceMetadata (obj : Resource) : Resource :=
  mkResource (Res_Kind obj) (Res_Namespace obj) (Res_Name obj) (Res_Labels obj) (Res_Annotations obj)
    "" "" 0 [] (Res_Type obj) (Res_Immutable obj) (Res_Data obj).

(** ** Classification *)

Definition lookup_str (k : string) (m : smap) : string := default "" (m !! k).

(* src: src/internal/controller/preservation/helper.go 769-781 isInternalResource *)
Definition isInternalResource (obj : Resource) : bool :=
  String.eqb (lookup_str InternalPreservationLabelKey (Res_labels obj)) InternalPreservationLabelValue
  || negb (String.eqb (lookup_str preservedInternalDataLabelKey (Res_labels obj)) "").

(* src: src/internal/controller/preservation/helper.go 667-673 resourceCategory *)
Inductive resourceCategory :=
  resourceCategoryUnknown | resourceCategoryClusterIdentity | resourceCategoryOther.

(* src: src/internal/controller/preservation/helper.go 731-751 classifyPreservedResource *)
Definition classifyPreservedResource (obj : Resource) : resourceCategory :=
  if isInternalResource obj then resourceCategoryUnknown
  else
    match Res_Annotations obj !! ClusterIdentityDataAnnotationKey with
    | Some _ => resourceCategoryClusterIdentity
    | None =>
        let mode := lookup_str PreservationLabelKey (Res_Annotations obj) in
        if String.eqb mode PreservationModeClusterIdentity then resourceCategoryClusterIdentity
        else if String.eqb mode PreservationModeAll then resourceCategoryOther
        else resourceCategoryUnknown
    end.

(* src: src/internal/controller/preservation/helper.go 754-767 classifyRestoredResource *)
Definition classifyRestoredResource (obj : Resource) : resourceCategory :=
  if isInternalResource obj || String.eqb (lookup_str RestoredAtAnnotationKey (Res_Annotations obj)) ""
  then resourceCategoryUnknown
  else if String.eqb (lookup_str PreservationLabelKey (Res_labels obj)) ClusterIdentityLabelValue
  then resourceCategoryClusterIdentity
  else resourceCategoryOther.

(** ** Libraries *)

(** sigs.k8s.io/yaml on ConfigMaps and Secrets: the kind says which type is decoded into. *)
Class ResourceYaml := {
  Resource_Marshal : Resource -> result string;
  Resource_Unmarshal : string -> string -> result Resource
}.

(** [t.Format(time.RFC3339)] in the process's time zone. *)
Class TimeText := { Format_RFC3339 : Time -> string }.

(** [t.Unix()] *)
Definition Unix (t : Time) : Z := (t / 10 ^ 9)%Z.

Definition preservation_mode (ci : ClusterInstance) : outcome string :=
  match Spec_Reinstall (CI_Spec ci) with
  | Some r => Ret (RSpec_PreservationMode r)
  | None => Panic "invalid memory address or nil pointer dereference"
  end.

Definition reinstall_generation (ci : ClusterInstance) : string :=
  match Spec_Reinstall (CI_Spec ci) with Some r => RSpec_Generation r | None => "" end.

Section preservation.
Context `{ResourceYaml} `{TimeText} {W : Type} `{Server W}.

Abbreviation M := (Prog ClusterInstance W Event).

(** [equality.Semantic.DeepEqual] does not tell nil labels from empty ones. *)
Definition Resource_DeepEqual (a b : Resource) : bool :=
  let norm r := mkResource (Res_Kind r) (Res_Namespace r) (Res_Name r) (Some (Res_labels r))
    (Res_Annotations r) (Res_ResourceVersion r) (Res_UID r) (Res_CreationTimestamp r)
    (Res_OwnerReferences r) (Res_Type r) (Res_Immutable r) (Res_Data r) in
  bool_decide (norm a = norm b).

(** controller-runtime's [CreateOrUpdate]: [mutateFn] runs on the object as given when there is
    none, on the live one otherwise, which is updated only if that changed it. *)
Definition CreateOrUpdate (obj : Resource) (mutateFn : Resource -> M Resource) : M (option error) :=
  r ← call (GetResource (Res_Kind obj) (Res_key obj));
  match r with
  | Err err =>
      if IsNotFound err then
        obj' ← mutateFn obj;
        r ← call (CreateResource obj');
        mret (match r with Ok _ => None | Err err => Some err end)
      else mret (Some err)
  | Ok live =>
      obj' ← mutateFn live;
      if Resource_DeepEqual live obj' then mret None
      else
        r ← call (UpdateResource obj');
        mret (match r with Ok _ => None | Err err => Some err end)
  end.

(** ** Backup *)

(** [mutateFn] of [createResource] *)
(* src: src/internal/controller/preservation/helper.go 322-359 createResource *)
Definition createResource_mutate (config : config) (object : Resource) : M Resource :=
  now ← Now;
  let labels := Res_labels object in
  let labels := if negb (String.eqb (cf_ownerRef config) "")
                then <[OwnedByLabel := cf_ownerRef config]> labels else labels in
  let annotations := <[resourceTypeAnnotationKey := cf_resourceType config]> (Res_Annotations object) in
  let annotations := if negb (String.eqb (cf_reinstallGeneration config) "")
                     then <[reinstallGenerationAnnotationKey := cf_reinstallGeneration config]> annotations
                     else annotations in
  let internal := String.eqb (cf_preservationMode config) PreservationModeInternal in
  let preservedDataLabel := if internal then preservedInternalDataLabelKey else preservedDataLabelKey in
  let additionalAnnotation := if internal then InternalPreservationLabelKey else PreservationLabelKey in
  let labels := <[preservedDataLabel := Itoa (Unix now)]> labels in
  let annotations := <[additionalAnnotation := cf_preservationMode config]> annotations in
  mret (mkResource (Res_Kind object) (Res_Namespace object) (Res_Name object) (Some labels) annotations
          (Res_ResourceVersion object) (Res_UID object) (Res_CreationTimestamp object)
          (Res_OwnerReferences object) (Res_Type object) (Res_Immutable object) (Res_Data object)).

(* src: src/internal/controller/preservation/helper.go 321-372 createResource *)
Definition createResource (object : Resource) (config : config) : M (option error) :=
  if_err (CreateOrUpdate object (createResource_mutate config))
    (fun err => mret (Some (Errorf "failed to create or update preserved %s (%s/%s): %w"
       [FStr (Res_Kind object); FStr (Res_Namespace object); FStr (Res_Name object); FErr err])))
    (mret None).

(** The Secret that holds the data of [resource]. *)
(* src: src/internal/controller/preservation/helper.go 288-310 backupResource *)
Definition preservedSecret (backupName namespace : string) (resource : Resource) (data : string) : Resource :=
  let annotations :=
    if String.eqb (lookup_str PreservationLabelKey (Res_labels resource)) ClusterIdentityLabelValue
    then {[ClusterIdentityDataAnnotationKey := ""]} else ∅ in
  mkResource "Secret" namespace backupName None annotations "" "" 0 [] "Opaque" (Some true)
    {[preservedDataKey := data]}.

(* src: src/internal/controller/preservation/helper.go 240-319 backupResource *)
Definition backupResource (backupName : string) (config : config) : M (option error) :=
  let kind := cf_resourceType config in
  let key := cf_resourceKey config in
  if negb (String.eqb kind configMapResourceType) && negb (String.eqb kind secretResourceType) then
    mret (Some (Errorf "unsupported resource type for backup: %T" [FStr "<nil>"]))
  else
    r ← call (GetResource kind key);
    match r with
    | Err err =>
        mret (Some (Errorf "failed to retrieve %s (%s/%s) for preservation: %w"
                [FStr kind; FStr (Key_Namespace key); FStr (Key_Name key); FErr err]))
    | Ok resource =>
        let resource := sanitizeResourceMetadata resource in
        match Resource_Marshal resource with
        | Err err =>
            mret (Some (Errorf "failed to marshal resource %s (%s/%s) for preservation: %w"
                    [FStr kind; FStr (Key_Namespace key); FStr (Key_Name key); FErr err]))
        | Ok data =>
            createResource (preservedSecret backupName (Key_Namespace key) resource data) config
        end
    end.

(* src: src/internal/controller/preservation/helper.go 622-664 resourcesForPreservation *)
Definition resourcesForPreservation (namespace : string) (selector : Selector) : M (result resources) :=
  cms ← call (ListResources "ConfigMap" namespace selector);
  ss ← call (ListResources "Secret" namespace selector);
  let failed (what : string) (r : result (list Resource)) : list error :=
    match r with
    | Err err => [Errorf ("failed to list " +:+ what +:+ ": %w") [FErr err]]
    | Ok _ => []
    end in
  mret (match cms, ss with
        | Ok cmList, Ok secretList => Ok (mkResources (List.map Res_Name cmList) (List.map Res_Name secretList))
        | _, _ => Err (AggregateErr (failed "ConfigMaps" cms ++ failed "Secrets" ss))
        end).

(* src: src/internal/controller/preservation/helper.go 178-236 backupResources *)
Definition backupResources (selector : Selector) (namespace : string) (baseConfig : config)
    : M (option error) :=
  if String.eqb (cf_preservationMode baseConfig) PreservationModeNone then mret None
  else
    r ← resourcesForPreservation namespace selector;
    match r with
    | Err err => mret (Some err)
    | Ok data =>
        let backup rType name :=
          backupResource (generateBackupName rType name (cf_reinstallGeneration baseConfig))
            (mkConfig (mkObjectKey namespace name) rType (cf_ownerRef baseConfig)
               (cf_reinstallGeneration baseConfig) (cf_preservationMode baseConfig)) in
        errs ← collect_errors (configMaps data) (backup configMapResourceType);
        errs' ← collect_errors (secrets data) (backup secretResourceType);
        mret (NewAggregate (errs ++ errs'))
    end.

(** The loop over the two modes that [Backup] and [Restore] share. *)
Definition for_modes (select : string -> result (option Selector))
    (process : Selector -> string -> config -> M (option error)) : M (option error) :=
  ci ← get_mem;
  mode ← of_outcome (preservation_mode ci);
  if String.eqb mode PreservationModeNone then mret None
  else
    let namespace := Key_Namespace (CI_key ci) in
    for_errors [mode; PreservationModeInternal] (fun mode =>
      match select mode with
      | Err err => mret (Some err)
      | Ok None => mret None
      | Ok (Some labelSelector) =>
          process labelSelector namespace
            (mkConfig (mkObjectKey "" "") "" (GenerateOwnedByLabelValue namespace (Key_Name (CI_key ci)))
               (reinstall_generation ci) mode)
      end).

(* src: src/internal/controller/preservation/preservation.go 35-77 Backup *)
Definition Backup : M (option error) := for_modes buildBackupLabelSelector backupResources.

(** ** Restore *)

(** [true] means that the object is not to be restored; the object comes with the verdict. *)
(* src: src/internal/controller/preservation/helper.go 374-453 fetchAndValidateObjectToRestore *)
Definition fetchAndValidateObjectToRestore (config : config) : M (result (bool * Resource)) :=
  let key := cf_resourceKey config in
  let ns := FStr (Key_Namespace key) in
  let name := FStr (Key_Name key) in
  let mode := cf_preservationMode config in
  r ← call (GetResource "Secret" key);
  match r with
  | Err err =>
      mret (Err (Errorf "failed to retrieve resource (%s/%s) for restoration: %w" [ns; name; FErr err]))
  | Ok object =>
      let preservationMode := Res_Annotations object !! PreservationLabelKey in
      let hasAnnotation := bool_decide (is_Some preservationMode) in
      let internal := isInternalResource object in
      if negb internal && negb hasAnnotation && negb (String.eqb mode PreservationModeNone) then
        mret (Err (Errorf "preserved resource (%s/%s) is missing the '%s' annotation"
                     [ns; name; FStr PreservationLabelKey]))
      else if negb internal && hasAnnotation && String.eqb mode PreservationModeNone then
        mret (Ok (true, object))
      else if negb internal && String.eqb mode PreservationModeClusterIdentity
              && negb (String.eqb (default "" preservationMode) mode) then
        mret (Ok (true, object))
      else
        match (if negb (String.eqb (cf_ownerRef config) "") then
                 VerifyOwnership (Res_labels object) (Res_Name object) (Res_Namespace object) "Secret"
                   (cf_ownerRef config)
               else None) with
        | Some err =>
            mret (Err (Errorf "ownership verification failed for object with label %s: %w"
                         [FStr OwnedByLabel; FErr err]))
        | None =>
            if negb (String.eqb (cf_reinstallGeneration config) "") then
              match Res_Annotations object !! reinstallGenerationAnnotationKey with
              | None =>
                  mret (Err (Errorf "preserved resource (%s/%s) is missing the '%s' annotation"
                               [ns; name; FStr reinstallGenerationAnnotationKey]))
              | Some value =>
                  if negb (String.eqb value (cf_reinstallGeneration config)) then
                    mret (Err (Errorf "preserved resource's (%s/%s) '%s' annotation (%s) does not match (%s)"
                                 [ns; name; FStr reinstallGenerationAnnotationKey; FStr value;
                                  FStr (cf_reinstallGeneration config)]))
                  else mret (Ok (false, object))
              end
            else mret (Ok (false, object))
        end
  end.

(** [mutateFn] of [restoreResource]: the preserved data, annotations and labels. *)
(* src: src/internal/controller/preservation/helper.go 528-550 restoreResource *)
Definition restoreResource_mutate (preserved restoredResource : Resource) : M Resource :=
  now ← Now;
  mret (sanitizeResourceMetadata
    (mkResource (Res_Kind restoredResource) (Res_Namespace restoredResource) (Res_Name restoredResource)
       (Res_Labels preserved)
       (<[RestoredAtAnnotationKey := Format_RFC3339 now]> (Res_Annotations preserved))
       (Res_ResourceVersion restoredResource) (Res_UID restoredResource)
       (Res_CreationTimestamp restoredResource) (Res_OwnerReferences restoredResource)
       (Res_Type restoredResource) (Res_Immutable restoredResource) (Res_Data preserved))).

(* src: src/internal/controller/preservation/helper.go 457-568 restoreResource *)
Definition restoreResource (conf : config) : M (option error) :=
  let key := cf_resourceKey conf in
  let ns := FStr (Key_Namespace key) in
  let name := FStr (Key_Name key) in
  r ← fetchAndValidateObjectToRestore conf;
  match r with
  | Err err => mret (Some err)
  | Ok (true, _) => mret None
  | Ok (false, preservedResource) =>
      match Res_Annotations preservedResource !! resourceTypeAnnotationKey with
      | None =>
          mret (Some (Errorf "missing '%s' annotation in preserved resource (%s/%s)"
                        [FStr resourceTypeAnnotationKey; ns; name]))
      | Some resourceTypeValue =>
          match Res_Data preservedResource !! preservedDataKey with
          | None =>
              mret (Some (Errorf "missing '%s' key in Secret.Data (%s/%s)" [FStr preservedDataKey; ns; name]))
          | Some data =>
              if negb (String.eqb resourceTypeValue secretResourceType)
                 && negb (String.eqb resourceTypeValue configMapResourceType) then
                mret (Some (Errorf "unknown resource type: %s" [FStr resourceTypeValue]))
              else
                match Resource_Unmarshal resourceTypeValue data with
                | Err err =>
                    mret (Some (Errorf "failed to unmarshal preserved resource (%s/%s): %w" [ns; name; FErr err]))
                | Ok restoredResource =>
                    if_err (CreateOrUpdate restoredResource (restoreResource_mutate restoredResource))
                      (fun err => mret (Some (Errorf "failed to restore preserved %s (%s/%s): %w"
                         [FStr resourceTypeValue; FStr (Res_Namespace restoredResource);
                          FStr (Res_Name restoredResource); FErr err])))
                      (mret None)
                end
          end
      end
  end.

(* src: src/internal/controller/preservation/helper.go 570-618 restoreResources *)
Definition restoreResources (selector : Selector) (namespace : string) (baseConfig : config)
    : M (option error) :=
  r ← resourcesForPreservation namespace selector;
  match r with
  | Err err => mret (Some err)
  | Ok data =>
      errs ← collect_errors (configMaps data ++ secrets data) (fun name =>
        restoreResource (mkConfig (mkObjectKey namespace name) "" (cf_ownerRef baseConfig)
          (cf_reinstallGeneration baseConfig) (cf_preservationMode baseConfig)));
      mret (NewAggregate errs)
  end.

(* src: src/internal/controller/preservation/preservation.go 81-123 Restore *)
Definition Restore_preserved : M (option error) := for_modes buildRestoreLabelSelector restoreResources.

(** ** Cleanup *)

Definition raw_object (kind namespace name : string) : fields :=
  [("apiVersion", JStr "v1"); ("kind", JStr kind);
   ("metadata", JObj [("name", JStr name); ("namespace", JStr namespace)])].

(** The closure [deleteFn]: whether the object is gone, or an error. *)
(* src: src/internal/controller/preservation/preservation.go 168-196 Cleanup *)
Definition Cleanup_delete (rType name : string) : M (result bool) :=
  ci ← get_mem;
  match NewRenderedObject (raw_object rType (Key_Namespace (CI_key ci)) name) with
  | (_, Some err) => mret (Err (Errorf "failed to set object from raw data: %w" [FErr err]))
  | (object, None) =>
      '(deleted, err) ← DeleteObject object None;
      match IgnoreNotFound err with
      | Some err' =>
          mret (Err (Errorf "failed to delete object %s: %w"
                       [FStr (RenderedObject_GetResourceId object); FErr err']))
      | None => mret (Ok deleted)
      end
  end.

(** Deletes each name; the state is [completedCleanup] and the errors so far. *)
Definition Cleanup_all (rType : string) (names : list string) (completed : bool) (errs : list error)
    : M (bool * list error) :=
  r ← for_range names (completed, errs) (fun name (st : bool * list error) =>
        r ← Cleanup_delete rType name;
        mret (inl (B := False) (match r with
              | Err err => (st.1, st.2 ++ [err])
              | Ok deleted => (st.1 && deleted, st.2)
              end)));
  mret (match r with inl st => st | inr f => match f : False with end end).

(* src: src/internal/controller/preservation/preservation.go 143-166 Cleanup *)
Fixpoint Cleanup_data (modes : list string) (namespace : string) (data : resources)
    : M (result resources) :=
  match modes with
  | [] => mret (Ok data)
  | mode :: modes =>
      match buildRestoreLabelSelector mode with
      | Err err => mret (Err err)
      | Ok None => Cleanup_data modes namespace data
      | Ok (Some labelSelector) =>
          r ← resourcesForPreservation namespace labelSelector;
          match r with
          | Err err => mret (Err err)
          | Ok dataForMode =>
              Cleanup_data modes namespace
                (mkResources (configMaps data ++ configMaps dataForMode)
                   (secrets data ++ secrets dataForMode))
          end
      end
  end.

(* src: src/internal/controller/preservation/preservation.go 127-215 Cleanup *)
Definition Cleanup : M (bool * option error) :=
  ci ← get_mem;
  mode ← of_outcome (preservation_mode ci);
  r ← Cleanup_data [mode; PreservationModeInternal] (Key_Namespace (CI_key ci)) (mkResources [] []);
  match r with
  | Err err => mret (false, Some err)
  | Ok data =>
      st ← Cleanup_all configMapResourceType (configMaps data) true [];
      st ← Cleanup_all secretResourceType (secrets data) st.1 st.2;
      mret (st.1, NewAggregate st.2)
  end.

(** ** Counting *)

Definition count_category (classify : Resource -> resourceCategory) (l : list Resource) : nat * nat :=
  (length (List.filter (fun r => match classify r with resourceCategoryClusterIdentity => true | _ => false end) l),
   length (List.filter (fun r => match classify r with resourceCategoryOther => true | _ => false end) l)).

(* src: src/internal/controller/preservation/helper.go 675-728 countMatchingResources *)
Definition countMatchingResources (namespace : string) (selector : Selector) (checkRestored : bool)
    : M (nat * nat * option error) :=
  let classify := if checkRestored then classifyRestoredResource else classifyPreservedResource in
  let counted (what : string) (r : result (list Resource)) : nat * nat * list error :=
    match r with
    | Err err => (0, 0, [Errorf ("failed to list " +:+ what +:+ ": %w") [FErr err]])
    | Ok items => (count_category classify items, [])
    end in
  ss ← call (ListResources "Secret" namespace selector);
  cms ← call (ListResources "ConfigMap" namespace selector);
  let '(id1, other1, errs1) := counted "Secrets" ss in
  let '(id2, other2, errs2) := counted "ConfigMaps" cms in
  mret (id1 + id2, other1 + other2, NewAggregate (errs1 ++ errs2)).

Definition get_counts (select : string -> result (option Selector)) (checkRestored : bool)
    : M (nat * nat * option error) :=
  ci ← get_mem;
  mode ← of_outcome (preservation_mode ci);
  if String.eqb mode PreservationModeNone then mret (0, 0, None)
  else
    match select mode with
    | Err err => mret (0, 0, Some err)
    | Ok None => mret (0, 0, None)
    | Ok (Some labelSelector) =>
        countMatchingResources (Key_Namespace (CI_key ci)) labelSelector checkRestored
    end.

(* src: src/internal/controller/preservation/preservation.go 217-234 GetPreservedResourceCounts *)
Definition GetPreservedResourceCounts : M (nat * nat * option error) :=
  get_counts buildRestoreLabelSelector false.

(* src: src/internal/controller/preservation/preservation.go 236-253 GetRestoredResourceCounts *)
Definition GetRestoredResourceCounts : M (nat * nat * option error) :=
  get_counts buildBackupLabelSelector true.
End preservation.
