(* ===== verification/PreservationSpec.v ===== *)
(** * Preserving ConfigMaps and Secrets: theorems

    Backup names do not clash, a backup is never overwritten, a restore writes only what was
    preserved for this ClusterInstance and this reinstall, and backup followed by restore gives
    the resource back. *)
From S2P Require Import Prelude GoStd Types Errors Conditions Samples K8s Cluster Retry.
From S2P Require Import Requeue RenderedObject RenderedSpec Deletion Preservation.

(** ** Names *)

Lemma length_sapp a b : String.length (a +:+ b) = String.length a + String.length b.
Proof. induction a as [|c a IH]; [done|]. rewrite sapp_cons. simpl. by rewrite IH. Qed.

Lemma sapp_inj_r a b t : a +:+ t = b +:+ t -> a = b.
Proof.
  revert b. induction a as [|c a IH]; intros [|d b] H; [done| | |].
  - apply (f_equal String.length) in H. rewrite !length_sapp in H. simpl in H. lia.
  - apply (f_equal String.length) in H. rewrite !length_sapp in H. simpl in H. lia.
  - rewrite !sapp_cons in H. injection H as -> H. by rewrite (IH b).
Qed.

Lemma backup_name_text rType name gen :
  generateBackupName rType name gen = ToLower rType +:+ "-" +:+ name +:+ "-" +:+ gen.
Proof.
  unfold generateBackupName, Sprintf. simpl. rewrite ?sapp_nil_r, ?sapp_cons, ?sapp_nil_l. done.
Qed.

(** Within one reinstall no two resources share a backup: the name of a backup determines the kind
    and the name of what it preserves. *)
Theorem generateBackupName_inj rType rType' name name' gen :
  rType ∈ [configMapResourceType; secretResourceType] ->
  rType' ∈ [configMapResourceType; secretResourceType] ->
  generateBackupName rType name gen = generateBackupName rType' name' gen ->
  rType = rType' /\ name = name'.
Proof.
  intros Hr Hr'. rewrite !backup_name_text.
  assert (Hcut : forall p, p +:+ "-" +:+ name +:+ "-" +:+ gen = p +:+ "-" +:+ name' +:+ "-" +:+ gen -> name = name').
  { intros p H. assert (Hp : forall q a b, q +:+ a = q +:+ b -> a = b).
    { induction q as [|c q IH]; [done|]. intros a b. rewrite !sapp_cons. intros [= ?]. eauto. }
    apply Hp, Hp in H. by apply sapp_inj_r in H. }
  apply elem_of_cons in Hr as [->|Hr]; [|apply list_elem_of_singleton in Hr as ->];
    (apply elem_of_cons in Hr' as [->|Hr']; [|apply list_elem_of_singleton in Hr' as ->]); intros H;
    [split; [done|by eapply Hcut]|done|done|split; [done|by eapply Hcut]].
Qed.

Lemma generateBackupName_inj_witness :
  configMapResourceType = configMapResourceType /\ "a-b" = "a-b".
Proof.
  apply (generateBackupName_inj configMapResourceType configMapResourceType "a-b" "a-b" "gen-1");
    [left|left|reflexivity].
Defined.

(** ** Backups *)

Section backup.
Context `{ResourceYaml} `{TimeText} {W : Type} `{Server W}.

(** What a backup may do after the calls [pre]: read; create an immutable Secret with the YAML of
    a resource it has read; or update the live object that it has just read, keeping its
    data. *)
Definition backup_step (pre : list Event) (e : Event) : Prop :=
  match e with
  | Ev (CreateResource r) _ =>
      Res_Kind r = "Secret" /\ Res_Immutable r = Some true
      /\ exists kind name ns gen orig data,
           Res_key r = mkObjectKey ns (generateBackupName kind name gen)
           /\ Ev (GetResource kind (mkObjectKey ns name)) (Ok orig) ∈ pre
           /\ Resource_Marshal (sanitizeResourceMetadata orig) = Ok data
           /\ Res_Data r = {[preservedDataKey := data]}
  | Ev (UpdateResource r) _ =>
      exists kind key live, last pre = Some (Ev (GetResource kind key) (Ok live))
        /\ Res_Data r = Res_Data live /\ Res_Immutable r = Res_Immutable live /\ Res_key r = Res_key live
  | e => mutating e = false
  end.

Lemma createResource_mutate_wp config object Q ci w :
  (forall object' w', Res_Data object' = Res_Data object -> Res_Kind object' = Res_Kind object ->
     Res_Immutable object' = Res_Immutable object -> Res_key object' = Res_key object ->
     Q (Ret object') ci w' []) ->
  wp (createResource_mutate config object) Q ci w.
Proof. intros HQ. apply wp_bind, wp_Now. intros now w' _. apply wp_ret. by apply HQ. Qed.

Lemma backupResource_steps kind name ns gen owner mode :
  steps backup_step (backupResource (generateBackupName kind name gen)
    (mkConfig (mkObjectKey ns name) kind owner gen mode)).
Proof.
  intros pre ci w. unfold backupResource. case_goal; [by apply wp_ret|].
  apply wp_bind, wp_call. intros r w1 _. simpl. destruct r as [orig|err]; [|by apply wp_ret].
  destruct (Resource_Marshal (sanitizeResourceMetadata orig)) as [data|err] eqn:Hm; [|by apply wp_ret].
  unfold createResource. apply wp_if_err. unfold CreateOrUpdate. apply wp_bind, wp_call. intros r w2 _. simpl.
  destruct r as [live|err].
  - apply wp_bind, createResource_mutate_wp. intros obj' w3 Hd Hk Hi Hkey.
    case_goal; [by apply wp_ret, wp_ret|]. apply wp_bind, wp_call. intros r w4 _. apply wp_ret.
    destruct r; apply wp_ret; simpl; (split; [done|split; [done|split; [|done]]]);
      eexists _, _, live; (split; [by rewrite last_snoc|done]).
  - destruct (IsNotFound err); [|by apply wp_ret, wp_ret].
    apply wp_bind, createResource_mutate_wp. intros obj' w3 Hd Hk Hi Hkey.
    apply wp_bind, wp_call. intros r w4 _. apply wp_ret.
    destruct r; apply wp_ret; simpl; (split; [done|split; [done|split; [|done]]]);
      (split; [done|split; [done|]]); eexists kind, name, ns, gen, orig, data;
      (split; [done|split; [|done]]); apply elem_of_app; left; apply elem_of_app; right; left.
Qed.

Lemma resourcesForPreservation_steps ns sel : steps backup_step (resourcesForPreservation ns sel).
Proof. unfold resourcesForPreservation. steps_go; by apply steps_call. Qed.

Lemma Backup_steps : steps backup_step Backup.
Proof.
  unfold Backup, for_modes, backupResources. steps_go; try apply resourcesForPreservation_steps;
    apply backupResource_steps.
Qed.

End backup.

(** ** Restores *)

Section restore.
Context `{ResourceYaml} `{TimeText} {W : Type} `{Server W}.

(** What a restore may do after the calls [pre]: read, or write a resource whose data, labels and
    annotations (with the time of the restore) are those preserved in a Secret it has read, which
    carries the label of the owner and the annotation of the reinstall generation. *)
Definition restore_step (owner gen : string) (pre : list Event) (e : Event) : Prop :=
  match e with
  | Ev (CreateResource r) _ | Ev (UpdateResource r) _ =>
      exists key p kind data orig t,
        Ev (GetResource "Secret" key) (Ok p) ∈ pre
        /\ GetOwner (Res_labels p) = owner
        /\ (gen <> "" -> Res_Annotations p !! reinstallGenerationAnnotationKey = Some gen)
        /\ Res_Annotations p !! resourceTypeAnnotationKey = Some kind
        /\ Res_Data p !! preservedDataKey = Some data /\ Resource_Unmarshal kind data = Ok orig
        /\ Res_Data r = Res_Data orig /\ Res_Labels r = Res_Labels orig
        /\ Res_Annotations r = <[RestoredAtAnnotationKey := Format_RFC3339 t]> (Res_Annotations orig)
        /\ Res_ResourceVersion r = "" /\ Res_UID r = "" /\ Res_OwnerReferences r = []
  | e => mutating e = false
  end.

Lemma VerifyOwnership_owner labels name ns kind owner :
  VerifyOwnership labels name ns kind owner = None -> GetOwner labels = owner.
Proof.
  unfold VerifyOwnership. destruct (String.eqb_spec (GetOwner labels) owner); [done|]. done.
Qed.

Lemma fetch_spec config ci w :
  cf_ownerRef config <> "" ->
  wp (fetchAndValidateObjectToRestore config) (fun o s' _ ev =>
    s' = ci /\ exists r, ev = [Ev (GetResource "Secret" (cf_resourceKey config)) r]
      /\ exists v, o = Ret v /\ forall p, v = Ok (false, p) ->
           r = Ok p /\ GetOwner (Res_labels p) = cf_ownerRef config
           /\ (cf_reinstallGeneration config <> "" ->
                Res_Annotations p !! reinstallGenerationAnnotationKey = Some (cf_reinstallGeneration config)))
    ci w.
Proof.
  intros Hown. unfold fetchAndValidateObjectToRestore. apply wp_bind, wp_call. intros r w1 _.
  destruct r as [p|err]; [|apply wp_ret; naive_solver].
  case_goal; [apply wp_ret; naive_solver|]. case_goal; [apply wp_ret; naive_solver|].
  case_goal; [apply wp_ret; naive_solver|].
  destruct (String.eqb_spec (cf_ownerRef config) ""); [done|]. cbn [negb].
  destruct (VerifyOwnership (Res_labels p) (Res_Name p) (Res_Namespace p) "Secret" (cf_ownerRef config)) as [err|] eqn:Hv;
    [apply wp_ret; naive_solver|].
  apply VerifyOwnership_owner in Hv.
  destruct (String.eqb_spec (cf_reinstallGeneration config) "") as [Hg|Hg]; cbn [negb].
  - apply wp_ret. split; [done|]. eexists. split; [done|]. eexists. split; [done|]. intros p' [= <-]. done.
  - destruct (Res_Annotations p !! reinstallGenerationAnnotationKey) as [v|] eqn:Ha; [|apply wp_ret; naive_solver].
    destruct (String.eqb_spec v (cf_reinstallGeneration config)) as [->|]; cbn [negb]; [|apply wp_ret; naive_solver].
    apply wp_ret. split; [done|]. eexists. split; [done|]. eexists. split; [done|]. intros p' [= <-]. done.
Qed.

Lemma restoreResource_steps conf :
  cf_ownerRef conf <> "" ->
  steps (restore_step (cf_ownerRef conf) (cf_reinstallGeneration conf)) (restoreResource conf).
Proof.
  intros Hown pre ci w. unfold restoreResource. apply wp_bind. eapply wp_mono; [by apply fetch_spec|].
  intros o s' w1 ev (-> & r & -> & v & -> & Hv). simpl.
  assert (Hget : forall o' : outcome (option error), wp (of_outcome o' : Prog ClusterInstance W Event (option error))
    (fun _ _ _ ev' => restore_step (cf_ownerRef conf) (cf_reinstallGeneration conf) pre
      (Ev (GetResource "Secret" (cf_resourceKey conf)) r) /\ each_event (restore_step (cf_ownerRef conf)
        (cf_reinstallGeneration conf)) (pre ++ [Ev (GetResource "Secret" (cf_resourceKey conf)) r]) ev') ci w1) by done.
  destruct v as [[[] p]|err]; [by apply (Hget (Ret _))| |by apply (Hget (Ret _))].
  destruct (Hv p eq_refl) as (-> & Howner & Hgen).
  destruct (Res_Annotations p !! resourceTypeAnnotationKey) as [kind|] eqn:Hk; [|by apply (Hget (Ret _))].
  destruct (Res_Data p !! preservedDataKey) as [data|] eqn:Hd; [|by apply (Hget (Ret _))].
  case_goal; [by apply (Hget (Ret _))|].
  destruct (Resource_Unmarshal kind data) as [orig|err] eqn:Hu; [|by apply (Hget (Ret _))].
  apply wp_if_err. unfold CreateOrUpdate. apply wp_bind, wp_call. intros r w2 _.
  assert (Hin : forall l, Ev (GetResource "Secret" (cf_resourceKey conf)) (Ok p)
    ∈ (pre ++ [Ev (GetResource "Secret" (cf_resourceKey conf)) (Ok p)]) ++ l).
  { intros l. apply elem_of_app; left. apply elem_of_app; right. left. }
  destruct r as [live|err].
  - apply wp_bind, wp_bind, wp_Now. intros t w3 _. apply wp_ret. case_goal; [by apply wp_ret, wp_ret|].
    apply wp_bind, wp_call. intros r w4 _. apply wp_ret.
    destruct r; apply wp_ret; simpl; (split; [done|split; [done|split; [|done]]]);
      exists (cf_resourceKey conf), p, kind, data, orig, t; split_and?; try done; apply Hin.
  - destruct (IsNotFound err); [|by apply wp_ret, wp_ret].
    apply wp_bind, wp_bind, wp_Now. intros t w3 _. apply wp_ret.
    apply wp_bind, wp_call. intros r w4 _. apply wp_ret.
    destruct r; apply wp_ret; simpl; (split; [done|split; [done|split; [|done]]]);
      exists (cf_resourceKey conf), p, kind, data, orig, t; split_and?; try done; apply Hin.
Qed.

Lemma owned_by_nonempty ns n : GenerateOwnedByLabelValue ns n <> "".
Proof. rewrite owned_by_text. by destruct ns. Qed.

Lemma Restore_steps ci w :
  wp Restore_preserved (fun _ _ _ ev =>
    each_event (restore_step (GenerateOwnedByLabelValue (Key_Namespace (CI_key ci)) (Key_Name (CI_key ci)))
      (reinstall_generation ci)) [] ev) ci w.
Proof.
  unfold Restore_preserved, for_modes. apply wp_bind, wp_get.
  set (owner := GenerateOwnedByLabelValue _ _). assert (Hown : owner <> "") by apply owned_by_nonempty.
  match goal with |- wp ?m _ _ _ => assert (Hm : steps (restore_step owner (reinstall_generation ci)) m) end.
  { unfold restoreResources, resourcesForPreservation. steps_go; try by apply steps_call.
    by apply restoreResource_steps. }
  apply (Hm []).
Qed.

(** C12: A restore writes nothing but what was preserved for this ClusterInstance and this reinstall: each
    resource it creates or updates has the data, the labels and the annotations (plus the time of
    the restore) found in a preserved Secret that carries this ClusterInstance's owned-by label
    and this reinstall's generation; everything else it does is reading. *)
Theorem Restore_safe ci w n e :
  let calls := run_evs (Restore_preserved ci w) in
  calls !! n = Some e ->
  restore_step (GenerateOwnedByLabelValue (Key_Namespace (CI_key ci)) (Key_Name (CI_key ci)))
    (reinstall_generation ci) (take n calls) e.
Proof. intros calls Hn. by apply (each_event_lookup _ _ _ _ _ (Restore_steps ci w)) in Hn. Qed.
End restore.

(** ** Round trip *)

(** Lookups under insertions of constant keys. *)
Ltac key_ne := let H := fresh in intro H; vm_compute in H; discriminate H.
Ltac lookups := repeat first
  [rewrite lookup_insert_eq | rewrite lookup_insert_ne by key_ne | rewrite lookup_empty].

Section roundtrip.
Context `{ResourceYaml} `{TimeText} {W : Type} `{Server W}.

(** The Secret that the backup of [orig] creates at [now]. *)
Definition preserved_of (owner gen mode data : string) (now : Time) (orig : Resource) : Resource :=
  let c := mkConfig (Res_key orig) (Res_Kind orig) owner gen mode in
  let s := preservedSecret (generateBackupName (Res_Kind orig) (Res_Name orig) gen) (Res_Namespace orig)
             (sanitizeResourceMetadata orig) data in
  let internal := String.eqb mode PreservationModeInternal in
  mkResource "Secret" (Res_Namespace s) (Res_Name s)
    (Some (<[if internal then preservedInternalDataLabelKey else preservedDataLabelKey := Itoa (Unix now)]>
             (<[OwnedByLabel := owner]> ∅)))
    (<[if internal then InternalPreservationLabelKey else PreservationLabelKey := mode]>
      (<[reinstallGenerationAnnotationKey := gen]>
        (<[resourceTypeAnnotationKey := Res_Kind orig]> (Res_Annotations s))))
    "" "" 0 [] "Opaque" (Some true) {[preservedDataKey := data]}.

Lemma backup_creates owner gen mode data orig ci w w1 w2 now w3 :
  Res_Kind orig ∈ [configMapResourceType; secretResourceType] -> owner <> "" -> gen <> "" ->
  Resource_Marshal (sanitizeResourceMetadata orig) = Ok data ->
  serve (GetResource (Res_Kind orig) (Res_key orig)) w = (Ok orig, w1) ->
  (exists err, IsNotFound err = true /\
    serve (GetResource "Secret" (mkObjectKey (Res_Namespace orig)
      (generateBackupName (Res_Kind orig) (Res_Name orig) gen))) w1 = (Err err, w2)) ->
  clock w2 = (now, w3) ->
  wp (backupResource (generateBackupName (Res_Kind orig) (Res_Name orig) gen)
       (mkConfig (Res_key orig) (Res_Kind orig) owner gen mode))
    (fun o _ _ ev => exists r,
       last ev = Some (Ev (CreateResource (preserved_of owner gen mode data now orig)) r)) ci w.
Proof.
  intros Hk Ho Hg Hm Hget (err & Hnf & Hget2) Hclock. unfold backupResource.
  assert (Hkind : negb (String.eqb (Res_Kind orig) configMapResourceType)
    && negb (String.eqb (Res_Kind orig) secretResourceType) = false).
  { apply elem_of_cons in Hk as [->|Hk]; [done|]. by apply list_elem_of_singleton in Hk as ->. }
  cbn [cf_resourceType cf_resourceKey]. rewrite Hkind.
  apply wp_bind, wp_call. intros r wa Hr. rewrite Hget in Hr. injection Hr as <- <-.
  rewrite Hm. unfold createResource. apply wp_if_err. unfold CreateOrUpdate.
  apply wp_bind, wp_call. intros r wb Hr.
  change (GetResource _ _) with (GetResource "Secret" (mkObjectKey (Res_Namespace orig)
      (generateBackupName (Res_Kind orig) (Res_Name orig) gen))) in Hr.
  rewrite Hget2 in Hr. injection Hr as <- <-. rewrite Hnf.
  apply wp_bind. unfold createResource_mutate. apply wp_bind, wp_Now. intros t wc Ht.
  rewrite Hclock in Ht. injection Ht as <- <-. apply wp_ret.
  cbn [cf_ownerRef cf_reinstallGeneration cf_preservationMode cf_resourceType].
  destruct (String.eqb_spec owner "") as [|_]; [done|]. destruct (String.eqb_spec gen "") as [|_]; [done|].
  cbn [negb]. apply wp_bind, wp_call. intros r wd _. apply wp_ret.
  destruct r; apply wp_ret; simpl; eexists; reflexivity.
Qed.

Lemma Itoa_nonempty z : Itoa z <> "".
Proof.
  unfold Itoa. destruct (Z.to_int z) as [d|d]; [|done]. destruct d; done.
Qed.

Lemma restore_accepts p owner gen mode data now orig key ci w w1 :
  mode ∈ [PreservationModeAll; PreservationModeClusterIdentity; PreservationModeInternal] ->
  owner <> "" -> gen <> "" ->
  Res_labels p = Res_labels (preserved_of owner gen mode data now orig) ->
  Res_Annotations p = Res_Annotations (preserved_of owner gen mode data now orig) ->
  serve (GetResource "Secret" key) w = (Ok p, w1) ->
  wp (fetchAndValidateObjectToRestore (mkConfig key "" owner gen mode))
    (fun o s' w' ev => o = Ret (Ok (false, p)) /\ s' = ci /\ w' = w1
       /\ ev = [Ev (GetResource "Secret" key) (Ok p)]) ci w.
Proof.
  intros Hmode Ho Hg Hl Ha Hget. unfold fetchAndValidateObjectToRestore.
  apply wp_bind, wp_call. intros r wa Hr. cbn [cf_resourceKey] in Hr. rewrite Hget in Hr. injection Hr as <- <-.
  cbn [cf_resourceKey cf_preservationMode cf_ownerRef cf_reinstallGeneration].
  assert (Hann : Res_Annotations p !! reinstallGenerationAnnotationKey = Some gen).
  { rewrite Ha. unfold preserved_of. cbn [Res_Annotations]. set (internal := String.eqb mode PreservationModeInternal).
    destruct internal; by lookups. }
  assert (Hown : VerifyOwnership (Res_labels p) (Res_Name p) (Res_Namespace p) "Secret" owner = None).
  { unfold VerifyOwnership, GetOwner. rewrite Hl. unfold Res_labels, preserved_of. cbn [Res_Labels default].
    set (internal := String.eqb mode PreservationModeInternal).
    destruct internal; cbn [from_option id]; lookups; cbn [from_option id]; by rewrite String.eqb_refl. }
  rewrite Hown, Hann. destruct (String.eqb_spec owner "") as [|_]; [done|].
  destruct (String.eqb_spec gen "") as [|_]; [done|]. cbn [negb]. rewrite String.eqb_refl. cbn [negb].
  assert (Hcheck : isInternalResource p = true
    \/ Res_Annotations p !! PreservationLabelKey = Some mode /\ mode <> PreservationModeNone).
  { apply elem_of_cons in Hmode as [->|Hmode]; [|apply elem_of_cons in Hmode as [->|Hmode]; [|apply list_elem_of_singleton in Hmode as ->]].
    - right. rewrite Ha. unfold preserved_of. cbn [Res_Annotations]. cbn [String.eqb]. by split; [lookups|].
    - right. rewrite Ha. unfold preserved_of. cbn [Res_Annotations]. by split; [lookups|].
    - left. unfold isInternalResource. rewrite Hl. unfold Res_labels, preserved_of. cbn [Res_Labels].
      change (String.eqb PreservationModeInternal PreservationModeInternal) with true. cbn [from_option id default].
      unfold lookup_str at 2. lookups. cbn [from_option id default].
      apply orb_true_iff. right. destruct (String.eqb_spec (Itoa (Unix now)) "") as [He|]; [|done].
      by apply Itoa_nonempty in He. }
  destruct Hcheck as [->|[Hp Hne]]; [by apply wp_ret|].
  rewrite Hp, bool_decide_true by eauto. cbn [negb andb default from_option id].
  rewrite !andb_false_r. cbn [andb].
  destruct (String.eqb_spec mode PreservationModeNone) as [|_]; [done|]. rewrite !andb_false_r.
  rewrite String.eqb_refl. cbn [negb]. rewrite !andb_false_r. by apply wp_ret.
Qed.

(** [orig] as a restore at time [t] makes it: itself, without the server's metadata. *)
Definition restored_of (t : Time) (orig : Resource) : Resource :=
  mkResource (Res_Kind orig) (Res_Namespace orig) (Res_Name orig) (Res_Labels orig)
    (<[RestoredAtAnnotationKey := Format_RFC3339 t]> (Res_Annotations orig)) "" "" 0 []
    (Res_Type orig) (Res_Immutable orig) (Res_Data orig).

Lemma restore_creates p owner gen mode data now orig key ci w w1 w2 t w3 :
  mode ∈ [PreservationModeAll; PreservationModeClusterIdentity; PreservationModeInternal] ->
  Res_Kind orig ∈ [configMapResourceType; secretResourceType] -> owner <> "" -> gen <> "" ->
  Resource_Unmarshal (Res_Kind orig) data = Ok (sanitizeResourceMetadata orig) ->
  Res_Labels p = Res_Labels (preserved_of owner gen mode data now orig) ->
  Res_Annotations p = Res_Annotations (preserved_of owner gen mode data now orig) ->
  Res_Data p = Res_Data (preserved_of owner gen mode data now orig) ->
  serve (GetResource "Secret" key) w = (Ok p, w1) ->
  (exists err, IsNotFound err = true /\ serve (GetResource (Res_Kind orig) (Res_key orig)) w1 = (Err err, w2)) ->
  clock w2 = (t, w3) ->
  wp (restoreResource (mkConfig key "" owner gen mode))
    (fun o _ _ ev => exists r, last ev = Some (Ev (CreateResource (restored_of t orig)) r)) ci w.
Proof.
  intros Hmode Hk Ho Hg Hy Hl Ha Hd Hget (err & Hnf & Hget2) Hclock. unfold restoreResource.
  apply wp_bind. eapply wp_mono; [eapply (restore_accepts p owner gen mode data now orig); try done; exact (f_equal (default ∅) Hl)|]. intros o s' w' ev (-> & -> & -> & ->).
  assert (Hkind : Res_Annotations p !! resourceTypeAnnotationKey = Some (Res_Kind orig)).
  { rewrite Ha. unfold preserved_of. cbn [Res_Annotations].
    destruct (String.eqb mode PreservationModeInternal); by lookups. }
  assert (Hdata : Res_Data p !! preservedDataKey = Some data).
  { rewrite Hd. unfold preserved_of. cbn [Res_Data]. apply lookup_singleton_eq. }
  rewrite Hkind, Hdata.
  assert (Hok : negb (String.eqb (Res_Kind orig) secretResourceType)
    && negb (String.eqb (Res_Kind orig) configMapResourceType) = false).
  { apply elem_of_cons in Hk as [->|Hk]; [done|]. by apply list_elem_of_singleton in Hk as ->. }
  rewrite Hok, Hy. apply wp_if_err. unfold CreateOrUpdate. apply wp_bind, wp_call. intros r wb Hr.
  change (GetResource _ _) with (GetResource (Res_Kind orig) (Res_key orig)) in Hr.
  rewrite Hget2 in Hr. injection Hr as <- <-. rewrite Hnf.
  apply wp_bind, wp_bind, wp_Now. intros t' wc Ht. rewrite Hclock in Ht. injection Ht as <- <-.
  apply wp_ret, wp_bind, wp_call. intros r wd _. apply wp_ret. destruct r; apply wp_ret; simpl; eexists; reflexivity.
Qed.

(** C13: Backing a resource up and restoring it gives it back: from a resource that the API server
    shows, the backup creates a Secret; from a Secret with the labels, annotations and data of
    that one, and with the resource gone, the restore creates a resource of the same kind, key,
    labels, data, type and immutability, whose annotations are the original ones plus the time of
    the restore. It needs of the YAML library that it reads back what it has written. *)
Theorem backup_restore_roundtrip mode owner gen orig data ci w w1 w2 now w3 p key ci' w' w1' w2' t w3' :
  mode ∈ [PreservationModeAll; PreservationModeClusterIdentity; PreservationModeInternal] ->
  Res_Kind orig ∈ [configMapResourceType; secretResourceType] -> owner <> "" -> gen <> "" ->
  Resource_Marshal (sanitizeResourceMetadata orig) = Ok data ->
  Resource_Unmarshal (Res_Kind orig) data = Ok (sanitizeResourceMetadata orig) ->
  serve (GetResource (Res_Kind orig) (Res_key orig)) w = (Ok orig, w1) ->
  (exists err, IsNotFound err = true /\
    serve (GetResource "Secret" (mkObjectKey (Res_Namespace orig)
      (generateBackupName (Res_Kind orig) (Res_Name orig) gen))) w1 = (Err err, w2)) ->
  clock w2 = (now, w3) ->
  (forall c r, last (run_evs (backupResource (generateBackupName (Res_Kind orig) (Res_Name orig) gen)
                     (mkConfig (Res_key orig) (Res_Kind orig) owner gen mode) ci w))
               = Some (Ev (CreateResource c) r) ->
     Res_Labels p = Res_Labels c /\ Res_Annotations p = Res_Annotations c /\ Res_Data p = Res_Data c) ->
  serve (GetResource "Secret" key) w' = (Ok p, w1') ->
  (exists err, IsNotFound err = true /\ serve (GetResource (Res_Kind orig) (Res_key orig)) w1' = (Err err, w2')) ->
  clock w2' = (t, w3') ->
  exists r, last (run_evs (restoreResource (mkConfig key "" owner gen mode) ci' w'))
            = Some (Ev (CreateResource (restored_of t orig)) r).
Proof.
  intros Hmode Hk Ho Hg Hm Hu Hget Hnf Hclock Hp Hget' Hnf' Hclock'.
  destruct (backup_creates owner gen mode data orig ci w w1 w2 now w3 Hk Ho Hg Hm Hget Hnf Hclock) as [r Hr].
  destruct (Hp _ _ Hr) as (Hl & Ha & Hd).
  by apply (restore_creates p owner gen mode data now orig key ci' w' w1' w2' t w3').
Qed.
End roundtrip.

(** ** Classification *)

(** The category of what the labels [labels] select. *)
Definition category_of (labels : smap) : resourceCategory :=
  if String.eqb (lookup_str PreservationLabelKey labels) ClusterIdentityLabelValue
  then resourceCategoryClusterIdentity else resourceCategoryOther.

Lemma classify_restored r :
  isInternalResource r = false -> lookup_str RestoredAtAnnotationKey (Res_Annotations r) <> "" ->
  classifyRestoredResource r = category_of (Res_labels r).
Proof.
  intros Hint Ht. unfold classifyRestoredResource, category_of. rewrite Hint. cbn [orb].
  by apply String.eqb_neq in Ht as ->.
Qed.

Lemma classify_alike r r' :
  Res_labels r = Res_labels r' -> Res_Annotations r = Res_Annotations r' ->
  classifyPreservedResource r = classifyPreservedResource r'.
Proof. intros Hl Ha. unfold classifyPreservedResource, isInternalResource. by rewrite Hl, Ha. Qed.

Lemma classify_preserved owner gen mode data now orig sel :
  mode ∈ [PreservationModeAll; PreservationModeClusterIdentity] ->
  buildBackupLabelSelector mode = Ok (Some sel) -> Selector_matches sel (Res_labels orig) = true ->
  classifyPreservedResource (preserved_of owner gen mode data now orig) = category_of (Res_labels orig).
Proof.
  intros Hmode Hsel Hmatch.
  assert (Hmode' : mode = PreservationModeAll \/ mode = PreservationModeClusterIdentity).
  { apply elem_of_cons in Hmode as [->|Hmode]; [by left|]. right. by apply list_elem_of_singleton in Hmode. }
  assert (Hnint : isInternalResource (preserved_of owner gen mode data now orig) = false).
  { unfold isInternalResource, Res_labels, preserved_of. cbn [Res_Labels default from_option id].
    destruct Hmode' as [-> | ->];
      change (String.eqb _ PreservationModeInternal) with false; cbn [from_option id default];
      unfold lookup_str; by lookups. }
  assert (Hann : forall k, k <> PreservationLabelKey -> k <> reinstallGenerationAnnotationKey ->
    k <> resourceTypeAnnotationKey ->
    Res_Annotations (preserved_of owner gen mode data now orig) !! k
    = (if String.eqb (lookup_str PreservationLabelKey (Res_labels orig)) ClusterIdentityLabelValue
       then {[ClusterIdentityDataAnnotationKey := ""]} else ∅ : smap) !! k).
  { intros k H1 H2 H3. unfold preserved_of. cbn [Res_Annotations preservedSecret].
    destruct Hmode' as [-> | ->]; change (String.eqb _ PreservationModeInternal) with false;
      cbn [from_option id default]; rewrite !lookup_insert_ne by done; done. }
  unfold classifyPreservedResource, category_of. rewrite Hnint, Hann by key_ne.
  destruct (String.eqb_spec (lookup_str PreservationLabelKey (Res_labels orig)) ClusterIdentityLabelValue) as [He|He].
  { by rewrite lookup_singleton_eq. }
  rewrite lookup_empty. destruct Hmode' as [-> | ->].
  - unfold lookup_str, preserved_of. cbn [Res_Annotations]. change (String.eqb _ PreservationModeInternal) with false.
    cbn [from_option id default]. by lookups.
  - change (buildBackupLabelSelector _) with
      (Ok (Some (SelEquals PreservationLabelKey ClusterIdentityLabelValue))) in Hsel. injection Hsel as <-. unfold Selector_matches in Hmatch. bools.
    unfold lookup_str in He. exfalso. apply He. by rewrite Hmatch.
Qed.

(** Counting what is preserved and counting what was restored agree: the Secret that preserves a
    resource is classified as the resource restored from it is, as cluster identity or as other
    data, for a resource that the mode selects and that is not internal. *)
Theorem classification_agrees `{TimeText} owner gen mode data now t orig sel :
  mode ∈ [PreservationModeAll; PreservationModeClusterIdentity] ->
  buildBackupLabelSelector mode = Ok (Some sel) -> Selector_matches sel (Res_labels orig) = true ->
  isInternalResource orig = false -> Format_RFC3339 t <> "" ->
  classifyPreservedResource (preserved_of owner gen mode data now orig)
  = classifyRestoredResource (restored_of t orig)
  /\ classifyRestoredResource (restored_of t orig) <> resourceCategoryUnknown.
Proof.
  intros Hmode Hsel Hmatch Hint Ht. rewrite (classify_preserved owner gen mode data now orig sel Hmode Hsel Hmatch).
  rewrite classify_restored; [|done|unfold lookup_str; simpl; by rewrite lookup_insert_eq].
  split; [done|]. unfold category_of. by case_goal.
Qed.

(** ** Examples *)

Definition identity_map : Resource :=
  mkResource "ConfigMap" "site-sno" "extra-config" (Some {[PreservationLabelKey := ClusterIdentityLabelValue]})
    ∅ "7" "uid" 5 [] "" None {["key" := "value"]}.

#[local] Instance sample_yaml : ResourceYaml := {|
  Resource_Marshal := fun _ => Ok "yaml";
  Resource_Unmarshal := fun _ _ => Ok (sanitizeResourceMetadata identity_map)
|}.
#[local] Instance sample_time : TimeText := {| Format_RFC3339 := fun _ => "2024-01-01T00:00:00Z" |}.

Definition sno_preserving : ClusterInstance :=
  sample_ci [node1] (Some (mkReinstallSpec "gen-1" PreservationModeClusterIdentity)) Completed None.

Definition before_backup : cluster := with_resources [identity_map] (empty_cluster 100).
Definition backup_run := Backup sno_preserving before_backup.

(** The identity data is gone; its Secret is there. *)
Definition before_restore : cluster :=
  with_resources (List.filter (fun r => String.eqb (Res_Kind r) "Secret") (cl_resources (run_world backup_run)))
    (empty_cluster 200).

Example backup_then_restore :
  List.map Res_Name (cl_resources (run_world (Restore_preserved sno_preserving before_restore)))
  = ["extra-config"; "configmap-extra-config-gen-1"].
Proof. vm_compute. reflexivity. Qed.


Lemma Restore_safe_witness :
  let calls := run_evs (Restore_preserved sno_preserving before_restore) in
  option_map mutating (calls !! 4) = Some true
  /\ from_option (restore_step (GenerateOwnedByLabelValue (Key_Namespace (CI_key sno_preserving))
        (Key_Name (CI_key sno_preserving))) (reinstall_generation sno_preserving) (take 4 calls)) False (calls !! 4).
Proof.
  intros calls. assert (Hm : option_map mutating (calls !! 4) = Some true) by (vm_compute; reflexivity).
  split; [exact Hm|]. destruct (calls !! 4) as [e|] eqn:He; [|discriminate Hm].
  apply (Restore_safe sno_preserving before_restore 4 e He).
Defined.

Definition created (e : Event) : option Resource :=
  match e with Ev (CreateResource r) _ => Some r | _ => None end.

Definition created_last (evs : list Event) : option Resource := last evs ≫= created.

Definition identity_secret : Resource :=
  preserved_of "site-sno_site-sno" "gen-1" PreservationModeAll "yaml" 100 identity_map.
Definition with_secret : cluster := with_resources [identity_secret] (empty_cluster 200).

Lemma identity_secret_created :
  created_last (run_evs (backupResource (generateBackupName (Res_Kind identity_map) (Res_Name identity_map) "gen-1")
    (mkConfig (Res_key identity_map) (Res_Kind identity_map) "site-sno_site-sno" "gen-1" PreservationModeAll)
    sno before_backup)) = Some identity_secret.
Proof. vm_compute. reflexivity. Qed.

Definition backup_evs : list Event :=
  run_evs (backupResource (generateBackupName (Res_Kind identity_map) (Res_Name identity_map) "gen-1")
    (mkConfig (Res_key identity_map) (Res_Kind identity_map) "site-sno_site-sno" "gen-1" PreservationModeAll)
    sno before_backup).

Lemma backup_restore_roundtrip_witness :
  exists r, last (run_evs (restoreResource (mkConfig (Res_key identity_secret) "" "site-sno_site-sno" "gen-1"
                    PreservationModeAll) sno with_secret))
            = Some (Ev (CreateResource (restored_of 200 identity_map)) r).
Proof.
  assert (Hget : serve (GetResource (Res_Kind identity_map) (Res_key identity_map)) before_backup
                 = (Ok identity_map, before_backup)) by (vm_compute; reflexivity).
  assert (Hnone : exists err, IsNotFound err = true /\ serve (GetResource "Secret" (mkObjectKey
      (Res_Namespace identity_map) (generateBackupName (Res_Kind identity_map) (Res_Name identity_map) "gen-1")))
      before_backup = (Err err, before_backup)).
  { exists (not_found "Secret"). split; vm_compute; reflexivity. }
  assert (Hsecret : serve (GetResource "Secret" (Res_key identity_secret)) with_secret
                    = (Ok identity_secret, with_secret)) by (vm_compute; reflexivity).
  assert (Hgone : exists err, IsNotFound err = true /\ serve (GetResource (Res_Kind identity_map)
      (Res_key identity_map)) with_secret = (Err err, with_secret)).
  { exists (not_found "ConfigMap"). split; vm_compute; reflexivity. }
  assert (Hkept : forall c r, last backup_evs = Some (Ev (CreateResource c) r) ->
     Res_Labels identity_secret = Res_Labels c /\ Res_Annotations identity_secret = Res_Annotations c
     /\ Res_Data identity_secret = Res_Data c).
  { intros c r Hl. assert (Hc := identity_secret_created). fold backup_evs in Hc. unfold created_last in Hc.
    rewrite Hl in Hc. cbn [mbind option_bind created] in Hc. injection Hc as Hc. rewrite Hc. repeat split. }
  unfold backup_evs in Hkept.
  exact (backup_restore_roundtrip PreservationModeAll "site-sno_site-sno" "gen-1" identity_map "yaml" sno
    before_backup before_backup before_backup 100 before_backup identity_secret (Res_key identity_secret) sno
    with_secret with_secret with_secret 200 with_secret ltac:(left) ltac:(left) ltac:(discriminate)
    ltac:(discriminate) eq_refl eq_refl Hget Hnone eq_refl Hkept Hsecret Hgone eq_refl).
Defined.

Lemma classification_agrees_witness :
  classifyPreservedResource (preserved_of "o" "g" PreservationModeAll "yaml" 100 identity_map)
  = classifyRestoredResource (restored_of 200 identity_map).
Proof.
  apply (classification_agrees "o" "g" PreservationModeAll "yaml" 100 200 identity_map (SelExists PreservationLabelKey));
    [left|reflexivity|reflexivity|reflexivity|discriminate].
Defined.
