(* ===== verification/Reinstall.v ===== *)
(** * The reinstall workflow (internal/controller/reinstall/reinstall.go, helper.go)

    [ProcessRequest] is called on every reconcile while a request is outstanding; what it does
    next is read off the conditions of [Status.Reinstall]. The pointers [FindStatusCondition]
    returns are values here; one of them is used after a call that may have replaced the object
    ([record_deletion] after an unfinished deletion), where it is compared with what the API
    server has sent back. A deferred function is the continuation of every normal return; after a
    panic it is not run.

    Decoding the last-observed spec into the Go structs, some of which come from other
    repositories with their own decoders, is a parameter ([SpecText]). *)
From S2P Require Import Prelude GoStd JsonDiff JsonCodec Types Errors Conditions K8s Retry.
From S2P Require Import Requeue RenderedObject Pause Configuration Deletion Preservation.

(* src: src/internal/controller/reinstall/reinstall.go 47-51 requeueWithShortInterval *)
Definition requeueWithShortInterval : Duration := (2 * Second)%Z.
Definition deletionRequeueWithMediumInterval : Duration := (30 * Second)%Z.
Definition deletionRequeueWithShortInterval : Duration := (15 * Second)%Z.

Definition nil_dereference : string := "invalid memory address or nil pointer dereference".

(** ** The ManagedCluster among the rendered manifests *)

(* src: src/internal/controller/reinstall/helper.go 44-52 getManagedClusterManifest *)
Definition getManagedClusterManifest (ci : ClusterInstance) : option ManifestReference :=
  List.find (fun manifest => String.eqb (MRef_Kind manifest) "ManagedCluster"
      && String.eqb (MRef_Status manifest) ManifestRenderedSuccess)
    (Status_ManifestsRendered (CI_Status ci)).

(* src: src/internal/controller/reinstall/helper.go 60-69 getManagedCluster *)
Definition managed_cluster_fields (apiVersion : string) (manifest : ManifestReference) : fields :=
  [ ("apiVersion", JStr apiVersion);
    ("kind", JStr (MRef_Kind manifest));
    ("metadata", JObj
      [ ("annotations", JObj [(WaveAnnotation, JStr (Sprintf "%d" [FInt (MRef_SyncWave manifest)]))]);
        ("name", JStr (MRef_Name manifest)) ]) ].

(* src: src/internal/controller/reinstall/helper.go 54-75 getManagedCluster *)
Definition getManagedCluster (ci : ClusterInstance) : outcome (result (option RenderedObject)) :=
  match getManagedClusterManifest ci with
  | None => Ret (Ok None)
  | Some manifest =>
      match MRef_APIGroup manifest with
      | None => Panic nil_dereference
      | Some apiGroup =>
          match NewRenderedObject (managed_cluster_fields apiGroup manifest) with
          | (obj, None) => Ret (Ok (Some obj))
          | (_, Some err) => Ret (Err (Errorf
              "encountered an error while converting ManagedCluster to RenderedObject, err: %w" [FErr err]))
          end
      end
  end.

(** ** Conditions of a reinstall *)

(* src: src/internal/controller/reinstall/helper.go 77-86 findReinstallStatusCondition *)
Definition findReinstallStatusCondition (ci : ClusterInstance) (conditionType : string)
    : option Condition :=
  match Status_Reinstall (CI_Status ci) with
  | None => None
  | Some rs => FindStatusCondition (RS_Conditions rs) conditionType
  end.

(* src: src/internal/controller/reinstall/helper.go 96-108 conditionSetter *)
Definition conditionSetter (conditionType status reason message : string) : Condition :=
  mkCondition conditionType status 0 0 reason message.

(* src: src/internal/controller/reinstall/helper.go 110-116 reinstallRequestProcessedConditionStatus *)
Definition reinstallRequestProcessedConditionStatus : string -> string -> string -> Condition :=
  conditionSetter ReinstallRequestProcessed.

(* src: src/internal/controller/reinstall/helper.go 118-124 reinstallRequestValidatedConditionStatus *)
Definition reinstallRequestValidatedConditionStatus : string -> string -> string -> Condition :=
  conditionSetter ReinstallRequestValidated.

(* src: src/internal/controller/reinstall/helper.go 126-132 reinstallPreservationDataBackedupConditionStatus *)
Definition reinstallPreservationDataBackedupConditionStatus : string -> string -> string -> Condition :=
  conditionSetter ReinstallPreservationDataBackedup.

(* src: src/internal/controller/reinstall/helper.go 134-140 reinstallClusterIdentityDataDetectedConditionStatus *)
Definition reinstallClusterIdentityDataDetectedConditionStatus : string -> string -> string -> Condition :=
  conditionSetter ReinstallClusterIdentityDataDetected.

(* src: src/internal/controller/reinstall/helper.go 142-148 reinstallRenderedManifestsDeletedConditionStatus *)
Definition reinstallRenderedManifestsDeletedConditionStatus : string -> string -> string -> Condition :=
  conditionSetter ReinstallRenderedManifestsDeleted.

(* src: src/internal/controller/reinstall/helper.go 150-156 reinstallPreservationDataRestoredConditionStatus *)
Definition reinstallPreservationDataRestoredConditionStatus : string -> string -> string -> Condition :=
  conditionSetter ReinstallPreservationDataRestored.

(* src: src/internal/controller/reinstall/helper.go 159-165 reinstallClusterReimportedConditionStatus *)
Definition reinstallClusterReimportedConditionStatus : string -> string -> string -> Condition :=
  conditionSetter ReinstallClusterReimported.

(** What apimachinery's [SetStatusCondition] returns: whether it has changed the list. *)
Definition condition_changes (conditions : list Condition) (new : Condition) : bool :=
  match FindStatusCondition conditions (Cond_Type new) with
  | None => true
  | Some existing =>
      negb (String.eqb (Cond_Status existing) (Cond_Status new)
            && String.eqb (Cond_Reason existing) (Cond_Reason new)
            && String.eqb (Cond_Message existing) (Cond_Message new)
            && Z.eqb (Cond_ObservedGeneration existing) (Cond_ObservedGeneration new))
  end.

(* src: src/internal/controller/reinstall/helper.go 246-252 logAndWrapUpdateFailure *)
Definition logAndWrapUpdateFailure (currentError : option error) (updateError : error)
    (errorMsg : string) : error :=
  match currentError with
  | None => Errorf "%s, update error: %w" [FStr errorMsg; FErr updateError]
  | Some currentError =>
      Errorf "%s, update error: %w, error: %w" [FStr errorMsg; FErr updateError; FErr currentError]
  end.

(* src: src/internal/controller/reinstall/helper.go 254-263 setOrUpdateLabel *)
Definition setOrUpdateLabel (object : Resource) (key value : string) : Resource * bool :=
  let labels := Res_labels object in
  let with_labels l := mkResource (Res_Kind object) (Res_Namespace object) (Res_Name object) (Some l)
    (Res_Annotations object) (Res_ResourceVersion object) (Res_UID object)
    (Res_CreationTimestamp object) (Res_OwnerReferences object) (Res_Type object)
    (Res_Immutable object) (Res_Data object) in
  if bool_decide (labels !! key = Some value) then (with_labels labels, false)
  else (with_labels (<[key := value]> labels), true).

(** ** The difference between two specs *)

(** [json.Unmarshal] into a [ClusterInstanceSpec]. *)
Class SpecText := { Unmarshal_Spec : string -> result ClusterInstanceSpec }.

Definition operation_name (k : OperationKind) : string :=
  match k with
  | OperationAdd => "add"
  | OperationReplace => "replace"
  | OperationRemove => "remove"
  end.

(** The members of a JSON Patch operation, in the order of the struct. *)
(* src: src/vendor/github.com/wI2L/jsondiff/operation.go 54-69 Operation.MarshalJSON *)
Definition marshal_Operation (op : Operation) : json :=
  JObj (match Op_Value op with
        | Some v => [("value", v)]
        | None => []
        end ++ [("op", JStr (operation_name (Op_Type op))); ("path", JStr (Op_Path op))]).

(** [json.Marshal(diff[i].Value)] *)
Definition value_text (op : Operation) : string := Marshal (default JNull (Op_Value op)).

(* src: src/internal/controller/reinstall/helper.go 391-401 computeClusterInstanceSpecDiff *)
Definition operation_less (a b : Operation) : bool :=
  if negb (String.eqb (Op_Path a) (Op_Path b)) then String.ltb (Op_Path a) (Op_Path b)
  else if negb (String.eqb (value_text a) (value_text b)) then String.ltb (value_text a) (value_text b)
  else String.ltb (operation_name (Op_Type a)) (operation_name (Op_Type b)).

(** Marshalling a spec does not fail, nor does comparing two JSON documents. *)
(* src: src/internal/controller/reinstall/helper.go 356-411 computeClusterInstanceSpecDiff *)
Definition computeClusterInstanceSpecDiff `{SpecText} (ci : ClusterInstance) : result string :=
  match Meta_Annotations (CI_Meta ci) !! LastClusterInstanceSpecAnnotation with
  | None => Ok ""
  | Some lastObserved =>
      match Unmarshal_Spec lastObserved with
      | Err err => Err (Errorf "failed to unmarshal last-observed spec: %w" [FErr err])
      | Ok lastObservedSpec =>
          match CompareJSON (marshal_Spec lastObservedSpec) (marshal_Spec (CI_Spec ci)) with
          | [] => Ok ""
          | diff => Ok (Marshal (JArr (List.map marshal_Operation (SortSlice operation_less diff))))
          end
      end
  end.

(** ** The steps of a request *)

Section reinstall.
Context `{ResourceYaml} `{TimeText} `{SpecText} {W : Type} `{Server W}.

Abbreviation M := (Prog ClusterInstance W Event).

(** [clusterInstance.Status.Reinstall] and [clusterInstance.Spec.Reinstall], dereferenced. *)
Definition deref_reinstall_status : M ReinstallStatus :=
  ci ← get_mem;
  match Status_Reinstall (CI_Status ci) with
  | Some rs => mret rs
  | None => panic nil_dereference
  end.

Definition deref_reinstall_spec : M ReinstallSpec :=
  ci ← get_mem;
  match Spec_Reinstall (CI_Spec ci) with
  | Some spec => mret spec
  | None => panic nil_dereference
  end.

Definition assign_reinstall_status (rs : ReinstallStatus) : M unit :=
  modify_mem (fun ci => ci <| CI_Status ::= fun s => s <| Status_Reinstall := Some rs |> |>).

(** An assignment through [clusterInstance.Status.Reinstall]. *)
Definition update_reinstall_status (f : ReinstallStatus -> ReinstallStatus) : M unit :=
  rs ← deref_reinstall_status; assign_reinstall_status (f rs).

(* src: src/internal/controller/reinstall/helper.go 88-94 setReinstallStatusCondition *)
Definition setReinstallStatusCondition (condition : Condition) : M bool :=
  ci ← get_mem;
  match Status_Reinstall (CI_Status ci) with
  | None => mret false
  | Some rs =>
      now ← Now;
      _ ← assign_reinstall_status
            (rs <| RS_Conditions := meta_SetStatusCondition now (RS_Conditions rs) condition |>);
      mret (condition_changes (RS_Conditions rs) condition)
  end.

Definition reinstallConditionTypes : list string :=
  [ ReinstallRequestProcessed; ReinstallRequestValidated; ReinstallPreservationDataBackedup;
    ReinstallClusterIdentityDataDetected; ReinstallRenderedManifestsDeleted;
    ReinstallPreservationDataRestored; ReinstallClusterReimported ].

Definition initial_condition (now : Time) (conditionType : string) : Condition :=
  mkCondition conditionType ConditionUnknown 0 now Initialized "Condition Initialized".

(** The loop over the conditions, with [updateRequired]. *)
Definition set_all (now : Time) (conditions : list Condition) (new : list Condition)
    : list Condition * bool :=
  fold_left (fun '(conds, changed) c =>
    (meta_SetStatusCondition now conds c, changed || condition_changes conds c)) new (conditions, false).

(** The status a request starts from, and whether anything had to be changed for it. *)
(* src: src/internal/controller/reinstall/helper.go 183-231 initializeReinstallStatus *)
Definition initial_reinstall_status (now : Time) (generation : string) (old : option ReinstallStatus)
    : ReinstallStatus * bool :=
  let rs0 := match old with
             | None => mkReinstallStatus [] generation "" 0 0 []
             | Some rs => rs
             end in
  let fresh := negb (String.eqb (RS_InProgressGeneration rs0) generation) in
  let rs1 := if fresh then rs0 <| RS_InProgressGeneration := generation |> <| RS_Conditions := [] |>
             else rs0 in
  let started := negb (IsZero (RS_RequestStartTime rs1)) in
  let ended := negb (IsZero (RS_RequestEndTime rs1)) in
  let rs2 := rs1 <| RS_RequestStartTime := 0%Z |> <| RS_RequestEndTime := 0%Z |> in
  let '(conds, changed) :=
    set_all now (RS_Conditions rs2) (List.map (initial_condition now) reinstallConditionTypes) in
  (rs2 <| RS_Conditions := conds |>,
   (match old with None => true | Some _ => false end || fresh || started || ended || changed)%bool).

(* src: src/internal/controller/reinstall/helper.go 167-244 initializeReinstallStatus *)
Definition initializeReinstallStatus : M (option error) :=
  now ← Now;
  patch ← get_mem;
  spec ← deref_reinstall_spec;
  let '(rs, updateRequired) :=
    initial_reinstall_status now (RSpec_Generation spec) (Status_Reinstall (CI_Status patch)) in
  _ ← assign_reinstall_status rs;
  if (updateRequired : bool) then
    if_err (PatchCIStatus patch)
      (fun err => mret (Some (Errorf "%s, error: %w"
         [FStr "failed to initialize reinstall status"; FErr err])))
      (mret None)
  else mret None.

(* src: src/internal/controller/reinstall/reinstall.go 197-220 isRequestProcessed *)
Definition isRequestProcessed (ci : ClusterInstance) (spec : ReinstallSpec) : bool :=
  match Status_Reinstall (CI_Status ci) with
  | None => false
  | Some rs =>
      if String.eqb (RS_ObservedGeneration rs) (RSpec_Generation spec) then true
      else
        match FindStatusCondition (RS_Conditions rs) ReinstallRequestProcessed with
        | None => false
        | Some cond =>
            let isProcessed := String.eqb (Cond_Reason cond) Completed
              || String.eqb (Cond_Reason cond) Failed || String.eqb (Cond_Reason cond) TimedOut in
            String.eqb (RS_InProgressGeneration rs) (RSpec_Generation spec)
            && negb (IsZero (RS_RequestEndTime rs))
            && isProcessed && negb (String.eqb (Cond_Status cond) ConditionUnknown)
        end
  end.

(* src: src/internal/controller/reinstall/reinstall.go 222-231 isNewRequest *)
Definition isNewRequest (ci : ClusterInstance) (spec : ReinstallSpec) : bool :=
  match Status_Reinstall (CI_Status ci) with
  | None => true
  | Some rs => negb (String.eqb (RS_InProgressGeneration rs) (RSpec_Generation spec))
  end.

(** The patch of a condition and the error that wraps its failure. *)
Definition update_failure (current : option error) (r : option error) (msg : string) : option error :=
  match r with
  | None => current
  | Some updateErr => Some (logAndWrapUpdateFailure current updateErr msg)
  end.

Definition condition_failure (c : Condition) : string :=
  Sprintf "failed to update reinstall condition '%s'" [FStr (Cond_Type c)].

(* src: src/internal/controller/reinstall/reinstall.go 234-267 ReinstallHandler.ensureValidReinstallRequest *)
Definition ensureValidReinstallRequest (store : Configuration) : M (Result * option error) :=
  patch ← get_mem;
  let '(err, reinstallRequestCondition) :=
    if negb (GetAllowReinstalls store) then
      (Some (ErrorString "siteConfig operator is not configured for cluster reinstalls"),
       reinstallRequestValidatedConditionStatus ConditionFalse Failed "Cluster Reinstallation is not enabled")
    else
      (None, reinstallRequestValidatedConditionStatus ConditionTrue Completed "Valid reinstall request") in
  updateRequired ← setReinstallStatusCondition reinstallRequestCondition;
  if (updateRequired : bool) then
    updateErr ← PatchCIStatus patch;
    mret (mkResult true 0, update_failure err updateErr (condition_failure reinstallRequestCondition))
  else mret (mkResult false 0, err).

(* src: src/internal/controller/reinstall/reinstall.go 270-287 ReinstallHandler.ensureStartTimeIsSet *)
Definition ensureStartTimeIsSet : M (Result * option error) :=
  rs ← deref_reinstall_status;
  if IsZero (RS_RequestStartTime rs) then
    patch ← get_mem;
    now ← Now;
    _ ← update_reinstall_status (fun rs => rs <| RS_RequestStartTime := now |>);
    updateErr ← PatchCIStatus patch;
    mret (mkResult true 0, update_failure None updateErr "failed to update Reinstall.RequestStartTime")
  else mret (mkResult false 0, None).

(** The closure [applyPreservationLabel]. *)
(* src: src/internal/controller/reinstall/reinstall.go 457-478 ReinstallHandler.applyPreservedLabelToClusterInstanceSecrets *)
Definition applyPreservationLabel (namespace name : string) : M (option error) :=
  let key := mkObjectKey namespace name in
  r ← call (GetResource "Secret" key);
  match r with
  | Err err =>
      if IsNotFound err then mret None
      else mret (Some (Errorf "failed to retrieve Secret for applying preservation label, err: %w" [FErr err]))
  | Ok secret =>
      let '(secret', updateRequired) :=
        setOrUpdateLabel secret InternalPreservationLabelKey InternalPreservationLabelValue in
      if updateRequired then
        r ← call (PatchResource secret secret');
        mret (match r with
              | Ok _ => None
              | Err err => Some (Errorf "failed to update Secret %s with preservation label, err: %w"
                             [FStr (namespace +:+ "/" +:+ name); FErr err])
              end)
      else mret None
  end.

Definition clusterInstanceSecrets (ci : ClusterInstance) : list string :=
  LOR_Name (Spec_PullSecretRef (CI_Spec ci))
  :: List.map (fun node => BMC_Name (Node_BmcCredentialsName node)) (Spec_Nodes (CI_Spec ci)).

(* src: src/internal/controller/reinstall/reinstall.go 451-494 ReinstallHandler.applyPreservedLabelToClusterInstanceSecrets *)
Definition applyPreservedLabelToClusterInstanceSecrets : M (Result * option error) :=
  ci ← get_mem;
  if_err (for_errors (clusterInstanceSecrets ci) (applyPreservationLabel (Key_Namespace (CI_key ci))))
    (fun err => mret (mkResult false 0, Some (Errorf
       "encountered an error applying preservation label to ClusterInstance Secret, err: %w" [FErr err])))
    (mret (mkResult false 0, None)).

(** The two conditions and the error. *)
(* src: src/internal/controller/reinstall/helper.go 265-314 getDataPreservationSummary *)
Definition getDataPreservationSummary : M (Condition * Condition * option error) :=
  spec ← deref_reinstall_spec;
  '(clusterIDCount, otherCount, err) ← GetPreservedResourceCounts;
  match err with
  | Some e =>
      mret (reinstallPreservationDataBackedupConditionStatus ConditionFalse Failed (Error e),
            reinstallClusterIdentityDataDetectedConditionStatus ConditionFalse Failed (Error e), Some e)
  | None =>
      let total := (clusterIDCount + otherCount)%nat in
      let backedup :=
        if (total =? 0)%nat then
          reinstallPreservationDataBackedupConditionStatus ConditionFalse DataUnavailable
            "No resources were found to be preserved in the ClusterInstance namespace with the preservation data label"
        else
          reinstallPreservationDataBackedupConditionStatus ConditionTrue Completed
            (Sprintf "Number of resources preserved: %d " [FInt (Z.of_nat total)]) in
      if (clusterIDCount =? 0)%nat then
        if String.eqb (RSpec_PreservationMode spec) PreservationModeClusterIdentity then
          let errorMsg := Sprintf "preservationMode set to '%s', found no cluster-identity resources"
            [FStr PreservationModeClusterIdentity] in
          mret (backedup,
                reinstallClusterIdentityDataDetectedConditionStatus ConditionFalse Failed errorMsg,
                Some (ErrorString errorMsg))
        else
          mret (backedup,
                reinstallClusterIdentityDataDetectedConditionStatus ConditionFalse DataUnavailable
                  "No cluster identity resources were detected for preservation", None)
      else
        mret (backedup,
              reinstallClusterIdentityDataDetectedConditionStatus ConditionTrue DataAvailable
                (Sprintf "Number of cluster identity resources detected: %d " [FInt (Z.of_nat clusterIDCount)]),
              None)
  end.

(* src: src/internal/controller/reinstall/helper.go 316-354 getDataRestorationSummary *)
Definition getDataRestorationSummary : M (Condition * option error) :=
  spec ← deref_reinstall_spec;
  '(clusterIDCount, otherCount, err) ← GetRestoredResourceCounts;
  match err with
  | Some e =>
      mret (reinstallPreservationDataRestoredConditionStatus ConditionFalse Failed (Error e), Some e)
  | None =>
      let total := (clusterIDCount + otherCount)%nat in
      if (total =? 0)%nat then
        if String.eqb (RSpec_PreservationMode spec) PreservationModeClusterIdentity then
          let errorMsg :=
            Sprintf "no restored resources found, PreservationMode '%s' expects data to be restored"
              [FStr PreservationModeClusterIdentity] in
          mret (reinstallPreservationDataRestoredConditionStatus ConditionFalse Failed errorMsg,
                Some (ErrorString errorMsg))
        else
          mret (reinstallPreservationDataRestoredConditionStatus ConditionFalse DataUnavailable
                  "No restored resources found", None)
      else
        mret (reinstallPreservationDataRestoredConditionStatus ConditionTrue Completed
          (Sprintf "%d resources were successfully restored: %d cluster-identity resources, %d other resources"
             [FInt (Z.of_nat total); FInt (Z.of_nat clusterIDCount); FInt (Z.of_nat otherCount)]), None)
  end.

(** The deferred function of [ensureDataIsPreserved]. *)
(* src: src/internal/controller/reinstall/reinstall.go 510-532 ReinstallHandler.ensureDataIsPreserved *)
Definition record_preservation (backedup detected : Condition) (err : option error)
    : M (Result * option error) :=
  patch ← get_mem;
  updateRequired ← setReinstallStatusCondition backedup;
  changed ← setReinstallStatusCondition detected;
  if (updateRequired || changed)%bool then
    updateErr ← PatchCIStatus patch;
    mret (mkResult false requeueWithShortInterval,
          update_failure err updateErr "failed to update reinstall preservation condition(s)")
  else mret (mkResult false 0, err).

(* src: src/internal/controller/reinstall/reinstall.go 497-563 ReinstallHandler.ensureDataIsPreserved *)
Definition ensureDataIsPreserved : M (Result * option error) :=
  spec ← deref_reinstall_spec;
  if String.eqb (RSpec_PreservationMode spec) PreservationModeNone then
    record_preservation
      (reinstallPreservationDataBackedupConditionStatus ConditionFalse PreservationNotRequired
         "PreservationMode is set to None.")
      (reinstallClusterIdentityDataDetectedConditionStatus ConditionFalse PreservationNotRequired
         "PreservationMode is set to None.") None
  else
    if_err Backup
      (fun err => record_preservation
         (reinstallPreservationDataBackedupConditionStatus ConditionFalse Failed (Error err))
         (reinstallClusterIdentityDataDetectedConditionStatus ConditionFalse Failed
            "Data preservation failed") (Some err))
      ('(backedup, detected, err) ← getDataPreservationSummary;
       record_preservation backedup detected err).

(** The deferred function of [ensurePreservedDataIsRestored]. *)
(* src: src/internal/controller/reinstall/reinstall.go 577-591 ReinstallHandler.ensurePreservedDataIsRestored *)
Definition record_restoration (condition : Condition) (err : option error) : M (Result * option error) :=
  patch ← get_mem;
  changed ← setReinstallStatusCondition condition;
  if (changed : bool) then
    updateErr ← PatchCIStatus patch;
    mret (mkResult false requeueWithShortInterval,
          update_failure err updateErr
            (Sprintf "failed to update reinstall restore data condition '%s'" [FStr (Cond_Type condition)]))
  else mret (mkResult false 0, err).

(* src: src/internal/controller/reinstall/reinstall.go 566-615 ReinstallHandler.ensurePreservedDataIsRestored *)
Definition ensurePreservedDataIsRestored : M (Result * option error) :=
  spec ← deref_reinstall_spec;
  if String.eqb (RSpec_PreservationMode spec) PreservationModeNone then
    record_restoration
      (reinstallPreservationDataRestoredConditionStatus ConditionFalse PreservationNotRequired
         "PreservationMode is set to None.") None
  else
    if_err Restore_preserved
      (fun err => record_restoration
         (reinstallPreservationDataRestoredConditionStatus ConditionFalse Failed (Error err)) (Some err))
      ('(condition, err) ← getDataRestorationSummary; record_restoration condition err).

(** The deferred function of [ensureRenderedManifestsAreDeleted]; [patch] is the object as it was
    when the function was entered. *)
(* src: src/internal/controller/reinstall/reinstall.go 301-314 ReinstallHandler.ensureRenderedManifestsAreDeleted *)
Definition record_deletion (patch : ClusterInstance) (condition : option Condition) (result : Result)
    (err : option error) : M (Result * option error) :=
  match condition with
  | None => mret (result, err)
  | Some condition =>
      changed ← setReinstallStatusCondition condition;
      if (changed : bool) then
        updateErr ← PatchCIStatus patch;
        match updateErr with
        | Some u => mret (result, Some (logAndWrapUpdateFailure err u (condition_failure condition)))
        | None =>
            mret (match err with
                  | None => mkResult (Requeue result) requeueWithShortInterval
                  | Some _ => result
                  end, err)
        end
      else mret (result, err)
  end.

(* src: src/internal/controller/reinstall/reinstall.go 290-370 ReinstallHandler.ensureRenderedManifestsAreDeleted *)
Definition ensureRenderedManifestsAreDeleted : M (Result * option error) :=
  patch ← get_mem;
  let condition := findReinstallStatusCondition patch ReinstallRenderedManifestsDeleted in
  let none := mkResult false 0 in
  mc ← of_outcome (getManagedCluster patch);
  match mc with
  | Err err =>
      record_deletion patch
        (Some (reinstallRenderedManifestsDeletedConditionStatus ConditionFalse Failed (Error err)))
        none (Some err)
  | Ok mc =>
      let excludeFromDeletion := option_list mc in
      match condition with
      | None =>
          record_deletion patch (Some (reinstallRenderedManifestsDeletedConditionStatus ConditionFalse
            InProgress "Rendered manifests are being deleted")) none None
      | Some cond =>
          if String.eqb (Cond_Reason cond) Initialized then
            record_deletion patch (Some (reinstallRenderedManifestsDeletedConditionStatus ConditionFalse
              InProgress "Rendered manifests are being deleted")) none None
          else if (String.eqb (Cond_Reason cond) Failed || String.eqb (Cond_Reason cond) Completed)%bool then
            record_deletion patch condition none None
          else
            '(deletionCompleted, err) ← DeleteRenderedObjects excludeFromDeletion (Some DefaultDeletionTimeout);
            match err with
            | Some e =>
                if IsDeletionTimeoutError err then
                  record_deletion patch (Some (reinstallRenderedManifestsDeletedConditionStatus
                    ConditionFalse TimedOut "Timed-out waiting for rendered manifests to be deleted."))
                    none err
                else
                  record_deletion patch (Some (reinstallRenderedManifestsDeletedConditionStatus
                    ConditionFalse Failed (Error e))) none err
            | None =>
                if negb deletionCompleted then
                  record_deletion patch condition (mkResult true deletionRequeueWithMediumInterval) None
                else
                  record_deletion patch (Some (reinstallRenderedManifestsDeletedConditionStatus
                    ConditionTrue Completed "Successfully deleted rendered manifests")) none None
            end
      end
  end.

(** The assignments of [finalizeReinstallRequest], and whether any changed something. *)
(* src: src/internal/controller/reinstall/reinstall.go 391-432 ReinstallHandler.finalizeReinstallRequest *)
Definition finalized_status (now : Time) (generation diff : string) (rs : ReinstallStatus)
    : ReinstallStatus * bool :=
  let observed := negb (String.eqb (RS_ObservedGeneration rs) generation) in
  let active := negb (String.eqb (RS_InProgressGeneration rs) "") in
  let open := IsZero (RS_RequestEndTime rs) in
  let endTime := if open then now else RS_RequestEndTime rs in
  let record := mkReinstallHistory generation (RS_RequestStartTime rs) endTime diff in
  let exists_ := existsb (fun historyRecord => String.eqb (RH_Generation historyRecord) generation)
                   (RS_History rs) in
  (mkReinstallStatus (RS_Conditions rs) "" generation (RS_RequestStartTime rs) endTime
     (if exists_ then RS_History rs else RS_History rs ++ [record]),
   (observed || active || open || negb exists_)%bool).

(* src: src/internal/controller/reinstall/reinstall.go 372-440 ReinstallHandler.finalizeReinstallRequest *)
Definition finalizeReinstallRequest : M (option error) :=
  '(_, err) ← Cleanup;
  match err with
  | Some err => mret (Some (Errorf "failed to cleanup preserved resources, error: %w" [FErr err]))
  | None =>
      ci ← get_mem;
      match computeClusterInstanceSpecDiff ci with
      | Err err => mret (Some (Errorf
          "encountered an error determining the ClusterInstance Spec changes, error: %w" [FErr err]))
      | Ok clusterInstanceDiff =>
          patch ← get_mem;
          rs ← deref_reinstall_status;
          spec ← deref_reinstall_spec;
          now ← Now;
          let '(rs', updateRequired) :=
            finalized_status now (RSpec_Generation spec) clusterInstanceDiff rs in
          _ ← assign_reinstall_status rs';
          if (updateRequired : bool) then
            updateErr ← PatchCIStatus patch;
            mret (update_failure None updateErr "failed to update reinstall status")
          else mret None
      end
  end.

(** ** Processing a request *)

(* src: src/internal/controller/reinstall/reinstall.go 147-151 ReinstallHandler.ProcessRequest *)
Record task := mkTask {
  task_Description : string;
  task_Run : M (Result * option error);
  task_FailReinstallRequestOnError : bool
}.

(* src: src/internal/controller/reinstall/reinstall.go 151-158 ReinstallHandler.ProcessRequest *)
Definition tasks (store : Configuration) : list task :=
  [ mkTask "Validating reinstall request" (ensureValidReinstallRequest store) true;
    mkTask "Setting reinstall request startTime" ensureStartTimeIsSet true;
    mkTask "Applying preservation labels to ClusterInstance secrets"
      applyPreservedLabelToClusterInstanceSecrets true;
    mkTask "Preserving data" ensureDataIsPreserved true;
    mkTask "Deleting rendered manifests" ensureRenderedManifestsAreDeleted false;
    mkTask "Restoring preserved data" ensurePreservedDataIsRestored true ].

(** The variables the deferred function of [ProcessRequest] reads. *)
Record processing := mkProcessing {
  pr_result : Result;
  pr_err : option error;
  pr_condition : Condition;   (* reinstallRequestProcessedCondition *)
  pr_setEndtime : bool;
  pr_applyPause : bool
}.

(* src: src/internal/controller/reinstall/reinstall.go 122-145 ReinstallHandler.ProcessRequest *)
Definition finishProcessing (p : processing) : M (Result * option error) :=
  patch ← get_mem;
  let err := pr_err p in
  _ ← (if (pr_setEndtime p && bool_decide (is_Some err))%bool then
         now ← Now; update_reinstall_status (fun rs => rs <| RS_RequestEndTime := now |>)
       else mret tt);
  changed ← setReinstallStatusCondition (pr_condition p);
  updateErr ← (if (changed || pr_setEndtime p)%bool then PatchCIStatus patch else mret None);
  match updateErr with
  | Some u => mret (pr_result p, Some (logAndWrapUpdateFailure err u (condition_failure (pr_condition p))))
  | None =>
      if pr_applyPause p then
        match err with
        | None => panic nil_dereference
        | Some e => _ ← ApplyPause (Error e); mret (pr_result p, err)
        end
      else mret (pr_result p, err)
  end.

(** One iteration of the loop: [inr] when the function returns. *)
(* src: src/internal/controller/reinstall/reinstall.go 159-181 ReinstallHandler.ProcessRequest *)
Definition run_task (t : task) (_ : unit) : M (unit + processing) :=
  '(result, err) ← task_Run t;
  if negb (Result_IsZero result) then
    mret (inr (mkProcessing result err
      (reinstallRequestProcessedConditionStatus ConditionFalse InProgress (task_Description t)) false false))
  else
    match err with
    | Some e =>
        mret (inr (mkProcessing result err
          (reinstallRequestProcessedConditionStatus ConditionFalse Failed
             (Sprintf "Encountered error executing task: %s. Error: %v"
                [FStr (task_Description t); FErr e]))
          (task_FailReinstallRequestOnError t) (negb (task_FailReinstallRequestOnError t))))
    | None => mret (inl tt)
    end.

(** The tasks, then the end of the request. *)
(* src: src/internal/controller/reinstall/reinstall.go 159-195 ReinstallHandler.ProcessRequest *)
Definition run_tasks (l : list task) : M processing :=
  r ← for_range l tt run_task;
  match r with
  | inr p => mret p
  | inl _ =>
      err ← finalizeReinstallRequest;
      mret (mkProcessing (mkResult false 0) err
        match err with
        | Some _ => reinstallRequestProcessedConditionStatus ConditionFalse InProgress
                      "Finalizing reinstall request"
        | None => reinstallRequestProcessedConditionStatus ConditionTrue Completed
            "The reinstall process completed successfully and the cluster is ready to be reprovisioned."
        end false false)
  end.

(* src: src/internal/controller/reinstall/reinstall.go 61-195 ReinstallHandler.ProcessRequest *)
Definition ProcessRequest (store : Configuration) : M (Result * option error) :=
  ci ← get_mem;
  match Spec_Reinstall (CI_Spec ci) with
  | None => mret (mkResult false 0, Some (ErrorString "missing ReinstallSpec"))
  | Some reinstallSpec =>
      if isRequestProcessed ci reinstallSpec then mret (mkResult false 0, None)
      else
        let new_request :=
          if_err initializeReinstallStatus
            (fun err => mret (mkResult false 0, Some err))
            (mret (mkResult true 0, None)) in
        match findReinstallStatusCondition ci ReinstallRequestProcessed with
        | None => new_request
        | Some condition =>
            if isNewRequest ci reinstallSpec then new_request
            else if String.eqb (Cond_Reason condition) Initialized then
              patch ← get_mem;
              now ← Now;
              _ ← update_reinstall_status (fun rs => rs <| RS_RequestStartTime := now |>);
              let condition := reinstallRequestProcessedConditionStatus ConditionFalse InProgress
                (Sprintf "Processing reinstall request for generation %s"
                   [FStr (RSpec_Generation reinstallSpec)]) in
              _ ← setReinstallStatusCondition condition;
              updateErr ← PatchCIStatus patch;
              mret (match updateErr with
                    | Some u => (mkResult false 0,
                                 Some (logAndWrapUpdateFailure None u (condition_failure condition)))
                    | None => (mkResult true 0, None)
                    end)
            else
              p ← run_tasks (tasks store);
              finishProcessing p
        end
  end.
End reinstall.
