(* ===== verification/ReinstallSpec.v ===== *)
(** * The reinstall workflow: theorems

    What a request may do depends on what the API server has recorded of it: nothing is written
    before the request is validated and started, nothing is deleted before the data is preserved.
    Then the end of a request and its history, the recorded difference of the specs, and a request
    that completes although its manifests could not be deleted. *)
From S2P Require Import Prelude GoStd JsonDiff JsonCodec Types Errors Conditions Samples K8s.
From S2P Require Import ValidationSpec Cluster Retry Requeue RenderedObject Pause Configuration.
From S2P Require Import Deletion DeletionSpec Preservation Reinstall.

(** ** Conditions *)

Lemma condition_kept now l c :
  condition_changes l c = false ->
  meta_SetStatusCondition now l c = l
  /\ exists c', FindStatusCondition l (Cond_Type c) = Some c' /\ Cond_Status c' = Cond_Status c
       /\ Cond_Reason c' = Cond_Reason c /\ Cond_Message c' = Cond_Message c.
Proof.
  unfold condition_changes, meta_SetStatusCondition.
  destruct (FindStatusCondition l (Cond_Type c)) as [c'|] eqn:Hf; [|done]. intros Hc. bools.
  repeat match goal with H : String.eqb _ _ = true |- _ => apply String.eqb_eq in H end.
  match goal with H : Z.eqb _ _ = true |- _ => apply Z.eqb_eq in H end.
  split; [|by exists c']. apply update_first_id. intros x Hx.
  unfold FindStatusCondition in Hf. rewrite Hf in Hx. injection Hx as <-. unfold update_condition.
  destruct c'; simpl in *; subst. by rewrite String.eqb_refl.
Qed.

Lemma assign_same ci rs :
  Status_Reinstall (CI_Status ci) = Some rs ->
  ci <| CI_Status ::= fun s => s <| Status_Reinstall := Some rs |> |> = ci.
Proof. destruct ci as [m s [c d dc mr og r p]]. simpl. by intros ->. Qed.

(** The condition of a type has this status and this reason. *)
Definition recorded (ci : ClusterInstance) (conditionType status reason : string) : Prop :=
  exists c, findReinstallStatusCondition ci conditionType = Some c
    /\ Cond_Status c = status /\ Cond_Reason c = reason.

Section spec.
Context `{ResourceYaml} `{TimeText} `{SpecText} {W : Type} `{Server W}.

Lemma wp_update_reinstall f Q s w :
  (forall rs, Status_Reinstall (CI_Status s) = Some rs ->
     Q (Ret tt) (s <| CI_Status ::= fun st => st <| Status_Reinstall := Some (f rs) |> |>) w []) ->
  (Status_Reinstall (CI_Status s) = None -> Q (Panic nil_dereference) s w []) ->
  wp (update_reinstall_status (W := W) f) Q s w.
Proof.
  intros Hsome Hnone. unfold update_reinstall_status, deref_reinstall_status. apply wp_bind, wp_bind, wp_get.
  destruct (Status_Reinstall (CI_Status s)) as [rs|] eqn:Hrs; [|by apply wp_panic, Hnone].
  by apply wp_ret, wp_modify, Hsome.
Qed.

(** An unchanged condition means that the object is as before and already says so. *)
Lemma wp_set c Q s w :
  (forall changed s' w',
     (changed = false -> s' = s /\ (is_Some (Status_Reinstall (CI_Status s)) ->
        recorded s (Cond_Type c) (Cond_Status c) (Cond_Reason c))) ->
     Q (Ret changed) s' w' []) ->
  wp (setReinstallStatusCondition c) Q s w.
Proof.
  intros HQ. unfold setReinstallStatusCondition. apply wp_bind, wp_get.
  destruct (Status_Reinstall (CI_Status s)) as [rs|] eqn:Hrs.
  - apply wp_bind, wp_Now. intros t w' _. apply wp_bind, wp_modify, wp_ret. apply HQ. intros Hc.
    destruct (condition_kept t _ _ Hc) as (-> & c' & Hf & Hs & Hr & _). split.
    + replace (rs <| RS_Conditions := RS_Conditions rs |>) with rs by (by destruct rs). by apply assign_same.
    + intros _. exists c'. unfold findReinstallStatusCondition. by rewrite Hrs.
  - apply wp_ret, HQ. intros _. split; [done|]. by intros [? ?].
Qed.

(** ** What a call does *)

(** It writes something other than the ClusterInstance. *)
Definition writes (e : Event) : bool :=
  match e with
  | Ev (PatchCI _ _) _ | Ev (StatusPatchCI _ _) _ | Ev (StatusUpdateCI _) _ => false
  | e => mutating e
  end.

Definition deletes (e : Event) : bool :=
  match e with
  | Ev (ObjDelete _ _ _) _ | Ev (DeleteResource _ _) _ => true
  | _ => false
  end.

Abbreviation quiet := (fun e => writes e = false).
Abbreviation harmless := (fun e => deletes e = false).

Lemma quiet_harmless e : writes e = false -> deletes e = false.
Proof. by destruct e as [R []]. Qed.

(** A status patch with what follows it. *)
Lemma wp_patch_quiet patch (Q : outcome (option error) -> _) s w :
  (forall r s' w' ev, Forall quiet ev -> Q (Ret r) s' w' ev) -> wp (PatchCIStatus patch) Q s w.
Proof.
  intros HQ. apply wp_PatchCIStatus. intros err s' w' ev Hev _. apply HQ.
  eapply Forall_impl; [exact Hev|]. by intros e [r ->].
Qed.

(** A task ends with [Result{}] and no error only when the object is as before and [fact] holds
    of it; what it calls satisfies [P]. *)
Definition task_spec (P : Event -> Prop) (fact : ClusterInstance -> Prop)
    (m : Prog ClusterInstance W Event (Result * option error)) : Prop :=
  forall s w, is_Some (Status_Reinstall (CI_Status s)) ->
    wp m (fun o s' _ ev => Forall P ev
      /\ (o = Ret (mkResult false 0, None) -> s' = s /\ fact s)) s w.

Lemma task_validate store :
  task_spec quiet (fun s => allowReinstalls store = true
    /\ recorded s ReinstallRequestValidated ConditionTrue Completed) (ensureValidReinstallRequest store).
Proof.
  intros s w Hrs. unfold ensureValidReinstallRequest. apply wp_bind, wp_get.
  destruct (GetAllowReinstalls store) eqn:Ha; simpl;
    (apply wp_bind, wp_set; intros changed s1 w1 Hs; destruct changed;
     [apply wp_bind, wp_patch_quiet; intros r s2 w2 ev Hev; apply wp_ret; rewrite ?app_nil_r;
      split; [done|intros [=]]
     |apply wp_ret; split; [constructor|]]).
  - intros _. destruct (Hs eq_refl) as [-> Hr]. split; [done|]. split; [exact Ha|by apply Hr].
  - intros [=].
Qed.

Lemma task_start :
  task_spec quiet (fun s => exists rs, Status_Reinstall (CI_Status s) = Some rs
    /\ IsZero (RS_RequestStartTime rs) = false) ensureStartTimeIsSet.
Proof.
  intros s w _. unfold ensureStartTimeIsSet, deref_reinstall_status. apply wp_bind, wp_bind, wp_get.
  destruct (Status_Reinstall (CI_Status s)) as [rs|] eqn:Hrs; [|by apply wp_panic].
  apply wp_ret. destruct (IsZero (RS_RequestStartTime rs)) eqn:Hz.
  - apply wp_bind, wp_get, wp_bind, wp_Now. intros t w1 _. apply wp_bind, wp_update_reinstall; [|congruence].
    intros rs' _. apply wp_bind, wp_patch_quiet. intros r s2 w2 ev Hev. apply wp_ret.
    rewrite ?app_nil_r. split; [done|intros [=]].
  - apply wp_ret. split; [constructor|]. intros _. split; [done|]. by exists rs.
Qed.

Lemma task_labels : task_spec harmless (fun _ => True) applyPreservedLabelToClusterInstanceSecrets.
Proof.
  intros s w _. apply wp_keeps_emits with (P := harmless).
  - unfold applyPreservedLabelToClusterInstanceSecrets, applyPreservationLabel. keeps_go.
  - unfold applyPreservedLabelToClusterInstanceSecrets, applyPreservationLabel. emits_go; by apply emits_call.
  - by intros o w' ev Hev.
Qed.

Lemma keeps_Backup : keeps Backup.
Proof.
  unfold Backup, for_modes, backupResources, resourcesForPreservation, backupResource, createResource,
    CreateOrUpdate, createResource_mutate. keeps_go.
Qed.

Lemma emits_Backup : emits harmless Backup.
Proof.
  unfold Backup, for_modes, backupResources, resourcesForPreservation, backupResource, createResource,
    CreateOrUpdate, createResource_mutate. emits_go; by apply emits_call.
Qed.

(** ** Preservation *)

(** The data the mode asks for has been preserved. *)
Definition preserved (ci : ClusterInstance) : Prop :=
  exists spec, Spec_Reinstall (CI_Spec ci) = Some spec /\
    if String.eqb (RSpec_PreservationMode spec) PreservationModeNone
    then recorded ci ReinstallPreservationDataBackedup ConditionFalse PreservationNotRequired
    else (recorded ci ReinstallPreservationDataBackedup ConditionTrue Completed
          \/ recorded ci ReinstallPreservationDataBackedup ConditionFalse DataUnavailable)
         /\ (RSpec_PreservationMode spec = PreservationModeClusterIdentity ->
             recorded ci ReinstallClusterIdentityDataDetected ConditionTrue DataAvailable).

Lemma record_preservation_spec b d err s w :
  is_Some (Status_Reinstall (CI_Status s)) ->
  wp (record_preservation b d err) (fun o s' _ ev => Forall quiet ev
    /\ (o = Ret (mkResult false 0, None) -> s' = s /\ err = None
          /\ recorded s (Cond_Type b) (Cond_Status b) (Cond_Reason b)
          /\ recorded s (Cond_Type d) (Cond_Status d) (Cond_Reason d))) s w.
Proof.
  intros Hrs. unfold record_preservation. apply wp_bind, wp_get, wp_bind, wp_set. intros c1 s1 w1 Hs1.
  apply wp_bind, wp_set. intros c2 s2 w2 Hs2. destruct c1; simpl.
  { apply wp_bind, wp_patch_quiet. intros r s3 w3 ev Hev. apply wp_ret. rewrite ?app_nil_r.
    split; [done|intros [=]]. }
  destruct (Hs1 eq_refl) as [-> Hb]. destruct c2; simpl.
  { apply wp_bind, wp_patch_quiet. intros r s3 w3 ev Hev. apply wp_ret. rewrite ?app_nil_r.
    split; [done|intros [=]]. }
  destruct (Hs2 eq_refl) as [-> Hd]. apply wp_ret. split; [constructor|]. intros [= ->]. auto.
Qed.

Lemma summary_spec s w :
  wp getDataPreservationSummary (fun o s' _ ev => s' = s /\ Forall harmless ev
    /\ forall b d, o = Ret (b, d, None) ->
      Cond_Type b = ReinstallPreservationDataBackedup
      /\ ((Cond_Status b = ConditionTrue /\ Cond_Reason b = Completed)
          \/ (Cond_Status b = ConditionFalse /\ Cond_Reason b = DataUnavailable))
      /\ Cond_Type d = ReinstallClusterIdentityDataDetected
      /\ forall spec, Spec_Reinstall (CI_Spec s) = Some spec ->
          RSpec_PreservationMode spec = PreservationModeClusterIdentity ->
          Cond_Status d = ConditionTrue /\ Cond_Reason d = DataAvailable) s w.
Proof.
  unfold getDataPreservationSummary, deref_reinstall_spec. apply wp_bind, wp_bind, wp_get.
  destruct (Spec_Reinstall (CI_Spec s)) as [spec|] eqn:Hspec; [|by apply wp_panic].
  apply wp_ret, wp_bind. apply wp_keeps_emits with (P := harmless).
  { unfold GetPreservedResourceCounts, get_counts, countMatchingResources. keeps_go. }
  { unfold GetPreservedResourceCounts, get_counts, countMatchingResources. emits_go; by apply emits_call. }
  intros [[[ids others] err]|msg] w1 ev Hev; [|by split; [|split]]. destruct err as [e|].
  { apply wp_ret. rewrite ?app_nil_r. split; [done|split; [done|by intros ? ? [=]]]. }
  destruct (ids =? 0)%nat; [destruct (String.eqb_spec (RSpec_PreservationMode spec) PreservationModeClusterIdentity)|];
    apply wp_ret; rewrite ?app_nil_r; (split; [done|split; [done|]]); intros b d [= <- <-];
    (split; [by destruct (_ =? 0)%nat|split; [destruct (_ =? 0)%nat; [by right|by left]|split; [done|]]]);
    intros spec' [= <-]; done.
Qed.

Lemma task_preserve : task_spec harmless preserved ensureDataIsPreserved.
Proof.
  intros s w Hrs. unfold ensureDataIsPreserved, deref_reinstall_spec. apply wp_bind, wp_bind, wp_get.
  destruct (Spec_Reinstall (CI_Spec s)) as [spec|] eqn:Hspec; [|by apply wp_panic].
  apply wp_ret. destruct (String.eqb (RSpec_PreservationMode spec) PreservationModeNone) eqn:Hmode.
  { eapply wp_mono; [by apply record_preservation_spec|]. intros o s' w' ev [Hev Ho].
    split; [eapply Forall_impl; [exact Hev|apply quiet_harmless]|]. intros Hret.
    destruct (Ho Hret) as (-> & _ & Hb & _). split; [done|]. exists spec. by rewrite Hmode. }
  apply wp_if_err, wp_keeps_emits with (P := harmless); [apply keeps_Backup|apply emits_Backup|].
  intros [[err|]|msg] w1 ev Hev; [| |by split].
  - eapply wp_mono; [by apply record_preservation_spec|]. intros o s' w' ev' [Hev' Ho]. split.
    + repeat (apply Forall_app_2; [done|]). eapply Forall_impl; [exact Hev'|apply quiet_harmless].
    + intros Hret. by destruct (Ho Hret) as (_ & ? & _).
  - apply wp_bind. eapply wp_mono; [apply summary_spec|]. intros [[[b d] err]|msg] s' w2 ev2 (-> & Hev2 & Hsum).
    2:{ split; [by repeat (apply Forall_app_2; [done|])|done]. }
    eapply wp_mono; [by apply record_preservation_spec|]. intros o s' w' ev3 [Hev3 Ho]. split.
    + repeat (apply Forall_app_2; [done|]).
      eapply Forall_impl; [exact Hev3|apply quiet_harmless].
    + intros Hret. destruct (Ho Hret) as (-> & -> & Hb & Hd). split; [done|].
      destruct (Hsum b d eq_refl) as (Htb & Hsb & Htd & Hid). exists spec. rewrite Hmode. split; [done|].
      rewrite Htb in Hb. rewrite Htd in Hd. split.
      * destruct Hsb as [[Hs Hr]|[Hs Hr]]; rewrite Hs, Hr in Hb; [by left|by right].
      * intros Hm. destruct (Hid spec Hspec Hm) as [Hs Hr]. by rewrite Hs, Hr in Hd.
Qed.

(** ** The gates of a request *)

(** The request is allowed, validated, started and not yet observed, as the API server has it. *)
Definition may_write (store : Configuration) (ci : ClusterInstance) : Prop :=
  allowReinstalls store = true
  /\ recorded ci ReinstallRequestValidated ConditionTrue Completed
  /\ exists spec rs, Spec_Reinstall (CI_Spec ci) = Some spec /\ Status_Reinstall (CI_Status ci) = Some rs
       /\ RS_InProgressGeneration rs = RSpec_Generation spec
       /\ RS_ObservedGeneration rs <> RSpec_Generation spec
       /\ IsZero (RS_RequestStartTime rs) = false.

(** What may be called for a request on [ci]. *)
Definition request_allows (store : Configuration) (ci : ClusterInstance) (e : Event) : Prop :=
  (writes e = true -> may_write store ci)
  /\ (deletes e = true -> may_write store ci /\ preserved ci).

Abbreviation allowed store ci := (Forall (request_allows store ci)).

Lemma quiet_allowed store ci ev : Forall quiet ev -> allowed store ci ev.
Proof.
  intros Hev. eapply Forall_impl; [exact Hev|]. intros e He. split; [congruence|]. intros Hd.
  by rewrite (quiet_harmless e He) in Hd.
Qed.

Lemma harmless_allowed store ci ev : may_write store ci -> Forall harmless ev -> allowed store ci ev.
Proof. intros Hw Hev. eapply Forall_impl; [exact Hev|]. intros e He. split; [done|congruence]. Qed.

Lemma all_allowed store ci ev : may_write store ci -> preserved ci -> allowed store ci ev.
Proof. intros Hw Hp. apply Forall_true. intros e. by split. Qed.

(** One task, then the others if it has nothing to report. *)
Lemma wp_run_task t rest (Q : outcome (unit + processing) -> ClusterInstance -> W -> list Event -> Prop) s w :
  wp (task_Run t) (fun o s1 w1 ev =>
    match o with
    | Panic msg => Q (Panic msg) s1 w1 ev
    | Ret r =>
        (forall p, Q (Ret (inr p)) s1 w1 ev)
        /\ (r = (mkResult false 0, None) ->
            wp (for_range rest tt run_task) (fun o' s2 w2 ev' => Q o' s2 w2 (ev ++ ev')) s1 w1)
    end) s w ->
  wp (for_range (t :: rest) tt run_task) Q s w.
Proof.
  intros Ht. cbn [for_range]. apply wp_bind. unfold run_task at 1. apply wp_bind.
  eapply wp_mono; [exact Ht|]. intros [[result err]|msg] s1 w1 ev; [|done]. intros [Hinr Hinl].
  destruct (negb (Result_IsZero result)) eqn:Hz; [apply wp_ret, wp_ret; rewrite ?app_nil_r; apply Hinr|].
  destruct err as [e|]; [apply wp_ret, wp_ret; rewrite ?app_nil_r; apply Hinr|].
  apply wp_ret. rewrite ?app_nil_r. apply Hinl. apply negb_false_iff in Hz. unfold Result_IsZero in Hz.
  apply bool_decide_eq_true_1 in Hz. by subst.
Qed.

Lemma wp_task P fact t rest (Q : outcome (unit + processing) -> ClusterInstance -> W -> list Event -> Prop) s w :
  task_spec P fact (task_Run t) -> is_Some (Status_Reinstall (CI_Status s)) ->
  (forall o s1 w1 ev, Forall P ev -> (forall u, o <> Ret (inl u)) -> Q o s1 w1 ev) ->
  (forall w1 ev, Forall P ev -> fact s ->
     wp (for_range rest tt run_task) (fun o' s2 w2 ev' => Q o' s2 w2 (ev ++ ev')) s w1) ->
  wp (for_range (t :: rest) tt run_task) Q s w.
Proof.
  intros Ht Hrs Hstop Hgo. apply wp_run_task. eapply wp_mono; [by apply Ht|].
  intros [r|msg] s1 w1 ev [Hev Hfact]; [|by apply Hstop]. split; [intros p; by apply Hstop|].
  intros ->. destruct (Hfact eq_refl) as [-> Hs]. by apply Hgo.
Qed.

Lemma finish_quiet p s w : wp (finishProcessing p) (fun _ _ _ ev => Forall quiet ev) s w.
Proof.
  apply wp_emits. unfold finishProcessing, update_reinstall_status, deref_reinstall_status,
    assign_reinstall_status, setReinstallStatusCondition, assign_reinstall_status. emits_go.
Qed.

Lemma tasks_gated store ci w rs spec :
  Spec_Reinstall (CI_Spec ci) = Some spec -> Status_Reinstall (CI_Status ci) = Some rs ->
  RS_InProgressGeneration rs = RSpec_Generation spec -> RS_ObservedGeneration rs <> RSpec_Generation spec ->
  wp (for_range (tasks store) tt run_task) (fun o _ _ ev => allowed store ci ev
    /\ forall u, o = Ret (inl u) -> may_write store ci /\ preserved ci) ci w.
Proof.
  intros Hspec Hrs Hgen Hobs. assert (Hsome : is_Some (Status_Reinstall (CI_Status ci))) by eauto.
  unfold tasks.
  eapply wp_task; [apply task_validate|done|intros; split; [by apply quiet_allowed|congruence]|].
  intros w1 ev1 Hev1 [Hallow Hval].
  eapply wp_task; [apply task_start|done| |].
  { intros o s2 w2 ev Hev Ho. split; [apply quiet_allowed; by apply Forall_app_2|naive_solver]. }
  intros w2 ev2 Hev2 (rs' & Hrs' & Hstart). simplify_eq.
  assert (Hw : may_write store ci).
  { split; [done|]. split; [done|]. by exists spec, rs. }
  assert (Hpre : allowed store ci (ev1 ++ ev2)) by (by apply quiet_allowed, Forall_app_2).
  eapply wp_task; [apply task_labels|done| |].
  { intros o s2 w3 ev Hev Ho. rewrite app_assoc. split; [|naive_solver].
    apply Forall_app_2; [done|]. by apply harmless_allowed. }
  intros w3 ev3 Hev3 _.
  eapply wp_task; [apply task_preserve|done| |].
  { intros o s2 w4 ev Hev Ho. rewrite !app_assoc. split; [|naive_solver].
    rewrite <-app_assoc. apply Forall_app_2; [done|]. apply harmless_allowed; [done|by apply Forall_app_2]. }
  intros w4 ev4 Hev4 Hp. unfold wp. split; [by apply all_allowed|by intros].
Qed.

Lemma run_tasks_gated store ci w rs spec :
  Spec_Reinstall (CI_Spec ci) = Some spec -> Status_Reinstall (CI_Status ci) = Some rs ->
  RS_InProgressGeneration rs = RSpec_Generation spec -> RS_ObservedGeneration rs <> RSpec_Generation spec ->
  wp (p ← run_tasks (tasks store); finishProcessing p) (fun _ _ _ ev => allowed store ci ev) ci w.
Proof.
  intros Hspec Hrs Hgen Hobs. apply wp_bind. unfold run_tasks. apply wp_bind.
  eapply wp_mono; [by apply (tasks_gated store ci w rs spec)|].
  intros [[[]|p]|msg] s1 w1 ev [Hev Hall]; [| |done].
  - destruct (Hall tt eq_refl) as [Hw Hp]. apply wp_bind. unfold wp.
    destruct (run_out (finalizeReinstallRequest s1 w1)); [|by apply all_allowed].
    simpl. by apply all_allowed.
  - apply wp_ret. rewrite app_nil_r. eapply wp_mono; [apply finish_quiet|]. intros o s2 w2 ev' Hev'.
    apply Forall_app_2; [done|by apply quiet_allowed].
Qed.

(** C7: Whatever the API server answers, a reinstall request writes an object (labels of secrets,
    backups, restored data) only when reinstalls are enabled and the status the API server holds
    records the request as validated, started and in progress; and it deletes an object only when
    that status also records that the data of the preservation mode has been preserved, cluster
    identity included when the mode asks for it. *)
Theorem ProcessRequest_gated store ci w e :
  e ∈ run_evs (ProcessRequest store ci w) -> request_allows store ci e.
Proof.
  revert e. apply Forall_forall. change (wp (ProcessRequest store) (fun _ _ _ ev => allowed store ci ev) ci w).
  unfold ProcessRequest. apply wp_bind, wp_get.
  destruct (Spec_Reinstall (CI_Spec ci)) as [spec|] eqn:Hspec; [|apply wp_ret; constructor].
  destruct (isRequestProcessed ci spec) eqn:Hproc; [apply wp_ret; constructor|].
  assert (Hnew : wp (if_err initializeReinstallStatus (fun err => mret (mkResult false 0, Some err))
            (mret (mkResult true 0, None))) (fun _ _ _ ev => allowed store ci ([] ++ ev)) ci w).
  { eapply wp_mono; [apply wp_emits with (P := quiet)|intros o s' w' ev; apply quiet_allowed].
    unfold initializeReinstallStatus, deref_reinstall_spec, assign_reinstall_status. emits_go. }
  unfold findReinstallStatusCondition.
  destruct (Status_Reinstall (CI_Status ci)) as [rs|] eqn:Hrs; [|exact Hnew].
  destruct (FindStatusCondition _ _) as [cond|]; [|exact Hnew].
  destruct (isNewRequest ci spec) eqn:Hn; [exact Hnew|].
  unfold isNewRequest in Hn. rewrite Hrs in Hn. apply negb_false_iff, String.eqb_eq in Hn.
  destruct (String.eqb (Cond_Reason cond) Initialized).
  - eapply wp_mono; [apply wp_emits with (P := quiet)|intros o s' w' ev; apply quiet_allowed].
    unfold update_reinstall_status, deref_reinstall_status, assign_reinstall_status,
      setReinstallStatusCondition, assign_reinstall_status. emits_go.
  - eapply wp_mono; [apply (run_tasks_gated store ci w rs spec); [done|done|done|]|done].
    intros Hobs. unfold isRequestProcessed in Hproc. rewrite Hrs, Hobs, String.eqb_refl in Hproc. done.
Qed.

(** ** The end of a request *)

Definition status_patch (e : Event) : option (ClusterInstance * ClusterInstance) :=
  match e with
  | Ev (StatusPatchCI old new) _ => Some (old, new)
  | _ => None
  end.

Abbreviation generations rs := (List.map RH_Generation (RS_History rs)).

(** [rs'] is [rs] with its request closed: observed, no longer in progress, ended, and in the
    history, once. *)
Definition closed (generation : string) (rs rs' : ReinstallStatus) : Prop :=
  RS_ObservedGeneration rs' = generation /\ RS_InProgressGeneration rs' = ""
  /\ RS_Conditions rs' = RS_Conditions rs /\ RS_RequestStartTime rs' = RS_RequestStartTime rs
  /\ (IsZero (RS_RequestEndTime rs) = false -> RS_RequestEndTime rs' = RS_RequestEndTime rs)
  /\ generation ∈ generations rs'
  /\ (exists added, RS_History rs' = RS_History rs ++ added /\ (length added <= 1)%nat
       /\ (generation ∈ generations rs -> added = []))
  /\ (NoDup (generations rs) -> NoDup (generations rs')).

Lemma history_generation generation rs :
  existsb (fun r => String.eqb (RH_Generation r) generation) (RS_History rs) = true
  <-> generation ∈ generations rs.
Proof.
  rewrite existsb_exists. split.
  - intros (r & Hin & <-%String.eqb_eq). by apply list_elem_of_In, in_map.
  - intros Hin. apply list_elem_of_In, in_map_iff in Hin as (r & <- & Hin). exists r.
    by rewrite String.eqb_refl.
Qed.

Lemma finalized_closed now generation diff rs :
  closed generation rs (finalized_status now generation diff rs).1.
Proof.
  unfold finalized_status, closed. simpl. destruct (existsb _ _) eqn:He.
  - apply history_generation in He. repeat split; [by intros ->|done| |done].
    exists []. rewrite app_nil_r. auto.
  - assert (Hne : generation ∉ generations rs) by (by rewrite <-history_generation, He).
    rewrite List.map_app. simpl. repeat split; [by intros ->|set_solver| |].
    + eexists. split; [done|]. split; [done|]. intros Hin. by apply Hne in Hin.
    + intros Hnd. apply NoDup_app. split; [done|]. split; [|apply NoDup_singleton]. set_solver.
Qed.

(** Nothing had to be changed. *)
Lemma finalized_same now generation diff rs :
  (finalized_status now generation diff rs).2 = false ->
  RS_ObservedGeneration rs = generation /\ RS_InProgressGeneration rs = "" /\ generation ∈ generations rs.
Proof.
  unfold finalized_status. simpl. intros Hf. bools.
  repeat match goal with H : String.eqb _ _ = true |- _ => apply String.eqb_eq in H end.
  split; [done|]. split; [done|]. by apply history_generation.
Qed.

Lemma keeps_DeleteObject o timeout : keeps (DeleteObject (W := W) o timeout).
Proof.
  unfold DeleteObject, isObjectDeleted, timeoutExceeded, initiateObjectDeletion. keeps_go.
Qed.

Lemma emits_DeleteObject (P : Event -> Prop) o timeout :
  (forall a k key r, P (Ev (ObjGet a k key) r)) -> (forall a k key r, P (Ev (ObjDelete a k key) r)) ->
  emits P (DeleteObject (W := W) o timeout).
Proof.
  intros Hget Hdel. unfold DeleteObject, isObjectDeleted, timeoutExceeded, initiateObjectDeletion.
  emits_go; apply emits_call; auto.
Qed.

Lemma keeps_Cleanup : keeps Cleanup.
Proof.
  assert (Hdata : forall modes ns data, keeps (Cleanup_data (W := W) modes ns data)).
  { intros modes ns. induction modes as [|mode modes IH]; intros data; simpl; [keeps_go|].
    destruct (buildRestoreLabelSelector mode) as [[sel|]|]; [|apply IH|keeps_go].
    unfold resourcesForPreservation. keeps_step; [keeps_go|]. destruct a; [apply IH|keeps_go]. }
  unfold Cleanup, Cleanup_all, Cleanup_delete. keeps_go; try apply Hdata; apply keeps_DeleteObject.
Qed.

Lemma emits_Cleanup (P : Event -> Prop) :
  (forall a k key r, P (Ev (ObjGet a k key) r)) -> (forall a k key r, P (Ev (ObjDelete a k key) r)) ->
  (forall k ns sel r, P (Ev (ListResources k ns sel) r)) -> emits P Cleanup.
Proof.
  intros Hget Hdel Hlist.
  assert (Hdata : forall modes ns data, emits P (Cleanup_data (W := W) modes ns data)).
  { intros modes ns. induction modes as [|mode modes IH]; intros data; simpl; [emits_go|].
    destruct (buildRestoreLabelSelector mode) as [[sel|]|]; [|apply IH|emits_go].
    unfold resourcesForPreservation. emits_step; [emits_go; apply emits_call; auto|].
    destruct a; [apply IH|emits_go]. }
  unfold Cleanup, Cleanup_all, Cleanup_delete. emits_go; try apply Hdata; by apply emits_DeleteObject.
Qed.

End spec.

(** ** The difference between two specs *)

Lemma operation_less_asym a b : operation_less a b = true -> operation_less b a = false.
Proof.
  unfold operation_less. rewrite (String.eqb_sym (Op_Path b)), (String.eqb_sym (value_text b)).
  destruct (String.eqb (Op_Path a) (Op_Path b)); simpl; [|apply str_ltb_asym].
  destruct (String.eqb (value_text a) (value_text b)); simpl; apply str_ltb_asym.
Qed.

Lemma Marshal_array_nonempty l : Marshal (JArr l) <> "".
Proof. done. Qed.


(** ** Examples *)

#[local] Instance no_yaml : ResourceYaml := {|
  Resource_Marshal := fun _ => Ok "yaml";
  Resource_Unmarshal := fun _ _ => Err (ErrorString "yaml")
|}.
#[local] Instance fixed_time : TimeText := {| Format_RFC3339 := fun _ => "2024-01-01T00:00:00Z" |}.
#[local] Instance no_spec_text : SpecText := {| Unmarshal_Spec := fun _ => Err (ErrorString "json") |}.

Definition with_reinstalls : Configuration := mkConfiguration true 1.

Definition cond_at (t s r m : string) : Condition := mkCondition t s 0 10 r m.

(** A request whose earlier steps are recorded; the deletion of the manifests is as given. *)
Definition reinstalling (deletion : string) : ClusterInstance :=
  (sample_ci [node1] (Some (mkReinstallSpec "gen-1" PreservationModeNone)) Completed
    (Some (mkReinstallStatus
      [cond_at ReinstallRequestProcessed ConditionFalse InProgress "Deleting rendered manifests";
       cond_at ReinstallRequestValidated ConditionTrue Completed "Valid reinstall request";
       cond_at ReinstallPreservationDataBackedup ConditionFalse PreservationNotRequired
         "PreservationMode is set to None.";
       cond_at ReinstallClusterIdentityDataDetected ConditionFalse PreservationNotRequired
         "PreservationMode is set to None.";
       cond_at ReinstallRenderedManifestsDeleted ConditionFalse deletion "";
       cond_at ReinstallPreservationDataRestored ConditionFalse PreservationNotRequired
         "PreservationMode is set to None."] "gen-1" "" 20 0 [])))
  <| CI_Status ::= fun s =>
     s <| Status_ManifestsRendered := Status_ManifestsRendered (CI_Status sno_manifests) |> |>.

Lemma ProcessRequest_gated_witness :
  let calls := run_evs (ProcessRequest with_reinstalls (reinstalling InProgress) two_objects) in
  option_map deletes (calls !! 3) = Some true
  /\ may_write with_reinstalls (reinstalling InProgress) /\ preserved (reinstalling InProgress).
Proof.
  intros calls. assert (Hm : option_map deletes (calls !! 3) = Some true) by (vm_compute; reflexivity).
  split; [exact Hm|]. destruct (calls !! 3) as [e|] eqn:He; [|discriminate Hm].
  injection Hm as Hd.
  exact (proj2 (ProcessRequest_gated with_reinstalls (reinstalling InProgress) two_objects e
    (list_elem_of_lookup_2 calls 3 e He)) Hd).
Defined.


