(* ===== verification/Obliging.v ===== *)
(** * Programs that return, and the steps that do so on an obliging cluster

    [ends P R m s]: from the object [s] and any world that satisfies [P] the program returns, and
    [R] holds of what it returns, of the object and of the world it leaves. With it: the steps that
    several components share (the clock, a status patch, the deletion of manifests that are gone)
    on a cluster that stores the status it is sent. *)
From S2P Require Import Prelude GoStd JsonDiff JsonCodec Types Errors Conditions Samples K8s.
From S2P Require Import Cluster Retry Requeue RenderedObject Deletion DeletionSpec Reinstall.

(** The identity of a manifest: API group, kind, name and namespace. *)
Abbreviation manifest_id := (option string * string * string * string)%type.

Section ends.
Context {W : Type} `{Server W}.

Abbreviation M := (Prog ClusterInstance W Event).
Abbreviation post A := (A -> ClusterInstance -> W -> Prop).

Definition ends {A} (P : W -> Prop) (R : post A) (m : M A) (s : ClusterInstance) : Prop :=
  forall w, P w -> wp m (fun o s' w' _ => match o with Ret a => R a s' w' | Panic _ => False end) s w.

(** The same, if it returns. *)
Definition yields {A} (P : W -> Prop) (R : post A) (m : M A) (s : ClusterInstance) : Prop :=
  forall w, P w -> wp m (fun o s' w' _ => match o with Ret a => R a s' w' | Panic _ => True end) s w.

(** [R], and the world satisfies [I]. *)
Definition keeping {A} (I : W -> Prop) (R : A -> ClusterInstance -> Prop) : post A :=
  fun a s w => R a s /\ I w.

Lemma ends_ret {A} P (R : post A) (a : A) s : (forall w, P w -> R a s w) -> ends P R (mret a) s.
Proof. intros HR w Hw. by apply wp_ret, HR. Qed.

Lemma ends_kept {A} I (R : A -> ClusterInstance -> Prop) (a : A) s : R a s -> ends I (keeping I R) (mret a) s.
Proof. intros HR. by apply ends_ret. Qed.

Lemma ends_bind {A B} R1 P (R : post B) (m : M A) (f : A -> M B) s :
  ends P R1 m s -> (forall a s', ends (R1 a s') R (f a) s') -> ends P R (m ≫= f) s.
Proof.
  intros Hm Hf w Hw. apply wp_bind. eapply wp_mono; [by apply Hm|].
  intros [a|msg] s' w' ev Ha; [|done]. by apply Hf.
Qed.

Lemma ends_then {A B} R1 I (R : post B) (m : M A) (f : A -> M B) s :
  ends I (keeping I R1) m s -> (forall a s', R1 a s' -> ends I R (f a) s') -> ends I R (m ≫= f) s.
Proof. intros Hm Hf. apply ends_bind with (1 := Hm). intros a s' w [Ha Hw]. by apply Hf. Qed.

Lemma ends_pure {A} P (φ : Prop) (R : post A) m s : (φ -> ends P R m s) -> ends (fun w => φ /\ P w) R m s.
Proof. intros Hm w [Hφ Hw]. by apply Hm. Qed.

Lemma ends_weaken {A} (P P' : W -> Prop) (R R' : post A) m s :
  ends P R m s -> (forall w, P' w -> P w) -> (forall a s' w, R a s' w -> R' a s' w) -> ends P' R' m s.
Proof.
  intros Hm HP HR w Hw. eapply wp_mono; [apply Hm, HP, Hw|]. intros [a|msg] s' w' ev; [apply HR|done].
Qed.

Lemma ends_mono {A} P (R R' : post A) m s :
  ends P R m s -> (forall a s' w, R a s' w -> R' a s' w) -> ends P R' m s.
Proof. intros Hm HR. by eapply ends_weaken. Qed.

Lemma ends_get {B} P (R : post B) (f : ClusterInstance -> M B) s : ends P R (f s) s -> ends P R (get_mem ≫= f) s.
Proof. intros Hf w Hw. by apply wp_bind, wp_get, Hf. Qed.

Lemma ends_modify {B} P (R : post B) g (f : unit -> M B) s :
  ends P R (f tt) (g s) -> ends P R (modify_mem g ≫= f) s.
Proof. intros Hf w Hw. by apply wp_bind, wp_modify, Hf. Qed.

Lemma ends_outcome {A B} P (R : post B) (o : outcome A) (a : A) (f : A -> M B) s :
  o = Ret a -> ends P R (f a) s -> ends P R (of_outcome o ≫= f) s.
Proof. intros -> Hf w Hw. by apply wp_bind, wp_outcome, Hf. Qed.

Lemma ends_if_ok {X A} P P' (R : post A) (m : M (option X)) h k s :
  ends P (fun r s' w => r = None /\ s' = s /\ P' w) m s -> ends P' R k s -> ends P R (if_err m h k) s.
Proof.
  intros Hm Hk. unfold if_err. apply ends_bind with (1 := Hm). intros r s' w (-> & -> & Hw). by apply Hk.
Qed.

Lemma yields_bind {A B} R1 P (R : post B) (m : M A) (f : A -> M B) s :
  yields P R1 m s -> (forall a s', yields (R1 a s') R (f a) s') -> yields P R (m ≫= f) s.
Proof.
  intros Hm Hf w Hw. apply wp_bind. eapply wp_mono; [by apply Hm|].
  intros [a|msg] s' w' ev Ha; [|done]. by apply Hf.
Qed.

Lemma ends_yields {A} P (R : post A) m s : ends P R m s -> yields P R m s.
Proof. intros Hm w Hw. eapply wp_mono; [by apply Hm|]. by intros [a|msg] s' w' ev. Qed.

(** A loop whose body keeps [J] of its state, leaves the object alone and keeps [I]. *)
Lemma yields_for {A B X} (I : W -> Prop) (J : B -> Prop) (l : list A) (b : B) (body : A -> B -> M (B + X)) s :
  let R := keeping I (fun r s' => exists b', r = inl b' /\ J b' /\ s' = s) in
  J b -> (forall x b, x ∈ l -> J b -> yields I R (body x b) s) -> yields I R (for_range l b body) s.
Proof.
  intros R Hb Hbody. revert b Hb. induction l as [|x l IH]; intros b Hb.
  { intros w Hw. apply wp_ret. split; [by exists b|done]. }
  cbn [for_range]. eapply yields_bind; [by apply Hbody; [left|]|]. intros r s' w [(b' & -> & Hb' & ->) Hw].
  apply IH; [|done|done]. intros y c Hy. apply Hbody. by right.
Qed.

(** Loops over elements of which each is brought about and stays so: [D x] says that [x] is done,
    [le] is how the world may change meanwhile. *)
Section loops.
Context {A X : Type} (I : W -> Prop) (D : A -> W -> Prop) (le : W -> W -> Prop) `{!PreOrder le}.
Context (D_le : forall x w w', le w w' -> D x w -> D x w').

Definition step_done (w0 : W) (f : A -> M (option X)) (s : ClusterInstance) (x : A) : Prop :=
  forall w, le w0 w -> I w ->
    wp (f x) (fun o s' w' _ => o = Ret None /\ s' = s /\ I w' /\ le w w' /\ D x w') s w.

Lemma for_errors_done (l : list A) (f : A -> M (option X)) s w0 :
  (forall x, x ∈ l -> step_done w0 f s x) -> I w0 ->
  wp (for_errors l f) (fun o s' w' _ => o = Ret None /\ s' = s /\ I w' /\ le w0 w' /\ forall x, x ∈ l -> D x w') s w0.
Proof.
  intros Hf Hw0. revert w0 Hf Hw0. induction l as [|x l IH]; intros w0 Hf Hw0.
  { apply wp_ret. split_and!; try done. by intros x Hx%not_elem_of_nil. }
  cbn [for_errors]. apply wp_if_err. eapply wp_mono; [apply (Hf x); [by left|reflexivity|done]|].
  intros [r|msg] s' w1 ev; [|by intros [? _]]. intros ([= ->] & -> & Hw1 & Hle1 & Hd).
  eapply wp_mono; [apply (IH w1); [|done]|].
  - intros y Hy w2 Hle. apply Hf; [by right|by etransitivity].
  - intros o s' w2 ev' (-> & -> & Hw2 & Hle2 & Hall). split_and!; try done; [by etransitivity|].
    intros y [->|Hy]%elem_of_cons; [by eapply D_le|by apply Hall].
Qed.

Lemma collect_errors_done (l : list A) (f : A -> M (option X)) s w0 :
  (forall x, x ∈ l -> step_done w0 f s x) -> I w0 ->
  wp (collect_errors l f) (fun o s' w' _ => o = Ret [] /\ s' = s /\ I w' /\ le w0 w' /\ forall x, x ∈ l -> D x w') s w0.
Proof.
  intros Hf Hw0. revert w0 Hf Hw0. induction l as [|x l IH]; intros w0 Hf Hw0.
  { apply wp_ret. split_and!; try done. by intros x Hx%not_elem_of_nil. }
  cbn [collect_errors]. apply wp_bind. eapply wp_mono; [apply (Hf x); [by left|reflexivity|done]|].
  intros [r|msg] s' w1 ev; [|by intros [? _]]. intros ([= ->] & -> & Hw1 & Hle1 & Hd). apply wp_bind.
  eapply wp_mono; [apply (IH w1); [|done]|].
  - intros y Hy w2 Hle. apply Hf; [by right|by etransitivity].
  - intros o s' w2 ev' (-> & -> & Hw2 & Hle2 & Hall). apply wp_ret. split_and!; try done; [by etransitivity|].
    intros y [->|Hy]%elem_of_cons; [by eapply D_le|by apply Hall].
Qed.
End loops.

(** ** An obliging cluster *)

(** Reading the clock and patching a status do not affect [P], and the clock is set. *)
Class Steady (P : W -> Prop) : Prop := {
  steady_clock : forall w, P w -> IsZero (clock w).1 = false /\ P (clock w).2;
  steady_status : forall old new w r w', P w -> serve (StatusPatchCI old new) w = (r, w') -> P w'
}.

(** Every status patch is stored, and in the worlds of [I] the objects [absent] are gone. *)
Record obliging (I : W -> Prop) (absent : manifest_id -> Prop) : Prop := {
  ob_steady : Steady I;
  ob_status : forall old new w, exists w', serve (StatusPatchCI old new) w = (Ok new, w');
  ob_gone : forall o w, I w -> absent (mid o) ->
    exists e w', serve (ObjGet (GetAPIVersion o) (GetKind o) (object_key o)) w = (Err e, w')
      /\ IsNotFound e = true /\ I w';
  ob_plain : api_errors_plain (W := W)
}.

Section obliged.
Context (I : W -> Prop) (absent : manifest_id -> Prop) (ob : obliging I absent).

Lemma ends_Now {B} P `{!Steady P} (R : post B) (f : Time -> M B) s :
  (forall t, IsZero t = false -> ends P R (f t) s) -> ends P R (Now ≫= f) s.
Proof.
  intros Hf w Hw. apply wp_bind, wp_Now. intros t w' Ht. destruct (steady_clock w Hw) as [Hz Hw'].
  rewrite Ht in Hz, Hw'. by apply Hf.
Qed.

Lemma ends_patch {B} P `{!Steady P} (R : post B) old (f : option error -> M B) s :
  ends P R (f None) s -> ends P R (PatchCIStatus old ≫= f) s.
Proof.
  intros Hf w Hw. apply wp_bind, wp_bind. unfold RetryOnRetriable, RetryBackoff30Seconds. cbn [OnError].
  unfold statusPatchCI. apply wp_bind, wp_bind, wp_get, wp_bind, wp_call. intros r w' Hr.
  pose proof (steady_status old s w r w' Hw Hr) as Hw'.
  destruct (ob_status _ _ ob old s w) as [w1 Hs]. rewrite Hs in Hr. injection Hr as <- <-.
  apply wp_bind, wp_modify, wp_ret, wp_ret, wp_ret. eapply wp_mono; [by apply Hf|]. done.
Qed.

(** ** Deletion of manifests that are gone *)

Lemma yields_DeleteObject o timeout s :
  absent (mid o) -> yields I (keeping I (fun r s' => r = (true, None) /\ s' = s)) (DeleteObject o timeout) s.
Proof.
  intros Ho w Hw. unfold DeleteObject, isObjectDeleted. apply wp_bind, wp_get, wp_bind, wp_bind, wp_call.
  intros r w' Hr. destruct (ob_gone _ _ ob o w Hw Ho) as (e & w1 & Hg & He & Hw1).
  rewrite Hg in Hr. injection Hr as <- <-. apply wp_ret. rewrite He. by apply wp_ret.
Qed.

Definition clean (ms : list ManifestReference) (st : deletionState) : Prop :=
  ds_rendered st = ms /\ ds_errs st = [].

Lemma yields_deleteOne ms excl timeout o st s :
  Forall (fun m => absent (MRef_identity m)) ms -> clean ms st.1 -> st.2 = true ->
  yields I (keeping I (fun r s' => exists st', r = inl st' /\ (clean ms st'.1 /\ st'.2 = true) /\ s' = s))
    (deleteOne excl timeout o st) s.
Proof.
  destruct st as [st flag]. intros Hgone [Hms Herrs] Hflag. simpl in *. unfold deleteOne.
  assert (Hskip : yields I (keeping I (fun r s' => exists st', r = inl st' /\ (clean ms st'.1 /\ st'.2 = true) /\ s' = s))
    (mret (inl (B := deletionState) (st, flag)) : M _) s) by (intros w Hw; split; [by exists (st, flag)|done]).
  destruct (IndexOfObjectByIdentity o excl); [done|]. intros w Hw. apply wp_bind, wp_Now. intros t w1 Ht.
  destruct (ob_steady _ _ ob) as [Hclock _]. destruct (Hclock w Hw) as [_ Hw1]. rewrite Ht in Hw1. simpl in Hw1.
  destruct (RenderedObject_ManifestReference t o) as [ref|] eqn:Href; [|by apply wp_panic].
  destruct (IndexOfManifestByIdentity ref (ds_rendered st)) as [i|] eqn:Hi; [|by apply Hskip].
  destruct (IndexOfManifestByIdentity_Ok _ _ _ Hi) as (m & Hm & Hid). rewrite Hm.
  assert (Ho : absent (mid o)).
  { rewrite <-(MRef_of_object t o ref Href), <-Hid. rewrite Forall_forall in Hgone. apply Hgone.
    rewrite <-Hms. by eapply list_elem_of_lookup_2. }
  apply wp_bind. eapply wp_mono; [by apply yields_DeleteObject|].
  intros [[b err]|msg] s' w' ev; [|done]. intros [[[= -> ->] ->] Hw']. simpl. apply wp_ret.
  split; [by eexists (_, flag)|done].
Qed.

Definition with_manifests (ms : list ManifestReference) (s : ClusterInstance) : ClusterInstance :=
  s <| CI_Status ::= fun st => st <| Status_ManifestsRendered := ms |> |>.

(** The tracked manifests are as the renderer records them, and gone. *)
Definition tracked_ok (s : ClusterInstance) : Prop :=
  Forall (fun m => reference_ok m /\ absent (MRef_identity m)) (Status_ManifestsRendered (CI_Status s)).

Lemma yields_DeleteObjects objects excl timeout s :
  tracked_ok s ->
  yields I (keeping I (fun r s' => r = (true, None) /\ exists ms, s' = with_manifests ms s
      /\ forall m, m ∈ ms -> m ∈ Status_ManifestsRendered (CI_Status s)))
    (DeleteObjects objects excl timeout) s.
Proof.
  intros Hok. assert (Habs : Forall (fun m => absent (MRef_identity m)) (Status_ManifestsRendered (CI_Status s))).
  { eapply Forall_impl; [exact Hok|]. by intros m [_ ?]. }
  unfold DeleteObjects. intros w Hw. apply wp_bind, wp_get. revert w Hw.
  change (yields I (keeping I (fun r s' => r = (true, None) /\ exists ms, s' = with_manifests ms s
      /\ forall m, m ∈ ms -> m ∈ Status_ManifestsRendered (CI_Status s)))
    (r ← for_range (GetDescendingSyncWaves (SyncWaveMap_AddObjects ∅ objects).1)
        (mkDeletionState (Status_ManifestsRendered (CI_Status s)) [] [])
        (deleteWave (SyncWaveMap_AddObjects ∅ objects).1 excl timeout);
     match r with
     | inr st => err ← finishDeletion st; mret (false, err)
     | inl st => err ← finishDeletion st; mret (true, err)
     end) s).
  eapply yields_bind.
  - apply (yields_for I (clean (Status_ManifestsRendered (CI_Status s)))); [done|].
    intros wave st _ Hst. unfold deleteWave. eapply yields_bind.
    + apply (yields_for I (fun st => clean (Status_ManifestsRendered (CI_Status s)) st.1 /\ st.2 = true)); [done|].
      intros o st' _ [Hc Hf]. by apply yields_deleteOne.
    + intros r s' w [([st' flag] & -> & [[Hms Herrs] Hf] & ->) Hw]. simpl in *. subst flag. rewrite Herrs.
      split; [by exists st'|done].
  - intros r s' w [(st & -> & [Hms Herrs] & ->) Hw]. revert w Hw. apply ends_yields.
    eapply ends_then with (R1 := fun r s' => r = None /\ exists ms, s' = with_manifests ms s
      /\ forall m, m ∈ ms -> m ∈ Status_ManifestsRendered (CI_Status s)).
    2: { intros r s' [-> Hr]. by apply ends_kept. }
    unfold finishDeletion. rewrite Herrs, Hms. apply ends_get. case_goal.
    + apply ends_kept. split; [done|]. exists (Status_ManifestsRendered (CI_Status s)). split; [|done].
      by destruct s as [? ? []].
    + apply ends_modify, ends_patch; [apply ob|]. apply ends_kept. split; [done|]. eexists. split; [reflexivity|].
      intros m Hm. by apply list_elem_of_In, filter_In in Hm as [Hm%list_elem_of_In _].
Qed.

Lemma ends_DeleteRenderedObjects excl timeout s :
  tracked_ok s ->
  ends I (keeping I (fun r s' => r = (true, None) /\ exists ms, s' = with_manifests ms s /\ tracked_ok s'))
    (DeleteRenderedObjects excl timeout) s.
Proof.
  intros Hok w Hw. assert (Href : Forall reference_ok (Status_ManifestsRendered (CI_Status s))).
  { eapply Forall_impl; [exact Hok|]. by intros m [? _]. }
  destruct (DeleteRenderedObjects_gone (ob_plain _ _ ob) s excl timeout w Href) as (b & err & Hout & _).
  unfold wp. rewrite Hout.
  enough (Hy : yields I (keeping I (fun r s' => r = (true, None) /\ exists ms, s' = with_manifests ms s /\ tracked_ok s'))
    (DeleteRenderedObjects excl timeout) s) by (specialize (Hy w Hw); unfold wp in Hy; by rewrite Hout in Hy).
  clear w Hw b err Hout. intros w Hw. unfold DeleteRenderedObjects. apply wp_bind, wp_get.
  destruct (Status_ManifestsRendered (CI_Status s)) as [|m ms] eqn:Hms.
  { apply wp_ret. split; [|done]. split; [done|]. exists []. split; [|done]. destruct s as [? ? []]. simpl in *. by subst. }
  destruct (objectsForManifests (m :: ms)) as [objects|]; [|by apply wp_panic].
  eapply wp_mono; [by apply yields_DeleteObjects|]. intros [r|msg] s' w' ev; [|done].
  intros [[-> (ms' & -> & Hin)] Hw']. split; [|done]. split; [done|]. exists ms'. split; [done|].
  apply Forall_forall. intros m' Hm'. unfold tracked_ok in Hok. rewrite Forall_forall in Hok. auto.
Qed.

Lemma getManagedCluster_ok s : tracked_ok s -> exists mc, getManagedCluster s = Ret (Ok mc).
Proof.
  intros Hok. unfold getManagedCluster, getManagedClusterManifest. destruct (List.find _ _) as [m|] eqn:Hf; [|eauto].
  apply List.find_some in Hf as [Hin Hk]. apply andb_prop in Hk as [Hk%String.eqb_eq _].
  unfold tracked_ok in Hok. rewrite List.Forall_forall in Hok. destruct (Hok m Hin) as (([g Hg] & Hgv & _) & _).
  rewrite Hg in Hgv |- *. simpl in Hgv. unfold NewRenderedObject, SetObject.
  change (GetKind _) with (MRef_Kind m). change (GetAPIVersion _) with g. rewrite Hgv, Hk. simpl. eauto.
Qed.
End obliged.
End ends.

Arguments ends {W A} P R m s.
Arguments yields {W A} P R m s.
Arguments keeping {W A} I R a s w /.
Arguments Steady {W _} P.
