(* ===== verification/ReinstallProgress.v ===== *)
(** * The reinstall workflow: progress

    On a cluster that obliges (status patches are stored as they are sent, deleted objects are
    gone) and on which preserving and restoring succeed, a request completes: each run of
    [ProcessRequest] takes it one step further. What preserving has to do is stated as the programs
    of [Preservation] ending well ([preserving]); [ReinstallHub] proves that they do. *)
From S2P Require Import Prelude GoStd JsonDiff JsonCodec Types Errors Conditions Samples K8s.
From S2P Require Import Cluster Retry Requeue RenderedObject Pause Configuration.
From S2P Require Import Deletion DeletionSpec Preservation Reinstall ReinstallSpec Obliging.

(** What the conditions of a request say in the end about the data that is preserved: status,
    reason and message. *)
Record report := mkReport {
  rp_backedup : string * string * string;
  rp_identity : string * string * string;
  rp_restored : string * string * string
}.

Definition as_condition (condition : string -> string -> string -> Condition) (v : string * string * string)
    : Condition := condition v.1.1 v.1.2 v.2.

Definition nothing_preserved : string * string * string :=
  (ConditionFalse, PreservationNotRequired, "PreservationMode is set to None.").

(** ** What is left of a request *)

(** A condition that is not there as it should be. *)
Definition differs (found : option Condition) (new : Condition) : nat :=
  match found with
  | None => 1
  | Some existing =>
      if (String.eqb (Cond_Status existing) (Cond_Status new) && String.eqb (Cond_Reason existing) (Cond_Reason new)
          && String.eqb (Cond_Message existing) (Cond_Message new)
          && Z.eqb (Cond_ObservedGeneration existing) (Cond_ObservedGeneration new))%bool then 0 else 1
  end.

Definition accepted : Condition :=
  reinstallRequestValidatedConditionStatus ConditionTrue Completed "Valid reinstall request".

Definition backedup_as (rp : report) : Condition := as_condition reinstallPreservationDataBackedupConditionStatus (rp_backedup rp).
Definition identity_as (rp : report) : Condition := as_condition reinstallClusterIdentityDataDetectedConditionStatus (rp_identity rp).
Definition restored_as (rp : report) : Condition := as_condition reinstallPreservationDataRestoredConditionStatus (rp_restored rp).

Definition deletion_left (found : option Condition) : nat :=
  match found with
  | None => 2
  | Some c =>
      if String.eqb (Cond_Reason c) Initialized then 2
      else if (String.eqb (Cond_Reason c) Failed || String.eqb (Cond_Reason c) Completed)%bool then 0 else 1
  end.

(** The steps that the tasks still have to record. *)
Definition tasks_left (rp : report) (rs : ReinstallStatus) : nat :=
  let find := FindStatusCondition (RS_Conditions rs) in
  differs (find ReinstallRequestValidated) accepted
  + (if IsZero (RS_RequestStartTime rs) then 1 else 0)
  + Nat.max (differs (find ReinstallPreservationDataBackedup) (backedup_as rp))
            (differs (find ReinstallClusterIdentityDataDetected) (identity_as rp))
  + deletion_left (find ReinstallRenderedManifestsDeleted)
  + differs (find ReinstallPreservationDataRestored) (restored_as rp).

Lemma tasks_left_bound rp rs : tasks_left rp rs <= 6.
Proof.
  unfold tasks_left, differs, deletion_left. repeat case_goal; simpl; lia.
Qed.

#[local] Arguments differs : simpl never.

Lemma changes_differs l c : condition_changes l c = true <-> differs (FindStatusCondition l (Cond_Type c)) c = 1.
Proof. unfold condition_changes, differs. destruct (FindStatusCondition _ _); [|done]. by destruct (_ && _)%bool. Qed.

Lemma find_set now l c u :
  exists t, FindStatusCondition (meta_SetStatusCondition now l c) u
  = if String.eqb u (Cond_Type c) then Some (c <| Cond_LastTransitionTime := t |>) else FindStatusCondition l u.
Proof.
  unfold meta_SetStatusCondition. destruct (FindStatusCondition l (Cond_Type c)) as [e|] eqn:Hf.
  - rewrite Find_update_first by done. destruct (String.eqb_spec u (Cond_Type c)) as [->|]; [|by exists 0%Z].
    rewrite Hf. apply Find_Some in Hf as [_ Ht]. simpl. unfold update_condition. rewrite Ht.
    eexists. destruct c. reflexivity.
  - rewrite Find_app. destruct (String.eqb_spec u (Cond_Type c)) as [->|Hne].
    + rewrite Hf. eexists. simpl. rewrite String.eqb_refl. by destruct c.
    + exists 0%Z. destruct (FindStatusCondition l u); [done|]. simpl.
      destruct (String.eqb_spec (Cond_Type c) u); [congruence|done].
Qed.

Definition with_reinstall (rs : ReinstallStatus) (s : ClusterInstance) : ClusterInstance :=
  s <| CI_Status ::= fun st => st <| Status_Reinstall := Some rs |> |>.

Definition with_condition (t : Time) (c : Condition) (rs : ReinstallStatus) : ReinstallStatus :=
  rs <| RS_Conditions := meta_SetStatusCondition t (RS_Conditions rs) c |>.


(** ** The steps on such a cluster *)

Section progress.
Context `{ResourceYaml} `{TimeText} `{SpecText} {W : Type} `{Server W}.
Context (I : W -> Prop) (absent : manifest_id -> Prop) (ob : obliging I absent) (rp : report).

Abbreviation M := (Prog ClusterInstance W Event).
Abbreviation ok s := (tracked_ok absent s).
Abbreviation left_of rs t c := (differs (FindStatusCondition (RS_Conditions rs) t) c).

#[local] Instance I_steady : Steady I := ob_steady _ _ ob.

Lemma ends_set {B} P `{!Steady P} (R : B -> ClusterInstance -> W -> Prop) c rs (f : bool -> M B) s :
  Status_Reinstall (CI_Status s) = Some rs ->
  (left_of rs (Cond_Type c) c = 0 -> ends P R (f false) s) ->
  (forall t, left_of rs (Cond_Type c) c = 1 -> ends P R (f true) (with_reinstall (with_condition t c rs) s)) ->
  ends P R (setReinstallStatusCondition c ≫= f) s.
Proof.
  intros Hrs Hsame Hset w Hw. unfold setReinstallStatusCondition. apply wp_bind, wp_bind, wp_get. rewrite Hrs.
  apply wp_bind, wp_Now. intros t w1 Ht. destruct (steady_clock w Hw) as [_ Hw1]. rewrite Ht in Hw1. simpl in Hw1.
  apply wp_bind, wp_modify, wp_ret. cbn [app].
  destruct (condition_changes (RS_Conditions rs) c) eqn:Hc.
  - apply Hset; [|done]. by apply changes_differs.
  - destruct (condition_kept t _ _ Hc) as [Heq _]. rewrite Heq.
    replace (rs <| RS_Conditions := RS_Conditions rs |>) with rs by (by destruct rs).
    rewrite (assign_same s rs Hrs). apply Hsame; [|done].
    assert (Hd : left_of rs (Cond_Type c) c <> 1) by (rewrite <-changes_differs, Hc; done).
    revert Hd. unfold differs. destruct (FindStatusCondition _ _); [|done]. by destruct (_ && _)%bool.
Qed.

(** What a step of a request leaves as it is. *)
Definition moved (s s' : ClusterInstance) (rs rs' : ReinstallStatus) : Prop :=
  CI_Spec s' = CI_Spec s /\ CI_Meta s' = CI_Meta s /\ ok s'
  /\ Status_Reinstall (CI_Status s') = Some rs'
  /\ RS_ObservedGeneration rs' = RS_ObservedGeneration rs
  /\ RS_InProgressGeneration rs' = RS_InProgressGeneration rs
  /\ FindStatusCondition (RS_Conditions rs') ReinstallRequestProcessed
     = FindStatusCondition (RS_Conditions rs) ReinstallRequestProcessed.

Lemma moved_condition t c s rs :
  ok s -> Cond_Type c <> ReinstallRequestProcessed ->
  moved s (with_reinstall (with_condition t c rs) s) rs (with_condition t c rs).
Proof.
  intros Hok Hc. repeat split; [done|]. simpl. destruct (find_set t (RS_Conditions rs) c ReinstallRequestProcessed) as [lt ->].
  destruct (String.eqb_spec ReinstallRequestProcessed (Cond_Type c)); [congruence|done].
Qed.

Lemma moved_trans s1 s2 s3 rs1 rs2 rs3 : moved s1 s2 rs1 rs2 -> moved s2 s3 rs2 rs3 -> moved s1 s3 rs1 rs3.
Proof. unfold moved. intros (?&?&?&?&?&?&?) (?&?&?&?&?&?&?). split_and!; congruence. Qed.

(** A task has nothing to do, or it takes the request one step further. *)
Definition task_outcome (s : ClusterInstance) (rs : ReinstallStatus) (r : Result * option error)
    (s' : ClusterInstance) : Prop :=
  (r = (mkResult false 0, None) /\ s' = s)
  \/ exists res rs', r = (res, None) /\ Result_IsZero res = false /\ moved s s' rs rs'
       /\ tasks_left rp rs' < tasks_left rp rs.

(** The condition is there as it should be, whenever it was set. *)
Lemma differs_set t c : differs (Some (c <| Cond_LastTransitionTime := t |>)) c = 0.
Proof. unfold differs. destruct c. simpl. by rewrite !String.eqb_refl, Z.eqb_refl. Qed.

(** The effect of a condition on what is left, by computation on the condition types. *)
Ltac count_left t c :=
  unfold tasks_left, with_condition; simpl;
  repeat match goal with
  | |- context [FindStatusCondition (meta_SetStatusCondition t ?l c) ?u] =>
      let lt := fresh "lt" in destruct (find_set t l c u) as [lt ->]
  end; simpl; rewrite ?differs_set.

(** A step that has been taken: the object has moved on, and less is left. *)
Lemma outcome_moved s s' rs rs' res :
  Result_IsZero res = false -> moved s s' rs rs' -> tasks_left rp rs' < tasks_left rp rs ->
  task_outcome s rs (res, None) s'.
Proof. intros Hz Hm Hl. right. by exists res, rs'. Qed.

Lemma task_validate_ends store s rs :
  GetAllowReinstalls store = true -> ok s -> Status_Reinstall (CI_Status s) = Some rs ->
  ends I (keeping I (task_outcome s rs)) (ensureValidReinstallRequest store) s.
Proof.
  intros Hallow Hok Hrs. unfold ensureValidReinstallRequest. apply ends_get. rewrite Hallow. simpl.
  eapply ends_set; [apply _|done| |]; fold accepted.
  - intros Hd. apply ends_kept. by left.
  - intros t Hd. eapply ends_patch; [exact ob|apply _|]. eapply ends_kept, outcome_moved; [done|by apply moved_condition|].
    count_left t accepted. change (Cond_Type accepted) with ReinstallRequestValidated in Hd. rewrite Hd. lia.
Qed.

Lemma ends_deref_status {B} P (R : B -> ClusterInstance -> W -> Prop) (f : ReinstallStatus -> M B) s rs :
  Status_Reinstall (CI_Status s) = Some rs -> ends P R (f rs) s -> ends P R (deref_reinstall_status ≫= f) s.
Proof. intros Hrs Hf w Hw. unfold deref_reinstall_status. apply wp_bind, wp_bind, wp_get. rewrite Hrs. by apply wp_ret, Hf. Qed.

Lemma ends_deref_spec {B} P (R : B -> ClusterInstance -> W -> Prop) (f : ReinstallSpec -> M B) s spec :
  Spec_Reinstall (CI_Spec s) = Some spec -> ends P R (f spec) s -> ends P R (deref_reinstall_spec ≫= f) s.
Proof. intros Hs Hf w Hw. unfold deref_reinstall_spec. apply wp_bind, wp_bind, wp_get. rewrite Hs. by apply wp_ret, Hf. Qed.

Lemma ends_update_status {B} P (R : B -> ClusterInstance -> W -> Prop) g (f : unit -> M B) s rs :
  Status_Reinstall (CI_Status s) = Some rs -> ends P R (f tt) (with_reinstall (g rs) s) ->
  ends P R (update_reinstall_status g ≫= f) s.
Proof.
  intros Hrs Hf w Hw. apply wp_bind, wp_update_reinstall; [|congruence].
  intros rs0 Hrs0. assert (rs0 = rs) as -> by congruence. by apply Hf.
Qed.

Lemma task_start_ends s rs :
  ok s -> Status_Reinstall (CI_Status s) = Some rs ->
  ends I (keeping I (task_outcome s rs)) ensureStartTimeIsSet s.
Proof.
  intros Hok Hrs. unfold ensureStartTimeIsSet. eapply ends_deref_status; [done|].
  destruct (IsZero (RS_RequestStartTime rs)) eqn:Hz; [|apply ends_kept; by left].
  apply ends_get, ends_Now; [apply _|]. intros t Ht. eapply ends_update_status; [done|].
  eapply ends_patch; [exact ob|apply _|]. eapply ends_kept, outcome_moved; [done|repeat split; exact Hok|].
  unfold tasks_left. simpl. rewrite Ht, Hz. lia.
Qed.

(** ** What preserving has to do *)

Definition same_spec (s0 s : ClusterInstance) : Prop := CI_Spec s = CI_Spec s0 /\ CI_Meta s = CI_Meta s0.

(** In the worlds of [I] the steps that preserve and restore data end well, leave the object alone
    and report [rp]. [B] holds once everything is backed up, [Q] once everything is restored, and
    [F] once the backups have been cleaned up. *)
Record preserving (B Q F : W -> Prop) (s0 : ClusterInstance) (spec : ReinstallSpec) : Prop := {
  pv_spec : Spec_Reinstall (CI_Spec s0) = Some spec;
  pv_B : obliging B absent;
  pv_Q : Steady Q;
  pv_F : Steady F;
  pv_B_I : forall w, B w -> I w;
  pv_Q_I : forall w, Q w -> I w;
  pv_labels : forall s, same_spec s0 s ->
    ends I (keeping I (fun r s' => r = None /\ s' = s))
      (for_errors (clusterInstanceSecrets s) (applyPreservationLabel (Key_Namespace (CI_key s)))) s;
  pv_none : RSpec_PreservationMode spec = PreservationModeNone ->
    rp = mkReport nothing_preserved nothing_preserved nothing_preserved
    /\ (forall w, I w -> B w) /\ (forall w, B w -> Q w);
  pv_backup : RSpec_PreservationMode spec <> PreservationModeNone -> forall s, same_spec s0 s ->
    ends I (keeping B (fun r s' => r = None /\ s' = s)) Backup s;
  pv_backedup : RSpec_PreservationMode spec <> PreservationModeNone -> forall s, same_spec s0 s ->
    ends B (keeping B (fun r s' => r = (backedup_as rp, identity_as rp, None) /\ s' = s)) getDataPreservationSummary s;
  pv_restore : RSpec_PreservationMode spec <> PreservationModeNone -> forall s, same_spec s0 s ->
    ends B (keeping Q (fun r s' => r = None /\ s' = s)) Restore_preserved s;
  pv_restored : RSpec_PreservationMode spec <> PreservationModeNone -> forall s, same_spec s0 s ->
    ends Q (keeping Q (fun r s' => r = (restored_as rp, None) /\ s' = s)) getDataRestorationSummary s;
  pv_cleanup : forall s, same_spec s0 s ->
    ends Q (keeping F (fun r s' => r.2 = None /\ s' = s)) Cleanup s
}.

Context (B Q F : W -> Prop) (s0 : ClusterInstance) (spec : ReinstallSpec) (pv : preserving B Q F s0 spec).

#[local] Instance B_steady : Steady B := ob_steady _ _ (pv_B _ _ _ _ _ pv).
#[local] Instance Q_steady : Steady Q := pv_Q _ _ _ _ _ pv.
#[local] Instance F_steady : Steady F := pv_F _ _ _ _ _ pv.

Lemma spec_of s : same_spec s0 s -> Spec_Reinstall (CI_Spec s) = Some spec.
Proof. intros [-> _]. apply pv. Qed.

Lemma task_labels_ends s rs :
  same_spec s0 s -> ends I (keeping I (task_outcome s rs)) applyPreservedLabelToClusterInstanceSecrets s.
Proof.
  intros Hs. unfold applyPreservedLabelToClusterInstanceSecrets. apply ends_get.
  eapply ends_then; [by apply pv|]. intros r s' [-> ->]. apply ends_kept. by left.
Qed.

Lemma record_preservation_ends s rs :
  ok s -> Status_Reinstall (CI_Status s) = Some rs ->
  ends B (keeping B (task_outcome s rs)) (record_preservation (backedup_as rp) (identity_as rp) None) s.
Proof.
  intros Hok Hrs. unfold record_preservation. apply ends_get. eapply ends_set; [apply _|done| |].
  - intros Hb. change (Cond_Type (backedup_as rp)) with ReinstallPreservationDataBackedup in Hb.
    eapply ends_set; [apply _|done| |]; simpl.
    + intros Hd. apply ends_kept. by left.
    + intros t Hd. eapply ends_patch; [exact ob|apply _|].
      eapply ends_kept, outcome_moved; [done|by apply moved_condition|].
      count_left t (identity_as rp). rewrite Hb, Hd. simpl. lia.
  - intros t Hb. change (Cond_Type (backedup_as rp)) with ReinstallPreservationDataBackedup in Hb.
    assert (Hm := moved_condition t (backedup_as rp) s rs Hok ltac:(done)).
    eapply ends_set; [apply _|done| |]; simpl.
    + intros Hd. eapply ends_patch; [exact ob|apply _|]. eapply ends_kept, outcome_moved; [done|exact Hm|].
      destruct (find_set t (RS_Conditions rs) (backedup_as rp) ReinstallClusterIdentityDataDetected) as [lt Hf].
      simpl in Hf. rewrite Hf in Hd. count_left t (backedup_as rp). rewrite Hb, Hd. simpl. lia.
    + intros t' Hd. eapply ends_patch; [exact ob|apply _|]. eapply ends_kept, outcome_moved; [done| |].
      * eapply moved_trans; [exact Hm|]. apply moved_condition; [|done]. by destruct Hm as (_ & _ & ? & _).
      * unfold tasks_left at 1. simpl.
        repeat match goal with
        | |- context [FindStatusCondition (meta_SetStatusCondition t' ?l (identity_as rp)) ?u] =>
            let lt := fresh "lt" in destruct (find_set t' l (identity_as rp) u) as [lt ->]
        end. simpl. rewrite differs_set. count_left t (backedup_as rp). rewrite Hb. lia.
Qed.

Lemma task_preserve_ends s rs :
  same_spec s0 s -> ok s -> Status_Reinstall (CI_Status s) = Some rs ->
  ends I (keeping B (task_outcome s rs)) ensureDataIsPreserved s.
Proof.
  intros Hs Hok Hrs. unfold ensureDataIsPreserved. eapply ends_deref_spec; [by apply spec_of|].
  pose proof (record_preservation_ends s rs Hok Hrs) as Hrecord.
  destruct (String.eqb_spec (RSpec_PreservationMode spec) PreservationModeNone) as [Hmode|Hmode].
  - destruct (pv_none _ _ _ _ _ pv Hmode) as (-> & HB & _). intros w Hw. by apply Hrecord, HB.
  - unfold if_err. eapply ends_bind; [by apply (pv_backup _ _ _ _ _ pv)|].
    intros r s' w [[-> ->] Hw]. revert w Hw. eapply ends_bind; [by apply (pv_backedup _ _ _ _ _ pv)|].
    intros r s' w [[-> ->] Hw]. by apply Hrecord.
Qed.

Lemma record_restoration_ends s rs :
  ok s -> Status_Reinstall (CI_Status s) = Some rs ->
  ends Q (keeping Q (task_outcome s rs)) (record_restoration (restored_as rp) None) s.
Proof.
  intros Hok Hrs. unfold record_restoration. apply ends_get. eapply ends_set; [apply _|done| |].
  - intros Hd. apply ends_kept. by left.
  - intros t Hd. eapply ends_patch; [exact ob|apply _|]. eapply ends_kept, outcome_moved; [done|by apply moved_condition|].
    count_left t (restored_as rp).
    change (Cond_Type (restored_as rp)) with ReinstallPreservationDataRestored in Hd. rewrite Hd. lia.
Qed.

Lemma task_restore_ends s rs :
  same_spec s0 s -> ok s -> Status_Reinstall (CI_Status s) = Some rs ->
  ends B (keeping Q (task_outcome s rs)) ensurePreservedDataIsRestored s.
Proof.
  intros Hs Hok Hrs. unfold ensurePreservedDataIsRestored. eapply ends_deref_spec; [by apply spec_of|].
  pose proof (record_restoration_ends s rs Hok Hrs) as Hrecord.
  destruct (String.eqb_spec (RSpec_PreservationMode spec) PreservationModeNone) as [Hmode|Hmode].
  - destruct (pv_none _ _ _ _ _ pv Hmode) as (-> & _ & HQ). intros w Hw. by apply Hrecord, HQ.
  - unfold if_err. eapply ends_bind; [by apply (pv_restore _ _ _ _ _ pv)|].
    intros r s' w [[-> ->] Hw]. revert w Hw. eapply ends_bind; [by apply (pv_restored _ _ _ _ _ pv)|].
    intros r s' w [[-> ->] Hw]. by apply Hrecord.
Qed.

(** Recording a condition of the deletion that says something else than before. *)
Lemma record_deletion_ends patch c result s rs :
  ok s -> Status_Reinstall (CI_Status s) = Some rs ->
  Cond_Type c = ReinstallRenderedManifestsDeleted ->
  left_of rs ReinstallRenderedManifestsDeleted c = 1 ->
  deletion_left (Some c) < deletion_left (FindStatusCondition (RS_Conditions rs) ReinstallRenderedManifestsDeleted) ->
  ends B (keeping B (task_outcome s rs)) (record_deletion patch (Some c) result None) s.
Proof.
  intros Hok Hrs Hc Hd Hless. unfold record_deletion. eapply ends_set; [apply _|done| |]; rewrite Hc, Hd; [done|].
  intros t _. cbv beta iota. eapply ends_patch; [exact ob|apply _|].
  eapply ends_kept, outcome_moved; [by destruct result as [[] ?]|apply moved_condition; by rewrite ?Hc|].
  unfold tasks_left, with_condition. simpl.
  repeat match goal with
  | |- context [FindStatusCondition (meta_SetStatusCondition t ?l c) ?u] =>
      let lt := fresh "lt" in destruct (find_set t l c u) as [lt ->]
  end. rewrite Hc. simpl. simpl in Hless. lia.
Qed.

(** The manifests that are gone have been forgotten on the way. *)
Lemma outcome_after ms s rs r s' :
  Result_IsZero r.1 = false -> task_outcome (with_manifests ms s) rs r s' -> task_outcome s rs r s'.
Proof. intros Hz [[-> _]|(res & rs' & -> & _ & Hm & Hl)]; [done|]. by eapply outcome_moved. Qed.

Lemma record_deletion_zero patch c result s rs :
  Status_Reinstall (CI_Status s) = Some rs -> left_of rs (Cond_Type c) c = 1 ->
  ends B (keeping B (fun r _ => Result_IsZero r.1 = false)) (record_deletion patch (Some c) result None) s.
Proof.
  intros Hrs Hd. unfold record_deletion. eapply ends_set; [apply _|done| |]; rewrite Hd; [done|].
  intros t _. cbv beta iota. eapply ends_patch; [exact ob|apply _|]. apply ends_kept. by destruct result as [[] ?].
Qed.

Lemma task_delete_ends s rs :
  ok s -> Status_Reinstall (CI_Status s) = Some rs ->
  ends B (keeping B (task_outcome s rs)) ensureRenderedManifestsAreDeleted s.
Proof.
  intros Hok Hrs. unfold ensureRenderedManifestsAreDeleted. apply ends_get.
  destruct (getManagedCluster_ok absent s Hok) as [mc Hmc]. eapply ends_outcome; [exact Hmc|]. cbv beta iota.
  unfold findReinstallStatusCondition. rewrite Hrs.
  set (started := reinstallRenderedManifestsDeletedConditionStatus ConditionFalse InProgress _).
  assert (Hstart : forall found, FindStatusCondition (RS_Conditions rs) ReinstallRenderedManifestsDeleted = found ->
    deletion_left found = 2 ->
    ends B (keeping B (task_outcome s rs)) (record_deletion s (Some started) (mkResult false 0) None) s).
  { intros found Hf Hl. apply record_deletion_ends; try done.
    - rewrite Hf. destruct found as [c|]; [|done]. simpl in Hl. unfold differs.
      destruct (String.eqb_spec (Cond_Reason c) Initialized) as [->|]; [by rewrite andb_false_r|].
      by destruct (_ || _)%bool.
    - rewrite Hf, Hl. simpl. lia. }
  destruct (FindStatusCondition (RS_Conditions rs) ReinstallRenderedManifestsDeleted) as [cond|] eqn:Hf; [|by apply (Hstart None)].
  destruct (String.eqb (Cond_Reason cond) Initialized) eqn:Hi.
  { apply (Hstart (Some cond)); [done|]. simpl. by rewrite Hi. }
  assert (Htype := proj2 (Find_Some _ _ _ Hf)).
  destruct (String.eqb (Cond_Reason cond) Failed || String.eqb (Cond_Reason cond) Completed)%bool eqn:Hdone.
  { unfold record_deletion. eapply ends_set; [apply _|done| |]; rewrite Htype, Hf.
    - intros _. apply ends_kept. by left.
    - intros t. unfold differs. by rewrite !String.eqb_refl, Z.eqb_refl. }
  eapply ends_then; [by apply (ends_DeleteRenderedObjects B absent (pv_B _ _ _ _ _ pv))|]. intros r s' [-> (ms & -> & Hms)]. cbn [negb].
  set (deleted := reinstallRenderedManifestsDeletedConditionStatus ConditionTrue Completed _).
  assert (Hd : left_of rs ReinstallRenderedManifestsDeleted deleted = 1).
  { rewrite Hf. unfold differs. apply orb_false_iff in Hdone as [_ Hc]. simpl. rewrite Hc. by rewrite andb_false_r. }
  intros w Hw. eapply wp_mono; [apply wp_and|].
  - apply (record_deletion_ends s deleted (mkResult false 0) (with_manifests ms s) rs); try done.
    rewrite Hf. simpl. rewrite Hi, Hdone. lia.
  - by apply (record_deletion_zero s deleted (mkResult false 0) (with_manifests ms s) rs).
  - intros [r|msg] s' w' ev [H1' H2']; [|done]. destruct H1' as [Ho Hw'], H2' as [Hz _].
    split; [by eapply outcome_after|done].
Qed.

(** ** One run *)

Definition in_progress (p : processing) : Prop :=
  pr_err p = None /\ pr_setEndtime p = false /\ pr_applyPause p = false
  /\ exists message, pr_condition p = reinstallRequestProcessedConditionStatus ConditionFalse InProgress message.

Definition left_early (s : ClusterInstance) (rs : ReinstallStatus) (p : processing) (s' : ClusterInstance) : Prop :=
  in_progress p /\ exists rs', moved s s' rs rs' /\ tasks_left rp rs' < tasks_left rp rs.

Lemma run_task_ends P P' (t : task (W := W)) s rs :
  ends P (keeping P' (task_outcome s rs)) (task_Run t) s ->
  ends P (keeping P' (fun r s' => (r = inl tt /\ s' = s) \/ exists p, r = inr p /\ left_early s rs p s')) (run_task t tt) s.
Proof.
  intros Ht. unfold run_task. eapply ends_bind; [exact Ht|].
  intros r s' w [[(-> & ->)|(res & rs' & -> & Hz & Hm & Hl)] Hw]; simpl.
  - apply wp_ret. split; [by left|done].
  - rewrite Hz. apply wp_ret. split; [right|done]. eexists. split; [done|]. split; [|by exists rs'].
    split_and!; try done. by eexists.
Qed.

(** The tasks all have nothing to do, which takes the world from [P] to [Q], or one of them has
    taken the request further. *)
Definition through (P : W -> Prop) (l : list (task (W := W))) (s : ClusterInstance) (rs : ReinstallStatus) : Prop :=
  ends P (fun r s' w => (r = inl tt /\ s' = s /\ Q w) \/ exists p, r = inr p /\ left_early s rs p s' /\ I w)
    (for_range l tt run_task) s.

Lemma through_nil s rs : through Q [] s rs.
Proof. apply ends_ret. intros w Hw. by left. Qed.

Lemma through_cons P P' t l s rs :
  (forall w, P' w -> I w) -> ends P (keeping P' (task_outcome s rs)) (task_Run t) s ->
  through P' l s rs -> through P (t :: l) s rs.
Proof.
  intros HI Ht Hl. unfold through. cbn [for_range]. eapply ends_bind; [by apply (run_task_ends P P')|].
  intros r s' w [[[-> ->]|(p & -> & Hp)] Hw]; [by apply Hl|]. apply wp_ret. right. exists p.
  split_and!; [done|done|by apply HI].
Qed.

(** The report of a run that has not failed: the object with the condition of the request. *)
Lemma finish_ends P `{!Steady P} p s rs :
  pr_err p = None -> pr_setEndtime p = false -> pr_applyPause p = false ->
  Cond_Type (pr_condition p) = ReinstallRequestProcessed -> Status_Reinstall (CI_Status s) = Some rs ->
  ends P (keeping P (fun r s' => r.2 = None /\ exists rs' c, s' = with_reinstall rs' s
      /\ tasks_left rp rs' = tasks_left rp rs
      /\ RS_ObservedGeneration rs' = RS_ObservedGeneration rs
      /\ RS_InProgressGeneration rs' = RS_InProgressGeneration rs
      /\ FindStatusCondition (RS_Conditions rs') ReinstallRequestProcessed = Some c
      /\ Cond_Status c = Cond_Status (pr_condition p) /\ Cond_Reason c = Cond_Reason (pr_condition p)))
    (finishProcessing p) s.
Proof.
  intros Herr Hend Hpause Htype Hrs. unfold finishProcessing. rewrite Herr, Hend, Hpause. cbn [andb].
  apply ends_get. eapply ends_then with (R1 := fun _ s' => s' = s); [by apply ends_kept|]. intros _ s' ->.
  set (c := pr_condition p) in *. eapply ends_set; [apply _|done| |]; rewrite Htype.
  - intros Hd. cbn [orb]. eapply ends_then with (R1 := fun r s' => r = None /\ s' = s); [by apply ends_kept|].
    intros r s' [-> ->]. apply ends_kept. split; [done|]. unfold differs in Hd.
    destruct (FindStatusCondition (RS_Conditions rs) ReinstallRequestProcessed) as [e|] eqn:Hf; [|done].
    exists rs, e. split; [symmetry; by apply assign_same|]. split_and!; try done; revert Hd.
    all: by destruct (String.eqb_spec (Cond_Status e) (Cond_Status c)), (String.eqb_spec (Cond_Reason e) (Cond_Reason c)).
  - intros t _. cbn [orb]. eapply ends_patch; [exact ob|apply _|]. apply ends_kept. split; [done|].
    destruct (find_set t (RS_Conditions rs) c ReinstallRequestProcessed) as [lt Hf].
    rewrite Htype, String.eqb_refl in Hf.
    eexists _, _. split; [reflexivity|]. split; [|split_and!; [done|done|exact Hf|done|done]].
    unfold tasks_left, with_condition. simpl.
    repeat match goal with
    | |- context [FindStatusCondition (meta_SetStatusCondition t ?l c) ?u] =>
        destruct (find_set t l c u) as [? ->]
    end. rewrite Htype. simpl. lia.
Qed.

(** The last-observed spec can be read. *)
Definition spec_readable (s : ClusterInstance) : Prop := exists diff, computeClusterInstanceSpecDiff s = Ok diff.

Lemma finalize_ends s rs :
  same_spec s0 s -> spec_readable s -> Status_Reinstall (CI_Status s) = Some rs ->
  ends Q (keeping F (fun r s' => r = None /\ exists rs', s' = with_reinstall rs' s /\ closed (RSpec_Generation spec) rs rs'))
    finalizeReinstallRequest s.
Proof.
  intros Hs [diff Hdiff] Hrs. unfold finalizeReinstallRequest.
  eapply ends_bind; [by apply pv|]. intros [b err] s' w [[Herr ->] Hw]. simpl in Herr. subst err. revert w Hw.
  apply ends_get. rewrite Hdiff. apply ends_get. eapply ends_deref_status; [done|].
  eapply ends_deref_spec; [by apply spec_of|]. apply ends_Now; [apply _|]. intros t _.
  pose proof (finalized_closed t (RSpec_Generation spec) diff rs) as Hclosed.
  destruct (finalized_status t (RSpec_Generation spec) diff rs) as [rs' update]. simpl in Hclosed.
  apply ends_modify. destruct update; [eapply ends_patch; [exact ob|apply _|]|]; apply ends_kept; (split; [done|by exists rs']).
Qed.

Lemma tasks_all_end store s rs :
  GetAllowReinstalls store = true -> same_spec s0 s -> ok s -> Status_Reinstall (CI_Status s) = Some rs ->
  through I (tasks store) s rs.
Proof.
  intros Hallow Hs Hok Hrs. unfold tasks.
  apply through_cons with (P' := I); [done|by apply task_validate_ends|].
  apply through_cons with (P' := I); [done|by apply task_start_ends|].
  apply through_cons with (P' := I); [done|by apply task_labels_ends|].
  apply through_cons with (P' := B); [by apply (pv_B_I _ _ _ _ _ pv)|by apply task_preserve_ends|].
  apply through_cons with (P' := B); [by apply (pv_B_I _ _ _ _ _ pv)|by apply task_delete_ends|].
  apply through_cons with (P' := Q); [by apply (pv_Q_I _ _ _ _ _ pv)|by apply task_restore_ends|].
  apply through_nil.
Qed.

(** The request is closed and says so. *)
Definition finished (generation : string) (ci : ClusterInstance) : Prop :=
  (exists rs, Status_Reinstall (CI_Status ci) = Some rs /\ RS_ObservedGeneration rs = generation
     /\ RS_InProgressGeneration rs = "")
  /\ recorded ci ReinstallRequestProcessed ConditionTrue Completed.

(** The runs a request still needs. *)
Definition runs_left (ci : ClusterInstance) : nat :=
  match Status_Reinstall (CI_Status ci) with
  | None => 9
  | Some rs =>
      match FindStatusCondition (RS_Conditions rs) ReinstallRequestProcessed with
      | None => 9
      | Some c =>
          if isNewRequest ci spec then 9
          else if String.eqb (Cond_Reason c) Initialized then 8 else S (tasks_left rp rs)
      end
  end.

Lemma runs_left_bound ci : runs_left ci <= 9.
Proof. unfold runs_left. repeat case_goal; try lia. apply le_n_S. etransitivity; [apply tasks_left_bound|lia]. Qed.

Lemma runs_left_pos ci : 0 < runs_left ci.
Proof. unfold runs_left. repeat case_goal; lia. Qed.

(** What a run leaves of a request that is not processed. *)
Definition advanced (n : nat) (s s' : ClusterInstance) (w : W) : Prop :=
  CI_Spec s' = CI_Spec s /\ CI_Meta s' = CI_Meta s /\ ok s'
  /\ (finished (RSpec_Generation spec) s' /\ F w
      \/ (isRequestProcessed s' spec = false /\ runs_left s' < n) /\ I w).

(** A request that is under way, in the state [rs]. *)
Lemma under_way n s s' rs c w :
  CI_Spec s' = CI_Spec s -> CI_Meta s' = CI_Meta s -> ok s' -> I w ->
  Status_Reinstall (CI_Status s') = Some rs -> RS_ObservedGeneration rs <> RSpec_Generation spec ->
  RS_InProgressGeneration rs = RSpec_Generation spec ->
  FindStatusCondition (RS_Conditions rs) ReinstallRequestProcessed = Some c ->
  Cond_Reason c = Initialized /\ 8 < n \/ Cond_Reason c = InProgress /\ S (tasks_left rp rs) < n ->
  advanced n s s' w.
Proof.
  intros Hs Hm Hok Hw Hrs Hobs Hgen Hf Hn. split_and!; try done. right. split; [|done].
  unfold isRequestProcessed, runs_left, isNewRequest. rewrite Hrs, Hf, Hgen, String.eqb_refl. cbn [negb].
  destruct (String.eqb_spec (RS_ObservedGeneration rs) (RSpec_Generation spec)); [done|].
  destruct Hn as [[-> Hn]|[-> Hn]]; simpl; by rewrite !andb_false_r.
Qed.

(** With the tasks running. *)
Lemma running_ends store s rs :
  GetAllowReinstalls store = true -> same_spec s0 s -> ok s -> spec_readable s ->
  Status_Reinstall (CI_Status s) = Some rs ->
  RS_ObservedGeneration rs <> RSpec_Generation spec -> RS_InProgressGeneration rs = RSpec_Generation spec ->
  ends I (fun r s' w => r.2 = None /\ advanced (S (tasks_left rp rs)) s s' w)
    (p ← run_tasks (tasks store); finishProcessing p) s.
Proof.
  intros Hallow Hs Hok Hdiff Hrs Hobs Hgen. unfold run_tasks.
  set (completed := mkProcessing (mkResult false 0) None (reinstallRequestProcessedConditionStatus ConditionTrue
    Completed "The reinstall process completed successfully and the cluster is ready to be reprovisioned.") false false).
  eapply ends_bind with (R1 := fun p s' w => left_early s rs p s' /\ I w
    \/ p = completed /\ (exists rs', s' = with_reinstall rs' s /\ closed (RSpec_Generation spec) rs rs') /\ F w).
  { eapply ends_bind; [by apply tasks_all_end|]. intros r s' w [(-> & -> & Hw)|(p & -> & Hp & Hw)].
    - revert w Hw. eapply ends_bind; [by apply finalize_ends|]. intros r s' w [(-> & Hc) Hw].
      apply wp_ret. by right.
    - apply wp_ret. by left. }
  intros p s' w [[(Hp & rs' & Hm & Hl) Hw]|(-> & (rs' & -> & Hc) & Hw)]; revert w Hw.
  - destruct Hp as (Herr & Hend & Hpause & msg & Hcond).
    destruct Hm as (Hs' & Hme & Hok' & Hrs' & Hobs' & Hgen' & _).
    eapply ends_mono; [apply (finish_ends I p s' rs'); try done; by rewrite Hcond|].
    intros r s'' w [(Hr & rs'' & c & -> & Hleft & Hobs'' & Hgen'' & Hf & _ & Hreason) Hw]. split; [done|].
    eapply under_way; [exact Hs'|exact Hme|exact Hok'|done|reflexivity|congruence|congruence|exact Hf|].
    right. rewrite Hreason, Hcond. split; [done|]. lia.
  - destruct Hc as (Hobs' & Hin & _).
    eapply ends_mono; [by apply (finish_ends F completed _ rs')|].
    intros r s'' w [(Hr & rs'' & c & -> & Hleft & Hobs'' & Hgen'' & Hf & Hstatus & Hreason) Hw]. split; [done|].
    split_and!; [done|done|exact Hok|]. left. split; [|done]. split.
    + exists rs''. split; [done|]. by rewrite Hobs'', Hgen''.
    + exists c. by unfold findReinstallStatusCondition.
Qed.

Lemma find_set_all now l new u c :
  c ∈ new -> Cond_Type c = u -> NoDup (List.map Cond_Type new) ->
  exists t, FindStatusCondition (set_all now l new).1 u = Some (c <| Cond_LastTransitionTime := t |>).
Proof.
  unfold set_all. intros Hc Hu Hnd. generalize false. intros b. revert l b.
  assert (Hother : forall new l b, u ∉ List.map Cond_Type new ->
    FindStatusCondition (fold_left (fun '(conds, changed) c => (meta_SetStatusCondition now conds c,
      changed || condition_changes conds c)) new (l, b)).1 u = FindStatusCondition l u).
  { induction new0 as [|x new0 IH]; intros l b Hin; [done|]. cbn [fold_left]. simpl in Hin. rewrite IH by set_solver.
    destruct (find_set now l x u) as [t ->]. destruct (String.eqb_spec u (Cond_Type x)); [set_solver|done]. }
  induction new as [|x new IH]; intros l b; [by apply not_elem_of_nil in Hc|].
  apply NoDup_cons in Hnd as [Hx Hnd]. cbn [fold_left]. apply elem_of_cons in Hc as [->|Hc]; [|by apply IH].
  rewrite Hother by (by rewrite <-Hu). destruct (find_set now l x u) as [t ->]. rewrite <-Hu, String.eqb_refl. by exists t.
Qed.

(** The status a request starts from. *)
Lemma initial_under_way s t rs update w :
  ok s -> I w -> isRequestProcessed s spec = false -> RSpec_Generation spec <> "" ->
  initial_reinstall_status t (RSpec_Generation spec) (Status_Reinstall (CI_Status s)) = (rs, update) ->
  advanced 9 s (with_reinstall rs s) w.
Proof.
  intros Hok Hw Hproc Hgen Hi. unfold initial_reinstall_status in Hi. set (old := match _ with None => _ | Some rs => rs end) in Hi.
  assert (Hobs : RS_ObservedGeneration old <> RSpec_Generation spec).
  { subst old. unfold isRequestProcessed in Hproc. destruct (Status_Reinstall (CI_Status s)) as [old|]; simpl; [|congruence].
    by destruct (String.eqb_spec (RS_ObservedGeneration old) (RSpec_Generation spec)). }
  clearbody old. destruct (set_all _ _ _) as [conds changed] eqn:Hset. injection Hi as <- _.
  destruct (find_set_all t (RS_Conditions (if negb (String.eqb (RS_InProgressGeneration old) (RSpec_Generation spec))
      then old <| RS_InProgressGeneration := RSpec_Generation spec |> <| RS_Conditions := [] |> else old))
    (List.map (initial_condition t) reinstallConditionTypes) ReinstallRequestProcessed
    (initial_condition t ReinstallRequestProcessed)) as [lt Hf]; [by left|done| |].
  { apply (bool_decide_eq_true_1 _). vm_compute. reflexivity. }
  change (RS_Conditions (?x <| RS_RequestStartTime := _ |> <| RS_RequestEndTime := _ |>)) with (RS_Conditions x) in Hset.
  rewrite Hset in Hf. simpl in Hf.
  eapply under_way; [done|done|exact Hok|done|reflexivity| | |exact Hf|left; simpl; split; [done|lia]];
    simpl; by destruct (String.eqb_spec (RS_InProgressGeneration old) (RSpec_Generation spec)).
Qed.

Lemma init_ends s :
  same_spec s0 s -> ok s -> RSpec_Generation spec <> "" -> isRequestProcessed s spec = false ->
  ends I (fun r s' w => r.2 = None /\ advanced 9 s s' w)
    (if_err initializeReinstallStatus (fun err => mret (mkResult false 0, Some err)) (mret (mkResult true 0, None))) s.
Proof.
  intros Hs Hok Hgen Hproc. unfold if_err.
  eapply ends_bind with (R1 := fun r s' w => r = None /\ advanced 9 s s' w); [|intros r s' w [-> Ha]; by apply wp_ret].
  unfold initializeReinstallStatus. apply ends_Now; [apply _|]. intros t _. apply ends_get.
  eapply ends_deref_spec; [by apply spec_of|].
  destruct (initial_reinstall_status t (RSpec_Generation spec) (Status_Reinstall (CI_Status s))) as [rs update] eqn:Hi.
  apply ends_modify. destruct update; [eapply ends_patch; [exact ob|apply _|]|]; apply ends_ret; intros w Hw;
    (split; [done|by eapply initial_under_way]).
Qed.

Lemma ProcessRequest_ends store s :
  GetAllowReinstalls store = true -> same_spec s0 s -> ok s -> spec_readable s ->
  RSpec_Generation spec <> "" -> isRequestProcessed s spec = false ->
  ends I (fun r s' w => r.2 = None /\ advanced (runs_left s) s s' w) (ProcessRequest store) s.
Proof.
  intros Hallow Hs Hok Hdiff Hgen Hproc. unfold ProcessRequest. apply ends_get. rewrite (spec_of s Hs), Hproc.
  assert (Hinit := init_ends s Hs Hok Hgen Hproc). unfold findReinstallStatusCondition, runs_left.
  destruct (Status_Reinstall (CI_Status s)) as [rs|] eqn:Hrs; [|exact Hinit].
  destruct (FindStatusCondition (RS_Conditions rs) ReinstallRequestProcessed) as [c|] eqn:Hf; [|exact Hinit].
  destruct (isNewRequest s spec) eqn:Hnew; [exact Hinit|].
  unfold isNewRequest in Hnew. rewrite Hrs in Hnew. apply negb_false_iff, String.eqb_eq in Hnew.
  assert (Hobs : RS_ObservedGeneration rs <> RSpec_Generation spec).
  { intros Heq. unfold isRequestProcessed in Hproc. by rewrite Hrs, Heq, String.eqb_refl in Hproc. }
  destruct (String.eqb_spec (Cond_Reason c) Initialized) as [Hi|]; [|by apply running_ends].
  apply ends_get, ends_Now; [apply _|]. intros t Ht. eapply ends_update_status; [done|].
  set (rs1 := rs <| RS_RequestStartTime := t |>). set (new := reinstallRequestProcessedConditionStatus _ _ _).
  assert (Hstart : forall t0, ends I (fun r s' w => r.2 = None /\ advanced 8 s s' w)
    (updateErr ← PatchCIStatus s; mret (match updateErr with
       | Some u => (mkResult false 0, Some (logAndWrapUpdateFailure None u (condition_failure new)))
       | None => (mkResult true 0, None)
       end)) (with_reinstall (with_condition t0 new rs1) (with_reinstall rs1 s))).
  { intros t0. eapply ends_patch; [exact ob|apply _|]. apply ends_ret. intros w Hw. split; [done|].
    destruct (find_set t0 (RS_Conditions rs1) new ReinstallRequestProcessed) as [lt Hf'].
    eapply under_way; [done|done|exact Hok|done|reflexivity|done|done|exact Hf'|]. right. split; [done|].
    apply le_n_S, le_n_S, tasks_left_bound. }
  eapply ends_set; [apply _|reflexivity| |by intros t0].
  change (Cond_Type new) with ReinstallRequestProcessed. change (RS_Conditions rs1) with (RS_Conditions rs).
  rewrite Hf. unfold differs. rewrite Hi. simpl. by rewrite andb_false_r.
Qed.

(** ** The runs of a request *)

(** A run of [ProcessRequest] on what the run before has left. *)
Definition next_run (store : Configuration) (x : ClusterInstance * W) : ClusterInstance * W :=
  let run := ProcessRequest store x.1 x.2 in (run_mem run, run_world run).

Definition succeeds (store : Configuration) (x : ClusterInstance * W) : Prop :=
  exists result, run_out (ProcessRequest store x.1 x.2) = Ret (result, None).

(** What the run with the number [k] begins with: before each run the rest of the world has
    changed as [env] says. *)
Fixpoint before_run (store : Configuration) (env : nat -> W -> W) (k : nat) (x : ClusterInstance * W)
    : ClusterInstance * W :=
  match k with
  | 0 => (x.1, env 0 x.2)
  | S k => before_run store (fun i => env (S i)) k (next_run store (x.1, env 0 x.2))
  end.

Lemma requests_finish store n (env : nat -> W -> W) x :
  (forall i w, I w -> I (env i w)) -> I x.2 ->
  GetAllowReinstalls store = true -> same_spec s0 x.1 -> ok x.1 -> spec_readable x.1 ->
  RSpec_Generation spec <> "" -> isRequestProcessed x.1 spec = false -> runs_left x.1 <= S n ->
  exists k, k <= n
    /\ (let y := next_run store (before_run store env k x) in finished (RSpec_Generation spec) y.1 /\ F y.2)
    /\ forall i, i <= k -> succeeds store (before_run store env i x).
Proof.
  revert env x. induction n as [|n IH]; intros env x Henv Hw Hallow Hs Hok Hdiff Hgen Hproc Hn.
  all: pose proof (ProcessRequest_ends store x.1 Hallow Hs Hok Hdiff Hgen Hproc _ (Henv 0 _ Hw)) as Hrun.
  all: unfold wp in Hrun.
  all: destruct (run_out (ProcessRequest store x.1 (env 0 x.2))) as [[result err]|] eqn:Hout; [|done].
  all: destruct Hrun as (Herr & Hspec' & Hmeta' & Hok' & Hnext); simpl in Herr; subst err.
  all: assert (Hsucc : succeeds store (before_run store env 0 x)) by (by exists result).
  all: destruct Hnext as [[Hfin HF]|[[Hproc' Hless] HI]];
    [exists 0; split; [lia|]; split; [exact (conj Hfin HF)|]; intros i Hi; by assert (i = 0) as -> by lia|].
  { pose proof (runs_left_pos (run_mem (ProcessRequest store x.1 (env 0 x.2)))). lia. }
  destruct (IH (fun i => env (S i)) (next_run store (x.1, env 0 x.2))) as (k & Hk & Hfin & Hall);
    unfold next_run; cbn [fst snd]; try done.
  - intros i w. apply Henv.
  - destruct Hs. split; congruence.
  - unfold spec_readable, computeClusterInstanceSpecDiff. by rewrite Hspec', Hmeta'.
  - lia.
  - exists (S k). split; [lia|]. split; [exact Hfin|].
    intros [|i] Hi; [done|]. apply Hall. lia.
Qed.
End progress.

(** ** Example *)

(** A hub that stores what it is sent and on which nothing else exists. *)
Definition bare_serve {R} (c : ApiCall R) : R :=
  match c in ApiCall R return R with
  | GetCI _ => Err (not_found "ClusterInstance")
  | PatchCI _ new => Ok new
  | StatusPatchCI _ new => Ok new
  | StatusUpdateCI new => Ok new
  | GetResource kind _ => Err (not_found kind)
  | ListResources _ _ _ => Ok []
  | CreateResource r => Ok r
  | UpdateResource r => Ok r
  | PatchResource _ new => Ok new
  | DeleteResource kind _ => Some (not_found kind)
  | GetClusterImageSet _ => Err (not_found "ClusterImageSet")
  | GetClusterDeployment _ => Err (not_found "ClusterDeployment")
  | GetManagedCluster _ => Err (not_found "ManagedCluster")
  | GetManifestWork _ => Err (not_found "ManifestWork")
  | ObjGet _ kind _ => Err (not_found kind)
  | ObjDelete _ kind _ => Some (not_found kind)
  | ObjApply _ _ => None
  | RESTConfigFromKubeConfig _ => None
  | NewSpokeClient _ _ => None
  | SpokeGetNamespace _ => None
  | ApplyToSpoke _ => None
  end.

#[local] Instance bare_server : Server unit := {
  serve := fun R c w => (bare_serve c, w);
  clock := fun w => (100%Z, w)
}.

#[local] Instance no_yaml : ResourceYaml := {|
  Resource_Marshal := fun _ => Ok "yaml";
  Resource_Unmarshal := fun _ _ => Err (ErrorString "yaml")
|}.
#[local] Instance fixed_time : TimeText := {| Format_RFC3339 := fun _ => "2024-01-01T00:00:00Z" |}.
#[local] Instance no_spec_text : SpecText := {| Unmarshal_Spec := fun _ => Err (ErrorString "json") |}.

(** A fresh request on [sno] with two rendered manifests. *)
Definition fresh_request : ClusterInstance :=
  (sno_reinstall node1) <| CI_Status ::= fun s =>
    s <| Status_ManifestsRendered := Status_ManifestsRendered (CI_Status sno_manifests) |> |>.

(** It takes eight runs. *)
Example fresh_request_runs :
  option_map RS_ObservedGeneration (Status_Reinstall (CI_Status
    (Nat.iter 7 (next_run with_reinstalls) (fresh_request, tt)).1)) = Some ""
  /\ option_map RS_ObservedGeneration (Status_Reinstall (CI_Status
    (Nat.iter 8 (next_run with_reinstalls) (fresh_request, tt)).1)) = Some "gen-1".
Proof. vm_compute. done. Qed.
