(* ===== verification/PreservationHub.v ===== *)
(** * Preserving ConfigMaps and Secrets on a hub

    [Backup], [Restore_preserved] and [Cleanup] on the in-memory cluster of [Cluster], which keeps
    what it is sent: which resources there are afterwards, and that nothing fails. *)
From S2P Require Import Prelude GoStd Types Errors Conditions Samples K8s Cluster Retry.
From S2P Require Import Requeue RenderedObject RenderedSpec Deletion Preservation PreservationSpec.
From S2P Require Import Configuration DeletionSpec Reinstall Obliging ReinstallProgress.

(** ** The resources of the cluster *)

Definition rid (r : Resource) : string * ObjectKey := (Res_Kind r, Res_key r).

Definition unique (l : list Resource) : Prop := NoDup (List.map rid l).

Lemma unique_eq l r r' : unique l -> r ∈ l -> r' ∈ l -> rid r = rid r' -> r = r'.
Proof.
  intros Hu. induction l as [|x l IH]; [by intros ?%not_elem_of_nil|].
  apply NoDup_cons in Hu as [Hx Hu]. assert (Hin : forall y, y ∈ l -> rid y ∈ List.map rid l).
  { intros y Hy. by apply list_elem_of_In, in_map, list_elem_of_In. }
  intros [->|Hr]%elem_of_cons [->|Hr']%elem_of_cons Heq; [done| | |by apply IH].
  - destruct Hx. rewrite Heq. by apply Hin.
  - destruct Hx. rewrite <-Heq. by apply Hin.
Qed.

Lemma same_resource_rid r x : same_resource r x = bool_decide (rid x = rid r).
Proof.
  unfold same_resource, rid. destruct (String.eqb_spec (Res_Kind x) (Res_Kind r)) as [Hk|Hk]; simpl.
  - rewrite Hk. apply bool_decide_ext. split; [by intros ->|by intros Heq%(f_equal snd)].
  - symmetry. apply bool_decide_eq_false. by intros Heq%(f_equal fst).
Qed.

Lemma find_resource_spec kind key w :
  match find_resource kind key w with
  | Ok r => r ∈ cl_resources w /\ rid r = (kind, key)
  | Err e => IsNotFound e = true /\ forall r, r ∈ cl_resources w -> rid r <> (kind, key)
  end.
Proof.
  unfold find_resource. destruct (List.find _ _) as [r|] eqn:Hf.
  - apply find_some in Hf as [Hin Hr]. apply andb_prop in Hr as [Hk%String.eqb_eq Hkey%bool_decide_eq_true].
    split; [by apply list_elem_of_In|]. unfold rid. by rewrite Hk, Hkey.
  - split; [done|]. intros r Hr Heq. assert (Hk := f_equal fst Heq). assert (Hkey := f_equal snd Heq). simpl in Hk, Hkey. apply find_none with (x := r) in Hf; [|by apply list_elem_of_In].
    by rewrite Hk, Hkey, String.eqb_refl, bool_decide_true in Hf.
Qed.

Lemma find_resource_at w r :
  unique (cl_resources w) -> r ∈ cl_resources w -> find_resource (Res_Kind r) (Res_key r) w = Ok r.
Proof.
  intros Hu Hr. pose proof (find_resource_spec (Res_Kind r) (Res_key r) w) as Hf.
  destruct (find_resource _ _ _) as [r'|e].
  - destruct Hf as [Hr' Hid]. f_equal. by apply (unique_eq (cl_resources w)).
  - destruct Hf as [_ Hf]. by destruct (Hf r Hr).
Qed.

(** [l'] is [l] with [r] in it, in place of what had its identity. *)
Definition wrote (r : Resource) (l l' : list Resource) : Prop :=
  unique l' /\ forall x, x ∈ l' <-> x = r \/ (x ∈ l /\ rid x <> rid r).

Lemma wrote_new r l : unique l -> (forall x, x ∈ l -> rid x <> rid r) -> wrote r l (r :: l).
Proof.
  intros Hu Hnew. split.
  - apply NoDup_cons. split; [|done]. intros Hin. apply list_elem_of_In, in_map_iff in Hin as (x & Hx & Hin).
    apply (Hnew x); [by apply list_elem_of_In|done].
  - intros x. rewrite elem_of_cons. naive_solver.
Qed.

Lemma wrote_same r l : unique l -> r ∈ l -> wrote r l l.
Proof.
  intros Hu Hr. split; [done|]. intros x. split; [|by intros [->|[? _]]].
  intros Hx. destruct (decide (rid x = rid r)) as [Heq|]; [left; by apply (unique_eq l)|by right].
Qed.

Lemma wrote_set r l :
  unique l -> (exists x, x ∈ l /\ rid x = rid r) ->
  wrote r l (List.map (fun x => if same_resource r x then r else x) l).
Proof.
  intros Hu (y & Hy & Hid). split.
  - unfold unique. rewrite map_map. erewrite map_ext; [exact Hu|]. intros x. rewrite same_resource_rid.
    by case_bool_decide.
  - intros x. rewrite list_elem_of_In, in_map_iff. split.
    + intros (z & Hz & Hin). rewrite same_resource_rid in Hz. case_bool_decide; [by left|]. right.
      subst z. by rewrite list_elem_of_In.
    + intros [->|[Hx Hne]].
      * exists y. rewrite same_resource_rid, bool_decide_true by done. split; [done|by apply list_elem_of_In].
      * exists x. rewrite same_resource_rid, bool_decide_false by done. split; [done|by apply list_elem_of_In].
Qed.

(** Equal in what the operator writes; nil labels are not told from empty ones. *)
Definition alike (a b : Resource) : Prop :=
  rid a = rid b /\ Res_labels a = Res_labels b /\ Res_Annotations a = Res_Annotations b /\ Res_Data a = Res_Data b.

Lemma DeepEqual_alike a b : Resource_DeepEqual a b = true -> alike a b.
Proof.
  unfold Resource_DeepEqual. intros Heq%bool_decide_eq_true. unfold alike, rid, Res_key.
  injection Heq as H1 H2 H3 H4 H5 _ _ _ _ _ _ H6. rewrite H1, H2, H3. by split_and!.
Qed.

Section hub.
Context `{ResourceYaml} `{TimeText}.

Abbreviation M := (Prog ClusterInstance cluster Event).

(** [CreateOrUpdate] leaves the cluster with the resource that [f] makes of the live one, or of
    [obj] when there is none. *)
Lemma CreateOrUpdate_writes (f : Time -> Resource -> Resource) (mutate : Resource -> M Resource) obj s w :
  (forall r, mutate r = (now ← Now; mret (f now r))) ->
  (forall now r, rid (f now r) = rid r) -> unique (cl_resources w) ->
  wp (CreateOrUpdate obj mutate) (fun o s' w' _ =>
    o = Ret None /\ s' = s /\ exists r base l',
      (base = obj /\ (forall x, x ∈ cl_resources w -> rid x <> rid obj)
       \/ base ∈ cl_resources w /\ rid base = rid obj)
      /\ alike r (f (cl_now w) base) /\ wrote r (cl_resources w) l' /\ w' = with_resources l' w) s w.
Proof.
  intros Hmut Hf Hu. unfold CreateOrUpdate. apply wp_bind, wp_call. intros r w1 Hr. simpl in Hr. injection Hr as <- <-.
  pose proof (find_resource_spec (Res_Kind obj) (Res_key obj) w) as Hfind.
  destruct (find_resource (Res_Kind obj) (Res_key obj) w) as [live|err].
  - destruct Hfind as [Hlive Hid]. rewrite Hmut. apply wp_bind, wp_bind, wp_Now. intros now w1 Hnow. simpl in Hnow.
    injection Hnow as <- <-. apply wp_ret. destruct (Resource_DeepEqual live _) eqn:Hdeep.
    + apply wp_ret. split_and!; [done|done|]. apply DeepEqual_alike in Hdeep.
      exists live, live, (cl_resources w). split; [by right|]. split; [done|].
      split; [by apply wrote_same|by destruct w].
    + apply wp_bind, wp_call. intros r w1 Hr. simpl in Hr.
      assert (Hat : exists r0, find_resource (Res_Kind (f (cl_now w) live)) (Res_key (f (cl_now w) live)) w = Ok r0).
      { assert (Hk := f_equal fst (Hf (cl_now w) live)). assert (Hkey := f_equal snd (Hf (cl_now w) live)).
        simpl in Hk, Hkey. rewrite Hk, Hkey. exists live. by apply find_resource_at. }
      destruct Hat as [r0 Hat]. rewrite Hat in Hr. injection Hr as <- <-. apply wp_ret. split_and!; [done|done|].
      eexists (f (cl_now w) live), live, _. split; [by right|]. split; [done|]. split; [|reflexivity].
      apply wrote_set; [done|]. exists live. by rewrite Hf.
  - destruct Hfind as [Hnf Hnone]. rewrite Hnf, Hmut. apply wp_bind, wp_bind, wp_Now. intros now w1 Hnow. simpl in Hnow.
    injection Hnow as <- <-. apply wp_ret, wp_bind, wp_call. intros r w1 Hr. simpl in Hr.
    assert (Hat : exists e, find_resource (Res_Kind (f (cl_now w) obj)) (Res_key (f (cl_now w) obj)) w = Err e).
    { pose proof (find_resource_spec (Res_Kind (f (cl_now w) obj)) (Res_key (f (cl_now w) obj)) w) as Hs.
      destruct (find_resource _ _ _) as [x|e]; [|by exists e]. destruct Hs as [Hx Hid].
      destruct (Hnone x Hx). rewrite Hid. exact (Hf (cl_now w) obj). }
    destruct Hat as [e Hat]. rewrite Hat in Hr. injection Hr as <- <-. apply wp_ret. split_and!; [done|done|].
    eexists (f (cl_now w) obj), obj, _. split; [by left|]. split; [done|]. split; [|reflexivity].
    apply wrote_new; [done|]. intros x Hx. rewrite Hf. by apply Hnone.
Qed.
End hub.

(** ** What is to be preserved *)

(** The kind and the name of a resource, and what of it is preserved. *)
Definition name_of (r : Resource) : string * string := (Res_Kind r, Res_Name r).

Definition content (r : Resource) : smap * smap * smap :=
  (Res_labels r, delete RestoredAtAnnotationKey (Res_Annotations r), Res_Data r).

Definition resource_kind (k : string) : Prop := k = configMapResourceType \/ k = secretResourceType.

(** [r] is selected for a backup in the mode [m]. *)
Definition selected (m : string) (r : Resource) : Prop :=
  exists sel, buildBackupLabelSelector m = Ok (Some sel) /\ Selector_matches sel (Res_labels r) = true.

(** The label of the backups made in the mode [m]. *)
Definition kept_label (m : string) : string :=
  if String.eqb m PreservationModeInternal then preservedInternalDataLabelKey else preservedDataLabelKey.

Definition unkept (r : Resource) : Prop := forall m, Res_labels r !! kept_label m = None.

(** The mode of a ClusterInstance. *)
Definition user_mode (m : string) : Prop :=
  m = PreservationModeNone \/ m = PreservationModeAll \/ m = PreservationModeClusterIdentity.

(** A request of the ClusterInstance with the owner reference [owner] in the namespace [ns], for
    the generation [gen] in the mode [mode]; [table] holds what the mode selects, each with its
    labels, annotations and data. *)
Record stock := mkStock {
  st_ns : string;
  st_owner : string;
  st_gen : string;
  st_mode : string;
  st_table : gmap (string * string) (smap * smap * smap)
}.

Section stock.
Context `{ResourceYaml} `{TimeText} (st : stock).

Abbreviation mode := (st_mode st).
Abbreviation Internal := PreservationModeInternal.

Definition backup_name (n : string) : Prop :=
  exists k n', resource_kind k /\ n = generateBackupName k n' (st_gen st).

(** A ConfigMap or a Secret of the namespace that is not a backup. *)
Definition preservable (r : Resource) : Prop :=
  Res_Namespace r = st_ns st /\ resource_kind (Res_Kind r) /\ unkept r
  /\ (Res_Kind r = "Secret" -> ~ backup_name (Res_Name r)).

(** What the mode selects is in the table and is not one of the operator's own; what the operator
    selects by itself is not in the table. *)
Definition wants (m : string) (r : Resource) : Prop :=
  selected m r
  /\ if decide (m = Internal) then st_table st !! name_of r = None
     else st_table st !! name_of r = Some (content r) /\ isInternalResource r = false.

Definition plain (r : Resource) : Prop := preservable r /\ forall m, m ∈ [mode; Internal] -> selected m r -> wants m r.

(** [r] is a backup of [orig], made in the mode [m]. *)
Definition backup_of (m : string) (r orig : Resource) : Prop :=
  plain orig /\ wants m orig
  /\ rid r = ("Secret", mkObjectKey (st_ns st) (generateBackupName (Res_Kind orig) (Res_Name orig) (st_gen st)))
  /\ exists data now, let p := preserved_of (st_owner st) (st_gen st) m data now orig in
       Res_labels r = Res_labels p /\ Res_Annotations r = Res_Annotations p /\ Res_Data r = Res_Data p
       /\ Resource_Unmarshal (Res_Kind orig) data = Ok (sanitizeResourceMetadata orig).

(** The ConfigMaps and Secrets of the namespace are what is left of backups, or plain. *)
Definition in_order (l : list Resource) : Prop :=
  unique l /\ forall r, r ∈ l -> Res_Namespace r = st_ns st -> resource_kind (Res_Kind r) ->
    plain r \/ exists m orig, m ∈ [mode; Internal] /\ backup_of m r orig.

Definition backed_up (m : string) (l : list Resource) (id : string * string) : Prop :=
  exists r orig, r ∈ l /\ backup_of m r orig /\ name_of orig = id.

Definition present (l : list Resource) (id : string * string) : Prop :=
  exists r, r ∈ l /\ name_of r = id /\ plain r /\ selected mode r.

(** [id] is there as the table has it, with the time of its restoration. *)
Definition restored (l : list Resource) (id : string * string) : Prop :=
  exists r, r ∈ l /\ name_of r = id /\ plain r /\ selected mode r
    /\ st_table st !! id = Some (content r)
    /\ lookup_str RestoredAtAnnotationKey (Res_Annotations r) <> "".

Definition tabled (P : string * string -> Prop) : Prop := forall id, is_Some (st_table st !! id) -> P id.

(** Nothing is lost; everything is backed up; everything is restored; and no backup is left. *)
Definition nothing_lost (l : list Resource) : Prop :=
  in_order l /\ tabled (fun id => present l id \/ backed_up mode l id).
Definition all_backed_up (l : list Resource) : Prop := in_order l /\ tabled (backed_up mode l).
Definition all_restored (l : list Resource) : Prop := in_order l /\ tabled (restored l).
Definition cleaned_up (l : list Resource) : Prop :=
  all_restored l /\ forall r, r ∈ l -> Res_Namespace r = st_ns st -> resource_kind (Res_Kind r) -> plain r.

Context (Hmode : user_mode mode).

Lemma mode_not_internal : mode <> Internal.
Proof. destruct Hmode as [-> | [-> | ->]]; done. Qed.

Lemma wants_user r : wants mode r -> st_table st !! name_of r = Some (content r) /\ isInternalResource r = false.
Proof. intros [_ Hw]. by rewrite decide_False in Hw by apply mode_not_internal. Qed.

Lemma wants_internal r : wants Internal r -> st_table st !! name_of r = None.
Proof. intros [_ Hw]. by rewrite decide_True in Hw. Qed.

Lemma wants_same m m' r r' :
  m ∈ [mode; Internal] -> m' ∈ [mode; Internal] -> wants m r -> wants m' r' -> name_of r = name_of r' -> m = m'.
Proof.
  intros Hm Hm' Hw Hw' Hn.
  apply elem_of_cons in Hm as [->|Hm%list_elem_of_singleton]; apply elem_of_cons in Hm' as [->|Hm'%list_elem_of_singleton];
    subst; try done; exfalso.
  - apply wants_user in Hw as [Hw _]. apply wants_internal in Hw'. congruence.
  - apply wants_user in Hw' as [Hw' _]. apply wants_internal in Hw. congruence.
Qed.

Lemma kept_label_ne m m' : m <> m' -> m ∈ [mode; Internal] -> m' ∈ [mode; Internal] -> kept_label m <> kept_label m'.
Proof.
  intros Hne Hm Hm'. pose proof mode_not_internal as Hi. unfold kept_label.
  apply elem_of_cons in Hm as [->|Hm%list_elem_of_singleton]; apply elem_of_cons in Hm' as [->|Hm'%list_elem_of_singleton];
    subst; try done; rewrite String.eqb_refl; by apply String.eqb_neq in Hi as ->.
Qed.

(** The labels of a backup. *)
Lemma backup_labels m r orig : backup_of m r orig ->
  exists t, Res_labels r = <[kept_label m := t]> (<[OwnedByLabel := st_owner st]> ∅) /\ t <> "".
Proof.
  intros (_ & _ & _ & data & now & -> & _). exists (Itoa (Unix now)). split; [done|apply Itoa_nonempty].
Qed.

Lemma backup_not_selected m m' r orig : backup_of m r orig -> ~ selected m' r.
Proof.
  intros Hb (sel & Hsel & Hmatch). destruct (backup_labels m r orig Hb) as (t & Hl & _). rewrite Hl in Hmatch.
  assert (Hnone : forall k, k = PreservationLabelKey \/ k = InternalPreservationLabelKey ->
    (<[kept_label m := t]> (<[OwnedByLabel := st_owner st]> ∅) : smap) !! k = None).
  { intros k Hk. unfold kept_label. destruct (String.eqb m Internal); destruct Hk as [-> | ->]; by lookups. }
  unfold buildBackupLabelSelector in Hsel. repeat case_hyp Hsel; simplify_eq; unfold Selector_matches in Hmatch;
    rewrite Hnone in Hmatch by eauto; apply bool_decide_eq_true in Hmatch; first [discriminate|by destruct Hmatch].
Qed.

Lemma backup_not_plain m r orig : backup_of m r orig -> ~ preservable r.
Proof.
  intros Hb (_ & _ & Hun & _). destruct (backup_labels m r orig Hb) as (t & Hl & _).
  specialize (Hun m). by rewrite Hl, lookup_insert_eq in Hun.
Qed.

Lemma backup_key m r orig : backup_of m r orig ->
  Res_Kind r = "Secret" /\ Res_Namespace r = st_ns st
  /\ Res_Name r = generateBackupName (Res_Kind orig) (Res_Name orig) (st_gen st)
  /\ resource_kind (Res_Kind orig) /\ backup_name (Res_Name r).
Proof.
  intros (((_ & Hk & _) & _) & _ & Hid & _). assert (H1 := f_equal fst Hid). assert (H2 := f_equal snd Hid).
  simpl in H1, H2. injection H2 as Hns Hn. split_and!; try done. eexists _, _. split; [exact Hk|exact Hn].
Qed.

Lemma resource_kind_list k : resource_kind k -> k ∈ [configMapResourceType; secretResourceType].
Proof. intros [-> | ->]; [left|right; left]. Qed.

(** Backups of the same name are backups of the same resource, made in the same mode. *)
Lemma backup_same m m' r r' orig orig' :
  m ∈ [mode; Internal] -> m' ∈ [mode; Internal] ->
  backup_of m r orig -> backup_of m' r' orig' -> Res_Name r = Res_Name r' -> name_of orig = name_of orig' /\ m = m'.
Proof.
  intros Hm Hm' Hb Hb' Hn. destruct (backup_key _ _ _ Hb) as (_ & _ & Hr & Hk & _).
  destruct (backup_key _ _ _ Hb') as (_ & _ & Hr' & Hk' & _). rewrite Hr, Hr' in Hn.
  apply generateBackupName_inj in Hn as [Hkk Hnn]; [|by apply resource_kind_list..].
  assert (Hname : name_of orig = name_of orig') by (unfold name_of; congruence). split; [done|].
  destruct Hb as (_ & Hw & _), Hb' as (_ & Hw' & _). by apply (wants_same m m' orig orig').
Qed.

Lemma plain_or_backup l r :
  in_order l -> r ∈ l -> Res_Namespace r = st_ns st -> resource_kind (Res_Kind r) -> backup_name (Res_Name r) ->
  Res_Kind r = "Secret" -> exists m orig, m ∈ [mode; Internal] /\ backup_of m r orig.
Proof. intros [_ Hall] Hr Hns Hk Hn Hs. destruct (Hall r Hr Hns Hk) as [[(_ & _ & _ & Hnot) _]|Hb]; [by destruct Hnot|done]. Qed.

Lemma in_order_wrote r l l' :
  in_order l -> wrote r l l' ->
  (Res_Namespace r = st_ns st -> resource_kind (Res_Kind r) ->
     plain r \/ exists m orig, m ∈ [mode; Internal] /\ backup_of m r orig) ->
  in_order l'.
Proof.
  intros [_ Hall] [Hu Hin] Hr. split; [done|]. intros x Hx. apply Hin in Hx as [->|[Hx _]]; [exact Hr|by apply Hall].
Qed.

Lemma restored_present l id : restored l id -> present l id.
Proof. intros (r & Hr & Hid & Hp & Hs & _). by exists r. Qed.

Lemma backed_up_safe l : all_backed_up l -> nothing_lost l.
Proof. intros [Ho Ht]. split; [done|]. intros id Hid. right. by apply Ht. Qed.

Lemma restored_safe l : all_restored l -> nothing_lost l.
Proof. intros [Ho Ht]. split; [done|]. intros id Hid. left. by apply restored_present, Ht. Qed.

(** ** Backing up *)

Abbreviation M := (Prog ClusterInstance cluster Event).
Abbreviation modes := [mode; Internal].

(** Other objects do not change. *)
Context (objects : list (string * string * ObjectKey * ObjectMeta)).

Definition on_hub (P : list Resource -> Prop) (w : cluster) : Prop :=
  IsZero (cl_now w) = false /\ cl_objects w = objects /\ P (cl_resources w).

#[export] Instance on_hub_steady P : Steady (on_hub P).
Proof.
  split.
  - intros w Hw. split; [by destruct Hw|done].
  - intros old new w r w' (Hnow & Hobj & HP) [= _ <-]. by split_and!.
Qed.

Context (Howner : st_owner st <> "") (Hgen : st_gen st <> "") (Hns : st_ns st <> "").

(** The YAML library reads back what it has written (empty labels are written as none). *)
Context (yaml : forall r, resource_kind (Res_Kind r) -> Res_Labels r <> Some ∅ ->
  exists data, Resource_Marshal (sanitizeResourceMetadata r) = Ok data
    /\ Resource_Unmarshal (Res_Kind r) data = Ok (sanitizeResourceMetadata r)).

Abbreviation config_for m kind name :=
  (mkConfig (mkObjectKey (st_ns st) name) kind (st_owner st) (st_gen st) m).

(** What [createResource_mutate] makes of an object at the time [now]. *)
Definition labelled (m kind : string) (now : Time) (object : Resource) : Resource :=
  mkResource (Res_Kind object) (Res_Namespace object) (Res_Name object)
    (Some (<[kept_label m := Itoa (Unix now)]> (<[OwnedByLabel := st_owner st]> (Res_labels object))))
    (<[if String.eqb m Internal then InternalPreservationLabelKey else PreservationLabelKey := m]>
      (<[reinstallGenerationAnnotationKey := st_gen st]>
        (<[resourceTypeAnnotationKey := kind]> (Res_Annotations object))))
    (Res_ResourceVersion object) (Res_UID object) (Res_CreationTimestamp object)
    (Res_OwnerReferences object) (Res_Type object) (Res_Immutable object) (Res_Data object).

Lemma createResource_labelled m kind key object :
  createResource_mutate (W := cluster) (mkConfig key kind (st_owner st) (st_gen st) m) object
  = (now ← Now; mret (labelled m kind now object)).
Proof.
  unfold createResource_mutate, labelled, kept_label. cbn [cf_ownerRef cf_reinstallGeneration cf_preservationMode cf_resourceType].
  apply String.eqb_neq in Howner as ->. apply String.eqb_neq in Hgen as ->. done.
Qed.

Lemma labelled_new m now orig data :
  plain orig -> wants m orig ->
  Resource_Unmarshal (Res_Kind orig) data = Ok (sanitizeResourceMetadata orig) ->
  let b := preservedSecret (generateBackupName (Res_Kind orig) (Res_Name orig) (st_gen st)) (st_ns st)
             (sanitizeResourceMetadata orig) data in
  forall r, alike r (labelled m (Res_Kind orig) now b) -> backup_of m r orig.
Proof.
  intros Hp Hw Hy b r (Hid & Hl & Ha & Hd). split; [done|]. split; [done|]. split; [done|].
  exists data, now. rewrite Hl, Ha, Hd. split_and!; try done; unfold preserved_of, labelled, kept_label;
    by destruct (String.eqb m Internal).
Qed.

Lemma labelled_live m now orig b :
  backup_of m b orig -> forall r, alike r (labelled m (Res_Kind orig) now b) -> backup_of m r orig.
Proof.
  intros (Hp & Hw & Hid & data & t & Hl & Ha & Hd & Hy) r (Hid' & Hl' & Ha' & Hd').
  split; [done|]. split; [done|]. split; [by rewrite Hid'|].
  exists data, now. rewrite Hl', Ha', Hd'. split_and!; [| |exact Hd|done].
  - unfold labelled, Res_labels at 1. cbn [Res_Labels default from_option id]. rewrite Hl.
    unfold Res_labels, preserved_of, kept_label. cbn [Res_Labels default from_option id].
    destruct (String.eqb m Internal); rewrite (insert_id _ OwnedByLabel) by (by lookups); by rewrite insert_insert_eq.
  - unfold labelled. cbn [Res_Annotations]. rewrite Ha. unfold preserved_of. cbn [Res_Annotations].
    destruct (String.eqb m Internal); do 3 rewrite insert_id by (by lookups); done.
Qed.

(** How the cluster may change while backups are made. *)
Definition backing_up (w w' : cluster) : Prop :=
  (forall x, x ∈ cl_resources w -> preservable x -> x ∈ cl_resources w')
  /\ forall m id, m ∈ modes -> backed_up m (cl_resources w) id -> backed_up m (cl_resources w') id.

#[export] Instance backing_up_preorder : PreOrder backing_up.
Proof. split; [intros w; split; eauto|]. intros w1 w2 w3 [H1' H2'] [H3' H4']. split; eauto. Qed.

Lemma nothing_lost_backing_up w w' :
  in_order (cl_resources w') -> backing_up w w' -> nothing_lost (cl_resources w) -> nothing_lost (cl_resources w').
Proof.
  intros Ho [Hp Hb] [_ Ht]. split; [done|]. intros id Hid. destruct (Ht id Hid) as [(r & Hr & Hn & Hpl & Hs)|Hbk].
  - left. exists r. split_and!; try done. apply Hp; [done|]. by destruct Hpl.
  - right. apply Hb; [left|done].
Qed.

(** Writing a backup of [orig]. *)
Lemma backup_written m r o w l' :
  m ∈ modes -> nothing_lost (cl_resources w) -> wrote r (cl_resources w) l' -> backup_of m r o ->
  nothing_lost l' /\ backing_up w (with_resources l' w) /\ backed_up m l' (name_of o).
Proof.
  intros Hm Hw Hwrote Hb. assert (Hin : r ∈ l') by (apply (proj2 Hwrote); by left).
  assert (Hle : backing_up w (with_resources l' w)).
  { split; simpl.
    - intros x Hx Hpx. apply (proj2 Hwrote). right. split; [done|]. intros Heq.
      destruct (backup_key _ _ _ Hb) as (Hk & _ & _ & _ & Hbn). destruct Hpx as (_ & _ & _ & Hnot).
      assert (Hk' := f_equal fst Heq). assert (Hn' := f_equal Key_Name (f_equal snd Heq)). simpl in Hk', Hn'.
      apply Hnot; congruence.
    - intros m' id Hm' (x & o' & Hx & Hb' & Hid). destruct (decide (rid x = rid r)) as [Heq|Hne].
      + assert (Hn' := f_equal Key_Name (f_equal snd Heq)). simpl in Hn'.
        destruct (backup_same m' m x r o' o) as [Hname ->]; try done. exists r, o. split_and!; [done|done|congruence].
      + exists x, o'. split_and!; try done. apply (proj2 Hwrote). by right. }
  split_and!; [|done|by exists r, o].
  apply (nothing_lost_backing_up w (with_resources l' w)); [|done|done]. simpl.
  eapply in_order_wrote; [exact (proj1 Hw)|exact Hwrote|]. intros _ _. right. by exists m, o.
Qed.

Lemma backup_one m orig s w :
  m ∈ modes -> plain orig -> wants m orig -> on_hub nothing_lost w -> orig ∈ cl_resources w ->
  wp (backupResource (generateBackupName (Res_Kind orig) (Res_Name orig) (st_gen st))
        (config_for m (Res_Kind orig) (Res_Name orig)) : M _)
    (fun o s' w' _ => o = Ret None /\ s' = s /\ on_hub nothing_lost w' /\ backing_up w w'
       /\ backed_up m (cl_resources w') (name_of orig)) s w.
Proof.
  intros Hm Hp Hw (Hnow & Hobj & Hlost) Hin. assert (Hpres := Hp). destruct Hpres as [(Hns' & Hk & _) _].
  unfold backupResource. cbn [cf_resourceType cf_resourceKey].
  assert (Hkind : negb (String.eqb (Res_Kind orig) configMapResourceType)
    && negb (String.eqb (Res_Kind orig) secretResourceType) = false) by (by destruct Hk as [-> | ->]).
  rewrite Hkind. apply wp_bind, wp_call. intros r w1 Hr. simpl in Hr. injection Hr as <- <-.
  assert (Hu : unique (cl_resources w)) by apply Hlost.
  replace (mkObjectKey (st_ns st) (Res_Name orig)) with (Res_key orig) by (unfold Res_key; by rewrite Hns').
  rewrite find_resource_at by done.
  assert (Hne : Res_Labels orig <> Some ∅).
  { intros He. destruct Hw as [(sel & _ & Hmatch) _]. unfold Res_labels in Hmatch. rewrite He in Hmatch.
    destruct sel; apply bool_decide_eq_true in Hmatch; simpl in Hmatch; rewrite lookup_empty in Hmatch;
      first [discriminate|by destruct Hmatch]. }
  destruct (yaml orig Hk Hne) as (data & -> & Hy). unfold createResource. apply wp_if_err.
  eapply wp_mono; [apply (CreateOrUpdate_writes (labelled m (Res_Kind orig)));
    [apply createResource_labelled|done|done]|].
  intros o s' w' ev (-> & -> & r & base & l' & Hbase & Hlike & Hwrote & ->). apply wp_ret.
  assert (Hb : exists o, backup_of m r o /\ name_of o = name_of orig).
  { destruct Hbase as [[-> _]|[Hbase Hid]]; [exists orig; split; [|done]; eapply labelled_new; try done; rewrite <-Hns'; exact Hlike|].
    assert (Hk1 := f_equal fst Hid). assert (Hn1 := f_equal Key_Name (f_equal snd Hid)).
    assert (Hs1 := f_equal Key_Namespace (f_equal snd Hid)). simpl in Hk1, Hn1, Hs1.
    destruct (plain_or_backup (cl_resources w) base) as (m' & o & Hm' & Hb); try done; [by apply Hlost|congruence|by right; rewrite Hk1| |].
    - eexists _, _. split; [exact Hk|]. exact Hn1.
    - destruct (backup_key _ _ _ Hb) as (_ & _ & Hn2 & Hk2 & _). rewrite Hn1 in Hn2.
      apply generateBackupName_inj in Hn2 as [Hkk Hnn]; [|by apply resource_kind_list..].
      assert (Hname : name_of o = name_of orig) by (unfold name_of; congruence).
      assert (m' = m) as -> by (eapply (wants_same m' m o orig); try done; by destruct Hb as (_ & ? & _)).
      exists o. split; [|done]. rewrite Hkk in Hlike. by eapply labelled_live. }
  destruct Hb as (o & Hb & Hname).
  destruct (backup_written m r o w l' Hm Hlost Hwrote Hb) as (Hl & Hle & Hbk). rewrite Hname in Hbk.
  by split_and!.
Qed.

(** The names that a list call gives. *)
Definition selection (kind : string) (sel : Selector) (l : list Resource) : list Resource :=
  List.filter (fun r => String.eqb (Res_Kind r) kind
    && (String.eqb (st_ns st) "" || String.eqb (Res_Namespace r) (st_ns st))
    && Selector_matches sel (Res_labels r)) l.

Definition listed (kind : string) (sel : Selector) (l : list Resource) : list string :=
  List.map Res_Name (selection kind sel l).

Lemma selection_spec kind sel l r :
  r ∈ selection kind sel l <-> r ∈ l /\ Res_Kind r = kind /\ Res_Namespace r = st_ns st
    /\ Selector_matches sel (Res_labels r) = true.
Proof.
  unfold selection. rewrite list_elem_of_In, filter_In, <-list_elem_of_In.
  destruct (String.eqb_spec (st_ns st) "") as [|_]; [done|]. cbn [orb].
  destruct (String.eqb_spec (Res_Kind r) kind), (String.eqb_spec (Res_Namespace r) (st_ns st)); naive_solver.
Qed.

Lemma listed_spec kind sel l n :
  n ∈ listed kind sel l <-> exists r, r ∈ l /\ Res_Kind r = kind /\ Res_Namespace r = st_ns st
    /\ Selector_matches sel (Res_labels r) = true /\ Res_Name r = n.
Proof.
  unfold listed. rewrite list_elem_of_In, in_map_iff. setoid_rewrite <-list_elem_of_In.
  setoid_rewrite selection_spec. naive_solver.
Qed.

Lemma resources_listed sel s w :
  wp (resourcesForPreservation (st_ns st) sel : M _) (fun o s' w' _ =>
    o = Ret (Ok (mkResources (listed configMapResourceType sel (cl_resources w))
                   (listed secretResourceType sel (cl_resources w)))) /\ s' = s /\ w' = w) s w.
Proof.
  unfold resourcesForPreservation. apply wp_bind, wp_call. intros r w1 Hr. simpl in Hr. injection Hr as <- <-.
  apply wp_bind, wp_call. intros r w1 Hr. simpl in Hr. injection Hr as <- <-. by apply wp_ret.
Qed.

Lemma selected_plain m l r :
  in_order l -> m ∈ modes -> r ∈ l -> Res_Namespace r = st_ns st -> resource_kind (Res_Kind r) -> selected m r -> plain r.
Proof.
  intros [_ Hall] Hm Hr Hn Hk Hs. destruct (Hall r Hr Hn Hk) as [Hp|(m' & o & _ & Hb)]; [done|].
  by apply (backup_not_selected m' m) in Hb.
Qed.

(** Backing up what one mode selects. *)
Lemma backup_round m sel s w :
  m ∈ modes -> buildBackupLabelSelector m = Ok (Some sel) -> on_hub nothing_lost w ->
  wp (backupResources sel (st_ns st) (mkConfig (mkObjectKey "" "") "" (st_owner st) (st_gen st) m) : M _)
    (fun o s' w' _ => o = Ret None /\ s' = s /\ on_hub nothing_lost w' /\ backing_up w w'
       /\ forall r, r ∈ cl_resources w -> plain r -> selected m r -> backed_up m (cl_resources w') (name_of r)) s w.
Proof.
  intros Hm Hsel Hw. unfold backupResources. cbn [cf_preservationMode cf_ownerRef cf_reinstallGeneration].
  destruct (String.eqb_spec m PreservationModeNone) as [->|_]; [done|].
  apply wp_bind. eapply wp_mono; [apply resources_listed|]. intros o s' w' ev (-> & -> & ->). cbn [configMaps secrets].
  assert (Hone : forall kind w1, resource_kind kind -> backing_up w w1 ->
    forall n, n ∈ listed kind sel (cl_resources w) ->
    step_done (on_hub nothing_lost) (fun n w => backed_up m (cl_resources w) (kind, n)) backing_up w1
      (fun n => backupResource (generateBackupName kind n (st_gen st)) (config_for m kind n)) s n).
  { intros kind w1 Hk Hle n Hn w2 Hle2 Hw2. apply listed_spec in Hn as (r & Hr & <- & Hrns & Hmatch & <-).
    assert (Hs : selected m r) by (by exists sel). destruct Hw as (_ & _ & Hlost).
    assert (Hp : plain r) by (by apply (selected_plain m (cl_resources w)); [apply Hlost|..]).
    apply backup_one; [done|done|by apply (proj2 Hp)|done|].
    apply Hle2; [|apply Hp]. by apply Hle; [|apply Hp]. }
  apply wp_bind. eapply wp_mono.
  { apply (collect_errors_done (on_hub nothing_lost) (fun n w => backed_up m (cl_resources w) (configMapResourceType, n)) backing_up).
    - intros n w1 w2 Hle. by apply Hle.
    - apply (Hone configMapResourceType); [by left|reflexivity].
    - done. }
  intros o s' w1 ev1 (-> & -> & Hw1 & Hle1 & Hcm). apply wp_bind. eapply wp_mono.
  { apply (collect_errors_done (on_hub nothing_lost) (fun n w => backed_up m (cl_resources w) (secretResourceType, n)) backing_up).
    - intros n w2 w3 Hle. by apply Hle.
    - apply (Hone secretResourceType); [by right|exact Hle1].
    - done. }
  intros o s' w2 ev2 (-> & -> & Hw2 & Hle2 & Hsec). apply wp_ret. split_and!; try done; [by etransitivity|].
  intros r Hr Hp (sel' & Hsel' & Hmatch). rewrite Hsel in Hsel'. injection Hsel' as <-.
  destruct Hp as [(Hrns & [Hk | Hk] & _) _]; unfold name_of; rewrite Hk.
  - apply Hle2; [done|]. apply Hcm, listed_spec. by exists r.
  - apply Hsec, listed_spec. by exists r.
Qed.

Lemma mode_selector : mode <> PreservationModeNone -> exists sel, buildBackupLabelSelector mode = Ok (Some sel).
Proof. destruct Hmode as [-> | [-> | ->]]; [done|eexists; reflexivity..]. Qed.

Context (ci : ClusterInstance) (Hci : Key_Namespace (CI_key ci) = st_ns st
  /\ GenerateOwnedByLabelValue (st_ns st) (Key_Name (CI_key ci)) = st_owner st
  /\ preservation_mode ci = Ret mode /\ reinstall_generation ci = st_gen st).

(** [for_modes] goes through the mode of the ClusterInstance and the operator's own. *)
Lemma for_modes_wp select process Q w sel1 sel2 :
  mode <> PreservationModeNone -> select mode = Ok (Some sel1) -> select Internal = Ok (Some sel2) ->
  (forall s, s = ci -> wp (if_err (process sel1 (st_ns st) (mkConfig (mkObjectKey "" "") "" (st_owner st) (st_gen st) mode))
      (fun e => mret (Some e))
      (if_err (process sel2 (st_ns st) (mkConfig (mkObjectKey "" "") "" (st_owner st) (st_gen st) Internal))
        (fun e => mret (Some e)) (mret None)) : M (option error)) Q s w) ->
  wp (for_modes select process : M _) Q ci w.
Proof.
  intros Hne H1' H2' Hwp. destruct Hci as (Hn & Ho & Hm & Hg). unfold for_modes. apply wp_bind, wp_get. rewrite Hm.
  apply wp_bind, wp_outcome. apply String.eqb_neq in Hne as ->. cbv beta iota. cbn [app].
  rewrite Hn, Ho, Hg. cbn [for_errors]. rewrite H1', H2'. by apply Hwp.
Qed.

Lemma backed_up_by_mode w w' :
  nothing_lost (cl_resources w) -> nothing_lost (cl_resources w') -> backing_up w w' ->
  (forall r, r ∈ cl_resources w -> plain r -> selected mode r -> backed_up mode (cl_resources w') (name_of r)) ->
  all_backed_up (cl_resources w').
Proof.
  intros [_ Ht] [Ho _] Hle Hall. split; [done|]. intros id Hid.
  destruct (Ht id Hid) as [(r & Hr & <- & Hp & Hs)|Hb]; [by apply Hall|apply Hle; [left|done]].
Qed.

(** A backup succeeds, and then everything is backed up. *)
Lemma Backup_on_hub w :
  mode <> PreservationModeNone -> on_hub nothing_lost w ->
  wp (Backup : M _) (fun o s' w' _ => o = Ret None /\ s' = ci /\ on_hub all_backed_up w') ci w.
Proof.
  intros Hne Hw. destruct (mode_selector Hne) as [sel Hsel].
  apply (for_modes_wp _ _ _ _ sel (SelEquals InternalPreservationLabelKey InternalPreservationLabelValue));
    [done|exact Hsel|reflexivity|]. intros s ->. apply wp_if_err.
  eapply wp_mono; [by apply backup_round; [left|..]|]. intros o s' w1 ev1 (-> & -> & Hw1 & Hle1 & Hall). apply wp_if_err.
  eapply wp_mono; [by apply backup_round; [right; left|..]|]. intros o s' w2 ev2 (-> & -> & Hw2 & Hle2 & _). apply wp_ret.
  split; [done|]. split; [done|]. split; [apply Hw2|]. split; [apply Hw2|]. apply (backed_up_by_mode w w2); [apply Hw|apply Hw2|by etransitivity|].
  intros r Hr Hp Hs. apply Hle2; [left|]. by apply Hall.
Qed.

(** ** Restoring *)

Context (format : forall t, Format_RFC3339 t <> "").

(** [r] is [orig] again, but for the time of its restoration. *)
Definition made_again (t : string) (r orig : Resource) : Prop :=
  rid r = rid orig /\ Res_labels r = Res_labels orig
  /\ Res_Annotations r = <[RestoredAtAnnotationKey := t]> (Res_Annotations orig) /\ Res_Data r = Res_Data orig.

Lemma made_again_content t r orig : made_again t r orig -> content r = content orig.
Proof. intros (_ & Hl & Ha & Hd). unfold content. rewrite Hl, Ha, Hd. by rewrite delete_insert_eq. Qed.

Lemma made_again_wants m t r orig : made_again t r orig -> wants m orig -> wants m r.
Proof.
  intros Hr. assert (Hc := made_again_content t r orig Hr). destruct Hr as (Hid & Hl & _).
  assert (Hn : name_of r = name_of orig).
  { unfold name_of. assert (H1 := f_equal fst Hid). assert (H2 := f_equal Key_Name (f_equal snd Hid)). simpl in H1, H2. congruence. }
  unfold wants, selected, isInternalResource. by rewrite Hl, Hn, Hc.
Qed.

Lemma made_again_plain t r orig : made_again t r orig -> plain orig -> plain r.
Proof.
  intros Hr [(Hn & Hk & Hun & Hnot) Hw]. assert (Hr' := Hr). destruct Hr' as (Hid & Hl & _).
  assert (H1 := f_equal fst Hid). assert (H2 := f_equal Key_Name (f_equal snd Hid)).
  assert (H3 := f_equal Key_Namespace (f_equal snd Hid)). simpl in H1, H2, H3. split.
  - unfold preservable, unkept. rewrite H1, H2, H3, Hl. by split_and!.
  - intros m Hm Hs. apply (made_again_wants m t r orig Hr), Hw; [done|]. unfold selected in *. by rewrite <-Hl.
Qed.

(** How the cluster may change while backups are restored. *)
Definition restoring (w w' : cluster) : Prop :=
  (forall m x o, m ∈ modes -> x ∈ cl_resources w -> backup_of m x o -> x ∈ cl_resources w')
  /\ forall id, restored (cl_resources w) id -> restored (cl_resources w') id.

#[export] Instance restoring_preorder : PreOrder restoring.
Proof. split; [intros w; split; eauto|]. intros w1 w2 w3 [H1' H2'] [H3' H4']. split; eauto. Qed.

Lemma backup_mode m r o : m ∈ modes -> backup_of m r o ->
  m ∈ [PreservationModeAll; PreservationModeClusterIdentity; PreservationModeInternal].
Proof.
  intros Hm (_ & [(sel & Hsel & _) _] & _). apply elem_of_cons in Hm as [->|Hm%list_elem_of_singleton].
  - destruct Hmode as [He | [He | He]]; rewrite He in Hsel |- *; [done|left|right; left].
  - subst m. right. right. left.
Qed.

(** Writing what the backup [b] holds. *)
Lemma restore_written m t b r o w l' :
  m ∈ modes -> all_backed_up (cl_resources w) -> b ∈ cl_resources w -> backup_of m b o -> t <> "" ->
  made_again t r o -> wrote r (cl_resources w) l' ->
  all_backed_up l' /\ restoring w (with_resources l' w) /\ (m = mode -> restored l' (name_of o)).
Proof.
  intros Hm [Ho Ht] Hb Hbk Htne Hr Hwrote. destruct Hbk as (Hp & Hw & Hbk).
  assert (Hpr := made_again_plain t r o Hr Hp). assert (Hwr := made_again_wants m t r o Hr Hw).
  assert (Hin : r ∈ l') by (apply (proj2 Hwrote); by left).
  assert (Hnr : name_of r = name_of o).
  { destruct Hr as (Hid & _). unfold name_of. assert (H1 := f_equal fst Hid).
    assert (H2 := f_equal Key_Name (f_equal snd Hid)). simpl in H1, H2. congruence. }
  assert (Hres : m = mode -> restored l' (name_of o)).
  { intros ->. exists r. split_and!; [done|done|done|apply Hwr| |].
    - rewrite <-Hnr. by apply wants_user.
    - destruct Hr as (_ & _ & -> & _). unfold lookup_str. by rewrite lookup_insert_eq. }
  assert (Hle : restoring w (with_resources l' w)).
  { split; simpl.
    - intros m' x o' Hm' Hx Hb'. apply (proj2 Hwrote). right. split; [done|]. intros Heq.
      destruct (backup_key _ _ _ Hb') as (Hk & _ & _ & _ & Hbn). destruct Hpr as [(_ & _ & _ & Hnot) _].
      assert (Hk' := f_equal fst Heq). assert (Hn' := f_equal Key_Name (f_equal snd Heq)). simpl in Hk', Hn'.
      apply Hnot; congruence.
    - intros id (x & Hx & Hid & Hpx & Hs & Hc & Hra). destruct (decide (rid x = rid r)) as [Heq|Hne].
      + assert (Hid' : name_of x = name_of o).
        { rewrite <-Hnr. unfold name_of. assert (H1 := f_equal fst Heq).
          assert (H2 := f_equal Key_Name (f_equal snd Heq)). simpl in H1, H2. congruence. }
        rewrite <-Hid, Hid'. apply Hres. apply (wants_same m mode o x); [done|left|done| |done].
        apply Hpx; [left|done].
      + exists x. split_and!; try done. apply (proj2 Hwrote). by right. }
  split_and!; [|done|done]. split.
  - eapply in_order_wrote; [exact Ho|exact Hwrote|]. intros _ _. by left.
  - intros id Hid. destruct (Ht id Hid) as (x & o' & Hx & Hb' & Hn). exists x, o'. split_and!; [|done|done].
    by apply (proj1 Hle mode x o'); [left|..].
Qed.

Lemma restore_one m b orig s w :
  m ∈ modes -> on_hub all_backed_up w -> b ∈ cl_resources w -> backup_of m b orig ->
  wp (restoreResource (mkConfig (mkObjectKey (st_ns st) (Res_Name b)) "" (st_owner st) (st_gen st) m) : M _)
    (fun o s' w' _ => o = Ret None /\ s' = s /\ on_hub all_backed_up w' /\ restoring w w'
       /\ (m = mode -> restored (cl_resources w') (name_of orig))) s w.
Proof.
  intros Hm (Hnow & Hobj & Hall) Hb Hbk. assert (Hbk' := Hbk).
  destruct Hbk' as (Hp & Hw & Hid & data & now & Hl & Ha & Hd & Hy).
  destruct (backup_key _ _ _ Hbk) as (Hbkind & Hbns & _ & Hk & _).
  assert (Hu : unique (cl_resources w)) by apply Hall.
  unfold restoreResource. apply wp_bind. eapply wp_mono.
  { apply (restore_accepts b (st_owner st) (st_gen st) m data now orig _ s w w); try done; [by eapply backup_mode|].
    simpl. f_equal. rewrite <-Hbkind, <-Hbns. by apply find_resource_at. }
  intros o s' w' ev (-> & -> & -> & _).
  assert (Hkind : Res_Annotations b !! resourceTypeAnnotationKey = Some (Res_Kind orig)).
  { rewrite Ha. unfold preserved_of. cbn [Res_Annotations]. destruct (String.eqb m PreservationModeInternal); by lookups. }
  assert (Hdata : Res_Data b !! preservedDataKey = Some data).
  { rewrite Hd. unfold preserved_of. cbn [Res_Data]. apply lookup_singleton_eq. }
  rewrite Hkind, Hdata.
  assert (Hok : negb (String.eqb (Res_Kind orig) secretResourceType)
    && negb (String.eqb (Res_Kind orig) configMapResourceType) = false) by (by destruct Hk as [-> | ->]).
  rewrite Hok, Hy. apply wp_if_err.
  set (p := sanitizeResourceMetadata orig). set (f := fun now r => sanitizeResourceMetadata
    (mkResource (Res_Kind r) (Res_Namespace r) (Res_Name r) (Res_Labels p)
       (<[RestoredAtAnnotationKey := Format_RFC3339 now]> (Res_Annotations p)) (Res_ResourceVersion r) (Res_UID r)
       (Res_CreationTimestamp r) (Res_OwnerReferences r) (Res_Type r) (Res_Immutable r) (Res_Data p))).
  eapply wp_mono; [by apply (CreateOrUpdate_writes f)|].
  intros o s' w' ev' (-> & -> & r & base & l' & Hbase & (Hidr & Hlr & Har & Hdr) & Hwrote & ->). apply wp_ret.
  assert (Hr : made_again (Format_RFC3339 (cl_now w)) r orig).
  { split_and!; [|done|done|done]. rewrite Hidr. transitivity (rid base); [done|]. by destruct Hbase as [[-> _]|[_ ->]]. }
  destruct (restore_written m _ b r orig w l' Hm Hall Hb Hbk (format _) Hr Hwrote) as (Hl' & Hle & Hres).
  by split_and!.
Qed.

Lemma kept_listed m l r sel :
  in_order l -> m ∈ modes -> r ∈ l -> Res_Namespace r = st_ns st -> resource_kind (Res_Kind r) ->
  sel = SelExists (kept_label m) -> Selector_matches sel (Res_labels r) = true -> exists o, backup_of m r o.
Proof.
  intros [_ Hall] Hm Hr Hn Hk -> Hmatch. apply bool_decide_eq_true in Hmatch.
  destruct (Hall r Hr Hn Hk) as [[(_ & _ & Hun & _) _]|(m' & o & Hm' & Hb)].
  { rewrite (Hun m) in Hmatch. by destruct Hmatch. }
  destruct (decide (m' = m)) as [->|Hne]; [by exists o|].
  destruct (backup_labels m' r o Hb) as (t & Hl & _). rewrite Hl in Hmatch.
  rewrite lookup_insert_ne in Hmatch by (by apply kept_label_ne).
  rewrite lookup_insert_ne in Hmatch by (unfold kept_label; destruct (String.eqb m Internal); key_ne).
  by destruct Hmatch.
Qed.

(** Restoring what was backed up in one mode. *)
Lemma restore_round m s w :
  m ∈ modes -> on_hub all_backed_up w ->
  wp (restoreResources (SelExists (kept_label m)) (st_ns st)
        (mkConfig (mkObjectKey "" "") "" (st_owner st) (st_gen st) m) : M _)
    (fun o s' w' _ => o = Ret None /\ s' = s /\ on_hub all_backed_up w' /\ restoring w w'
       /\ (m = mode -> forall id, backed_up mode (cl_resources w) id -> restored (cl_resources w') id)) s w.
Proof.
  intros Hm Hw. unfold restoreResources. cbn [cf_preservationMode cf_ownerRef cf_reinstallGeneration].
  apply wp_bind. eapply wp_mono; [apply resources_listed|]. intros o s' w' ev (-> & -> & ->). cbn [configMaps secrets].
  set (sel := SelExists (kept_label m)). set (l := cl_resources w).
  assert (Ho : in_order l) by apply Hw.
  assert (Hnames : forall n, n ∈ listed configMapResourceType sel l ++ listed secretResourceType sel l ->
    exists b o, b ∈ l /\ backup_of m b o /\ Res_Name b = n).
  { intros n Hn. apply elem_of_app in Hn as [Hn|Hn]; apply listed_spec in Hn as (r & Hr & Hk & Hrn & Hmatch & <-);
      (destruct (kept_listed m l r sel) as [o Hb]; [done..|by unfold resource_kind; rewrite Hk; eauto|done|done|by exists r, o]). }
  set (D := fun n (w : cluster) => exists b o, backup_of m b o /\ Res_Name b = n
    /\ (m = mode -> restored (cl_resources w) (name_of o))).
  apply wp_bind. eapply wp_mono.
  { apply (collect_errors_done (on_hub all_backed_up) D restoring).
    - intros n w1 w2 Hle (b & o & Hb & Hn & Hres). exists b, o. split_and!; try done. intros He. by apply Hle, Hres.
    - intros n Hn w1 Hle Hw1. destruct (Hnames n Hn) as (b & o & Hb & Hbk & <-).
      eapply wp_mono; [apply (restore_one m b o); try done; by apply (proj1 Hle m b o)|].
      intros oo s' w2 ev2 (-> & -> & Hw2 & Hle2 & Hres). split_and!; try done. by exists b, o.
    - done. }
  intros o s' w1 ev1 (-> & -> & Hw1 & Hle1 & HD). apply wp_ret. split_and!; try done.
  intros He id (b & o & Hb & Hbk & <-). rewrite <-He in Hbk.
  destruct (HD (Res_Name b)) as (b' & o' & Hbk' & Hn & Hres).
  - destruct (backup_key _ _ _ Hbk) as (Hbkind & Hbns & _). apply elem_of_app. right. apply listed_spec. exists b.
    split_and!; try done. apply bool_decide_eq_true. destruct (backup_labels m b o Hbk) as (t & -> & _).
    rewrite lookup_insert_eq. by eexists.
  - destruct (backup_same m m b' b o' o) as [<- _]; try done. by apply Hres.
Qed.

Lemma restore_selector m : m ∈ modes -> m <> PreservationModeNone ->
  buildRestoreLabelSelector m = Ok (Some (SelExists (kept_label m))).
Proof.
  intros Hm Hne. apply elem_of_cons in Hm as [->|Hm%list_elem_of_singleton]; [|by subst m].
  by destruct Hmode as [He | [He | He]]; rewrite He in *.
Qed.

(** A restore succeeds, and then everything is restored. *)
Lemma Restore_on_hub w :
  mode <> PreservationModeNone -> on_hub all_backed_up w ->
  wp (Restore_preserved : M _) (fun o s' w' _ => o = Ret None /\ s' = ci /\ on_hub all_restored w') ci w.
Proof.
  intros Hne Hw. eapply (for_modes_wp _ _ _ _ (SelExists (kept_label mode)) (SelExists (kept_label Internal)));
    [done|apply restore_selector; [left|done]|reflexivity|]. intros s ->. apply wp_if_err.
  eapply wp_mono; [by apply restore_round; [left|]|]. intros o s' w1 ev1 (-> & -> & Hw1 & Hle1 & Hall). apply wp_if_err.
  eapply wp_mono; [by apply restore_round; [right; left|]|]. intros o s' w2 ev2 (-> & -> & Hw2 & Hle2 & _). apply wp_ret.
  split; [done|]. split; [done|]. split; [apply Hw2|]. split; [apply Hw2|]. split; [apply Hw2|].
  intros id Hid. apply Hle2, Hall; [done|]. by apply Hw.
Qed.

(** ** Counting *)

Definition same_category (a b : resourceCategory) : bool :=
  match a, b with
  | resourceCategoryClusterIdentity, resourceCategoryClusterIdentity
  | resourceCategoryOther, resourceCategoryOther => true
  | _, _ => false
  end.

(** How much of what is to be preserved falls into the category [c]. *)
Definition table_count (c : resourceCategory) : nat :=
  length (List.filter (fun x => same_category (category_of x.2.1.1) c) (map_to_list (st_table st))).

Lemma NoDup_filter {A B} (f : A -> B) (P : A -> bool) (l : list A) :
  NoDup (List.map f l) -> NoDup (List.map f (List.filter P l)).
Proof.
  induction l as [|x l IH]; simpl; [done|]. intros [Hx Hl]%NoDup_cons. specialize (IH Hl).
  destruct (P x); [|done]. simpl. apply NoDup_cons. split; [|done]. intros Hin. apply Hx.
  apply list_elem_of_In, in_map_iff in Hin as (y & <- & [Hy _]%filter_In). by apply list_elem_of_In, in_map.
Qed.

Lemma NoDup_image {A B} (f : A -> B) (l : list A) :
  NoDup l -> (forall x y, x ∈ l -> y ∈ l -> f x = f y -> x = y) -> NoDup (List.map f l).
Proof.
  intros Hl. induction Hl as [|x l Hx Hl IH]; intros Hinj; [constructor|]. apply NoDup_cons. split.
  - intros Hin. apply list_elem_of_In, in_map_iff in Hin as (y & Hy & Hin%list_elem_of_In). apply Hx.
    rewrite (Hinj x y); [done|by left|by right|done].
  - apply IH. intros y z Hy Hz. apply Hinj; by right.
Qed.

(** Resources that correspond to the entries of the table, one to one. *)
Lemma count_resources (l : list Resource) (key : string * string -> string * string) (classify : Resource -> resourceCategory) c :
  NoDup (List.map name_of l) ->
  (forall id id', is_Some (st_table st !! id) -> is_Some (st_table st !! id') -> key id = key id' -> id = id') ->
  (forall r, r ∈ l -> exists id x, st_table st !! id = Some x /\ key id = name_of r /\ classify r = category_of x.1.1) ->
  (forall id x, st_table st !! id = Some x -> exists r, r ∈ l /\ name_of r = key id) ->
  length (List.filter (fun r => same_category (classify r) c) l) = table_count c.
Proof.
  intros Hnd Hinj Hl Ht. unfold table_count.
  set (entries := List.filter _ (map_to_list (st_table st))). set (chosen := List.filter _ l).
  rewrite <-(length_map name_of chosen), <-(length_map (fun x => key x.1) entries). apply Permutation_length, NoDup_Permutation.
  - by apply NoDup_filter.
  - apply NoDup_filter, NoDup_image; [apply NoDup_map_to_list|].
    intros [i x] [j y] Hx%elem_of_map_to_list Hy%elem_of_map_to_list Hk. simpl in *.
    assert (i = j) as -> by (apply Hinj; eauto). congruence.
  - intros k. rewrite !list_elem_of_In, !in_map_iff. split.
    + intros (r & <- & [Hr Hc]%filter_In). apply list_elem_of_In in Hr. destruct (Hl r Hr) as (id & x & Hx & Hk & Hcat).
      exists (id, x). split; [done|]. apply filter_In. rewrite <-list_elem_of_In, elem_of_map_to_list. split; [done|].
      simpl. by rewrite <-Hcat.
    + intros ([id x] & <- & [Hin Hc]%filter_In). rewrite <-list_elem_of_In, elem_of_map_to_list in Hin. simpl in Hc.
      destruct (Ht id x Hin) as (r & Hr & Hn). exists r. split; [done|]. apply filter_In. rewrite <-list_elem_of_In.
      split; [done|]. destruct (Hl r Hr) as (id' & x' & Hx' & Hk & Hcat).
      assert (id' = id) as -> by (apply Hinj; eauto; congruence). rewrite Hcat. congruence.
Qed.

Lemma selections_NoDup sel l :
  unique l -> NoDup (List.map name_of (selection secretResourceType sel l ++ selection configMapResourceType sel l)).
Proof.
  intros Hu. apply NoDup_image.
  - apply NoDup_app. split_and!.
    + apply (NoDup_fmap_1 rid), NoDup_filter, Hu.
    + intros r [_ [Hk _]]%selection_spec [_ [Hk' _]]%selection_spec. by rewrite Hk in Hk'.
    + apply (NoDup_fmap_1 rid), NoDup_filter, Hu.
  - intros r r' Hr Hr' Hn.
    assert (Hin : forall x, x ∈ selection secretResourceType sel l ++ selection configMapResourceType sel l ->
      x ∈ l /\ Res_Namespace x = st_ns st).
    { intros x [(Hx & _ & Hxn & _)%selection_spec|(Hx & _ & Hxn & _)%selection_spec]%elem_of_app; done. }
    destruct (Hin r Hr) as [Hrl Hrn], (Hin r' Hr') as [Hrl' Hrn']. apply (unique_eq l); try done.
    unfold name_of in Hn. injection Hn as Hk Hm. unfold rid, Res_key. congruence.
Qed.

Lemma counted_on_hub sel (check : bool) s w :
  let classify := if check then classifyRestoredResource else classifyPreservedResource in
  let l := selection secretResourceType sel (cl_resources w) ++ selection configMapResourceType sel (cl_resources w) in
  wp (countMatchingResources (st_ns st) sel check : M _) (fun o s' w' _ =>
    o = Ret (length (List.filter (fun r => same_category (classify r) resourceCategoryClusterIdentity) l),
             length (List.filter (fun r => same_category (classify r) resourceCategoryOther) l), None)
    /\ s' = s /\ w' = w) s w.
Proof.
  intros classify l. unfold countMatchingResources. apply wp_bind, wp_call. intros r w1 Hr. simpl in Hr. injection Hr as <- <-.
  apply wp_bind, wp_call. intros r w1 Hr. simpl in Hr. injection Hr as <- <-. apply wp_ret. split_and!; [|done|done].
  fold (selection secretResourceType sel (cl_resources w)) (selection configMapResourceType sel (cl_resources w)).
  subst l. rewrite !List.filter_app, !length_app. unfold count_category. cbn [fst snd].
  assert (Hf : forall c l, List.filter (fun r => match classify r with
      | resourceCategoryClusterIdentity => match c with resourceCategoryClusterIdentity => true | _ => false end
      | resourceCategoryOther => match c with resourceCategoryOther => true | _ => false end
      | resourceCategoryUnknown => false end) l = List.filter (fun r => same_category (classify r) c) l).
  { intros c l. apply List.filter_ext. intros r. unfold same_category. destruct (classify r), c; done. }
  rewrite <-!Hf. done.
Qed.

(** What is backed up is what the table holds. *)
Lemma preserved_counted c l :
  mode <> PreservationModeNone -> all_backed_up l ->
  length (List.filter (fun r => same_category (classifyPreservedResource r) c)
    (selection secretResourceType (SelExists (kept_label mode)) l
     ++ selection configMapResourceType (SelExists (kept_label mode)) l)) = table_count c.
Proof.
  intros Hne [Ho Ht]. assert (Hu : unique l) by apply Ho.
  apply (count_resources _ (fun id => (secretResourceType, generateBackupName id.1 id.2 (st_gen st)))).
  - by apply selections_NoDup.
  - intros id id' Hid Hid' [= Hn]. destruct (Ht id Hid) as (r & o & Hr & Hb & <-), (Ht id' Hid') as (r' & o' & Hr' & Hb' & <-).
    destruct (backup_key _ _ _ Hb) as (_ & _ & Hrn & _), (backup_key _ _ _ Hb') as (_ & _ & Hrn' & _).
    apply (backup_same mode mode r r' o o'); [left|left|done|done|]. rewrite Hrn, Hrn'. exact Hn.
  - intros r Hr.
    assert (Hb : exists o, backup_of mode r o).
    { apply elem_of_app in Hr as [(Hr & Hk & Hn & Hm)%selection_spec|(Hr & Hk & Hn & Hm)%selection_spec];
        (eapply (kept_listed mode l r); [done|left|done|done|unfold resource_kind; rewrite Hk; by eauto|reflexivity|done]). }
    destruct Hb as [o Hb]. exists (name_of o), (content o). assert (Hw := Hb). destruct Hw as (_ & Hw & _ & data & now & Hl & Ha & _).
    destruct (backup_key _ _ _ Hb) as (Hk & _ & Hn & _). split_and!.
    + by apply wants_user.
    + unfold name_of. by rewrite Hk, Hn.
    + rewrite (classify_alike _ _ Hl Ha). destruct Hw as [(sel & Hsel & Hmatch) _]. eapply classify_preserved; [|exact Hsel|exact Hmatch].
      destruct Hmode as [? | [-> | ->]]; [done|left|right; left].
  - intros id x Hx. destruct (Ht id) as (r & o & Hr & Hb & <-); [eauto|]. exists r.
    destruct (backup_key _ _ _ Hb) as (Hk & Hn & Hnm & _). split; [|unfold name_of; by rewrite Hk, Hnm].
    apply elem_of_app. left. apply selection_spec. split_and!; try done. apply bool_decide_eq_true.
    destruct (backup_labels mode r o Hb) as (t & -> & _). rewrite lookup_insert_eq. by eexists.
Qed.

(** What is restored is what the table holds. *)
Lemma restored_counted c sel l :
  buildBackupLabelSelector mode = Ok (Some sel) -> all_restored l ->
  length (List.filter (fun r => same_category (classifyRestoredResource r) c)
    (selection secretResourceType sel l ++ selection configMapResourceType sel l)) = table_count c.
Proof.
  intros Hsel [Ho Ht]. assert (Hu : unique l) by apply Ho. apply (count_resources _ (fun id => id)).
  - by apply selections_NoDup.
  - done.
  - intros r Hr. exists (name_of r), (content r).
    assert (Hr' : r ∈ l /\ Res_Namespace r = st_ns st /\ resource_kind (Res_Kind r) /\ selected mode r).
    { apply elem_of_app in Hr as [(Hr & Hk & Hn & Hm)%selection_spec|(Hr & Hk & Hn & Hm)%selection_spec];
        (split_and!; [done|done|unfold resource_kind; rewrite Hk; by eauto|by exists sel]). }
    destruct Hr' as (Hrl & Hn & Hk & Hs).
    assert (Hp : plain r) by (by apply (selected_plain mode l); [|left|..]).
    destruct (wants_user r) as [Htab Hint]; [by apply (proj2 Hp); [left|]|]. split_and!; [done|done|].
    destruct (Ht (name_of r)) as (r' & Hr2 & Hname & [(Hn' & _) _] & _ & _ & Hra); [by eexists|].
    assert (r' = r) as ->.
    { apply (unique_eq l); try done. unfold name_of in Hname. injection Hname as Hk' Hm'. unfold rid, Res_key. congruence. }
    by apply classify_restored.
  - intros id x Hx. destruct (Ht id) as (r & Hr & <- & [(Hn & Hk & _) _] & (sel' & Hsel' & Hm) & _); [eauto|].
    rewrite Hsel in Hsel'. injection Hsel' as <-. exists r. split; [|done]. apply elem_of_app. rewrite !selection_spec.
    destruct Hk as [Hk | Hk]; [right|left]; by split_and!.
Qed.

(** ** The reports *)

Definition preserved_total : nat :=
  (table_count resourceCategoryClusterIdentity + table_count resourceCategoryOther)%nat.

(** What the conditions of a request say of what is preserved. *)
Definition hub_report : report :=
  if String.eqb mode PreservationModeNone then mkReport nothing_preserved nothing_preserved nothing_preserved
  else mkReport
    (if (preserved_total =? 0)%nat then (ConditionFalse, DataUnavailable,
       "No resources were found to be preserved in the ClusterInstance namespace with the preservation data label")
     else (ConditionTrue, Completed,
       Sprintf "Number of resources preserved: %d " [FInt (Z.of_nat preserved_total)]))
    (if (table_count resourceCategoryClusterIdentity =? 0)%nat then (ConditionFalse, DataUnavailable,
       "No cluster identity resources were detected for preservation")
     else (ConditionTrue, DataAvailable, Sprintf "Number of cluster identity resources detected: %d "
       [FInt (Z.of_nat (table_count resourceCategoryClusterIdentity))]))
    (if (preserved_total =? 0)%nat then (ConditionFalse, DataUnavailable, "No restored resources found")
     else (ConditionTrue, Completed,
       Sprintf "%d resources were successfully restored: %d cluster-identity resources, %d other resources"
         [FInt (Z.of_nat preserved_total); FInt (Z.of_nat (table_count resourceCategoryClusterIdentity));
          FInt (Z.of_nat (table_count resourceCategoryOther))])).

(** In the mode that preserves the cluster's identity there is something of it. *)
Context (identity : mode = PreservationModeClusterIdentity -> table_count resourceCategoryClusterIdentity <> 0).

Context (spec : ReinstallSpec) (Hspec : Spec_Reinstall (CI_Spec ci) = Some spec).

Lemma spec_mode : RSpec_PreservationMode spec = mode.
Proof. destruct Hci as (_ & _ & Hm & _). unfold preservation_mode in Hm. rewrite Hspec in Hm. by injection Hm. Qed.

Lemma get_counts_wp select check sel w Q :
  mode <> PreservationModeNone -> select mode = Ok (Some sel) ->
  wp (countMatchingResources (st_ns st) sel check : M _) Q ci w -> wp (get_counts select check : M _) Q ci w.
Proof.
  intros Hne Hsel Hwp. unfold get_counts. apply wp_bind, wp_get. destruct Hci as (Hn & _ & Hm & _). rewrite Hm.
  apply wp_bind, wp_outcome. apply String.eqb_neq in Hne as ->. cbv beta iota. rewrite Hsel, Hn. exact Hwp.
Qed.

Lemma preservation_reported w :
  mode <> PreservationModeNone -> on_hub all_backed_up w ->
  wp (getDataPreservationSummary : M _) (fun o s' w' _ =>
    o = Ret (backedup_as hub_report, identity_as hub_report, None) /\ s' = ci /\ w' = w) ci w.
Proof.
  intros Hne (_ & _ & Hall). unfold getDataPreservationSummary, deref_reinstall_spec. apply wp_bind, wp_bind, wp_get.
  rewrite Hspec. apply wp_ret, wp_bind. eapply (get_counts_wp _ _ (SelExists (kept_label mode))); [done|apply restore_selector; [left|done]|].
  eapply wp_mono; [apply counted_on_hub|]. intros o s' w' ev (-> & -> & ->). cbv iota.
  rewrite !preserved_counted by done. fold preserved_total. unfold backedup_as, identity_as, hub_report.
  rewrite spec_mode. assert (Hn := Hne). apply String.eqb_neq in Hn as ->.
  destruct (Nat.eqb_spec (table_count resourceCategoryClusterIdentity) 0) as [Hz|Hz].
  - destruct (String.eqb_spec mode PreservationModeClusterIdentity) as [He|_]; [by destruct (identity He)|].
    apply wp_ret. split_and!; [|done|done]. by destruct (preserved_total =? 0)%nat.
  - apply wp_ret. split_and!; [|done|done]. by destruct (preserved_total =? 0)%nat.
Qed.

Lemma restoration_reported w :
  mode <> PreservationModeNone -> on_hub all_restored w ->
  wp (getDataRestorationSummary : M _) (fun o s' w' _ =>
    o = Ret (restored_as hub_report, None) /\ s' = ci /\ w' = w) ci w.
Proof.
  intros Hne (_ & _ & Hall). destruct (mode_selector Hne) as [sel Hsel].
  unfold getDataRestorationSummary, deref_reinstall_spec. apply wp_bind, wp_bind, wp_get.
  rewrite Hspec. apply wp_ret, wp_bind. eapply (get_counts_wp _ _ sel); [done|done|].
  eapply wp_mono; [apply counted_on_hub|]. intros o s' w' ev (-> & -> & ->). cbv iota.
  rewrite !(restored_counted _ sel) by done. fold preserved_total. unfold restored_as, hub_report.
  rewrite spec_mode. assert (Hn := Hne). apply String.eqb_neq in Hn as ->.
  destruct (Nat.eqb_spec preserved_total 0) as [Hz|Hz].
  - destruct (String.eqb_spec mode PreservationModeClusterIdentity) as [He|_].
    + destruct (identity He). unfold preserved_total in Hz. lia.
    + by apply wp_ret.
  - by apply wp_ret.
Qed.

(** ** The labels of the operator's own Secrets *)

(** The Secrets that the ClusterInstance names are not backups and not in the table. *)
Context (Hsecrets : forall n, n ∈ clusterInstanceSecrets ci ->
  ~ backup_name n /\ st_table st !! ("Secret", n) = None).

Lemma label_written n r r' w l' :
  n ∈ clusterInstanceSecrets ci -> nothing_lost (cl_resources w) -> r ∈ cl_resources w ->
  rid r = ("Secret", mkObjectKey (st_ns st) n) -> rid r' = rid r ->
  Res_labels r' = <[InternalPreservationLabelKey := InternalPreservationLabelValue]> (Res_labels r) ->
  wrote r' (cl_resources w) l' -> nothing_lost l'.
Proof.
  intros Hn [Ho Ht] Hr Hid Hid' Hl Hwrote. destruct (Hsecrets n Hn) as [Hnb Hnt].
  assert (Hk := f_equal fst Hid). assert (Hnm := f_equal Key_Name (f_equal snd Hid)).
  assert (Hnsp := f_equal Key_Namespace (f_equal snd Hid)). simpl in Hk, Hnm, Hnsp.
  assert (Hk' := f_equal fst Hid'). assert (Hnm' := f_equal Key_Name (f_equal snd Hid')).
  assert (Hnsp' := f_equal Key_Namespace (f_equal snd Hid')). simpl in Hk', Hnm', Hnsp'.
  assert (Hkind : resource_kind (Res_Kind r)) by (right; by rewrite Hk).
  assert (Hp : plain r).
  { destruct (proj2 Ho r Hr Hnsp Hkind) as [Hp|(m & o & _ & Hb)]; [done|]. destruct Hnb.
    rewrite <-Hnm. by destruct (backup_key _ _ _ Hb) as (_ & _ & _ & _ & ?). }
  assert (Hname : name_of r' = ("Secret", n)) by (unfold name_of; congruence).
  assert (Hp' : plain r').
  { destruct Hp as [(_ & _ & Hun & _) Hsel]. split.
    - unfold preservable. rewrite Hk', Hnm', Hnsp', Hnm. split_and!; [done|done| |done].
      intros m. rewrite Hl, lookup_insert_ne; [apply Hun|]. unfold kept_label.
      destruct (String.eqb m Internal); key_ne.
    - intros m Hm Hs. apply elem_of_cons in Hm as [->|Hm%list_elem_of_singleton].
      + exfalso. assert (Hs' : selected mode r).
        { destruct Hs as (sel & Hsel' & Hmatch). exists sel. split; [done|]. rewrite Hl in Hmatch.
          destruct Hmode as [He | [He | He]]; rewrite He in Hsel'; [done| |]; injection Hsel' as <-;
            unfold Selector_matches in *; by rewrite lookup_insert_ne in Hmatch by key_ne. }
        destruct (wants_user r) as [Htab _]; [by apply Hsel; [left|]|].
        assert (name_of r = ("Secret", n)) as Hnr by (unfold name_of; congruence). congruence.
      + subst m. split; [done|]. rewrite decide_True by done. by rewrite Hname. }
  split; [eapply in_order_wrote; [exact Ho|exact Hwrote|by left]|].
  intros id Hid2. destruct (Ht id Hid2) as [(x & Hx & Hxn & Hpx & Hs)|(x & o & Hx & Hb & Hxn)].
  - left. exists x. split_and!; try done. apply (proj2 Hwrote). right. split; [done|]. intros Heq.
    assert (name_of x = ("Secret", n)) as Hnx.
    { unfold name_of. assert (H1 := f_equal fst Heq). assert (H2 := f_equal Key_Name (f_equal snd Heq)). simpl in H1, H2.
      congruence. }
    rewrite Hxn in Hnx. subst id. rewrite Hnx, Hnt in Hid2. by destruct Hid2.
  - right. exists x, o. split_and!; try done. apply (proj2 Hwrote). right. split; [done|]. intros Heq. apply Hnb.
    assert (H2 := f_equal Key_Name (f_equal snd Heq)). simpl in H2.
    destruct (backup_key _ _ _ Hb) as (_ & _ & _ & _ & Hbn). congruence.
Qed.

Lemma label_one n s w :
  n ∈ clusterInstanceSecrets ci -> on_hub nothing_lost w ->
  wp (applyPreservationLabel (st_ns st) n : M _)
    (fun o s' w' _ => o = Ret None /\ s' = s /\ on_hub nothing_lost w') s w.
Proof.
  intros Hn (Hnow & Hobj & Hlost). unfold applyPreservationLabel. apply wp_bind, wp_call. intros r w1 Hr.
  simpl in Hr. injection Hr as <- <-.
  pose proof (find_resource_spec "Secret" (mkObjectKey (st_ns st) n) w) as Hf.
  destruct (find_resource "Secret" (mkObjectKey (st_ns st) n) w) as [r|e].
  2: { destruct Hf as [-> _]. apply wp_ret. by split_and!. }
  destruct Hf as [Hr Hid]. unfold setOrUpdateLabel. case_bool_decide; [apply wp_ret; by split_and!|].
  apply wp_bind, wp_call. intros rr w1 Hrr. cbn [serve cluster_server cluster_serve] in Hrr.
  set (r' := mkResource _ _ _ _ _ _ _ _ _ _ _ _) in Hrr.
  assert (Hat : find_resource (Res_Kind r') (Res_key r') w = Ok r).
  { change (find_resource (Res_Kind r) (Res_key r) w = Ok r). apply find_resource_at; [apply Hlost|done]. }
  rewrite Hat in Hrr. injection Hrr as <- <-. apply wp_ret. split; [done|]. split; [done|]. split; [done|]. split; [done|].
  eapply (label_written n r r'); try done. apply wrote_set; [apply Hlost|]. by exists r.
Qed.

Lemma labels_on_hub w :
  on_hub nothing_lost w ->
  wp (for_errors (clusterInstanceSecrets ci) (applyPreservationLabel (st_ns st)) : M _)
    (fun o s' w' _ => o = Ret None /\ s' = ci /\ on_hub nothing_lost w') ci w.
Proof.
  intros Hw. assert (Hpre : PreOrder (fun _ _ : cluster => True)) by done. eapply wp_mono.
  { apply (for_errors_done (on_hub nothing_lost) (fun _ _ => True) (fun _ _ => True)); [done| |exact Hw].
    intros n Hn w1 _ Hw1. eapply wp_mono; [by apply label_one|]. naive_solver. }
  naive_solver.
Qed.

(** ** Cleaning up *)

(** ConfigMaps and Secrets are not among the other objects. *)
Context (Hobjects : forall x, x ∈ objects -> ~ resource_kind x.1.1.2).

Lemma object_none k key : resource_kind k -> List.find (same_object "v1" k key) objects = None.
Proof.
  intros Hk. destruct (List.find _ _) as [x|] eqn:Hf; [|done]. apply find_some in Hf as [Hin Hx].
  apply bool_decide_eq_true in Hx. destruct (Hobjects x); [by apply list_elem_of_In|]. by rewrite Hx.
Qed.

Definition gone (n : string) (l : list Resource) : Prop :=
  forall r, r ∈ l -> rid r <> ("Secret", mkObjectKey (st_ns st) n).

Definition subset_of (l' l : list Resource) : Prop := forall r, r ∈ l' -> r ∈ l.

(** Deleting a backup. *)
Lemma backup_removed b w :
  all_restored (cl_resources w) -> b ∈ cl_resources w -> backup_name (Res_Name b) -> Res_Kind b = "Secret" ->
  Res_Namespace b = st_ns st ->
  let l' := cl_resources (remove_resource b w) in
  all_restored l' /\ subset_of l' (cl_resources w) /\ gone (Res_Name b) l'.
Proof.
  intros [Ho Ht] Hb Hn Hk Hbns l'.
  assert (Hin : forall x, x ∈ l' <-> x ∈ cl_resources w /\ rid x <> rid b).
  { intros x. unfold l', remove_resource, with_resources. simpl. rewrite list_elem_of_In, filter_In, <-list_elem_of_In.
    rewrite same_resource_rid, negb_true_iff, bool_decide_eq_false. done. }
  assert (Hsub : subset_of l' (cl_resources w)) by (intros x Hx; by apply Hin in Hx as [? _]).
  split_and!; [split|done|].
  - destruct Ho as [Hu Hall]. split; [apply (NoDup_filter rid), Hu|]. intros x Hx. apply Hall. by apply Hsub.
  - intros id Hid. destruct (Ht id Hid) as (x & Hx & Hxn & Hp & Hrest). exists x. split_and!; try done; try apply Hrest.
    apply Hin. split; [done|]. intros Heq. destruct Hp as [(_ & _ & _ & Hnot) _].
    assert (H1 := f_equal fst Heq). assert (H2 := f_equal Key_Name (f_equal snd Heq)). simpl in H1, H2.
    apply Hnot; congruence.
  - intros x Hx Hid. apply Hin in Hx as [_ Hne]. apply Hne. rewrite Hid. unfold rid, Res_key. congruence.
Qed.

Lemma delete_one n w :
  backup_name n -> on_hub all_restored w ->
  wp (Cleanup_delete secretResourceType n : M _) (fun o s' w' _ =>
    (exists b, o = Ret (Ok b)) /\ s' = ci /\ on_hub all_restored w' /\ subset_of (cl_resources w') (cl_resources w)
    /\ gone n (cl_resources w')) ci w.
Proof.
  intros Hn (Hnow & Hobj & Hall). unfold Cleanup_delete. apply wp_bind, wp_get. destruct Hci as (Hcn & Hco & _).
  rewrite Hcn. set (o := mkRenderedObject (Some (raw_object secretResourceType (st_ns st) n)) noAction).
  assert (Hnew : NewRenderedObject (raw_object secretResourceType (st_ns st) n) = (o, None)) by reflexivity.
  rewrite Hnew. apply wp_bind. unfold DeleteObject, isObjectDeleted. apply wp_bind, wp_get, wp_bind, wp_bind, wp_call.
  intros r w1 Hr. change (GetAPIVersion o) with "v1" in *. change (GetKind o) with "Secret" in *.
  change (object_key o) with (mkObjectKey (st_ns st) n) in *. simpl in Hr. rewrite Hobj in Hr.
  rewrite object_none in Hr by (by right).
  pose proof (find_resource_spec "Secret" (mkObjectKey (st_ns st) n) w) as Hf.
  destruct (find_resource "Secret" (mkObjectKey (st_ns st) n) w) as [b|e] eqn:Hfind; injection Hr as <- <-; apply wp_ret.
  2: { destruct Hf as [_ Hf]. apply wp_ret, wp_ret. split; [by exists true|].
    split; [done|]. split; [done|]. split; [by intros r|done]. }
  destruct Hf as [Hb Hid].
  assert (Hk := f_equal fst Hid). assert (Hnm := f_equal Key_Name (f_equal snd Hid)).
  assert (Hbns := f_equal Key_Namespace (f_equal snd Hid)). simpl in Hk, Hnm, Hbns.
  destruct (plain_or_backup (cl_resources w) b) as (m & orig & Hm & Hbk); try done; [by apply Hall|by right|by rewrite Hnm|].
  assert (Hown : VerifyOwnership (Meta_Labels (resource_meta b)) (Meta_Name (resource_meta b))
    (Meta_Namespace (resource_meta b)) "Secret"
    (GenerateOwnedByLabelValue (Key_Namespace (CI_key ci)) (Key_Name (CI_key ci))) = None).
  { unfold VerifyOwnership, GetOwner. rewrite Hcn, Hco. unfold resource_meta. cbn [Meta_Labels].
    destruct (backup_labels m b orig Hbk) as (t & -> & _). unfold kept_label.
    destruct (String.eqb m Internal); lookups; cbn [from_option id default]; by rewrite String.eqb_refl. }
  rewrite Hown. change (ObjectMeta_deleting (resource_meta b)) with (@None Time). cbv iota.
  apply wp_if_err. unfold initiateObjectDeletion. apply wp_bind, wp_call. intros r w1 Hr.
  change (GetAPIVersion o) with "v1" in Hr. change (GetKind o) with "Secret" in Hr.
  change (object_key o) with (mkObjectKey (st_ns st) n) in Hr. simpl in Hr.
  rewrite Hobj, object_none, Hfind in Hr by (by right). injection Hr as <- <-. apply wp_ret, wp_ret, wp_ret.
  destruct (backup_removed b w) as (Hl & Hsub & Hg); [done|done|by rewrite Hnm|done|done|].
  split; [by exists false|]. split_and!; [done| |done|by rewrite <-Hnm]. by split_and!.
Qed.

Lemma delete_all names b w :
  Forall backup_name names -> on_hub all_restored w ->
  wp (Cleanup_all secretResourceType names b [] : M _) (fun o s' w' _ =>
    (exists b', o = Ret (b', [])) /\ s' = ci /\ on_hub all_restored w' /\ subset_of (cl_resources w') (cl_resources w)
    /\ Forall (fun n => gone n (cl_resources w')) names) ci w.
Proof.
  intros Hnames Hw. unfold Cleanup_all. set (body := fun (name : string) (st : bool * list error) => _ : M _).
  assert (Hloop : wp (for_range names (b, []) body) (fun o s' w' _ =>
    (exists b', o = Ret (inl (b', []))) /\ s' = ci /\ on_hub all_restored w'
    /\ subset_of (cl_resources w') (cl_resources w) /\ Forall (fun n => gone n (cl_resources w')) names) ci w).
  { revert b w Hw. induction Hnames as [|n names Hn _ IH]; intros b w Hw; cbn [for_range].
    { apply wp_ret. split; [by exists b|]. by split_and!. }
    apply wp_bind, wp_bind. eapply wp_mono; [by apply delete_one|].
    intros o s' w1 ev ((d & ->) & -> & Hw1 & Hsub & Hg). apply wp_ret. cbn [fst snd].
    eapply wp_mono; [by apply IH|]. intros o s' w' ev' (Hb & -> & Hw' & Hsub' & Hall). split_and!; try done.
    - intros r Hr. by apply Hsub, Hsub'.
    - constructor; [|done]. intros r Hr. by apply Hg, Hsub'. }
  apply wp_bind. eapply wp_mono; [exact Hloop|]. intros o s' w' ev ((b' & ->) & -> & Hrest). apply wp_ret.
  split; [by exists b'|]. exact (conj eq_refl Hrest).
Qed.

Lemma kept_names l m :
  in_order l -> m ∈ modes ->
  listed configMapResourceType (SelExists (kept_label m)) l = []
  /\ Forall backup_name (listed secretResourceType (SelExists (kept_label m)) l).
Proof.
  intros Ho Hm. split.
  - apply elem_of_nil_inv. intros n Hn. apply listed_spec in Hn as (r & Hr & Hk & Hrn & Hmatch & _).
    destruct (kept_listed m l r (SelExists (kept_label m))) as [o Hb]; try done; [by left|].
    destruct (backup_key _ _ _ Hb) as (Hk' & _). by rewrite Hk in Hk'.
  - apply Forall_forall. intros n Hn. apply listed_spec in Hn as (r & Hr & Hk & Hrn & Hmatch & <-).
    destruct (kept_listed m l r (SelExists (kept_label m))) as [o Hb]; try done; [by right|].
    by destruct (backup_key _ _ _ Hb) as (_ & _ & _ & _ & ?).
Qed.

(** What [Cleanup] is going to delete: the backups. *)
Definition doomed (l : list Resource) : list string :=
  (if String.eqb mode PreservationModeNone then [] else listed secretResourceType (SelExists (kept_label mode)) l)
  ++ listed secretResourceType (SelExists (kept_label Internal)) l.

Lemma Cleanup_data_on_hub w :
  on_hub all_restored w ->
  wp (Cleanup_data modes (st_ns st) (mkResources [] []) : M _) (fun o s' w' _ =>
    o = Ret (Ok (mkResources [] (doomed (cl_resources w)))) /\ s' = ci /\ w' = w) ci w.
Proof.
  intros (_ & _ & [Ho _]). destruct (kept_names _ mode Ho) as [Hm _]; [left|].
  destruct (kept_names _ Internal Ho) as [Hi _]; [right; left|]. unfold doomed.
  assert (Hlast : forall (names : list string), wp (Cleanup_data [Internal] (st_ns st) (mkResources [] names) : M _) (fun o s' w' _ =>
    o = Ret (Ok (mkResources [] (names ++ listed secretResourceType (SelExists (kept_label Internal)) (cl_resources w))))
    /\ s' = ci /\ w' = w) ci w).
  { intros names. cbn [Cleanup_data]. change (buildRestoreLabelSelector Internal) with (Ok (Some (SelExists (kept_label Internal)))).
    apply wp_bind. eapply wp_mono; [apply resources_listed|]. intros o s' w' ev (-> & -> & ->). apply wp_ret.
    cbn [configMaps secrets app]. by rewrite Hi. }
  change (Cleanup_data modes (st_ns st) (mkResources [] []) : M _) with
    (match buildRestoreLabelSelector mode with
     | Err err => mret (Err err)
     | Ok None => Cleanup_data [Internal] (st_ns st) (mkResources [] [])
     | Ok (Some labelSelector) =>
         r ← resourcesForPreservation (st_ns st) labelSelector;
         match r with
         | Err err => mret (Err err)
         | Ok dataForMode => Cleanup_data [Internal] (st_ns st)
             (mkResources ([] ++ configMaps dataForMode) ([] ++ secrets dataForMode))
         end
     end : M _).
  destruct (String.eqb_spec mode PreservationModeNone) as [->|Hne]; [by apply Hlast|].
  rewrite restore_selector by (done || left). apply wp_bind. eapply wp_mono; [apply resources_listed|].
  intros o s' w' ev (-> & -> & ->). cbn [configMaps secrets app]. rewrite Hm. apply Hlast.
Qed.

Lemma backup_doomed l r m o :
  r ∈ l -> m ∈ modes -> backup_of m r o -> Res_Name r ∈ doomed l.
Proof.
  intros Hr Hm Hb. assert (Hl : Res_Name r ∈ listed secretResourceType (SelExists (kept_label m)) l).
  { destruct (backup_key _ _ _ Hb) as (Hk & Hn & _). apply listed_spec. exists r. split_and!; try done.
    apply bool_decide_eq_true. destruct (backup_labels m r o Hb) as (t & -> & _). rewrite lookup_insert_eq. by eexists. }
  unfold doomed. apply elem_of_app. apply elem_of_cons in Hm as [->|Hm%list_elem_of_singleton]; [|subst m; by right].
  left. destruct (String.eqb_spec mode PreservationModeNone) as [He|_]; [|done].
  destruct Hb as (_ & [(sel & Hsel & _) _] & _). by rewrite He in Hsel.
Qed.

(** The clean-up deletes every backup and nothing else, without an error. *)
Lemma Cleanup_on_hub w :
  on_hub all_restored w ->
  wp (Cleanup : M _) (fun o s' w' _ =>
    (exists b, o = Ret (b, None)) /\ s' = ci /\ on_hub cleaned_up w') ci w.
Proof.
  intros Hw. unfold Cleanup. apply wp_bind, wp_get. assert (Hc := Hci). destruct Hc as (Hn & _ & Hm & _).
  rewrite Hm. apply wp_bind, wp_outcome, wp_bind. rewrite Hn.
  eapply wp_mono; [by apply Cleanup_data_on_hub|]. intros o s' w' ev (-> & -> & ->). cbn [configMaps secrets].
  apply wp_bind, wp_bind, wp_ret, wp_ret, wp_bind. cbn [fst snd].
  assert (Hnames : Forall backup_name (doomed (cl_resources w))).
  { destruct Hw as (_ & _ & [Ho _]). apply Forall_app. split; [|by apply kept_names; [|right; left]].
    destruct (String.eqb mode PreservationModeNone); [done|]. by apply kept_names; [|left]. }
  eapply wp_mono; [by apply delete_all|].
  intros o s' w1 ev1 ((b & ->) & -> & (Hnow & Hobj & Hrest) & Hsub & Hgone). apply wp_ret. cbn [fst snd].
  split; [by exists b|]. split; [done|]. split; [done|]. split; [done|]. split; [done|].
  intros r Hr Hrn Hk. destruct Hrest as [[_ Hall] _]. destruct (Hall r Hr Hrn Hk) as [Hp|(m & o & Hm' & Hb)]; [done|].
  exfalso. assert (Hd := backup_doomed (cl_resources w) r m o (Hsub r Hr) Hm' Hb).
  rewrite Forall_forall in Hgone. apply (Hgone _ Hd r Hr). destruct (backup_key _ _ _ Hb) as (Hk' & _).
  unfold rid, Res_key. congruence.
Qed.
End stock.
