(* ===== verification/ReinstallHub.v ===== *)
(** * A reinstall request on a hub

    On the in-memory cluster a reinstall request completes in every preservation mode, with what
    the mode selects on the hub again as it was, also when it has been lost in between; and no
    backup is left. *)
From S2P Require Import Prelude GoStd JsonDiff JsonCodec Types Errors Conditions Samples K8s.
From S2P Require Import Cluster Retry Requeue RenderedObject RenderedSpec Pause Configuration.
From S2P Require Import Deletion DeletionSpec Preservation PreservationSpec Reinstall ReinstallSpec.
From S2P Require Import Obliging ReinstallProgress PreservationHub.

(** The request of [ci], with what its mode selects. *)
Definition stock_of (ci : ClusterInstance) (spec : ReinstallSpec) (table : gmap (string * string) (smap * smap * smap)) : stock :=
  mkStock (Key_Namespace (CI_key ci))
    (GenerateOwnedByLabelValue (Key_Namespace (CI_key ci)) (Key_Name (CI_key ci)))
    (RSpec_Generation spec) (RSpec_PreservationMode spec) table.

(** A manifest that is on no hub with the other objects [objects]. *)
Definition absent_from (objects : list (string * string * ObjectKey * ObjectMeta)) (id : manifest_id) : Prop :=
  ~ resource_kind id.1.1.2
  /\ forall x, x ∈ objects -> same_object (default "" id.1.1.1) id.1.1.2 (mkObjectKey id.2 id.1.2) x = false.

Lemma hub_obliging objects P : obliging (W := cluster) (on_hub objects P) (absent_from objects).
Proof.
  split; [apply _| | |exact cluster_errors_plain].
  - intros old new w. by eexists.
  - intros o w (Hnow & Hobj & HP) [Hk Hnone]. simpl in Hk, Hnone. simpl. rewrite Hobj.
    assert (Hf : List.find (same_object (GetAPIVersion o) (GetKind o) (object_key o)) objects = None).
    { destruct (List.find _ _) as [x|] eqn:Hf; [|done]. apply find_some in Hf as [Hin Hx].
      assert (Hx' := Hnone x ltac:(by apply list_elem_of_In)). unfold object_key in Hx. congruence. }
    rewrite Hf. exists (not_found (GetKind o)), w. split; [|by split_and!].
    destruct (find_resource (GetKind o) (object_key o) w) as [r|e]; [|done].
    assert (Hr : is_resource (GetAPIVersion o) (GetKind o) = false); [|by rewrite Hr].
    unfold is_resource. destruct (String.eqb_spec (GetKind o) "ConfigMap") as [He|_]; [by destruct Hk; left|].
    destruct (String.eqb_spec (GetKind o) "Secret") as [He|_]; [by destruct Hk; right|]. by rewrite andb_false_r.
Qed.

(** A request that can be processed on a hub: [table] is what its mode selects, [objects] are the
    objects of other kinds. The manifests that [ci] tracks are gone; what the mode selects is none of
    the operator's own Secrets; a backup of the cluster's identity has something to preserve. *)
Record hub_request (ci : ClusterInstance) (spec : ReinstallSpec)
    (table : gmap (string * string) (smap * smap * smap))
    (objects : list (string * string * ObjectKey * ObjectMeta)) : Prop := {
  hr_spec : Spec_Reinstall (CI_Spec ci) = Some spec;
  hr_generation : RSpec_Generation spec <> "";
  hr_mode : user_mode (RSpec_PreservationMode spec);
  hr_namespace : Key_Namespace (CI_key ci) <> "";
  hr_none : RSpec_PreservationMode spec = PreservationModeNone -> table = ∅;
  hr_identity : RSpec_PreservationMode spec = PreservationModeClusterIdentity ->
    table_count (stock_of ci spec table) resourceCategoryClusterIdentity <> 0;
  hr_secrets : forall n, n ∈ clusterInstanceSecrets ci ->
    ~ backup_name (stock_of ci spec table) n /\ table !! ("Secret", n) = None;
  hr_objects : forall x, x ∈ objects -> ~ resource_kind x.1.1.2;
  hr_manifests : Forall (fun m => reference_ok m /\ absent_from objects (MRef_identity m))
    (Status_ManifestsRendered (CI_Status ci))
}.

Section request.
Context `{ResourceYaml} `{TimeText} `{SpecText}.

(** The YAML library reads back what it has written (empty labels are written as none), and the
    text of a time is not empty. *)
Context (yaml : forall r, resource_kind (Res_Kind r) -> Res_Labels r <> Some ∅ ->
  exists data, Resource_Marshal (sanitizeResourceMetadata r) = Ok data
    /\ Resource_Unmarshal (Res_Kind r) data = Ok (sanitizeResourceMetadata r)).
Context (format : forall t, Format_RFC3339 t <> "").

(** On the cluster the programs of [Preservation] do what a request needs of them. *)
Lemma hub_preserving ci spec table objects (hr : hub_request ci spec table objects) :
  let st := stock_of ci spec table in
  preserving (on_hub objects (nothing_lost st)) (absent_from objects) (hub_report st)
    (on_hub objects (all_backed_up st)) (on_hub objects (all_restored st)) (on_hub objects (cleaned_up st)) ci spec.
Proof.
  intros st. destruct hr as [Hspec Hgen Hmode Hns Hnone Hid Hsec Hobj _].
  assert (Hown : st_owner st <> "") by apply owned_by_nonempty.
  assert (Hci : forall s, same_spec ci s -> Key_Namespace (CI_key s) = st_ns st
    /\ GenerateOwnedByLabelValue (st_ns st) (Key_Name (CI_key s)) = st_owner st
    /\ preservation_mode s = Ret (st_mode st) /\ reinstall_generation s = st_gen st).
  { intros s [Hs Hm]. unfold CI_key, preservation_mode, reinstall_generation. rewrite Hm, Hs, Hspec. done. }
  assert (Hsecrets : forall s, same_spec ci s -> forall n, n ∈ clusterInstanceSecrets s ->
    ~ backup_name st n /\ st_table st !! ("Secret", n) = None).
  { intros s [Hs _] n. unfold clusterInstanceSecrets. rewrite Hs. apply Hsec. }
  split.
  - done.
  - apply hub_obliging.
  - apply _.
  - apply _.
  - intros w (? & ? & Hb). by split_and!; [| |apply backed_up_safe].
  - intros w (? & ? & Hr). by split_and!; [| |apply restored_safe].
  - intros s Hs w Hw. destruct (Hci s Hs) as (-> & _). eapply wp_mono.
    { apply (labels_on_hub st Hmode objects s); [by apply Hci|by apply Hsecrets|exact Hw]. }
    intros o s' w' ev (-> & -> & Hw'). done.
  - intros Hm. unfold hub_report. change (st_mode st) with (RSpec_PreservationMode spec). rewrite Hm.
    split; [done|]. assert (Htab : forall P, tabled st P).
    { intros P id [c Hc]. change (st_table st) with table in Hc. rewrite (Hnone Hm), lookup_empty in Hc. done. }
    split; intros w (? & ? & [? _]); by split_and!.
  - intros Hm s Hs w Hw. eapply wp_mono.
    { apply (Backup_on_hub st Hmode objects Hown Hgen Hns yaml s); [by apply Hci|done|exact Hw]. }
    intros o s' w' ev (-> & -> & Hw'). done.
  - intros Hm s Hs w Hw. eapply wp_mono.
    { apply (preservation_reported st Hmode objects Hns s (Hci s Hs) Hid spec); [|done|exact Hw].
      destruct Hs as [-> _]. exact Hspec. }
    intros o s' w' ev (-> & -> & ->). done.
  - intros Hm s Hs w Hw. eapply wp_mono.
    { apply (Restore_on_hub st Hmode objects Hown Hgen Hns s); [by apply Hci|done|done|exact Hw]. }
    intros o s' w' ev (-> & -> & Hw'). done.
  - intros Hm s Hs w Hw. eapply wp_mono.
    { apply (restoration_reported st Hmode objects Hns s (Hci s Hs) Hid spec); [|done|exact Hw].
      destruct Hs as [-> _]. exact Hspec. }
    intros o s' w' ev (-> & -> & ->). done.
  - intros s Hs w Hw. eapply wp_mono.
    { apply (Cleanup_on_hub st Hmode objects Hns s); [by apply Hci|exact Hobj|exact Hw]. }
    intros o s' w' ev ((b & ->) & -> & Hw'). done.
Qed.

End request.

(** ** What is lost between the runs *)

(** The resource [id] goes away, as it does when the cluster is torn down, if its backup is
    there; and time passes. *)
Definition lose (st : stock) (id : string * string) (w : cluster) : cluster :=
  match find_resource "Secret" (mkObjectKey (st_ns st) (generateBackupName id.1 id.2 (st_gen st))) w,
        find_resource id.1 (mkObjectKey (st_ns st) id.2) w with
  | Ok _, Ok r => remove_resource r w
  | _, _ => w
  end.

Definition later (w : cluster) : cluster :=
  mkCluster (Z.max 1 (cl_now w + Second)) (cl_ci w) (cl_objects w) (cl_resources w) (cl_deployments w)
    (cl_managed w) (cl_imagesets w).

Section losing.
Context `{ResourceYaml} (st : stock) (Hmode : user_mode (st_mode st)).

Lemma lose_nothing objects id w :
  resource_kind id.1 -> (id.1 = "Secret" -> ~ backup_name st id.2) ->
  on_hub objects (nothing_lost st) w -> on_hub objects (nothing_lost st) (later (lose st id w)).
Proof.
  intros Hk Hnot Hw. enough (Hl : on_hub objects (nothing_lost st) (lose st id w)).
  { destruct Hl as (_ & Hobj & Hl). split; [|by split]. unfold later, IsZero. simpl. apply Z.eqb_neq. lia. }
  destruct Hw as (Hnow & Hobj & [Ho Ht]). unfold lose.
  pose proof (find_resource_spec "Secret" (mkObjectKey (st_ns st) (generateBackupName id.1 id.2 (st_gen st))) w) as Hb.
  destruct (find_resource "Secret" _ w) as [b|e]; [|by split_and!]. destruct Hb as [Hb Hbid].
  pose proof (find_resource_spec id.1 (mkObjectKey (st_ns st) id.2) w) as Hr.
  destruct (find_resource id.1 _ w) as [r|e]; [|by split_and!]. destruct Hr as [Hr Hrid].
  assert (Hin : forall x, x ∈ cl_resources (remove_resource r w) <-> x ∈ cl_resources w /\ rid x <> rid r).
  { intros x. unfold remove_resource, with_resources. simpl. rewrite list_elem_of_In, filter_In, <-list_elem_of_In.
    by rewrite same_resource_rid, negb_true_iff, bool_decide_eq_false. }
  split; [done|]. split; [done|]. split.
  { destruct Ho as [Hu Hall]. split; [apply (NoDup_filter rid), Hu|]. intros x Hx. apply Hall. by apply Hin. }
  assert (Hbk := f_equal fst Hbid). assert (Hbn := f_equal Key_Name (f_equal snd Hbid)).
  assert (Hbns := f_equal Key_Namespace (f_equal snd Hbid)). simpl in Hbk, Hbn, Hbns.
  destruct (plain_or_backup st (cl_resources w) b) as (m & o & Hm & Hbak); try done;
    [by right|rewrite Hbn; by eexists _, _|].
  assert (Hname : name_of o = id).
  { destruct (backup_key _ _ _ _ Hbak) as (_ & _ & Hn & Hko & _). rewrite Hbn in Hn.
    apply generateBackupName_inj in Hn as [Hkk Hnn]; [|by apply resource_kind_list..].
    destruct id. unfold name_of. simpl in *. congruence. }
  intros id' Hid'. destruct (Ht id' Hid') as [(x & Hx & Hxn & Hp & Hs)|(x & o' & Hx & Hxb & Hxn)].
  - destruct (decide (rid x = rid r)) as [Heq|Hne]; [|left; exists x; split_and!; try done; by apply Hin].
    right. assert (Hid : id' = id).
    { rewrite <-Hxn. rewrite Hrid in Heq. assert (H1 := f_equal fst Heq). assert (H2 := f_equal Key_Name (f_equal snd Heq)).
      unfold name_of. destruct id. simpl in *. congruence. }
    subst id'. rewrite Hid in Hid'. exists b, o. split_and!; [| |congruence].
    + apply Hin. split; [done|]. rewrite Hbid, Hrid. intros He. assert (H1 := f_equal fst He).
      assert (H2 := f_equal Key_Name (f_equal snd He)). simpl in H1, H2. apply (Hnot (eq_sym H1)).
      rewrite <-H2. by eexists _, _.
    + apply elem_of_cons in Hm as [->|Hm%list_elem_of_singleton]; [done|]. subst m.
      destruct Hbak as (_ & Hw & _). apply wants_internal in Hw. rewrite Hname in Hw. rewrite Hw in Hid'. by destruct Hid'.
  - right. exists x, o'. split_and!; [|done|done]. apply Hin. split; [done|]. rewrite Hrid. intros Heq.
    destruct (backup_key _ _ _ _ Hxb) as (Hxk & _ & _ & _ & Hxbn). assert (H1 := f_equal fst Heq).
    assert (H2 := f_equal Key_Name (f_equal snd Heq)). simpl in H1, H2. rewrite H2 in Hxbn.
    apply Hnot; [congruence|done].
Qed.
End losing.

(** ** Example *)

(** A YAML library: the text is a number in binary that codes the resource. *)
#[local] Instance Resource_countable : Countable Resource.
Proof.
  refine (inj_countable'
    (fun r => (Res_Kind r, Res_Namespace r, Res_Name r, Res_Labels r, Res_Annotations r, Res_ResourceVersion r,
               (Res_UID r, Res_CreationTimestamp r, Res_OwnerReferences r, Res_Type r, Res_Immutable r, Res_Data r)))
    (fun '(k, ns, n, l, a, v, (u, t, o, ty, i, d)) => mkResource k ns n l a v u t o ty i d) _).
  by intros [].
Defined.

Definition digit (b : bool) : Ascii.ascii := Ascii.Ascii b false false false true true false false.

Fixpoint bits (p : positive) : string :=
  match p with
  | xH => EmptyString
  | xO p => String (digit false) (bits p)
  | xI p => String (digit true) (bits p)
  end.

Fixpoint of_bits (s : string) : positive :=
  match s with
  | EmptyString => xH
  | String c s => if Ascii.eqb c (digit true) then xI (of_bits s) else xO (of_bits s)
  end.

Lemma of_bits_bits p : of_bits (bits p) = p.
Proof. induction p as [p IH|p IH|]; simpl; congruence. Qed.

#[local] Instance coded_yaml : ResourceYaml := {|
  Resource_Marshal := fun r => Ok (bits (encode r));
  Resource_Unmarshal := fun _ text =>
    match decode (of_bits text) with
    | Some r => Ok r
    | None => Err (ErrorString "not a resource")
    end
|}.

Lemma coded_yaml_reads_back r : resource_kind (Res_Kind r) -> Res_Labels r <> Some ∅ ->
  exists data, Resource_Marshal (sanitizeResourceMetadata r) = Ok data
    /\ Resource_Unmarshal (Res_Kind r) data = Ok (sanitizeResourceMetadata r).
Proof. intros _ _. eexists. split; [reflexivity|]. simpl. by rewrite of_bits_bits, decode_encode. Qed.

#[local] Existing Instances ReinstallProgress.fixed_time ReinstallProgress.no_spec_text.

Lemma fixed_time_text t : Format_RFC3339 t <> "".
Proof. discriminate. Qed.

(** A request to preserve the identity of [sno], which tracks two manifests. *)
Definition preserving_request : ClusterInstance :=
  sno_preserving <| CI_Status ::= fun s =>
    s <| Status_ManifestsRendered := [wave_ref "AgentClusterInstall" "a" 1; wave_ref "InfraEnv" "b" 2] |> |>.

Definition bmc_secret : Resource :=
  mkResource "Secret" "site-sno" "bmc-secret" None ∅ "3" "uid" 5 [] "Opaque" None {["password" := "secret"]}.

Definition identity_table : gmap (string * string) (smap * smap * smap) :=
  {[name_of identity_map := content identity_map]}.

Definition site_hub : cluster := with_resources [identity_map; bmc_secret] (empty_cluster 100).

Abbreviation preserve_identity := (mkReinstallSpec "gen-1" PreservationModeClusterIdentity).
Abbreviation site_stock := (stock_of preserving_request preserve_identity identity_table).

Lemma not_backup_name n : negb (String.prefix "configmap-" n || String.prefix "secret-" n) = true -> ~ backup_name site_stock n.
Proof.
  assert (Hp : forall s, String.prefix EmptyString s = true) by (by intros []).
  intros Hn (k & n' & Hk & ->). rewrite backup_name_text in Hn. destruct Hk as [-> | ->];
    [change (ToLower configMapResourceType) with "configmap" in Hn|change (ToLower secretResourceType) with "secret" in Hn];
    rewrite !sapp_cons, !sapp_nil_l in Hn; simpl in Hn; by rewrite Hp, ?orb_true_r in Hn.
Qed.

Lemma site_request : hub_request preserving_request preserve_identity identity_table [].
Proof.
  split; try done.
  - by right; right.
  - intros n Hn. assert (Hn' : n = "pull-secret" \/ n = "bmc-secret").
    { apply elem_of_cons in Hn as [Hn|Hn%list_elem_of_singleton]; [by left|by right]. }
    destruct Hn' as [-> | ->]; (split; [by apply not_backup_name|]); unfold identity_table;
      by rewrite lookup_singleton_ne.
  - by intros x ?%not_elem_of_nil.
  - apply Forall_and. split; [repeat constructor; vm_compute; congruence || eauto|].
    by repeat (apply Forall_cons; split; [split; [by intros [? | ?]|by intros x ?%not_elem_of_nil]|]).
Qed.

Lemma site_nothing_lost : on_hub [] (nothing_lost site_stock) site_hub.
Proof.
  assert (Hmap : plain site_stock identity_map).
  { split.
    - split_and!; [done|by left| |done]. intros m. unfold kept_label.
      destruct (String.eqb m PreservationModeInternal); vm_compute; reflexivity.
    - intros m Hm Hs. split; [done|]. apply elem_of_cons in Hm as [->|Hm%list_elem_of_singleton].
      + rewrite decide_False by done. split; [apply lookup_singleton_eq|reflexivity].
      + subst m. destruct Hs as (sel & [= <-] & Hmatch). discriminate Hmatch. }
  assert (Hbmc : plain site_stock bmc_secret).
  { split.
    - split_and!; [done|by right|by intros m|by intros _; apply not_backup_name].
    - intros m Hm (sel & Hsel & Hmatch). exfalso. apply elem_of_cons in Hm as [->|Hm%list_elem_of_singleton]; [|subst m];
        injection Hsel as <-; discriminate Hmatch. }
  split; [done|]. split; [done|]. split; [split|].
  - apply (bool_decide_eq_true_1 (NoDup _)). vm_compute. reflexivity.
  - intros r [->|Hr%list_elem_of_singleton]%elem_of_cons _ _; [by left|subst r; by left].
  - intros id [c Hc]. left. exists identity_map. change (identity_table !! id = Some c) in Hc.
    unfold identity_table in Hc. apply lookup_singleton_Some in Hc as [<- _].
    split; [left|]. split; [done|]. split; [done|]. by eexists.
Qed.


(** It takes eight runs; the ConfigMap is back and its backup is gone. *)
Example preserving_request_runs :
  let run k := next_run with_reinstalls (before_run with_reinstalls
    (fun _ w => later (lose site_stock (name_of identity_map) w)) k (preserving_request, site_hub)) in
  option_map RS_ObservedGeneration (Status_Reinstall (CI_Status (run 6).1)) = Some ""
  /\ option_map RS_ObservedGeneration (Status_Reinstall (CI_Status (run 7).1)) = Some "gen-1"
  /\ List.map Res_Name (cl_resources (run 7).2) = ["extra-config"; "bmc-secret"].
Proof. vm_compute. done. Qed.
