(* ===== verification/RequestMachine.v ===== *)
(** * An abstract specification of the reinstall workflow

    What a reinstall request may go through, as guarded steps on what the status says of it:
    which generation is in progress and which was observed last, whether the request has been
    started and ended, the verdict of each condition, and the generations of the history. Times
    and messages are left out, and so is everything that is not in the status: what a backup or a
    deletion came to is the step's choice. [ReinstallRefines] shows that [ProcessRequest] makes
    these steps only. *)
From S2P Require Import Prelude GoStd Types Conditions Configuration Reinstall.

(** The status and the reason of a condition. *)
Definition verdict : Type := (string * string)%type.

Record request := mkRequest {
  rq_generation : string;      (* in progress *)
  rq_observed : string;
  rq_started : bool;
  rq_ended : bool;
  rq_verdicts : gmap string verdict;
  rq_history : list string
}.

#[export] Instance rq_started_set : Setter rq_started := fun f q =>
  mkRequest (rq_generation q) (rq_observed q) (f (rq_started q)) (rq_ended q) (rq_verdicts q) (rq_history q).
#[export] Instance rq_ended_set : Setter rq_ended := fun f q =>
  mkRequest (rq_generation q) (rq_observed q) (rq_started q) (f (rq_ended q)) (rq_verdicts q) (rq_history q).
#[export] Instance rq_verdicts_set : Setter rq_verdicts := fun f q =>
  mkRequest (rq_generation q) (rq_observed q) (rq_started q) (rq_ended q) (f (rq_verdicts q)) (rq_history q).

Definition judge (conditionType : string) (v : verdict) (q : request) : request :=
  q <| rq_verdicts ::= <[conditionType := v]> |>.

(** [v] is the verdict of the condition. *)
Definition says (q : request) (conditionType : string) (v : verdict) : Prop :=
  rq_verdicts q !! conditionType = Some v.

Definition in_progress : verdict := (ConditionFalse, InProgress).
Definition failed : verdict := (ConditionFalse, Failed).
Definition completed : verdict := (ConditionTrue, Completed).
Definition not_required : verdict := (ConditionFalse, PreservationNotRequired).
Definition unavailable : verdict := (ConditionFalse, DataUnavailable).

(** ** A request from its opening to its end *)

Definition no_request (generation : string) : request := mkRequest generation "" false false ∅ [].

(** Every condition is set back; those of another generation are forgotten. *)
Definition opened (generation : string) (old : option request) : request :=
  let q := default (no_request generation) old in
  mkRequest generation (rq_observed q) false false
    (fold_left (fun m t => <[t := (ConditionUnknown, Initialized)]> m) reinstallConditionTypes
       (if String.eqb (rq_generation q) generation then rq_verdicts q else ∅))
    (rq_history q).

Definition closed_request (generation : string) (q : request) : request :=
  mkRequest "" generation (rq_started q) true (rq_verdicts q)
    (if bool_decide (generation ∈ rq_history q) then rq_history q else rq_history q ++ [generation]).

(** The verdicts a backup may come to, on the data and on the cluster's identity. *)
Inductive backup_verdicts (mode : string) : verdict -> verdict -> Prop :=
  | backup_not_required :
      mode = PreservationModeNone -> backup_verdicts mode not_required not_required
  | backup_failed :
      mode <> PreservationModeNone -> backup_verdicts mode failed failed
  | backup_nothing :
      mode <> PreservationModeNone -> mode <> PreservationModeClusterIdentity ->
      backup_verdicts mode unavailable unavailable
  | backup_other :
      mode <> PreservationModeNone -> mode <> PreservationModeClusterIdentity ->
      backup_verdicts mode completed unavailable
  | backup_identity :
      mode <> PreservationModeNone -> backup_verdicts mode completed (ConditionTrue, DataAvailable)
  | backup_identity_missing backedup :
      mode = PreservationModeClusterIdentity -> backedup = unavailable \/ backedup = completed ->
      backup_verdicts mode backedup failed.

Inductive restore_verdict (mode : string) : verdict -> Prop :=
  | restore_not_required : mode = PreservationModeNone -> restore_verdict mode not_required
  | restore_failed : mode <> PreservationModeNone -> restore_verdict mode failed
  | restore_nothing :
      mode <> PreservationModeNone -> mode <> PreservationModeClusterIdentity ->
      restore_verdict mode unavailable
  | restore_done : mode <> PreservationModeNone -> restore_verdict mode completed.

Section step.
Context (store : Configuration) (spec : ReinstallSpec).

Let generation : string := RSpec_Generation spec.
Let mode : string := RSpec_PreservationMode spec.

(** The request that the spec asks for is being processed. *)
Definition running (q : request) : Prop :=
  rq_generation q = generation /\ rq_observed q <> generation
  /\ exists v, says q ReinstallRequestProcessed v /\ v.2 <> Initialized
       /\ (rq_ended q = true -> v.1 <> ConditionUnknown -> v.2 ∉ [Completed; Failed; TimedOut]).

Definition admitted (q : request) : Prop :=
  running q /\ allowReinstalls store = true /\ says q ReinstallRequestValidated completed.

Definition under_way (q : request) : Prop := admitted q /\ rq_started q = true.

(** The data is safe: what was last recorded is a verdict of a backup that did not fail. *)
Definition data_safe (q : request) : Prop :=
  under_way q /\ exists backedup, says q ReinstallPreservationDataBackedup backedup
    /\ if String.eqb mode PreservationModeNone then backedup = not_required
       else (backedup = completed \/ backedup = unavailable)
            /\ (mode = PreservationModeClusterIdentity ->
                says q ReinstallClusterIdentityDataDetected (ConditionTrue, DataAvailable)).

(** The manifests have been dealt with. *)
Definition cleared (q : request) : Prop :=
  data_safe q /\ exists v, says q ReinstallRenderedManifestsDeleted v /\ v.2 ∈ [Failed; Completed].

Definition restored (q : request) : Prop :=
  cleared q /\ exists v, says q ReinstallPreservationDataRestored v
    /\ restore_verdict mode v /\ v <> failed.

Inductive request_step : option request -> option request -> Prop :=
  (** A generation that has not been observed is asked for. *)
  | RequestOpened old :
      (forall q, old = Some q -> rq_observed q <> generation
         /\ (rq_generation q <> generation \/ rq_verdicts q !! ReinstallRequestProcessed = None)) ->
      request_step old (Some (opened generation old))
  | RequestStarted q status :
      rq_generation q = generation -> rq_observed q <> generation ->
      says q ReinstallRequestProcessed (status, Initialized) ->
      request_step (Some q) (Some (judge ReinstallRequestProcessed in_progress (q <| rq_started := true |>)))
  | RequestJudged q :
      running q ->
      request_step (Some q) (Some (judge ReinstallRequestValidated
        (if allowReinstalls store then completed else failed) q))
  | ClockStarted q :
      admitted q -> rq_started q = false -> request_step (Some q) (Some (q <| rq_started := true |>))
  | DataPreserved q backedup detected :
      under_way q -> backup_verdicts mode backedup detected ->
      request_step (Some q) (Some (judge ReinstallClusterIdentityDataDetected detected
        (judge ReinstallPreservationDataBackedup backedup q)))
  | DeletionBegun q :
      data_safe q ->
      (forall v, says q ReinstallRenderedManifestsDeleted v -> v.2 = Initialized) ->
      request_step (Some q) (Some (judge ReinstallRenderedManifestsDeleted in_progress q))
  (** The rendered manifests cannot be told from the ManagedCluster. *)
  | DeletionImpossible q :
      data_safe q -> request_step (Some q) (Some (judge ReinstallRenderedManifestsDeleted failed q))
  | DeletionEnded q before after :
      data_safe q ->
      says q ReinstallRenderedManifestsDeleted before ->
      before.2 ∉ [Initialized; Failed; Completed] ->
      after ∈ [failed; (ConditionFalse, TimedOut); completed] ->
      request_step (Some q) (Some (judge ReinstallRenderedManifestsDeleted after q))
  | DataRestored q v :
      cleared q -> restore_verdict mode v ->
      request_step (Some q) (Some (judge ReinstallPreservationDataRestored v q))
  | RequestClosed q :
      restored q -> request_step (Some q) (Some (closed_request generation q))
  | RequestCompleted q :
      rq_generation q = "" -> rq_observed q = generation -> rq_ended q = true ->
      generation ∈ rq_history q ->
      (exists v, says q ReinstallPreservationDataRestored v /\ restore_verdict mode v /\ v <> failed) ->
      request_step (Some q) (Some (judge ReinstallRequestProcessed completed q))
  (** A step that is still to be done, or to be stored. *)
  | RequestReported q :
      rq_generation q = generation \/ rq_observed q = generation ->
      request_step (Some q) (Some (judge ReinstallRequestProcessed in_progress q))
  (** A step has failed: the request ends, unless the deletion is left to be looked into. *)
  | RequestFailed q (ended : bool) :
      rq_generation q = generation -> rq_observed q <> generation ->
      (ended = false -> exists v, says q ReinstallRenderedManifestsDeleted v /\ v.2 <> Initialized) ->
      request_step (Some q) (Some (judge ReinstallRequestProcessed failed (q <| rq_ended ::= orb ended |>)))
  (** After the reinstall: the state of the cluster's import. *)
  | ImportReported q v :
      rq_observed q <> "" -> (exists reason, says q ReinstallRequestProcessed (ConditionTrue, reason)) ->
      v.2 <> Initialized ->
      request_step (Some q) (Some (judge ReinstallClusterReimported v q)).
End step.

(** ** What every request keeps to *)

(** The condition says something of the request in progress. *)
Definition touched (q : request) (conditionType : string) : Prop :=
  exists v, says q conditionType v /\ v.2 <> Initialized.

(** No step is taken before the one it depends on, a request is complete only after all of them,
    and the history has each generation once, the observed one among them. *)
Record orderly (q : request) : Prop := {
  or_backup : touched q ReinstallPreservationDataBackedup ->
    touched q ReinstallRequestValidated /\ rq_started q = true;
  or_deletion : touched q ReinstallRenderedManifestsDeleted -> touched q ReinstallPreservationDataBackedup;
  or_restore : touched q ReinstallPreservationDataRestored -> touched q ReinstallRenderedManifestsDeleted;
  or_complete : says q ReinstallRequestProcessed completed ->
    touched q ReinstallPreservationDataRestored /\ rq_generation q = "" /\ rq_ended q = true
    /\ rq_observed q ∈ rq_history q;
  or_history : NoDup (rq_history q);
  or_observed : rq_observed q = "" \/ rq_observed q ∈ rq_history q
}.

Lemma says_judge q t v u v' : says (judge t v q) u v' <-> if String.eqb u t then v' = v else says q u v'.
Proof.
  unfold says, judge. simpl. destruct (String.eqb_spec u t) as [->|].
  - rewrite lookup_insert_eq. naive_solver.
  - by rewrite lookup_insert_ne by congruence.
Qed.

Lemma touched_judge q t v u : v.2 <> Initialized -> touched q u -> touched (judge t v q) u.
Proof.
  intros Hv (v' & Hs & Hv'). destruct (String.eqb u t) eqn:Heq.
  - exists v. by rewrite says_judge, Heq.
  - exists v'. by rewrite says_judge, Heq.
Qed.

Lemma touched_judge_eq q t v u :
  v.2 <> Initialized -> touched (judge t v q) u <-> u = t \/ touched q u.
Proof.
  intros Hv. split.
  - intros (v' & Hs & Hv'). apply says_judge in Hs. destruct (String.eqb_spec u t); [by left|]. right. by exists v'.
  - intros [->|Ht]; [|by apply touched_judge]. exists v. by rewrite says_judge, String.eqb_refl.
Qed.

Lemma orderly_judge q t v :
  orderly q -> v.2 <> Initialized ->
  (t = ReinstallPreservationDataBackedup -> touched q ReinstallRequestValidated /\ rq_started q = true) ->
  (t = ReinstallRenderedManifestsDeleted -> touched q ReinstallPreservationDataBackedup) ->
  (t = ReinstallPreservationDataRestored -> touched q ReinstallRenderedManifestsDeleted) ->
  (t = ReinstallRequestProcessed -> v = completed ->
     touched q ReinstallPreservationDataRestored /\ rq_generation q = "" /\ rq_ended q = true
     /\ rq_observed q ∈ rq_history q) ->
  orderly (judge t v q).
Proof.
  intros [] Hv Hb Hd Hr Hp. split; rewrite ?touched_judge_eq by done; cbn [rq_started rq_generation rq_ended
    rq_observed rq_history judge set rq_verdicts_set]; try done; [naive_solver..|].
  rewrite says_judge. destruct (String.eqb_spec ReinstallRequestProcessed t); naive_solver.
Qed.

Lemma orderly_started q : orderly q -> orderly (q <| rq_started := true |>).
Proof. intros []. split; [|done..]. intros Hb. by destruct (or_backup0 Hb). Qed.

Lemma orderly_ended q b : orderly q -> orderly (q <| rq_ended ::= orb b |>).
Proof.
  intros []. split; [done..| |done|done]. intros Hc. destruct (or_complete0 Hc) as (? & ? & Hb & ?).
  repeat split; try done. simpl. rewrite Hb. by destruct b.
Qed.

Lemma opened_says generation old t :
  t ∈ reinstallConditionTypes -> says (opened generation old) t (ConditionUnknown, Initialized).
Proof.
  unfold says, opened. simpl. generalize (if String.eqb (rq_generation (default (no_request generation) old)) generation
    then rq_verdicts (default (no_request generation) old) else ∅). intros m Ht.
  unfold reinstallConditionTypes in Ht. set_unfold in Ht.
  destruct_or? Ht; subst; repeat first [by apply lookup_insert_eq | rewrite lookup_insert_ne by done].
Qed.

Lemma opened_untouched generation old t :
  t ∈ reinstallConditionTypes -> ~ touched (opened generation old) t.
Proof. intros Ht (v & Hs & Hv). pose proof (opened_says generation old t Ht) as Ho. unfold says in *. by simplify_eq. Qed.

Lemma opened_orderly generation old : from_option orderly True old -> orderly (opened generation old).
Proof.
  assert (Hin : forall t, List.existsb (String.eqb t) reinstallConditionTypes = true -> t ∈ reinstallConditionTypes).
  { intros t (u & Hu & ->%String.eqb_eq)%existsb_exists. by apply list_elem_of_In. }
  intros Hold. split; try (intros Ht; exfalso; revert Ht; apply opened_untouched, Hin; reflexivity).
  - intros Hc. pose proof (opened_says generation old ReinstallRequestProcessed
      (Hin ReinstallRequestProcessed eq_refl)) as Ho.
    unfold says in *. by simplify_eq.
  - destruct old as [q|]; [apply Hold|]. apply NoDup_nil_2.
  - destruct old as [q|]; [apply Hold|]. by left.
Qed.

Lemma closed_orderly generation q :
  orderly q -> touched q ReinstallPreservationDataRestored -> orderly (closed_request generation q).
Proof.
  intros [] Ht. assert (Hin : generation ∈ rq_history (closed_request generation q)).
  { simpl. case_bool_decide; set_solver. }
  split; [done..| | |by right].
  - done.
  - simpl. case_bool_decide; [done|]. apply NoDup_app. split; [done|]. split; [set_solver|apply NoDup_singleton].
Qed.

Lemma admitted_touched store spec q : admitted store spec q -> touched q ReinstallRequestValidated.
Proof. intros (_ & _ & Hv). by exists completed. Qed.

Lemma safe_touched store spec q : data_safe store spec q -> touched q ReinstallPreservationDataBackedup.
Proof.
  intros (_ & b & Hb & Hm). exists b. split; [done|]. destruct (String.eqb _ _); [by subst|].
  by destruct Hm as [[->| ->] _].
Qed.

Lemma cleared_touched store spec q : cleared store spec q -> touched q ReinstallRenderedManifestsDeleted.
Proof. intros (_ & v & Hv & Hr). exists v. split; [done|]. set_unfold in Hr. by destruct Hr as [->|[->|[]]]. Qed.

Lemma restore_verdict_reason mode v : restore_verdict mode v -> v.2 <> Initialized.
Proof. by intros []. Qed.

Lemma restored_touched store spec q : restored store spec q -> touched q ReinstallPreservationDataRestored.
Proof. intros (_ & v & Hv & Hr & _). exists v. split; [done|by eapply restore_verdict_reason]. Qed.

(** Every step keeps to the order. *)
Lemma step_orderly store spec old new :
  request_step store spec old new -> from_option orderly True old -> from_option orderly True new.
Proof.
  intros [|q s _ _ _|q _|q|q b d Hu Hbd|q Hs _|q Hs|q before after Hs _ _ Ha|q v Hc Hv|q Hr|q Hg Ho He Hin Hr|q _|q e _ _ _|q v _ _ Hv];
    simpl; intros Hq.
  - by apply opened_orderly.
  - apply orderly_judge; [by apply orderly_started|done..].
  - apply orderly_judge; [done| |done..]. by destruct (allowReinstalls store).
  - by apply orderly_started.
  - assert (Hbr : b.2 <> Initialized /\ d.2 <> Initialized).
    { destruct Hbd as [| | | | |b' _ [->| ->]]; done. }
    destruct Hbr as [Hb Hd]. destruct Hu as [Ha Hst]. apply admitted_touched in Ha.
    apply orderly_judge; [|done..]. by apply orderly_judge.
  - apply orderly_judge; try done. intros _. by apply safe_touched in Hs.
  - apply orderly_judge; try done. intros _. by apply safe_touched in Hs.
  - apply orderly_judge; try done.
    + set_unfold in Ha. destruct_or? Ha; by subst.
    + intros _. by apply safe_touched in Hs.
  - apply orderly_judge; try done; [by eapply restore_verdict_reason|].
    intros _. by apply cleared_touched in Hc.
  - apply closed_orderly; [done|by apply restored_touched in Hr].
  - apply orderly_judge; try done. intros _ _. destruct Hr as (v & Hv & Hr & _). repeat split; try done.
    + exists v. split; [done|by eapply restore_verdict_reason].
    + by rewrite Ho.
  - by apply orderly_judge.
  - apply orderly_judge; [by apply orderly_ended|done..].
  - by apply orderly_judge.
Qed.

(** The history only grows, and the observed generation changes when a request is closed only. *)
Lemma step_history store spec old new :
  request_step store spec old new ->
  from_option rq_history [] old `prefix_of` from_option rq_history [] new.
Proof.
  intros []; simpl; try done.
  - destruct old0; [done|]. apply prefix_nil.
  - case_bool_decide; [done|]. by apply prefix_app_r.
Qed.
