(* ===== verification/Reimport.v ===== *)
(** * Importing a reinstalled cluster again (internal/controller/reinstall/reimport.go)

    After a reinstall has completed and the cluster is provisioned, the hub's ManagedCluster is
    watched until it is healthy; if it is still not after a grace period, the klusterlet manifests
    are applied to the cluster itself, through a client made from the cluster's kubeconfig.
    Reading a kubeconfig and making a client of it are client-go's ([RESTConfigFromKubeConfig],
    [NewSpokeClient]); the program uses one such client at a time. *)
From Stdlib Require Import Ascii.
From S2P Require Import Prelude GoStd Types Errors Conditions K8s Retry Requeue.
From S2P Require Import RenderedObject Configuration Preservation Reinstall.

(* src: src/internal/controller/reinstall/reimport.go 45-65 PostProvisioningGracePeriod *)
Definition PostProvisioningGracePeriod : Duration := (5 * Minute)%Z.
Definition GracePeriodRecheckInterval : Duration := (1 * Minute)%Z.
Definition ReimportRecheckInterval : Duration := (30 * Second)%Z.
Definition SpokeClientTimeout : Duration := (30 * Second)%Z.
Definition KubeconfigSecretKey : string := "kubeconfig".

(** open-cluster-management.io/api/cluster/v1 *)
Definition ManagedClusterConditionAvailable : string := "ManagedClusterConditionAvailable".
Definition ManagedClusterConditionJoined : string := "ManagedClusterJoined".
Definition ManagedClusterImportSucceeded : string := "ManagedClusterImportSucceeded".

(** ** The health of a ManagedCluster *)

(* src: src/internal/controller/reinstall/reimport.go 540-549 clusterHealthStatus *)
Record clusterHealthStatus := mkClusterHealthStatus {
  isHealthy : bool;
  availableStatus : string;
  availableReason : string;
  availableMessage : string;
  importStatus : string;
  importReason : string;
  importMessage : string;
  joinedStatus : string
}.

Definition condition_true (c : option Condition) : bool :=
  match c with Some c => String.eqb (Cond_Status c) ConditionTrue | None => false end.

(* src: src/internal/controller/reinstall/reimport.go 552-592 assessClusterHealth *)
Definition assessClusterHealth (mc : ManagedCluster) : clusterHealthStatus :=
  let findCondition := FindStatusCondition (MC_Conditions mc) in
  let available := findCondition ManagedClusterConditionAvailable in
  let importSucceeded := findCondition ManagedClusterImportSucceeded in
  let joined := findCondition ManagedClusterConditionJoined in
  let get f (c : option Condition) := from_option f "" c in
  mkClusterHealthStatus
    (condition_true available && condition_true importSucceeded && condition_true joined)
    (get Cond_Status available) (get Cond_Reason available) (get Cond_Message available)
    (get Cond_Status importSucceeded) (get Cond_Reason importSucceeded) (get Cond_Message importSucceeded)
    (get Cond_Status joined).

(* src: src/internal/controller/reinstall/reimport.go 612-622 isImportInProgress *)
Definition isImportInProgress (mc : ManagedCluster) : bool :=
  match FindStatusCondition (MC_Conditions mc) ManagedClusterImportSucceeded with
  | None => false
  | Some cond =>
      String.eqb (Cond_Status cond) ConditionFalse
      && (String.eqb (Cond_Reason cond) "ManagedClusterImporting"
          || String.eqb (Cond_Reason cond) "ManagedClusterWaitForImporting")
  end.

(** ** The kubeconfig of the cluster *)

Definition admin_kubeconfig_name (clusterName : string) : string :=
  Sprintf "%s-admin-kubeconfig" [FStr clusterName].

(* src: src/internal/controller/reinstall/reimport.go 448-470 validateAdminKubeconfigSecret *)
Definition validateAdminKubeconfigSecret (secret : Resource) (expectedClusterName : string)
    : option error :=
  if negb (String.eqb (Res_Type secret) "Opaque") then
    Some (Errorf "invalid secret type: expected %s, got %s" [FStr "Opaque"; FStr (Res_Type secret)])
  else if negb (String.eqb (Res_Namespace secret) expectedClusterName) then
    Some (Errorf "secret namespace mismatch: expected %s, got %s"
            [FStr expectedClusterName; FStr (Res_Namespace secret)])
  else if negb (String.eqb (Res_Name secret) (admin_kubeconfig_name expectedClusterName)) then
    Some (Errorf "secret name mismatch: expected %s, got %s"
            [FStr (admin_kubeconfig_name expectedClusterName); FStr (Res_Name secret)])
  else None.

(* src: src/internal/controller/reinstall/reimport.go 494-501 extractKubeconfig *)
Definition extractKubeconfig (secret : Resource) : result string :=
  match Res_Data secret !! KubeconfigSecretKey with
  | Some (String _ _ as data) => Ok data
  | _ => Err (Errorf "secret %s/%s missing kubeconfig data (expected key: %s)"
           [FStr (Res_Namespace secret); FStr (Res_Name secret); FStr KubeconfigSecretKey])
  end.

(** ** Unstructured objects *)

(** [fmt]'s [%v] and [%T] of a decoded value. *)
Fixpoint decoded_text (v : json) : string :=
  match v with
  | JNull => "<nil>"
  | JBool b => FormatBool b
  | JNum l => l
  | JStr s => s
  | JArr l => "[" +:+ Join (List.map decoded_text l) " " +:+ "]"
  | JObj o => "map[" +:+ Join (List.map (fun kv => kv.1 +:+ ":" +:+ decoded_text kv.2) o) " " +:+ "]"
  end.

Definition type_text (v : json) : string :=
  match v with
  | JNull => "<nil>"
  | JBool _ => "bool"
  | JNum l => if all_bytes (fun c => is_digit c || Ascii.eqb c "-")%bool l then "int64" else "float64"
  | JStr _ => "string"
  | JArr _ => "[]interface {}"
  | JObj _ => "map[string]interface {}"
  end.

(** [Ok None] when the field is not found; [visited] are the fields before the next one. *)
(* src: src/vendor/k8s.io/apimachinery/pkg/apis/meta/v1/unstructured/helpers.go 53-71 NestedFieldNoCopy *)
Fixpoint NestedFieldCopy (val : json) (visited path : list string) : result (option json) :=
  match path with
  | [] => Ok (Some val)
  | field :: path =>
      match val with
      | JNull => Ok None
      | JObj m =>
          match obj_get field m with
          | Some v => NestedFieldCopy v (visited ++ [field]) path
          | None => Ok None
          end
      | _ => Err (Errorf "%v accessor error: %v is of the type %T, expected map[string]interface{}"
               [FStr ("." +:+ Join (visited ++ [field]) "."); FStr (decoded_text val); FStr (type_text val)])
      end
  end.

Definition obj_delete (k : string) (m : fields) : fields :=
  List.filter (fun kv => negb (String.eqb kv.1 k)) m.

(** [objCopy.SetManagedFields(nil)] *)
(* src: src/vendor/k8s.io/apimachinery/pkg/apis/meta/v1/unstructured/helpers.go 314-324 RemoveNestedField *)
Definition without_managed_fields (m : fields) : fields :=
  match obj_get "metadata" m with
  | Some (JObj md) => obj_set "metadata" (JObj (obj_delete "managedFields" md)) m
  | _ => m
  end.

(** [%.0f] of [d.Seconds()]: to the nearest integer, ties to even. *)
Definition seconds_text (d : Duration) : string :=
  let q := (d / Second)%Z in
  let r := (d mod Second)%Z in
  Itoa (match Z.compare (2 * r) Second with
        | Lt => q
        | Gt => q + 1
        | Eq => if Z.even q then q else q + 1
        end)%Z.

(** ** Reimporting *)

Section reimport.
Context {W : Type} `{Server W}.

Abbreviation M := (Prog ClusterInstance W Event).

(* src: src/internal/controller/reinstall/reimport.go 520-537 getManagedClusterResource *)
Definition getManagedClusterResource (ci : ClusterInstance) : M (result ManagedCluster) :=
  match getManagedClusterManifest ci with
  | None => mret (Err (Errorf "managedCluster not found in status: %w"
              [FErr NewManagedClusterNotInManifestError]))
  | Some manifest =>
      r ← call (GetManagedCluster (MRef_Name manifest));
      mret (match r with
            | Ok mc => Ok mc
            | Err err => Err (Errorf "failed to get ManagedCluster %s: %w"
                           [FStr (MRef_Name manifest); FErr err])
            end)
  end.

(* src: src/internal/controller/reinstall/reimport.go 474-491 extractKubeconfigFromSecret *)
Definition extractKubeconfigFromSecret (clusterName : string) : M (result string) :=
  let secretName := admin_kubeconfig_name clusterName in
  r ← call (GetResource "Secret" (mkObjectKey clusterName secretName));
  mret (match r with
        | Err err => Err (Errorf "failed to get admin kubeconfig secret %s/%s: %w"
                       [FStr clusterName; FStr secretName; FErr err])
        | Ok secret =>
            match validateAdminKubeconfigSecret secret clusterName with
            | Some err => Err (Errorf "admin kubeconfig secret validation failed: %w" [FErr err])
            | None => extractKubeconfig secret
            end
        end).

(* src: src/internal/controller/reinstall/reimport.go 423-445 applyToSpoke *)
Definition applyToSpoke (obj : fields) : M (option error) :=
  r ← call (ApplyToSpoke (without_managed_fields obj));
  mret (match r with
        | Some err => Some (Errorf "failed to apply object %s/%s: %w"
            [FStr (getNestedString (Some obj) ["metadata"; "namespace"]);
             FStr (getNestedString (Some obj) ["metadata"; "name"]); FErr err])
        | None => None
        end).

(** Manifests that are not objects are skipped; a failure to apply one is only logged. *)
Definition applyManifest (manifest : json) (_ : unit) : M (unit + unit) :=
  match manifest with
  | JObj obj => _ ← applyToSpoke obj; mret (inl tt)
  | _ => mret (inl tt)
  end.

(* src: src/internal/controller/reinstall/reimport.go 351-420 applyManifestWorkToSpoke *)
Definition applyManifestWorkToSpoke (namespace manifestWorkName : string) : M (option error) :=
  r ← call (GetManifestWork (mkObjectKey namespace manifestWorkName));
  match r with
  | Err err => mret (Some (Errorf "failed to get ManifestWork %s/%s: %w"
                 [FStr namespace; FStr manifestWorkName; FErr err]))
  | Ok manifestWork =>
      match NestedFieldCopy (JObj manifestWork) [] ["spec"; "workload"; "manifests"] with
      | Err err => mret (Some (Errorf "failed to extract workload.manifests from ManifestWork: %w" [FErr err]))
      | Ok None => mret (Some (Errorf "manifestWork %s/%s does not contain spec.workload.manifests"
                     [FStr namespace; FStr manifestWorkName]))
      | Ok (Some (JArr manifests)) =>
          _ ← for_range manifests tt applyManifest; mret None
      | Ok (Some _) => mret (Some (ErrorString "spec.workload.manifests is not a list"))
      end
  end.

(** The timeout of the context is not modelled. *)
(* src: src/internal/controller/reinstall/reimport.go 503-516 validateSpokeConnectivity *)
Definition validateSpokeConnectivity : M (option error) :=
  if_err (call (SpokeGetNamespace "default"))
    (fun err => mret (Some (Errorf "spoke cluster connectivity validation failed: %w" [FErr err])))
    (mret None).

(** [SpokeClientFactory] has this one implementation. *)
(* src: src/internal/controller/reinstall/reimport.go 67-100 DefaultSpokeClientFactory.CreateClient *)
Definition CreateClient (kubeconfigData : string) : M (option error) :=
  if_err (call (RESTConfigFromKubeConfig kubeconfigData))
    (fun err => mret (Some (Errorf "failed to create REST config from kubeconfig: %w" [FErr err])))
    (if_err (call (NewSpokeClient kubeconfigData SpokeClientTimeout))
       (fun err => mret (Some (Errorf "failed to create spoke client: %w" [FErr err])))
       (if_err validateSpokeConnectivity (fun err => mret (Some err)) (mret None))).

(* src: src/internal/controller/reinstall/reimport.go 309-348 ReinstallHandler.performReimport *)
Definition performReimport (managedCluster : ManagedCluster) : M (option error) :=
  let clusterName := MC_Name managedCluster in
  r ← extractKubeconfigFromSecret clusterName;
  match r with
  | Err err => mret (Some (Errorf "failed to get kubeconfig: %w" [FErr err]))
  | Ok kubeconfigData =>
      if_err (CreateClient kubeconfigData)
        (fun err => mret (Some (Errorf "failed to create spoke client: %w" [FErr err])))
        (if_err (applyManifestWorkToSpoke clusterName (Sprintf "%s-klusterlet-crds" [FStr clusterName]))
           (fun err => mret (Some (Errorf "failed to apply klusterlet CRDs: %w" [FErr err])))
           (if_err (applyManifestWorkToSpoke clusterName (Sprintf "%s-klusterlet" [FStr clusterName]))
              (fun err => mret (Some (Errorf "failed to apply klusterlet resources: %w" [FErr err])))
              (mret None)))
  end.

(* src: src/internal/controller/reinstall/reimport.go 596-609 isWithinGracePeriod *)
Definition isWithinGracePeriod (ci : ClusterInstance) : M (bool * Duration) :=
  match FindStatusCondition (Status_Conditions (CI_Status ci)) ClusterProvisioned with
  | Some provisioned =>
      if negb (String.eqb (Cond_Status provisioned) ConditionTrue) then mret (true, 0%Z)
      else
        now ← Now;
        let remaining := (PostProvisioningGracePeriod - (now - Cond_LastTransitionTime provisioned))%Z in
        mret ((0 <? remaining)%Z, remaining)
  | None => mret (true, 0%Z)
  end.

(** The named results and the condition the deferred function sets. *)
Record reimporting := mkReimporting {
  ri_result : Result;
  ri_needed : bool;
  ri_err : option error;
  ri_condition : option Condition
}.

(* src: src/internal/controller/reinstall/reimport.go 141-151 ReinstallHandler.EnsureClusterIsReimported *)
Definition finishReimport (p : reimporting) : M (Result * bool * option error) :=
  match ri_condition p with
  | None => mret (ri_result p, ri_needed p, ri_err p)
  | Some condition =>
      patch ← get_mem;
      changed ← setReinstallStatusCondition condition;
      if (changed : bool) then
        updateErr ← PatchCIStatus patch;
        mret (ri_result p, ri_needed p, update_failure (ri_err p) updateErr (condition_failure condition))
      else mret (ri_result p, ri_needed p, ri_err p)
  end.

Definition zero_result : Result := mkResult false 0.

(** Waiting for something: a condition in progress, and when to look again. *)
Definition waiting (after : option Duration) (message : string) : reimporting :=
  mkReimporting (match after with Some d => mkResult true d | None => zero_result end) true None
    (Some (reinstallClusterReimportedConditionStatus ConditionFalse InProgress message)).

Definition failed_reimport (err : error) (message : string) : reimporting :=
  mkReimporting zero_result false (Some err)
    (Some (reinstallClusterReimportedConditionStatus ConditionFalse Failed message)).

(** From the ManagedCluster on. *)
(* src: src/internal/controller/reinstall/reimport.go 206-303 ReinstallHandler.EnsureClusterIsReimported *)
Definition reimport_unhealthy (existingCondition : option Condition) (inGracePeriod : bool)
    (gracePeriodRemaining : Duration) (managedCluster : ManagedCluster) : M reimporting :=
  let healthStatus := assessClusterHealth managedCluster in
  if isHealthy healthStatus then
    mret (mkReimporting zero_result false None (Some (reinstallClusterReimportedConditionStatus
      ConditionTrue Completed "ManagedCluster is healthy and fully imported")))
  else if inGracePeriod then
    mret (waiting (Some GracePeriodRecheckInterval)
      (Sprintf "Cluster unhealthy, waiting for auto-recovery (%ss remaining)"
         [FStr (seconds_text gracePeriodRemaining)]))
  else if isImportInProgress managedCluster then
    mret (waiting (Some ReimportRecheckInterval)
      (Sprintf "Import already in progress: %s" [FStr (importReason healthStatus)]))
  else if (match existingCondition with
           | Some c => String.eqb (Cond_Status c) ConditionFalse
                       && String.eqb (Cond_Reason c) ReimportInitiated
           | None => false
           end) then
    mret (mkReimporting (mkResult true ReimportRecheckInterval) true None None)
  else
    err ← performReimport managedCluster;
    mret (match err with
          | Some e => failed_reimport e (Sprintf "Failed to perform reimport: %v" [FErr e])
          | None =>
              mkReimporting (mkResult true ReimportRecheckInterval) true None
                (Some (reinstallClusterReimportedConditionStatus ConditionFalse ReimportInitiated
                   "Klusterlet manifests applied to spoke cluster, waiting for cluster to become healthy"))
          end).

(* src: src/internal/controller/reinstall/reimport.go 107-304 ReinstallHandler.EnsureClusterIsReimported *)
Definition EnsureClusterIsReimported (store : Configuration) : M (Result * bool * option error) :=
  ci ← get_mem;
  let nothing := (zero_result, false, None) in
  match Status_Reinstall (CI_Status ci) with
  | None => mret nothing
  | Some reinstallStatus =>
      if String.eqb (RS_ObservedGeneration reinstallStatus) "" then mret nothing
      else if negb (GetAllowReinstalls store) then mret nothing
      else if negb (condition_true (findReinstallStatusCondition ci ReinstallRequestProcessed)) then
        mret nothing
      else
        let existingCondition := findReinstallStatusCondition ci ReinstallClusterReimported in
        if condition_true existingCondition then mret nothing
        else if negb (condition_true
                  (FindStatusCondition (Status_Conditions (CI_Status ci)) ClusterProvisioned)) then
          mret nothing
        else
          '(inGracePeriod, gracePeriodRemaining) ← isWithinGracePeriod ci;
          managedCluster ← getManagedClusterResource ci;
          p ← match managedCluster with
              | Err err =>
                  if IsNotFound err then
                    mret (waiting None "Waiting for ManagedCluster resource to be created")
                  else if IsManagedClusterNotInManifestError (Some err) then
                    mret (waiting None "Waiting for ManagedCluster to be rendered")
                  else mret (failed_reimport err (Error err))
              | Ok managedCluster =>
                  reimport_unhealthy existingCondition inGracePeriod gracePeriodRemaining managedCluster
              end;
          finishReimport p
  end.
End reimport.
