(* ===== verification/ReimportSpec.v ===== *)
(** * Importing a reinstalled cluster again: theorems

    When the operator touches the reinstalled cluster, with which credentials and with what. *)
From S2P Require Import Prelude GoStd Types Errors Conditions Samples K8s Cluster Retry Requeue.
From S2P Require Import RenderedObject Configuration Preservation Reinstall ReinstallSpec Reimport.

(** A call on the reinstalled cluster itself. *)
Definition touches_spoke (e : Event) : bool :=
  match e with
  | Ev (NewSpokeClient _ _) _ | Ev (SpokeGetNamespace _) _ | Ev (ApplyToSpoke _) _ => true
  | _ => false
  end.

(** The admin kubeconfig of the cluster, as a get has shown it. *)
Definition kubeconfig_read (mc : ManagedCluster) (kubeconfig : string) (pre : list Event) : Prop :=
  kubeconfig <> "" /\ exists secret,
    Ev (GetResource "Secret" (mkObjectKey (MC_Name mc) (admin_kubeconfig_name (MC_Name mc)))) (Ok secret) ∈ pre
    /\ Res_Type secret = "Opaque" /\ Res_Namespace secret = MC_Name mc
    /\ Res_Name secret = admin_kubeconfig_name (MC_Name mc)
    /\ Res_Data secret !! KubeconfigSecretKey = Some kubeconfig.

(** There is a client of the cluster, made from that kubeconfig. *)
Definition client_made (mc : ManagedCluster) (pre : list Event) : Prop :=
  exists kubeconfig, kubeconfig_read mc kubeconfig pre
    /\ Ev (NewSpokeClient kubeconfig SpokeClientTimeout) None ∈ pre.

(** A client is made from that kubeconfig only, and is tried out first; what is applied through it
    comes from a ManifestWork of the cluster's namespace, without its managed fields. *)
Definition spoke_step (mc : ManagedCluster) (pre : list Event) (e : Event) : Prop :=
  match e with
  | Ev (NewSpokeClient kubeconfig _) _ => kubeconfig_read mc kubeconfig pre
  | Ev (SpokeGetNamespace _) _ => client_made mc pre
  | Ev (ApplyToSpoke obj) _ =>
      client_made mc pre /\ Ev (SpokeGetNamespace "default") None ∈ pre
      /\ exists name work manifests m,
           Ev (GetManifestWork (mkObjectKey (MC_Name mc) name)) (Ok work) ∈ pre
           /\ NestedFieldCopy (JObj work) [] ["spec"; "workload"; "manifests"] = Ok (Some (JArr manifests))
           /\ JObj m ∈ manifests /\ obj = without_managed_fields m
  | _ => True
  end.

(** The reinstall is complete, the cluster has been provisioned for the grace period, and nobody
    has started an import. *)
Definition reimport_due (store : Configuration) (ci : ClusterInstance) (now : Time) (mc : ManagedCluster) : Prop :=
  allowReinstalls store = true
  /\ (exists rs, Status_Reinstall (CI_Status ci) = Some rs /\ RS_ObservedGeneration rs <> "")
  /\ condition_true (findReinstallStatusCondition ci ReinstallRequestProcessed) = true
  /\ condition_true (findReinstallStatusCondition ci ReinstallClusterReimported) = false
  /\ ~ recorded ci ReinstallClusterReimported ConditionFalse ReimportInitiated
  /\ (exists provisioned, FindStatusCondition (Status_Conditions (CI_Status ci)) ClusterProvisioned = Some provisioned
       /\ Cond_Status provisioned = ConditionTrue
       /\ (PostProvisioningGracePeriod <= now - Cond_LastTransitionTime provisioned)%Z)
  /\ isHealthy (assessClusterHealth mc) = false /\ isImportInProgress mc = false.

Section spec.
Context {W : Type} `{Server W}.

Lemma kubeconfig_read_app mc k pre ev : kubeconfig_read mc k pre -> kubeconfig_read mc k (pre ++ ev).
Proof. intros (Hk & secret & Hin & Hrest). split; [done|]. exists secret. split; [set_solver|done]. Qed.

Lemma validate_secret secret name :
  validateAdminKubeconfigSecret secret name = None ->
  Res_Type secret = "Opaque" /\ Res_Namespace secret = name /\ Res_Name secret = admin_kubeconfig_name name.
Proof.
  unfold validateAdminKubeconfigSecret.
  destruct (String.eqb_spec (Res_Type secret) "Opaque"); simpl; [|done].
  destruct (String.eqb_spec (Res_Namespace secret) name); simpl; [|done].
  by destruct (String.eqb_spec (Res_Name secret) (admin_kubeconfig_name name)).
Qed.

Lemma extract_kubeconfig secret k :
  extractKubeconfig secret = Ok k -> k <> "" /\ Res_Data secret !! KubeconfigSecretKey = Some k.
Proof. unfold extractKubeconfig. destruct (_ !! _) as [[|c k']|]; [done| |done]. by intros [= <-]. Qed.

Lemma client_made_app mc pre ev : client_made mc pre -> client_made mc (pre ++ ev).
Proof. intros (k & Hk & Hin). exists k. split; [by apply kubeconfig_read_app|set_solver]. Qed.

(** With a client made from the cluster's kubeconfig. *)
Lemma applyManifestWork_steps mc name pre s w :
  client_made mc pre -> Ev (SpokeGetNamespace "default") None ∈ pre ->
  wp (applyManifestWorkToSpoke (MC_Name mc) name) (fun _ _ _ ev => each_event (spoke_step mc) pre ev) s w.
Proof.
  intros Hc Hping. unfold applyManifestWorkToSpoke. apply wp_bind, wp_call. intros r w1 _. cbv beta iota.
  destruct r as [work|err]; [|by apply wp_ret].
  destruct (NestedFieldCopy (JObj work) [] ["spec"; "workload"; "manifests"]) as [[[| | | |manifests|]|]|err] eqn:Hf; try by apply wp_ret.
  apply wp_bind. set (pre1 := pre ++ [Ev (GetManifestWork (mkObjectKey (MC_Name mc) name)) (Ok work)]).
  eapply wp_mono.
  { apply wp_for with (I := fun _ _ _ _ ev => each_event (spoke_step mc) pre1 ev)
      (Q := fun _ _ _ ev => each_event (spoke_step mc) pre1 ev) (P := fun _ _ ev => each_event (spoke_step mc) pre1 ev);
      [done|].
    intros dn x rest [] s1 w2 ev Hl Hev. unfold applyManifest.
    destruct x as [| | | | |m]; try by (apply wp_ret; rewrite app_nil_r).
    unfold applyToSpoke. apply wp_bind, wp_bind, wp_call. intros r w3 _. apply wp_ret, wp_ret. simpl.
    apply each_event_app. split; [done|]. split; [|done]. split; [|split].
    - unfold pre1. rewrite <-app_assoc. by apply client_made_app.
    - unfold pre1. set_solver.
    - exists name, work, manifests, m. split; [unfold pre1; set_solver|]. split; [done|].
      split; [rewrite Hl; set_solver|done]. }
  intros [[u|u]|msg] s2 w4 ev Hev; [apply wp_ret; rewrite app_nil_r; by split|apply wp_ret; rewrite app_nil_r; by split|by split].
Qed.

(** A client is handed out only after it has reached the cluster. *)
Lemma CreateClient_steps mc k pre s w :
  kubeconfig_read mc k pre ->
  wp (CreateClient k) (fun o _ _ ev => each_event (spoke_step mc) pre ev
    /\ (o = Ret None -> client_made mc (pre ++ ev) /\ Ev (SpokeGetNamespace "default") None ∈ pre ++ ev)) s w.
Proof.
  intros Hk. unfold CreateClient. apply wp_if_err, wp_call. intros [err|] w1 _; [by apply wp_ret|].
  apply wp_if_err, wp_call. intros r w2 _.
  assert (Hk1 : kubeconfig_read mc k (pre ++ [Ev (RESTConfigFromKubeConfig k) None])) by (by apply kubeconfig_read_app).
  destruct r as [err|]; [apply wp_ret; split; [split; [done|]; by split|done]|].
  apply wp_if_err. unfold validateSpokeConnectivity. apply wp_if_err, wp_call. intros r w3 _.
  assert (Hmade : client_made mc (pre ++ [Ev (RESTConfigFromKubeConfig k) None;
    Ev (NewSpokeClient k SpokeClientTimeout) None])).
  { exists k. split; [by apply kubeconfig_read_app|set_solver]. }
  assert (Hsteps : each_event (spoke_step mc) pre ([Ev (RESTConfigFromKubeConfig k) None] ++
    [Ev (NewSpokeClient k SpokeClientTimeout) None] ++ [Ev (SpokeGetNamespace "default") r])).
  { split; [done|]. split; [exact Hk1|]. split; [|done]. simpl. by rewrite <-app_assoc. }
  destruct r as [err|]; apply wp_ret, wp_ret; (split; [exact Hsteps|]); [done|].
  intros _. split; [|simpl; set_solver]. simpl.
  change (client_made mc (pre ++ [Ev (RESTConfigFromKubeConfig k) None; Ev (NewSpokeClient k SpokeClientTimeout) None]
    ++ [Ev (SpokeGetNamespace "default") None])). rewrite app_assoc. by apply client_made_app.
Qed.

Lemma performReimport_steps mc : steps (spoke_step mc) (performReimport mc).
Proof.
  intros pre s w. unfold performReimport, extractKubeconfigFromSecret. apply wp_bind, wp_bind, wp_call.
  intros r w1 _. apply wp_ret. simpl. destruct r as [secret|err]; [|by apply wp_ret].
  destruct (validateAdminKubeconfigSecret secret (MC_Name mc)) as [err|] eqn:Hv; [by apply wp_ret|].
  destruct (extractKubeconfig secret) as [k|err] eqn:Hk; [|by apply wp_ret].
  apply validate_secret in Hv as (Ht & Hns & Hn). apply extract_kubeconfig in Hk as [Hne Hk].
  set (get := Ev (GetResource "Secret" _) (Ok secret)).
  assert (Hread : kubeconfig_read mc k (pre ++ [get])).
  { split; [done|]. exists secret. split; [set_solver|done]. }
  apply wp_if_err. eapply wp_mono; [by apply (CreateClient_steps mc k (pre ++ [get]))|].
  assert (Hfirst : forall ev, each_event (spoke_step mc) (pre ++ [get]) ev -> each_event (spoke_step mc) pre (get :: ev)).
  { intros ev Hev. by split. }
  intros [[err|]|msg] s2 w2 ev [Hev Hmade]; [apply wp_ret; rewrite app_nil_r; by apply Hfirst| |by apply Hfirst].
  destruct (Hmade eq_refl) as [Hc Hping].
  apply wp_if_err. eapply wp_mono; [by apply (applyManifestWork_steps mc _ ((pre ++ [get]) ++ ev))|].
  intros [[err|]|msg] s3 w3 ev2 Hev2;
    [apply wp_ret; rewrite app_nil_r; by apply Hfirst, each_event_app| |by apply Hfirst, each_event_app].
  apply wp_if_err. eapply wp_mono.
  { apply (applyManifestWork_steps mc _ (((pre ++ [get]) ++ ev) ++ ev2)); [by apply client_made_app|set_solver]. }
  assert (Hall : forall ev3, each_event (spoke_step mc) (((pre ++ [get]) ++ ev) ++ ev2) ev3 ->
    each_event (spoke_step mc) pre (get :: ev ++ ev2 ++ ev3)).
  { intros ev3 Hev3. apply Hfirst, each_event_app. split; [done|]. by apply each_event_app. }
  intros [[err|]|msg] s4 w4 ev3 Hev3; rewrite ?app_nil_r; try apply wp_ret; rewrite ?app_nil_r; by apply Hall.
Qed.

(** A call on the spoke comes after a ManagedCluster that was due for a reimport. *)
Definition reimport_step (store : Configuration) (ci : ClusterInstance) (now : Time) (pre : list Event)
    (e : Event) : Prop :=
  touches_spoke e = true ->
  exists name mc, Ev (GetManagedCluster name) (Ok mc) ∈ pre /\ reimport_due store ci now mc
    /\ spoke_step mc pre e.

Lemma quiet_reimport store ci now pre ev :
  Forall (fun e => touches_spoke e = false) ev -> each_event (reimport_step store ci now) pre ev.
Proof.
  intros Hev. apply each_event_Forall. eapply Forall_impl; [exact Hev|]. intros e He pre' Ht.
  exfalso. revert Ht. by rewrite He.
Qed.

Lemma each_event_mono {E} (P Q : list E -> E -> Prop) pre ev :
  (forall p e, P (pre ++ p) e -> Q (pre ++ p) e) -> each_event P pre ev -> each_event Q pre ev.
Proof.
  revert pre. induction ev as [|e ev IH]; intros pre HPQ; simpl; [done|]. intros [He Hev]. split.
  - specialize (HPQ [] e). rewrite app_nil_r in HPQ. by apply HPQ.
  - apply IH; [|done]. intros p e'. rewrite <-app_assoc. apply HPQ.
Qed.

Lemma finishReimport_quiet p s w :
  wp (finishReimport p) (fun _ _ _ ev => Forall (fun e => touches_spoke e = false) ev) s w.
Proof.
  apply wp_emits. unfold finishReimport, setReinstallStatusCondition, assign_reinstall_status. emits_go.
Qed.

Lemma reimport_steps store ci w :
  wp (EnsureClusterIsReimported store) (fun _ _ _ ev =>
    each_event (reimport_step store ci (clock w).1) [] ev) ci w.
Proof.
  unfold EnsureClusterIsReimported. apply wp_bind, wp_get.
  destruct (Status_Reinstall (CI_Status ci)) as [rs|] eqn:Hrs; [|by apply wp_ret].
  destruct (String.eqb_spec (RS_ObservedGeneration rs) "") as [|Hobs]; [by apply wp_ret|].
  destruct (GetAllowReinstalls store) eqn:Hallow; [|by apply wp_ret]. simpl.
  destruct (condition_true (findReinstallStatusCondition ci ReinstallRequestProcessed)) eqn:Hproc;
    [|by apply wp_ret]. simpl.
  destruct (condition_true (findReinstallStatusCondition ci ReinstallClusterReimported)) eqn:Hre;
    [by apply wp_ret|].
  destruct (FindStatusCondition (Status_Conditions (CI_Status ci)) ClusterProvisioned) as [prov|] eqn:Hprov;
    [|by apply wp_ret]. simpl.
  destruct (String.eqb_spec (Cond_Status prov) ConditionTrue) as [Hst|]; [|by apply wp_ret]. simpl.
  apply wp_bind. unfold isWithinGracePeriod. rewrite Hprov, Hst, String.eqb_refl. simpl.
  apply wp_bind, wp_Now. intros now w1 Hnow. rewrite Hnow. apply wp_ret. simpl.
  apply wp_bind. unfold getManagedClusterResource.
  assert (Hend : forall p s w ev, each_event (reimport_step store ci now) [] ev ->
    wp (finishReimport p) (fun _ _ _ ev' => each_event (reimport_step store ci now) [] (ev ++ ev')) s w).
  { intros p s w' ev Hev. eapply wp_mono; [apply finishReimport_quiet|]. intros o s' w'' ev' Hev'.
    apply each_event_app. split; [done|by apply quiet_reimport]. }
  destruct (getManagedClusterManifest ci) as [manifest|]; [|apply wp_ret, wp_bind, wp_ret; by apply (Hend _ _ _ [])].
  apply wp_bind, wp_call. intros r w2 _. apply wp_ret. cbn [app]. set (get := Ev _ r).
  assert (Hget : each_event (reimport_step store ci now) [] [get]) by (split; [by intros Ht|done]).
  assert (Hquiet : forall p s w, wp (p ← mret p; finishReimport p)
     (fun _ _ _ ev' => each_event (reimport_step store ci now) [] ([get] ++ ev')) s w).
  { intros p s w'. apply wp_bind, wp_ret. by apply (Hend _ _ _ [get]). }
  destruct r as [mc|err]; [|case_goal; [apply Hquiet|case_goal; apply Hquiet]].
  unfold reimport_unhealthy.
  destruct (isHealthy (assessClusterHealth mc)) eqn:Hhealth; [apply Hquiet|].
  destruct (0 <? _)%Z eqn:Hgrace; [apply Hquiet|].
  destruct (isImportInProgress mc) eqn:Himp; [apply Hquiet|].
  destruct (match findReinstallStatusCondition ci ReinstallClusterReimported with Some c => _ | None => _ end) eqn:Hini;
    [apply Hquiet|].
  assert (Hdue : reimport_due store ci now mc).
  { split; [done|]. split; [by exists rs|]. split; [done|]. split; [done|]. split.
    - intros (c & Hc & Hs & Hr). rewrite Hc, Hs, Hr in Hini. done.
    - split; [|done]. exists prov. split; [done|]. split; [done|]. apply Z.ltb_ge in Hgrace. lia. }
  apply wp_bind, wp_bind. eapply wp_mono; [apply (performReimport_steps mc [get])|].
  intros [err|msg] s3 w3 ev Hev.
  - apply wp_ret. rewrite app_nil_r. apply (Hend _ _ _ ([get] ++ ev)). apply each_event_app. split; [done|].
    eapply each_event_mono; [|exact Hev]. intros p e He _. exists (MRef_Name manifest), mc.
    split; [set_solver|done].
  - apply (each_event_app _ [] [get] ev). split; [done|].
    eapply each_event_mono; [|exact Hev]. intros p e He _. exists (MRef_Name manifest), mc.
    split; [set_solver|done].
Qed.

(** C22: Whatever the API server answers, the operator makes a client for the reinstalled cluster or
    calls anything on it only when reinstalls are enabled, the reinstall has completed, the
    cluster has been provisioned for at least the grace period, no import has been started by it
    or is running, and the ManagedCluster it has just read is unhealthy; and then only with the
    admin kubeconfig of that cluster, read in this run from the Opaque Secret of that cluster's
    namespace, and what it applies, once the client has reached
    the cluster, are manifests of that cluster's ManifestWorks only. *)
Theorem EnsureClusterIsReimported_safe store ci w n e :
  let calls := run_evs (EnsureClusterIsReimported store ci w) in
  calls !! n = Some e -> reimport_step store ci (clock w).1 (take n calls) e.
Proof.
  intros calls Hn. by apply (each_event_lookup _ _ _ _ _ (reimport_steps store ci w)) in Hn.
Qed.
End spec.

(** ** Examples *)

(** A reinstalled, provisioned cluster whose ManagedCluster is not available. *)
Definition reimporting_ci : ClusterInstance :=
  (sample_ci [node1] (Some (mkReinstallSpec "gen-1" PreservationModeNone)) Completed
    (Some (mkReinstallStatus [mkCondition ReinstallRequestProcessed "True" 0 10 Completed ""]
       "" "gen-1" 20 30 [])))
  <| CI_Status ::= fun s => s <| Status_ManifestsRendered :=
       [mkManifestReference (Some "cluster.open-cluster-management.io/v1") "ManagedCluster" "site-sno" ""
          1%Z ManifestRenderedSuccess 10%Z ""] |> |>.

Definition lost_cluster : cluster :=
  mkCluster (10 * Minute) None []
    [mkResource "Secret" "site-sno" "site-sno-admin-kubeconfig" None ∅ "1" "" 0 [] "Opaque" None
       {[ KubeconfigSecretKey := "kubeconfig-data" ]}] []
    [mkManagedCluster "site-sno" [mkCondition ManagedClusterConditionAvailable "Unknown" 0 10 "Lost" ""]] [].

Lemma EnsureClusterIsReimported_safe_witness :
  let calls := run_evs (EnsureClusterIsReimported (mkConfiguration true 1) reimporting_ci lost_cluster) in
  exists e, calls !! 4 = Some e /\ touches_spoke e = true
    /\ reimport_step (mkConfiguration true 1) reimporting_ci (10 * Minute) (take 4 calls) e.
Proof.
  intros calls. assert (Hm : option_map touches_spoke (calls !! 4) = Some true) by (vm_compute; reflexivity).
  destruct (calls !! 4) as [e|] eqn:He; [|discriminate Hm]. injection Hm as Ht.
  exists e. split; [reflexivity|]. split; [exact Ht|].
  exact (EnsureClusterIsReimported_safe (mkConfiguration true 1) reimporting_ci lost_cluster 4 e He).
Defined.
