(* ===== verification/ReinstallRefines.v ===== *)
(** * The reinstall workflow refines its specification

    Every reinstall status that [ProcessRequest] writes, and every one that
    [EnsureClusterIsReimported] writes, is reached from the status the run began with by steps of
    [RequestMachine]. What the specification guarantees then holds of every status the operator
    writes in a sequence of runs. *)
From S2P Require Import Prelude GoStd JsonDiff JsonCodec Types Errors Conditions Samples K8s.
From S2P Require Import Cluster Retry Requeue RenderedObject Pause Configuration Deletion.
From S2P Require Import DeletionSpec Preservation Reinstall ReinstallSpec ReinstallProgress.
From S2P Require Import RequestMachine Reimport ReimportSpec.

(** ** What a status says *)

Definition verdict_of (c : Condition) : verdict := (Cond_Status c, Cond_Reason c).

Definition verdicts_of (l : list Condition) : gmap string verdict :=
  list_to_map (List.map (fun c => (Cond_Type c, verdict_of c)) l).

Definition abstract_status (rs : ReinstallStatus) : request :=
  mkRequest (RS_InProgressGeneration rs) (RS_ObservedGeneration rs)
    (negb (IsZero (RS_RequestStartTime rs))) (negb (IsZero (RS_RequestEndTime rs)))
    (verdicts_of (RS_Conditions rs)) (List.map RH_Generation (RS_History rs)).

Definition abstract (ci : ClusterInstance) : option request :=
  option_map abstract_status (Status_Reinstall (CI_Status ci)).

Lemma verdicts_lookup l t : verdicts_of l !! t = option_map verdict_of (FindStatusCondition l t).
Proof.
  unfold verdicts_of, FindStatusCondition. induction l as [|c l IH]; [done|]. simpl.
  destruct (String.eqb_spec (Cond_Type c) t) as [->|]; [by rewrite lookup_insert_eq|].
  by rewrite lookup_insert_ne.
Qed.

Lemma verdicts_set now l c :
  verdicts_of (meta_SetStatusCondition now l c) = <[Cond_Type c := verdict_of c]> (verdicts_of l).
Proof.
  apply map_eq. intros u. rewrite verdicts_lookup. destruct (find_set now l c u) as [t ->].
  destruct (String.eqb_spec u (Cond_Type c)) as [->|Hne]; [by rewrite lookup_insert_eq|].
  by rewrite lookup_insert_ne, verdicts_lookup by congruence.
Qed.

Lemma says_find rs t v :
  says (abstract_status rs) t v <-> exists c, FindStatusCondition (RS_Conditions rs) t = Some c /\ verdict_of c = v.
Proof.
  unfold says. simpl. rewrite verdicts_lookup. destruct (FindStatusCondition _ _) as [c|]; simpl; [|naive_solver].
  split; [intros [= <-]; eauto|]. by intros (c' & [= ->] & <-).
Qed.

Lemma says_recorded ci rs t v :
  Status_Reinstall (CI_Status ci) = Some rs -> recorded ci t v.1 v.2 <-> says (abstract_status rs) t v.
Proof.
  intros Hrs. unfold recorded, findReinstallStatusCondition. rewrite Hrs, says_find. destruct v as [s r]. simpl.
  split; intros (c & Hc); exists c; unfold verdict_of in *; [|destruct Hc as [? [= <- <-]]; done].
  by destruct Hc as (-> & -> & ->).
Qed.

(** ** Simulation

    The API server's answer to a status patch replaces the object; [echoed] says that nobody else
    has changed the reinstall status meanwhile. *)

Definition echoed (e : Event) : Prop :=
  match e with
  | Ev (StatusPatchCI _ new) r =>
      match r with
      | Ok ci => Status_Reinstall (CI_Status ci) = Status_Reinstall (CI_Status new)
      | Err _ => True
      end
  | _ => True
  end.

(** A call that writes a reinstall status. *)
Definition written (e : Event) : option ClusterInstance :=
  match status_patch e with
  | Some (old, new) =>
      if bool_decide (Status_Reinstall (CI_Status old) = Status_Reinstall (CI_Status new)) then None
      else Some new
  | None => None
  end.

Section simulation.
Context {W : Type} `{Server W} (store : Configuration) (spec : ReinstallSpec) (start : option request).

Abbreviation M := (Prog ClusterInstance W Event).
Abbreviation step := (request_step store spec).

Definition reached (ci : ClusterInstance) : Prop := rtc step start (abstract ci).

(** What the program writes is reached by steps of the specification, and [R] holds of what it
    returns. *)
Definition simulated (e : Event) : Prop := forall new, written e = Some new -> reached new.

Definition sim {A} (R : A -> ClusterInstance -> Prop) (m : M A) (s : ClusterInstance) : Prop :=
  forall w, wp m (fun o s' _ ev => Forall echoed ev ->
    Forall simulated ev /\ match o with Ret a => R a s' | Panic _ => True end) s w.

Lemma sim_ret {A} R (a : A) s : R a s -> sim R (mret a) s.
Proof. intros HR w. by apply wp_ret. Qed.

Lemma sim_panic {A} (R : A -> ClusterInstance -> Prop) msg s : sim R (panic msg) s.
Proof. intros w. by apply wp_panic. Qed.

Lemma sim_mono {A} (R R' : A -> ClusterInstance -> Prop) m s :
  sim R m s -> (forall a s', R a s' -> R' a s') -> sim R' m s.
Proof.
  intros Hm HR w. eapply wp_mono; [apply Hm|]. intros [a|msg] s' w' ev Ho He; [|by apply Ho].
  destruct (Ho He) as [? ?]. auto.
Qed.

Lemma sim_bind {A B} R1 R (m : M A) (f : A -> M B) s :
  sim R1 m s -> (forall a s', R1 a s' -> sim R (f a) s') -> sim R (m ≫= f) s.
Proof.
  intros Hm Hf w. apply wp_bind. eapply wp_mono; [apply Hm|].
  intros [a|msg] s1 w1 ev Ho; [|by intros He; destruct (Ho He)].
  unfold wp. intros He. apply Forall_app in He as [He He2]. destruct (Ho He) as [Hev HR].
  destruct (Hf a s1 HR w1 He2). split; [by apply Forall_app_2|done].
Qed.

Lemma sim_get {B} R (f : ClusterInstance -> M B) s : sim R (f s) s -> sim R (get_mem ≫= f) s.
Proof. intros Hf w. apply wp_bind, wp_get, Hf. Qed.

Lemma sim_modify {B} R g (f : unit -> M B) s : sim R (f tt) (g s) -> sim R (modify_mem g ≫= f) s.
Proof. intros Hf w. apply wp_bind, wp_modify, Hf. Qed.

Lemma sim_modified (R : unit -> ClusterInstance -> Prop) g s : R tt (g s) -> sim R (modify_mem g) s.
Proof. intros HR w. by apply wp_modify. Qed.

Lemma sim_Now {B} R (f : Time -> M B) s :
  (forall w, IsZero (clock w).1 = false) ->
  (forall t, IsZero t = false -> sim R (f t) s) -> sim R (Now ≫= f) s.
Proof. intros Hc Hf w. apply wp_bind, wp_Now. intros t w' Ht. apply Hf. specialize (Hc w). by rewrite Ht in Hc. Qed.

Lemma sim_if_err {X A} R1 R (m : M (option X)) (h : X -> M A) k s :
  sim R1 m s -> (forall x s', R1 (Some x) s' -> sim R (h x) s') -> (forall s', R1 None s' -> sim R k s') ->
  sim R (if_err m h k) s.
Proof. intros Hm Hh Hk. eapply sim_bind; [exact Hm|]. intros [x|] s'; [apply Hh|apply Hk]. Qed.

(** A program that neither changes the object nor writes a status. *)
Lemma sim_keeps {A} (m : M A) s :
  keeps m -> emits (fun e => status_patch e = None) m -> sim (fun _ s' => s' = s) m s.
Proof.
  intros Hk He w. apply wp_keeps_emits with (P := fun e => status_patch e = None); [done|done|].
  intros o w' ev Hev _. split; [|by destruct o].
  eapply Forall_impl; [exact Hev|]. intros e Hn new. unfold written. by rewrite Hn.
Qed.

Lemma sim_patch old s :
  reached s -> sim (fun _ s' => Status_Reinstall (CI_Status s') = Status_Reinstall (CI_Status s)) (PatchCIStatus old) s.
Proof.
  intros Hr w. apply wp_PatchCIStatus. intros err s' w' ev Hev Hs He. split.
  - eapply Forall_impl; [exact Hev|]. intros e [r ->] new. unfold written. simpl. by case_bool_decide; intros [= <-].
  - destruct err as [err|]; [by subst|]. destruct Hs as [ev0 ->].
    apply Forall_app in He as [_ He]. by apply Forall_inv in He.
Qed.

(** A status patch that does not write the reinstall status. *)
Lemma sim_patch_other old s :
  Status_Reinstall (CI_Status old) = Status_Reinstall (CI_Status s) ->
  sim (fun _ s' => Status_Reinstall (CI_Status s') = Status_Reinstall (CI_Status s)) (PatchCIStatus old) s.
Proof.
  intros Hr w. apply wp_PatchCIStatus. intros err s' w' ev Hev Hs He. split.
  - eapply Forall_impl; [exact Hev|]. intros e [r ->] new. unfold written. simpl. by rewrite bool_decide_true.
  - destruct err as [err|]; [by subst|]. destruct Hs as [ev0 ->].
    apply Forall_app in He as [_ He]. by apply Forall_inv in He.
Qed.

Lemma reached_eq s s' :
  reached s -> Status_Reinstall (CI_Status s') = Status_Reinstall (CI_Status s) -> reached s'.
Proof. unfold reached, abstract. by intros Hr ->. Qed.

Lemma reached_abstract s s' : reached s -> abstract s' = abstract s -> reached s'.
Proof. unfold reached. by intros Hr ->. Qed.

Lemma reached_step s s' : reached s -> step (abstract s) (abstract s') -> reached s'.
Proof. apply rtc_r. Qed.

(** Setting a condition is a step, whether or not it changes anything. *)
Lemma sim_set {B} R c rs (f : bool -> M B) s :
  (forall w, IsZero (clock w).1 = false) ->
  Status_Reinstall (CI_Status s) = Some rs ->
  (forall changed t, let rs' := with_condition t c rs in
     abstract_status rs' = judge (Cond_Type c) (verdict_of c) (abstract_status rs) ->
     (changed = false -> with_reinstall rs' s = s) ->
     sim R (f changed) (with_reinstall rs' s)) ->
  sim R (setReinstallStatusCondition c ≫= f) s.
Proof.
  intros Hclock Hrs Hf. eapply sim_bind with (R1 := fun changed s' => exists t,
    changed = condition_changes (RS_Conditions rs) c /\ s' = with_reinstall (with_condition t c rs) s).
  - unfold setReinstallStatusCondition. apply sim_get. rewrite Hrs. apply sim_Now; [done|]. intros t _.
    apply sim_modify, sim_ret. by exists t.
  - intros changed s' (t & -> & ->). apply Hf.
    + unfold abstract_status, with_condition, judge. simpl. by rewrite verdicts_set.
    + intros Hc. destruct (condition_kept t _ _ Hc) as [Hk _]. unfold with_condition. rewrite Hk.
      replace (rs <| RS_Conditions := RS_Conditions rs |>) with rs by (by destruct rs). by apply assign_same.
Qed.
End simulation.

(** ** The operations *)

Section workflow.
Context `{ResourceYaml} `{TimeText} `{SpecText} {W : Type} `{Server W}.
Context (store : Configuration) (spec : ReinstallSpec) (start : option request).
Context (clock_set : forall w : W, IsZero (clock w).1 = false).

Abbreviation M := (Prog ClusterInstance W Event).
Abbreviation step := (request_step store spec).
Abbreviation reached := (reached store spec start).
Abbreviation sim := (sim store spec start).
Abbreviation no_status_patch := (fun e => status_patch e = None).
Abbreviation generation := (RSpec_Generation spec).

(** The object before a task: nothing has been changed yet. *)
Record ready (ci : ClusterInstance) (rs : ReinstallStatus) : Prop := {
  rd_spec : Spec_Reinstall (CI_Spec ci) = Some spec;
  rd_status : Status_Reinstall (CI_Status ci) = Some rs;
  rd_running : running spec (abstract_status rs);
  rd_reached : reached ci
}.

(** The request is still open, and [P] holds of its status. *)
Definition open (P : request -> Prop) (ci : ClusterInstance) : Prop :=
  reached ci /\ exists rs, Status_Reinstall (CI_Status ci) = Some rs
    /\ RS_InProgressGeneration rs = generation /\ RS_ObservedGeneration rs <> generation
    /\ P (abstract_status rs).

Lemma reached_status s s' rs q :
  reached s -> Status_Reinstall (CI_Status s) = Some rs ->
  Status_Reinstall (CI_Status s') = Some q -> step (Some (abstract_status rs)) (Some (abstract_status q)) ->
  reached s'.
Proof. intros Hr Hs Hs' Hstep. eapply reached_step; [exact Hr|]. unfold abstract. by rewrite Hs, Hs'. Qed.

Lemma sim_patch_ret {A} P (old s : ClusterInstance) (f : option error -> A) :
  open P s -> sim (fun _ s' => open P s') (r ← PatchCIStatus old; mret (f r)) s.
Proof.
  intros [Hr (rs & Hrs & HP)]. eapply sim_bind; [by apply sim_patch|]. intros r s' Hs'. apply sim_ret.
  split; [by apply (reached_eq _ _ _ _ _ Hr)|]. exists rs. by rewrite Hs'.
Qed.

(** Setting a condition on an open request: the step of the specification for it. *)
Lemma sim_judge {B} R c rs (f : bool -> M B) s :
  reached s -> Status_Reinstall (CI_Status s) = Some rs ->
  RS_InProgressGeneration rs = generation -> RS_ObservedGeneration rs <> generation ->
  step (Some (abstract_status rs)) (Some (judge (Cond_Type c) (verdict_of c) (abstract_status rs))) ->
  (forall changed s', open (fun q => q = judge (Cond_Type c) (verdict_of c) (abstract_status rs)) s' ->
     (changed = false -> s' = s) -> sim R (f changed) s') ->
  sim R (setReinstallStatusCondition c ≫= f) s.
Proof.
  intros Hr Hrs Hg Ho Hstep Hf. apply sim_set with (rs := rs); [done|done|]. intros changed t rs' Habs Hsame.
  apply Hf; [|done]. split; [|by exists rs'].
  eapply reached_status; [exact Hr|exact Hrs|reflexivity|by rewrite Habs].
Qed.

Lemma ready_open s rs : ready s rs -> RS_InProgressGeneration rs = generation /\ RS_ObservedGeneration rs <> generation.
Proof. by intros [_ _ (? & ? & _) _]. Qed.

Lemma sim_validate s rs :
  ready s rs -> sim (fun _ s' => open (fun _ => True) s') (ensureValidReinstallRequest store) s.
Proof.
  intros Hs. destruct (ready_open _ _ Hs) as [Hg Ho]. destruct Hs as [_ Hrs Hrun Hr].
  unfold ensureValidReinstallRequest. apply sim_get. pose proof (RequestJudged store spec _ Hrun) as Hstep.
  unfold GetAllowReinstalls. destruct (allowReinstalls store); simpl;
    (eapply sim_judge; [exact Hr|exact Hrs|done|done|exact Hstep|]; intros changed s' [Hr' (rs' & Hopen)] _;
     assert (open (fun _ => True) s') by (split; [done|]; exists rs'; naive_solver);
     destruct changed; [by apply sim_patch_ret|by apply sim_ret]).
Qed.

Lemma sim_start s rs :
  ready s rs -> admitted store spec (abstract_status rs) ->
  sim (fun _ s' => open (fun _ => True) s') ensureStartTimeIsSet s.
Proof.
  intros Hs Ha. destruct (ready_open _ _ Hs) as [Hg Ho]. destruct Hs as [_ Hrs Hrun Hr].
  unfold ensureStartTimeIsSet, update_reinstall_status, deref_reinstall_status.
  eapply sim_bind with (R1 := fun x s' => x = rs /\ s' = s).
  { apply sim_get. rewrite Hrs. by apply sim_ret. }
  intros ? ? [-> ->]. destruct (IsZero (RS_RequestStartTime rs)) eqn:Hz.
  2:{ apply sim_ret. split; [done|]. by exists rs. }
  apply sim_get, sim_Now; [done|]. intros t Ht.
  eapply sim_bind with (R1 := fun _ s' => s' = with_reinstall (rs <| RS_RequestStartTime := t |>) s).
  { eapply sim_bind with (R1 := fun x s' => x = rs /\ s' = s).
    { apply sim_get. rewrite Hrs. by apply sim_ret. }
    intros ? ? [-> ->]. by apply sim_modified. }
  intros _ s' ->. apply (sim_patch_ret (fun _ => True)). split; [|by eexists].
  eapply reached_status; [exact Hr|exact Hrs|reflexivity|].
  replace (abstract_status (rs <| RS_RequestStartTime := t |>)) with ((abstract_status rs) <| rq_started := true |>).
  - apply ClockStarted; [done|]. simpl. by rewrite Hz.
  - unfold abstract_status. simpl. by rewrite Ht.
Qed.

Lemma sim_labels s rs :
  ready s rs -> sim (fun _ s' => open (fun _ => True) s') applyPreservedLabelToClusterInstanceSecrets s.
Proof.
  intros Hs. destruct (ready_open _ _ Hs). destruct Hs as [_ Hrs Hrun Hr].
  eapply sim_mono; [apply sim_keeps|].
  - unfold applyPreservedLabelToClusterInstanceSecrets, applyPreservationLabel. keeps_go.
  - unfold applyPreservedLabelToClusterInstanceSecrets, applyPreservationLabel. emits_go; by apply emits_call.
  - intros r s' ->. split; [done|]. by exists rs.
Qed.

(** *** Preservation *)

Lemma sim_deref_spec {B} R (f : ReinstallSpec -> M B) s :
  Spec_Reinstall (CI_Spec s) = Some spec -> sim R (f spec) s -> sim R (deref_reinstall_spec ≫= f) s.
Proof.
  intros Hs Hf. eapply sim_bind with (R1 := fun x s' => x = spec /\ s' = s); [|by intros ? ? [-> ->]].
  unfold deref_reinstall_spec. apply sim_get. rewrite Hs. by apply sim_ret.
Qed.

Lemma sim_record_preservation s rs b d err :
  ready s rs -> under_way store spec (abstract_status rs) ->
  Cond_Type b = ReinstallPreservationDataBackedup -> Cond_Type d = ReinstallClusterIdentityDataDetected ->
  backup_verdicts (RSpec_PreservationMode spec) (verdict_of b) (verdict_of d) ->
  sim (fun _ s' => open (fun _ => True) s') (record_preservation b d err) s.
Proof.
  intros Hs Hu Hb Hd Hv. destruct (ready_open _ _ Hs) as [Hg Ho]. destruct Hs as [_ Hrs Hrun Hr].
  unfold record_preservation. apply sim_get. eapply sim_set; [done|exact Hrs|]. intros c1 t1 rs1 Hrs1 _.
  eapply sim_set; [done|reflexivity|]. intros c2 t2 rs2 Hrs2 _.
  assert (Hopen : open (fun _ => True) (with_reinstall rs2 (with_reinstall rs1 s))).
  { split; [|by exists rs2]. eapply reached_status; [exact Hr|exact Hrs|reflexivity|].
    rewrite Hrs2, Hrs1, Hb, Hd. by apply DataPreserved. }
  destruct (c1 || c2); [by apply sim_patch_ret|by apply sim_ret].
Qed.

Lemma sim_summary s :
  Spec_Reinstall (CI_Spec s) = Some spec -> RSpec_PreservationMode spec <> PreservationModeNone ->
  sim (fun r s' => let '(b, d, _) := r in s' = s
      /\ Cond_Type b = ReinstallPreservationDataBackedup /\ Cond_Type d = ReinstallClusterIdentityDataDetected
      /\ backup_verdicts (RSpec_PreservationMode spec) (verdict_of b) (verdict_of d))
    getDataPreservationSummary s.
Proof.
  intros Hs Hmode. unfold getDataPreservationSummary. apply sim_deref_spec; [done|].
  eapply sim_bind; [apply sim_keeps|].
  { unfold GetPreservedResourceCounts, get_counts, countMatchingResources. keeps_go. }
  { unfold GetPreservedResourceCounts, get_counts, countMatchingResources. emits_go; by apply emits_call. }
  intros [[ids others] [e|]] s' ->; [apply sim_ret; by repeat split; constructor|].
  destruct ids as [|ids]; simpl.
  - destruct (String.eqb_spec (RSpec_PreservationMode spec) PreservationModeClusterIdentity);
      destruct (others =? 0)%nat; apply sim_ret; repeat split; constructor; auto.
  - apply sim_ret. repeat split. by constructor.
Qed.

Lemma sim_preserve s rs :
  ready s rs -> under_way store spec (abstract_status rs) ->
  sim (fun _ s' => open (fun _ => True) s') ensureDataIsPreserved s.
Proof.
  intros Hs Hu. unfold ensureDataIsPreserved. apply sim_deref_spec; [apply Hs|].
  destruct (String.eqb_spec (RSpec_PreservationMode spec) PreservationModeNone) as [Hm|Hm].
  { eapply sim_record_preservation; try done. by constructor. }
  eapply sim_if_err; [apply sim_keeps|..].
  - apply keeps_Backup.
  - unfold Backup, for_modes, backupResources, resourcesForPreservation, backupResource, createResource,
      CreateOrUpdate, createResource_mutate. emits_go; by apply emits_call.
  - intros err s' ->. eapply sim_record_preservation; try done. by constructor.
  - intros s' ->. eapply sim_bind; [apply sim_summary; [apply Hs|done]|].
    intros [[b d] err] s' (-> & Hb & Hd & Hv). by eapply sim_record_preservation.
Qed.

(** *** Restoration *)

(** A task with nothing left to do has changed nothing. *)
Definition passes (s : ClusterInstance) (fact : Prop) (r : Result * option error) (s' : ClusterInstance) : Prop :=
  r = (mkResult false 0, None) -> s' = s /\ fact.

Definition restored_verdict (q : request) : Prop :=
  exists v, says q ReinstallPreservationDataRestored v
    /\ restore_verdict (RSpec_PreservationMode spec) v /\ v <> failed.

Lemma sim_record_restoration s rs c err :
  ready s rs -> cleared store spec (abstract_status rs) -> Cond_Type c = ReinstallPreservationDataRestored ->
  restore_verdict (RSpec_PreservationMode spec) (verdict_of c) -> (err = None -> verdict_of c <> failed) ->
  sim (fun r s' => open (fun _ => True) s' /\ passes s (restored_verdict (abstract_status rs)) r s')
    (record_restoration c err) s.
Proof.
  intros Hs Hu Ht Hv Herr. destruct (ready_open _ _ Hs) as [Hg Ho]. destruct Hs as [_ Hrs Hrun Hr].
  unfold record_restoration. apply sim_get. eapply sim_judge; [exact Hr|exact Hrs|done|done| |].
  { rewrite Ht. by apply DataRestored. }
  intros changed s' [Hr' (rs' & Hrs' & Hg' & Ho' & Hq)] Hsame.
  assert (open (fun _ => True) s') by (split; [done|]; by exists rs').
  destruct changed.
  - eapply sim_bind; [by apply sim_patch|]. intros r s2 Hs2. apply sim_ret. split; [|by intros [=]].
    split; [by apply (reached_eq _ _ _ _ _ Hr')|]. exists rs'. by rewrite Hs2.
  - apply sim_ret. split; [done|]. intros [= ->]. specialize (Hsame eq_refl) as ->. split; [done|].
    rewrite Hrs in Hrs'. injection Hrs' as <-. exists (verdict_of c). split; [|by auto].
    rewrite Hq, Ht. apply says_judge. by rewrite String.eqb_refl.
Qed.

Lemma sim_restoration_summary s :
  Spec_Reinstall (CI_Spec s) = Some spec -> RSpec_PreservationMode spec <> PreservationModeNone ->
  sim (fun r s' => s' = s /\ Cond_Type r.1 = ReinstallPreservationDataRestored
      /\ restore_verdict (RSpec_PreservationMode spec) (verdict_of r.1)
      /\ (r.2 = None -> verdict_of r.1 <> failed)) getDataRestorationSummary s.
Proof.
  intros Hs Hm. unfold getDataRestorationSummary. apply sim_deref_spec; [done|]. eapply sim_bind; [apply sim_keeps|].
  { unfold GetRestoredResourceCounts, get_counts, countMatchingResources. keeps_go. }
  { unfold GetRestoredResourceCounts, get_counts, countMatchingResources. emits_go; by apply emits_call. }
  intros [[ids others] [e|]] s' ->.
  { apply sim_ret. repeat split; [by apply restore_failed|done]. }
  destruct (_ =? 0)%nat; [|apply sim_ret; repeat split; [by apply restore_done|done]].
  destruct (String.eqb_spec (RSpec_PreservationMode spec) PreservationModeClusterIdentity); apply sim_ret.
  - repeat split; [by apply restore_failed|done].
  - repeat split; [by apply restore_nothing|done].
Qed.

Lemma sim_restore s rs :
  ready s rs -> cleared store spec (abstract_status rs) ->
  sim (fun r s' => open (fun _ => True) s' /\ passes s (restored_verdict (abstract_status rs)) r s')
    ensurePreservedDataIsRestored s.
Proof.
  intros Hs Hu. unfold ensurePreservedDataIsRestored. apply sim_deref_spec; [apply Hs|].
  destruct (String.eqb_spec (RSpec_PreservationMode spec) PreservationModeNone) as [Hm|Hm].
  { eapply sim_record_restoration; try done. by constructor. }
  eapply sim_if_err; [apply sim_keeps|..].
  - unfold Restore_preserved, for_modes, restoreResources, resourcesForPreservation, restoreResource,
      fetchAndValidateObjectToRestore, CreateOrUpdate, restoreResource_mutate. keeps_go.
  - unfold Restore_preserved, for_modes, restoreResources, resourcesForPreservation, restoreResource,
      fetchAndValidateObjectToRestore, CreateOrUpdate, restoreResource_mutate.
    emits_go; by apply emits_call.
  - intros err s' ->. eapply sim_record_restoration; try done. by constructor.
  - intros s' ->. eapply sim_bind; [apply sim_restoration_summary; [apply Hs|done]|].
    intros [c err] s' (-> & Hc & Hv & Herr). by eapply sim_record_restoration.
Qed.

(** *** Deletion of the rendered manifests *)

Lemma sim_DeleteObjects objects excl timeout s :
  sim (fun _ s' => Status_Reinstall (CI_Status s') = Status_Reinstall (CI_Status s))
    (DeleteObjects objects excl timeout) s.
Proof.
  assert (Hwave : forall waves wm st, keeps (for_range waves st (deleteWave (W := W) wm excl timeout))
    /\ emits no_status_patch (for_range waves st (deleteWave (W := W) wm excl timeout))).
  { intros waves wm st. split.
    - apply keeps_for. intros wave st'. unfold deleteWave, deleteOne. keeps_go; apply keeps_DeleteObject.
    - apply emits_for. intros wave st' _. unfold deleteWave, deleteOne. emits_go; by apply emits_DeleteObject. }
  assert (Hfinish : forall st b, sim (fun _ s' => Status_Reinstall (CI_Status s') = Status_Reinstall (CI_Status s))
    (err ← finishDeletion st; mret (b : bool, err)) s).
  { intros st b. eapply sim_bind with (R1 := fun _ s' => Status_Reinstall (CI_Status s') = Status_Reinstall (CI_Status s));
      [|intros ? ? Hs'; by apply sim_ret]. unfold finishDeletion. apply sim_get.
    case_goal; [by apply sim_ret|]. apply sim_modify. eapply sim_bind; [by apply sim_patch_other|].
    intros ? ? Hs'. by apply sim_ret. }
  unfold DeleteObjects. apply sim_get. eapply sim_bind; [by apply sim_keeps; apply Hwave|].
  intros [st|st] s' ->; apply Hfinish.
Qed.

Lemma sim_DeleteRenderedObjects excl timeout s :
  sim (fun _ s' => Status_Reinstall (CI_Status s') = Status_Reinstall (CI_Status s))
    (DeleteRenderedObjects excl timeout) s.
Proof.
  unfold DeleteRenderedObjects. apply sim_get. destruct (Status_ManifestsRendered (CI_Status s)); [by apply sim_ret|].
  destruct (objectsForManifests _); [apply sim_DeleteObjects|apply sim_panic].
Qed.

Lemma judge_says q t v : says q t v -> judge t v q = q.
Proof. destruct q as [g o st e m h]. intros Hs. unfold judge. cbn [set rq_verdicts_set rq_verdicts rq_generation
  rq_observed rq_started rq_ended rq_history]. f_equal. by apply insert_id. Qed.

(** Recording how far the deletion is, which is a step or says nothing new. *)
Lemma sim_record_deletion patch s rs c result err :
  reached s -> Status_Reinstall (CI_Status s) = Some rs ->
  RS_InProgressGeneration rs = generation -> RS_ObservedGeneration rs <> generation ->
  Cond_Type c = ReinstallRenderedManifestsDeleted -> Cond_Reason c <> Initialized ->
  step (Some (abstract_status rs)) (Some (judge ReinstallRenderedManifestsDeleted (verdict_of c) (abstract_status rs)))
  \/ says (abstract_status rs) ReinstallRenderedManifestsDeleted (verdict_of c) ->
  sim (fun r s' => open (fun q => touched q ReinstallRenderedManifestsDeleted) s'
      /\ (r = (mkResult false 0, None) -> result = mkResult false 0 /\ err = None /\ s' = s
            /\ says (abstract_status rs) ReinstallRenderedManifestsDeleted (verdict_of c)))
    (record_deletion patch (Some c) result err) s.
Proof.
  intros Hr Hrs Hg Ho Ht Hc Hstep. unfold record_deletion. eapply sim_set; [done|exact Hrs|].
  intros changed t rs' Habs Hsame. rewrite Ht in Habs.
  assert (Hopen : open (fun q => touched q ReinstallRenderedManifestsDeleted) (with_reinstall rs' s)).
  { split.
    - destruct Hstep as [Hstep|Hsays].
      + eapply reached_status; [exact Hr|exact Hrs|reflexivity|by rewrite Habs].
      + eapply reached_abstract; [exact Hr|]. unfold abstract. simpl. rewrite Hrs. simpl. by rewrite Habs, judge_says.
    - exists rs'. repeat split; [done|done|]. rewrite Habs. exists (verdict_of c).
      by rewrite says_judge, String.eqb_refl. }
  destruct changed.
  - eapply sim_bind; [apply sim_patch, Hopen|]. intros updateErr s2 Hs2.
    assert (open (fun q => touched q ReinstallRenderedManifestsDeleted) s2).
    { destruct Hopen as [Hr' (rs2 & Hrs2 & Hrest)]. split; [by apply (reached_eq _ _ _ _ _ Hr')|].
      exists rs2. by rewrite Hs2. }
    destruct updateErr as [u|]; apply sim_ret; (split; [done|]); [by intros [=]|]. by destruct err; intros [=].
  - apply sim_ret. split; [done|]. intros [= -> ->]. split; [done|]. split; [done|]. specialize (Hsame eq_refl). split; [done|].
    assert (Hrs' : Some rs' = Some rs) by (by rewrite <-Hrs, <-Hsame at 1).
    injection Hrs' as Heq. rewrite Heq in Habs. rewrite Habs. apply says_judge. by rewrite String.eqb_refl.
Qed.

Definition cleared_verdict (q : request) : Prop :=
  exists v, says q ReinstallRenderedManifestsDeleted v /\ v.2 ∈ [Failed; Completed].

Ltac in_list := repeat first [apply list_elem_of_here | apply list_elem_of_further].

Lemma sim_delete s rs :
  ready s rs -> data_safe store spec (abstract_status rs) ->
  sim (fun r s' => open (fun q => touched q ReinstallRenderedManifestsDeleted) s'
      /\ passes s (cleared_verdict (abstract_status rs)) r s') ensureRenderedManifestsAreDeleted s.
Proof.
  intros Hs Hsafe. destruct (ready_open _ _ Hs) as [Hg Ho]. destruct Hs as [_ Hrs Hrun Hr].
  unfold ensureRenderedManifestsAreDeleted. apply sim_get.
  assert (Hdone : forall c result err s', reached s' -> Status_Reinstall (CI_Status s') = Some rs ->
    Cond_Type c = ReinstallRenderedManifestsDeleted -> Cond_Reason c <> Initialized ->
    step (Some (abstract_status rs)) (Some (judge ReinstallRenderedManifestsDeleted (verdict_of c) (abstract_status rs)))
    \/ says (abstract_status rs) ReinstallRenderedManifestsDeleted (verdict_of c) ->
    (result = mkResult false 0 -> err = None -> says (abstract_status rs) ReinstallRenderedManifestsDeleted (verdict_of c) ->
       s' = s /\ Cond_Reason c ∈ [Failed; Completed]) ->
    sim (fun r s' => open (fun q => touched q ReinstallRenderedManifestsDeleted) s'
      /\ passes s (cleared_verdict (abstract_status rs)) r s') (record_deletion s (Some c) result err) s').
  { intros c result err s' Hr' Hrs' Hct Hcr Hstep Hpass. eapply sim_mono; [by eapply sim_record_deletion|].
    intros r s2 [Hopen Hr2]. split; [done|]. intros Hret. destruct (Hr2 Hret) as (Hz & Herr & -> & Hsays).
    destruct (Hpass Hz Herr Hsays) as [-> Hin]. split; [done|]. by exists (verdict_of c). }
  assert (Hfound : forall v, says (abstract_status rs) ReinstallRenderedManifestsDeleted v <->
    exists c, findReinstallStatusCondition s ReinstallRenderedManifestsDeleted = Some c /\ verdict_of c = v).
  { intros v. unfold findReinstallStatusCondition. rewrite Hrs. apply says_find. }
  eapply sim_bind with (R1 := fun _ s' => s' = s).
  { destruct (getManagedCluster s); [by apply sim_ret|apply sim_panic]. }
  intros [mc|err] ? ->.
  2:{ apply Hdone; try done. left. by apply DeletionImpossible. }
  assert (Hbegin : (forall v, says (abstract_status rs) ReinstallRenderedManifestsDeleted v -> v.2 = Initialized) ->
    sim (fun r s' => open (fun q => touched q ReinstallRenderedManifestsDeleted) s'
      /\ passes s (cleared_verdict (abstract_status rs)) r s')
    (record_deletion s (Some (reinstallRenderedManifestsDeletedConditionStatus ConditionFalse InProgress
       "Rendered manifests are being deleted")) (mkResult false 0) None) s).
  { intros Hinit. apply Hdone; try done; [left; by apply DeletionBegun|]. intros _ _ Hsays. by apply Hinit in Hsays. }
  destruct (findReinstallStatusCondition s ReinstallRenderedManifestsDeleted) as [cond|] eqn:Hcond.
  2:{ apply Hbegin. intros v (c & [=] & _)%Hfound. }
  assert (Hsays : says (abstract_status rs) ReinstallRenderedManifestsDeleted (verdict_of cond)) by (apply Hfound; eauto).
  destruct (String.eqb_spec (Cond_Reason cond) Initialized) as [Hi|Hi].
  { apply Hbegin. intros v (c & [= <-] & <-)%Hfound. exact Hi. }
  assert (Htype : Cond_Type cond = ReinstallRenderedManifestsDeleted).
  { unfold findReinstallStatusCondition in Hcond. rewrite Hrs in Hcond. by apply Find_Some in Hcond as [_ ?]. }
  destruct (String.eqb_spec (Cond_Reason cond) Failed) as [Hf|Hf].
  { apply Hdone; try done; [by right|]. intros _ _ _. split; [done|]. rewrite Hf. in_list. }
  destruct (String.eqb_spec (Cond_Reason cond) Completed) as [Hc|Hc].
  { apply Hdone; try done; [by right|]. intros _ _ _. split; [done|]. rewrite Hc. in_list. }
  assert (Hend : forall v, v ∈ [failed; (ConditionFalse, TimedOut); completed] ->
    step (Some (abstract_status rs)) (Some (judge ReinstallRenderedManifestsDeleted v (abstract_status rs)))).
  { intros v Hv. eapply DeletionEnded; [done|exact Hsays| |done]. simpl. by rewrite !not_elem_of_cons; auto using not_elem_of_nil. }
  eapply sim_bind; [apply sim_DeleteRenderedObjects|]. intros [deleted err] s' Hs'.
  assert (Hr' : reached s') by (by apply (reached_eq _ _ _ _ _ Hr)). rewrite Hrs in Hs'.
  destruct err as [e|].
  - case_goal; apply Hdone; try done; left; apply Hend; in_list.
  - destruct deleted; cbn [negb]; apply Hdone; try done; [left; apply Hend; in_list| |by right].
    intros _ _ (c & [= <-] & [= ? ?])%Hfound. done.
Qed.

(** *** The tasks in their order *)

(** What [finishProcessing] makes of the status. *)
Definition reported (p : processing) (q : request) : request :=
  judge ReinstallRequestProcessed (verdict_of (pr_condition p))
    (if (pr_setEndtime p && bool_decide (is_Some (pr_err p)))%bool then q <| rq_ended := true |> else q).

Definition reportable (p : processing) (s : ClusterInstance) : Prop :=
  Cond_Type (pr_condition p) = ReinstallRequestProcessed /\ reached s
  /\ exists rs, Status_Reinstall (CI_Status s) = Some rs
       /\ step (Some (abstract_status rs)) (Some (reported p (abstract_status rs))).

Lemma sim_passes P fact R (m : M (Result * option error)) s :
  task_spec P fact m -> is_Some (Status_Reinstall (CI_Status s)) -> sim R m s ->
  sim (fun r s' => R r s' /\ passes s (fact s) r s') m s.
Proof.
  intros Ht Hs Hm w. eapply wp_mono; [apply wp_and; [apply Hm|by apply Ht]|].
  intros o s' w' ev [Ho [_ Hfact]] He. destruct (Ho He) as [Hev HR]. split; [done|].
  destruct o as [r|]; [|done]. split; [done|]. intros ->. by apply Hfact.
Qed.

Lemma sim_task (fact : Prop) (t : task (W := W)) rest (Q : unit + processing -> ClusterInstance -> Prop) s :
  (forall p s', reportable p s' -> Q (inr p) s') ->
  sim (fun r s' => open (fun q => task_FailReinstallRequestOnError t = false ->
         touched q ReinstallRenderedManifestsDeleted) s' /\ passes s fact r s') (task_Run t) s ->
  (fact -> sim Q (for_range rest tt run_task) s) ->
  sim Q (for_range (t :: rest) tt run_task) s.
Proof.
  intros HQ Ht Hrest. cbn [for_range]. eapply sim_bind with (R1 := fun r s' =>
    match r with inr p => reportable p s' | inl _ => s' = s /\ fact end).
  2:{ intros [u|p] s' Hr; [destruct u; destruct Hr as [-> Hf]; by apply Hrest|by apply sim_ret, HQ]. }
  unfold run_task. eapply sim_bind; [exact Ht|]. intros [result err] s' [[Hr (rs & Hrs & Hg & Ho & Htouched)] Hpass].
  destruct (negb (Result_IsZero result)) eqn:Hz.
  { apply sim_ret. split; [done|]. split; [done|]. exists rs. split; [done|]. apply RequestReported. by left. }
  destruct err as [e|]; apply sim_ret.
  - split; [done|]. split; [done|]. exists rs. split; [done|]. unfold reported.
    change (verdict_of _) with failed. cbn [pr_setEndtime pr_err].
    pose proof (RequestFailed store spec (abstract_status rs) (task_FailReinstallRequestOnError t) Hg Ho) as Hstep.
    destruct (task_FailReinstallRequestOnError t); simpl; (apply Hstep; [|intros _; by apply Htouched] || by apply Hstep).
  - apply negb_false_iff, bool_decide_eq_true_1 in Hz. subst. by apply Hpass.
Qed.

Lemma open_any P s : open P s -> open (fun _ => True) s.
Proof. intros [Hr (rs & ? & ? & ? & _)]. split; [done|]. by exists rs. Qed.

Lemma sim_tasks s rs :
  ready s rs ->
  sim (fun r s' => match r with
                   | inr p => reportable p s'
                   | inl _ => s' = s /\ restored store spec (abstract_status rs)
                   end) (for_range (tasks store) tt run_task : M _) s.
Proof.
  intros Hs. pose proof (rd_status _ _ Hs) as Hrs. pose proof (rd_running _ _ Hs) as Hrun.
  assert (Hsome : is_Some (Status_Reinstall (CI_Status s))) by (by exists rs).
  assert (Hmust : forall (m : M (Result * option error)) P fact, sim (fun _ s' => open (fun _ => True) s') m s -> task_spec P fact m ->
    sim (fun r s' => open (fun q => true = false -> touched q ReinstallRenderedManifestsDeleted) s'
      /\ passes s (fact s) r s') m s).
  { intros m P fact Hm Hf. eapply sim_mono; [by eapply sim_passes|]. intros r s' [[Hr (rs' & Hrs' & Hg & Ho & _)] Hp].
    split; [|done]. split; [done|]. by exists rs'. }
  unfold tasks.
  eapply sim_task; [done|eapply Hmust; [by eapply sim_validate|apply task_validate]|]. intros [Hallow Hval].
  assert (Ha : admitted store spec (abstract_status rs)).
  { split; [done|]. split; [done|]. by apply (says_recorded s). }
  eapply sim_task; [done|eapply Hmust; [by eapply sim_start|apply task_start]|]. intros (rs' & Hrs' & Hst).
  rewrite Hrs in Hrs'. injection Hrs' as <-.
  assert (Hu : under_way store spec (abstract_status rs)) by (split; [done|]; simpl; by rewrite Hst).
  eapply sim_task; [done|eapply Hmust; [by eapply sim_labels|apply task_labels]|]. intros _.
  eapply sim_task; [done|eapply Hmust; [by eapply sim_preserve|apply task_preserve]|]. intros (spec' & Hspec' & Hp).
  rewrite (rd_spec _ _ Hs) in Hspec'. injection Hspec' as <-.
  assert (Hsafe : data_safe store spec (abstract_status rs)).
  { split; [done|]. destruct (String.eqb _ PreservationModeNone).
    - exists not_required. split; [by apply (says_recorded s)|done].
    - destruct Hp as [[Hb|Hb] Hd]; [exists completed|exists unavailable]; (split; [by apply (says_recorded s)|]);
        (split; [auto|]); intros Hm; by apply (says_recorded s _ _ _ Hrs), Hd. }
  eapply sim_task; [done|eapply sim_mono; [by eapply sim_delete|]|].
  { intros r s' [[Hr (rs' & Hrs' & Hg & Ho & Ht)] Hpass]. split; [|exact Hpass]. split; [done|]. by exists rs'. }
  intros Hcl. assert (Hclear : cleared store spec (abstract_status rs)) by (by split).
  eapply sim_task; [done|eapply sim_mono; [by eapply sim_restore|]|].
  { intros r s' [[Hr (rs' & Hrs' & Hg & Ho & _)] Hpass]. split; [|exact Hpass]. split; [done|]. by exists rs'. }
  intros Hres. apply sim_ret. split; [done|]. by split.
Qed.

(** *** The end of a request *)

Lemma finalized_abstract now diff rs :
  IsZero now = false ->
  abstract_status (finalized_status now generation diff rs).1 = closed_request generation (abstract_status rs).
Proof.
  intros Hn. unfold finalized_status, closed_request, abstract_status. simpl. f_equal.
  - destruct (IsZero (RS_RequestEndTime rs)) eqn:Hz; by rewrite ?Hn, ?Hz.
  - destruct (existsb _ _) eqn:He.
    + apply history_generation in He. by rewrite bool_decide_true.
    + rewrite bool_decide_false; [by rewrite List.map_app|]. rewrite <-history_generation. by rewrite He.
Qed.

Lemma sim_finalize s rs :
  ready s rs -> restored store spec (abstract_status rs) ->
  sim (fun err s' => reached s' /\ exists rs', Status_Reinstall (CI_Status s') = Some rs'
      /\ (RS_InProgressGeneration rs' = generation \/ RS_ObservedGeneration rs' = generation)
      /\ (err = None -> abstract_status rs' = closed_request generation (abstract_status rs)))
    finalizeReinstallRequest s.
Proof.
  intros Hs Hres. destruct (ready_open _ _ Hs) as [Hg Ho]. destruct Hs as [Hspec Hrs Hrun Hr].
  unfold finalizeReinstallRequest. eapply sim_bind; [apply sim_keeps; [apply keeps_Cleanup|by apply emits_Cleanup]|].
  assert (Hsame : forall e : error, sim (fun err s' => reached s' /\ exists rs', Status_Reinstall (CI_Status s') = Some rs'
      /\ (RS_InProgressGeneration rs' = generation \/ RS_ObservedGeneration rs' = generation)
      /\ (err = None -> abstract_status rs' = closed_request generation (abstract_status rs)))
    (mret (Some e) : M (option error)) s).
  { intros e. apply sim_ret. split; [done|]. exists rs. naive_solver. }
  intros [b [e|]] ? ->; [apply Hsame|]. apply sim_get.
  destruct (computeClusterInstanceSpecDiff s) as [diff|e]; [|apply Hsame]. apply sim_get.
  eapply sim_bind with (R1 := fun x s' => x = rs /\ s' = s).
  { unfold deref_reinstall_status. apply sim_get. rewrite Hrs. by apply sim_ret. }
  intros ? ? [-> ->]. apply sim_deref_spec; [done|]. apply sim_Now; [done|]. intros now Hnow.
  pose proof (finalized_abstract now diff rs Hnow) as Habs.
  assert (Hobs : RS_ObservedGeneration (finalized_status now generation diff rs).1 = generation) by done.
  destruct (finalized_status now generation diff rs) as [rs' changed]. simpl in Habs, Hobs.
  eapply sim_bind with (R1 := fun _ s' => s' = with_reinstall rs' s); [by apply sim_modified|]. intros _ ? ->.
  assert (Hr' : reached (with_reinstall rs' s)).
  { eapply reached_status; [exact Hr|exact Hrs|reflexivity|]. rewrite Habs. by apply RequestClosed. }
  destruct changed.
  - eapply sim_bind; [by apply sim_patch|]. intros err s2 Hs2. apply sim_ret.
    split; [by apply (reached_eq _ _ _ _ _ Hr')|]. exists rs'. rewrite Hs2. auto.
  - apply sim_ret. split; [done|]. exists rs'. auto.
Qed.

Lemma sim_run_tasks s rs : ready s rs -> sim reportable (run_tasks (tasks store)) s.
Proof.
  intros Hs. unfold run_tasks. eapply sim_bind; [by eapply sim_tasks|]. intros [u|p] s'; [|by apply sim_ret].
  intros [-> Hres]. eapply sim_bind; [by eapply sim_finalize|]. intros err s' [Hr (rs' & Hrs' & Hg & Hclosed)].
  apply sim_ret. split; [by destruct err|]. split; [done|]. exists rs'. split; [done|].
  destruct err as [e|]; [by apply RequestReported|]. specialize (Hclosed eq_refl).
  unfold reported. cbn [pr_setEndtime andb]. change (verdict_of _) with completed.
  rewrite Hclosed. apply RequestCompleted; [done..| |].
  - simpl. case_bool_decide; set_solver.
  - by destruct Hres as [_ Hv].
Qed.

(** *** The report *)

Lemma sim_pause reason s : sim (fun _ _ => True) (ApplyPause reason) s.
Proof.
  assert (Hnone : forall e, status_patch e = None -> simulated store spec start e).
  { intros e He new. unfold written. by rewrite He. }
  unfold ApplyPause. apply sim_get. case_goal; [by apply sim_ret|]. apply sim_modify.
  eapply sim_if_err with (R1 := fun _ _ => True); [|by intros; apply sim_ret|].
  { unfold patchCI. apply sim_get. eapply sim_bind with (R1 := fun _ _ => True).
    - intros w. apply wp_call. intros r w' _ _. split; [|done]. by constructor; [apply Hnone|].
    - intros [ci|e] s' _; [by apply sim_modify, sim_ret|by apply sim_ret]. }
  intros s1 _. apply sim_get. eapply sim_if_err with (R1 := fun _ _ => True); [|by intros; apply sim_ret|].
  { unfold fetchCI. eapply sim_bind with (R1 := fun _ _ => True).
    - intros w. apply wp_call. intros r w' _ _. split; [|done]. by constructor; [apply Hnone|].
    - intros [ci|e] s' _; [by apply sim_modify, sim_ret|by apply sim_ret]. }
  intros s2 _. apply sim_get, sim_Now; [done|]. intros now _. apply sim_modify.
  eapply sim_if_err with (R1 := fun _ _ => True); [|by intros; apply sim_ret|by intros; apply sim_ret].
  unfold statusPatchCI. apply sim_get. eapply sim_bind with (R1 := fun _ _ => True).
  - intros w. apply wp_call. intros r w' _ _. split; [|done]. constructor; [|done].
    intros new. unfold written. simpl. by rewrite bool_decide_true.
  - intros [ci|e] s' _; [by apply sim_modify, sim_ret|by apply sim_ret].
Qed.

Lemma sim_finish p s : reportable p s -> sim (fun _ _ => True) (finishProcessing p) s.
Proof.
  intros (Ht & Hr & rs & Hrs & Hstep). unfold finishProcessing. apply sim_get.
  set (ends := (pr_setEndtime p && bool_decide (is_Some (pr_err p)))%bool) in *.
  eapply sim_bind with (R1 := fun _ s' => exists rs', Status_Reinstall (CI_Status s') = Some rs'
    /\ abstract_status rs' = if ends then (abstract_status rs) <| rq_ended := true |> else abstract_status rs).
  { destruct ends; [|apply sim_ret; by exists rs]. apply sim_Now; [done|]. intros now Hnow.
    unfold update_reinstall_status, deref_reinstall_status.
    eapply sim_bind with (R1 := fun x s' => x = rs /\ s' = s).
    { apply sim_get. rewrite Hrs. by apply sim_ret. }
    intros ? ? [-> ->]. apply sim_modified. eexists. split; [reflexivity|]. unfold abstract_status. simpl.
    by rewrite Hnow. }
  intros _ s1 (rs1 & Hrs1 & Habs1). eapply sim_set; [done|exact Hrs1|]. intros changed t rs2 Habs2 _.
  assert (Hr2 : reached (with_reinstall rs2 s1)).
  { eapply reached_status; [exact Hr|exact Hrs|reflexivity|]. by rewrite Habs2, Habs1, Ht. }
  eapply sim_bind with (R1 := fun _ _ => True).
  { case_goal; [|by apply sim_ret]. eapply sim_mono; [by apply sim_patch|done]. }
  intros [u|] s2 _; [by apply sim_ret|]. case_goal; [|by apply sim_ret].
  destruct (pr_err p); [|apply sim_panic]. eapply sim_bind; [apply sim_pause|]. intros. by apply sim_ret.
Qed.

(** *** The beginning of a request *)

Lemma set_all_verdicts now types l :
  verdicts_of (set_all now l (List.map (initial_condition now) types)).1
  = fold_left (fun m t => <[t := (ConditionUnknown, Initialized)]> m) types (verdicts_of l).
Proof.
  unfold set_all. generalize false. revert l. induction types as [|t types IH]; intros l changed; simpl; [done|].
  rewrite IH. by rewrite verdicts_set.
Qed.

Lemma initial_abstract now old :
  abstract_status (initial_reinstall_status now generation old).1 = opened generation (option_map abstract_status old).
Proof.
  unfold initial_reinstall_status, opened. generalize reinstallConditionTypes. intros types.
  set (rs1 := if negb _ then _ else _).
  pose proof (set_all_verdicts now types (RS_Conditions rs1)) as Hv.
  change (RS_Conditions (rs1 <| RS_RequestStartTime := 0%Z |> <| RS_RequestEndTime := 0%Z |>)) with (RS_Conditions rs1).
  destruct (set_all now (RS_Conditions rs1) _) as [conds changed]. cbn [fst] in *.
  unfold abstract_status. simpl. rewrite Hv. subst rs1. destruct old as [rs|]; simpl.
  - destruct (String.eqb_spec (RS_InProgressGeneration rs) generation) as [He|]; simpl; [by rewrite He|done].
  - by rewrite String.eqb_refl.
Qed.

Lemma sim_initialize s :
  Spec_Reinstall (CI_Spec s) = Some spec -> reached s ->
  step (abstract s) (Some (opened generation (abstract s))) ->
  sim (fun _ _ => True) initializeReinstallStatus s.
Proof.
  intros Hspec Hr Hstep. unfold initializeReinstallStatus. apply sim_Now; [done|]. intros now _. apply sim_get.
  apply sim_deref_spec; [done|]. pose proof (initial_abstract now (Status_Reinstall (CI_Status s))) as Habs.
  destruct (initial_reinstall_status now generation (Status_Reinstall (CI_Status s))) as [rs changed]. simpl in Habs.
  eapply sim_bind with (R1 := fun _ s' => s' = with_reinstall rs s); [by apply sim_modified|]. intros _ ? ->.
  destruct changed; [|by apply sim_ret]. eapply sim_if_err with (R1 := fun _ _ => True).
  - eapply sim_mono; [apply sim_patch|done]. eapply reached_step; [exact Hr|]. unfold abstract at 2. simpl.
    by rewrite Habs.
  - intros. by apply sim_ret.
  - intros. by apply sim_ret.
Qed.

Lemma sim_process s :
  Spec_Reinstall (CI_Spec s) = Some spec -> reached s -> sim (fun _ _ => True) (ProcessRequest store) s.
Proof.
  intros Hspec Hr. unfold ProcessRequest. apply sim_get. rewrite Hspec.
  destruct (isRequestProcessed s spec) eqn:Hproc; [by apply sim_ret|].
  assert (Hopen : forall rs, Status_Reinstall (CI_Status s) = Some rs -> RS_ObservedGeneration rs <> generation).
  { intros rs Hrs Ho. unfold isRequestProcessed in Hproc. by rewrite Hrs, Ho, String.eqb_refl in Hproc. }
  assert (Hnew : (forall rs, Status_Reinstall (CI_Status s) = Some rs -> RS_InProgressGeneration rs <> generation
      \/ FindStatusCondition (RS_Conditions rs) ReinstallRequestProcessed = None) ->
    sim (fun _ _ => True) (if_err initializeReinstallStatus (fun err => mret (mkResult false 0, Some err))
      (mret (mkResult true 0, None))) s).
  { intros Hfresh. eapply sim_if_err; [apply sim_initialize; [done|done|]|by intros; apply sim_ret|by intros; apply sim_ret].
    apply RequestOpened. unfold abstract. intros q Hq. destruct (Status_Reinstall (CI_Status s)) as [rs|]; [|done].
    injection Hq as <-. split; [by apply Hopen|]. simpl. rewrite verdicts_lookup.
    destruct (Hfresh rs eq_refl) as [Hne| ->]; auto. }
  unfold findReinstallStatusCondition. destruct (Status_Reinstall (CI_Status s)) as [rs|] eqn:Hrs; [|by apply Hnew].
  destruct (FindStatusCondition (RS_Conditions rs) ReinstallRequestProcessed) as [cond|] eqn:Hcond.
  2:{ apply Hnew. intros ? [= <-]. by right. }
  unfold isNewRequest. rewrite Hrs.
  destruct (String.eqb_spec (RS_InProgressGeneration rs) generation) as [Hg|Hg]; simpl.
  2:{ apply Hnew. intros ? [= <-]. by left. }
  assert (Hsays : says (abstract_status rs) ReinstallRequestProcessed (verdict_of cond)) by (apply says_find; eauto).
  assert (Ho := Hopen rs eq_refl).
  destruct (String.eqb_spec (Cond_Reason cond) Initialized) as [Hi|Hi].
  - apply sim_get, sim_Now; [done|]. intros now Hnow.
    eapply sim_bind with (R1 := fun _ s' => s' = with_reinstall (rs <| RS_RequestStartTime := now |>) s).
    { unfold update_reinstall_status, deref_reinstall_status.
      eapply sim_bind with (R1 := fun x s' => x = rs /\ s' = s).
      { apply sim_get. rewrite Hrs. by apply sim_ret. }
      intros ? ? [-> ->]. by apply sim_modified. }
    intros _ ? ->. eapply sim_set; [done|reflexivity|]. intros changed t rs' Habs _.
    eapply sim_bind with (R1 := fun _ _ => True); [|by intros; apply sim_ret].
    eapply sim_mono; [apply sim_patch|done]. eapply reached_status; [exact Hr|exact Hrs|reflexivity|].
    rewrite Habs. change (verdict_of _) with in_progress.
    replace (abstract_status (rs <| RS_RequestStartTime := now |>)) with ((abstract_status rs) <| rq_started := true |>)
      by (unfold abstract_status; simpl; by rewrite Hnow).
    apply RequestStarted with (status := Cond_Status cond); [done|done|]. by rewrite <-Hi.
  - eapply sim_bind; [apply (sim_run_tasks s rs)|intros p s' Hp; by apply sim_finish].
    split; [done|done| |done]. split; [done|]. split; [done|]. exists (verdict_of cond).
    split; [done|]. split; [done|]. simpl. intros Hend Hst Hin.
    unfold isRequestProcessed in Hproc. rewrite Hrs, Hcond, Hg in Hproc.
    destruct (String.eqb_spec (RS_ObservedGeneration rs) generation); [done|].
    rewrite String.eqb_refl, Hend in Hproc. simpl in Hproc.
    destruct (String.eqb_spec (Cond_Status cond) ConditionUnknown); [done|]. rewrite andb_true_r in Hproc.
    set_unfold in Hin. destruct_or? Hin; rewrite Hin in Hproc; done.
Qed.

(** *** The import of the reinstalled cluster *)

Lemma sim_finish_import p s rs :
  reached s -> Status_Reinstall (CI_Status s) = Some rs -> RS_ObservedGeneration rs <> "" ->
  (exists reason, says (abstract_status rs) ReinstallRequestProcessed (ConditionTrue, reason)) ->
  (forall c, ri_condition p = Some c -> Cond_Type c = ReinstallClusterReimported /\ Cond_Reason c <> Initialized) ->
  sim (fun _ _ => True) (finishReimport p) s.
Proof.
  intros Hr Hrs Ho Hp Hcond. unfold finishReimport. destruct (ri_condition p) as [c|]; [|by apply sim_ret].
  destruct (Hcond c eq_refl) as [Ht Hc]. apply sim_get. eapply sim_set; [done|exact Hrs|]. intros changed t rs' Habs _.
  destruct changed; [|by apply sim_ret]. eapply sim_bind with (R1 := fun _ _ => True); [|by intros; apply sim_ret].
  eapply sim_mono; [apply sim_patch|done]. eapply reached_status; [exact Hr|exact Hrs|reflexivity|].
  rewrite Habs, Ht. by apply ImportReported.
Qed.

Definition import_condition (p : reimporting) : Prop :=
  forall c, ri_condition p = Some c -> Cond_Type c = ReinstallClusterReimported /\ Cond_Reason c <> Initialized.

Lemma performReimport_keeps mc :
  keeps (performReimport (W := W) mc) /\ emits no_status_patch (performReimport (W := W) mc).
Proof.
  unfold performReimport, CreateClient, validateSpokeConnectivity, extractKubeconfigFromSecret,
    applyManifestWorkToSpoke, applyManifest, applyToSpoke.
  split; [keeps_go|emits_go; by apply emits_call].
Qed.

Lemma sim_unhealthy existing grace remaining mc s :
  sim (fun p s' => s' = s /\ import_condition p) (reimport_unhealthy existing grace remaining mc) s.
Proof.
  assert (Hw : forall after message, import_condition (waiting after message)) by (by intros ? ? c [= <-]).
  assert (Hf : forall e message, import_condition (failed_reimport e message)) by (by intros ? ? c [= <-]).
  unfold reimport_unhealthy. case_goal; [by apply sim_ret; split; [|intros c [= <-]]|].
  case_goal; [by apply sim_ret|]. case_goal; [by apply sim_ret|]. case_goal; [by apply sim_ret; split; [|intros c [=]]|].
  eapply sim_bind; [apply sim_keeps; apply performReimport_keeps|]. intros [e|] ? ->; [by apply sim_ret|].
  by apply sim_ret; split; [|intros c [= <-]].
Qed.

Lemma sim_import s : reached s -> sim (fun _ _ => True) (EnsureClusterIsReimported store) s.
Proof.
  intros Hr. unfold EnsureClusterIsReimported. apply sim_get.
  destruct (Status_Reinstall (CI_Status s)) as [rs|] eqn:Hrs; [|by apply sim_ret].
  destruct (String.eqb_spec (RS_ObservedGeneration rs) "") as [|Ho]; [by apply sim_ret|].
  case_goal; [by apply sim_ret|].
  destruct (condition_true (findReinstallStatusCondition s ReinstallRequestProcessed)) eqn:Hproc; [|by apply sim_ret].
  assert (Hp : exists reason, says (abstract_status rs) ReinstallRequestProcessed (ConditionTrue, reason)).
  { unfold findReinstallStatusCondition in Hproc. rewrite Hrs in Hproc.
    destruct (FindStatusCondition _ _) as [c|] eqn:Hc; [|done]. apply String.eqb_eq in Hproc.
    exists (Cond_Reason c). apply says_find. exists c. split; [done|]. unfold verdict_of. by rewrite Hproc. }
  cbn [negb]. case_goal; [by apply sim_ret|]. case_goal; [by apply sim_ret|].
  eapply sim_bind with (R1 := fun _ s' => s' = s).
  { apply sim_keeps; unfold isWithinGracePeriod; [keeps_go|emits_go; by apply emits_call]. }
  intros [grace remaining] ? ->. eapply sim_bind with (R1 := fun _ s' => s' = s).
  { apply sim_keeps; unfold getManagedClusterResource; [keeps_go|emits_go; by apply emits_call]. }
  intros r ? ->. eapply sim_bind with (R1 := fun p s' => s' = s /\ import_condition p).
  - destruct r as [mc|e]; [apply sim_unhealthy|]. case_goal; [by apply sim_ret; split; [|intros c [= <-]]|].
    case_goal; by apply sim_ret; split; [|intros c [= <-]].
  - intros p ? [-> Hc]. by eapply sim_finish_import.
Qed.
End workflow.

(** ** Theorems *)

Section theorems.
Context `{ResourceYaml} `{TimeText} `{SpecText} {W : Type} `{Server W}.

Lemma sim_writes {A} store spec (R : A -> ClusterInstance -> Prop) (m : Prog ClusterInstance W Event A) ci w :
  sim store spec (abstract ci) R m ci -> Forall echoed (run_evs (m ci w)) ->
  forall e new, e ∈ run_evs (m ci w) -> written e = Some new ->
    rtc (request_step store spec) (abstract ci) (abstract new).
Proof.
  intros Hm He e new Hin Hw. destruct (Hm w He) as [Hev _]. rewrite Forall_forall in Hev. by apply (Hev e).
Qed.

Lemma rtc_history store spec a b :
  rtc (request_step store spec) a b -> from_option rq_history [] a `prefix_of` from_option rq_history [] b.
Proof. induction 1 as [|a b c Hab _ IH]; [done|]. etrans; [by eapply step_history|exact IH]. Qed.

Lemma rtc_orderly store spec a b :
  rtc (request_step store spec) a b -> from_option orderly True a -> from_option orderly True b.
Proof. induction 1 as [|a b c Hab _ IH]; [done|]. intros Ha. by eapply IH, step_orderly. Qed.

Lemma no_request_writes store ci w :
  Spec_Reinstall (CI_Spec ci) = None -> run_evs (ProcessRequest store ci w) = [].
Proof.
  intros Hspec. enough (Hwp : wp (ProcessRequest store) (fun _ _ _ ev => ev = []) ci w) by exact Hwp.
  unfold ProcessRequest. apply wp_bind, wp_get. rewrite Hspec. by apply wp_ret.
Qed.

(** C8: [ProcessRequest] refines the specification of a reinstall request. Whatever status the
    ClusterInstance has when it is called and whatever the API server answers, as long as nobody
    else writes the reinstall status meanwhile, every reinstall status that it sends is reached
    from that one by the specification's steps, in whose guards the order of the workflow is: the
    manifests are deleted for a request that is allowed, validated, started and whose data is
    safe, the data is restored after that, the request is closed after that, and reported as
    completed only when it is closed. The history it sends extends the one there was. *)
Theorem ProcessRequest_refines store spec ci w e new :
  (forall w : W, IsZero (clock w).1 = false) ->
  Spec_Reinstall (CI_Spec ci) = Some spec ->
  Forall echoed (run_evs (ProcessRequest store ci w)) ->
  e ∈ run_evs (ProcessRequest store ci w) -> written e = Some new ->
  rtc (request_step store spec) (abstract ci) (abstract new)
  /\ from_option rq_history [] (abstract ci) `prefix_of` from_option rq_history [] (abstract new).
Proof.
  intros Hclock Hspec He Hin Hw.
  assert (Hr : rtc (request_step store spec) (abstract ci) (abstract new)).
  { eapply sim_writes; [apply sim_process; [done|done|apply rtc_refl]|done..]. }
  split; [done|by eapply rtc_history].
Qed.

(** The reinstall statuses of a ClusterInstance: none, and then what a run sends that finds one of
    them, whatever the spec and the configuration are by then. *)
Inductive lifetime : option ReinstallStatus -> Prop :=
  | lifetime_new : lifetime None
  | lifetime_request store ci w e new :
      lifetime (Status_Reinstall (CI_Status ci)) ->
      Forall echoed (run_evs (ProcessRequest store ci w)) ->
      e ∈ run_evs (ProcessRequest store ci w) -> written e = Some new ->
      lifetime (Status_Reinstall (CI_Status new))
  | lifetime_import store ci w e new :
      lifetime (Status_Reinstall (CI_Status ci)) ->
      Forall echoed (run_evs (EnsureClusterIsReimported store ci w)) ->
      e ∈ run_evs (EnsureClusterIsReimported store ci w) -> written e = Some new ->
      lifetime (Status_Reinstall (CI_Status new)).

(** C14: Through any sequence of runs of [ProcessRequest] and [EnsureClusterIsReimported], with
    specs and configurations that change as they like in between, every reinstall status the
    operator sends keeps to the order of the workflow: a condition of a later step has been
    touched for the current request only if that of the step before it has; the request is
    reported as completed only when its data has been dealt with to the end, it has ended, is in
    progress no more and its generation is in the history; the history has no generation twice,
    and the observed generation is one of them. *)
Theorem reinstall_status_orderly rs :
  (forall w : W, IsZero (clock w).1 = false) -> lifetime (Some rs) -> orderly (abstract_status rs).
Proof.
  intros Hclock Hl. enough (Ha : forall o, lifetime o -> from_option orderly True (option_map abstract_status o))
    by apply (Ha _ Hl).
  clear rs Hl. induction 1 as [|store ci w e new _ IH He Hin Hw|store ci w e new _ IH He Hin Hw]; [done|..].
  - destruct (Spec_Reinstall (CI_Spec ci)) as [spec|] eqn:Hspec.
    + eapply rtc_orderly; [|exact IH]. eapply sim_writes; [apply sim_process; [done|done|apply rtc_refl]|done..].
    + rewrite (no_request_writes store ci w Hspec) in Hin. by apply not_elem_of_nil in Hin.
  - eapply (rtc_orderly store (mkReinstallSpec "" "")); [|exact IH]. eapply sim_writes; [apply sim_import; [done|apply rtc_refl]|done..].
Qed.
End theorems.

(** ** Examples *)

#[local] Existing Instances bare_server ReinstallProgress.no_yaml ReinstallProgress.fixed_time
  ReinstallProgress.no_spec_text.

(** The request that the bare cluster takes through its eight runs. *)
Definition after_runs (k : nat) : ClusterInstance := (Nat.iter k (next_run with_reinstalls) (fresh_request, tt)).1.

#[local] Instance echoed_dec e : Decision (echoed e).
Proof. destruct e as [R c r]. destruct c; simpl; try apply _. destruct r; apply _. Defined.

Lemma all_echoed evs : forallb (fun e => bool_decide (echoed e)) evs = true -> Forall echoed evs.
Proof.
  intros He. apply Forall_forall. intros x Hx. rewrite List.forallb_forall in He.
  exact (bool_decide_eq_true_1 _ (He x (proj1 (list_elem_of_In evs x) Hx))).
Qed.

Lemma ProcessRequest_refines_witness :
  exists new, rtc (request_step with_reinstalls (mkReinstallSpec "gen-1" PreservationModeNone))
      (abstract (after_runs 7)) (abstract new)
    /\ option_map (fun q => rq_verdicts q !! ReinstallRequestProcessed) (abstract new) = Some (Some completed).
Proof.
  set (evs := run_evs (ProcessRequest with_reinstalls (after_runs 7) tt)).
  assert (Hm : option_map (fun new => option_map (fun q => rq_verdicts q !! ReinstallRequestProcessed) (abstract new))
    (evs !! 5 ≫= written) = Some (Some (Some completed))) by (vm_compute; reflexivity).
  assert (Hall : Forall echoed evs) by (apply all_echoed; vm_compute; reflexivity).
  assert (Hspec : Spec_Reinstall (CI_Spec (after_runs 7)) = Some (mkReinstallSpec "gen-1" PreservationModeNone))
    by (vm_compute; reflexivity).
  destruct (evs !! 5) as [e|] eqn:He; [|discriminate Hm].
  destruct (written e) as [new|] eqn:Hw; [|simpl in Hm; rewrite Hw in Hm; discriminate Hm].
  simpl in Hm. rewrite Hw in Hm. injection Hm as Hv. exists new. split; [|exact Hv].
  exact (proj1 (ProcessRequest_refines with_reinstalls (mkReinstallSpec "gen-1" PreservationModeNone)
    (after_runs 7) tt e new (fun _ => eq_refl) Hspec Hall (list_elem_of_lookup_2 evs 5 e He) Hw)).
Defined.

(** The first status: the request is opened. *)
Lemma reinstall_status_orderly_witness :
  exists rs, RS_InProgressGeneration rs = "gen-1" /\ lifetime (W := unit) (Some rs) /\ orderly (abstract_status rs).
Proof.
  set (evs := run_evs (ProcessRequest with_reinstalls fresh_request tt)).
  assert (Hm : option_map RS_InProgressGeneration ((evs !! 0 ≫= written) ≫= (fun new => Status_Reinstall (CI_Status new)))
    = Some "gen-1") by (vm_compute; reflexivity).
  assert (Hall : Forall echoed evs) by (apply all_echoed; vm_compute; reflexivity).
  destruct (evs !! 0) as [e|] eqn:He; [|discriminate Hm].
  destruct (written e) as [new|] eqn:Hw; simpl in Hm; rewrite Hw in Hm; [|discriminate Hm]. simpl in Hm.
  destruct (Status_Reinstall (CI_Status new)) as [rs|] eqn:Hrs; [|discriminate Hm]. injection Hm as Hg.
  assert (Hl : lifetime (W := unit) (Some rs)).
  { rewrite <-Hrs. eapply (lifetime_request with_reinstalls fresh_request tt e new); [|exact Hall| |exact Hw].
    - apply lifetime_new.
    - exact (list_elem_of_lookup_2 evs 0 e He). }
  exists rs. split; [exact Hg|]. split; [exact Hl|].
  exact (reinstall_status_orderly rs (fun _ => eq_refl) Hl).
Defined.
