(* ===== verification/Controller.v ===== *)
(** * The ClusterInstance controller (internal/controller/clusterinstance_controller.go)

    [Reconcile] loads the ClusterInstance into the shared memory and runs the steps of the
    lifecycle on it: finalizer, Velero restores, reimport, reinstall, validation, rendering,
    pruning, dry run, apply. The environment variable [POD_NAMESPACE] and the operator's
    configuration are arguments. *)
From S2P Require Import Prelude GoStd JsonCodec Types Errors Conditions Validation K8s Retry.
From S2P Require Import Requeue RenderedObject Validator DefaultTemplates Templates Pause Configuration Deletion.
From S2P Require Import Preservation Reinstall Reimport.

(* src: src/internal/controller/clusterinstance_controller.go 59-59 clusterInstanceFinalizer *)
Definition clusterInstanceFinalizer : string := "clusterinstance." +:+ Group +:+ "/finalizer".

(* src: src/internal/controller/clusterinstance_controller.go 65-72 acmBackupLabel *)
Definition acmBackupLabel : string := "cluster.open-cluster-management.io/backup".
Definition acmBackupLabelValue : string := "".
Definition veleroRestoreNameLabel : string := "velero.io/restore-name".
Definition veleroRestoreStatusAnnotation : string := "velero.io/restore-status".
Definition veleroRestoreHandledAnnotation : string :=
  "clusterinstance." +:+ Group +:+ "/velero-restore-handled".

(* src: src/internal/controller/clusterinstance_controller.go 380-384 applyACMBackupLabelToInstallTemplates *)
Definition defaultInstallTemplates : list string :=
  [ai_ClusterLevelInstallTemplates; ai_NodeLevelInstallTemplates;
   hcp_ClusterLevelInstallTemplates; hcp_NodeLevelInstallTemplates;
   ibi_ClusterLevelInstallTemplates; ibi_NodeLevelInstallTemplates].

(** ** Finalizers (controller-runtime's controllerutil) *)

(* src: src/vendor/sigs.k8s.io/controller-runtime/pkg/controller/controllerutil/controllerutil.go 530-534 ContainsFinalizer *)
Definition ContainsFinalizer (ci : ClusterInstance) (finalizer : string) : bool :=
  bool_decide (finalizer ∈ Meta_Finalizers (CI_Meta ci)).

(* src: src/vendor/sigs.k8s.io/controller-runtime/pkg/controller/controllerutil/controllerutil.go 503-510 AddFinalizer *)
Definition AddFinalizer (finalizer : string) (ci : ClusterInstance) : ClusterInstance :=
  if ContainsFinalizer ci finalizer then ci
  else ci <| CI_Meta ::= fun m => m <| Meta_Finalizers ::= fun f => f ++ [finalizer] |> |>.

(* src: src/vendor/sigs.k8s.io/controller-runtime/pkg/controller/controllerutil/controllerutil.go 514-528 RemoveFinalizer *)
Definition RemoveFinalizer (finalizer : string) (ci : ClusterInstance) : ClusterInstance :=
  ci <| CI_Meta ::= fun m => m <| Meta_Finalizers ::=
    List.filter (fun f => negb (String.eqb f finalizer)) |> |>.

(** ** Velero *)

(* src: src/internal/controller/clusterinstance_controller.go 541-547 isBeingRestored *)
Definition isBeingRestored (ci : ClusterInstance) : bool :=
  match Meta_Labels (CI_Meta ci) !! veleroRestoreNameLabel with
  | None => false
  | Some restoreName =>
      negb (String.eqb (lookup_str veleroRestoreHandledAnnotation (Meta_Annotations (CI_Meta ci))) restoreName)
  end.

(** [equality.Semantic.DeepEqual(clusterInstance.Spec, lastAppliedSpec)]: the second argument is a
    pointer, and values of different types are never equal. *)
Definition DeepEqual_spec_pointer (spec lastAppliedSpec : ClusterInstanceSpec) : bool := false.

(** Messages of the steps. *)
Definition ns_name (ci : ClusterInstance) : list farg :=
  [FStr (Key_Namespace (CI_key ci)); FStr (Key_Name (CI_key ci))].

Section controller.
Context `{FloatText} `{TemplateLib} `{MapRange} `{ResourceYaml} `{TimeText} `{SpecText}.
Context {W : Type} `{Server W}.

Abbreviation M := (Prog ClusterInstance W Event).

(** ** Finalizer *)

(* src: src/internal/controller/clusterinstance_controller.go 512-534 ClusterInstanceReconciler.ensureFinalizer *)
Definition ensureFinalizer : M (Result * option error) :=
  ci ← get_mem;
  if ContainsFinalizer ci clusterInstanceFinalizer then mret (mkResult false 0, None)
  else
    _ ← modify_mem (AddFinalizer clusterInstanceFinalizer);
    if_err (patchCI ci)
      (fun err => mret (mkResult false 0, Some (Errorf
         "failed to add finalizer to ClusterInstance %s/%s: %w" (ns_name ci ++ [FErr err]))))
      (mret (mkResult true 0, None)).

(* src: src/internal/controller/clusterinstance_controller.go 455-509 ClusterInstanceReconciler.handleFinalizer *)
Definition handleFinalizer : M (Result * option error) :=
  ci ← get_mem;
  if deletion_time_is_zero ci then ensureFinalizer
  else if negb (ContainsFinalizer ci clusterInstanceFinalizer) then mret (mkResult false 0, None)
  else
    '(deletionCompleted, err) ← DeleteRenderedObjects [] (Some DefaultDeletionTimeout);
    match err with
    | Some e =>
        if IsDeletionTimeoutError err then
          err1 ← ApplyPause (Error e);
          mret (mkResult false 0,
                match err1 with
                | Some err1 => Some (Errorf "encountered an error pausing ClusterInstance, error: %w" [FErr err1])
                | None => err
                end)
        else mret (mkResult false 0, Some (Errorf "finalization encountered an error: %w" [FErr e]))
    | None =>
        if negb deletionCompleted then mret (requeueForDeletion, None)
        else
          patch ← get_mem;
          _ ← modify_mem (RemoveFinalizer clusterInstanceFinalizer);
          if_err (patchCI patch)
            (fun err => mret (mkResult false 0, Some (Errorf
               "failed to remove finalizer for ClusterInstance %s/%s: %w" (ns_name patch ++ [FErr err]))))
            (mret (mkResult false 0, None))
    end.

(* src: src/internal/controller/clusterinstance_controller.go 551-571 ClusterInstanceReconciler.ensureVeleroRestoreStatusAnnotation *)
Definition ensureVeleroRestoreStatusAnnotation : M (Result * option error) :=
  ci ← get_mem;
  if String.eqb (lookup_str veleroRestoreStatusAnnotation (Meta_Annotations (CI_Meta ci))) "true" then
    mret (mkResult false 0, None)
  else
    _ ← modify_mem (SetMetaDataAnnotation veleroRestoreStatusAnnotation "true");
    if_err (patchCI ci)
      (fun err => mret (mkResult false 0, Some (Errorf
         "failed to add Velero restore-status annotation to ClusterInstance %s/%s: %w"
         (ns_name ci ++ [FErr err]))))
      (mret (mkResult true 0, None)).

(** The branch of a restored object. *)
(* src: src/internal/controller/clusterinstance_controller.go 225-249 ClusterInstanceReconciler.Reconcile *)
Definition handleRestored : M (Result * option error) :=
  ci ← get_mem;
  let restoreName := lookup_str veleroRestoreNameLabel (Meta_Labels (CI_Meta ci)) in
  _ ← modify_mem (fun ci =>
        ci <| CI_Status ::= fun s => s <| Status_ObservedGeneration := Meta_Generation (CI_Meta ci) |> |>);
  if_err (PatchCIStatus ci)
    (fun err => mret (mkResult false 0, Some (Errorf
       "failed to update ObservedGeneration for Velero-restored ClusterInstance: %w" [FErr err])))
    (metadataPatch ← get_mem;
     _ ← modify_mem (SetMetaDataAnnotation veleroRestoreHandledAnnotation restoreName);
     if_err (patchCI metadataPatch)
       (fun err => mret (mkResult false 0, Some (Errorf
          "failed to set velero-restore-handled annotation on ClusterInstance: %w" [FErr err])))
       (mret (doNotRequeue, None))).

(** ** Backup labels *)

Definition set_label (k v : string) (cm : Resource) : Resource :=
  mkResource (Res_Kind cm) (Res_Namespace cm) (Res_Name cm) (Some (<[k := v]> (Res_labels cm)))
    (Res_Annotations cm) (Res_ResourceVersion cm) (Res_UID cm) (Res_CreationTimestamp cm)
    (Res_OwnerReferences cm) (Res_Type cm) (Res_Immutable cm) (Res_Data cm).

(** The closure [applyDRLabelFn]. *)
(* src: src/internal/controller/clusterinstance_controller.go 387-421 ClusterInstanceReconciler.applyACMBackupLabelToInstallTemplates *)
Definition applyDRLabel (siteConfigNS : string) (ref : Reference) : M (option error) :=
  if String.eqb (Ref_Namespace ref) siteConfigNS && existsb (String.eqb (Ref_Name ref)) defaultInstallTemplates
  then mret None
  else
    r ← call (GetResource "ConfigMap" (mkObjectKey (Ref_Namespace ref) (Ref_Name ref)));
    match r with
    | Err err => mret (Some (Errorf "failed to get ConfigMap %s/%s: %w"
                   [FStr (Ref_Namespace ref); FStr (Ref_Name ref); FErr err]))
    | Ok cm =>
        if (match Res_Labels cm with
            | None => false
            | Some labels => String.eqb (lookup_str acmBackupLabel labels) acmBackupLabelValue
            end) then mret None
        else
          r ← call (PatchResource cm (set_label acmBackupLabel acmBackupLabelValue cm));
          mret (match r with
                | Ok _ => None
                | Err err => Some (Errorf "failed to patch ConfigMap %s/%s: %w"
                               [FStr (Res_Namespace cm); FStr (Res_Name cm); FErr err])
                end)
    end.

(* src: src/internal/controller/clusterinstance_controller.go 366-449 ClusterInstanceReconciler.applyACMBackupLabelToInstallTemplates *)
Definition applyACMBackupLabelToInstallTemplates (siteConfigNS : string) : M (option error) :=
  ci ← get_mem;
  if_err (for_errors (Spec_TemplateRefs (CI_Spec ci)) (applyDRLabel siteConfigNS))
    (fun err => mret (Some err))
    (for_errors (Spec_Nodes (CI_Spec ci)) (fun node =>
       for_errors (Node_TemplateRefs node) (applyDRLabel siteConfigNS))).

(** ** Validation and rendering *)

(** Sets a condition on the shared object and patches the status; an error of the patch is only
    reported when there is none before. *)
Definition record_condition (conditionType reason status message : string) (err : option error)
    : M (option error) :=
  patch ← get_mem;
  now ← Now;
  _ ← modify_mem (fun ci => ci <| CI_Status ::= fun s =>
        s <| Status_Conditions := SetStatusCondition now (Status_Conditions s) conditionType reason
               status message |> |>);
  updateErr ← PatchCIStatus patch;
  mret (match err with Some _ => err | None => updateErr end).

(* src: src/internal/controller/clusterinstance_controller.go 573-611 ClusterInstanceReconciler.handleValidate *)
Definition handleValidate : M (option error) :=
  ci ← get_mem;
  err ← Validate ci;
  match err with
  | Some e =>
      record_condition ClusterInstanceValidated Failed ConditionFalse
        (Sprintf "Validation failed: %s" [FStr (Error e)]) err
  | None =>
      record_condition ClusterInstanceValidated Completed ConditionTrue "Validation succeeded" None
  end.

(* src: src/internal/controller/clusterinstance_controller.go 613-648 ClusterInstanceReconciler.renderManifests *)
Definition renderManifests : M (RenderedObjectCollection * option error) :=
  ci ← get_mem;
  '(renderedObjects, err) ← ProcessTemplates ci;
  err ← match err with
        | Some e => record_condition RenderedTemplates Failed ConditionFalse
                      (Sprintf "Failed to render templates, err= %s" [FErr e]) err
        | None => record_condition RenderedTemplates Completed ConditionTrue
                    "Rendered templates successfully" None
        end;
  mret (renderedObjects, err).

(** The error is nil exactly when the result is [OperationResultUpdated]. *)
(* src: src/internal/controller/clusterinstance_controller.go 653-692 applyObject *)
Definition applyObject (dryRun : bool) (renderedObj : RenderedObject) : M (option error) :=
  r ← call (ObjApply dryRun (default [] (RO_object renderedObj)));
  mret (match r with
        | Some err => Some (Errorf "failed to apply object using Server-Side Apply: %w" [FErr err])
        | None => None
        end).

(** The update of [manifestsRendered] with one reference. [now] is only used for an update: its
    callers read the clock in either case, which no call shows. *)
(* src: src/internal/controller/clusterinstance_controller.go 721-726 ClusterInstanceReconciler.executeRenderedManifests *)
Definition upsertManifest (now : Time) (manifestRef : ManifestReference)
    (manifestsRendered : list ManifestReference) : list ManifestReference :=
  match IndexOfManifestByIdentity manifestRef manifestsRendered with
  | Err _ => manifestsRendered ++ [manifestRef]
  | Ok index =>
      alter (ManifestReference_UpdateStatus now (MRef_Status manifestRef) (MRef_Message manifestRef))
        index manifestsRendered
  end.

(** One object; the state is [manifestsRendered] and [errs]. [ok] is false when there is an error. *)
(* src: src/internal/controller/clusterinstance_controller.go 707-727 ClusterInstanceReconciler.executeRenderedManifests *)
Definition executeOne (dryRun : bool) (manifestStatus : string) (object : RenderedObject)
    (st : list ManifestReference * list error)
    : M (list ManifestReference * list error + False) :=
  let '(manifestsRendered, errs) := st in
  now0 ← Now;
  let manifestRef := RenderedObject_ManifestReference now0 object in
  applyErr ← applyObject dryRun object;
  match manifestRef with
  | None => panic nil_dereference
  | Some manifestRef =>
      now ← Now;
      let '(status, message) := match applyErr with
                                | Some e => (ManifestRenderedFailure, Error e)
                                | None => (manifestStatus, "")
                                end in
      let manifestRef := ManifestReference_UpdateStatus now status message manifestRef in
      now ← Now;
      mret (inl (upsertManifest now manifestRef manifestsRendered, errs ++ option_list applyErr))
  end.

(* src: src/internal/controller/clusterinstance_controller.go 695-731 ClusterInstanceReconciler.executeRenderedManifests *)
Definition executeRenderedManifests (dryRun : bool) (objects : list RenderedObject)
    (manifestStatus : string) : M (list ManifestReference * bool * option error) :=
  ci ← get_mem;
  r ← for_range objects (Status_ManifestsRendered (CI_Status ci), []) (executeOne dryRun manifestStatus);
  match r with
  | inl (manifestsRendered, errs) =>
      mret (manifestsRendered, match errs with [] => true | _ => false end, NewAggregate errs)
  | inr f => match f : False with end
  end.

(** The status after a dry run or an application. *)
Definition record_manifests (manifestsRendered : list ManifestReference)
    (conditionType reason status message : string) (err : option error) : M (option error) :=
  patch ← get_mem;
  _ ← modify_mem (fun ci => ci <| CI_Status ::= fun s =>
        s <| Status_ManifestsRendered := manifestsRendered |> |>);
  now ← Now;
  _ ← modify_mem (fun ci => ci <| CI_Status ::= fun s =>
        s <| Status_Conditions := SetStatusCondition now (Status_Conditions s) conditionType reason
               status message |> |>);
  updateErr ← PatchCIStatus patch;
  mret (match err with Some _ => err | None => updateErr end).

(* src: src/internal/controller/clusterinstance_controller.go 733-779 ClusterInstanceReconciler.validateRenderedManifests *)
Definition validateRenderedManifests (objects : list RenderedObject) : M (bool * option error) :=
  '(manifestsRendered, rendered, err) ← executeRenderedManifests true objects ManifestRenderedValidated;
  err ← match err with
        | Some e => record_manifests manifestsRendered RenderedTemplatesValidated Failed ConditionFalse
            (Sprintf "%s, err: %v" [FStr "Rendered manifests failed dry-run validation"; FErr e]) err
        | None =>
            if negb rendered then
              record_manifests manifestsRendered RenderedTemplatesValidated Failed ConditionFalse
                "Rendered manifests failed dry-run validation" None
            else
              record_manifests manifestsRendered RenderedTemplatesValidated Completed ConditionTrue
                "Rendered templates validation succeeded" None
        end;
  mret (rendered, err).

(* src: src/internal/controller/clusterinstance_controller.go 781-825 ClusterInstanceReconciler.applyRenderedManifests *)
Definition applyRenderedManifests (objects : list RenderedObject) : M (bool * option error) :=
  '(manifestsRendered, rendered, err) ← executeRenderedManifests false objects ManifestRenderedSuccess;
  err ← (if (bool_decide (is_Some err) || negb rendered)%bool then
           record_manifests manifestsRendered RenderedTemplatesApplied Failed ConditionFalse
             "Failed to apply site config manifests" err
         else
           record_manifests manifestsRendered RenderedTemplatesApplied Completed ConditionTrue
             "Applied site config manifests" None);
  mret (rendered, err).

(* src: src/internal/controller/clusterinstance_controller.go 827-864 ClusterInstanceReconciler.pruneManifests *)
Definition pruneManifests (objects : list RenderedObject) : M (bool * option error) :=
  match objects with
  | [] => mret (true, None)
  | _ =>
      '(deletionCompleted, err) ← DeleteObjects objects [] (Some DefaultDeletionTimeout);
      match err with
      | Some e =>
          if IsDeletionTimeoutError err then
            err1 ← ApplyPause (Error e);
            mret (false, match err1 with
                         | Some err1 => Some (Errorf "encountered an error pausing ClusterInstance, error: %w"
                                          [FErr err1])
                         | None => err
                         end)
          else mret (false, Some (Errorf "pruning operation encountered an error: %w" [FErr e]))
      | None => mret (deletionCompleted, None)
      end
  end.

(** One suppressed object. *)
(* src: src/internal/controller/clusterinstance_controller.go 875-888 ClusterInstanceReconciler.updateSuppressedManifestsStatus *)
Definition suppressOne (object : RenderedObject) (manifestsRendered : list ManifestReference)
    : M (list ManifestReference + False) :=
  now0 ← Now;
  match RenderedObject_ManifestReference now0 object with
  | None => panic nil_dereference
  | Some manifestRef =>
      let manifestRef := manifestRef <| MRef_Status := ManifestSuppressed |> <| MRef_Message := "" |> in
      now ← Now;
      mret (inl (upsertManifest now manifestRef manifestsRendered))
  end.

(* src: src/internal/controller/clusterinstance_controller.go 866-902 ClusterInstanceReconciler.updateSuppressedManifestsStatus *)
Definition updateSuppressedManifestsStatus (objects : list RenderedObject) : M (option error) :=
  ci ← get_mem;
  r ← for_range objects (Status_ManifestsRendered (CI_Status ci)) suppressOne;
  match r with
  | inr f => match f : False with end
  | inl manifestsRendered =>
      if bool_decide (Status_ManifestsRendered (CI_Status ci) = manifestsRendered) then mret None
      else
        _ ← modify_mem (fun ci => ci <| CI_Status ::= fun s =>
              s <| Status_ManifestsRendered := manifestsRendered |> |>);
        if_err (PatchCIStatus ci)
          (fun updateErr => mret (Some (Errorf
             "failed to update ClusterInstance.Status.ManifestsRendered for ClusterInstance %s/%s: %w"
             (ns_name ci ++ [FErr updateErr]))))
          (mret None)
  end.

(* src: src/internal/controller/clusterinstance_controller.go 904-940 ClusterInstanceReconciler.handleRenderTemplates *)
Definition handleRenderTemplates : M (bool * option error) :=
  '(objects, err) ← renderManifests;
  match err with
  | Some _ => mret (false, err)
  | None =>
      '(ok, err) ← pruneManifests (GetPruneObjects objects);
      if (negb ok || bool_decide (is_Some err))%bool then mret (ok, err)
      else
        if_err (updateSuppressedManifestsStatus (GetSuppressObjects objects))
          (fun err => mret (ok, Some err))
          (let renderList := GetRenderObjects objects in
           '(ok, err) ← validateRenderedManifests renderList;
           if (negb ok || bool_decide (is_Some err))%bool then mret (ok, err)
           else applyRenderedManifests renderList)
  end.

(** ** The observed generation *)

(* src: src/internal/controller/clusterinstance_controller.go 331-352 ClusterInstanceReconciler.updateObservedStatus *)
Definition recordSpec : M (option error) :=
  ci ← get_mem;
  _ ← modify_mem (SetMetaDataAnnotation LastClusterInstanceSpecAnnotation (Marshal (marshal_Spec (CI_Spec ci))));
  if_err (patchCI ci)
    (fun err => mret (Some (Errorf "failed to update %s annotation: %w"
       [FStr LastClusterInstanceSpecAnnotation; FErr err])))
    (ci ← get_mem;
     if_err (fetchCI (CI_key ci))
       (fun err => mret (Some (Errorf "failed to re-fetch ClusterInstance: %w" [FErr err])))
       (mret None)).

(* src: src/internal/controller/clusterinstance_controller.go 354-363 ClusterInstanceReconciler.updateObservedStatus *)
Definition recordGeneration : M (option error) :=
  ci ← get_mem;
  let generation := Meta_Generation (CI_Meta ci) in
  _ ← modify_mem (fun ci =>
        ci <| CI_Status ::= fun s => s <| Status_ObservedGeneration := generation |> |>);
  if_err (PatchCIStatus ci)
    (fun err => mret (Some (Errorf
       "failed to patch ClusterInstance status for ObservedGeneration update to %d: %w"
       [FInt generation; FErr err])))
    (mret None).

(* src: src/internal/controller/clusterinstance_controller.go 317-364 ClusterInstanceReconciler.updateObservedStatus *)
Definition updateObservedStatus : M (option error) :=
  ci ← get_mem;
  match (match Meta_Annotations (CI_Meta ci) !! LastClusterInstanceSpecAnnotation with
         | None => Ok None
         | Some lastSpecJSON =>
             match Unmarshal_Spec lastSpecJSON with
             | Ok spec => Ok (Some spec)
             | Err err => Err err
             end
         end) with
  | Err err => mret (Some (Errorf "failed to unmarshal last-applied Spec: %w" [FErr err]))
  | Ok lastAppliedSpec =>
      let up_to_date := match lastAppliedSpec with
                        | None => false
                        | Some last => DeepEqual_spec_pointer (CI_Spec ci) last
                        end in
      if_err (if up_to_date then mret None else recordSpec)
        (fun err => mret (Some err)) recordGeneration
  end.

(** ** Reconcile *)

(** From the reimport of a reinstalled cluster on. *)
(* src: src/internal/controller/clusterinstance_controller.go 290-314 ClusterInstanceReconciler.Reconcile *)
Definition provision : M (Result * option error) :=
  if_err handleValidate
    (fun err => mret (requeueWithErrorAfterDelay err DefaultValidationErrorDelay))
    ('(ok, err) ← handleRenderTemplates;
     match err with
     | Some err => mret (requeueWithErrorAfterDelay err DefaultTemplateRenderingErrorDelay)
     | None =>
         if negb ok then mret (requeueForDeletion, None)
         else
           ci ← get_mem;
           if Z.eqb (Status_ObservedGeneration (CI_Status ci)) (Meta_Generation (CI_Meta ci)) then
             mret (doNotRequeue, None)
           else
             if_err updateObservedStatus
               (fun err => mret (mkResult false 0, Some (Errorf
                  "encountered an error updating observed ClusterInstance status: %w" [FErr err])))
               (mret (doNotRequeue, None))
     end).

(* src: src/internal/controller/clusterinstance_controller.go 269-314 ClusterInstanceReconciler.Reconcile *)
Definition reconcile_generation (podNamespace : string) (store : Configuration)
    : M (Result * option error) :=
  if_err (applyACMBackupLabelToInstallTemplates podNamespace)
    (fun err => mret (requeueWithError err))
    (ci ← get_mem;
     match Spec_Reinstall (CI_Spec ci) with
     | None => provision
     | Some reinstallSpec =>
         let outstanding := match Status_Reinstall (CI_Status ci) with
                            | None => true
                            | Some rs => negb (String.eqb (RS_ObservedGeneration rs) (RSpec_Generation reinstallSpec))
                            end in
         if (outstanding : bool) then
           '(res, err) ← ProcessRequest store;
           match err with
           | Some err => mret (res, Some (Errorf
               "encountered an error while processing reinstall request, err: %w" [FErr err]))
           | None => if negb (Result_IsZero res) then mret (res, None) else provision
           end
         else provision
     end).

(* src: src/internal/controller/clusterinstance_controller.go 251-314 ClusterInstanceReconciler.Reconcile *)
Definition reconcile_running (podNamespace : string) (store : Configuration)
    : M (Result * option error) :=
  ci ← get_mem;
  '(result, reimportNeeded, err) ←
    match Status_Reinstall (CI_Status ci) with
    | None => mret (mkResult false 0, false, None)
    | Some _ => EnsureClusterIsReimported store
    end;
  match err with
  | Some err => mret (requeueWithErrorAfterDelay err DefaultReimportErrorDelay)
  | None =>
      if (reimportNeeded : bool) then mret (result, None)
      else
        ci ← get_mem;
        if Z.eqb (Status_ObservedGeneration (CI_Status ci)) (Meta_Generation (CI_Meta ci)) then
          mret (doNotRequeue, None)
        else reconcile_generation podNamespace store
  end.

(** [if res, err := step; !res.IsZero() || err != nil { return res, err }] *)
Definition unless_done (step : M (Result * option error)) (k : M (Result * option error))
    : M (Result * option error) :=
  '(res, err) ← step;
  if (negb (Result_IsZero res) || bool_decide (is_Some err))%bool then mret (res, err) else k.

(** With the ClusterInstance loaded. *)
(* src: src/internal/controller/clusterinstance_controller.go 189-315 ClusterInstanceReconciler.Reconcile *)
Definition reconcile_loaded (podNamespace : string) (store : Configuration) : M (Result * option error) :=
  ci ← get_mem;
  if ClusterInstance_IsPaused ci then mret (mkResult false 0, None)
  else
    match Status_Paused (CI_Status ci) with
    | Some _ =>
        _ ← modify_mem (fun ci =>
              ci <| CI_Status ::= fun s => s <| Status_Paused := None |> |>);
        if_err (statusPatchCI ci)
          (fun err => mret (mkResult false 0,
             Some (Errorf "failed to clear Paused status, error: %w" [FErr err])))
          (mret (mkResult true 0, None))
    | None =>
        unless_done handleFinalizer
          (unless_done ensureVeleroRestoreStatusAnnotation
             (ci ← get_mem;
              if isBeingRestored ci then handleRestored
              else reconcile_running podNamespace store))
    end.

(* src: src/internal/controller/clusterinstance_controller.go 153-315 ClusterInstanceReconciler.Reconcile *)
Definition Reconcile (podNamespace : string) (store : Configuration) (req : ObjectKey)
    : M (Result * option error) :=
  if_err (fetchCI req)
    (fun err => mret (if IsNotFound err then (doNotRequeue, None) else requeueWithError err))
    (reconcile_loaded podNamespace store).
End controller.

(** ** What triggers a reconcile *)

(* src: src/internal/controller/clusterinstance_controller.go 949-956 ClusterInstanceReconciler.SetupWithManager *)
Definition holdAnnotationPredicate (old new : ClusterInstance) : bool :=
  negb (Bool.eqb (bool_decide (is_Some (Meta_Annotations (CI_Meta old) !! PausedAnnotation)))
          (bool_decide (is_Some (Meta_Annotations (CI_Meta new) !! PausedAnnotation)))).

(* src: src/internal/controller/clusterinstance_controller.go 959-988 ClusterInstanceReconciler.SetupWithManager *)
Definition provisionedChangedPredicate (old new : ClusterInstance) : bool :=
  match Spec_Reinstall (CI_Spec new), Status_Reinstall (CI_Status new) with
  | Some _, Some _ =>
      match FindStatusCondition (Status_Conditions (CI_Status old)) ClusterProvisioned,
            FindStatusCondition (Status_Conditions (CI_Status new)) ClusterProvisioned with
      | None, Some _ => true
      | Some o, Some n =>
          negb (String.eqb (Cond_Status o) (Cond_Status n)) || negb (String.eqb (Cond_Reason o) (Cond_Reason n))
      | _, None => false
      end
  | _, _ => false
  end.

(** controller-runtime's [GenerationChangedPredicate] and [LabelChangedPredicate] for updates, and
    the disjunction the controller filters update events with. *)
(* src: src/internal/controller/clusterinstance_controller.go 991-998 ClusterInstanceReconciler.SetupWithManager *)
Definition update_triggers (old new : ClusterInstance) : bool :=
  negb (Z.eqb (Meta_Generation (CI_Meta old)) (Meta_Generation (CI_Meta new)))
  || negb (bool_decide (Meta_Labels (CI_Meta old) = Meta_Labels (CI_Meta new)))
  || holdAnnotationPredicate old new || provisionedChangedPredicate old new.
