(* ===== verification/Footprint.v ===== *)
(** * What the steps of a reconcile may do

    For an invariant of the shared ClusterInstance that depends on its name only and is kept by
    the server's answers, and a property of calls that every ordinary call has, each step of the
    reconcile keeps the one and respects the other as soon as deleting an object and pausing do.
    The theorems on the controller instantiate this with different properties of calls. *)
From S2P Require Import Prelude GoStd JsonCodec Types Errors Conditions K8s Retry Requeue.
From S2P Require Import RenderedObject Validator Templates Pause Configuration Deletion.
From S2P Require Import Preservation Reinstall Reimport Controller.

(** Neither a deletion or an application of an object nor a patch outside the status. *)
Definition ordinary (e : Event) : Prop :=
  match e with
  | Ev (ObjDelete _ _ _) _ | Ev (ObjApply _ _) _ | Ev (PatchCI _ _) _ => False
  | _ => True
  end.

#[export] Hint Extern 1 (ordinary (Ev _ _)) => exact Logic.I : sc.

(** What a proof about the calls of a reconcile has to supply. *)
Class Footprint {W} `{Server W} (I : ClusterInstance -> Prop) (P : list Event -> Event -> Prop) : Prop := {
  fp_keeps : Keeps (W := W) I;
  fp_key : forall s s', CI_key s' = CI_key s -> I s -> I s';
  fp_ordinary : forall pre e, ordinary e -> P pre e;
  fp_delete : forall o timeout, safe I P (DeleteObject (W := W) o timeout);
  fp_pause : forall reason, safe I P (ApplyPause (W := W) reason)
}.
#[export] Existing Instance fp_keeps.

#[export] Hint Extern 1 (Footprint _ _) => typeclasses eauto : sc.
#[export] Hint Extern 1 (Keeps _) => typeclasses eauto : sc.

Section footprint.
Context `{FloatText} `{TemplateLib} `{MapRange} `{ResourceYaml} `{TimeText} `{SpecText}.
Context {W : Type} `{Server W}.
Context (I : ClusterInstance -> Prop) (P : list Event -> Event -> Prop) `{!Footprint (W := W) I P}.

Lemma safe_update (f : ClusterInstance -> ClusterInstance) :
  (forall s, CI_key (f s) = CI_key s) -> safe (E := Event) (W := W) I P (modify_mem f).
Proof. intros Hs. apply safe_modify. intros s. by apply fp_key. Qed.

Lemma safe_get : safe (W := W) (E := Event) I P get_mem.
Proof. by intros pre s w. Qed.

#[local] Hint Extern 3 (P _ (Ev _ _)) => apply fp_ordinary; exact Logic.I : sc.
#[local] Hint Extern 3 (safe _ _ (modify_mem _)) => apply safe_update; intros ?; reflexivity : sc.
#[local] Hint Resolve safe_get fp_delete fp_pause : sc.

(** ** Deletion *)

Lemma safe_DeleteObjects objects excl timeout : safe I P (DeleteObjects objects excl timeout).
Proof. unfold DeleteObjects, deleteWave, deleteOne, finishDeletion. safe_go. Qed.
#[local] Hint Resolve safe_DeleteObjects : sc.

Lemma safe_DeleteRenderedObjects excl timeout : safe I P (DeleteRenderedObjects excl timeout).
Proof. unfold DeleteRenderedObjects. safe_go. Qed.
#[local] Hint Resolve safe_DeleteRenderedObjects : sc.

(** ** Reinstall *)

Lemma safe_Cleanup : safe I P Cleanup.
Proof.
  assert (Hdata : forall modes ns data, safe I P (Cleanup_data (W := W) modes ns data)).
  { intros modes ns. induction modes as [|mode modes IH]; intros data; simpl; [safe_go|].
    destruct (buildRestoreLabelSelector mode) as [[sel|]|]; [|apply IH|safe_go].
    unfold resourcesForPreservation. safe_step; [safe_go|]. destruct a; [apply IH|safe_go]. }
  unfold Cleanup, Cleanup_all, Cleanup_delete. safe_go; apply Hdata.
Qed.
#[local] Hint Resolve safe_Cleanup : sc.

Lemma safe_assign rs : safe (W := W) I P (assign_reinstall_status rs).
Proof. unfold assign_reinstall_status. safe_go. Qed.
#[local] Hint Resolve safe_assign : sc.

Lemma safe_setReinstallStatusCondition c : safe (W := W) I P (setReinstallStatusCondition c).
Proof. unfold setReinstallStatusCondition, assign_reinstall_status. safe_go. Qed.
#[local] Hint Resolve safe_setReinstallStatusCondition : sc.

Lemma safe_update_reinstall_status f : safe (W := W) I P (update_reinstall_status f).
Proof. unfold update_reinstall_status, assign_reinstall_status, deref_reinstall_status. safe_go. Qed.
#[local] Hint Resolve safe_update_reinstall_status : sc.

Lemma safe_deref_spec : safe (W := W) I P deref_reinstall_spec.
Proof. unfold deref_reinstall_spec. safe_go. Qed.
#[local] Hint Resolve safe_deref_spec : sc.

Lemma safe_deref_status : safe (W := W) I P deref_reinstall_status.
Proof. unfold deref_reinstall_status. safe_go. Qed.
#[local] Hint Resolve safe_deref_status : sc.

Lemma safe_Backup : safe I P Backup.
Proof.
  unfold Backup, for_modes, backupResources, resourcesForPreservation, backupResource, createResource,
    CreateOrUpdate, createResource_mutate. safe_go.
Qed.
#[local] Hint Resolve safe_Backup : sc.

Lemma safe_Restore : safe I P Restore_preserved.
Proof.
  unfold Restore_preserved, for_modes, restoreResources, resourcesForPreservation, restoreResource,
    fetchAndValidateObjectToRestore, CreateOrUpdate, restoreResource_mutate. safe_go.
Qed.
#[local] Hint Resolve safe_Restore : sc.

Lemma safe_get_counts select restored : safe I P (get_counts select restored).
Proof. unfold get_counts, countMatchingResources. safe_go. Qed.
#[local] Hint Resolve safe_get_counts : sc.

Lemma safe_record_deletion patch c r err : safe I P (record_deletion patch c r err).
Proof. unfold record_deletion. safe_go. Qed.
#[local] Hint Resolve safe_record_deletion : sc.

Lemma safe_task store t : t ∈ tasks store -> safe I P (task_Run t).
Proof.
  intros Ht. repeat (apply elem_of_cons in Ht as [->|Ht]); [..|by apply not_elem_of_nil in Ht]; simpl.
  - unfold ensureValidReinstallRequest. safe_go.
  - unfold ensureStartTimeIsSet. safe_go.
  - unfold applyPreservedLabelToClusterInstanceSecrets, applyPreservationLabel. safe_go.
  - unfold ensureDataIsPreserved, record_preservation, getDataPreservationSummary, GetPreservedResourceCounts.
    safe_go.
  - unfold ensureRenderedManifestsAreDeleted. safe_go.
  - unfold ensurePreservedDataIsRestored, record_restoration, getDataRestorationSummary, GetRestoredResourceCounts.
    safe_go.
Qed.
#[local] Hint Resolve safe_task : sc.

Lemma safe_ProcessRequest store : safe I P (ProcessRequest store).
Proof.
  unfold ProcessRequest, run_tasks, run_task, finishProcessing, finalizeReinstallRequest,
    initializeReinstallStatus.
  safe_go.
Qed.
#[local] Hint Resolve safe_ProcessRequest : sc.

(** ** Reimport *)

Lemma safe_EnsureClusterIsReimported store : safe I P (EnsureClusterIsReimported store).
Proof.
  unfold EnsureClusterIsReimported, isWithinGracePeriod, getManagedClusterResource, reimport_unhealthy,
    performReimport, CreateClient, validateSpokeConnectivity,
    extractKubeconfigFromSecret, applyManifestWorkToSpoke, applyManifest, applyToSpoke,
    finishReimport.
  safe_go.
Qed.

(** ** Validation and rendering *)

Lemma safe_record_condition c r st m err : safe I P (record_condition c r st m err).
Proof. unfold record_condition. safe_go. Qed.
#[local] Hint Resolve safe_record_condition : sc.

Lemma safe_applyACMBackupLabel ns : safe I P (applyACMBackupLabelToInstallTemplates ns).
Proof. unfold applyACMBackupLabelToInstallTemplates, applyDRLabel. safe_go. Qed.

Lemma safe_Validate ci : safe I P (Validate ci).
Proof. unfold Validate, validateResources, validateTemplateRefs, wrap, get_error. safe_go. Qed.
#[local] Hint Resolve safe_Validate : sc.

Lemma safe_handleValidate : safe I P handleValidate.
Proof. unfold handleValidate. safe_go. Qed.

Lemma safe_ProcessTemplates ci : safe I P (ProcessTemplates ci).
Proof.
  unfold ProcessTemplates, renderAndCollect, renderTemplates, renderConfigMap, renderManifestFromTemplate,
    buildClusterData.
  safe_go.
Qed.
#[local] Hint Resolve safe_ProcessTemplates : sc.

Lemma safe_renderManifests : safe I P renderManifests.
Proof. unfold renderManifests. safe_go. Qed.

Lemma safe_pruneManifests objects : safe I P (pruneManifests objects).
Proof. unfold pruneManifests. safe_go. Qed.

Lemma safe_updateSuppressed objects : safe I P (updateSuppressedManifestsStatus objects).
Proof. unfold updateSuppressedManifestsStatus, suppressOne. safe_go. Qed.

Lemma safe_record_manifests l c r st m err : safe I P (record_manifests l c r st m err).
Proof. unfold record_manifests. safe_go. Qed.
#[local] Hint Resolve safe_record_manifests : sc.

(** Dry runs or applications, if they are allowed. *)
Lemma safe_executeRendered dryRun objects status :
  (forall pre o r, P pre (Ev (ObjApply dryRun o) r)) -> safe I P (executeRenderedManifests dryRun objects status).
Proof. intros Happly. unfold executeRenderedManifests, executeOne, applyObject. safe_go. Qed.
End footprint.

#[export] Hint Resolve safe_DeleteRenderedObjects safe_ProcessRequest safe_EnsureClusterIsReimported
  safe_applyACMBackupLabel safe_handleValidate safe_renderManifests safe_pruneManifests
  safe_updateSuppressed safe_record_manifests safe_executeRendered fp_pause : sc.
