(* ===== verification/ControllerSpec.v ===== *)
(** * The ClusterInstance controller: theorems

    What a reconcile deletes, when it applies, what it does with a restored object, when it gives
    the finalizer up; for any API server, under the assumptions a theorem names. *)
From S2P Require Import Prelude GoStd JsonCodec Types Errors Conditions Samples Validation K8s Cluster Retry Requeue.
From S2P Require Import RenderedObject Validator Templates Pause Configuration Deletion DeletionSpec.
From S2P Require Import Preservation Reinstall Reimport Controller Footprint.

(** A call that deletes an object follows right after a get of that object, which showed it to
    carry the owned-by label of the ClusterInstance [key] and not to be terminating. *)
Definition owned_delete (key : ObjectKey) (pre : list Event) (e : Event) : Prop :=
  match e with
  | Ev (ObjDelete apiVersion kind object) _ =>
      exists live, last pre = Some (Ev (ObjGet apiVersion kind object) (Ok live))
        /\ GetOwner (Meta_Labels live) = GenerateOwnedByLabelValue (Key_Namespace key) (Key_Name key)
        /\ ObjectMeta_deleting live = None
  | _ => True
  end.

(** The server answers with the ClusterInstance that was asked for. *)
Definition names_kept {W} `{Server W} : Prop :=
  (forall key w ci w', serve (GetCI key) w = (Ok ci, w') -> CI_key ci = key)
  /\ (forall old new w ci w', serve (PatchCI old new) w = (Ok ci, w') -> CI_key ci = CI_key new)
  /\ (forall old new w ci w', serve (StatusPatchCI old new) w = (Ok ci, w') -> CI_key ci = CI_key new).

(** ** Deletions *)

Definition named (req : ObjectKey) (s : ClusterInstance) : Prop := CI_key s = req.

Section deletions.
Context `{FloatText} `{TemplateLib} `{MapRange} `{ResourceYaml} `{TimeText} `{SpecText}.
Context {W : Type} `{Server W} (Hnames : names_kept (W := W)) (req : ObjectKey).

#[local] Instance named_kept : Keeps (W := W) (named req).
Proof.
  destruct Hnames as (Hget & Hpatch & Hstatus). unfold named. split.
  - intros s w ci w' <- Hs. by eapply Hget.
  - intros old new w ci w' <- Hs. by eapply Hpatch.
  - intros old new w ci w' <- Hs. by eapply Hstatus.
Qed.

Lemma named_key s s' : CI_key s' = CI_key s -> named req s -> named req s'.
Proof. unfold named. congruence. Qed.

Lemma ordinary_owned pre e : ordinary e -> owned_delete req pre e.
Proof. destruct e as [R c r]. by destruct c. Qed.

Lemma safe_DeleteObject_owned o timeout : safe (named req) (owned_delete req) (DeleteObject (W := W) o timeout).
Proof.
  intros pre s w Hs. unfold DeleteObject, isObjectDeleted. apply wp_bind, wp_get, wp_bind, wp_bind, wp_call.
  intros r w1 _. apply wp_ret. simpl.
  assert (Hend : forall A (a : A) w', wp (mret a : Prog ClusterInstance W Event A)
    (fun _ s' _ ev => named req s' /\ each_event (owned_delete req) pre
       (Ev (ObjGet (GetAPIVersion o) (GetKind o) (object_key o)) r :: ev)) s w').
  { intros A a w'. apply wp_ret. by split. }
  destruct r as [live|err]; [|destruct (IsNotFound err); apply Hend].
  destruct (VerifyOwnership _ _ _ _ _) as [err|] eqn:Hv; [apply Hend|].
  destruct (ObjectMeta_deleting live) as [since|] eqn:Hd.
  - apply wp_bind. unfold timeoutExceeded. destruct timeout; [apply wp_bind, wp_Now; intros now w2 _|].
    all: apply wp_ret; try case_goal; apply Hend.
  - apply wp_if_err. unfold initiateObjectDeletion. apply wp_bind, wp_call. intros r w2 _. apply wp_ret.
    assert (Hdel : forall A (a : A) w', wp (mret a : Prog ClusterInstance W Event A)
      (fun _ s' _ ev => named req s' /\ each_event (owned_delete req) pre
         (Ev (ObjGet (GetAPIVersion o) (GetKind o) (object_key o)) (Ok live)
          :: Ev (ObjDelete (GetAPIVersion o) (GetKind o) (object_key o)) r :: ev)) s w').
    { intros A a w'. apply wp_ret. split; [done|]. split; [done|]. split; [|done].
      exists live. rewrite last_snoc. split; [done|]. split; [|done]. rewrite <-Hs.
      by apply owned_verify in Hv. }
    destruct (IgnoreNotFound r); apply Hdel.
Qed.

#[local] Hint Extern 3 (owned_delete _ _ (Ev _ _)) => exact Logic.I : sc.

#[local] Instance owned_footprint : Footprint (W := W) (named req) (owned_delete req).
Proof.
  split; [apply _|exact named_key|exact ordinary_owned|exact safe_DeleteObject_owned|].
  intros reason. unfold ApplyPause. safe_go.
Qed.

#[local] Hint Extern 3 (safe _ _ (modify_mem _)) =>
  apply (safe_update _ (owned_delete req)); intros ?; first [reflexivity|by unfold AddFinalizer; case_goal] : sc.

Lemma safe_provision_owned : safe (named req) (owned_delete req) provision.
Proof.
  unfold provision, handleRenderTemplates, validateRenderedManifests, applyRenderedManifests,
    updateObservedStatus, recordSpec, recordGeneration. safe_go.
Qed.
#[local] Hint Resolve safe_provision_owned : sc.

Lemma safe_handleFinalizer_owned : safe (named req) (owned_delete req) handleFinalizer.
Proof. unfold handleFinalizer, ensureFinalizer. safe_go. Qed.
#[local] Hint Resolve safe_handleFinalizer_owned : sc.

Lemma safe_loaded_owned podNamespace store :
  safe (named req) (owned_delete req) (reconcile_loaded podNamespace store).
Proof.
  unfold reconcile_loaded, unless_done, ensureVeleroRestoreStatusAnnotation, handleRestored,
    reconcile_running, reconcile_generation. safe_go.
Qed.

(** C2: Whatever the API server answers (as long as it answers with the ClusterInstance asked for), a
    reconcile deletes an object only right after a get of that very object has shown that it
    carries the owned-by label of the ClusterInstance being reconciled and is not yet being
    deleted; this covers finalization, pruning, reinstalls and the cleanup after them. *)
Theorem Reconcile_deletes_owned podNamespace store s w n e :
  let calls := run_evs (Reconcile podNamespace store req s w) in
  calls !! n = Some e -> owned_delete req (take n calls) e.
Proof.
  intros calls Hn. enough (Hwp : wp (Reconcile podNamespace store req)
    (fun _ _ _ ev => each_event (owned_delete req) [] ev) s w).
  { by apply (each_event_lookup _ _ _ _ _ Hwp) in Hn. }
  apply wp_if_err, wp_bind, wp_call. intros [ci|err] w1 Hget; [|apply wp_ret; by apply wp_ret].
  apply wp_bind, wp_modify, wp_ret. cbv beta iota.
  eapply wp_mono; [apply (safe_loaded_owned podNamespace store [Ev (GetCI req) (Ok ci)])|].
  - destruct Hnames as [Hn1 _]. by eapply Hn1.
  - intros o s' w' ev [_ Hev]. by split.
Qed.
End deletions.

(** ** The finalizer *)

(** A patch that does not take the finalizer away. *)
Definition keeps_finalizer (e : Event) : Prop :=
  match e with
  | Ev (PatchCI old new) _ =>
      ContainsFinalizer old clusterInstanceFinalizer = true -> ContainsFinalizer new clusterInstanceFinalizer = true
  | _ => True
  end.

Section finalizer.
Context `{FloatText} `{TemplateLib} `{MapRange} `{ResourceYaml} `{TimeText} `{SpecText}.
Context {W : Type} `{Server W}.

(** An assignment to the object and a patch from what it was. *)
Lemma wp_modify_patch {A} (Q : Event -> Prop) f s h (k : Prog ClusterInstance W Event A) w :
  (forall r, Q (Ev (PatchCI s (f s)) r)) -> (forall e, emits Q (h e)) -> emits Q k ->
  wp (_ ← modify_mem f; if_err (patchCI s) h k) (fun _ _ _ ev => Forall Q ev) s w.
Proof.
  intros HQ Hh Hk. apply wp_bind, wp_modify, wp_if_err, wp_bind, wp_get, wp_bind, wp_call.
  intros [ci|err] w1 _.
  - apply wp_bind, wp_modify, wp_ret. constructor; [apply HQ|apply Hk].
  - apply wp_ret. constructor; [apply HQ|apply Hh].
Qed.

#[local] Instance keeps_true : Keeps (W := W) (fun _ => True).
Proof. by split. Qed.

#[local] Hint Extern 3 (keeps_finalizer (Ev _ _)) => exact Logic.I : sc.

Lemma emits_ApplyPause_finalizer reason : emits keeps_finalizer (ApplyPause (W := W) reason).
Proof.
  unfold ApplyPause. apply emits_get_bind. intros s w. case_goal; [by apply wp_ret|].
  apply wp_modify_patch; [exact (fun r Hs => Hs)|intros e; emits_go|emits_go].
Qed.

#[local] Instance finalizer_footprint : Footprint (W := W) (fun _ => True) (fun _ => keeps_finalizer).
Proof.
  split; [apply _|done| | |].
  - intros pre e He. destruct e as [R c r]. by destruct c.
  - intros o timeout. unfold DeleteObject, isObjectDeleted, timeoutExceeded, initiateObjectDeletion. safe_go.
  - intros reason. apply safe_of_emits, emits_ApplyPause_finalizer.
Qed.

#[local] Hint Extern 2 (safe _ _ (modify_mem _)) => apply safe_modify; done : sc.

Lemma emits_recordSpec : emits keeps_finalizer recordSpec.
Proof. unfold recordSpec. apply emits_get_bind. intros s w. apply wp_modify_patch; [exact (fun r Hs => Hs)|intros e; emits_go|emits_go]. Qed.

Lemma safe_provision_finalizer : safe (W := W) (fun _ => True) (fun _ => keeps_finalizer) provision.
Proof.
  unfold provision, handleRenderTemplates, validateRenderedManifests, applyRenderedManifests,
    updateObservedStatus, recordGeneration.
  pose proof (safe_of_emits _ _ emits_recordSpec). safe_go.
Qed.
#[local] Hint Resolve safe_provision_finalizer : sc.

Lemma emits_ensureVelero : emits keeps_finalizer ensureVeleroRestoreStatusAnnotation.
Proof.
  unfold ensureVeleroRestoreStatusAnnotation. apply emits_get_bind. intros s w.
  case_goal; [by apply wp_ret|]. apply wp_modify_patch; [exact (fun r Hs => Hs)|intros e; emits_go|emits_go].
Qed.

Lemma emits_ensureFinalizer : emits keeps_finalizer ensureFinalizer.
Proof.
  unfold ensureFinalizer. apply emits_get_bind. intros s w. destruct (ContainsFinalizer _ _) eqn:Hf; [by apply wp_ret|].
  apply wp_modify_patch; [by simpl; rewrite Hf|intros e; emits_go|emits_go].
Qed.

Lemma emits_handleRestored : emits keeps_finalizer handleRestored.
Proof.
  unfold handleRestored. apply emits_bind; [emits_go|]. intros ci. apply emits_bind; [emits_go|]. intros _.
  apply emits_if_err; [emits_go|intros e; emits_go|]. apply emits_get_bind. intros s w.
  apply wp_modify_patch; [exact (fun r Hs => Hs)|intros e; emits_go|emits_go].
Qed.

(** After the finalizer has been dealt with. *)
Lemma emits_rest podNamespace store :
  emits keeps_finalizer (unless_done ensureVeleroRestoreStatusAnnotation
    (ci ← get_mem; if isBeingRestored ci then handleRestored else reconcile_running podNamespace store)).
Proof.
  apply emits_of_safe. unfold unless_done, reconcile_running, reconcile_generation.
  pose proof (safe_of_emits _ _ emits_ensureVelero). pose proof (safe_of_emits _ _ emits_handleRestored).
  safe_go.
Qed.

(** All tracked manifests of [ci] have been seen gone. *)
Definition manifests_gone (ci : ClusterInstance) (ev : list Event) : Prop :=
  Forall reference_ok (Status_ManifestsRendered (CI_Status ci)) ->
  forall m, m ∈ Status_ManifestsRendered (CI_Status ci) ->
    exists o, mid o = MRef_identity m /\ seen_gone ci o ev.

(** Either the finalizer stays, or the last call takes it away after everything has gone. *)
Definition finalized (ci : ClusterInstance) (ev : list Event) : Prop :=
  Forall keeps_finalizer ev
  \/ exists ev0 last, ev = ev0 ++ [last] /\ Forall keeps_finalizer ev0
       /\ deletion_time_is_zero ci = false /\ manifests_gone ci ev0.

Lemma wp_handleFinalizer (plain : api_errors_plain (W := W)) ci w :
  wp handleFinalizer (fun _ _ _ ev => finalized ci ev) ci w.
Proof.
  unfold handleFinalizer. apply wp_bind, wp_get. destruct (deletion_time_is_zero ci) eqn:Hdel.
  { eapply wp_mono; [apply wp_emits, emits_ensureFinalizer|]. by left. }
  case_goal; [left; constructor|]. apply wp_bind.
  eapply wp_mono.
  { apply (wp_and _ (fun _ _ _ ev => Forall keeps_finalizer ev) (fun o _ _ ev => forall err, o = Ret (true, err) -> manifests_gone ci ev)).
    - apply wp_emits, emits_of_safe, safe_DeleteRenderedObjects, finalizer_footprint.
    - intros err Hout Href. destruct (DeleteRenderedObjects_gone plain ci [] (Some DefaultDeletionTimeout) w Href)
        as (b & err' & Hrun & Hgone).
      rewrite Hrun in Hout. injection Hout as -> ->. intros m Hm. apply Hgone; [done|done|set_solver]. }
  intros [[b err]|msg] s' w' ev [Hev Hgone]; [|by left]. destruct err as [e|].
  - eapply wp_mono.
    { apply wp_emits. instantiate (1 := keeps_finalizer). pose proof emits_ApplyPause_finalizer. emits_go. }
    intros o s'' w'' ev' Hev'. left. exact (Forall_app_2 _ ev ev' Hev Hev').
  - destruct b; [|apply wp_ret; left; by rewrite app_nil_r]. simpl.
    apply wp_bind, wp_get, wp_bind, wp_modify, wp_if_err, wp_bind, wp_get, wp_bind, wp_call.
    intros [ci'|e] w1 _; [apply wp_bind, wp_modify, wp_ret|]; apply wp_ret; right; (eexists _, _; split; [done|]);
      (split; [done|]); (split; [done|]); by eapply Hgone.
Qed.

(** The calls after the ClusterInstance has been loaded. *)
Lemma wp_loaded_finalized (plain : api_errors_plain (W := W)) podNamespace store ci w :
  wp (reconcile_loaded podNamespace store) (fun _ _ _ ev =>
    Forall keeps_finalizer ev
    \/ exists ev0 last ev1, ev = ev0 ++ last :: ev1 /\ Forall keeps_finalizer ev0 /\ Forall keeps_finalizer ev1
         /\ deletion_time_is_zero ci = false /\ manifests_gone ci ev0) ci w.
Proof.
  unfold reconcile_loaded. apply wp_bind, wp_get. case_goal; [apply wp_ret; left; constructor|]. case_goal.
  { eapply wp_mono; [apply (wp_emits keeps_finalizer); emits_go|]. by left. }
  set (rest := unless_done ensureVeleroRestoreStatusAnnotation _). apply wp_bind. eapply wp_mono; [by apply wp_handleFinalizer|].
  assert (Hrest : forall res err s w, wp (if (negb (Result_IsZero res) || bool_decide (is_Some err))%bool
      then mret (res, err) else rest) (fun _ _ _ ev => Forall keeps_finalizer ev) s w).
  { intros res err s w'. apply wp_emits. case_goal; [emits_go|apply emits_rest]. }
  intros [[res err]|msg] s' w' ev [Hev|(ev0 & last & -> & Hev & Hdel & Hgone)]; cbv beta iota.
  - eapply wp_mono; [apply Hrest|]. intros o s'' w'' ev' Hev'. left. exact (Forall_app_2 _ ev ev' Hev Hev').
  - eapply wp_mono; [apply Hrest|]. intros o s'' w'' ev' Hev'. right. exists ev0, last, ev'.
    split; [simpl; by rewrite <-app_assoc|done].
  - by left.
  - right. by exists ev0, last, [].
Qed.

(** C10: Whatever the API server answers, a reconcile takes the finalizer away from a ClusterInstance
    only when the object it loaded is being deleted, and only after every manifest that object
    tracks has been seen gone (or owned by somebody else) in the same run. *)
Theorem Reconcile_finalizer_last (plain : api_errors_plain (W := W)) podNamespace store req s w n old new r :
  let calls := run_evs (Reconcile podNamespace store req s w) in
  calls !! n = Some (Ev (PatchCI old new) r) ->
  ContainsFinalizer old clusterInstanceFinalizer = true -> ContainsFinalizer new clusterInstanceFinalizer = false ->
  exists ci, calls !! 0 = Some (Ev (GetCI req) (Ok ci)) /\ deletion_time_is_zero ci = false
    /\ manifests_gone ci (take n calls).
Proof.
  intros calls Hn Hold Hnew. revert Hn. unfold calls.
  enough (Hwp : wp (Reconcile podNamespace store req) (fun _ _ _ ev => ev !! n = Some (Ev (PatchCI old new) r) ->
    exists ci, ev !! 0 = Some (Ev (GetCI req) (Ok ci)) /\ deletion_time_is_zero ci = false
      /\ manifests_gone ci (take n ev)) s w) by exact Hwp.
  assert (Hkeep : forall ev i, Forall keeps_finalizer ev -> ev !! i <> Some (Ev (PatchCI old new) r)).
  { intros ev i Hev Hi. eapply Forall_lookup_1 in Hev; [|done]. specialize (Hev Hold). congruence. }
  apply wp_if_err, wp_bind, wp_call. intros [ci|err] w1 Hget.
  2: { apply wp_ret, wp_ret. intros Hn. exfalso. revert Hn. apply Hkeep. by constructor. }
  apply wp_bind, wp_modify, wp_ret. cbv beta iota.
  eapply wp_mono; [by apply wp_loaded_finalized|]. intros o s' w' ev Hev. simpl. intros Hn. exists ci.
  destruct n as [|n]; [done|]. simpl in *. split; [done|].
  destruct Hev as [Hev|(ev0 & last & ev1 & -> & Hev0 & Hev1 & Hdel & Hgone)]; [by apply Hkeep in Hn|].
  split; [done|]. intros Href m Hm. destruct (Hgone Href m Hm) as (obj & Hid & resp & Hin & Hresp).
  exists obj. split; [done|]. exists resp. split; [|done]. simpl.
  assert (Hlen : n = length ev0).
  { apply lookup_app_Some in Hn as [Hn|[Hlen Hn]]; [by apply Hkeep in Hn|].
    destruct (n - length ev0) eqn:Hsub; [lia|]. simpl in Hn. exfalso. revert Hn. by apply Hkeep. }
  subst n. by rewrite take_app_length.
Qed.
End finalizer.

(** ** Dry runs come first *)

(** Neither a dry run nor an application. *)
Definition no_apply (e : Event) : Prop := match e with Ev (ObjApply _ _) _ => False | _ => True end.
Definition no_real_apply (e : Event) : Prop := match e with Ev (ObjApply false _) _ => False | _ => True end.
(** Neither an application nor a deletion of an object. *)
Definition settled (e : Event) : Prop :=
  match e with Ev (ObjApply _ _) _ | Ev (ObjDelete _ _ _) _ => False | _ => True end.

Definition object_text (o : RenderedObject) : fields := default [] (RO_object o).
Definition apply_events (dryRun : bool) (objects : list RenderedObject) (results : list (option error))
    : list Event :=
  zip_with (fun o r => Ev (ObjApply dryRun (object_text o)) r) objects results.

(** Nothing is applied, or a successful dry run of all objects is followed by their application
    in the same order (all of them, unless the run panics), with only reads and status updates
    between and after. *)
Definition applied_after_dry_run (ev : list Event) : Prop :=
  Forall no_real_apply ev
  \/ exists before objects between results after,
       ev = before ++ apply_events true objects (repeat None (length objects)) ++ between
              ++ apply_events false objects results ++ after
       /\ Forall no_apply before /\ Forall settled between /\ Forall settled after
       /\ length results <= length objects.

Lemma no_apply_weaken ev : Forall no_apply ev -> Forall no_real_apply ev.
Proof. intros Hev. eapply Forall_impl; [exact Hev|]. intros [R c r]. by destruct c. Qed.

Lemma settled_weaken ev : Forall settled ev -> Forall no_real_apply ev.
Proof. intros Hev. eapply Forall_impl; [exact Hev|]. intros [R c r]. by destruct c. Qed.

Lemma applied_after ev ev' : applied_after_dry_run ev -> Forall settled ev' -> applied_after_dry_run (ev ++ ev').
Proof.
  intros [Hev|(b & os & m & rs & a & -> & Hb & Hm & Ha & Hl)] Hev'.
  - left. apply Forall_app_2; [done|by apply settled_weaken].
  - right. exists b, os, m, rs, (a ++ ev'). rewrite <-!app_assoc. split_and!; try done. by apply Forall_app_2.
Qed.

Lemma applied_before ev ev' : Forall no_apply ev -> applied_after_dry_run ev' -> applied_after_dry_run (ev ++ ev').
Proof.
  intros Hev [Hev'|(b & os & m & rs & a & -> & Hb & Hm & Ha & Hl)].
  - left. apply Forall_app_2; [by apply no_apply_weaken|done].
  - right. exists (ev ++ b), os, m, rs, a. rewrite <-!app_assoc. split_and!; try done. by apply Forall_app_2.
Qed.

Section dry_runs.
Context `{FloatText} `{TemplateLib} `{MapRange} `{ResourceYaml} `{TimeText} `{SpecText}.
Context {W : Type} `{Server W}.

Abbreviation M := (Prog ClusterInstance W Event).

(** Programs whose calls have that form. *)
Definition shaped {A} (m : M A) : Prop := forall s w, wp m (fun _ _ _ ev => applied_after_dry_run ev) s w.

Lemma shaped_quiet {A} (m : M A) : emits no_apply m -> shaped m.
Proof. intros Hm s w. left. apply no_apply_weaken, Hm. Qed.

Lemma shaped_bind {A B} (m : M A) (f : A -> M B) :
  emits no_apply m -> (forall a, shaped (f a)) -> shaped (m ≫= f).
Proof.
  intros Hm Hf s w. apply wp_bind. eapply wp_mono; [by apply (wp_emits no_apply)|].
  intros [a|msg] s' w' ev Hev; [|left; by apply no_apply_weaken].
  eapply wp_mono; [apply Hf|]. intros o s'' w'' ev' Hev'. by apply applied_before.
Qed.

Lemma shaped_if_err {X A} (m : M (option X)) (h : X -> M A) k :
  emits no_apply m -> (forall e, shaped (h e)) -> shaped k -> shaped (if_err m h k).
Proof. intros Hm Hh Hk. apply shaped_bind; [done|]. by intros [e|]. Qed.

Lemma shaped_then {A B} (m : M A) (f : A -> M B) :
  shaped m -> (forall a, emits settled (f a)) -> shaped (m ≫= f).
Proof.
  intros Hm Hf s w. apply wp_bind. eapply wp_mono; [apply Hm|]. intros [a|msg] s' w' ev Hev; [|done].
  eapply wp_mono; [by apply (wp_emits settled)|]. intros o s'' w'' ev' Hev'. by apply applied_after.
Qed.

(** What applying a list of objects calls; without an error every object has been accepted. *)
Lemma executeRendered_calls dryRun objects status s w :
  wp (executeRenderedManifests dryRun objects status) (fun o _ _ ev =>
    exists results, ev = apply_events dryRun objects results /\ length results <= length objects
      /\ forall l ok, o = Ret (l, ok, None) -> results = repeat None (length objects)) s w.
Proof.
  unfold executeRenderedManifests. apply wp_bind, wp_get, wp_bind.
  set (good := fun (dn : list RenderedObject) (st : list ManifestReference * list error)
    (ev : list Event) => exists results, ev = apply_events dryRun dn results /\ length results = length dn
      /\ (st.2 = [] -> results = repeat None (length dn))).
  eapply wp_mono.
  { apply wp_for with (I := fun dn st _ _ ev => good dn st ev) (Q := fun (_ : False) _ _ _ => True)
      (P := fun _ _ ev => exists results, ev = apply_events dryRun objects results /\ length results <= length objects).
    - by exists [].
    - intros dn x rest [ml errs] s1 w1 ev -> (results & -> & Hlen & Hnone).
      assert (Hstep : forall r, apply_events dryRun dn results ++ [Ev (ObjApply dryRun (object_text x)) r]
        = apply_events dryRun (dn ++ [x]) (results ++ [r])).
      { intros r. unfold apply_events. by rewrite zip_with_app. }
      unfold executeOne, applyObject. apply wp_bind, wp_Now. intros now w2 _.
      apply wp_bind, wp_bind, wp_call. intros r w3 _. apply wp_ret. simpl.
      destruct (RenderedObject_ManifestReference now x) as [ref|].
      + apply wp_bind, wp_Now. intros now2 w4 _. destruct r as [err|].
        all: apply wp_bind, wp_Now; intros now3 w5 _; apply wp_ret; simpl; eexists; split; [apply Hstep|].
        all: split; [rewrite !length_app; simpl; lia|].
        * intros Herrs. by apply app_nil in Herrs as [_ ?].
        * rewrite app_nil_r, length_app. intros Herrs. rewrite (Hnone Herrs). by rewrite repeat_app.
      + apply wp_panic. exists (results ++ [r]). unfold object_text in Hstep. rewrite Hstep. split.
        * unfold apply_events. rewrite (cons_middle x dn rest), app_assoc.
          assert (Hl : length (results ++ [r]) = length (dn ++ [x])) by (rewrite !length_app; simpl; lia).
          by rewrite (zip_with_app_l _ (dn ++ [x]) rest), take_ge, drop_ge, zip_with_nil_r, app_nil_r by lia.
        * rewrite !length_app. simpl. lia. }
  intros [[[ml errs]|[]]|msg] s' w' ev Hev.
  - destruct Hev as (results & -> & Hlen & Hnone). apply wp_ret. rewrite app_nil_l, app_nil_r.
    exists results. split; [done|]. split; [lia|]. intros l ok [= _ _ Herr]. apply Hnone. by destruct errs.
  - destruct Hev as (results & -> & Hlen). rewrite app_nil_l. exists results. split; [done|]. split; [done|]. done.
Qed.

(** Recording the outcome only writes the status, and keeps an error. *)
Lemma record_manifests_spec l c r st m err s w :
  wp (record_manifests l c r st m err) (fun o _ _ ev => Forall settled ev /\ (o = Ret None -> err = None)) s w.
Proof.
  unfold record_manifests. apply wp_bind, wp_get, wp_bind, wp_modify, wp_bind, wp_Now. intros now w1 _.
  apply wp_bind, wp_modify, wp_bind, wp_PatchCIStatus. intros updateErr s' w' ev Hev _. apply wp_ret. split.
  - rewrite app_nil_r. simpl. eapply Forall_impl; [exact Hev|]. by intros e0 [r0 ->].
  - destruct err; [done|by intros _].
Qed.

Lemma validate_calls objects s w :
  wp (validateRenderedManifests objects) (fun o _ _ ev =>
    exists results between, ev = apply_events true objects results ++ between /\ Forall settled between
      /\ (forall ok, o = Ret (ok, None) -> results = repeat None (length objects))) s w.
Proof.
  unfold validateRenderedManifests. apply wp_bind. eapply wp_mono; [apply executeRendered_calls|].
  intros [[[l ok] err]|msg] s1 w1 ev (results & -> & Hlen & Hnone); [|exists results, []; by rewrite app_nil_r].
  apply wp_bind. eapply wp_mono.
  { instantiate (1 := fun o _ _ ev => Forall settled ev /\ (o = Ret None -> err = None)).
    destruct err as [e|]; [apply record_manifests_spec|].
    case_goal; (eapply wp_mono; [apply record_manifests_spec|]); intros ? ? ? ? [? ?]; by split. }
  intros [err'|msg] s2 w2 ev' [Hev' Herr]; [|by exists results, ev'].
  apply wp_ret. rewrite app_nil_r. exists results, ev'. split; [done|]. split; [done|].
  intros ok' [= _ ->]. destruct (Herr eq_refl). by eapply Hnone.
Qed.

Lemma apply_calls objects s w :
  wp (applyRenderedManifests objects) (fun _ _ _ ev =>
    exists results after, ev = apply_events false objects results ++ after /\ Forall settled after
      /\ length results <= length objects) s w.
Proof.
  unfold applyRenderedManifests. apply wp_bind. eapply wp_mono; [apply executeRendered_calls|].
  intros [[[l ok] err]|msg] s1 w1 ev (results & -> & Hlen & _); [|exists results, []; by rewrite app_nil_r].
  apply wp_bind. eapply wp_mono.
  { instantiate (1 := fun _ _ _ ev => Forall settled ev).
    case_goal; (eapply wp_mono; [apply record_manifests_spec|]); by intros ? ? ? ? [? ?]. }
  intros [err'|msg] s2 w2 ev' Hev'; [apply wp_ret; rewrite app_nil_r|]; by exists results, ev'.
Qed.

(** A refused dry run ends the run; an accepted one is followed by the application. *)
Lemma shaped_dry_run objects :
  shaped ('(ok, err) ← validateRenderedManifests objects;
          if (negb ok || bool_decide (is_Some err))%bool then mret (ok, err)
          else applyRenderedManifests objects).
Proof.
  intros s w. apply wp_bind. eapply wp_mono; [apply validate_calls|].
  intros o s1 w1 ev (results & between & -> & Hbetween & Hall).
  assert (Hquiet : applied_after_dry_run (apply_events true objects results ++ between)).
  { left. apply Forall_app_2; [|by apply settled_weaken]. unfold apply_events. clear.
    revert results. induction objects as [|o os IH]; intros [|r rs]; constructor; [done|apply IH]. }
  destruct o as [[ok err]|msg]; [|done]. destruct (negb ok || bool_decide (is_Some err))%bool eqn:Hok.
  { apply wp_ret. by rewrite app_nil_r. }
  apply orb_false_elim in Hok as [_ Herr]. destruct err; [by apply bool_decide_eq_false_1 in Herr as []|]. rewrite (Hall ok eq_refl).
  eapply wp_mono; [apply apply_calls|]. intros o s2 w2 ev' (results' & after & -> & Hafter & Hlen).
  right. exists [], objects, between, results', after. rewrite <-!app_assoc. by split_and!.
Qed.

#[local] Instance keeps_any : Keeps (W := W) (fun _ => True).
Proof. by split. Qed.

#[local] Hint Extern 3 (no_apply (Ev _ _)) => exact Logic.I : sc.
#[local] Hint Extern 3 (settled (Ev _ _)) => exact Logic.I : sc.
#[local] Hint Extern 2 (safe _ _ (modify_mem _)) => apply safe_modify; done : sc.

#[local] Instance apply_footprint : Footprint (W := W) (fun _ => True) (fun _ => no_apply).
Proof.
  split; [apply _|done| | |].
  - intros pre e He. destruct e as [R c r]. by destruct c.
  - intros o timeout. unfold DeleteObject, isObjectDeleted, timeoutExceeded, initiateObjectDeletion. safe_go.
  - intros reason. unfold ApplyPause. safe_go.
Qed.

(** A step that only the footprint bounds. *)
#[local] Hint Extern 5 (emits no_apply _) => apply emits_of_safe; solve [eauto with sc] : sc.

Lemma shaped_handleRenderTemplates : shaped handleRenderTemplates.
Proof.
  unfold handleRenderTemplates. apply shaped_bind; [eauto with sc|]. intros [objects err].
  case_goal; [apply shaped_quiet; emits_go|]. apply shaped_bind; [eauto with sc|]. intros [ok err'].
  case_goal; [apply shaped_quiet; emits_go|]. apply shaped_if_err; [eauto with sc|intros e; apply shaped_quiet; emits_go|].
  apply shaped_dry_run.
Qed.

Lemma shaped_provision : shaped provision.
Proof.
  unfold provision. apply shaped_if_err; [eauto with sc|intros e; apply shaped_quiet; emits_go|].
  apply shaped_then; [apply shaped_handleRenderTemplates|]. intros [ok err].
  unfold updateObservedStatus, recordSpec, recordGeneration. emits_go.
Qed.

Lemma shaped_generation podNamespace store : shaped (reconcile_generation podNamespace store).
Proof.
  unfold reconcile_generation. apply shaped_if_err; [eauto with sc|intros e; apply shaped_quiet; emits_go|].
  apply shaped_bind; [emits_go|]. intros ci. case_goal; [|apply shaped_provision].
  case_goal; [|apply shaped_provision]. apply shaped_bind; [eauto with sc|]. intros [res err].
  repeat (case_goal; [apply shaped_quiet; emits_go|]). apply shaped_provision.
Qed.

Lemma shaped_running podNamespace store : shaped (reconcile_running podNamespace store).
Proof.
  unfold reconcile_running. apply shaped_bind; [emits_go|]. intros ci.
  apply shaped_bind; [emits_go|]. intros [[res needed] err].
  repeat (case_goal; [apply shaped_quiet; emits_go|]). apply shaped_bind; [emits_go|]. intros ci'.
  case_goal; [apply shaped_quiet; emits_go|apply shaped_generation].
Qed.

Lemma shaped_Reconcile podNamespace store req : shaped (Reconcile podNamespace store req).
Proof.
  unfold Reconcile, reconcile_loaded. apply shaped_if_err; [emits_go|intros e; apply shaped_quiet; emits_go|].
  apply shaped_bind; [emits_go|]. intros ci. repeat (case_goal; [apply shaped_quiet; emits_go|]).
  unfold unless_done. apply shaped_bind; [unfold handleFinalizer, ensureFinalizer; apply emits_of_safe; safe_go|].
  intros [res err]. case_goal; [apply shaped_quiet; emits_go|].
  apply shaped_bind; [unfold ensureVeleroRestoreStatusAnnotation; emits_go|]. intros [res' err'].
  case_goal; [apply shaped_quiet; emits_go|]. apply shaped_bind; [emits_go|]. intros ci'.
  case_goal; [apply shaped_quiet; unfold handleRestored; emits_go|apply shaped_running].
Qed.

End dry_runs.

(** ** Restored objects *)

(** The ClusterInstance is read, or patched with its spec left alone; nothing else is called. *)
Definition own_object_only (e : Event) : Prop :=
  match e with
  | Ev (GetCI _) _ => True
  | Ev (PatchCI old new) _ | Ev (StatusPatchCI old new) _ => CI_Spec new = CI_Spec old
  | _ => False
  end.

(** The observed generation is written first, then the restore is marked as handled. *)
Definition restore_handled (ci : ClusterInstance) (ev : list Event) : Prop :=
  exists before between ci' old new r,
    ev = before ++ Ev (StatusPatchCI ci (ci <| CI_Status ::= fun s =>
           s <| Status_ObservedGeneration := Meta_Generation (CI_Meta ci) |> |>)) (Ok ci')
         :: between ++ [Ev (PatchCI old new) (Ok r)]
    /\ Meta_Annotations (CI_Meta new) !! veleroRestoreHandledAnnotation
       = Meta_Labels (CI_Meta ci) !! veleroRestoreNameLabel.

Section restored.
Context `{FloatText} `{TemplateLib} `{MapRange} `{ResourceYaml} `{TimeText} `{SpecText}.
Context {W : Type} `{Server W}.

Lemma wp_handleRestored ci w :
  isBeingRestored ci = true ->
  wp handleRestored (fun o _ _ ev =>
    Forall own_object_only ev /\ (o = Ret (doNotRequeue, None) -> restore_handled ci ev)) ci w.
Proof.
  intros Hr. unfold handleRestored. apply wp_bind, wp_get, wp_bind, wp_modify, wp_if_err, wp_PatchCIStatus.
  intros err ci' w1 ev Hev Hlast.
  assert (Hown : Forall own_object_only ev) by (eapply Forall_impl; [exact Hev|]; by intros e [r ->]).
  destruct err as [err|].
  { apply wp_ret. rewrite app_nil_r. by split. }
  destruct Hlast as [ev0 ->].
  apply wp_bind, wp_get, wp_bind, wp_modify, wp_if_err, wp_bind, wp_get, wp_bind, wp_call.
  intros [r|err] w2 _.
  - apply wp_bind, wp_modify, wp_ret, wp_ret. cbn [app]. split; [apply Forall_app_2; [done|by repeat constructor]|].
    intros _. eexists ev0, [], ci', _, _, r. rewrite <-app_assoc. split; [reflexivity|].
    unfold isBeingRestored in Hr. simpl. unfold SetMetaDataAnnotation. simpl. rewrite lookup_insert_eq.
    unfold lookup_str. by destruct (Meta_Labels (CI_Meta ci) !! veleroRestoreNameLabel).
  - apply wp_ret, wp_ret. cbn [app]. split; [apply Forall_app_2; [done|by repeat constructor]|done].
Qed.

(** Setting an annotation or a finalizer of the object it has read. *)
Lemma wp_own_patch f s h (k : Prog ClusterInstance W Event (Result * option error)) w :
  CI_Spec (f s) = CI_Spec s -> (forall e, exists a, h e = mret a /\ a <> (doNotRequeue, None)) ->
  (exists a, k = mret a /\ a <> (doNotRequeue, None)) ->
  wp (_ ← modify_mem f; if_err (patchCI s) h k) (fun o _ _ ev =>
    Forall own_object_only ev /\ o <> Ret (doNotRequeue, None)) s w.
Proof.
  intros Hf Hh (a & -> & Ha). apply wp_bind, wp_modify, wp_if_err, wp_bind, wp_get, wp_bind, wp_call.
  intros [ci|err] w1 _.
  - apply wp_bind, wp_modify, wp_ret, wp_ret. split; [by repeat constructor|congruence].
  - apply wp_ret. destruct (Hh err) as (b & -> & Hb). apply wp_ret. split; [by repeat constructor|congruence].
Qed.

Definition step_ok (ci : ClusterInstance) (o : outcome (Result * option error)) (s' : ClusterInstance)
    (ev : list Event) : Prop :=
  Forall own_object_only ev /\ (o = Ret (mkResult false 0, None) -> s' = ci /\ ev = []).

Lemma wp_restored_finalizer ci w :
  deletion_time_is_zero ci = true -> wp handleFinalizer (fun o s' _ ev => step_ok ci o s' ev) ci w.
Proof.
  intros Hdel. unfold handleFinalizer. apply wp_bind, wp_get. rewrite Hdel. unfold ensureFinalizer.
  apply wp_bind, wp_get. destruct (ContainsFinalizer _ _) eqn:Hf; [by apply wp_ret|].
  eapply wp_mono; [apply wp_own_patch|].
  - unfold AddFinalizer. by rewrite Hf.
  - intros e. by eexists.
  - by eexists.
  - intros o s' w' ev [Hev Hout]. by split.
Qed.

Lemma wp_restored_velero ci w :
  wp ensureVeleroRestoreStatusAnnotation (fun o s' _ ev => step_ok ci o s' ev) ci w.
Proof.
  unfold ensureVeleroRestoreStatusAnnotation. apply wp_bind, wp_get. case_goal; [by apply wp_ret|].
  eapply wp_mono; [apply wp_own_patch; [done|intros e; by eexists|by eexists]|].
  intros o s' w' ev [Hev Hout]. by split.
Qed.

(** A step of the chain of steps: it ends the run, or leaves everything as it was. *)
Lemma wp_unless_done (m k : Prog ClusterInstance W Event (Result * option error)) Q ci w :
  wp m (fun o s' _ ev => step_ok ci o s' ev) ci w ->
  (forall o s w' ev, Forall own_object_only ev -> o <> Ret (doNotRequeue, None) -> Q o s w' ev) ->
  (forall w', wp k Q ci w') -> wp (unless_done m k) Q ci w.
Proof.
  intros Hm HQ Hk. apply wp_bind. eapply wp_mono; [exact Hm|].
  intros [[res err]|msg] s' w' ev [Hev Hcont]; [|by apply HQ].
  destruct (negb (Result_IsZero res) || bool_decide (is_Some err))%bool eqn:Hdone.
  - apply wp_ret. rewrite app_nil_r. apply HQ; [done|]. intros [= -> ->]. done.
  - apply orb_false_elim in Hdone as [Hz Herr]. apply negb_false_iff, bool_decide_eq_true in Hz as ->.
    destruct err; [by apply bool_decide_eq_false_1 in Herr as []|].
    destruct (Hcont eq_refl) as [-> ->]. apply Hk.
Qed.

Lemma wp_restored_loaded podNamespace store ci w :
  isBeingRestored ci = true -> deletion_time_is_zero ci = true -> ClusterInstance_IsPaused ci = false ->
  wp (reconcile_loaded podNamespace store) (fun o _ _ ev =>
    Forall own_object_only ev /\ (o = Ret (doNotRequeue, None) -> restore_handled ci ev)) ci w.
Proof.
  intros Hrest Hdel Hpaused. unfold reconcile_loaded. apply wp_bind, wp_get. rewrite Hpaused. case_goal.
  - apply wp_bind, wp_modify, wp_if_err, wp_bind, wp_get, wp_bind, wp_call.
    intros [r|err] w2 _; [apply wp_bind, wp_modify, wp_ret|]; apply wp_ret; cbn [app]; (split; [by repeat constructor|done]).
  - apply wp_unless_done; [by apply wp_restored_finalizer|by intros ? ? ? ? ? ?|intros w2].
    apply wp_unless_done; [apply wp_restored_velero|by intros ? ? ? ? ? ?|intros w3].
    apply wp_bind, wp_get. rewrite Hrest. by apply wp_handleRestored.
Qed.

(** C24: Whatever the API server answers, a reconcile of a ClusterInstance that a Velero restore has just
    brought back (and that is not being deleted) neither renders nor applies nor deletes anything:
    all it calls are the get and patches of that ClusterInstance that leave its spec alone. When
    it ends without asking for another run, it has recorded the generation as observed and, after
    that, marked this very restore as handled. *)
Theorem Reconcile_restored podNamespace store req s w ci w1 :
  serve (GetCI req) w = (Ok ci, w1) ->
  isBeingRestored ci = true -> deletion_time_is_zero ci = true -> ClusterInstance_IsPaused ci = false ->
  let run := Reconcile podNamespace store req s w in
  Forall own_object_only (run_evs run)
  /\ (run_out run = Ret (doNotRequeue, None) -> restore_handled ci (run_evs run)).
Proof.
  intros Hget Hrest Hdel Hpaused run. unfold run.
  enough (Hwp : wp (Reconcile podNamespace store req) (fun o _ _ ev =>
    Forall own_object_only ev /\ (o = Ret (doNotRequeue, None) -> restore_handled ci ev)) s w) by exact Hwp.
  apply wp_if_err, wp_bind, wp_call. intros r w2. rewrite Hget. intros [= <- <-].
  apply wp_bind, wp_modify, wp_ret. cbv beta iota. eapply wp_mono; [by apply wp_restored_loaded|].
  intros o s' w' ev [Hev Hdone]. cbn [app]. split; [by constructor|]. intros Hout.
  destruct (Hdone Hout) as (before & between & ci' & old & new & r & -> & Ha).
  by exists (Ev (GetCI req) (Ok ci) :: before), between, ci', old, new, r.
Qed.
End restored.

(** ** Backup labels *)

(** A template ConfigMap of the user that has labels but not the ACM backup label never gets it: the
    missing label reads as the empty string, which is the label's value, so the operator takes it
    for present, calls nothing but the get and reports no error. *)
Theorem backup_label_missed {W} `{Server W} podNamespace ref cm labels s w w1 :
  serve (GetResource "ConfigMap" (mkObjectKey (Ref_Namespace ref) (Ref_Name ref))) w = (Ok cm, w1) ->
  Res_Labels cm = Some labels -> labels !! acmBackupLabel = None ->
  let run := applyDRLabel podNamespace ref s w in
  run_out run = Ret None /\ forallb (fun e => negb (mutating e)) (run_evs run) = true.
Proof.
  intros Hget Hlabels Hnone run. unfold run.
  enough (Hwp : wp (applyDRLabel podNamespace ref) (fun o _ _ ev =>
    o = Ret None /\ forallb (fun e => negb (mutating e)) ev = true) s w) by exact Hwp.
  unfold applyDRLabel. case_goal; [by apply wp_ret|]. apply wp_bind, wp_call. intros r w2. rewrite Hget.
  intros [= <- <-]. rewrite Hlabels. unfold lookup_str. rewrite Hnone. by apply wp_ret.
Qed.

(** ** Examples *)

#[local] Instance same_float : FloatText := {| float_text := fun l => l |}.
#[local] Instance no_yaml : ResourceYaml := {|
  Resource_Marshal := fun _ => Ok "yaml";
  Resource_Unmarshal := fun _ _ => Err (ErrorString "yaml")
|}.
#[local] Instance fixed_time : TimeText := {| Format_RFC3339 := fun _ => "2024-01-01T00:00:00Z" |}.
#[local] Instance no_spec_text : SpecText := {| Unmarshal_Spec := fun _ => Err (ErrorString "json") |}.

(** Templates that render to a ConfigMap named by the template. *)
#[local] Instance sample_templates : TemplateLib := {|
  template_Parse := fun _ _ => None;
  template_Execute := fun key _ _ => Ok key;
  yaml_Unmarshal := fun text => Ok [("apiVersion", JStr "v1"); ("kind", JStr "ConfigMap");
    ("metadata", JObj [("name", JStr text); ("namespace", JStr "site-sno")])]
|}.

Lemma cluster_names_kept : names_kept (W := cluster).
Proof.
  split_and!.
  - intros key w ci w' Hs. simpl in Hs. destruct (cl_ci w) as [c|]; [|done]. case_bool_decide; by simplify_eq.
  - intros old new w ci w' Hs. simpl in Hs. by simplify_eq.
  - intros old new w ci w' Hs. simpl in Hs. by simplify_eq.
Qed.

(** [sno] with its annotation, its finalizer and somebody else's; being deleted, so that its
    generation is ahead of the observed one. *)
Definition deleting_sno (manifests : list ManifestReference) : ClusterInstance :=
  sno <| CI_Meta ::= fun m => m
        <| Meta_Finalizers := [clusterInstanceFinalizer; "foregroundDeletion"] |>
        <| Meta_Annotations := {[veleroRestoreStatusAnnotation := "true"]} |>
        <| Meta_DeletionTimestamp := Some 50%Z |> <| Meta_Generation := 2%Z |> |>
      <| CI_Spec ::= fun s => s <| Spec_InstallConfigOverrides := "" |> |>
      <| CI_Status ::= fun s => s <| Status_ManifestsRendered := manifests |> |>.

Definition config_map (ns name : string) (data : smap) : Resource :=
  mkResource "ConfigMap" ns name (Some {[acmBackupLabel := ""]}) ∅ "1" "" 0 [] "" None data.
Definition secret (name : string) : Resource :=
  mkResource "Secret" "site-sno" name None ∅ "1" "" 0 [] "Opaque" None ∅.

(** Everything [sno] refers to exists, and so do the given objects. *)
Definition full_cluster (ci : ClusterInstance) (objects : list (string * string * ObjectKey * ObjectMeta)) : cluster :=
  mkCluster 100 (Some ci) objects
    [config_map "siteconfig-operator" "ai-cluster-templates-v1" {["cluster-cm" := "text"]};
     config_map "siteconfig-operator" "ai-node-templates-v1" {["node-cm" := "text"]};
     secret "pull-secret"; secret "bmc-secret"] [] [] ["openshift-v4.18.0"].

Definition sno_key : ObjectKey := mkObjectKey "site-sno" "site-sno".
Definition store : Configuration := mkConfiguration true 1.

Definition applied_names (ev : list Event) : list json :=
  omap (fun e => match e with
    | Ev (ObjApply false o) _ => match obj_get "metadata" o with Some (JObj m) => obj_get "name" m | _ => None end
    | _ => None end) ev.

(** The ConfigMap of its only manifest is there and owned. *)
Definition deleting_cluster : cluster :=
  full_cluster (deleting_sno [wave_ref "ConfigMap" "a" 1])
    [("v1", "ConfigMap", mkObjectKey "site-sno" "a", live_meta "a" [])].

Lemma Reconcile_deletes_owned_witness :
  let calls := run_evs (Reconcile "siteconfig-operator" store sno_key sno deleting_cluster) in
  exists e, calls !! 2 = Some e /\ is_Some (as_delete e) /\ owned_delete sno_key (take 2 calls) e.
Proof.
  intros calls. assert (Hm : option_map (fun e => bool_decide (is_Some (as_delete e))) (calls !! 2) = Some true)
    by (vm_compute; reflexivity).
  destruct (calls !! 2) as [e|] eqn:He; [|discriminate Hm]. injection Hm as Hd. exists e. split; [reflexivity|].
  split; [by apply bool_decide_eq_true_1 in Hd|].
  exact (Reconcile_deletes_owned cluster_names_kept sno_key "siteconfig-operator" store sno deleting_cluster 2 e He).
Defined.

(** Its object has gone. *)
Definition finalizing_ci : ClusterInstance := deleting_sno [wave_ref "ConfigMap" "a" 1].

Lemma Reconcile_finalizer_last_witness :
  let calls := run_evs (Reconcile "siteconfig-operator" store sno_key sno (full_cluster finalizing_ci [])) in
  exists ci, calls !! 0 = Some (Ev (GetCI sno_key) (Ok ci)) /\ deletion_time_is_zero ci = false
    /\ manifests_gone ci (take 3 calls).
Proof.
  intros calls.
  assert (Hm : match calls !! 3 with
               | Some (Ev (PatchCI old new) _) =>
                   (ContainsFinalizer old clusterInstanceFinalizer, ContainsFinalizer new clusterInstanceFinalizer)
               | _ => (false, false)
               end = (true, false)) by (vm_compute; reflexivity).
  destruct (calls !! 3) as [[R c r]|] eqn:He; [|discriminate Hm]. destruct c; try discriminate Hm.
  injection Hm as Hold Hnew.
  exact (Reconcile_finalizer_last cluster_errors_plain "siteconfig-operator" store sno_key sno
    (full_cluster finalizing_ci []) 3 old new r He Hold Hnew).
Defined.

(** [sno] as a restore has brought it back: no observed generation. *)
Definition restored_sno : ClusterInstance :=
  sno <| CI_Meta ::= fun m => m
        <| Meta_Finalizers := [clusterInstanceFinalizer] |>
        <| Meta_Annotations := {[veleroRestoreStatusAnnotation := "true"]} |>
        <| Meta_Labels := {[veleroRestoreNameLabel := "acm-restore"]} |> |>
      <| CI_Status ::= fun s => s <| Status_ObservedGeneration := 0%Z |> |>.

Lemma Reconcile_restored_witness :
  let run := Reconcile "siteconfig-operator" store sno_key sno (full_cluster restored_sno []) in
  Forall own_object_only (run_evs run) /\ restore_handled restored_sno (run_evs run).
Proof.
  intros run.
  destruct (Reconcile_restored "siteconfig-operator" store sno_key sno (full_cluster restored_sno [])
    restored_sno (full_cluster restored_sno [])) as [Hown Hdone];
    [vm_compute; reflexivity..|].
  split; [exact Hown|]. apply Hdone. vm_compute. reflexivity.
Defined.


(** A ConfigMap of the user, with a label. *)
Definition user_template : Resource :=
  mkResource "ConfigMap" "user-ns" "user-templates" (Some {["app" := "site"]}) ∅ "1" "" 0 [] "" None ∅.

Lemma backup_label_missed_witness :
  let w := with_resources [user_template] (empty_cluster 100) in
  let run := applyDRLabel "siteconfig-operator" (mkReference "user-templates" "user-ns") sno w in
  run_out run = Ret None /\ forallb (fun e => negb (mutating e)) (run_evs run) = true.
Proof.
  intros w run.
  exact (backup_label_missed "siteconfig-operator" (mkReference "user-templates" "user-ns") user_template
    {["app" := "site"]} sno w w eq_refl eq_refl eq_refl).
Defined.

(** ** A spec that changes while it is being applied *)

(** A cluster and the number of gets of the ClusterInstance that are still to come before a user
    changes its spec. *)
Definition racing : Type := cluster * nat.

Definition user_change (ci : ClusterInstance) : ClusterInstance :=
  ci <| CI_Spec ::= fun s => s <| Spec_ExtraLabels := {["ConfigMap" := {["site" := "b"]}]} |> |>
     <| CI_Meta ::= fun m => m <| Meta_Generation ::= fun g => (g + 1)%Z |> |>.

Definition racing_serve {R} (c : ApiCall R) (w : racing) : R * racing :=
  let w1 := match c, w with
            | GetCI _, (w, 1) => (match cl_ci w with Some ci => with_ci (user_change ci) w | None => w end, 0)
            | GetCI _, (w, n) => (w, pred n)
            | _, w => w
            end in
  let '(r, w2) := cluster_serve c w1.1 in (r, (w2, w1.2)).

#[local] Instance racing_server : Server racing := {
  serve := fun R c w => racing_serve c w;
  clock := fun w => (cl_now w.1, w)
}.

(** [sno] before it has been rendered for the first time. *)
Definition fresh_sno : ClusterInstance :=
  sno <| CI_Meta ::= fun m => m
        <| Meta_Finalizers := [clusterInstanceFinalizer] |>
        <| Meta_Annotations := {[veleroRestoreStatusAnnotation := "true"]} |> |>
      <| CI_Spec ::= fun s => s <| Spec_InstallConfigOverrides := "" |> |>
      <| CI_Status ::= fun s => s <| Status_ObservedGeneration := 0%Z |> |>.

