(* ===== verification/DeletionHub.v ===== *)
(** * The deletion of a ClusterInstance on a hub

    On the in-memory cluster a deletion makes progress: each reconcile of a ClusterInstance that is
    marked for deletion either deletes something that its status tracks or gives up the finalizer.
    What is tracked is looked up by the identity of a manifest ([look]). *)
From S2P Require Import Prelude GoStd JsonCodec Types Errors Conditions Validation Samples K8s Cluster Retry.
From S2P Require Import Requeue RenderedObject RenderedSpec Pause Configuration Templates Deletion.
From S2P Require Import DeletionSpec Preservation Reinstall Obliging Reimport Controller ControllerSpec.

(** ** Objects by their identity *)

(** What a get of an object answers. *)
Definition look (id : object_id) (w : cluster) : option ObjectMeta :=
  match (cluster_serve (ObjGet id.1.1 id.1.2 id.2) w).1 with
  | Ok m => Some m
  | Err _ => None
  end.

(** The clock is set, and ConfigMaps and Secrets are in one place. *)
Definition sound_cluster (w : cluster) : Prop :=
  IsZero (cl_now w) = false /\ forall x, x ∈ cl_objects w -> is_resource x.1.1.1 x.1.1.2 = false.

Lemma serve_get a k key (w : cluster) :
  serve (ObjGet a k key) w
  = (match look (a, k, key) w with Some m => Ok m | None => Err (not_found k) end, w).
Proof.
  unfold look. simpl. destruct (List.find _ _); [done|].
  destruct (find_resource k key w); [|done]. by destruct (is_resource a k).
Qed.

(** The first object of an identity, after [f] has been applied to those of the identity [id]. *)
Lemma find_concat (f : string * string * ObjectKey * ObjectMeta -> list (string * string * ObjectKey * ObjectMeta))
    id id' l :
  (forall x y, x ∈ l -> y ∈ f x -> y.1 = x.1) -> (forall x, x.1 <> id -> f x = [x]) ->
  id' <> id ->
  List.find (fun x => bool_decide (x.1 = id')) (List.concat (List.map f l))
  = List.find (fun x => bool_decide (x.1 = id')) l.
Proof.
  intros Hid Hf Hne. induction l as [|x l IH]; [done|]. simpl.
  specialize (IH ltac:(intros; apply Hid; [by right|done])).
  destruct (decide (x.1 = id)) as [Hx|Hx].
  - rewrite (bool_decide_false (x.1 = id')) by congruence. rewrite <-IH.
    assert (Hall : forall y, y ∈ f x -> y.1 = id) by (intros y Hy; rewrite <-Hx; apply Hid; [by left|done]).
    clear IH Hid. induction (f x) as [|y ys IHy]; [done|]. simpl.
    rewrite bool_decide_false by (rewrite (Hall y) by (by left); congruence).
    apply IHy. intros z Hz. apply Hall. by right.
  - rewrite Hf by done. simpl. by rewrite IH.
Qed.

Lemma find_remove_other id id' w :
  id' <> id ->
  List.find (same_object id'.1.1 id'.1.2 id'.2) (cl_objects (remove_object id.1.1 id.1.2 id.2 w))
  = List.find (same_object id'.1.1 id'.1.2 id'.2) (cl_objects w).
Proof.
  intros Hne. destruct id as [[a k] key], id' as [[a' k'] key']. unfold same_object. simpl.
  apply find_concat with (id := (a, k, key)); [| |done].
  - intros x y _. case_goal; [|by intros ->%list_elem_of_singleton].
    destruct (Meta_Finalizers x.2); [by intros ?%not_elem_of_nil|by intros ->%list_elem_of_singleton].
  - intros x Hx. unfold same_object. by rewrite bool_decide_false.
Qed.

Lemma find_remove_same id w x :
  List.find (same_object id.1.1 id.1.2 id.2) (cl_objects (remove_object id.1.1 id.1.2 id.2 w)) = Some x ->
  Meta_DeletionTimestamp x.2 = Some (cl_now w).
Proof.
  intros [Hin Hx]%find_some. unfold remove_object in Hin. cbn [cl_objects] in Hin.
  apply in_concat in Hin as (l & Hl & Hin). apply in_map_iff in Hl as (y & <- & Hy).
  destruct (same_object _ _ _ y) eqn:Hs; [|by destruct Hin as [->|[]]; congruence].
  destruct (Meta_Finalizers y.2); [done|]. by destruct Hin as [<-|[]].
Qed.

Lemma remove_object_sound id w : sound_cluster w -> sound_cluster (remove_object id.1.1 id.1.2 id.2 w).
Proof.
  intros [Hz Hobj]. split; [done|]. intros x Hx. apply list_elem_of_In, in_concat in Hx as (l & Hl & Hin).
  apply in_map_iff in Hl as (y & <- & Hy). apply list_elem_of_In in Hy. specialize (Hobj y Hy).
  destruct (same_object _ _ _ y); [|by destruct Hin as [<-|[]]].
  destruct (Meta_Finalizers y.2); [done|]. by destruct Hin as [<-|[]].
Qed.

Lemma find_resource_remove r kind key w :
  (Res_Kind r, Res_key r) <> (kind, key) ->
  find_resource kind key (remove_resource r w) = find_resource kind key w.
Proof.
  intros Hne. unfold find_resource, remove_resource, with_resources. simpl.
  induction (cl_resources w) as [|x l IH]; [done|]. simpl. unfold same_resource at 1.
  destruct (String.eqb_spec (Res_Kind x) (Res_Kind r)) as [Hk|Hk]; simpl;
    [destruct (bool_decide_reflect (Res_key x = Res_key r)) as [Hkey|Hkey]; simpl|];
    [|by destruct (_ && _)%bool..].
  rewrite IH. assert (Hf : (String.eqb (Res_Kind x) kind && bool_decide (Res_key x = key))%bool = false).
  { destruct (String.eqb_spec (Res_Kind x) kind); [|done]. rewrite bool_decide_false; [done|]. congruence. }
  by rewrite Hf.
Qed.

Lemma find_resource_removed r kind key w :
  (Res_Kind r, Res_key r) = (kind, key) -> exists e, find_resource kind key (remove_resource r w) = Err e.
Proof.
  intros [= <- <-]. unfold find_resource, remove_resource, with_resources. simpl.
  destruct (List.find _ _) as [x|] eqn:Hf; [|eauto]. apply find_some in Hf as [Hin Hx].
  apply filter_In in Hin as [_ Hn]. unfold same_resource in Hn. by rewrite Hx in Hn.
Qed.

(** Deleting an object takes it away or marks it, and touches no other. *)
Lemma serve_delete a k key w m :
  sound_cluster w -> look (a, k, key) w = Some m ->
  exists w', serve (ObjDelete a k key) w = (None, w')
    /\ sound_cluster w' /\ cl_now w' = cl_now w /\ cl_ci w' = cl_ci w
    /\ (forall id, id <> (a, k, key) -> look id w' = look id w)
    /\ forall m', look (a, k, key) w' = Some m' -> ObjectMeta_deleting m' = Some (cl_now w).
Proof.
  intros Hw Hm. pose proof (find_remove_other (a, k, key)) as Hother.
  pose proof (find_remove_same (a, k, key) w) as Hsame. pose proof (remove_object_sound (a, k, key) w Hw) as Hsound.
  unfold look in Hm |- *. cbn in Hm. cbn -[remove_object remove_resource look] in *.
  destruct (List.find (same_object a k key) (cl_objects w)) as [x|] eqn:Hf.
  - eexists. split; [done|]. split_and!; try done.
    + intros id Hne. by rewrite (Hother id w Hne).
    + intros m'. destruct (List.find _ (cl_objects (remove_object _ _ _ _))) as [y|] eqn:Hy.
      * intros [= <-]. unfold ObjectMeta_deleting. rewrite (Hsame y eq_refl). by rewrite (proj1 Hw).
      * change (find_resource k key (remove_object a k key w)) with (find_resource k key w).
        assert (Hr : is_resource a k = false).
        { apply find_some in Hf as [Hin Hx]. apply bool_decide_eq_true in Hx.
          assert (Hx' := proj2 Hw x ltac:(by apply list_elem_of_In)). by rewrite Hx in Hx'. }
        rewrite Hr. by destruct (find_resource k key w).
  - destruct (find_resource k key w) as [r|] eqn:Hr; [|done]. destruct (is_resource a k) eqn:Hk; [|done].
    assert (Hid : (Res_Kind r, Res_key r) = (k, key)).
    { unfold find_resource in Hr. destruct (List.find _ (cl_resources w)) as [r0|] eqn:Hr0; [|done].
      injection Hr as <-. apply find_some in Hr0 as [_ Hr0]. apply andb_prop in Hr0 as [H1%String.eqb_eq H2].
      apply bool_decide_eq_true in H2. congruence. }
    eexists. split; [done|]. split_and!; try done.
    + intros id Hne. change (cl_objects (remove_resource r w)) with (cl_objects w).
      destruct (List.find (same_object id.1.1 _ _) _); [done|]. destruct (decide (id.1.2 = k /\ id.2 = key)) as [[Hk' Hkey]|Hd].
      * assert (Hn : is_resource id.1.1 id.1.2 = false).
        { destruct id as [[a' k'] key']. simpl in *. subst. unfold is_resource in Hk |- *. apply andb_prop in Hk as [Ha _].
          apply String.eqb_eq in Ha. destruct (String.eqb_spec a' "v1"); [congruence|done]. }
        rewrite Hn. destruct (find_resource _ _ (remove_resource r w)); by destruct (find_resource id.1.2 id.2 w).
      * rewrite find_resource_remove; [done|]. rewrite Hid. intros [= -> ->]. by apply Hd.
    + intros m'. change (cl_objects (remove_resource r w)) with (cl_objects w). rewrite Hf.
      destruct (find_resource_removed r k key w Hid) as [e ->]. done.
Qed.

(** ** One object *)

(** The identity of an object from that of its manifest. *)
Definition id_of (m : manifest_id) : object_id := (default "" m.1.1.1, m.1.1.2, mkObjectKey m.2 m.1.2).

Section run.
Context (owner : string) (ids : list object_id).

Abbreviation M := (Prog ClusterInstance cluster Event).

(** There, and ours. *)
Definition held (id : object_id) (w : cluster) : Prop :=
  exists m, look id w = Some m /\ GetOwner (Meta_Labels m) = owner.

#[export] Instance held_dec id w : Decision (held id w).
Proof.
  unfold held. destruct (look id w) as [m|]; [|by right; intros (? & [=] & _)].
  destruct (decide (GetOwner (Meta_Labels m) = owner)); [left; by exists m|].
  right. by intros (? & [= <-] & ?).
Defined.

(** Gone, or marked for deletion at [t]. *)
Definition marked (t : Time) (id : object_id) (w : cluster) : Prop :=
  forall m, look id w = Some m -> ObjectMeta_deleting m = Some t.

(** Gone, somebody else's, or marked for deletion at [t]. *)
Definition vanishing (t : Time) (id : object_id) (w : cluster) : Prop :=
  forall m, look id w = Some m -> GetOwner (Meta_Labels m) <> owner \/ ObjectMeta_deleting m = Some t.

Lemma marked_vanishing t id w : marked t id w -> vanishing t id w.
Proof. intros Hm m Hl. right. by apply Hm. Qed.

(** Nothing of [ids] is marked for deletion. *)
Definition settled (w : cluster) : Prop :=
  forall id m, id ∈ ids -> look id w = Some m -> ObjectMeta_deleting m = None.

(** What a run that starts in [w0] may have done to the objects [ids]. *)
Definition during (w0 w : cluster) : Prop :=
  sound_cluster w /\ cl_now w = cl_now w0
  /\ forall id, id ∈ ids -> look id w = look id w0 \/ (held id w0 /\ marked (cl_now w0) id w).

Definition untouched (w0 w : cluster) : Prop := forall id, id ∈ ids -> look id w = look id w0.
Definition progress (w0 w : cluster) : Prop :=
  exists id, id ∈ ids /\ held id w0 /\ vanishing (cl_now w0) id w.

Context (timeout : option Duration) (patience : forall t, timeout = Some t -> (0 <= t)%Z).
Context (s : ClusterInstance)
  (Howner : GenerateOwnedByLabelValue (Key_Namespace (CI_key s)) (Key_Name (CI_key s)) = owner).
Context (w0 : cluster) (Hsettled : settled w0).

Lemma wp_exceeded (Q : outcome bool -> ClusterInstance -> cluster -> list Event -> Prop) since s' w :
  cl_now w = since -> Q (Ret false) s' w [] -> wp (timeoutExceeded since timeout : M bool) Q s' w.
Proof.
  intros Hs HQ. unfold timeoutExceeded. destruct timeout as [t|] eqn:Ht; [|by apply wp_ret].
  apply wp_bind, wp_Now. intros now w' [= <- <-]. apply wp_ret.
  assert (Hlt : (t <? cl_now w - since)%Z = false) by (apply Z.ltb_ge; specialize (patience t eq_refl); lia).
  by rewrite Hlt.
Qed.

(** The object is gone, or it has been marked now. *)
Lemma DeleteObject_run o w :
  oid o ∈ ids -> during w0 w ->
  wp (DeleteObject o timeout : M _) (fun out s' w' _ => s' = s /\ during w0 w' /\ cl_ci w' = cl_ci w
    /\ (forall id, vanishing (cl_now w0) id w -> vanishing (cl_now w0) id w')
    /\ ((exists b err, out = Ret (b, err) /\ (b || IsNotOwnedObject err)%bool = true /\ w' = w
           /\ ~ held (oid o) w)
        \/ (out = Ret (false, None) /\ held (oid o) w0 /\ marked (cl_now w0) (oid o) w'))) s w.
Proof.
  intros Hid Hw. assert (Hdur := Hw). destruct Hdur as (Hsound & Hnow & Hall).
  unfold DeleteObject, isObjectDeleted. apply wp_bind, wp_get, wp_bind, wp_bind, wp_call.
  intros r w1 Hr. rewrite serve_get in Hr. injection Hr as <- <-. apply wp_ret.
  change (GetAPIVersion o, GetKind o, object_key o) with (oid o).
  destruct (look (oid o) w) as [live|] eqn:Hl.
  2:{ apply wp_ret. split_and!; try done. left. do 2 eexists. split_and!; try done.
      intros (m & Hm & _). congruence. }
  destruct (VerifyOwnership _ _ _ _ _) as [e|] eqn:Hv.
  { apply wp_ret. split_and!; try done. left. do 2 eexists. split_and!; try done.
    - erewrite not_owned_Errorf by reflexivity. by apply verify_not_owned in Hv as ->.
    - intros (m & Hm & Hown). rewrite Hl in Hm. injection Hm as <-. rewrite <-Howner in Hown.
      apply (owned_verify s live (GetKind o)) in Hown. congruence. }
  apply owned_verify in Hv. unfold owned in Hv. rewrite Howner in Hv.
  destruct (Hall (oid o) Hid) as [Hsame|[Hh Hm]].
  - rewrite Hl in Hsame. assert (Hd := Hsettled (oid o) live Hid (eq_sym Hsame)). rewrite Hd.
    assert (Hheld : held (oid o) w0) by by exists live.
    apply wp_if_err. unfold initiateObjectDeletion. apply wp_bind, wp_call. intros r w2 Hr.
    destruct (serve_delete _ _ _ w live Hsound Hl) as (w' & Hdel & Hs' & Hn' & Hc' & Hother & Hmarked).
    rewrite Hdel in Hr. injection Hr as <- <-. rewrite Hnow in Hmarked. apply wp_ret, wp_ret.
    split_and!; [done| |done|..].
    + split_and!; [done|congruence|]. intros id Hin.
      destruct (decide (id = oid o)) as [->|Hne]; [by right|]. rewrite (Hother id Hne).
      destruct (Hall id Hin) as [?|[? Hm]]; [by left|right]. split; [done|]. intros m'. rewrite (Hother id Hne). apply Hm.
    + intros id Hm. destruct (decide (id = oid o)) as [->|Hne]; [by apply marked_vanishing|]. intros m'. rewrite (Hother id Hne). apply Hm.
    + by right.
  - rewrite (Hm live Hl). apply wp_bind, wp_exceeded; [done|]. apply wp_ret. split_and!; try done. by right.
Qed.

(** ** The loops *)

(** What the locals say: no errors, and the manifests [mids] are tracked. *)
Definition tracking (mids : list manifest_id) (st : deletionState) : Prop :=
  ds_errs st = [] /\ Forall reference_ok (ds_rendered st)
  /\ List.map MRef_identity (ds_rendered st) = mids.

(** The manifests that are to be forgotten are those of objects that are gone or going. *)
Definition dropping (st : deletionState) (w : cluster) : Prop :=
  forall m, m ∈ ds_deleted st -> vanishing (cl_now w0) (id_of (MRef_identity m)) w.

Definition dropped (st : deletionState) (o : RenderedObject) : Prop :=
  mid o ∈ List.map MRef_identity (ds_deleted st).

Definition so_far (mids : list manifest_id) (done : list RenderedObject) (b : deletionState * bool)
    (s' : ClusterInstance) (w : cluster) : Prop :=
  s' = s /\ during w0 w /\ cl_ci w = cl_ci w0 /\ tracking mids b.1 /\ dropping b.1 w
  /\ if b.2 then untouched w0 w /\ forall o, o ∈ done -> dropped b.1 o else progress w0 w.

Lemma reference_ok_update now i status msg st :
  Forall reference_ok (ds_rendered st) -> Forall reference_ok (ds_rendered (updateManifest now i status msg st)).
Proof.
  simpl. generalize (ds_rendered st). intros l. revert i.
  induction l as [|m l IH]; intros i Hall; [done|]. apply Forall_cons in Hall as [Hm Hl].
  destruct i as [|i]; apply Forall_cons; (split; [|by try apply IH]); [|done].
  unfold ManifestReference_UpdateStatus. by destruct (_ || _)%bool.
Qed.

Lemma vanishing_not_held id w : id ∈ ids -> untouched w0 w -> vanishing (cl_now w0) id w -> ~ held id w0.
Proof.
  intros Hid Hu Hv (m & Hm & Hown). destruct (Hv m) as [Hn|Hd]; [by rewrite (Hu id Hid)|done|].
  by rewrite (Hsettled id m Hid Hm) in Hd.
Qed.

Lemma not_held_vanishing t id w : ~ held id w -> vanishing t id w.
Proof. intros Hn m Hm. left. intros Hown. apply Hn. by exists m. Qed.

Lemma deleteOne_run mids done o b s' w :
  Forall (fun m => id_of m ∈ ids) mids -> mid o ∈ mids -> storable o = true -> so_far mids done b s' w ->
  wp (deleteOne [] timeout o b : M _) (fun out s' w' _ =>
    match out with
    | Ret (inl b') => so_far mids (done ++ [o]) b' s' w'
    | _ => False
    end) s' w.
Proof.
  destruct b as [st flag]. intros Hmids Ho Hst (-> & Hw & Hci & (Herrs & Href & Hid) & Hdrop & Hflag).
  simpl in *. unfold deleteOne. simpl. apply wp_bind, wp_Now. intros now w1 [= <- <-].
  destruct (RenderedObject_ManifestReference (cl_now w) o) as [ref|] eqn:Hr.
  2:{ by destruct (storable_reference (cl_now w) o Hst) as [? ?]; congruence. }
  apply MRef_of_object in Hr.
  destruct (IndexOfManifestByIdentity ref (ds_rendered st)) as [index|e] eqn:Hidx.
  2:{ rewrite <-Hid, <-Hr in Ho. apply tracked_index in Ho as [? ?]. congruence. }
  apply IndexOfManifestByIdentity_Ok in Hidx as (manifest & Hman & Hmid). rewrite Hr in Hmid. rewrite Hman.
  assert (Hin : oid o ∈ ids) by (rewrite Forall_forall in Hmids; exact (Hmids (mid o) Ho)).
  apply wp_bind. eapply wp_mono; [by apply DeleteObject_run|].
  intros out s' w' ev (-> & Hw' & Hci' & Hkeep & Hcase). rewrite Hci in Hci'.
  destruct Hcase as [(b & err & -> & Hgone & -> & Hnot)|(-> & Hheld & Hmark)].
  - simpl. rewrite Hgone. apply wp_ret. split_and!; try done.
    + simpl. intros m [Hm| ->%list_elem_of_singleton]%elem_of_app; [by apply Hdrop|].
      rewrite Hmid. by apply not_held_vanishing.
    + simpl. destruct flag; [|done]. destruct Hflag as [Hu Hdone]. split; [done|].
      intros o' [Hin'| ->%list_elem_of_singleton]%elem_of_app; unfold dropped; simpl;
        rewrite List.map_app, elem_of_app; [left; by apply Hdone|right; simpl; rewrite Hmid; by left].
  - simpl. assert (Hp : progress w0 w') by (exists (oid o); split_and!; try done; by apply marked_vanishing).
    assert (Hdrop' : dropping st w') by (intros m Hm; by apply Hkeep, Hdrop).
    case_goal; [apply wp_bind, wp_Now; intros now w2 [= <- <-]|]; apply wp_ret; split_and!; try done.
    split_and!; [done|by apply reference_ok_update|rewrite <-Hid; apply updateManifest_ids].
Qed.

Lemma deleteWave_run objects mids done wave st s' w :
  let waveMap := (SyncWaveMap_AddObjects ∅ objects).1 in
  Forall (fun m => id_of m ∈ ids) mids -> (forall o, o ∈ objects -> mid o ∈ mids) ->
  so_far mids done (st, true) s' w ->
  wp (deleteWave waveMap [] timeout wave st : M _) (fun out s' w' _ =>
    match out with
    | Ret (inl st') => so_far mids (done ++ GetObjectsForSyncWave waveMap wave) (st', true) s' w'
    | Ret (inr st') => so_far mids [] (st', false) s' w'
    | Panic _ => False
    end) s' w.
Proof.
  intros waveMap Hmids Hobj Hst. unfold deleteWave. apply wp_bind. eapply wp_mono.
  - apply (wp_for _ _ _ (fun seen b s' w _ => so_far mids (done ++ seen) b s' w) (fun _ _ _ _ => False)
      (fun _ _ _ => False)); [by rewrite app_nil_r|].
    intros seen o rest b s1 w1 ev Hl Hb.
    destruct (wave_objects cluster_errors_plain objects wave o) as (Ho & Hsto & _); [fold waveMap; rewrite Hl; set_solver|].
    eapply wp_mono; [apply (deleteOne_run mids (done ++ seen)); auto|].
    intros [[b'|]|] s2 w2 ev'; try done. by rewrite app_assoc.
  - intros [[[st' flag]|]|] s1 w1 ev; try done. intros (-> & Hw & Hci & Ht & Hdrop & Hflag). simpl in *.
    assert (Herrs := proj1 Ht). rewrite Herrs. destruct flag; apply wp_ret; by split_and!.
Qed.

Lemma filterOut_all rendered deleted :
  (forall m, m ∈ rendered -> MRef_identity m ∈ List.map MRef_identity deleted) ->
  filterOutDeletedManifests rendered deleted = [].
Proof.
  intros Hall. unfold filterOutDeletedManifests. induction rendered as [|m l IH]; [done|]. simpl.
  destruct (proj2 (tracked_index m deleted) (Hall m ltac:(by left))) as [i ->]. apply IH.
  intros m' Hm'. apply Hall. by right.
Qed.

(** The patch of the status is stored. *)
Lemma PatchCIStatus_hub old s' w :
  wp (PatchCIStatus old : M _) (fun out s1 w1 _ => out = Ret None /\ s1 = s' /\ w1 = with_ci s' w) s' w.
Proof. done. Qed.

Lemma finishDeletion_run st w :
  ds_errs st = [] -> cl_ci w = Some s ->
  wp (finishDeletion st : M _) (fun out s' w' _ => out = Ret None
    /\ s' = with_manifests (filterOutDeletedManifests (ds_rendered st) (ds_deleted st)) s
    /\ w' = with_ci s' w) s w.
Proof.
  intros Herrs Hci. unfold finishDeletion. rewrite Herrs. apply wp_bind, wp_get.
  destruct (bool_decide_reflect (Status_ManifestsRendered (CI_Status s)
    = filterOutDeletedManifests (ds_rendered st) (ds_deleted st))) as [Heq|_].
  - apply wp_ret. rewrite <-Heq. assert (Hs : s = with_manifests (Status_ManifestsRendered (CI_Status s)) s)
      by (by destruct s as [? ? []]). rewrite <-Hs. split_and!; try done. destruct w. simpl in *. by subst.
  - apply wp_bind, wp_modify, wp_bind. eapply wp_mono; [apply PatchCIStatus_hub|].
    intros o s' w' ev (-> & -> & ->). by apply wp_ret.
Qed.

Lemma during_with_ci ci w : during w0 w -> during w0 (with_ci ci w).
Proof. done. Qed.

(** ** A run of the deletion *)

(** The manifests that [s] tracks are well formed and among [ids]. *)
Definition tracks (ms : list ManifestReference) : Prop :=
  Forall (fun m => reference_ok m /\ id_of (MRef_identity m) ∈ ids) ms.

Lemma filterOut_dropped st w m :
  dropping st w -> MRef_identity m ∈ List.map MRef_identity (ds_rendered st) ->
  MRef_identity m ∈ List.map MRef_identity (filterOutDeletedManifests (ds_rendered st) (ds_deleted st))
  \/ vanishing (cl_now w0) (id_of (MRef_identity m)) w.
Proof.
  intros Hdrop (m' & Hid & Hin)%list_elem_of_In%in_map_iff. rewrite <-Hid.
  destruct (IndexOfManifestByIdentity m' (ds_deleted st)) as [i|e] eqn:Hi.
  - right. apply IndexOfManifestByIdentity_Ok in Hi as (d & Hd & <-).
    apply Hdrop. by eapply list_elem_of_lookup_2.
  - left. apply list_elem_of_In, in_map, filter_In. by rewrite Hi.
Qed.

Lemma tracks_filterOut mids st :
  tracking mids st -> Forall (fun m => id_of m ∈ ids) mids ->
  tracks (filterOutDeletedManifests (ds_rendered st) (ds_deleted st)).
Proof.
  intros (_ & Href & Hid) Hmids. apply Forall_forall. intros m Hm.
  apply list_elem_of_In, filter_In in Hm as [Hm%list_elem_of_In _]. rewrite Forall_forall in Href.
  split; [by apply Href|]. rewrite Forall_forall in Hmids. apply Hmids. rewrite <-Hid.
  apply list_elem_of_In, in_map. by apply list_elem_of_In.
Qed.

Definition run_done (ms : list ManifestReference) (out : outcome (bool * option error))
    (s' : ClusterInstance) (w' : cluster) : Prop :=
  exists ms', s' = with_manifests ms' s /\ tracks ms' /\ cl_ci w' = Some s' /\ during w0 w'
    /\ (forall m, m ∈ ms -> MRef_identity m ∈ List.map MRef_identity ms'
         \/ vanishing (cl_now w0) (id_of (MRef_identity m)) w')
    /\ ((out = Ret (true, None) /\ ms' = []
         /\ forall m, m ∈ ms -> ~ held (id_of (MRef_identity m)) w0)
        \/ (out = Ret (false, None) /\ progress w0 w')).

Lemma DeleteObjects_run ms objects :
  Status_ManifestsRendered (CI_Status s) = ms -> tracks ms -> sound_cluster w0 -> cl_ci w0 = Some s ->
  List.map mid objects = List.map MRef_identity ms -> Forall (fun o => storable o = true) objects ->
  wp (DeleteObjects objects [] timeout : M _) (fun out s' w' _ => run_done ms out s' w') s w0.
Proof.
  intros Hms Htr Hsound Hci Hobj Hsto. set (mids := List.map MRef_identity ms).
  assert (Hmids : Forall (fun m => id_of m ∈ ids) mids).
  { apply Forall_forall. intros id (m & <- & Hm)%list_elem_of_In%in_map_iff. apply list_elem_of_In in Hm.
    unfold tracks in Htr. rewrite Forall_forall in Htr. by apply Htr. }
  assert (Hin : forall o, o ∈ objects -> mid o ∈ mids).
  { intros o Ho. unfold mids. rewrite <-Hobj. by apply list_elem_of_In, in_map, list_elem_of_In. }
  unfold DeleteObjects. apply wp_bind, wp_get, wp_bind. rewrite Hms. eapply wp_mono.
  { apply (wp_for _ _ _ (fun waves st s' w _ =>
        so_far mids (List.concat (List.map (GetObjectsForSyncWave (SyncWaveMap_AddObjects ∅ objects).1) waves))
          (st, true) s' w) (fun st s' w _ => so_far mids [] (st, false) s' w) (fun _ _ _ => False)).
    - split_and!; try done; [by split_and!; [| |intros; left]| |by intros m Hm%not_elem_of_nil|].
      { split_and!; [done| |done]. eapply Forall_impl; [exact Htr|]. by intros m [? _]. }
      split; [done|]. by intros o Ho%not_elem_of_nil.
    - intros waves wave rest st s' w ev Hl Hst. eapply wp_mono; [by eapply (deleteWave_run objects mids)|].
      intros [[st'|st']|msg] s1 w1 ev'; try done. rewrite List.map_app, concat_app. simpl. by rewrite app_nil_r. }
  intros [[st|st]|msg] s' w ev; [| |done]; intros (-> & Hw & Hci' & Ht & Hdrop & Hst); simpl in *;
    rewrite Hci in Hci'; apply wp_bind;
    (eapply wp_mono; [by apply finishDeletion_run; [apply Ht|]|]);
    intros o s' w' ev' (-> & -> & ->); apply wp_ret; eexists;
    (split; [done|]); (split; [by eapply tracks_filterOut|]);
    assert (Hleft := fun m (Hm : m ∈ ms) => filterOut_dropped st w m Hdrop);
    destruct Ht as (_ & _ & Hids); rewrite Hids in Hleft;
    assert (Hmem : forall m, m ∈ ms -> MRef_identity m ∈ mids)
      by (intros m Hm; by apply list_elem_of_In, in_map, list_elem_of_In).
  - destruct Hst as [Hu Hgone].
    assert (Hnil : filterOutDeletedManifests (ds_rendered st) (ds_deleted st) = []).
    { apply filterOut_all. intros m Hm. assert (Hmm : MRef_identity m ∈ mids).
      { rewrite <-Hids. by apply list_elem_of_In, in_map, list_elem_of_In. }
      unfold mids in Hmm. rewrite <-Hobj in Hmm. apply list_elem_of_In, in_map_iff in Hmm as (o & <- & Ho).
      apply list_elem_of_In in Ho. apply Hgone. rewrite Forall_forall in Hsto.
      destruct (candidate_listed s objects [] o Ho) as [Hwave Hlist].
      { split; [by apply Hsto|]. split; [by intros x Hx%not_elem_of_nil|]. rewrite Hms. by apply Hin. }
      apply list_elem_of_In, in_concat. eexists. split; [|by apply list_elem_of_In].
      apply in_map. by apply list_elem_of_In. }
    rewrite Hnil in *. split_and!; try done.
    { intros m Hm. by apply Hleft; [|apply Hmem]. }
    left. split_and!; try done. intros m Hm. destruct (Hleft m Hm (Hmem m Hm)) as [[]%not_elem_of_nil|Hv].
    apply (vanishing_not_held _ w); try done. rewrite Forall_forall in Hmids. by apply Hmids, Hmem.
  - split_and!; try done; [|by right]. intros m Hm. by apply Hleft; [|apply Hmem].
Qed.

Lemma DeleteRenderedObjects_run ms :
  Status_ManifestsRendered (CI_Status s) = ms -> tracks ms -> sound_cluster w0 -> cl_ci w0 = Some s ->
  wp (DeleteRenderedObjects [] timeout : M _) (fun out s' w' _ => run_done ms out s' w') s w0.
Proof.
  intros Hms Htr Hsound Hci. unfold DeleteRenderedObjects. apply wp_bind, wp_get. rewrite Hms.
  assert (Href : Forall reference_ok ms) by (eapply Forall_impl; [exact Htr|]; by intros m [? _]).
  destruct (objectsForManifests_spec ms Href) as (objects & Hos & Hall).
  destruct ms as [|m0 ms0] eqn:Heq.
  { apply wp_ret. exists []. assert (Hs : s = with_manifests [] s) by (destruct s as [? ? []]; simpl in *; by subst).
    rewrite <-Hs. split_and!; try done; [by split_and!; [| |intros; left]|by intros m Hm%not_elem_of_nil|].
    left. split_and!; try done. by intros m Hm%not_elem_of_nil. }
  rewrite Hos. rewrite <-Heq in *. apply DeleteObjects_run; try done.
  - clear -Hall. induction Hall as [|m o ms objects (Hm & _) _ IH]; [done|]. simpl. by rewrite Hm, IH.
  - clear -Hall. induction Hall as [|m o ms objects (_ & Hm & _) _ IH]; by constructor.
Qed.
End run.

(** ** The finalizer *)

Section finalizer.
Context `{FloatText} `{TemplateLib} `{MapRange} `{ResourceYaml} `{TimeText} `{SpecText}.
Context (owner : string) (ids : list object_id).

(** Marked for deletion, not paused, and still with the finalizer. *)
Definition being_deleted (ci : ClusterInstance) : Prop :=
  deletion_time_is_zero ci = false /\ ContainsFinalizer ci clusterInstanceFinalizer = true
  /\ ClusterInstance_IsPaused ci = false /\ Status_Paused (CI_Status ci) = None
  /\ GenerateOwnedByLabelValue (Key_Namespace (CI_key ci)) (Key_Name (CI_key ci)) = owner.

(** A hub on which [ci] is stored. Of the objects [ids] none is marked for deletion, and those that are
    there and ours are tracked. *)
Definition hub_deleting (ci : ClusterInstance) (w : cluster) : Prop :=
  being_deleted ci /\ cl_ci w = Some ci /\ sound_cluster w /\ settled ids w
  /\ tracks ids (Status_ManifestsRendered (CI_Status ci))
  /\ forall id, id ∈ ids -> held owner id w ->
       exists m, m ∈ Status_ManifestsRendered (CI_Status ci) /\ id_of (MRef_identity m) = id.

(** The finalizer is given up, and the server has accepted it. *)
Definition finalized (ev : list Event) : Prop :=
  exists old new, Ev (PatchCI old new) (Ok new) ∈ ev /\ Status_ManifestsRendered (CI_Status old) = []
    /\ new = RemoveFinalizer clusterInstanceFinalizer old
    /\ ContainsFinalizer old clusterInstanceFinalizer = true
    /\ ContainsFinalizer new clusterInstanceFinalizer = false.

Lemma RemoveFinalizer_removes ci f : ContainsFinalizer (RemoveFinalizer f ci) f = false.
Proof.
  unfold ContainsFinalizer, RemoveFinalizer. simpl. apply bool_decide_eq_false. rewrite list_elem_of_In, filter_In.
  rewrite String.eqb_refl. by intros [_ ?].
Qed.

(** What is left after a run that has to be continued: [ci] with fewer manifests, and [progress]. *)
Definition continued (ci : ClusterInstance) (w w' : cluster) : Prop :=
  exists ms, let ci' := with_manifests ms ci in
    cl_ci w' = Some ci' /\ tracks ids ms /\ during owner ids w w' /\ progress owner ids w w'
    /\ forall m, m ∈ Status_ManifestsRendered (CI_Status ci) ->
         MRef_identity m ∈ List.map MRef_identity ms
         \/ vanishing owner (cl_now w) (id_of (MRef_identity m)) w'.

Lemma handleFinalizer_run ci w :
  hub_deleting ci w ->
  wp handleFinalizer (fun out s' w' ev =>
    (out = Ret (requeueForDeletion, None) /\ continued ci w w')
    \/ (out = Ret (mkResult false 0, None) /\ finalized ev /\ forall id, id ∈ ids -> ~ held owner id w)) ci w.
Proof.
  intros ((Hdel & Hfin & _ & _ & Hown) & Hci & Hsound & Hset & Htr & Hall).
  unfold handleFinalizer. apply wp_bind, wp_get. rewrite Hdel, Hfin. cbn [negb].
  apply wp_bind. eapply wp_mono.
  { by apply (DeleteRenderedObjects_run owner ids (Some DefaultDeletionTimeout)
      ltac:(by intros t [= <-]) ci Hown w Hset _ eq_refl). }
  intros out s' w' ev (ms & -> & Htr' & Hci' & Hw' & Hleft & [(-> & -> & Hgone)|[-> Hp]]).
  - cbv beta iota. cbn [negb]. apply wp_bind, wp_get, wp_bind, wp_modify, wp_if_err. unfold patchCI.
    apply wp_bind, wp_get, wp_bind, wp_call. intros r w1 [= <- <-].
    apply wp_bind, wp_modify, wp_ret, wp_ret. right. split; [done|]. split.
    + exists (with_manifests [] ci), (RemoveFinalizer clusterInstanceFinalizer (with_manifests [] ci)).
      split; [|split_and!; try done; apply RemoveFinalizer_removes].
      rewrite !elem_of_app, list_elem_of_singleton. tauto.
    + intros id Hid Hh. destruct (Hall id Hid Hh) as (m & Hm & <-). by apply (Hgone m).
  - apply wp_ret. left. split; [done|]. by exists ms.
Qed.

Lemma wp_any {A} (m : Prog ClusterInstance cluster Event A) Q s w :
  (forall o s' w' ev, Q o s' w' ev) -> wp m Q s w.
Proof. intros HQ. apply HQ. Qed.

Lemma finalized_incl ev ev' : (forall e, e ∈ ev -> e ∈ ev') -> finalized ev -> finalized ev'.
Proof. intros Hsub (old & new & Hin & Hf). exists old, new. split; [by apply Hsub|done]. Qed.

Lemma Reconcile_run podNamespace store req mem ci w :
  CI_key ci = req -> hub_deleting ci w ->
  wp (Reconcile podNamespace store req) (fun out _ w' ev =>
    (out = Ret (requeueForDeletion, None) /\ continued ci w w')
    \/ (finalized ev /\ forall id, id ∈ ids -> ~ held owner id w)) mem w.
Proof.
  intros Hkey Hw. assert (Hw' := Hw). destruct Hw' as ((_ & _ & Hpause & Hpaused & _) & Hci & _).
  unfold Reconcile. apply wp_if_err. unfold fetchCI. apply wp_bind, wp_call. intros r w1 Hr.
  simpl in Hr. rewrite Hci, Hkey, bool_decide_true in Hr by done. injection Hr as <- <-.
  apply wp_bind, wp_modify, wp_ret. unfold reconcile_loaded. apply wp_bind, wp_get. rewrite Hpause, Hpaused.
  unfold unless_done at 1. apply wp_bind. eapply wp_mono; [by apply handleFinalizer_run|].
  intros out s' w' ev [[-> Hc]|(-> & Hf & Hgone)].
  - apply wp_ret. by left.
  - apply wp_any. intros o s'' w'' ev'. right. split; [|done]. eapply finalized_incl; [|exact Hf].
    intros e He. rewrite !elem_of_app. tauto.
Qed.
End finalizer.

(** ** Progress *)

Section rounds.
Context `{FloatText} `{TemplateLib} `{MapRange} `{ResourceYaml} `{TimeText} `{SpecText}.
Context (ids : list object_id).

(** What may happen between two reconciles: the ClusterInstance keeps its metadata, the manifests it
    tracks and that it is not paused; of the objects [ids] no new one appears, and those that are
    marked for deletion are gone. *)
Definition hub_env (env : cluster -> cluster) : Prop :=
  forall w, sound_cluster w ->
    sound_cluster (env w)
    /\ (forall ci, cl_ci w = Some ci -> exists ci', cl_ci (env w) = Some ci' /\ CI_Meta ci' = CI_Meta ci
          /\ Status_Paused (CI_Status ci') = Status_Paused (CI_Status ci)
          /\ Status_ManifestsRendered (CI_Status ci') = Status_ManifestsRendered (CI_Status ci))
    /\ forall id m, id ∈ ids -> look id (env w) = Some m -> look id w = Some m /\ ObjectMeta_deleting m = None.

(** The objects that are still to be deleted. *)
Definition to_delete (owner : string) (w : cluster) : nat := length (filter (fun id => held owner id w) ids).

Lemma filter_fewer {A} (P Q : A -> Prop) `{!forall x, Decision (P x)} `{!forall x, Decision (Q x)} (l : list A) :
  (forall x, x ∈ l -> Q x -> P x) ->
  length (filter Q l) <= length (filter P l)
  /\ ((exists x, x ∈ l /\ P x /\ ~ Q x) -> length (filter Q l) < length (filter P l)).
Proof.
  induction l as [|y l IH]; intros Hsub; [by split; [|intros (x & Hx%not_elem_of_nil & _)]|].
  destruct IH as [Hle Hlt]; [intros x Hx; apply Hsub; by right|].
  rewrite !filter_cons. assert (Hy := Hsub y ltac:(by left)).
  destruct (decide (Q y)), (decide (P y)); cbn [length]; [|exfalso; tauto| |].
  - split; [lia|]. intros (x & Hx & HP & HQ). apply elem_of_cons in Hx as [->|Hx]; [done|].
    apply le_n_S, Hlt. eauto.
  - split; [lia|]. intros _. lia.
  - split; [lia|]. intros (x & Hx & HP & HQ). apply elem_of_cons in Hx as [->|Hx]; [done|]. eauto.
Qed.

Lemma next_round owner env ci w w' :
  hub_env env -> hub_deleting owner ids ci w -> continued owner ids ci w w' ->
  exists ci', CI_key ci' = CI_key ci /\ hub_deleting owner ids ci' (env w') /\ to_delete owner (env w') < to_delete owner w.
Proof.
  intros Henv (Hbd & Hci & Hsound & Hset & Htr & Hall) (ms & Hci' & Htr' & (Hsound' & Hnow & Hw') & Hprog & Hleft).
  destruct (Henv w' Hsound') as (Hs & Hobj & Hlook). destruct (Hobj _ Hci') as (ci' & Hget & Hmeta & Hpause & Hms).
  simpl in Hmeta, Hpause, Hms.
  assert (Hheld : forall id, id ∈ ids -> held owner id (env w') ->
    held owner id w /\ ~ vanishing owner (cl_now w) id w').
  { intros id Hid (m & Hm & Hown). destruct (Hlook id m Hid Hm) as [Hm' Hd]. split.
    - destruct (Hw' id Hid) as [Heq|[? _]]; [|done]. exists m. by rewrite <-Heq.
    - intros Hv. destruct (Hv m Hm'); congruence. }
  exists ci'. split; [unfold CI_key; by rewrite Hmeta|]. split; [split_and!|].
  - destruct Hbd as (H1' & H2' & H3' & H4' & H5').
    unfold being_deleted, deletion_time_is_zero, ContainsFinalizer, ClusterInstance_IsPaused, CI_key in *.
    rewrite Hmeta, Hpause. by split_and!.
  - done.
  - done.
  - intros id m Hid Hm. by destruct (Hlook id m Hid Hm).
  - by rewrite Hms.
  - intros id Hid Hh. destruct (Hheld id Hid Hh) as [Hh' Hnv]. destruct (Hall id Hid Hh') as (m & Hm & <-).
    destruct (Hleft m Hm) as [Hin|Hv]; [|done]. apply list_elem_of_In, in_map_iff in Hin as (m' & Heq & Hin).
    exists m'. rewrite Hms, Heq. split; [by apply list_elem_of_In|done].
  - apply filter_fewer.
    + intros id Hid Hh. by apply Hheld.
    + destruct Hprog as (id & Hid & Hh & Hv). exists id. split_and!; try done. intros Hh'.
      by apply (Hheld id Hid) in Hh' as [_ ?].
Qed.

(** What the reconcile with the number [k] begins with. *)
Fixpoint before_round (podNamespace : string) (store : Configuration) (req : ObjectKey) (mem : ClusterInstance)
    (env : nat -> cluster -> cluster) (k : nat) (w : cluster) : cluster :=
  match k with
  | 0 => w
  | S k => before_round podNamespace store req mem (fun i => env (S i)) k
             (env 0 (run_world (Reconcile podNamespace store req mem w)))
  end.

Lemma rounds_finish podNamespace store mem owner n env ci w :
  let req := CI_key ci in
  let before k := before_round podNamespace store req mem env k w in
  hub_deleting owner ids ci w -> (forall i, hub_env (env i)) -> to_delete owner w <= n ->
  exists k, k <= n
    /\ (forall i, i < k -> run_out (Reconcile podNamespace store req mem (before i)) = Ret (requeueForDeletion, None))
    /\ finalized (run_evs (Reconcile podNamespace store req mem (before k)))
    /\ forall id, id ∈ ids -> ~ held owner id (before k).
Proof.
  revert env ci w. induction n as [|n IH]; intros env ci w req before Hw Henv Hn;
    destruct (Reconcile_run owner ids podNamespace store req mem ci w eq_refl Hw) as [[Hout Hcont]|[Hfin Hgone]];
    try (exists 0; split; [lia|]; split; [intros; lia|done]).
  { destruct (next_round owner (env 0) ci w _ (Henv 0) Hw Hcont) as (_ & _ & _ & Hless). lia. }
  destruct (next_round owner (env 0) ci w _ (Henv 0) Hw Hcont) as (ci' & Hkey & Hw' & Hless).
  destruct (IH (fun i => env (S i)) ci' _ Hw' (fun i => Henv (S i)) ltac:(lia)) as (k & Hk & Hall & Hend).
  rewrite Hkey in Hall, Hend. exists (S k). split; [lia|]. split; [|exact Hend].
  intros [|i] Hi; [done|]. apply Hall. lia.
Qed.
End rounds.

(** ** The property *)

Section property.
Context `{FloatText} `{TemplateLib} `{MapRange} `{ResourceYaml} `{TimeText} `{SpecText}.

Definition owner_of (ci : ClusterInstance) : string :=
  GenerateOwnedByLabelValue (Key_Namespace (CI_key ci)) (Key_Name (CI_key ci)).

(** The objects that [ci] tracks. *)
Definition tracked_ids (ci : ClusterInstance) : list object_id :=
  List.map (fun m => id_of (MRef_identity m)) (Status_ManifestsRendered (CI_Status ci)).

(** [ci] is stored on the hub and marked for deletion; its manifests are as the renderer records
    them, and the deletion of none of them has begun. *)
Definition deletion_pending (ci : ClusterInstance) (w : cluster) : Prop :=
  being_deleted (owner_of ci) ci /\ cl_ci w = Some ci /\ sound_cluster w /\ settled (tracked_ids ci) w
  /\ Forall reference_ok (Status_ManifestsRendered (CI_Status ci)).

Lemma pending_hub ci w : deletion_pending ci w -> hub_deleting (owner_of ci) (tracked_ids ci) ci w.
Proof.
  intros (Hbd & Hci & Hsound & Hset & Href). split_and!; try done.
  - apply Forall_forall. intros m Hm. rewrite Forall_forall in Href. split; [by apply Href|].
    by apply list_elem_of_In, (in_map (fun m => id_of (MRef_identity m))), list_elem_of_In.
  - intros id Hid _. apply list_elem_of_In, in_map_iff in Hid as (m & <- & Hm).
    exists m. split; [by apply list_elem_of_In|done].
Qed.

(** C5: The deletion of a ClusterInstance comes to an end. On a hub that does what it is asked, and
    on which a deleted object is gone by the next reconcile, the finalizer is given up after at most
    as many earlier reconciles as manifests are tracked; each of these ends without an error and
    comes back after the delay of a deletion. When the finalizer is given up nothing that was tracked
    is left of this ClusterInstance, and the status tracks no manifest any more. *)
Theorem deletion_finishes podNamespace store mem (env : nat -> cluster -> cluster) ci w :
  let before k := before_round podNamespace store (CI_key ci) mem env k w in
  deletion_pending ci w -> (forall i, hub_env (tracked_ids ci) (env i)) ->
  exists k, k <= length (Status_ManifestsRendered (CI_Status ci))
    /\ (forall i, i < k ->
          run_out (Reconcile podNamespace store (CI_key ci) mem (before i)) = Ret (requeueForDeletion, None))
    /\ finalized (run_evs (Reconcile podNamespace store (CI_key ci) mem (before k)))
    /\ forall m, m ∈ Status_ManifestsRendered (CI_Status ci) -> ~ held (owner_of ci) (id_of (MRef_identity m)) (before k).
Proof.
  intros before Hp Henv.
  destruct (rounds_finish (tracked_ids ci) podNamespace store mem (owner_of ci)
    (length (Status_ManifestsRendered (CI_Status ci))) env ci w) as (k & Hk & Hall & Hfin & Hgone); try done.
  - by apply pending_hub.
  - unfold to_delete. rewrite length_filter. unfold tracked_ids. by rewrite List.length_map.
  - exists k. split_and!; try done. intros m Hm. apply Hgone.
    by apply list_elem_of_In, (in_map (fun m => id_of (MRef_identity m))), list_elem_of_In.
Qed.
End property.

(** ** What takes the finalizers of deleted objects away *)

Lemma find_filter_all {A} (p q : A -> bool) l :
  (forall x, p x = true -> q x = true) -> List.find p (List.filter q l) = List.find p l.
Proof.
  intros Hpq. induction l as [|x l IH]; [done|]. simpl. destruct (q x) eqn:Hq; simpl.
  - by rewrite IH.
  - destruct (p x) eqn:Hp; [by rewrite Hpq in Hq|done].
Qed.

Lemma find_filter_none {A} (p q : A -> bool) l :
  (forall x, p x = true -> q x = false) -> List.find p (List.filter q l) = None.
Proof.
  intros Hpq. induction l as [|x l IH]; [done|]. simpl. destruct (q x) eqn:Hq; simpl; [|done].
  destruct (p x) eqn:Hp; [by rewrite Hpq in Hq|done].
Qed.

Definition look_resource (id : object_id) (w : cluster) : option ObjectMeta :=
  match find_resource id.1.2 id.2 w with
  | Ok r => if is_resource id.1.1 id.1.2 then Some (resource_meta r) else None
  | Err _ => None
  end.

Lemma look_eq id w :
  look id w = match List.find (fun x => bool_decide (x.1 = id)) (cl_objects w) with
              | Some x => Some x.2
              | None => look_resource id w
              end.
Proof.
  destruct id as [[a k] key]. unfold look, look_resource, same_object. simpl.
  destruct (List.find _ _); [done|]. destruct (find_resource _ _ _); [|done]. by destruct (is_resource a k).
Qed.

Definition unmarked (id : object_id) (w : cluster) : bool :=
  match look id w with Some m => bool_decide (ObjectMeta_deleting m = None) | None => true end.

(** The objects that are marked for deletion go away. *)
Definition sweep (w : cluster) : cluster :=
  with_objects (List.filter (fun x => unmarked x.1 w) (cl_objects w)) w.

Lemma sweep_look id w :
  sound_cluster w -> look id (sweep w) = if unmarked id w then look id w else None.
Proof.
  intros Hw. rewrite (look_eq id (sweep w)). change (look_resource id (sweep w)) with (look_resource id w).
  unfold sweep, with_objects. cbn [cl_objects]. destruct (unmarked id w) eqn:Hu.
  - rewrite find_filter_all; [by rewrite <-look_eq|]. by intros x ->%bool_decide_eq_true.
  - rewrite find_filter_none by by intros x ->%bool_decide_eq_true. unfold unmarked in Hu. rewrite look_eq in Hu.
    unfold look_resource in *. destruct (List.find _ _) as [x|] eqn:Hx; [|destruct (find_resource _ _ _); [|done];
      by destruct (is_resource _ _)].
    apply find_some in Hx as [Hin Hid%bool_decide_eq_true]. apply list_elem_of_In in Hin.
    assert (Hr := proj2 Hw x Hin). rewrite Hid in Hr. rewrite Hr. by destruct (find_resource _ _ _).
Qed.

Lemma sweep_env ids : hub_env ids sweep.
Proof.
  intros w Hw. split_and!.
  - split; [by destruct Hw|]. intros x Hx. apply list_elem_of_In, filter_In in Hx as [Hx _].
    by apply Hw, list_elem_of_In.
  - intros ci Hci. by exists ci.
  - intros id m _. rewrite sweep_look by done. destruct (unmarked id w) eqn:Hu; [|done].
    intros Hm. split; [done|]. unfold unmarked in Hu. rewrite Hm in Hu. by apply bool_decide_eq_true in Hu.
Qed.

(** ** Example *)

#[local] Existing Instance same_float.
#[local] Existing Instance no_yaml.
#[local] Existing Instance fixed_time.
#[local] Existing Instance no_spec_text.
#[local] Existing Instance sample_templates.

(** Three manifests in two waves: one with finalizers of its own, a ConfigMap, and one that is
    somebody else's. *)
Definition deleted_ci : ClusterInstance :=
  deleting_sno [wave_ref "Agent" "host" 1; wave_ref "ConfigMap" "extra" 2; wave_ref "InfraEnv" "other" 2].

Definition extra_cm : Resource :=
  mkResource "ConfigMap" "site-sno" "extra" (Some {[OwnedByLabel := "site-sno_site-sno"]}) ∅ "1" "" 0 [] "" None ∅.

Definition deleted_hub : cluster :=
  add_resource extra_cm (full_cluster deleted_ci
    [("v1", "Agent", mkObjectKey "site-sno" "host", live_meta "host" ["agent.openshift.io"]);
     ("v1", "InfraEnv", mkObjectKey "site-sno" "other",
      mkObjectMeta "other" "site-sno" {[OwnedByLabel := "site-sno_other"]} ∅ [] 1 "1" None)]).

Lemma deleted_pending : deletion_pending deleted_ci deleted_hub.
Proof.
  split_and!.
  - by vm_compute.
  - done.
  - split; [done|]. by intros x [->|[->|[]%not_elem_of_nil]%elem_of_cons]%elem_of_cons.
  - intros id m [->|[->|[->|[]%not_elem_of_nil]%elem_of_cons]%elem_of_cons]%elem_of_cons; vm_compute; by intros [= <-].
  - repeat constructor; vm_compute; congruence || eauto.
Qed.

(** The ConfigMap goes in the first run, and the object with finalizers in the second; the third run gives the
    finalizer up. *)
Example deletion_runs :
  let before k := before_round "siteconfig-operator" store sno_key sno (fun _ => sweep) k deleted_hub in
  List.map (fun k => run_out (Reconcile "siteconfig-operator" store sno_key sno (before k))) [0; 1]
    = [Ret (requeueForDeletion, None); Ret (requeueForDeletion, None)]
  /\ option_map (fun ci => Meta_Finalizers (CI_Meta ci))
       (cl_ci (run_world (Reconcile "siteconfig-operator" store sno_key sno (before 2)))) = Some ["foregroundDeletion"]
  /\ List.map (fun x => x.1.1.2) (cl_objects (before 2)) = ["InfraEnv"].
Proof. split_and!; vm_compute; reflexivity. Qed.

Lemma deletion_finishes_witness :
  exists k, k <= 3
    /\ finalized (run_evs (Reconcile "siteconfig-operator" store sno_key sno
         (before_round "siteconfig-operator" store sno_key sno (fun _ => sweep) k deleted_hub))).
Proof.
  destruct (deletion_finishes "siteconfig-operator" store sno (fun _ => sweep) deleted_ci deleted_hub
    deleted_pending (fun _ => sweep_env _)) as (k & Hk & _ & Hfin & _).
  exists k. exact (conj Hk Hfin).
Defined.
