(* ===== verification/InstallationHub.v ===== *)
(** * The installation of a ClusterInstance on a hub

    On the in-memory cluster a ClusterInstance that passes validation and whose templates render is
    installed in at most three reconciles: the first ones record the finalizer and the annotation for
    Velero, the last one applies the manifests; and then there is nothing more to do. *)
From S2P Require Import Prelude GoStd JsonCodec Types Errors Conditions Validation Samples K8s Cluster Retry.
From S2P Require Import Requeue RenderedObject RenderedSpec Validator Pause Configuration Templates Deletion.
From S2P Require Import DeletionSpec Preservation Reinstall ReinstallProgress Obliging Reimport Controller ControllerSpec DeletionHub.

(** ** Programs that read the same *)

Definition data_of (kind : string) (key : ObjectKey) (w : cluster) : option smap :=
  match find_resource kind key w with Ok r => Some (Res_Data r) | Err _ => None end.

(** The image sets are the same, and the resources up to their metadata. *)
Definition same_data (w w' : cluster) : Prop :=
  cl_imagesets w' = cl_imagesets w /\ forall kind key, data_of kind key w' = data_of kind key w.

#[export] Instance same_data_equiv : Equivalence same_data.
Proof.
  split; [done|by intros w w' [? ?]; split|]. intros w1 w2 w3 [H1 H2] [H3 H4].
  split; [congruence|]. intros kind key. by rewrite H4.
Qed.

Section alike.
Abbreviation M := (Prog ClusterInstance cluster Event).

(** [m] leaves everything as it is, and its result depends on the data of the resources only. *)
Definition alike {A} (m : M A) : Prop :=
  forall s s' w w', same_data w w' ->
    run_out (m s' w') = run_out (m s w) /\ run_mem (m s w) = s /\ run_world (m s w) = w.

Lemma alike_outcome {A} (o : outcome A) : alike (of_outcome o).
Proof. by intros s s' w w' _. Qed.

Lemma alike_ret {A} (a : A) : alike (mret a).
Proof. by intros s s' w w' _. Qed.

Lemma alike_bind {A B} (m : M A) (f : A -> M B) : alike m -> (forall a, alike (f a)) -> alike (m ≫= f).
Proof.
  intros Hm Hf s s' w w' Hw. destruct (Hm s s' w w' Hw) as (Hout & Hmem & Hworld).
  destruct (Hm s' s' w' w' ltac:(reflexivity)) as (_ & Hmem' & Hworld').
  unfold mbind, Prog_bind. rewrite Hout, Hmem, Hworld, Hmem', Hworld'.
  destruct (run_out (m s w)) as [a|]; [|done]. cbn [run_out run_mem run_world]. by apply Hf.
Qed.

Lemma alike_get {B} kind key (f : result Resource -> M B) :
  (forall r, alike (f r)) -> (forall r r', Res_Data r = Res_Data r' -> f (Ok r) = f (Ok r')) ->
  alike (call (GetResource kind key) ≫= f).
Proof.
  intros Hf Heq s s' w w' Hw. assert (Hd := proj2 Hw kind key). unfold data_of, find_resource in Hd.
  unfold mbind, Prog_bind, call. simpl. unfold find_resource.
  destruct (List.find _ (cl_resources w)) as [r|], (List.find _ (cl_resources w')) as [r'|]; try done;
    cbn [run_out run_mem run_world]; [|by apply Hf].
  injection Hd as Hd. rewrite (Heq r' r Hd). by apply Hf.
Qed.

Lemma alike_imageset {B} name (f : result ClusterImageSet -> M B) :
  (forall r, alike (f r)) -> alike (call (GetClusterImageSet name) ≫= f).
Proof.
  intros Hf. apply alike_bind; [|done]. intros s s' w w' [Hi _]. unfold call. simpl. by rewrite Hi.
Qed.

Lemma alike_range {A B R} (l : list A) (b : B) (body : A -> B -> M (B + R)) :
  (forall x b, alike (body x b)) -> alike (for_range l b body).
Proof.
  intros Hb. revert b. induction l as [|x l IH]; intros b; [apply alike_ret|].
  apply alike_bind; [apply Hb|]. intros [b'|r]; [apply IH|apply alike_ret].
Qed.

Lemma alike_if_err {X A} (m : M (option X)) (h : X -> M A) k :
  alike m -> (forall x, alike (h x)) -> alike k -> alike (if_err m h k).
Proof. intros Hm Hh Hk. apply alike_bind; [done|]. by intros [x|]. Qed.

Lemma alike_errors {A X} (l : list A) (f : A -> M (option X)) :
  (forall x, alike (f x)) -> alike (for_errors l f).
Proof.
  intros Hf. induction l as [|x l IH]; [apply alike_ret|]. apply alike_if_err; [done| |done].
  intros e. apply alike_ret.
Qed.

Lemma alike_get_error kind key : alike (get_error kind key).
Proof. apply alike_get; [|done]. intros r. apply alike_ret. Qed.
End alike.

#[export] Hint Resolve alike_outcome alike_ret alike_bind alike_imageset alike_range alike_if_err alike_errors
  alike_get_error : sc.

Lemma alike_Validate ci : alike (Validate ci).
Proof.
  unfold Validate, validateResources, validateTemplateRefs, wrap.
  repeat first [case_goal | apply alike_if_err | apply alike_errors | apply alike_imageset; intros
    | apply alike_get_error | apply alike_ret | intros ?].
Qed.

Section rendering.
Context `{FloatText} `{TemplateLib} `{MapRange}.

Lemma alike_buildClusterData ci node : alike (buildClusterData ci node).
Proof.
  unfold buildClusterData. apply alike_bind; [apply alike_outcome|]. intros o. apply alike_imageset.
  intros [r|e]; apply alike_ret.
Qed.

Lemma alike_renderManifest ci node key template : alike (renderManifestFromTemplate ci node key template).
Proof.
  apply alike_bind; [apply alike_buildClusterData|]. intros [d|e]; [|apply alike_ret].
  destruct (render _ _ _) as [[m|]|e]; [apply alike_outcome|apply alike_ret..].
Qed.

Lemma alike_renderTemplates ci node : alike (renderTemplates ci node).
Proof.
  apply alike_range. intros ref objects. apply alike_get; [|by intros r r' ->].
  intros [cm|e]; [|apply alike_ret]. apply alike_range. intros kv objects'.
  apply alike_bind; [apply alike_renderManifest|]. intros r. apply alike_ret.
Qed.

Lemma alike_ProcessTemplates ci : alike (ProcessTemplates ci).
Proof.
  assert (Hc : forall node c, alike (renderAndCollect ci node c)).
  { intros node c. apply alike_bind; [apply alike_renderTemplates|]. intros r. apply alike_ret. }
  apply alike_bind; [apply Hc|]. intros [c|r]; [|apply alike_ret].
  apply alike_bind; [apply alike_range; intros; apply Hc|]. intros r. apply alike_ret.
Qed.

(** Both depend on the name and the spec only. *)
Definition same_source (ci ci' : ClusterInstance) : Prop := CI_Spec ci' = CI_Spec ci /\ CI_key ci' = CI_key ci.

Lemma ProcessTemplates_source ci ci' :
  same_source ci ci' -> ProcessTemplates (W := cluster) ci' = ProcessTemplates ci.
Proof.
  intros [Hspec Hkey]. unfold ProcessTemplates, renderAndCollect, renderTemplates, renderConfigMap,
    renderManifestFromTemplate, buildClusterData, object_from_manifest, appendAnnotationsAndLabels,
    getInstallConfigOverrides, getWorkloadPinningInstallConfigOverrides.
  by rewrite Hspec, Hkey.
Qed.
End rendering.

Lemma Validate_source ci ci' : same_source ci ci' -> Validate (W := cluster) ci' = Validate ci.
Proof.
  intros [Hspec Hkey]. assert (Hns : Meta_Namespace (CI_Meta ci') = Meta_Namespace (CI_Meta ci))
    by exact (f_equal Key_Namespace Hkey).
  unfold Validate, validateResources, validateTemplateRefs, ValidateClusterInstance, validateClusterInstanceJSONFields,
    validateControlPlaneAgentCount. by rewrite Hspec, Hns.
Qed.

(** ** The templates get their backup label *)

(** The template ConfigMaps of [ci]. *)
Definition template_refs (ci : ClusterInstance) : list Reference :=
  Spec_TemplateRefs (CI_Spec ci) ++ List.concat (List.map Node_TemplateRefs (Spec_Nodes (CI_Spec ci))).

Definition ref_key (ref : Reference) : ObjectKey := mkObjectKey (Ref_Namespace ref) (Ref_Name ref).

Lemma set_resource_data r cm w :
  find_resource (Res_Kind r) (Res_key r) w = Ok cm -> Res_Data r = Res_Data cm -> same_data w (set_resource r w).
Proof.
  intros Hcm Hd. split; [done|]. intros kind key. unfold data_of.
  set (p := fun x => (String.eqb (Res_Kind x) kind && bool_decide (Res_key x = key))%bool).
  set (f := fun x => if same_resource r x then r else x).
  assert (Hid : forall x, same_resource r x = true -> Res_Kind x = Res_Kind r /\ Res_key x = Res_key r).
  { intros x Hx. apply andb_prop in Hx as [H1%String.eqb_eq H2%bool_decide_eq_true]. done. }
  assert (Hfind : List.find p (List.map f (cl_resources w)) = f <$> List.find p (cl_resources w)).
  { induction (cl_resources w) as [|x l IH]; [done|]. cbn [List.map List.find].
    assert (Hp : p (f x) = p x).
    { unfold f. destruct (same_resource r x) eqn:Hx; [|done]. apply Hid in Hx as [H1 H2]. unfold p. by rewrite H1, H2. }
    rewrite Hp. by destruct (p x). }
  unfold find_resource. change (cl_resources (set_resource r w)) with (List.map f (cl_resources w)).
  fold p. rewrite Hfind. destruct (List.find p (cl_resources w)) as [x|] eqn:Hx; [|done]. simpl. unfold f.
  destruct (same_resource r x) eqn:Hs; [|done]. apply Hid in Hs as [H1 H2].
  apply find_some in Hx as Hpx. destruct Hpx as [_ Hpx]. apply andb_prop in Hpx as [H3%String.eqb_eq H4%bool_decide_eq_true].
  unfold find_resource in Hcm. assert (Hkind : Res_Kind r = kind) by congruence. assert (Hkey : Res_key r = key) by congruence.
  rewrite Hkind, Hkey in Hcm. fold p in Hcm. rewrite Hx in Hcm. congruence.
Qed.

Section labels.
Abbreviation M := (Prog ClusterInstance cluster Event).

(** The data of the hub and the stored ClusterInstance are as in [w0]. *)
Definition unchanged (w0 w : cluster) : Prop := same_data w0 w /\ cl_ci w = cl_ci w0.

#[export] Instance unchanged_preorder : PreOrder unchanged.
Proof.
  split; [by split|]. intros w1 w2 w3 [H1 H2] [H3 H4]. split; [by etransitivity|congruence].
Qed.

Lemma applyDRLabel_hub ns ref s w :
  is_Some (data_of "ConfigMap" (ref_key ref) w) ->
  wp (applyDRLabel ns ref : M _) (fun o s' w' _ => o = Ret None /\ s' = s /\ unchanged w w') s w.
Proof.
  intros Hfound. unfold applyDRLabel. case_goal; [by apply wp_ret|]. apply wp_bind, wp_call.
  intros r w1 [= <- <-]. fold (ref_key ref). unfold data_of in Hfound.
  destruct (find_resource "ConfigMap" (ref_key ref) w) as [cm|] eqn:Hcm; [|by destruct Hfound].
  case_goal; [by apply wp_ret|]. apply wp_bind, wp_call. intros r w2 Hr.
  assert (Hid : Res_Kind cm = "ConfigMap" /\ Res_key cm = ref_key ref).
  { unfold find_resource in Hcm. destruct (List.find _ _) as [x|] eqn:Hx; [|done]. injection Hcm as ->.
    apply find_some in Hx as [_ Hx]. apply andb_prop in Hx as [H1%String.eqb_eq H2%bool_decide_eq_true]. done. }
  destruct Hid as [Hkind Hkey]. set (new := set_label acmBackupLabel acmBackupLabelValue cm) in *.
  assert (Hnew : find_resource (Res_Kind new) (Res_key new) w = Ok cm).
  { change (find_resource (Res_Kind cm) (Res_key cm) w = Ok cm). by rewrite Hkind, Hkey. }
  simpl in Hr. change (Res_Kind cm) with (Res_Kind new) in Hr. rewrite Hnew in Hr. injection Hr as <- <-.
  apply wp_ret. split_and!; try done. split; [|done]. by eapply set_resource_data.
Qed.

Lemma labels_hub {A} (l : list A) (f : A -> M (option error)) s w0 w :
  (forall x s w, x ∈ l -> unchanged w0 w -> wp (f x) (fun o s' w' _ => o = Ret None /\ s' = s /\ unchanged w w') s w) ->
  unchanged w0 w ->
  wp (for_errors l f) (fun o s' w' _ => o = Ret None /\ s' = s /\ unchanged w w') s w.
Proof.
  intros Hf Hw. revert w Hw. induction l as [|x l IH]; intros w Hw; [by apply wp_ret|].
  cbn [for_errors]. apply wp_if_err. eapply wp_mono; [apply (Hf x); [by left|done]|].
  intros o s' w1 ev (-> & -> & Hw1). eapply wp_mono; [apply IH; [intros; apply Hf; [by right|done]|by etransitivity]|].
  intros o s' w2 ev' (-> & -> & Hw2). split_and!; try done. by etransitivity.
Qed.

Lemma templates_labelled ns ci w :
  (forall ref, ref ∈ template_refs ci -> is_Some (data_of "ConfigMap" (ref_key ref) w)) ->
  wp (applyACMBackupLabelToInstallTemplates ns : M _) (fun o s' w' _ => o = Ret None /\ s' = ci /\ unchanged w w') ci w.
Proof.
  intros Hfound. unfold applyACMBackupLabelToInstallTemplates. apply wp_bind, wp_get, wp_if_err.
  assert (Hone : forall ref s' w', ref ∈ template_refs ci -> unchanged w w' ->
    wp (applyDRLabel ns ref : M _) (fun o s'' w'' _ => o = Ret None /\ s'' = s' /\ unchanged w' w'') s' w').
  { intros ref s' w' Hin Hw. apply applyDRLabel_hub. rewrite (proj2 (proj1 Hw)). by apply Hfound. }
  eapply wp_mono.
  { apply (labels_hub _ _ _ w); [|reflexivity]. intros ref s' w' Hin. apply Hone. apply elem_of_app. by left. }
  intros o s' w1 ev (-> & -> & Hw1). eapply wp_mono.
  { apply (labels_hub _ _ _ w); [|done]. intros node s' w' Hn Hw'. apply (labels_hub _ _ _ w); [|done].
    intros ref s'' w'' Hin. apply Hone. apply elem_of_app. right. apply list_elem_of_In, in_concat.
    exists (Node_TemplateRefs node). split; [by apply in_map, list_elem_of_In|by apply list_elem_of_In]. }
  intros o s' w2 ev' (-> & -> & Hw2). split_and!; try done. by etransitivity.
Qed.
End labels.

(** ** The steps of an installation *)

(** Everything that is collected has a wave that can be read. *)
Definition collected (c : RenderedObjectCollection) : Prop :=
  collection_wf c /\ Forall (fun o => storable o = true) (flat (ROC_prune c) ++ flat (ROC_suppress c) ++ flat (ROC_render c)).

Lemma storable_listing (ws : list Z) (s : SyncWaveMap) :
  Forall (fun o => storable o = true) (flat s) -> ws ≡ₚ waves s -> Forall (fun o => storable o = true) (listing s ws).
Proof. intros Hs Hp. by rewrite (listing_perm s ws Hp). Qed.

Lemma collected_all c :
  collected c -> Forall (fun o => storable o = true) (GetPruneObjects c)
  /\ Forall (fun o => storable o = true) (GetSuppressObjects c)
  /\ Forall (fun o => storable o = true) (GetRenderObjects c).
Proof.
  intros [_ (Hp & [Hs Hr]%Forall_app)%Forall_app].
  split_and!; (apply storable_listing; [done|apply SortSlice_perm]).
Qed.

Lemma collected_add c objects : collected c -> collected (Collection_AddObjects c objects).1.
Proof.
  intros [Hwf Hall]. unfold Collection_AddObjects. destruct (add_all _ _ c objects) as [c' errs] eqn:Ha. simpl.
  apply add_all_spec in Ha as (Hwf' & Hp & Hs & Hr); [|done]. split; [done|]. rewrite Hp, Hs, Hr.
  rewrite !Forall_app in Hall. destruct Hall as (H1 & H2 & H3).
  assert (Hf : forall a, Forall (fun o => storable o = true) (List.filter (with_action a) objects)).
  { intros a. apply Forall_forall. intros o Ho. apply list_elem_of_In, filter_In in Ho as [_ Ho].
    by apply andb_prop in Ho as [_ Ho]. }
  auto 10 using Forall_app_2.
Qed.

Section steps.
Context `{FloatText} `{TemplateLib} `{MapRange}.

Abbreviation M := (Prog ClusterInstance cluster Event).

Lemma ProcessTemplates_collected ci s w :
  wp (ProcessTemplates ci : M _) (fun o _ _ _ => match o with Ret (c, _) => collected c | Panic _ => True end) s w.
Proof.
  assert (Hc : forall node c s w, collected c ->
    wp (renderAndCollect ci node c : M _) (fun o _ _ _ =>
      match o with Ret (inl c') => collected c' | Ret (inr (c', _)) => collected c' | Panic _ => True end) s w).
  { intros node c s' w' Hcc. unfold renderAndCollect. apply wp_bind, wp_any. intros [[objs|e]|msg] s1 w1 ev; try done.
    apply wp_ret. pose proof (collected_add c objs Hcc) as Ha. by destruct (Collection_AddObjects c objs) as [c' [e|]]. }
  unfold ProcessTemplates. apply wp_bind. eapply wp_mono.
  { apply Hc. split; [by split_and!; apply map_Forall_empty|]. exact (Forall_nil_2 _). }
  intros [[c|[c e]]|msg] s1 w1 ev Hcc; [|by apply wp_ret|done]. apply wp_bind. eapply wp_mono.
  { apply (wp_for _ _ _ (fun _ c _ _ _ => collected c) (fun r _ _ _ => collected r.1) (fun _ _ _ => True)); [done|].
    intros dn node rest c' s2 w2 ev2 _ Hc'. eapply wp_mono; [by apply Hc|].
    by intros [[c2|[c2 e2]]|msg] s3 w3 ev3. }
  intros [[c'|[c' e']]|msg] s2 w2 ev2 Hc'; [by apply wp_ret..|done].
Qed.

Lemma wp_alike {A} (m : M A) a s0 w0 s w :
  alike m -> run_out (m s0 w0) = Ret a -> same_data w0 w ->
  wp m (fun o s' w' _ => o = Ret a /\ s' = s /\ w' = w) s w.
Proof.
  intros Hm Ha Hw. unfold wp. destruct (Hm s0 s w0 w Hw) as (Hout & _).
  destruct (Hm s s w w ltac:(reflexivity)) as (_ & Hmem & Hworld). split_and!; [congruence|done|done].
Qed.

(** The hub stores [s], and its data are those of [w0]. *)
Definition stored (w0 : cluster) (s : ClusterInstance) (w : cluster) : Prop :=
  cl_ci w = Some s /\ same_data w0 w.

(** What a step leaves as it is. *)
Definition kept (s s' : ClusterInstance) : Prop :=
  CI_Spec s' = CI_Spec s /\ CI_Meta s' = CI_Meta s
  /\ Status_ObservedGeneration (CI_Status s') = Status_ObservedGeneration (CI_Status s)
  /\ Status_Reinstall (CI_Status s') = Status_Reinstall (CI_Status s)
  /\ Status_Paused (CI_Status s') = Status_Paused (CI_Status s).

#[export] Instance kept_preorder : PreOrder kept.
Proof.
  split; [done|]. intros s1 s2 s3 (?&?&?&?&?) (?&?&?&?&?). by split_and!; etransitivity.
Qed.

Lemma kept_source s s' : kept s s' -> same_source s s'.
Proof. intros (Hs & Hm & _). split; [done|]. unfold CI_key. by rewrite Hm. Qed.

Context (w0 : cluster).

Lemma stored_patch s s' w : stored w0 s w -> stored w0 s' (with_ci s' w).
Proof. intros [_ Hd]. by split. Qed.

Lemma record_condition_hub t r st m s w :
  stored w0 s w ->
  wp (record_condition t r st m None : M _) (fun o s' w' _ => o = Ret None /\ kept s s'
    /\ Status_ManifestsRendered (CI_Status s') = Status_ManifestsRendered (CI_Status s) /\ stored w0 s' w') s w.
Proof.
  intros Hw. unfold record_condition. apply wp_bind, wp_get, wp_bind, wp_Now. intros now w1 [= <- <-].
  apply wp_bind, wp_modify, wp_bind. eapply wp_mono; [apply PatchCIStatus_hub|].
  intros o s' w' ev (-> & -> & ->). apply wp_ret. split_and!; try done. by eapply stored_patch.
Qed.

(** A condition with a status and a reason. *)
Definition says (s : ClusterInstance) (conditionType status reason : string) : Prop :=
  exists c, FindStatusCondition (Status_Conditions (CI_Status s)) conditionType = Some c
    /\ Cond_Status c = status /\ Cond_Reason c = reason.

Lemma record_manifests_hub ms t r st m s w :
  stored w0 s w ->
  wp (record_manifests ms t r st m None : M _) (fun o s' w' _ => o = Ret None /\ kept s s'
    /\ Status_ManifestsRendered (CI_Status s') = ms /\ says s' t st r /\ stored w0 s' w') s w.
Proof.
  intros Hw. unfold record_manifests. apply wp_bind, wp_get, wp_bind, wp_modify, wp_bind, wp_Now. intros now w1 [= <- <-].
  apply wp_bind, wp_modify, wp_bind. eapply wp_mono; [apply PatchCIStatus_hub|].
  intros o s' w' ev (-> & -> & ->). apply wp_ret. split_and!; try done; [|by eapply stored_patch].
  unfold says. simpl. unfold SetStatusCondition.
  set (new := mkCondition t st 0 (cl_now w) r m). set (base := match _ with Some _ => _ | None => _ end).
  destruct (find_set (cl_now w) base new t) as [lt Hf]. simpl in Hf. rewrite String.eqb_refl in Hf.
  by eexists.
Qed.

Lemma handleValidate_hub s s0 w :
  run_out (Validate s0 s0 w0) = Ret None -> same_source s0 s -> stored w0 s w ->
  wp (handleValidate : M _) (fun o s' w' _ => o = Ret None /\ kept s s'
    /\ Status_ManifestsRendered (CI_Status s') = Status_ManifestsRendered (CI_Status s) /\ stored w0 s' w') s w.
Proof.
  intros Hval Hsrc Hw. unfold handleValidate. apply wp_bind, wp_get, wp_bind. rewrite (Validate_source s0 s Hsrc).
  eapply wp_mono; [apply (wp_alike _ _ _ _ _ _ (alike_Validate s0) Hval (proj2 Hw))|].
  intros o s' w' ev (-> & -> & ->). eapply wp_mono; [by apply record_condition_hub|]. done.
Qed.

Lemma renderManifests_hub s s0 c w :
  run_out (ProcessTemplates s0 s0 w0) = Ret (c, None) -> same_source s0 s -> stored w0 s w ->
  wp (renderManifests : M _) (fun o s' w' _ => o = Ret (c, None) /\ kept s s'
    /\ Status_ManifestsRendered (CI_Status s') = Status_ManifestsRendered (CI_Status s) /\ stored w0 s' w') s w.
Proof.
  intros Hren Hsrc Hw. unfold renderManifests. apply wp_bind, wp_get, wp_bind. rewrite (ProcessTemplates_source s0 s Hsrc).
  eapply wp_mono; [apply (wp_alike _ _ _ _ _ _ (alike_ProcessTemplates s0) Hren (proj2 Hw))|].
  intros o s' w' ev (-> & -> & ->). apply wp_bind. eapply wp_mono; [by apply record_condition_hub|].
  intros o s' w' ev' (-> & Hk & Hm & Hw'). by apply wp_ret.
Qed.

(** ** Pruning, suppressing and applying *)

(** Nothing is tracked yet: pruning has nothing to do. *)
Lemma pruneManifests_hub objects s w :
  Status_ManifestsRendered (CI_Status s) = [] ->
  wp (pruneManifests objects : M _) (fun o s' w' _ => o = Ret (true, None) /\ s' = s /\ w' = w) s w.
Proof.
  intros Hms. unfold pruneManifests. destruct objects as [|o0 os] eqn:Hobj; [by apply wp_ret|]. rewrite <-Hobj.
  apply wp_bind. eapply wp_mono with (Q := fun o s' w' _ => o = Ret (true, None) /\ s' = s /\ w' = w).
  2: { intros o s' w' ev (-> & -> & ->). by apply wp_ret. }
  clear Hobj o0 os. unfold DeleteObjects. apply wp_bind, wp_get, wp_bind. rewrite Hms.
  set (start := mkDeletionState [] [] []).
  eapply wp_mono.
  { apply (wp_for _ _ _ (fun _ st s' w' _ => st = start /\ s' = s /\ w' = w) (fun _ _ _ _ => False) (fun _ _ _ => False)); [done|].
    intros waves wave rest st s' w' ev _ (-> & -> & ->). unfold deleteWave. apply wp_bind. eapply wp_mono.
    { apply (wp_for _ _ _ (fun _ b s' w' _ => b = (start, true) /\ s' = s /\ w' = w) (fun _ _ _ _ => False)
        (fun _ _ _ => False)); [done|].
      intros seen o rest' b s1 w1 ev1 Hl (-> & -> & ->).
      destruct (wave_objects cluster_errors_plain objects wave o) as (_ & Hsto & _); [rewrite Hl; set_solver|].
      unfold deleteOne. simpl. apply wp_bind, wp_Now. intros now w2 [= <- <-].
      destruct (storable_reference (cl_now w) o Hsto) as [ref ->]. by apply wp_ret. }
    intros [[b|]|] s1 w1 ev1; try done. intros (-> & -> & ->). by apply wp_ret. }
  intros [[st|]|] s1 w1 ev1; try done. intros (-> & -> & ->). apply wp_bind. unfold finishDeletion.
  apply wp_bind, wp_get. cbn [start ds_rendered ds_deleted ds_errs filterOutDeletedManifests List.filter].
  rewrite Hms, bool_decide_true by done. apply wp_ret. by apply wp_ret.
Qed.

Lemma suppressed_hub objects s w :
  Forall (fun o => storable o = true) objects -> stored w0 s w ->
  wp (updateSuppressedManifestsStatus objects : M _) (fun o s' w' _ => o = Ret None /\ kept s s' /\ stored w0 s' w') s w.
Proof.
  intros Hsto Hw. unfold updateSuppressedManifestsStatus. apply wp_bind, wp_get, wp_bind. eapply wp_mono.
  { apply (wp_for _ _ _ (fun _ _ s' w' _ => s' = s /\ w' = w) (fun f _ _ _ => match f : False with end) (fun _ _ _ => False)); [done|].
    intros seen o rest ms s' w' ev Hl (-> & ->). unfold suppressOne. apply wp_bind, wp_Now. intros now w1 [= <- <-].
    destruct (storable_reference (cl_now w) o) as [ref ->].
    { rewrite Forall_forall in Hsto. apply Hsto. rewrite Hl. set_solver. }
    apply wp_bind, wp_Now. intros now w1 [= <- <-]. by apply wp_ret. }
  intros [[ms|[]]|] s' w' ev; [|done]. intros (-> & ->). case_goal; [by apply wp_ret|].
  apply wp_bind, wp_modify, wp_if_err. eapply wp_mono; [apply PatchCIStatus_hub|].
  intros o s' w' ev' (-> & -> & ->). apply wp_ret. split_and!; try done. by eapply stored_patch.
Qed.

(** The status says that the manifest of [o] is [status]. *)
Definition tracked_as (status : string) (ms : list ManifestReference) (o : RenderedObject) : Prop :=
  exists m, m ∈ ms /\ MRef_identity m = mid o /\ MRef_Status m = status.

Lemma upsert_tracked now ref ms o :
  MRef_identity ref = mid o -> tracked_as (MRef_Status ref) (upsertManifest now ref ms) o.
Proof.
  intros Hid. unfold upsertManifest. destruct (IndexOfManifestByIdentity ref ms) as [i|e] eqn:Hi.
  - apply IndexOfManifestByIdentity_Ok in Hi as (m & Hm & Hm').
    exists (ManifestReference_UpdateStatus now (MRef_Status ref) (MRef_Message ref) m).
    split; [|by rewrite UpdateStatus_identity, UpdateStatus_status, Hm', Hid].
    apply list_elem_of_lookup. exists i. by rewrite list_lookup_alter_eq, Hm.
  - exists ref. split; [|done]. apply elem_of_app. right. by left.
Qed.

Lemma upsert_keeps now ref ms o : tracked_as (MRef_Status ref) ms o -> tracked_as (MRef_Status ref) (upsertManifest now ref ms) o.
Proof.
  intros (m & Hm & Hid & Hst). unfold upsertManifest. destruct (IndexOfManifestByIdentity ref ms) as [i|e].
  - apply list_elem_of_lookup in Hm as [j Hj]. destruct (decide (j = i)) as [->|Hne].
    + exists (ManifestReference_UpdateStatus now (MRef_Status ref) (MRef_Message ref) m).
      split; [|by rewrite UpdateStatus_identity, UpdateStatus_status].
      apply list_elem_of_lookup. exists i. by rewrite list_lookup_alter_eq, Hj.
    + exists m. split; [|done]. apply list_elem_of_lookup. exists j. by rewrite list_lookup_alter_ne.
  - exists m. split; [|done]. apply elem_of_app. by left.
Qed.

Definition apply_all (dryRun : bool) (objects : list RenderedObject) (ev : list Event) : Prop :=
  forall o, o ∈ objects -> Ev (ObjApply dryRun (object_text o)) (None : option error) ∈ ev.

Lemma execute_hub dryRun objects status s w :
  Forall (fun o => storable o = true) objects ->
  wp (executeRenderedManifests dryRun objects status : M _) (fun out s' w' ev => s' = s /\ w' = w
    /\ apply_all dryRun objects ev
    /\ exists ms, out = Ret (ms, true, None) /\ forall o, o ∈ objects -> tracked_as status ms o) s w.
Proof.
  intros Hsto. unfold executeRenderedManifests. apply wp_bind, wp_get, wp_bind. eapply wp_mono.
  { apply (wp_for _ _ _ (fun dn b s' w' ev => s' = s /\ w' = w /\ apply_all dryRun dn ev /\ b.2 = []
      /\ forall o, o ∈ dn -> tracked_as status b.1 o) (fun f _ _ _ => match f : False with end) (fun _ _ _ => False)).
    { split_and!; try done; by intros o Ho%not_elem_of_nil. }
    intros dn o rest [ms errs] s' w' ev Hl (-> & -> & Happ & Herrs & Hms). simpl in Herrs, Hms. subst errs.
    unfold executeOne, applyObject. apply wp_bind, wp_Now. intros now w1 [= <- <-].
    apply wp_bind, wp_bind, wp_call. intros r w1 [= <- <-]. apply wp_ret.
    destruct (storable_reference (cl_now w) o) as [ref Href].
    { rewrite Forall_forall in Hsto. apply Hsto. rewrite Hl. set_solver. }
    rewrite Href. apply MRef_of_object in Href. apply wp_bind, wp_Now. intros now w1 [= <- <-].
    apply wp_bind, wp_Now. intros now w1 [= <- <-]. apply wp_ret. cbn [fst snd].
    set (ref' := ManifestReference_UpdateStatus (cl_now w) status "" ref).
    assert (Hst : MRef_Status ref' = status) by apply UpdateStatus_status.
    split_and!; try done.
    - intros o' [Ho| ->%list_elem_of_singleton]%elem_of_app; rewrite !elem_of_app; [left; by apply Happ|].
      rewrite list_elem_of_singleton. tauto.
    - rewrite <-Hst. intros o' [Ho| ->%list_elem_of_singleton]%elem_of_app; simpl.
      + apply upsert_keeps. rewrite Hst. by apply Hms.
      + apply upsert_tracked. unfold ref'. by rewrite UpdateStatus_identity. }
  intros [[[ms errs]|[]]|] s' w' ev; [|done]. intros (-> & -> & Happ & Herrs & Hms). simpl in Herrs, Hms. subst errs.
  apply wp_ret. split_and!; try done; [|by exists ms]. intros o Ho. rewrite app_nil_r. by apply Happ.
Qed.

Lemma handleRenderTemplates_hub s s0 c w :
  run_out (ProcessTemplates s0 s0 w0) = Ret (c, None) -> same_source s0 s -> stored w0 s w ->
  Status_ManifestsRendered (CI_Status s) = [] ->
  wp (handleRenderTemplates : M _) (fun o s' w' ev => o = Ret (true, None) /\ kept s s' /\ stored w0 s' w'
    /\ apply_all false (GetRenderObjects c) ev
    /\ (forall o, o ∈ GetRenderObjects c -> tracked_as ManifestRenderedSuccess (Status_ManifestsRendered (CI_Status s')) o)
    /\ says s' RenderedTemplatesApplied ConditionTrue Completed) s w.
Proof.
  intros Hren Hsrc Hw Hms.
  assert (Hc : collected c).
  { pose proof (ProcessTemplates_collected s0 s0 w0) as Hp. unfold wp in Hp. by rewrite Hren in Hp. }
  destruct (collected_all c Hc) as (_ & Hsup & Hrend).
  unfold handleRenderTemplates. apply wp_bind. eapply wp_mono; [by eapply renderManifests_hub|].
  intros o s1 w1 ev (-> & Hk1 & Hms1 & Hw1). rewrite Hms in Hms1. apply wp_bind.
  eapply wp_mono; [by apply pruneManifests_hub|]. intros o s2 w2 ev2 (-> & -> & ->). cbn [negb orb].
  change (bool_decide (is_Some (None : option error))) with false. cbn [orb]. apply wp_if_err. eapply wp_mono; [by apply suppressed_hub|].
  intros o s2 w2 ev3 (-> & Hk2 & Hw2). apply wp_bind. unfold validateRenderedManifests. apply wp_bind.
  eapply wp_mono; [by apply execute_hub|]. intros o s3 w3 ev4 (-> & -> & _ & ms & -> & _). cbn [negb]. apply wp_bind.
  eapply wp_mono; [by apply record_manifests_hub|]. intros o s3 w3 ev5 (-> & Hk3 & _ & _ & Hw3). apply wp_ret. cbn [negb orb].
  change (bool_decide (is_Some (None : option error))) with false. cbn [orb]. unfold applyRenderedManifests. apply wp_bind.
  eapply wp_mono; [by apply execute_hub|]. intros o s4 w4 ev6 (-> & -> & Happ & ms' & -> & Htr). cbn [negb].
  change (bool_decide (is_Some (None : option error))) with false. cbn [orb]. apply wp_bind.
  eapply wp_mono; [by apply record_manifests_hub|]. intros o s4 w4 ev7 (-> & Hk4 & Hms4 & Hsays & Hw4). apply wp_ret.
  split_and!; try done.
  - by rewrite Hk1, Hk2, Hk3.
  - intros o Ho. rewrite !elem_of_app. specialize (Happ o Ho). tauto.
  - by rewrite Hms4.
Qed.

(** The spec and the generation that have been applied are recorded. *)
Definition observed (s : ClusterInstance) : ClusterInstance :=
  SetMetaDataAnnotation LastClusterInstanceSpecAnnotation (Marshal (marshal_Spec (CI_Spec s))) s
    <| CI_Status ::= fun st => st <| Status_ObservedGeneration := Meta_Generation (CI_Meta s) |> |>.

Lemma updateObservedStatus_hub `{SpecText} s w :
  Meta_Annotations (CI_Meta s) !! LastClusterInstanceSpecAnnotation = None -> stored w0 s w ->
  wp (updateObservedStatus : M _) (fun o s' w' _ => o = Ret None /\ s' = observed s /\ stored w0 s' w') s w.
Proof.
  intros Hlast Hw. unfold updateObservedStatus. apply wp_bind, wp_get. rewrite Hlast. apply wp_if_err.
  unfold recordSpec. apply wp_bind, wp_get. unfold observed.
  generalize (Marshal (marshal_Spec (CI_Spec s))) as text. intros text. apply wp_bind, wp_modify, wp_if_err. unfold patchCI.
  apply wp_bind, wp_get, wp_bind, wp_call. intros r w1 [= <- <-]. apply wp_bind, wp_modify, wp_ret.
  apply wp_bind, wp_get, wp_if_err. unfold fetchCI. apply wp_bind, wp_call. intros r w1 Hr. simpl in Hr.
  rewrite bool_decide_true in Hr by done. injection Hr as <- <-. apply wp_bind, wp_modify, wp_ret, wp_ret.
  unfold recordGeneration. apply wp_bind, wp_get, wp_bind, wp_modify, wp_if_err.
  eapply wp_mono; [apply PatchCIStatus_hub|]. intros o s' w' ev (-> & -> & ->). apply wp_ret. split_and!; try done.
  by destruct Hw.
Qed.

(** ** A reconcile of a new ClusterInstance *)

(** Neither deleted, paused nor restored; nothing of it has been applied. *)
Definition fresh (ci : ClusterInstance) : Prop :=
  deletion_time_is_zero ci = true /\ ClusterInstance_IsPaused ci = false /\ Status_Paused (CI_Status ci) = None
  /\ isBeingRestored ci = false /\ Spec_Reinstall (CI_Spec ci) = None /\ Status_Reinstall (CI_Status ci) = None
  /\ Status_ObservedGeneration (CI_Status ci) <> Meta_Generation (CI_Meta ci)
  /\ Status_ManifestsRendered (CI_Status ci) = []
  /\ Meta_Annotations (CI_Meta ci) !! LastClusterInstanceSpecAnnotation = None.

Definition is_marked (ci : ClusterInstance) : bool :=
  String.eqb (lookup_str veleroRestoreStatusAnnotation (Meta_Annotations (CI_Meta ci))) "true".

(** What has to be recorded before the manifests are applied. *)
Definition left_to_mark (ci : ClusterInstance) : nat :=
  (if ContainsFinalizer ci clusterInstanceFinalizer then 0 else 1) + (if is_marked ci then 0 else 1).

(** The manifests of [c] have been applied for [ci], and its status says so. *)
Definition installed (ci : ClusterInstance) (c : RenderedObjectCollection) (ci' : ClusterInstance) : Prop :=
  CI_Spec ci' = CI_Spec ci /\ Meta_Generation (CI_Meta ci') = Meta_Generation (CI_Meta ci)
  /\ Status_ObservedGeneration (CI_Status ci') = Meta_Generation (CI_Meta ci)
  /\ ContainsFinalizer ci' clusterInstanceFinalizer = true
  /\ (forall o, o ∈ GetRenderObjects c -> tracked_as ManifestRenderedSuccess (Status_ManifestsRendered (CI_Status ci')) o)
  /\ says ci' RenderedTemplatesApplied ConditionTrue Completed.

Lemma installed_observed ci c s :
  kept ci s -> ContainsFinalizer ci clusterInstanceFinalizer = true ->
  (forall o, o ∈ GetRenderObjects c -> tracked_as ManifestRenderedSuccess (Status_ManifestsRendered (CI_Status s)) o) ->
  says s RenderedTemplatesApplied ConditionTrue Completed -> installed ci c (observed s).
Proof.
  intros (Hspec & Hmeta & _) Hfin Htr Hsays. unfold installed, observed, ContainsFinalizer.
  generalize (Marshal (marshal_Spec (CI_Spec s))) as text. intros text. simpl. rewrite Hspec, Hmeta. by split_and!.
Qed.

Context `{ResourceYaml} `{TimeText} `{SpecText}.
Context (s0 : ClusterInstance) (c : RenderedObjectCollection).
Context (Hvalid : run_out (Validate s0 s0 w0) = Ret None) (Hrender : run_out (ProcessTemplates s0 s0 w0) = Ret (c, None)).
Context (Hrefs : forall ref, ref ∈ template_refs s0 -> is_Some (data_of "ConfigMap" (ref_key ref) w0)).

(** A reconcile that has to come back, or the installation. *)
Definition advanced (ci : ClusterInstance) (o : outcome (Result * option error)) (w' : cluster) (ev : list Event) : Prop :=
  (o = Ret (mkResult true 0, None) /\ exists ci', stored w0 ci' w' /\ fresh ci' /\ same_source ci ci'
     /\ Meta_Generation (CI_Meta ci') = Meta_Generation (CI_Meta ci) /\ left_to_mark ci' < left_to_mark ci)
  \/ (o = Ret (doNotRequeue, None) /\ apply_all false (GetRenderObjects c) ev
      /\ exists s1, kept ci s1 /\ stored w0 (observed s1) w' /\ installed ci c (observed s1) /\ is_marked ci = true).

Lemma provision_hub ci s w :
  kept ci s -> fresh ci -> Status_ManifestsRendered (CI_Status s) = [] -> same_source s0 ci -> stored w0 s w ->
  ContainsFinalizer ci clusterInstanceFinalizer = true -> is_marked ci = true ->
  wp (provision : M _) (fun o _ w' ev => advanced ci o w' ev) s w.
Proof.
  intros Hk0 Hfresh Hms Hsrc Hw Hfin Hmark. unfold provision. apply wp_if_err.
  assert (Hsrc' : same_source s0 s) by (destruct Hsrc, (kept_source _ _ Hk0); split; congruence).
  eapply wp_mono; [by eapply handleValidate_hub|]. intros o s1 w1 ev (-> & Hk1 & Hms1 & Hw1). rewrite Hms in Hms1.
  assert (Hsrc1 : same_source s0 s1) by (destruct Hsrc', (kept_source _ _ Hk1); split; congruence).
  apply wp_bind. eapply wp_mono; [by eapply handleRenderTemplates_hub|].
  intros o s2 w2 ev2 (-> & Hk2 & Hw2 & Happ & Htr & Hsays). cbn [negb]. apply wp_bind, wp_get.
  assert (Hk : kept ci s2) by by rewrite Hk0, Hk1. assert (Hk' := Hk). destruct Hk' as (Hspec & Hmeta & Hgen & _).
  destruct Hfresh as (_ & _ & _ & _ & _ & _ & Hobs & _ & Hlast). rewrite Hgen, Hmeta.
  destruct (Z.eqb_spec (Status_ObservedGeneration (CI_Status ci)) (Meta_Generation (CI_Meta ci))) as [|_]; [done|].
  apply wp_if_err. eapply wp_mono; [apply updateObservedStatus_hub; [by rewrite Hmeta|done]|].
  intros o s3 w3 ev3 (-> & -> & Hw3). apply wp_ret. right. split; [done|]. split.
  { intros o Ho. rewrite !elem_of_app. specialize (Happ o Ho). tauto. }
  exists s2. split; [exact Hk|]. split; [exact Hw3|]. split; [by apply installed_observed|exact Hmark].
Qed.

Lemma fresh_finalizer ci : fresh ci -> fresh (AddFinalizer clusterInstanceFinalizer ci).
Proof. unfold AddFinalizer. by destruct (ContainsFinalizer ci clusterInstanceFinalizer). Qed.

Lemma fresh_marked ci : fresh ci -> fresh (SetMetaDataAnnotation veleroRestoreStatusAnnotation "true" ci).
Proof.
  intros (H1' & H2' & H3' & H4' & H5' & H6' & H7' & H8' & H9').
  unfold fresh, ClusterInstance_IsPaused, isBeingRestored, lookup_str, SetMetaDataAnnotation in *. simpl.
  rewrite !lookup_insert_ne by done. by split_and!.
Qed.

Lemma Finalizer_added ci f : ContainsFinalizer (AddFinalizer f ci) f = true.
Proof.
  unfold AddFinalizer. destruct (ContainsFinalizer ci f) eqn:Hc; [done|]. unfold ContainsFinalizer. simpl.
  apply bool_decide_eq_true, elem_of_app. right. by left.
Qed.

Lemma patchCI_hub old s w :
  stored w0 old w -> wp (patchCI old : M _) (fun o s' w' _ => o = Ret None /\ s' = s /\ stored w0 s w') s w.
Proof.
  intros Hw. unfold patchCI. apply wp_bind, wp_get, wp_bind, wp_call. intros r w1 [= <- <-].
  apply wp_bind, wp_modify, wp_ret. split_and!; try done. by destruct Hw.
Qed.

Lemma generation_hub ns store ci w :
  fresh ci -> same_source s0 ci -> stored w0 ci w ->
  ContainsFinalizer ci clusterInstanceFinalizer = true -> is_marked ci = true ->
  wp (reconcile_running ns store : M _) (fun o _ w' ev => advanced ci o w' ev) ci w.
Proof.
  intros Hfresh Hsrc Hw Hfin Hmark. assert (Hf := Hfresh).
  destruct Hf as (_ & _ & _ & _ & Hre & Hrs & Hobs & Hms & _).
  unfold reconcile_running. apply wp_bind, wp_get. rewrite Hrs. apply wp_bind, wp_ret. cbv beta iota.
  apply wp_bind, wp_get. destruct (Z.eqb_spec (Status_ObservedGeneration (CI_Status ci)) (Meta_Generation (CI_Meta ci))) as [|_]; [done|].
  unfold reconcile_generation. apply wp_if_err. eapply wp_mono.
  { apply templates_labelled. intros ref Hin. rewrite (proj2 (proj2 Hw)). apply Hrefs.
    unfold template_refs in Hin. by rewrite (proj1 Hsrc) in Hin. }
  intros o s1 w1 ev (-> & -> & [Hd Hci]). apply wp_bind, wp_get. rewrite Hre.
  eapply wp_mono; [apply (provision_hub ci); try done|].
  - split; [by rewrite Hci; apply Hw|]. etransitivity; [apply Hw|exact Hd].
  - intros o s2 w2 ev2 [(-> & ci' & Hci')|(-> & Happ & Hrest)]; [left; split; [done|by exists ci']|].
    right. split; [done|]. split; [|exact Hrest]. intros o Ho. rewrite !elem_of_app. specialize (Happ o Ho). tauto.
Qed.

Lemma advanced_incl ci o w ev ev' : (forall e, e ∈ ev -> e ∈ ev') -> advanced ci o w ev -> advanced ci o w ev'.
Proof.
  intros Hsub [Hback|(Ho & Happ & Hrest)]; [by left|]. right. split; [done|]. split; [|done].
  intros x Hx. by apply Hsub, Happ.
Qed.

Lemma loaded_hub ns store ci w :
  fresh ci -> same_source s0 ci -> stored w0 ci w ->
  wp (reconcile_loaded ns store : M _) (fun o _ w' ev => advanced ci o w' ev) ci w.
Proof.
  intros Hfresh Hsrc Hw. assert (Hf := Hfresh). destruct Hf as (Hdel & Hpause & Hpaused & Hrest & _).
  unfold reconcile_loaded. apply wp_bind, wp_get. rewrite Hpause, Hpaused.
  unfold unless_done at 1. apply wp_bind. unfold handleFinalizer. apply wp_bind, wp_get. rewrite Hdel.
  unfold ensureFinalizer. apply wp_bind, wp_get. destruct (ContainsFinalizer ci clusterInstanceFinalizer) eqn:Hfin.
  2:{ apply wp_bind, wp_modify, wp_if_err. eapply wp_mono; [by apply patchCI_hub|].
      intros o s1 w1 ev (-> & -> & Hw1). apply wp_ret, wp_ret. left. split; [done|].
      eexists. split; [exact Hw1|]. split; [by apply fresh_finalizer|].
      unfold left_to_mark. rewrite Finalizer_added, Hfin. unfold AddFinalizer. rewrite Hfin.
      split; [done|]. split; [done|]. unfold is_marked. simpl. lia. }
  apply wp_ret. cbv beta iota. cbn [Result_IsZero]. change (negb (Result_IsZero (mkResult false 0)) ||
    bool_decide (is_Some (None : option error)))%bool with false. cbv iota.
  unfold unless_done. apply wp_bind. unfold ensureVeleroRestoreStatusAnnotation. apply wp_bind, wp_get.
  fold (is_marked ci). destruct (is_marked ci) eqn:Hmark.
  2:{ apply wp_bind, wp_modify, wp_if_err. eapply wp_mono; [by apply patchCI_hub|].
      intros o s1 w1 ev (-> & -> & Hw1). apply wp_ret, wp_ret. left. split; [done|].
      eexists. split; [exact Hw1|]. split; [by apply fresh_marked|].
      unfold left_to_mark. rewrite Hfin, Hmark. split; [done|]. split; [done|].
      unfold is_marked, lookup_str, ContainsFinalizer in *. simpl. rewrite lookup_insert_eq, Hfin. simpl. lia. }
  apply wp_ret. cbv beta iota. change (negb (Result_IsZero (mkResult false 0)) ||
    bool_decide (is_Some (None : option error)))%bool with false. cbv iota.
  apply wp_bind, wp_get. rewrite Hrest. eapply wp_mono; [by apply generation_hub|].
  intros o s1 w1 ev Ha. eapply advanced_incl; [|exact Ha]. intros e He. rewrite !elem_of_app. tauto.
Qed.

Lemma Reconcile_hub ns store mem ci w :
  fresh ci -> same_source s0 ci -> stored w0 ci w ->
  wp (Reconcile ns store (CI_key ci)) (fun o _ w' ev => advanced ci o w' ev) mem w.
Proof.
  intros Hfresh Hsrc Hw. unfold Reconcile. apply wp_if_err. unfold fetchCI. apply wp_bind, wp_call. intros r w1 Hr.
  simpl in Hr. rewrite (proj1 Hw), bool_decide_true in Hr by done. injection Hr as <- <-.
  apply wp_bind, wp_modify, wp_ret. eapply wp_mono; [by apply loaded_hub|].
  intros o s1 w1 ev Ha. eapply advanced_incl; [|exact Ha]. intros e He. rewrite !elem_of_app. tauto.
Qed.
End steps.

(** Once installed, a reconcile only reads the ClusterInstance. *)
Section quiet.
Context `{FloatText} `{TemplateLib} `{MapRange} `{ResourceYaml} `{TimeText} `{SpecText}.

Definition at_rest (ci : ClusterInstance) : Prop :=
  deletion_time_is_zero ci = true /\ ClusterInstance_IsPaused ci = false /\ Status_Paused (CI_Status ci) = None
  /\ ContainsFinalizer ci clusterInstanceFinalizer = true /\ is_marked ci = true /\ isBeingRestored ci = false
  /\ Status_Reinstall (CI_Status ci) = None
  /\ Status_ObservedGeneration (CI_Status ci) = Meta_Generation (CI_Meta ci).

Lemma Reconcile_at_rest ns store mem ci (w : cluster) :
  at_rest ci -> cl_ci w = Some ci ->
  wp (Reconcile ns store (CI_key ci)) (fun o s' w' ev => o = Ret (doNotRequeue, None) /\ s' = ci /\ w' = w
    /\ ev = [Ev (GetCI (CI_key ci)) (Ok ci)]) mem w.
Proof.
  intros (Hdel & Hpause & Hpaused & Hfin & Hmark & Hrest & Hrs & Hobs) Hci.
  unfold Reconcile. apply wp_if_err. unfold fetchCI. apply wp_bind, wp_call. intros r w1 Hr.
  simpl in Hr. rewrite Hci, bool_decide_true in Hr by done. injection Hr as <- <-.
  apply wp_bind, wp_modify, wp_ret. unfold reconcile_loaded. apply wp_bind, wp_get. rewrite Hpause, Hpaused.
  unfold unless_done at 1. apply wp_bind. unfold handleFinalizer. apply wp_bind, wp_get. rewrite Hdel.
  unfold ensureFinalizer. apply wp_bind, wp_get. rewrite Hfin. apply wp_ret. cbv beta iota.
  change (negb (Result_IsZero (mkResult false 0)) || bool_decide (is_Some (None : option error)))%bool with false. cbv iota.
  unfold unless_done. apply wp_bind. unfold ensureVeleroRestoreStatusAnnotation. apply wp_bind, wp_get.
  fold (is_marked ci). rewrite Hmark. apply wp_ret. cbv beta iota.
  change (negb (Result_IsZero (mkResult false 0)) || bool_decide (is_Some (None : option error)))%bool with false. cbv iota.
  apply wp_bind, wp_get. rewrite Hrest. unfold reconcile_running. apply wp_bind, wp_get. rewrite Hrs.
  apply wp_bind, wp_ret. cbv beta iota. apply wp_bind, wp_get. rewrite Hobs, Z.eqb_refl. by apply wp_ret.
Qed.

Lemma observed_at_rest ci c s :
  kept ci s -> fresh ci -> installed ci c (observed s) -> is_marked ci = true -> at_rest (observed s).
Proof.
  intros Hk Hfresh (_ & _ & _ & Hfin & _) Hmark. change (ContainsFinalizer s clusterInstanceFinalizer = true) in Hfin.
  revert Hk Hfresh Hfin Hmark. intros (Hspec & Hmeta & _ & Hrs & Hpd) (Hdel & Hpause & Hpaused & Hrest & _ & Hre & _) Hfin Hmark.
  unfold at_rest, observed. generalize (Marshal (marshal_Spec (CI_Spec s))) as text. intros text.
  unfold deletion_time_is_zero, ClusterInstance_IsPaused, isBeingRestored, is_marked, lookup_str,
    ContainsFinalizer, SetMetaDataAnnotation in *. rewrite Hmeta in Hfin. simpl. rewrite Hmeta, Hpd, Hrs, !lookup_insert_ne by done.
  by split_and!.
Qed.
End quiet.

(** ** The property *)

Section property.
Context `{FloatText} `{TemplateLib} `{MapRange} `{ResourceYaml} `{TimeText} `{SpecText}.

(** A new ClusterInstance that the hub stores: it passes validation there, its templates are there and
    render to [objects]. *)
Definition installable (ci : ClusterInstance) (w : cluster) (objects : RenderedObjectCollection) : Prop :=
  fresh ci /\ cl_ci w = Some ci
  /\ run_out (Validate ci ci w) = Ret None
  /\ (forall ref, ref ∈ template_refs ci -> is_Some (data_of "ConfigMap" (ref_key ref) w))
  /\ run_out (ProcessTemplates ci ci w) = Ret (objects, None).

(** What a run of [Reconcile] has done when it is the last one. *)
Definition installs (podNamespace : string) (store : Configuration) (mem ci : ClusterInstance)
    (objects : RenderedObjectCollection) (w : cluster) : Prop :=
  let run := Reconcile podNamespace store (CI_key ci) mem w in
  run_out run = Ret (doNotRequeue, None) /\ apply_all false (GetRenderObjects objects) (run_evs run)
  /\ exists ci', cl_ci (run_world run) = Some ci' /\ installed ci objects ci'
     /\ forall mem' w', cl_ci w' = Some ci' ->
          let again := Reconcile podNamespace store (CI_key ci) mem' w' in
          run_out again = Ret (doNotRequeue, None) /\ run_evs again = [Ev (GetCI (CI_key ci)) (Ok ci')].

Lemma left_to_mark_bound ci : left_to_mark ci <= 2.
Proof. unfold left_to_mark. destruct (ContainsFinalizer _ _), (is_marked ci); lia. Qed.

Lemma rounds_install ns store mem s0 w0 c n env ci w :
  run_out (Validate s0 s0 w0) = Ret None -> run_out (ProcessTemplates s0 s0 w0) = Ret (c, None) ->
  (forall ref, ref ∈ template_refs s0 -> is_Some (data_of "ConfigMap" (ref_key ref) w0)) ->
  fresh ci -> same_source s0 ci -> stored w0 ci w -> (forall i w, unchanged w (env i w)) -> left_to_mark ci <= n ->
  let before k := before_round ns store (CI_key ci) mem env k w in
  exists k, k <= n
    /\ (forall i, i < k -> run_out (Reconcile ns store (CI_key ci) mem (before i)) = Ret (mkResult true 0, None))
    /\ installs ns store mem ci c (before k).
Proof.
  intros Hval Hren Hrefs. revert env ci w. induction n as [|n IH]; intros env ci w Hfresh Hsrc Hw Henv Hn before;
    destruct (Reconcile_hub w0 s0 c Hval Hren Hrefs ns store mem ci w Hfresh Hsrc Hw)
      as [(Hout & ci' & Hw' & Hfresh' & Hsrc' & Hgen & Hless)|(Hout & Happ & s1 & Hk & [Hci' Hd] & Hinst & Hmark)].
  all: try lia.
  2: { destruct (IH (fun i => env (S i)) ci' (env 0 (run_world (Reconcile ns store (CI_key ci) mem w))))
         as (k & Hk & Hall & Hout' & Happ & ci2 & Hci2 & Hinst & Hquiet).
       - done.
       - destruct Hsrc, Hsrc'. split; congruence.
       - destruct Hw' as [H1' H2'], (Henv 0 (run_world (Reconcile ns store (CI_key ci) mem w))) as [H3' H4'].
         split; [congruence|by etransitivity].
       - intros i. apply Henv.
       - lia.
       - destruct Hsrc' as [Hspec Hkey]. rewrite Hkey in *. exists (S k). split; [lia|]. split.
         + intros [|i] Hi; [done|]. apply Hall. lia.
         + split; [done|]. split; [done|]. exists ci2. split; [done|]. split; [|done].
           destruct Hinst as (? & ? & ? & ? & ? & ?). split_and!; try done; congruence. }
  all: exists 0; split; [lia|]; split; [intros; lia|].
  all: split; [exact Hout|]; split; [exact Happ|]; exists (observed s1); split; [exact Hci'|]; split; [exact Hinst|].
  all: intros mem' w' Hw'; assert (Hkey : CI_key ci = CI_key (observed s1)) by (destruct Hk as (_ & Hm & _);
    exact (eq_sym (f_equal (fun m => mkObjectKey (Meta_Namespace m) (Meta_Name m)) Hm))).
  all: rewrite Hkey; destruct (Reconcile_at_rest ns store mem' (observed s1) w') as (H1' & _ & _ & H4'); [|done|by split].
  all: exact (observed_at_rest ci c s1 Hk Hfresh Hinst Hmark).
Qed.
End property.

Section theorem.
Context `{FloatText} `{TemplateLib} `{MapRange} `{ResourceYaml} `{TimeText} `{SpecText}.

(** C4: A ClusterInstance gets installed. On a hub where it passes validation and its templates render,
    the manifests are applied after at most two earlier reconciles, which record the finalizer and
    the annotation for Velero and ask to be called again; meanwhile the rest of the hub may change as
    long as the data of its resources stay. The last reconcile ends without an error, and every manifest to
    render has been applied; the ClusterInstance that is stored then has the finalizer, tracks each of
    these manifests as rendered, says that they are applied and that its generation is observed, and
    any later reconcile of it reads it and does nothing else. *)
Theorem installation_completes podNamespace store mem (env : nat -> cluster -> cluster) ci w objects :
  let before k := before_round podNamespace store (CI_key ci) mem env k w in
  installable ci w objects -> (forall i w, unchanged w (env i w)) ->
  exists k, k <= 2
    /\ (forall i, i < k ->
          run_out (Reconcile podNamespace store (CI_key ci) mem (before i)) = Ret (mkResult true 0, None))
    /\ installs podNamespace store mem ci objects (before k).
Proof.
  intros before (Hfresh & Hci & Hval & Hrefs & Hren) Henv. subst before.
  apply (rounds_install podNamespace store mem ci w objects 2 env ci w Hval Hren Hrefs Hfresh);
    [by split|by split|exact Henv|apply left_to_mark_bound].
Qed.
End theorem.

(** ** Example *)

#[local] Existing Instance same_float.
#[local] Existing Instance no_yaml.
#[local] Existing Instance fixed_time.
#[local] Existing Instance no_spec_text.
#[local] Existing Instance sample_templates.

(** [sno] as a user creates it; its templates are not those of the operator's namespace and have no
    labels yet, so they get the backup label. *)
Definition new_sno : ClusterInstance :=
  sno <| CI_Spec ::= fun s => s <| Spec_InstallConfigOverrides := "" |> |>
      <| CI_Status ::= fun s => s <| Status_ObservedGeneration := 0%Z |> |>.

Definition unlabelled (name key : string) : Resource :=
  mkResource "ConfigMap" "siteconfig-operator" name None ∅ "1" "" 0 [] "" None {[key := "text"]}.

Definition new_hub : cluster :=
  mkCluster 100 (Some new_sno) []
    [unlabelled "ai-cluster-templates-v1" "cluster-cm"; unlabelled "ai-node-templates-v1" "node-cm";
     secret "pull-secret"; secret "bmc-secret"] [] [] ["openshift-v4.18.0"].

(** Time passes between the reconciles. *)
Definition tick (w : cluster) : cluster :=
  mkCluster (cl_now w + Minute) (cl_ci w) (cl_objects w) (cl_resources w) (cl_deployments w) (cl_managed w)
    (cl_imagesets w).

Definition new_objects : RenderedObjectCollection :=
  match run_out (ProcessTemplates new_sno new_sno new_hub) with
  | Ret (c, _) => c
  | Panic _ => emptyCollection
  end.

Lemma new_installable : installable new_sno new_hub new_objects.
Proof.
  split_and!; [by vm_compute|done|by vm_compute| |by vm_compute].
  intros ref [->|[->|[]%not_elem_of_nil]%elem_of_cons]%elem_of_cons; eexists; vm_compute; reflexivity.
Qed.

(** Three reconciles: the finalizer, the annotation, and the manifests. *)
Example installation_runs :
  let before k := before_round "siteconfig-operator-2" store sno_key sno (fun _ => tick) k new_hub in
  let run k := Reconcile "siteconfig-operator-2" store sno_key sno (before k) in
  List.map (fun k => run_out (run k)) [0; 1; 2; 3]
    = [Ret (mkResult true 0, None); Ret (mkResult true 0, None); Ret (doNotRequeue, None); Ret (doNotRequeue, None)]
  /\ applied_names (run_evs (run 2)) = [JStr "cluster-cm"; JStr "node-cm"]
  /\ List.map Res_Labels (cl_resources (before 3)) =
       [Some {[acmBackupLabel := ""]}; Some {[acmBackupLabel := ""]}; None; None]
  /\ length (run_evs (run 3)) = 1.
Proof. split_and!; vm_compute; reflexivity. Qed.

Lemma installation_completes_witness :
  GetRenderObjects new_objects <> []
  /\ exists k, k <= 2 /\ installs "siteconfig-operator-2" store sno new_sno new_objects
       (before_round "siteconfig-operator-2" store (CI_key new_sno) sno (fun _ => tick) k new_hub).
Proof.
  split; [by vm_compute|].
  destruct (installation_completes "siteconfig-operator-2" store sno (fun _ => tick) new_sno new_hub new_objects
    new_installable (fun _ w => conj (conj eq_refl (fun _ _ => eq_refl)) eq_refl)) as (k & Hk & _ & Hinst).
  exists k. exact (conj Hk Hinst).
Defined.
