(* ===== verification/Startup.v ===== *)
(** * What the operator does once at start (cmd/main.go)

    The ConfigMaps with the default installation templates are replaced, then the configuration is
    read, or created; the controllers and webhooks are registered after that. *)
From S2P Require Import Prelude GoStd Types Errors K8s Cluster Retry GoTemplate.
From S2P Require Import DefaultTemplates Configuration Controller.

(* src: src/vendor/sigs.k8s.io/controller-runtime/pkg/client/interfaces.go 221-229 IgnoreAlreadyExists *)
Definition IgnoreAlreadyExists (err : option error) : option error :=
  match err with
  | Some e => if IsAlreadyExists e then None else err
  | None => None
  end.

Section startup.
Context {W : Type} `{Server W} `{MapRange}.

Abbreviation M := (Prog Configuration W Event).

(** [c.Create(ctx, configMap)] *)
Definition createResource_call (r : Resource) : M (option error) :=
  r ← call (CreateResource r);
  mret (match r with Ok _ => None | Err err => Some err end).

(* src: src/cmd/main.go 327-343 deleteConfigMap *)
Definition deleteConfigMap (namespace name : string) : M (option error) :=
  let key := mkObjectKey namespace name in
  r ← call (GetResource "ConfigMap" key);
  match r with
  | Err _ => mret None
  | Ok cm =>
      if_err (RetryOnConflictOrRetriable DefaultBackoff
          (err ← call (DeleteResource (Res_Kind cm) (Res_key cm));
           mret (match IgnoreAlreadyExists err with
                 | Some err => Some (Errorf "failed to delete ConfigMap %s/%s: %w"
                                [FStr namespace; FStr name; FErr err])
                 | None => None
                 end)))
        (fun err => mret (Some (Errorf "failed to delete ConfigMap %s/%s, error: %w"
           [FStr namespace; FStr name; FErr err])))
        (mret None)
  end.

Definition template_config_map (namespace name : string) (data : smap) : Resource :=
  mkResource "ConfigMap" namespace name None ∅ "" "" 0 [] "" (Some true) data.

(** The body of the loop. *)
(* src: src/cmd/main.go 356-384 initConfigMapTemplates *)
Definition initTemplate (namespace : string) (kv : string * smap) : M (option error) :=
  let '(k, v) := kv in
  if_err (deleteConfigMap namespace k)
    (fun err => mret (Some (Errorf
       "failed to delete default reference installation template ConfigMap %s/%s, error: %w"
       [FStr namespace; FStr k; FErr err])))
    (if_err (RetryOnConflictOrRetriable DefaultBackoff
         (err ← createResource_call (template_config_map namespace k v);
          mret (match IgnoreAlreadyExists err with
                | Some err => Some (Errorf "failed to create ConfigMap: %w" [FErr err])
                | None => None
                end)))
       (fun err => mret (Some (Errorf
          "failed to create default reference installation template ConfigMap %s/%s, error: %w"
          [FStr namespace; FStr k; FErr err])))
       (mret None)).

(** The sets with their texts. *)
Definition default_template_sets : list (string * smap) :=
  List.map (fun set => (set.1, list_to_map set.2)) install_templates.

(** [order]: how [range] visits the map of the sets. *)
(* src: src/cmd/main.go 347-387 initConfigMapTemplates *)
Definition initConfigMapTemplates (namespace : string) (order : list (string * smap))
    : M (option error) :=
  for_errors order (initTemplate namespace).

(** The environment variable [POD_NAMESPACE], empty when it is not set. *)
(* src: src/cmd/main.go 314-323 getSiteConfigNamespace *)
Definition getSiteConfigNamespace (POD_NAMESPACE : string) : string := POD_NAMESPACE.

(** From the manager's creation to the registration of the controllers. *)
(* src: src/cmd/main.go 210-231 run *)
Definition prepare (POD_NAMESPACE : string) (order : list (string * smap)) : M (result Configuration) :=
  let siteConfigNamespace := getSiteConfigNamespace POD_NAMESPACE in
  if String.eqb siteConfigNamespace "" then
    mret (Err (Errorf "unable to retrieve the SiteConfig Operator namespace" []))
  else
    if_err (initConfigMapTemplates siteConfigNamespace order)
      (fun err => mret (Err (Errorf
         "unable to initialize the default reference installation template ConfigMaps: %w" [FErr err])))
      (r ← createConfigurationStore siteConfigNamespace;
       mret (match r with
             | Err err => Err (Errorf
                 "failed to initialize the ConfigurationStore for the SiteConfig Operator: %w" [FErr err])
             | Ok sharedConfigStore => Ok sharedConfigStore
             end)).

(** ** What a start that succeeds has done *)

(** [Create] was answered that the object is there. *)
Definition installed (r : Resource) (e : Event) : Prop :=
  exists answer, e = Ev (CreateResource r) answer
    /\ match answer with Ok _ => True | Err err => IsAlreadyExists err = true end.

(** A program that returns no error has made a call with the property. *)
Definition ensures {X} (P : Event -> Prop) (m : M (option X)) : Prop :=
  forall s w, wp m (fun o _ _ ev => o = Ret None -> Exists P ev) s w.

Lemma ensures_call {X} {R} (P : Event -> Prop) (c : ApiCall R) (f : R -> option X) :
  (forall r, f r = None -> P (Ev c r)) -> ensures P (r ← call c; mret (f r)).
Proof.
  intros HP s w. apply wp_bind, wp_call. intros r w' _. apply wp_ret. intros [= Hr].
  constructor. by apply HP.
Qed.

Lemma ensures_map {X Y} P (m : M (option X)) (f : option X -> option Y) :
  (forall r, f r = None -> r = None) -> ensures P m -> ensures P (r ← m; mret (f r)).
Proof.
  intros Hf Hm s w. apply wp_bind. eapply wp_mono; [apply Hm|]. intros [r|msg] s' w' ev Hev; [|done].
  apply wp_ret. intros [= Hr%Hf]. subst r. rewrite app_nil_r. auto.
Qed.

Lemma ensures_if_err {X Y} P (m : M (option X)) (h : X -> Y) (k : M (option Y)) :
  ensures P m \/ ensures P k -> ensures P (if_err m (fun err => mret (Some (h err))) k).
Proof.
  intros Hor s w. apply wp_if_err. destruct Hor as [Hm|Hk].
  - eapply wp_mono; [apply Hm|]. intros [[err|]|msg] s' w' ev Hev; [by apply wp_ret| |done].
    eapply (wp_mono _ (fun _ _ _ _ => True)); [done|]. intros o s'' w'' ev' _ _.
    apply Exists_app. left. by apply Hev.
  - eapply (wp_mono _ (fun _ _ _ _ => True)); [done|].
    intros [[err|]|msg] s' w' ev _; [by apply wp_ret| |done].
    eapply wp_mono; [apply Hk|]. intros o s'' w'' ev' Hev Ho. apply Exists_app. right. by apply Hev.
Qed.

Lemma ensures_OnError P n f (fn : M (option error)) lastErr :
  ensures P fn -> n <> 0 \/ lastErr <> None -> ensures P (OnError n f fn lastErr).
Proof.
  intros Hfn. revert lastErr. induction n as [|n IH]; intros lastErr Hn s w; cbn [OnError].
  { apply wp_ret. intros [= ->]. by destruct Hn. }
  apply wp_bind. eapply wp_mono; [apply Hfn|]. intros [[err|]|msg] s' w' ev Hev; [| |done].
  - destruct (f err); [|by apply wp_ret].
    eapply wp_mono; [apply IH; by right|]. intros o s'' w'' ev' Hev' Ho. apply Exists_app. right. auto.
  - apply wp_ret. intros _. rewrite app_nil_r. auto.
Qed.

Lemma ensures_for_errors {X A} (P : A -> Event -> Prop) (l : list A) (f : A -> M (option X)) s w :
  (forall x, ensures (P x) (f x)) ->
  wp (for_errors l f) (fun o _ _ ev => o = Ret None -> forall x, x ∈ l -> Exists (P x) ev) s w.
Proof.
  intros Hf. apply (wp_for_errors l f (fun done _ _ ev => forall x, x ∈ done -> Exists (P x) ev)).
  - by intros x ?%elem_of_nil.
  - intros done x rest s' w' ev _ HI. eapply wp_mono; [apply Hf|]. intros [[err|]|msg] s'' w'' ev' Hev; try done.
    intros y [Hy| ->%list_elem_of_singleton]%elem_of_app; apply Exists_app; [left|right]; auto.
  - intros s' w' ev HI _. exact HI.
Qed.

Lemma initTemplate_ensures namespace kv :
  ensures (installed (template_config_map namespace kv.1 kv.2)) (initTemplate namespace kv).
Proof.
  destruct kv as [k v]. apply ensures_if_err. right. apply ensures_if_err. left.
  unfold RetryOnConflictOrRetriable. apply ensures_OnError; [|by left].
  intros s w. unfold createResource_call. apply wp_bind, wp_bind, wp_call. intros r w' _.
  apply wp_ret, wp_ret. cbn [fst snd]. intros [= Hr]. constructor. exists r. split; [done|].
  destruct r as [res|err]; [done|]. unfold IgnoreAlreadyExists in Hr.
  by destruct (IsAlreadyExists err).
Qed.

Definition default_configuration_map (namespace : string) : Resource :=
  mkResource "ConfigMap" namespace SiteConfigOperatorConfigMap None ∅ "" "" 0 [] "" None
    (ToMap NewDefaultConfiguration).

(** What a start may change: it creates a default set or the default configuration, or deletes
    what it has read under the name of a default set. *)
Definition start_call (namespace : string) (sets : list (string * smap)) (pre : list Event) (e : Event) : Prop :=
  mutating e = true ->
  (exists kv r, kv ∈ sets /\ e = Ev (CreateResource (template_config_map namespace kv.1 kv.2)) r)
  \/ (exists kv cm r, kv ∈ sets
        /\ Ev (GetResource "ConfigMap" (mkObjectKey namespace kv.1)) (Ok cm) ∈ pre
        /\ e = Ev (DeleteResource (Res_Kind cm) (Res_key cm)) r)
  \/ exists r, e = Ev (CreateResource (default_configuration_map namespace)) r.

Lemma wp_OnError_each {S} P pre n f (fn : Prog S W Event (option error)) lastErr s w :
  (forall ev s w, wp fn (fun _ _ _ ev' => each_event P (pre ++ ev) ev') s w) ->
  wp (OnError n f fn lastErr) (fun _ _ _ ev => each_event P pre ev) s w.
Proof.
  intros Hfn. rewrite <- (app_nil_r pre). generalize (@nil Event). revert lastErr s w.
  induction n as [|n IH]; intros lastErr s w ev0; cbn [OnError]; [done|].
  apply wp_bind. eapply wp_mono; [apply Hfn|]. intros [[err|]|msg] s' w' ev Hev; [| |done].
  - destruct (f err); [|apply wp_ret; by rewrite app_nil_r].
    eapply wp_mono; [apply (IH _ _ _ (ev0 ++ ev))|]. intros o s'' w'' ev' Hev'.
    apply each_event_app. by rewrite <- app_assoc.
  - apply wp_ret. by rewrite app_nil_r.
Qed.

Lemma deleteConfigMap_steps namespace sets kv :
  kv ∈ sets -> steps (start_call namespace sets) (deleteConfigMap namespace kv.1).
Proof.
  intros Hkv pre s w. apply wp_bind, wp_call. intros [cm|err] w' _; [|by apply wp_ret].
  apply wp_bind. eapply wp_mono.
  { apply (wp_OnError_each (start_call namespace sets)
      (pre ++ [Ev (GetResource "ConfigMap" (mkObjectKey namespace kv.1)) (Ok cm)])).
    intros ev s1 w1. apply wp_bind, wp_call. intros r w2 _. apply wp_ret. split; [|done].
    intros _. right. left. exists kv, cm, r. split_and!; [done| |done]. set_solver. }
  intros [[err|]|msg] s' w2 ev Hev; apply wp_ret || idtac; cbn; (split; [done|]); by rewrite ?app_nil_r.
Qed.

Lemma initTemplate_steps namespace sets kv :
  kv ∈ sets -> steps (start_call namespace sets) (initTemplate namespace kv).
Proof.
  intros Hkv. destruct kv as [k v]. apply steps_if_err;
    [by apply (deleteConfigMap_steps _ _ (k, v))|intros err; steps_go|].
  apply steps_if_err; [|intros err; steps_go|steps_go]. intros pre s w. apply wp_OnError_each.
  intros ev s1 w1. apply wp_bind, wp_bind, wp_call. intros r w2 _. apply wp_ret, wp_ret. cbn.
  split; [|done]. intros _. left. by exists (k, v), r.
Qed.

Lemma initConfigMapTemplates_spec namespace order s w :
  order ≡ₚ default_template_sets ->
  wp (initConfigMapTemplates namespace order) (fun o _ _ ev =>
    (o = Ret None -> forall name texts, (name, texts) ∈ default_template_sets ->
       Exists (installed (template_config_map namespace name texts)) ev)
    /\ each_event (start_call namespace default_template_sets) [] ev) s w.
Proof.
  intros Horder. apply wp_and.
  - eapply wp_mono; [apply (ensures_for_errors (fun kv =>
      installed (template_config_map namespace kv.1 kv.2))); intros kv; apply initTemplate_ensures|].
    intros o s' w' ev Hev Ho name texts Hin. apply (Hev Ho (name, texts)). by rewrite Horder.
  - apply (steps_for_errors (start_call namespace default_template_sets)). intros kv Hkv.
    apply initTemplate_steps. by rewrite <- Horder.
Qed.

(** The configuration's data, when there is no error, has been read or has been created. *)
(** The configuration's data has been read or has been created. *)
Definition data_from (namespace : string) (data : smap) (ev : list Event) : Prop :=
  (exists cm, Ev (GetResource "ConfigMap" (mkObjectKey namespace SiteConfigOperatorConfigMap)) (Ok cm) ∈ ev
     /\ Res_Data cm = data)
  \/ (data = ToMap NewDefaultConfiguration
      /\ exists cm, Ev (CreateResource (default_configuration_map namespace)) (Ok cm) ∈ ev).

Lemma data_from_app namespace data ev ev' : data_from namespace data ev' -> data_from namespace data (ev ++ ev').
Proof. unfold data_from. set_solver. Qed.

Lemma initializeConfiguration_spec namespace n data0 lastErr sets pre s w :
  n <> 0 \/ lastErr <> None ->
  wp (initializeConfiguration_attempts n namespace data0 lastErr) (fun o _ _ ev =>
    each_event (start_call namespace sets) pre ev
    /\ forall data, o = Ret (data, None) -> data_from namespace data ev) s w.
Proof.
  revert data0 lastErr pre w. induction n as [|n IH]; intros data0 lastErr pre w Hn; cbn [initializeConfiguration_attempts].
  { apply wp_ret. split; [done|]. intros data [= _ ->]. by destruct Hn. }
  assert (Hretry : forall err' pre1 ev1 w1, each_event (start_call namespace sets) pre ev1 -> pre1 = pre ++ ev1 ->
    wp (if isConflictOrRetriable err'
      then initializeConfiguration_attempts n namespace ∅ (Some err') else mret (∅, Some err'))
    (fun o _ _ ev => each_event (start_call namespace sets) pre (ev1 ++ ev)
      /\ forall data, o = Ret (data, None) -> data_from namespace data (ev1 ++ ev)) s w1).
  { intros err' pre1 ev1 w1 Hev1 ->. destruct (isConflictOrRetriable err').
    - eapply wp_mono; [apply (IH _ _ (pre ++ ev1)); by right|]. intros o s' w' ev [Hev Hd].
      split; [by apply each_event_app|]. intros data Ho. by apply data_from_app, Hd.
    - apply wp_ret. rewrite app_nil_r. by split. }
  apply wp_bind, wp_bind, wp_call. intros r w1 _. apply wp_ret. cbn [app]. set (get := Ev _ r).
  assert (Hget : each_event (start_call namespace sets) pre [get]) by (split; [by intros [=]|done]).
  destruct r as [cm|err].
  - apply wp_ret. split; [done|]. intros data [= <-]. left. exists cm. split; [|done]. apply list_elem_of_here.
  - destruct (IsNotFound _) eqn:Hnf; [|by apply (Hretry _ (pre ++ [get]) [get])].
    apply wp_if_err. unfold CreateDefaultConfigurationConfigMap. apply wp_bind, wp_call. intros r w2 _.
    set (create := Ev _ r). assert (Hcreate : each_event (start_call namespace sets) pre ([get] ++ [create])).
    { apply each_event_app. split; [done|]. split; [|done]. intros _. right. right. by exists r. }
    destruct r as [cm|err']; apply wp_ret.
    + apply wp_ret. split; [exact Hcreate|]. intros data [= <-]. right. split; [done|]. exists cm.
      apply list_elem_of_further, list_elem_of_here.
    + cbn [app]. by apply (Hretry _ (pre ++ [get; create]) [get; create]).
Qed.
(** The store is what the configuration's ConfigMap says, or what the one that has just been
    created says. *)
Definition configured_from (namespace : string) (store : Configuration) (ev : list Event) : Prop :=
  exists data, FromMap zeroConfiguration (range_map data) = (store, None) /\ data <> ∅
    /\ data_from namespace data ev.

Lemma createConfigurationStore_spec namespace sets pre s w :
  wp (createConfigurationStore namespace) (fun o _ _ ev =>
    each_event (start_call namespace sets) pre ev
    /\ forall store, o = Ret (Ok store) -> configured_from namespace store ev) s w.
Proof.
  unfold createConfigurationStore, initializeConfiguration. apply wp_bind.
  eapply wp_mono; [apply (initializeConfiguration_spec namespace _ _ _ sets pre); by left|].
  intros [[data err]|msg] s' w' ev [Hev Hd]; [|by split]. destruct err as [err|]; [apply wp_ret; by rewrite app_nil_r|].
  case_bool_decide as Hne; [apply wp_ret; by rewrite app_nil_r|].
  destruct (FromMap zeroConfiguration (range_map data)) as [config [err|]] eqn:Hf; apply wp_ret;
    rewrite app_nil_r; (split; [done|]); [done|].
  intros store [= <-]. exists data. split; [done|]. split; [done|]. by apply Hd.
Qed.

(** C20: whatever the server answers and in whatever order the sets are visited, a start that
    succeeds has a namespace and has, for every default set of installation templates, sent the
    create of the immutable ConfigMap of that name with exactly the texts of the repository, and
    the server has answered that it is created or that a ConfigMap of the name exists; the
    configuration store it hands out is what the configuration's ConfigMap of that namespace says,
    which is not empty, or what the default one says that it has just created. Every change that
    the start makes, successful or not, is the creation of one of these ConfigMaps or the deletion
    of one that it has read under the name of a default set. *)
Theorem prepare_ready POD_NAMESPACE order s w :
  order ≡ₚ default_template_sets ->
  wp (prepare POD_NAMESPACE order) (fun o _ _ ev =>
    (forall store, o = Ret (Ok store) ->
       POD_NAMESPACE <> ""
       /\ (forall name texts, (name, texts) ∈ default_template_sets ->
            Exists (installed (template_config_map POD_NAMESPACE name texts)) ev)
       /\ configured_from POD_NAMESPACE store ev)
    /\ each_event (start_call POD_NAMESPACE default_template_sets) [] ev) s w.
Proof.
  intros Horder. unfold prepare, getSiteConfigNamespace.
  destruct (String.eqb_spec POD_NAMESPACE "") as [|Hns]; [by apply wp_ret|].
  apply wp_if_err. eapply wp_mono; [by apply initConfigMapTemplates_spec|].
  intros [[err|]|msg] s1 w1 ev1 [Hin Hev1]; [apply wp_ret; by rewrite app_nil_r| |by split].
  apply wp_bind. eapply wp_mono; [apply (createConfigurationStore_spec _ default_template_sets ev1)|].
  intros [r|msg] s2 w2 ev2 [Hev2 Hstore]; [apply wp_ret|]; rewrite ?app_nil_r;
    (split; [|by apply each_event_app]); [|done].
  intros store Ho. destruct r as [config|err]; [|done]. injection Ho as ->. split; [done|]. split.
  - intros name texts Hnt. apply Exists_app. left. by apply Hin.
  - destruct (Hstore store eq_refl) as (data & Hf & Hd & Hfrom). exists data. split; [done|]. split; [done|].
    by apply data_from_app.
Qed.
End startup.

Lemma prepare_ready_witness :
  let m := prepare "siteconfig-operator" default_template_sets zeroConfiguration (empty_cluster 0) in
  exists store, run_out m = Ret (Ok store) /\ allowReinstalls store = false
    /\ (forall name texts, (name, texts) ∈ default_template_sets ->
          Exists (installed (template_config_map "siteconfig-operator" name texts)) (run_evs m))
    /\ configured_from "siteconfig-operator" store (run_evs m).
Proof.
  set (m := prepare "siteconfig-operator" default_template_sets zeroConfiguration (empty_cluster 0)).
  assert (Hout : run_out m = Ret (Ok (mkConfiguration false 1))) by (vm_compute; reflexivity).
  exists (mkConfiguration false 1). split; [exact Hout|]. split; [reflexivity|].
  exact (proj2 (proj1 (prepare_ready "siteconfig-operator" default_template_sets zeroConfiguration
    (empty_cluster 0) (reflexivity _)) _ Hout)).
Defined.

(** ** A read that fails for a moment *)

Definition timed_out : error := StatusErr "Timeout" 504 "request timed out".
Definition already_exists : error := StatusErr StatusReasonAlreadyExists 409 "already exists".

(** A cluster whose reads of ConfigMaps time out, and which refuses to create what exists. *)
Definition flaky_serve {R} (c : ApiCall R) : cluster -> R * cluster :=
  match c in ApiCall R return cluster -> R * cluster with
  | GetResource _ _ => fun w => (Err timed_out, w)
  | CreateResource r => fun w =>
      match find_resource (Res_Kind r) (Res_key r) w with
      | Ok _ => (Err already_exists, w)
      | Err _ => cluster_serve (CreateResource r) w
      end
  | c => cluster_serve c
  end.

Definition flaky_server : Server cluster := {|
  serve := fun R c w => flaky_serve c w;
  clock := fun w => (cl_now w, w)
|}.

(** [deleteConfigMap] takes every error of its read for the absence of the ConfigMap, and the
    create that follows ignores that the ConfigMap exists; so after a read that fails for a moment
    the start succeeds and the templates of an earlier version stay in use. *)
Theorem stale_templates_kept :
  let old := template_config_map "siteconfig-operator" ai_ClusterLevelInstallTemplates
               {["ClusterDeployment" := "an earlier version"]} in
  let r := @initConfigMapTemplates cluster flaky_server "siteconfig-operator" default_template_sets
             zeroConfiguration (with_resources [old] (empty_cluster 0)) in
  run_out r = Ret None
  /\ find_resource "ConfigMap" (Res_key old) (run_world r) = Ok old
  /\ Res_Data old !! "ManagedCluster" = None
  /\ (assoc ai_ClusterLevelInstallTemplates default_template_sets ≫= lookup "ManagedCluster")
     = Some ai_ManagedCluster.
Proof. cbv zeta. split_and!. all: vm_compute; reflexivity. Qed.
